(* ===== verification/_CoqProject ===== *)
-Q . S2P
Prelude.v
Structs.v
Checksum.v
Ring.v
Cbuf.v
FastPipe.v
LinkedList.v
HashList.v
Wait.v
Route.v
Pkb.v
ArpCache.v
Sock.v
TcpTable.v
UdpPorts.v
TcpPorts.v
TcpLookup.v
Stack.v
Arp.v
IpOut.v
Icmp.v
IpFrag.v
Own.v
SafeNet.v
SafeIp.v
Wire.v
SafeFrag.v
Raw.v
Keeps.v
TcpOut.v
TcpText.v
TcpState.v
TcpWindow.v
SafeTcp.v
TcpSock.v
TcpStream.v
Udp.v
IpIn.v
NetIn.v
SafeIn.v
Sample.v
FragOut.v
Dpdk.v
Fragments.v
TcpSend.v
ArpWire.v
Socket.v
UdpDeliver.v
TcpMachine.v
System.v
Safety.v
Lib.v
Tap.v
NetCommand.v
DpdkInit.v
Shell.v
Report.v
ShellThreads.v
Main.v
Ping.v
Apps.v
Faults.v
