(* ===== verification/Prelude.v ===== *)
(** * tapip: a verification of a user-level TCP/IP stack

    tapip is a TCP/IP stack that runs as a user process: it reads and writes ether
    frames through a tap device, a packet socket or shared memory, and offers its
    own socket calls to programs linked with it.  This library models the stack
    from the link layer to the socket calls as Rocq functions, translated from the C
    sources under src/, and proves what makes the parts correct.

    ** The program and its model

    Received frames go up: a device thread allocates a packet buffer (net/veth.c,
    net/shmeth_netdev.c), net_in (net/net.c) sorts it by type, ARP and IP handle it,
    IP reassembles fragments, forwards packets for others and hands its own to ICMP,
    raw sockets, UDP or TCP.  Packets go down through ip_send_out, which looks up the
    route, fragments, asks ARP for the hardware address (packets wait in the ARP
    cache for the reply) and ends in netdev_tx.  A packet for the host itself goes
    through the loopback device, which calls net_in again from inside the sender:
    this re-entry is modelled ([Reentry] in file Stack, tied up in NetIn).

    Code is modelled as computations over an explicit state, [comp S A]: the result
    is a value and the new state, a fault, or "out of fuel".  A fault stands for what
    C leaves undefined or what stops the process: a NULL dereference, a use after
    free, an access out of bounds, a failed assertion, exit().  Packet buffers,
    socks and sockets are heap objects under addresses, with their reference counts:
    aliasing, double frees and leaks are visible.  Integers are in [Z] with the
    wrap-around of their width written out.  Structs overlaid on packet data are
    decoded from and encoded to bytes, little endian as on the machines the code is
    for.

    - Prelude: this file; integers, byte strings, computations, [wp] and [twp].
    - Structs: include/netif.h (byte order), ether.h, arp.h, ip.h, icmp.h, udp.h,
      tcp.h: the packed headers, class [Struct] with its laws [StructOk].
    - Checksum: lib/checksum.c.
    - Ring, Cbuf, FastPipe: the circular buffers of lib/cbuf.c and net/fast_pipe.c
      with net/shm_eth.c, and the theory they share.
    - LinkedList, HashList: the two kinds of lists of include/list.h over a heap of
      nodes.  The other files keep lists and hash chains as Rocq lists, which these files
      justify.
    - Wait: include/wait.h, threads and the condition variable as a step relation.
    - Route, ArpCache: ip/route.c; the cache of arp/arp_cache.c.
    - Pkb: net/pkb.c over a heap of buffers; class [HasMem] lets the operations run
      in any state that contains such a heap.
    - Sock, TcpTable: the data of sockets, socks and TCP connections, socket/sock.c,
      the port tables of udp/udp_sock.c and tcp/tcp_sock.c, include/tcp_hash.h.
    - Stack: the state of the whole stack; net/netdev.c, net/loop.c and the transmit
      functions of the devices.
    - Arp, IpOut, Icmp, IpFrag, Raw, Udp, IpIn, NetIn: arp/arp.c, ip/ip_out.c,
      ip/icmp.c, ip/ip_frag.c, ip/raw.c and socket/raw_sock.c, udp/udp.c and
      udp/udp_sock.c, ip/ip_in.c and ip/ip_forward.c, net/net.c.
    - TcpOut, TcpText, TcpState, TcpSock: tcp/tcp_out.c, tcp/tcp_text.c with
      tcp/tcp_reass.c, tcp/tcp_state.c with tcp/tcp_timer.c and tcp/tcp_in.c, and the
      user calls of tcp/tcp_sock.c.
    - Socket: socket/socket.c and socket/inet.c.
    - Sample, System: a host to try things on; the program as a sequence of events.
    - Shell, ShellThreads: the command line of shell/shell.c, from a line of input to
      the command; its two threads as a step relation.
    - Lib, NetCommand: the address parsers of lib/lib.c; the commands of
      shell/net_command.c with the device set-up of net/physical_eth.c,
      net/shmeth_netdev.c and net/shm_eth.c.
    - Tap: net/tap.c and the set-up of net/veth.c over the system calls they make.
    - Dpdk, DpdkInit: net/dpdk/dpdk_netdev.c, its data path and its set-up, over the DPDK
      library; attach_dpdk of shell/net_command.c.
    - Report: what the program prints: the tables of route, arpcache, ifconfig, stat and
      help, printfs of lib/lib.c, the dump of a packet, the names of TCP flags and states.
    - Main: shell/main.c, the start and the end of the program, and the receive loops of
      net/physical_eth.c and net/veth.c.
    - Ping, Apps: the programs ping, ping2, snc and perf, and net/stat.c, on top of the
      socket calls; the static variables of a program are a record.

    ** What is proved

    - Memory safety of the receive path (Own, SafeNet, SafeIp, SafeFrag, SafeTcp,
      SafeIn, Safety).  The invariant [inv] says who owns each packet buffer: the ARP
      queues and the fragments, once each.  For every sequence of frames the receive
      path keeps it, without a fault, a leak or a double free; the same for the ARP
      timer and for ip_send_out.  The theorem is for a host without open socks and
      for frames that are not RARP frames, runts, UDP datagrams or packets with IP
      options, for most of which it fails (Faults).
    - TCP.  TcpMachine and System: whatever happens, in whatever order, connections
      move along the edges of the diagram of RFC 793.  TcpStream: the receive buffer
      is a piece of the peer's byte stream, and reading returns the stream in order;
      a refinement of the buffer, the window and the list of early segments to the
      stream.  TcpSend: the bytes a write puts on the wire, segment by segment.
      TcpWindow: acceptance of segments against RFC 793's table, bounds of
      the numbers of a segment.  TcpPorts and TcpLookup: ports are unique and finding
      a free one terminates; a connection is found by its peer's segments.
    - Fragmentation.  FragOut: the frames that ip_send_frag writes, byte for byte, tile
      the data of the packet and fit the device.  Fragments: the receiver puts them
      together again in whatever order they arrive.
    - The link: ArpWire, from the bytes of an ARP request to the bytes of the reply,
      on top of Wire; ArpCache, allocation, insertion and lookup.
    - Data structures as refinements of queues and lists: Cbuf, FastPipe, LinkedList,
      HashList.
    - Main: the program starts in a state with all the invariants of the other files.
    - The DPDK device, for every library that keeps the promises of [RteOk].  Dpdk: frames
      received are handled as by any other device, frames sent leave in order, and no
      buffer of the library is lost.  DpdkInit: the order of the set-up and its errors.
    - Report: the routing table is shown completely and can be read back, and so can the
      dump of a packet.
    - Checksum: equality with RFC 1071 and when it fails for the pseudo header;
      Structs: headers are faithful overlays; Route: longest prefix match.
    - UdpPorts, UdpDeliver: unique ports, and the way of a datagram from the device to
      the queue of the sock that is bound to its port.
    - Wait, Icmp: wake-ups that are and are not lost, the incremental checksum of echo
      replies.
    - The shell and the programs.  Shell: a line is cut into its words.  ShellThreads:
      commands are run once each and in order in every interleaving, and how wake-ups
      are lost.  Lib and NetCommand: printed addresses are parsed back, and what route
      and attach_dev do to the routing table.  Ping: requests and answers fit together.
      Apps: what command lines admit.  Tap: no descriptor is leaked.
    - Faults: runs in which the code goes wrong, each a defect found on the way.

    ** Bounds and parameters

    Loops that are not structural take fuel.  Two turns are enough for the copies of
    the circular buffers, BPORTS turns to find a port, [2 * len + 4] turns to fill a
    user's buffer, and the theorems of those functions show that they return.  The
    fuel of the send queue of ARP and the nesting through the loopback device bound
    how often the stack re-enters itself; safety holds for every bound, and running
    out of it is the only way not to return, besides exit() when there are too many
    buffers.

    Parameters: the result of write() on a device ([OS]); the callbacks of
    applications ([App]); the pointers stored in the list node of an early segment
    ([Ptrs]); the answers of the kernel to the calls of the tap device ([Kernel]) and
    of the device set-up ([peth_calls], [shm_calls]); what getopt() finds ([cmdline]);
    the DPDK library, as functions on a state of its own ([Rte], with what its
    documentation promises in [RteOk], of which file Dpdk has an instance) and as answers
    to the calls of the set-up ([RteEnv]).

    ** What is not modelled

    - Threads run one after another: a function is atomic between its waits, so data
      races between the receive thread, the timers and the callers are not visible;
      the exceptions are Wait and ShellThreads.  Mutexes are left out; calls that block
      are cut where they wait.
    - Closing of device descriptors and segments, and the signal handlers of the shell:
      operating-system I/O.  Of the creation and cancelling of threads (shell/main.c) only
      which threads exist.
    - The messages of usage functions, and the allocation wrappers of lib/lib.c.
    - Debugging output, and CONFIG_TOP1.
    - malloc always succeeds (the code exits otherwise), and memory is not reused. *)

From stdpp Require Import prelude list list_numbers gmap.
From Stdlib Require Import ZArith Lia.

#[global] Open Scope Z_scope.

(** ** Machine integers

    Values of C integer types are kept in [Z]; the wrap-around of a width is
    written out with the functions below. *)

Definition u8 (z : Z) : Z := z mod 256.
Definition u16 (z : Z) : Z := z mod 65536.
Definition u32 (z : Z) : Z := z mod 4294967296.
Definition s32 (z : Z) : Z := (z + 2147483648) mod 4294967296 - 2147483648.

Definition is_u8 (z : Z) : Prop := 0 <= z < 256.
Definition is_u16 (z : Z) : Prop := 0 <= z < 65536.
Definition is_u32 (z : Z) : Prop := 0 <= z < 4294967296.
Definition is_s32 (z : Z) : Prop := -2147483648 <= z < 2147483648.

#[global] Instance is_u8_dec z : Decision (is_u8 z).
Proof. unfold is_u8. apply _. Defined.
#[global] Instance is_u16_dec z : Decision (is_u16 z).
Proof. unfold is_u16. apply _. Defined.
#[global] Instance is_u32_dec z : Decision (is_u32 z).
Proof. unfold is_u32. apply _. Defined.

(** ** Byte strings

    Memory contents are lists of byte values.  [slice l off len] is the [len]
    bytes at [off]; [patch l off d] is [memcpy(l + off, d, length d)]. *)

Definition zlen {A} (l : list A) : Z := Z.of_nat (length l).

Definition slice {A} (l : list A) (off len : Z) : list A :=
  take (Z.to_nat len) (drop (Z.to_nat off) l).

Definition patch {A} (l : list A) (off : Z) (d : list A) : list A :=
  take (Z.to_nat off) l ++ d ++ drop (Z.to_nat off + length d) l.

Definition bytes_ok (l : list Z) : Prop := Forall is_u8 l.

(** Little-endian decoding and encoding: the host is little-endian
    ([HOST_LITTLE_ENDIAN] in include/netif.h). *)
Fixpoint le_dec (l : list Z) : Z :=
  match l with
  | [] => 0
  | b :: r => b + 256 * le_dec r
  end.

Fixpoint le_enc (n : nat) (z : Z) : list Z :=
  match n with
  | O => []
  | S m => z mod 256 :: le_enc m (z / 256)
  end.

(** ** The fault monad

    A C function that touches shared memory is a computation over a state [S].
    It returns a value, or faults (the C program would have undefined
    behaviour, trip an [assert] or call [exit]), or runs out of the fuel that
    bounds the re-entry of the stack through the loopback device. *)

Inductive fault :=
  | UseAfterFree    (* access to an object that was freed, or double free *)
  | OutOfBounds     (* access outside an allocation or an array *)
  | NullDeref       (* dereference of a NULL pointer *)
  | AssertFail      (* failing assert() *)
  | Exit            (* exit(EXIT_FAILURE) through perrx() or pkb_safe() *)
  | Undefined.      (* any other undefined operation *)

#[global] Instance fault_eq_dec : EqDecision fault.
Proof. solve_decision. Defined.

Inductive outcome (S A : Type) :=
  | Ret (a : A) (s : S)
  | Fault (f : fault)
  | NoFuel.
Arguments Ret {S A} a s.
Arguments Fault {S A} f.
Arguments NoFuel {S A}.

Definition comp (S A : Type) : Type := S -> outcome S A.

Definition ret {S A} (a : A) : comp S A := fun s => Ret a s.

Definition bind {S A B} (m : comp S A) (k : A -> comp S B) : comp S B :=
  fun s =>
    match m s with
    | Ret a s' => k a s'
    | Fault f => Fault f
    | NoFuel => NoFuel
    end.

Definition fail {S A} (f : fault) : comp S A := fun _ => Fault f.
Definition out_of_fuel {S A} : comp S A := fun _ => NoFuel.
Definition gets {S A} (f : S -> A) : comp S A := fun s => Ret (f s) s.
Definition modify {S} (f : S -> S) : comp S unit := fun s => Ret tt (f s).

(** [of_opt f o] is the value of [o], a fault [f] when there is none. *)
Definition of_opt {S A} (f : fault) (o : option A) : comp S A :=
  match o with Some a => ret a | None => fail f end.

Definition guard {S} (f : fault) (b : bool) : comp S unit :=
  if b then ret tt else fail f.

Definition when {S} (b : bool) (m : comp S unit) : comp S unit :=
  if b then m else ret tt.

(** [for_each l f] is a loop over a list that runs to its end. *)
Fixpoint for_each {S A} (l : list A) (f : A -> comp S unit) : comp S unit :=
  match l with
  | [] => ret tt
  | x :: r => bind (f x) (fun _ => for_each r f)
  end.

Declare Scope tapip_scope.
Delimit Scope tapip_scope with tapip.
Notation "'let*' x := m 'in' k" := (bind m (fun x => k))
  (at level 10, x name, m at level 100, k at level 200) : tapip_scope.
Notation "'let*' ' p := m 'in' k" := (bind m (fun x => match x with p => k end))
  (at level 10, p pattern, m at level 100, k at level 200) : tapip_scope.
Notation "m ;; k" := (bind m (fun _ => k))
  (at level 100, right associativity) : tapip_scope.
#[global] Open Scope tapip_scope.

(** ** Specifications of computations

    [wp m Q s]: from [s], [m] does not fault, and if it returns then [Q] holds
    of the result and the final state; it may end the process with exit(), and
    it may run out of fuel.  [twp] is the total version: [m] returns. *)

Definition wp {S A} (m : comp S A) (Q : A -> S -> Prop) (s : S) : Prop :=
  match m s with
  | Ret a s' => Q a s'
  | Fault f => f = Exit
  | NoFuel => True
  end.

Definition twp {S A} (m : comp S A) (Q : A -> S -> Prop) (s : S) : Prop :=
  match m s with
  | Ret a s' => Q a s'
  | _ => False
  end.

(** ** Tactics and hint databases *)

(** [case_if] splits the first boolean test of the goal and turns it into
    arithmetic for [lia]. *)
Ltac case_if :=
  match goal with
  | |- context [if ?b then _ else _] =>
      lazymatch b with
      | context [if _ then _ else _] => fail
      | _ => let E := fresh "E" in destruct b eqn:E
      end
  end.

Ltac case_if_in H :=
  match type of H with
  | context [if ?b then _ else _] =>
      lazymatch b with
      | context [if _ then _ else _] => fail
      | _ => let E := fresh "E" in destruct b eqn:E
      end
  end.

(** [zmod] is [lia] with the equations of division and remainder. *)
Ltac zmod := Z.div_mod_to_equations; lia.

(** Rewriting with the length and overlap lemmas of byte strings. *)
Create Rewrite HintDb bytes.
(** Preservation and well-formedness facts, closed by [auto with tapip]. *)
Create HintDb tapip.

(** ** Integers *)

Lemma u8_range z : is_u8 (u8 z).
Proof. unfold is_u8, u8. apply Z.mod_pos_bound. lia. Qed.

Lemma u16_range z : is_u16 (u16 z).
Proof. unfold is_u16, u16. apply Z.mod_pos_bound. lia. Qed.

Lemma u32_range z : is_u32 (u32 z).
Proof. unfold is_u32, u32. apply Z.mod_pos_bound. lia. Qed.

Lemma u8_small z : is_u8 z -> u8 z = z.
Proof. apply Z.mod_small. Qed.

Lemma u16_small z : is_u16 z -> u16 z = z.
Proof. apply Z.mod_small. Qed.

Lemma u32_small z : is_u32 z -> u32 z = z.
Proof. apply Z.mod_small. Qed.

Lemma s32_small z : is_s32 z -> s32 z = z.
Proof. unfold is_s32, s32. intros. rewrite Z.mod_small; lia. Qed.

Lemma u8_is_u16 z : is_u8 z -> is_u16 z.
Proof. unfold is_u8, is_u16. lia. Qed.

Lemma u16_is_u32 z : is_u16 z -> is_u32 z.
Proof. unfold is_u16, is_u32. lia. Qed.

#[export] Hint Resolve u8_range u16_range u32_range u8_is_u16 u16_is_u32 : tapip.

(** Masks of consecutive low bits are remainders; shifts are divisions. *)
Lemma land_255 z : Z.land z 255 = z mod 256.
Proof. apply (Z.land_ones z 8). lia. Qed.

Lemma land_65535 z : Z.land z 65535 = z mod 65536.
Proof. apply (Z.land_ones z 16). lia. Qed.

Lemma shiftr_8 z : Z.shiftr z 8 = z / 256.
Proof. rewrite Z.shiftr_div_pow2; [done|lia]. Qed.

Lemma shiftr_16 z : Z.shiftr z 16 = z / 65536.
Proof. rewrite Z.shiftr_div_pow2; [done|lia]. Qed.

(** Bits [a] (below [2^n]) and [b * 2^n] do not overlap: [lor] adds them. *)
Lemma lor_disjoint a b n : 0 <= n -> 0 <= a < 2 ^ n -> Z.lor a (Z.shiftl b n) = a + b * 2 ^ n.
Proof.
  intros Hn Ha. rewrite <- Z.shiftl_mul_pow2 by done.
  symmetry. apply Z.add_nocarry_lor, Z.bits_inj'. intros k Hk.
  rewrite Z.land_spec, Z.bits_0.
  destruct (Z.lt_ge_cases k n).
  - rewrite Z.shiftl_spec_low by done. apply andb_false_r.
  - rewrite (Z.testbit_eqb a) by done.
    assert (2 ^ n <= 2 ^ k) by (apply Z.pow_le_mono_r; lia).
    rewrite Z.div_small by lia. done.
Qed.

(** ** Byte strings: lengths *)

Lemma zlen_nonneg {A} (l : list A) : 0 <= zlen l.
Proof. unfold zlen. lia. Qed.

Lemma zlen_nil {A} : zlen (@nil A) = 0.
Proof. done. Qed.

Lemma zlen_cons {A} (x : A) l : zlen (x :: l) = 1 + zlen l.
Proof. unfold zlen. simpl. lia. Qed.

Lemma zlen_app {A} (l1 l2 : list A) : zlen (l1 ++ l2) = zlen l1 + zlen l2.
Proof. unfold zlen. rewrite length_app. lia. Qed.

Lemma zlen_slice {A} (l : list A) off len :
  0 <= off -> 0 <= len -> off + len <= zlen l -> zlen (slice l off len) = len.
Proof. unfold zlen, slice. rewrite length_take, length_drop. lia. Qed.

Lemma zlen_patch {A} (l : list A) off d :
  0 <= off -> off + zlen d <= zlen l -> zlen (patch l off d) = zlen l.
Proof.
  unfold zlen, patch. rewrite !length_app, length_take, length_drop. lia.
Qed.

Lemma zlen_replicate {A} n (x : A) : zlen (replicate n x) = Z.of_nat n.
Proof. unfold zlen. by rewrite length_replicate. Qed.

Lemma le_enc_length n z : length (le_enc n z) = n.
Proof. revert z. induction n as [|n IH]; simpl; auto. Qed.

Lemma zlen_le_enc n z : zlen (le_enc n z) = Z.of_nat n.
Proof. unfold zlen. by rewrite le_enc_length. Qed.

#[export] Hint Rewrite @zlen_nil @zlen_cons @zlen_app @zlen_replicate zlen_le_enc : bytes.

(** ** Byte strings: overlap of writes and reads *)

Lemma slice_patch_eq {A} (l : list A) off d len :
  0 <= off -> len = zlen d -> off + zlen d <= zlen l -> slice (patch l off d) off len = d.
Proof.
  unfold slice, patch, zlen. intros Ho -> Hb.
  rewrite drop_app_ge by (rewrite length_take; lia).
  rewrite length_take.
  replace (Z.to_nat off - Z.to_nat off `min` length l)%nat with 0%nat by lia.
  rewrite drop_0, Nat2Z.id. apply take_app_length.
Qed.

Lemma slice_patch_before {A} (l : list A) off d o len :
  0 <= o -> 0 <= len -> o + len <= off -> off <= zlen l ->
  slice (patch l off d) o len = slice l o len.
Proof.
  unfold slice, patch, zlen. intros.
  rewrite drop_app_le by (rewrite length_take; lia).
  rewrite take_app_le by (rewrite length_drop, length_take; lia).
  rewrite skipn_firstn_comm, take_take. f_equal. lia.
Qed.

Lemma slice_patch_after {A} (l : list A) off d o len :
  0 <= off -> off + zlen d <= o -> off + zlen d <= zlen l ->
  slice (patch l off d) o len = slice l o len.
Proof.
  unfold slice, patch, zlen. intros.
  rewrite app_assoc, drop_app_ge by (rewrite length_app, length_take; lia).
  rewrite drop_drop, length_app, length_take. do 2 f_equal. lia.
Qed.

(** A write inside the region that is read. *)
Lemma slice_patch_inside {A} (l : list A) off d o len :
  0 <= o -> o <= off -> off + zlen d <= o + len -> o + len <= zlen l ->
  slice (patch l off d) o len = patch (slice l o len) (off - o) d.
Proof.
  unfold slice, patch, zlen. intros.
  rewrite drop_app_le by (rewrite length_take; lia).
  rewrite skipn_firstn_comm, take_app_ge by (rewrite length_take, length_drop; lia).
  rewrite length_take, length_drop, take_take, take_app_ge by lia.
  rewrite skipn_firstn_comm, drop_drop. f_equal; [f_equal; lia|].
  f_equal. f_equal; [lia|f_equal; lia].
Qed.

Lemma slice_slice {A} (l : list A) o1 l1 o2 l2 :
  0 <= o1 -> 0 <= o2 -> o2 + l2 <= l1 -> slice (slice l o1 l1) o2 l2 = slice l (o1 + o2) l2.
Proof.
  unfold slice. intros.
  rewrite skipn_firstn_comm, take_take, drop_drop. f_equal; [lia|f_equal; lia].
Qed.

Lemma slice_full {A} (l : list A) len : zlen l <= len -> slice l 0 len = l.
Proof. unfold slice, zlen. intros. rewrite drop_0. apply take_ge. lia. Qed.

Lemma slice_app_l {A} (l1 l2 : list A) o len :
  0 <= o -> 0 <= len -> o + len <= zlen l1 -> slice (l1 ++ l2) o len = slice l1 o len.
Proof.
  unfold slice, zlen. intros.
  rewrite drop_app_le, take_app_le by (rewrite ?length_drop; lia). done.
Qed.

Lemma slice_app_r {A} (l1 l2 : list A) o len :
  zlen l1 <= o -> slice (l1 ++ l2) o len = slice l2 (o - zlen l1) len.
Proof.
  unfold slice, zlen. intros. rewrite drop_app_ge by lia. do 2 f_equal. lia.
Qed.

Lemma slice_mid {A} (l1 l2 l3 : list A) off len : off = zlen l1 -> len = zlen l2 -> slice (l1 ++ l2 ++ l3) off len = l2.
Proof.
  intros -> ->. unfold slice, zlen. by rewrite !Nat2Z.id, drop_app_length, take_app_length.
Qed.

Lemma patch_mid {A} (l1 l2 l3 d : list A) off : off = zlen l1 -> zlen d = zlen l2 -> patch (l1 ++ l2 ++ l3) off d = l1 ++ d ++ l3.
Proof.
  intros -> Hd. unfold patch, zlen in *. rewrite Nat2Z.id, take_app_length. do 2 f_equal.
  rewrite drop_app_add. replace (length d) with (length l2) by lia. apply drop_app_length.
Qed.

Lemma slice_split {A} (l : list A) o a b :
  0 <= o -> 0 <= a -> 0 <= b -> slice l o (a + b) = slice l o a ++ slice l (o + a) b.
Proof.
  unfold slice. intros.
  rewrite !Z2Nat.inj_add by lia. rewrite <- drop_drop. symmetry. apply take_take_drop.
Qed.

(** Writing back what is there changes nothing. *)
Lemma patch_slice_id {A} (l : list A) off len :
  0 <= off -> 0 <= len -> off + len <= zlen l -> patch l off (slice l off len) = l.
Proof.
  unfold patch, slice, zlen. intros.
  rewrite length_take, length_drop.
  replace (Z.to_nat len `min` (length l - Z.to_nat off))%nat with (Z.to_nat len) by lia.
  rewrite <- drop_drop, take_drop. apply take_drop.
Qed.

Lemma patch_patch_eq {A} (l : list A) off d d' :
  0 <= off -> zlen d = zlen d' -> off + zlen d <= zlen l ->
  patch (patch l off d) off d' = patch l off d'.
Proof.
  unfold patch, zlen. intros.
  rewrite take_app_le by (rewrite length_take; lia).
  rewrite take_take, Nat.min_id. do 2 f_equal.
  rewrite app_assoc, drop_app_ge by (rewrite length_app, length_take; lia).
  rewrite length_app, length_take, drop_drop. f_equal. lia.
Qed.

Lemma patch_patch_app {A} (l : list A) off d d' :
  0 <= off -> off + zlen d + zlen d' <= zlen l ->
  patch (patch l off d) (off + zlen d) d' = patch l off (d ++ d').
Proof.
  unfold patch, zlen. intros. rewrite !(app_assoc (take _ l) d).
  rewrite take_app_length' by (rewrite length_app, length_take; lia).
  rewrite drop_app_ge by (rewrite length_app, length_take; lia).
  rewrite length_app, length_take, drop_drop, (length_app d d'), <- !app_assoc.
  do 4 f_equal. lia.
Qed.

Lemma bytes_ok_app l1 l2 : bytes_ok (l1 ++ l2) <-> bytes_ok l1 /\ bytes_ok l2.
Proof. apply Forall_app. Qed.

Lemma bytes_ok_slice l off len : bytes_ok l -> bytes_ok (slice l off len).
Proof. intros. by apply Forall_take, Forall_drop. Qed.

Lemma bytes_ok_patch l off d : bytes_ok l -> bytes_ok d -> bytes_ok (patch l off d).
Proof.
  intros. unfold patch. rewrite !bytes_ok_app.
  split; [by apply Forall_take|split; [done|by apply Forall_drop]].
Qed.

Lemma bytes_ok_zeros n : bytes_ok (replicate n 0).
Proof. apply Forall_replicate. unfold is_u8. lia. Qed.

(** ** Little-endian words *)

Lemma le_enc_ok n z : bytes_ok (le_enc n z).
Proof.
  revert z. induction n as [|n IH]; intros z; simpl; constructor; [|apply IH].
  apply u8_range.
Qed.

Lemma le_dec_range l : bytes_ok l -> 0 <= le_dec l < 256 ^ zlen l.
Proof.
  induction 1 as [|b l Hb _ IH]; simpl; [done|].
  rewrite zlen_cons, Z.pow_add_r by (pose proof (zlen_nonneg l); lia).
  unfold is_u8 in Hb. lia.
Qed.

Lemma le_dec_enc n z : 0 <= z < 256 ^ Z.of_nat n -> le_dec (le_enc n z) = z.
Proof.
  revert z. induction n as [|n IH]; intros z Hz; simpl.
  - change (256 ^ Z.of_nat 0) with 1 in Hz. lia.
  - rewrite Nat2Z.inj_succ, Z.pow_succ_r in Hz by lia.
    rewrite IH by zmod. pose proof (Z.div_mod z 256). lia.
Qed.

Lemma le_enc_dec l : bytes_ok l -> le_enc (length l) (le_dec l) = l.
Proof.
  induction 1 as [|b l Hb _ IH]; simpl; [done|]. unfold is_u8 in Hb.
  rewrite Z.mul_comm, Z_mod_plus_full, Z.mod_small by lia. f_equal.
  rewrite Z.div_add, Z.div_small, Z.add_0_l by lia. done.
Qed.

Lemma le_dec_u8 l : bytes_ok l -> length l = 1%nat -> is_u8 (le_dec l).
Proof. intros H E. apply le_dec_range in H. unfold zlen in H. rewrite E in H. done. Qed.

Lemma le_dec_u16 l : bytes_ok l -> length l = 2%nat -> is_u16 (le_dec l).
Proof. intros H E. apply le_dec_range in H. unfold zlen in H. rewrite E in H. done. Qed.

Lemma le_dec_u32 l : bytes_ok l -> length l = 4%nat -> is_u32 (le_dec l).
Proof. intros H E. apply le_dec_range in H. unfold zlen in H. rewrite E in H. done. Qed.

#[export] Hint Resolve bytes_ok_slice bytes_ok_patch bytes_ok_zeros le_enc_ok : tapip.

(** ** Weakest preconditions *)


Lemma wp_ret {S A} (a : A) (Q : A -> S -> Prop) s : Q a s -> wp (ret a) Q s.
Proof. done. Qed.

Lemma wp_bind {S A B} (m : comp S A) (k : A -> comp S B) Q s :
  wp m (fun a => wp (k a) Q) s -> wp (bind m k) Q s.
Proof. unfold wp, bind. by destruct (m s). Qed.

Lemma wp_mono {S A} (m : comp S A) (Q R : A -> S -> Prop) s :
  wp m Q s -> (forall a s', Q a s' -> R a s') -> wp m R s.
Proof. unfold wp. destruct (m s); auto. Qed.

Lemma wp_gets {S A} (f : S -> A) (Q : A -> S -> Prop) s : Q (f s) s -> wp (gets f) Q s.
Proof. done. Qed.

Lemma wp_modify {S} (f : S -> S) (Q : unit -> S -> Prop) s : Q tt (f s) -> wp (modify f) Q s.
Proof. done. Qed.

Lemma wp_of_opt {S A} f (o : option A) a (Q : A -> S -> Prop) s : o = Some a -> Q a s -> wp (of_opt f o) Q s.
Proof. by intros ->. Qed.

Lemma wp_guard {S} f b (Q : unit -> S -> Prop) s : b = true -> Q tt s -> wp (guard f b) Q s.
Proof. by intros ->. Qed.

Lemma wp_for_each {S A} (l : list A) (f : A -> comp S unit) (I : list A -> S -> Prop) s :
  I l s ->
  (forall x r s, I (x :: r) s -> wp (f x) (fun _ => I r) s) ->
  wp (for_each l f) (fun _ => I []) s.
Proof.
  revert s. induction l as [|x l IH]; intros s HI Hf; [done|].
  apply wp_bind. eapply wp_mono; [by apply Hf|]. simpl. intros _ s' H'. by apply IH.
Qed.

Lemma twp_wp {S A} (m : comp S A) Q s : twp m Q s -> wp m Q s.
Proof. unfold wp, twp. by destruct (m s). Qed.

Lemma wp_ok {S A} (m : comp S A) (Q : A -> S -> Prop) a s s' : m s = Ret a s' -> Q a s' -> wp m Q s.
Proof. unfold wp. by intros ->. Qed.

Lemma wp_when {S} (b : bool) (m : comp S unit) (Q : unit -> S -> Prop) s :
  (b = true -> wp m Q s) -> (b = false -> Q tt s) -> wp (when b m) Q s.
Proof. destruct b; simpl; intros Ht Hf; [by apply Ht|by apply Hf]. Qed.

Lemma bind_ret {S A B} (a : A) (k : A -> comp S B) s : bind (ret a) k s = k a s.
Proof. done. Qed.

Lemma bind_gets {S A B} (f : S -> A) (k : A -> comp S B) s : bind (gets f) k s = k (f s) s.
Proof. done. Qed.

Lemma bind_modify {S B} (f : S -> S) (k : unit -> comp S B) s : bind (modify f) k s = k tt (f s).
Proof. done. Qed.

Lemma bind_ok {S A B} (m : comp S A) (k : A -> comp S B) a s s' :
  m s = Ret a s' -> bind m k s = k a s'.
Proof. unfold bind. by intros ->. Qed.

Lemma bind_inv {S A B} (m : comp S A) (k : A -> comp S B) s b s' :
  bind m k s = Ret b s' -> exists a s1, m s = Ret a s1 /\ k a s1 = Ret b s'.
Proof. unfold bind. destruct (m s) as [a s1| |]; naive_solver. Qed.

Lemma bind_assoc {S A B C} (m : comp S A) (k : A -> comp S B) (h : B -> comp S C) s :
  bind (bind m k) h s = bind m (fun a => bind (k a) h) s.
Proof. unfold bind. by destruct (m s). Qed.

Lemma wp_bind_assoc {S A B C} (m : comp S A) (k : A -> comp S B) (h : B -> comp S C) Q s :
  wp (bind m (fun a => bind (k a) h)) Q s <-> wp (bind (bind m k) h) Q s.
Proof. unfold wp. by rewrite bind_assoc. Qed.

(** ** Total correctness *)

Lemma twp_ret {S A} (a : A) (Q : A -> S -> Prop) s : Q a s -> twp (ret a) Q s.
Proof. done. Qed.

Lemma twp_bind {S A B} (m : comp S A) (k : A -> comp S B) Q s :
  twp m (fun a => twp (k a) Q) s -> twp (bind m k) Q s.
Proof. unfold twp, bind. by destruct (m s). Qed.

Lemma twp_mono {S A} (m : comp S A) (Q R : A -> S -> Prop) s :
  twp m Q s -> (forall a s', Q a s' -> R a s') -> twp m R s.
Proof. unfold twp. destruct (m s); auto. Qed.

Lemma twp_ok {S A} (m : comp S A) (Q : A -> S -> Prop) a s s' : m s = Ret a s' -> Q a s' -> twp m Q s.
Proof. unfold twp. by intros ->. Qed.

Lemma twp_bind_assoc {S A B C} (m : comp S A) (k : A -> comp S B) (h : B -> comp S C) Q s :
  twp (bind m (fun a => bind (k a) h)) Q s <-> twp (bind (bind m k) h) Q s.
Proof. unfold twp. by rewrite bind_assoc. Qed.

(** One step of a program that is known to succeed. *)
Lemma twp_step {S A B} (m : comp S A) (k : A -> comp S B) Q a s s' :
  m s = Ret a s' -> twp (k a) Q s' -> twp (bind m k) Q s.
Proof. unfold twp, bind. by intros ->. Qed.
