(* ===== verification/Structs.v ===== *)
(** * Wire formats: byte order and packed header structs

    Models the byte-order functions of include/netif.h and the packed structs
    of include/ether.h, include/arp.h, include/ip.h, include/icmp.h,
    include/udp.h and include/tcp.h, with the accessor macros and inline functions of those headers.

    A struct is a record; the class [Struct] relates it to the bytes it
    overlays (the C code casts a byte pointer to the struct type), and
    [StructOk] states that reading and writing it through the cast loses
    nothing.  Multi-byte fields hold what the little-endian host loads. *)

From stdpp Require Import prelude list.
From Stdlib Require Import ZArith Lia.
From S2P Require Import Prelude.

(** ** Byte order (include/netif.h) *)

(** [(host >> 8) | ((host << 8) & 0xff00)] on [unsigned short]. *)
Definition _htons (host : Z) : Z :=
  u16 (Z.lor (Z.shiftr host 8) (Z.land (Z.shiftl host 8) 0xff00)).
Definition _ntohs (net : Z) : Z := _htons net.

Definition _htonl (host : Z) : Z :=
  Z.lor (Z.lor (Z.lor (Z.shiftl (Z.land host 0x000000ff) 24)
                      (Z.shiftl (Z.land host 0x0000ff00) 8))
               (Z.shiftr (Z.land host 0x00ff0000) 8))
        (Z.shiftr (Z.land host 0xff000000) 24).
Definition _ntohl (net : Z) : Z := _htonl net.

(** ** Structs overlaid on bytes *)

Class Struct (T : Type) := {
  sizeof : Z;
  decode : list Z -> T;
  encode : T -> list Z;
  wf_struct : T -> Prop
}.
Arguments sizeof T {_}.

Class StructOk (T : Type) `{Struct T} := {
  encode_len (t : T) : wf_struct t -> zlen (encode t) = sizeof T;
  encode_ok (t : T) : wf_struct t -> bytes_ok (encode t);
  decode_wf bs : bytes_ok bs -> zlen bs = sizeof T -> wf_struct (decode bs);
  decode_encode (t : T) : wf_struct t -> decode (encode t) = t;
  encode_decode bs : bytes_ok bs -> zlen bs = sizeof T -> encode (decode bs) = bs
}.

(** The field of [n] bytes at [off], as the host loads it. *)
Definition fld (bs : list Z) (off n : Z) : Z := le_dec (slice bs off n).

(** *** struct ether *)
Definition ETH_ALEN : Z := 6.
Definition ETH_P_IP : Z := 0x0800.
Definition ETH_P_ARP : Z := 0x0806.
Definition ETH_P_RARP : Z := 0x8035.

Record ether := mk_ether {
  eth_dst : list Z;
  eth_src : list Z;
  eth_pro : Z
}.

Definition hwaddr_ok (a : list Z) : Prop := bytes_ok a /\ length a = 6%nat.

#[export] Instance ether_struct : Struct ether := {
  sizeof := 14;
  decode bs := mk_ether (slice bs 0 6) (slice bs 6 6) (fld bs 12 2);
  encode e := eth_dst e ++ eth_src e ++ le_enc 2 (eth_pro e);
  wf_struct e := hwaddr_ok (eth_dst e) /\ hwaddr_ok (eth_src e) /\ is_u16 (eth_pro e)
}.
Definition ETH_HRD_SZ : Z := sizeof ether.

(** [memcmp(hwa1, hwa2, ETH_ALEN)] is used only as an equality test. *)
Definition hwacmp_eq (a b : list Z) : bool := bool_decide (a = b).

Definition hwa (a : list Z) (i : nat) : Z := nth i a 0.
Definition is_eth_multicast (a : list Z) : bool := negb (Z.land (hwa a 0) 1 =? 0).
Definition is_eth_broadcast (a : list Z) : bool :=
  Z.land (Z.land (Z.land (Z.land (Z.land (hwa a 0) (hwa a 1)) (hwa a 2)) (hwa a 3))
    (hwa a 4)) (hwa a 5) =? 0xff.

(** *** struct arp *)
Definition ARP_HRD_ETHER : Z := 1.
Definition ARP_OP_REQUEST : Z := 1.
Definition ARP_OP_REPLY : Z := 2.

Record arp := mk_arp {
  arp_hrd : Z; arp_pro : Z; arp_hrdlen : Z; arp_prolen : Z; arp_op : Z;
  arp_sha : list Z; arp_sip : Z; arp_tha : list Z; arp_tip : Z
}.

#[export] Instance arp_struct : Struct arp := {
  sizeof := 28;
  decode bs := mk_arp (fld bs 0 2) (fld bs 2 2) (fld bs 4 1) (fld bs 5 1) (fld bs 6 2)
                 (slice bs 8 6) (fld bs 14 4) (slice bs 18 6) (fld bs 24 4);
  encode a := le_enc 2 (arp_hrd a) ++ le_enc 2 (arp_pro a) ++ le_enc 1 (arp_hrdlen a) ++
              le_enc 1 (arp_prolen a) ++ le_enc 2 (arp_op a) ++ arp_sha a ++
              le_enc 4 (arp_sip a) ++ arp_tha a ++ le_enc 4 (arp_tip a);
  wf_struct a := is_u16 (arp_hrd a) /\ is_u16 (arp_pro a) /\ is_u8 (arp_hrdlen a) /\
                 is_u8 (arp_prolen a) /\ is_u16 (arp_op a) /\ hwaddr_ok (arp_sha a) /\
                 is_u32 (arp_sip a) /\ hwaddr_ok (arp_tha a) /\ is_u32 (arp_tip a)
}.
Definition ARP_HRD_SZ : Z := sizeof arp.

(** [arp_hton], also used as [arp_ntoh]. *)
Definition arp_hton (a : arp) : arp :=
  mk_arp (_htons (arp_hrd a)) (_htons (arp_pro a)) (arp_hrdlen a) (arp_prolen a)
    (_htons (arp_op a)) (arp_sha a) (arp_sip a) (arp_tha a) (arp_tip a).

(** *** struct ip *)
Definition IP_ALEN : Z := 4.
Definition IP_VERSION_4 : Z := 4.
Definition IP_FRAG_RS : Z := 0x8000.
Definition IP_FRAG_DF : Z := 0x4000.
Definition IP_FRAG_MF : Z := 0x2000.
Definition IP_FRAG_OFF : Z := 0x1fff.
Definition IP_P_IP : Z := 0.
Definition IP_P_ICMP : Z := 1.
Definition IP_P_TCP : Z := 6.
Definition IP_P_UDP : Z := 17.
Definition IP_P_RAW : Z := 255.
Definition IP_P_MAX : Z := 256.

Record ip := mk_ip {
  ip_hlen : Z; ip_ver : Z; ip_tos : Z; ip_len : Z; ip_id : Z; ip_fragoff : Z;
  ip_ttl : Z; ip_pro : Z; ip_cksum : Z; ip_src : Z; ip_dst : Z
}.

#[export] Instance ip_struct : Struct ip := {
  sizeof := 20;
  decode bs := mk_ip (fld bs 0 1 mod 16) (fld bs 0 1 / 16) (fld bs 1 1) (fld bs 2 2)
                 (fld bs 4 2) (fld bs 6 2) (fld bs 8 1) (fld bs 9 1) (fld bs 10 2)
                 (fld bs 12 4) (fld bs 16 4);
  encode h := le_enc 1 (ip_hlen h + 16 * ip_ver h) ++ le_enc 1 (ip_tos h) ++
              le_enc 2 (ip_len h) ++ le_enc 2 (ip_id h) ++ le_enc 2 (ip_fragoff h) ++
              le_enc 1 (ip_ttl h) ++ le_enc 1 (ip_pro h) ++ le_enc 2 (ip_cksum h) ++
              le_enc 4 (ip_src h) ++ le_enc 4 (ip_dst h);
  wf_struct h := 0 <= ip_hlen h < 16 /\ 0 <= ip_ver h < 16 /\ is_u8 (ip_tos h) /\
                 is_u16 (ip_len h) /\ is_u16 (ip_id h) /\ is_u16 (ip_fragoff h) /\
                 is_u8 (ip_ttl h) /\ is_u8 (ip_pro h) /\ is_u16 (ip_cksum h) /\
                 is_u32 (ip_src h) /\ is_u32 (ip_dst h)
}.
Definition IP_HRD_SZ : Z := sizeof ip.

Definition iphlen (h : ip) : Z := Z.shiftl (ip_hlen h) 2.
(** [ipdlen] is for headers in host order, [ipndlen] for network order. *)
Definition ipdlen (h : ip) : Z := ip_len h - iphlen h.
Definition ipndlen (h : ip) : Z := _ntohs (ip_len h) - iphlen h.
Definition ipoff (h : ip) : Z := Z.land (ip_fragoff h) IP_FRAG_OFF * 8.

Definition set_ip_len (h : ip) (v : Z) : ip :=
  mk_ip (ip_hlen h) (ip_ver h) (ip_tos h) v (ip_id h) (ip_fragoff h) (ip_ttl h) (ip_pro h)
    (ip_cksum h) (ip_src h) (ip_dst h).
Definition set_ip_fragoff (h : ip) (v : Z) : ip :=
  mk_ip (ip_hlen h) (ip_ver h) (ip_tos h) (ip_len h) (ip_id h) v (ip_ttl h) (ip_pro h)
    (ip_cksum h) (ip_src h) (ip_dst h).
Definition set_ip_ttl (h : ip) (v : Z) : ip :=
  mk_ip (ip_hlen h) (ip_ver h) (ip_tos h) (ip_len h) (ip_id h) (ip_fragoff h) v (ip_pro h)
    (ip_cksum h) (ip_src h) (ip_dst h).
Definition set_ip_cksum (h : ip) (v : Z) : ip :=
  mk_ip (ip_hlen h) (ip_ver h) (ip_tos h) (ip_len h) (ip_id h) (ip_fragoff h) (ip_ttl h)
    (ip_pro h) v (ip_src h) (ip_dst h).
Definition set_ip_src (h : ip) (v : Z) : ip :=
  mk_ip (ip_hlen h) (ip_ver h) (ip_tos h) (ip_len h) (ip_id h) (ip_fragoff h) (ip_ttl h)
    (ip_pro h) (ip_cksum h) v (ip_dst h).
Definition set_ip_dst (h : ip) (v : Z) : ip :=
  mk_ip (ip_hlen h) (ip_ver h) (ip_tos h) (ip_len h) (ip_id h) (ip_fragoff h) (ip_ttl h)
    (ip_pro h) (ip_cksum h) (ip_src h) v.

(** [ip_ntoh], also used as [ip_hton]. *)
Definition ip_ntoh (h : ip) : ip :=
  set_ip_fragoff
    (mk_ip (ip_hlen h) (ip_ver h) (ip_tos h) (_ntohs (ip_len h)) (_ntohs (ip_id h))
       (ip_fragoff h) (ip_ttl h) (ip_pro h) (ip_cksum h) (ip_src h) (ip_dst h))
    (_ntohs (ip_fragoff h)).

Definition MULTICAST (netip : Z) : bool := Z.land 0x000000f0 netip =? 0x000000e0.
Definition BROADCAST (netip : Z) : bool :=
  (Z.land 0xff000000 netip =? 0xff000000) || (Z.land 0xff000000 netip =? 0).
Definition equsubnet (mask ip1 ip2 : Z) : bool := Z.land mask ip1 =? Z.land mask ip2.

(** *** struct icmp *)
Record icmp := mk_icmp {
  icmp_type : Z; icmp_code : Z; icmp_cksum : Z;
  icmp_undata : Z   (* the union: echo id/seq, redirect gateway, pad *)
}.

#[export] Instance icmp_struct : Struct icmp := {
  sizeof := 8;
  decode bs := mk_icmp (fld bs 0 1) (fld bs 1 1) (fld bs 2 2) (fld bs 4 4);
  encode h := le_enc 1 (icmp_type h) ++ le_enc 1 (icmp_code h) ++ le_enc 2 (icmp_cksum h) ++
              le_enc 4 (icmp_undata h);
  wf_struct h := is_u8 (icmp_type h) /\ is_u8 (icmp_code h) /\ is_u16 (icmp_cksum h) /\
                 is_u32 (icmp_undata h)
}.
Definition ICMP_HRD_SZ : Z := sizeof icmp.

(** *** struct udp *)
Record udp := mk_udp { udp_src : Z; udp_dst : Z; udp_length : Z; udp_checksum : Z }.

#[export] Instance udp_struct : Struct udp := {
  sizeof := 8;
  decode bs := mk_udp (fld bs 0 2) (fld bs 2 2) (fld bs 4 2) (fld bs 6 2);
  encode h := le_enc 2 (udp_src h) ++ le_enc 2 (udp_dst h) ++ le_enc 2 (udp_length h) ++
              le_enc 2 (udp_checksum h);
  wf_struct h := is_u16 (udp_src h) /\ is_u16 (udp_dst h) /\ is_u16 (udp_length h) /\
                 is_u16 (udp_checksum h)
}.
Definition UDP_HRD_SZ : Z := sizeof udp.
Definition UDP_MAX_BUFSZ : Z := 0xffff - UDP_HRD_SZ.
Definition UDP_DEFAULT_TTL : Z := 64.

(** *** struct tcp *)

(** The bit fields of the seventh word, lowest bit first on a little-endian host:
    four reserved bits, the data offset, the eight control bits. *)
Record tcp := mk_tcp {
  tcp_src : Z; tcp_dst : Z; tcp_seq : Z; tcp_ackn : Z;
  tcp_reserved : Z; tcp_doff : Z;
  tcp_fin : Z; tcp_syn : Z; tcp_rst : Z; tcp_psh : Z; tcp_ack : Z; tcp_urg : Z; tcp_ece : Z;
  tcp_cwr : Z;
  tcp_window : Z; tcp_checksum : Z; tcp_urgptr : Z
}.

Definition is_bit (z : Z) : Prop := 0 <= z < 2.
Definition bit (b i : Z) : Z := b / 2 ^ i mod 2.
Definition ctl_byte (h : tcp) : Z :=
  tcp_fin h + 2 * (tcp_syn h + 2 * (tcp_rst h + 2 * (tcp_psh h + 2 * (tcp_ack h + 2 * (tcp_urg h +
    2 * (tcp_ece h + 2 * tcp_cwr h)))))).

#[export] Instance tcp_struct : Struct tcp := {
  sizeof := 20;
  decode bs :=
    let b := fld bs 13 1 in
    mk_tcp (fld bs 0 2) (fld bs 2 2) (fld bs 4 4) (fld bs 8 4) (fld bs 12 1 mod 16)
      (fld bs 12 1 / 16) (bit b 0) (bit b 1) (bit b 2) (bit b 3) (bit b 4) (bit b 5) (bit b 6)
      (bit b 7) (fld bs 14 2) (fld bs 16 2) (fld bs 18 2);
  encode h := le_enc 2 (tcp_src h) ++ le_enc 2 (tcp_dst h) ++ le_enc 4 (tcp_seq h) ++
              le_enc 4 (tcp_ackn h) ++ le_enc 1 (tcp_reserved h + 16 * tcp_doff h) ++
              le_enc 1 (ctl_byte h) ++ le_enc 2 (tcp_window h) ++ le_enc 2 (tcp_checksum h) ++
              le_enc 2 (tcp_urgptr h);
  wf_struct h := is_u16 (tcp_src h) /\ is_u16 (tcp_dst h) /\ is_u32 (tcp_seq h) /\
                 is_u32 (tcp_ackn h) /\ 0 <= tcp_reserved h < 16 /\ 0 <= tcp_doff h < 16 /\
                 is_bit (tcp_fin h) /\ is_bit (tcp_syn h) /\ is_bit (tcp_rst h) /\
                 is_bit (tcp_psh h) /\ is_bit (tcp_ack h) /\ is_bit (tcp_urg h) /\
                 is_bit (tcp_ece h) /\ is_bit (tcp_cwr h) /\ is_u16 (tcp_window h) /\
                 is_u16 (tcp_checksum h) /\ is_u16 (tcp_urgptr h)
}.
Definition TCP_HRD_SZ : Z := sizeof tcp.
Definition TCP_HRD_DOFF : Z := Z.shiftr TCP_HRD_SZ 2.
Definition TCP_DEFAULT_TTL : Z := 64.
Definition tcphlen (h : tcp) : Z := Z.shiftl (tcp_doff h) 2.

(** ** Byte order: arithmetic form and involution *)

Lemma htons_arith h : is_u16 h -> _htons h = h / 256 + 256 * (h mod 256).
Proof.
  unfold is_u16, _htons. intros Hh.
  replace (Z.land (Z.shiftl h 8) 0xff00) with (Z.shiftl (h mod 256) 8).
  2: { rewrite <- land_255. change 0xff00 with (Z.shiftl 255 8).
       by rewrite <- Z.shiftl_land. }
  rewrite shiftr_8, lor_disjoint by (change (2 ^ 8) with 256; zmod).
  change (2 ^ 8) with 256. unfold u16. rewrite Z.mod_small; [lia|zmod].
Qed.

Lemma htons_range h : is_u16 (_htons h).
Proof. apply u16_range. Qed.

Lemma htons_involutive h : is_u16 h -> _htons (_htons h) = h.
Proof.
  intros Hh. pose proof (htons_range h) as Hr.
  rewrite (htons_arith (_htons h)) by done. rewrite (htons_arith h) by done.
  unfold is_u16 in *. zmod.
Qed.

Lemma htons_inj a b : is_u16 a -> is_u16 b -> _htons a = _htons b -> a = b.
Proof.
  intros Ha Hb E. rewrite <- (htons_involutive a), <- (htons_involutive b) by done. by rewrite E.
Qed.

#[export] Hint Resolve htons_range : tapip.

Lemma htonl_arith h : is_u32 h ->
  _htonl h = h / 16777216 + 256 * (h / 65536 mod 256) + 65536 * (h / 256 mod 256) +
             16777216 * (h mod 256).
Proof.
  unfold is_u32, _htonl. intros Hh.
  set (b0 := h mod 256). set (b1 := h / 256 mod 256).
  set (b2 := h / 65536 mod 256). set (b3 := h / 16777216).
  assert (Hm : forall n, 0 <= n -> Z.land h (Z.shiftl 255 n) = Z.shiftl ((h / 2 ^ n) mod 256) n).
  { intros n Hn. apply Z.bits_inj'. intros k Hk.
    rewrite Z.land_spec, !Z.shiftl_spec, <- land_255, Z.land_spec by lia.
    destruct (Z.lt_ge_cases k n).
    - rewrite !(Z.testbit_neg_r _ (k - n)) by lia. by rewrite andb_false_r.
    - rewrite <- Z.shiftr_div_pow2, Z.shiftr_spec by lia. do 2 f_equal. lia. }
  assert (Hb : 0 <= b0 < 256 /\ 0 <= b1 < 256 /\ 0 <= b2 < 256 /\ 0 <= b3 < 256)
    by (subst b0 b1 b2 b3; zmod).
  change 0x0000ff00 with (Z.shiftl 255 8). change 0x00ff0000 with (Z.shiftl 255 16).
  change 0xff000000 with (Z.shiftl 255 24).
  rewrite land_255, !Hm by lia. fold b0.
  change (2 ^ 8) with 256. change (2 ^ 16) with 65536. change (2 ^ 24) with 16777216.
  fold b1 b2 b3. rewrite (Z.mod_small b3) by lia.
  rewrite !Z.shiftr_shiftl_l, Z.shiftl_shiftl by lia.
  change (16 - 8) with 8. change (24 - 24) with 0. change (8 + 8) with 16.
  rewrite Z.shiftl_0_r, !(Z.lor_comm _ b3).
  rewrite (Z.lor_comm (Z.lor _ _) (Z.shiftl b2 8)).
  rewrite (Z.lor_comm (Z.shiftl b0 24)), !Z.lor_assoc.
  rewrite (lor_disjoint b3 b2 8) by (change (2 ^ 8) with 256; lia).
  rewrite (lor_disjoint _ b1 16) by (change (2 ^ 8) with 256; change (2 ^ 16) with 65536; lia).
  rewrite (lor_disjoint _ b0 24)
    by (change (2 ^ 8) with 256; change (2 ^ 16) with 65536; change (2 ^ 24) with 16777216; lia).
  change (2 ^ 8) with 256. change (2 ^ 16) with 65536. change (2 ^ 24) with 16777216. lia.
Qed.

(** The four bytes of a word, reversed. *)
Lemma htonl_bytes b0 b1 b2 b3 : is_u8 b0 -> is_u8 b1 -> is_u8 b2 -> is_u8 b3 ->
  _htonl (b0 + 256 * b1 + 65536 * b2 + 16777216 * b3) =
  b3 + 256 * b2 + 65536 * b1 + 16777216 * b0.
Proof.
  unfold is_u8. intros. rewrite htonl_arith by (unfold is_u32; lia).
  set (h := b0 + 256 * b1 + 65536 * b2 + 16777216 * b3).
  assert (h / 16777216 = b3) as -> by (symmetry; apply (Z.div_unique h 16777216 b3 (b0 + 256 * b1 + 65536 * b2)); lia).
  assert (h / 65536 = b2 + 256 * b3) as -> by (symmetry; apply (Z.div_unique h 65536 _ (b0 + 256 * b1)); lia).
  assert (h / 256 = b1 + 256 * (b2 + 256 * b3)) as -> by (symmetry; apply (Z.div_unique h 256 _ b0); lia).
  assert (h mod 256 = b0) as ->
    by (symmetry; apply (Z.mod_unique h 256 (b1 + 256 * (b2 + 256 * b3))); lia).
  rewrite !(Z.mul_comm 256 (_ + _)), !(Z.mul_comm 256 b3), !Z_mod_plus_full, !Z.mod_small by lia.
  lia.
Qed.

Lemma u32_bytes h : is_u32 h -> exists b0 b1 b2 b3,
  h = b0 + 256 * b1 + 65536 * b2 + 16777216 * b3 /\ is_u8 b0 /\ is_u8 b1 /\ is_u8 b2 /\ is_u8 b3.
Proof.
  unfold is_u32, is_u8. intros H.
  exists (h mod 256), (h / 256 mod 256), (h / 256 / 256 mod 256), (h / 256 / 256 / 256). zmod.
Qed.

Lemma htonl_range h : is_u32 h -> is_u32 (_htonl h).
Proof.
  intros (b0 & b1 & b2 & b3 & -> & H0 & H1 & H2 & H3)%u32_bytes.
  rewrite htonl_bytes by done. unfold is_u8, is_u32 in *. lia.
Qed.

Lemma htonl_involutive h : is_u32 h -> _htonl (_htonl h) = h.
Proof.
  intros (b0 & b1 & b2 & b3 & -> & H0 & H1 & H2 & H3)%u32_bytes.
  rewrite !htonl_bytes; done.
Qed.

#[export] Hint Resolve htonl_range : tapip.

(** ** The structs satisfy [StructOk]

    A byte string of known length is opened into its bytes, after which
    decoding and encoding compute; what is left is the arithmetic of fields. *)

Lemma le1 x : is_u8 x -> x mod 256 + 256 * 0 = x.
Proof. unfold is_u8. intros. rewrite Z.mod_small; lia. Qed.

Lemma le2 x : is_u16 x -> x mod 256 + 256 * ((x / 256) mod 256 + 256 * 0) = x.
Proof. unfold is_u16. zmod. Qed.

Lemma le4 x : is_u32 x ->
  x mod 256 + 256 * ((x / 256) mod 256 + 256 * ((x / 256 / 256) mod 256 +
    256 * ((x / 256 / 256 / 256) mod 256 + 256 * 0))) = x.
Proof. unfold is_u32. zmod. Qed.

Lemma le_byte b r : is_u8 b -> (b + 256 * r) mod 256 = b /\ (b + 256 * r) / 256 = r.
Proof. unfold is_u8. zmod. Qed.

Lemma nibbles b : is_u8 b -> b mod 16 + 16 * (b / 16) = b.
Proof. unfold is_u8. zmod. Qed.

Lemma nibbles_join a b : 0 <= a < 16 -> 0 <= b < 16 ->
  is_u8 (a + 16 * b) /\ (a + 16 * b) mod 16 = a /\ (a + 16 * b) / 16 = b.
Proof. unfold is_u8. zmod. Qed.

(** Open a list of known length into its elements. *)
Ltac open_list l :=
  lazymatch goal with
  | H : length l = O |- _ => destruct l; [clear H|discriminate H]
  | H : length l = Datatypes.S _ |- _ =>
      let b := fresh "b" in
      let r := fresh "r" in
      destruct l as [|b r]; [discriminate H|]; cbn [length] in H; apply Nat.succ_inj in H;
      open_list r
  end.

Ltac split_bytes :=
  repeat match goal with
  | H : bytes_ok (_ :: _) |- _ =>
      let H1 := fresh "Hb" in let H2 := fresh "H" in
      apply Forall_cons in H as [H1 H2]
  | H : bytes_ok [] |- _ => clear H
  | H : Forall is_u8 (_ :: _) |- _ => apply Forall_cons in H as [? H]
  | H : Forall is_u8 [] |- _ => clear H
  end.

Lemma fld_range bs off n : 0 <= n -> bytes_ok bs -> 0 <= fld bs off n < 256 ^ n.
Proof.
  intros Hn Hb. unfold fld.
  pose proof (le_dec_range (slice bs off n) (bytes_ok_slice _ _ _ Hb)) as Hr.
  assert (zlen (slice bs off n) <= n) by (unfold zlen, slice; rewrite length_take; lia).
  pose proof (Z.pow_le_mono_r 256 (zlen (slice bs off n)) n). lia.
Qed.

Lemma fld_u8 bs off : bytes_ok bs -> is_u8 (fld bs off 1).
Proof. intros. by apply (fld_range bs off 1). Qed.

Lemma fld_u16 bs off : bytes_ok bs -> is_u16 (fld bs off 2).
Proof. intros. by apply (fld_range bs off 2). Qed.

Lemma fld_u32 bs off : bytes_ok bs -> is_u32 (fld bs off 4).
Proof. intros. by apply (fld_range bs off 4). Qed.

Lemma hwaddr_slice bs off : bytes_ok bs -> 0 <= off -> off + 6 <= zlen bs -> hwaddr_ok (slice bs off 6).
Proof.
  intros. split; [by apply bytes_ok_slice|].
  pose proof (zlen_slice bs off 6). unfold zlen in *. lia.
Qed.

#[export] Hint Resolve fld_u8 fld_u16 fld_u32 : tapip.

(** Compute decoding and encoding, keeping the arithmetic of fields. *)
Ltac struct_cbv := cbv -[Z.mul Z.add Z.modulo Z.div].

Ltac bytes_eqs :=
  repeat match goal with
  | Hb : is_u8 ?b |- context [(?b + 256 * ?r) mod 256] => rewrite (proj1 (le_byte b r Hb))
  | Hb : is_u8 ?b |- context [(?b + 256 * ?r) / 256] => rewrite (proj2 (le_byte b r Hb))
  end.

#[export] Instance ether_ok : StructOk ether.
Proof.
  split; cbn -[le_enc].
  - intros e ((_ & Hd) & (_ & Hs) & _). autorewrite with bytes. unfold zlen. lia.
  - intros e ((Hd & _) & (Hs & _) & _). rewrite !bytes_ok_app. auto with tapip.
  - intros bs Hb Hl. split_and!; auto with tapip; apply hwaddr_slice; auto; lia.
  - intros [d s p] ((_ & Hd) & (_ & Hs) & Hp). cbn in Hd, Hs, Hp. open_list d. open_list s.
    struct_cbv. f_equal. by apply le2.
  - intros bs Hb Hl. assert (length bs = 14%nat) as Hl' by (unfold zlen in Hl; lia).
    clear Hl. open_list bs. split_bytes. struct_cbv. by bytes_eqs.
Qed.

#[export] Instance arp_ok : StructOk arp.
Proof.
  split; cbn -[le_enc].
  - intros a Ha. destruct_and! Ha. unfold hwaddr_ok in *. autorewrite with bytes. unfold zlen. lia.
  - intros a Ha. destruct_and! Ha. unfold hwaddr_ok in *. rewrite !bytes_ok_app.
    split_and!; auto with tapip; tauto.
  - intros bs Hb Hl. split_and!; auto with tapip; apply hwaddr_slice; auto; lia.
  - intros [h p hl pl o sha sip tha tip] Ha. cbn in Ha. unfold hwaddr_ok in Ha.
    destruct_and! Ha. open_list sha. open_list tha.
    struct_cbv. f_equal; first [by apply le1|by apply le2|by apply le4].
  - intros bs Hb Hl. assert (length bs = 28%nat) as Hl' by (unfold zlen in Hl; lia).
    clear Hl. open_list bs. split_bytes. struct_cbv. by bytes_eqs.
Qed.

#[export] Instance ip_ok : StructOk ip.
Proof.
  split; cbn -[le_enc].
  - intros h _. autorewrite with bytes. done.
  - intros h _. rewrite !bytes_ok_app. split_and!; auto with tapip.
  - intros bs Hb Hl. pose proof (fld_u8 bs 0 Hb) as Hv. unfold is_u8 in Hv.
    split_and!; auto with tapip; zmod.
  - intros [hl v t l i f tt' p c s d] Hh. cbn in Hh. destruct_and! Hh.
    destruct (nibbles_join hl v) as (Hn & Hn1 & Hn2); [lia..|].
    struct_cbv. rewrite (le1 (hl + 16 * v)) by done.
    f_equal; first [done|by apply le1|by apply le2|by apply le4].
  - intros bs Hb Hl. assert (length bs = 20%nat) as Hl' by (unfold zlen in Hl; lia).
    clear Hl. open_list bs. split_bytes. struct_cbv.
    rewrite nibbles by (change (256 * 0) with 0; by rewrite Z.add_0_r).
    by bytes_eqs.
Qed.

#[export] Instance icmp_ok : StructOk icmp.
Proof.
  split; cbn -[le_enc].
  - intros h _. autorewrite with bytes. done.
  - intros h _. rewrite !bytes_ok_app. split_and!; auto with tapip.
  - intros bs Hb Hl. split_and!; auto with tapip.
  - intros [t c k u] Hh. cbn in Hh. destruct_and! Hh.
    struct_cbv. f_equal; first [by apply le1|by apply le2|by apply le4].
  - intros bs Hb Hl. assert (length bs = 8%nat) as Hl' by (unfold zlen in Hl; lia).
    clear Hl. open_list bs. split_bytes. struct_cbv. by bytes_eqs.
Qed.

#[export] Instance udp_ok : StructOk udp.
Proof.
  split; cbn -[le_enc].
  - intros h _. autorewrite with bytes. done.
  - intros h _. rewrite !bytes_ok_app. split_and!; auto with tapip.
  - intros bs Hb Hl. split_and!; auto with tapip.
  - intros [a b c d] Hh. cbn in Hh. destruct_and! Hh.
    struct_cbv. f_equal; by apply le2.
  - intros bs Hb Hl. assert (length bs = 8%nat) as Hl' by (unfold zlen in Hl; lia).
    clear Hl. open_list bs. split_bytes. struct_cbv. by bytes_eqs.
Qed.

(** The eight bits of a byte. *)
Lemma bit_range b i : is_bit (bit b i).
Proof. apply Z.mod_pos_bound. lia. Qed.

Lemma bits_join b : is_u8 b ->
  bit b 0 + 2 * (bit b 1 + 2 * (bit b 2 + 2 * (bit b 3 + 2 * (bit b 4 + 2 * (bit b 5 +
    2 * (bit b 6 + 2 * bit b 7)))))) = b.
Proof.
  unfold is_u8, bit. change (2 ^ 0) with 1. change (2 ^ 1) with 2. change (2 ^ 2) with 4. change (2 ^ 3) with 8.
  change (2 ^ 4) with 16. change (2 ^ 5) with 32. change (2 ^ 6) with 64. change (2 ^ 7) with 128. intros. zmod.
Qed.

Lemma ctl_byte_bits h : wf_struct h ->
  is_u8 (ctl_byte h) /\ bit (ctl_byte h) 0 = tcp_fin h /\ bit (ctl_byte h) 1 = tcp_syn h /\
  bit (ctl_byte h) 2 = tcp_rst h /\ bit (ctl_byte h) 3 = tcp_psh h /\ bit (ctl_byte h) 4 = tcp_ack h /\
  bit (ctl_byte h) 5 = tcp_urg h /\ bit (ctl_byte h) 6 = tcp_ece h /\ bit (ctl_byte h) 7 = tcp_cwr h.
Proof.
  intros Hw. cbn in Hw. destruct_and! Hw. unfold ctl_byte.
  unfold is_u8, is_bit, bit in *. change (2 ^ 0) with 1. change (2 ^ 1) with 2. change (2 ^ 2) with 4.
  change (2 ^ 3) with 8. change (2 ^ 4) with 16. change (2 ^ 5) with 32. change (2 ^ 6) with 64. change (2 ^ 7) with 128.
  split_and!; zmod.
Qed.

#[export] Instance tcp_ok : StructOk tcp.
Proof.
  split; cbn -[le_enc ctl_byte bit].
  - intros h _. autorewrite with bytes. done.
  - intros h _. rewrite !bytes_ok_app. split_and!; auto with tapip.
  - intros bs Hb Hl. pose proof (fld_u8 bs 12 Hb) as Hv. unfold is_u8 in Hv.
    split_and!; auto with tapip; try apply bit_range; zmod.
  - intros h Hw. destruct (ctl_byte_bits h Hw) as (Hc & E0 & E1 & E2 & E3 & E4 & E5 & E6 & E7).
    cbn in Hw. destruct_and! Hw. destruct (nibbles_join (tcp_reserved h) (tcp_doff h)) as (Hn & Hn1 & Hn2); [lia..|].
    cbv -[Z.mul Z.add Z.modulo Z.div bit ctl_byte tcp_src tcp_dst tcp_seq tcp_ackn tcp_reserved tcp_doff
          tcp_window tcp_checksum tcp_urgptr].
    rewrite !(le1 (ctl_byte h)), !(le1 (tcp_reserved h + 16 * tcp_doff h)), E0, E1, E2, E3, E4, E5, E6, E7,
      Hn1, Hn2, !le4, !le2 by done. by destruct h.
  - intros bs Hb Hl. assert (length bs = 20%nat) as Hl' by (unfold zlen in Hl; lia).
    clear Hl. open_list bs. split_bytes. unfold ctl_byte. cbn [tcp_fin tcp_syn tcp_rst tcp_psh tcp_ack tcp_urg tcp_ece tcp_cwr].
    rewrite bits_join by (apply fld_u8; repeat first [done|constructor]). struct_cbv.
    rewrite nibbles by (change (256 * 0) with 0; by rewrite Z.add_0_r).
    by bytes_eqs.
Qed.

(** ** Property *)

(** [T] is laid over exactly its bytes: every byte string of its size is a
    well-formed value, reading and writing lose nothing either way. *)
Definition faithful (T : Type) `{Struct T} (n : Z) : Prop :=
  sizeof T = n /\
  (forall bs, bytes_ok bs -> zlen bs = n -> wf_struct (decode bs) /\ encode (decode bs) = bs) /\
  (forall t : T, wf_struct t -> decode (encode t) = t /\ zlen (encode t) = n /\ bytes_ok (encode t)).

Lemma struct_faithful (T : Type) `{StructOk T} : faithful T (sizeof T).
Proof.
  split; [done|]. split.
  - intros bs Hb Hl. split; [by apply decode_wf|by apply encode_decode].
  - intros t Ht. split_and!; [by apply decode_encode|by apply encode_len|by apply encode_ok].
Qed.

