(* ===== verification/Checksum.v ===== *)
(** * Internet checksum (lib/checksum.c)

    The C functions walk memory as [unsigned short] words on a little-endian
    host and add into an [unsigned int]; they are modelled on byte strings,
    with the 32-bit wrap-around kept.  The reference is RFC 1071: the one's
    complement sum of the words, an end-around carry at every addition. *)

From stdpp Require Import prelude list.
From Stdlib Require Import ZArith Lia.
From S2P Require Import Prelude Structs.

(** ** The code *)

Fixpoint sum (data : list Z) (origsum : Z) : Z :=
  match data with
  | b0 :: b1 :: r => sum r (u32 (origsum + (b0 + 256 * b1)))
  | [b0] => u32 (origsum + _ntohs (u16 (Z.shiftl (Z.land b0 0xff) 8)))
  | [] => origsum
  end.

Definition fold_carry (s : Z) : Z := u32 (Z.land s 0xffff + Z.shiftr s 16).

Definition checksum (data : list Z) (origsum : Z) : Z :=
  let s := sum data origsum in
  let s := fold_carry s in
  let s := fold_carry s in
  Z.land (Z.lnot s) 0xffff.

Definition ip_chksum (data : list Z) : Z := checksum data 0.
Definition icmp_chksum (data : list Z) : Z := checksum data 0.

(** [len] is the [unsigned short] the caller passes, [data] the segment. *)
Definition tcp_udp_chksum (src dst proto len : Z) (data : list Z) : Z :=
  let sum := u32 (_htons proto + _htons len) in
  let sum := u32 (sum + src) in
  let sum := u32 (sum + dst) in
  checksum data sum.

Definition tcp_chksum (src dst len : Z) (data : list Z) : Z :=
  tcp_udp_chksum src dst IP_P_TCP len data.

Definition udp_chksum (src dst len : Z) (data : list Z) : Z :=
  tcp_udp_chksum src dst IP_P_UDP len data.

(** Storing a checksum: the field at [off] is cleared, the sum is taken over
    the [size] bytes of the header or segment, and the result is stored. *)
Definition put16 (data : list Z) (off v : Z) : list Z := patch data off (le_enc 2 v).

Definition ip_set_checksum_bytes (hdr : list Z) : list Z :=
  let hdr := put16 hdr 10 0 in
  put16 hdr 10 (ip_chksum hdr).

Definition tcp_set_checksum_bytes (src dst : Z) (seg : list Z) : list Z :=
  let seg := put16 seg 16 0 in
  put16 seg 16 (tcp_udp_chksum src dst IP_P_TCP (u16 (zlen seg)) seg).

Definition udp_set_checksum_bytes (src dst : Z) (seg : list Z) : list Z :=
  let seg := put16 seg 6 0 in
  let c := tcp_udp_chksum src dst IP_P_UDP (u16 (zlen seg)) seg in
  put16 seg 6 (if c =? 0 then 0xffff else c).

(** ** The reference: RFC 1071 *)

(** The 16-bit words of a byte string, an odd last byte padded with zero. *)
Fixpoint words (data : list Z) : list Z :=
  match data with
  | b0 :: b1 :: r => (b0 + 256 * b1) :: words r
  | [b0] => [b0]
  | [] => []
  end.

Definition onec_add (x y : Z) : Z := (x + y) mod 65536 + (x + y) / 65536.

Definition rfc_sum (ws : list Z) : Z := fold_left onec_add ws 0.

Definition rfc1071 (ws : list Z) : Z := 65535 - rfc_sum ws.

(** The pseudo header of RFC 793 and RFC 768, as the host loads its words. *)
Definition pseudo_words (src dst proto len : Z) : list Z :=
  [src mod 65536; src / 65536; dst mod 65536; dst / 65536; _htons proto; _htons len].

(** ** Lemmas *)

(** The unbounded sum of the words, and its one's complement representative. *)
Definition wsum (data : list Z) : Z := foldr Z.add 0 (words data).
Definition onec (s : Z) : Z := if s =? 0 then 0 else (s - 1) mod 65535 + 1.

(** Induction on a byte string two bytes at a time. *)
Lemma pair_ind (P : list Z -> Prop) :
  P [] -> (forall b, P [b]) -> (forall b0 b1 r, P r -> P (b0 :: b1 :: r)) -> forall l, P l.
Proof.
  intros H0 H1 H2. enough (forall l, P l /\ forall b, P (b :: l)) as H by apply H.
  induction l as [|b l [IH IH']]; split; auto.
Qed.

Lemma wsum_nonneg data : bytes_ok data -> 0 <= wsum data.
Proof.
  unfold wsum. induction data as [|b|b0 b1 r IH] using pair_ind; intros Hb; simpl; [done| |];
    unfold bytes_ok in *; rewrite ?Forall_cons in Hb; unfold is_u8 in *; [lia|].
  destruct Hb as (? & ? & ?). specialize (IH ltac:(done)). lia.
Qed.

Lemma wsum_bound data : bytes_ok data -> wsum data <= 65535 * ((zlen data + 1) / 2).
Proof.
  unfold wsum. induction data as [|b|b0 b1 r IH] using pair_ind; intros Hb; [done| |];
    unfold bytes_ok in *; rewrite ?Forall_cons in Hb; unfold is_u8 in *.
  - change ((zlen [b] + 1) / 2) with 1. cbn [words foldr]. lia.
  - destruct Hb as (? & ? & ?). specialize (IH ltac:(done)). cbn [words foldr].
    rewrite !zlen_cons. replace (1 + (1 + zlen r) + 1) with (zlen r + 1 + 1 * 2) by lia.
    rewrite Z.div_add by lia. lia.
Qed.

Lemma odd_byte b : is_u8 b -> _ntohs (u16 (Z.shiftl (Z.land b 255) 8)) = b.
Proof.
  unfold is_u8. intros Hb. rewrite land_255, (Z.mod_small b), Z.shiftl_mul_pow2 by lia.
  change (2 ^ 8) with 256. unfold _ntohs.
  rewrite u16_small by (unfold is_u16; lia).
  rewrite htons_arith by (unfold is_u16; lia).
  rewrite Z.div_mul, Z.mod_mul by lia. lia.
Qed.

Lemma sum_wsum data o : bytes_ok data -> is_u32 o -> sum data o = u32 (o + wsum data).
Proof.
  unfold wsum. revert o.
  induction data as [|b|b0 b1 r IH] using pair_ind; intros o Hb Ho; cbn [sum words foldr].
  - by rewrite Z.add_0_r, u32_small.
  - unfold bytes_ok in Hb. rewrite Forall_cons in Hb. rewrite odd_byte by tauto.
    by rewrite Z.add_0_r.
  - unfold bytes_ok in Hb. rewrite !Forall_cons in Hb. destruct Hb as (? & ? & ?).
    rewrite IH by (try done; apply u32_range). unfold u32.
    rewrite Zplus_mod_idemp_l. f_equal. lia.
Qed.

Lemma onec_range s : 0 <= s -> 0 <= onec s <= 65535.
Proof. unfold onec. intros. case_if; [lia|]. zmod. Qed.

(** [onec] is determined by the residue modulo 65535 and by being zero. *)
Lemma onec_unique s r :
  0 <= s -> 0 <= r <= 65535 -> r mod 65535 = s mod 65535 -> (r = 0 <-> s = 0) -> r = onec s.
Proof.
  intros Hs Hr Hm Hz. unfold onec. case_if.
  - lia.
  - assert (s <> 0 /\ r <> 0) by lia.
    assert (s mod 65535 = ((s - 1) mod 65535 + 1) mod 65535) as Hs'
      by (rewrite Zplus_mod_idemp_l; f_equal; lia).
    pose proof (Z.mod_pos_bound (s - 1) 65535). zmod.
Qed.

Lemma carry_mod t : (t mod 65536 + t / 65536) mod 65535 = t mod 65535.
Proof.
  rewrite <- (Z_mod_plus_full (t mod 65536 + t / 65536) (t / 65536) 65535). f_equal.
  pose proof (Z.div_mod t 65536). lia.
Qed.

Lemma fold_carry_twice s : is_u32 s -> fold_carry (fold_carry s) = onec s.
Proof.
  unfold is_u32, fold_carry. intros Hs. rewrite !land_65535, !shiftr_16.
  set (f := s mod 65536 + s / 65536). assert (0 <= f <= 131070) by (subst f; zmod).
  rewrite (u32_small f) by (unfold is_u32; lia).
  set (g := f mod 65536 + f / 65536). assert (0 <= g <= 65535) by (subst g; zmod).
  rewrite u32_small by (unfold is_u32; lia).
  apply onec_unique; [lia|done| |subst f g; zmod].
  subst g f. by rewrite !carry_mod.
Qed.

Lemma lnot_16 s : 0 <= s <= 65535 -> Z.land (Z.lnot s) 65535 = 65535 - s.
Proof. intros. rewrite land_65535. unfold Z.lnot. zmod. Qed.

(** The closed form of the C function. *)
Lemma checksum_onec data o :
  bytes_ok data -> is_u32 o -> checksum data o = 65535 - onec (u32 (o + wsum data)).
Proof.
  intros Hb Ho. unfold checksum. rewrite sum_wsum by done.
  rewrite fold_carry_twice by apply u32_range.
  apply lnot_16, onec_range. pose proof (u32_range (o + wsum data)) as H. unfold is_u32 in H. lia.
Qed.

Lemma checksum_range data o : bytes_ok data -> is_u32 o -> is_u16 (checksum data o).
Proof.
  intros. rewrite checksum_onec by done. pose proof (u32_range (o + wsum data)) as Hu.
  unfold is_u32 in Hu. pose proof (onec_range (u32 (o + wsum data))). unfold is_u16. lia.
Qed.

Lemma onec_add_onec s w : 0 <= s -> 0 <= w <= 65535 -> onec_add (onec s) w = onec (s + w).
Proof.
  intros Hs Hw. pose proof (onec_range s Hs) as Hr. unfold onec_add.
  set (t := onec s + w). assert (0 <= t <= 131070) by (subst t; lia).
  apply onec_unique; [lia|zmod| |].
  - transitivity (t mod 65535).
    + apply carry_mod.
    + subst t. unfold onec. case_if; [f_equal; lia|].
      replace ((s - 1) mod 65535 + 1 + w) with ((s - 1) mod 65535 + (1 + w)) by lia.
      rewrite Zplus_mod_idemp_l. f_equal. lia.
  - assert (onec s = 0 <-> s = 0).
    { unfold onec. case_if; [lia|]. pose proof (Z.mod_pos_bound (s - 1) 65535). lia. }
    subst t. zmod.
Qed.

Lemma rfc_sum_onec ws : Forall is_u16 ws -> rfc_sum ws = onec (foldr Z.add 0 ws).
Proof.
  intros Hw. unfold rfc_sum. change 0 with (onec 0) at 1.
  assert (H : forall s, 0 <= s -> fold_left onec_add ws (onec s) = onec (s + foldr Z.add 0 ws)).
  { induction Hw as [|w ws Hw _ IH]; intros s Hs; cbn [fold_left foldr]; [f_equal; lia|].
    unfold is_u16 in Hw. rewrite onec_add_onec, IH by lia. f_equal. lia. }
  by rewrite H by lia.
Qed.

Lemma words_u16 data : bytes_ok data -> Forall is_u16 (words data).
Proof.
  induction data as [|b|b0 b1 r IH] using pair_ind; intros Hb; cbn; [constructor| |];
    unfold bytes_ok in *; rewrite ?Forall_cons in *; unfold is_u8, is_u16 in *.
  - split; [lia|constructor].
  - split; [lia|apply IH; tauto].
Qed.

Lemma onec_zero_sum s c : 0 <= s -> c = 65535 - onec s -> onec (s + c) = 65535.
Proof.
  intros Hs ->. symmetry. pose proof (onec_range s Hs).
  apply onec_unique; [lia|lia| |].
  - unfold onec. case_if; [replace s with 0 by lia; done|].
    replace (s + (65535 - ((s - 1) mod 65535 + 1)))
      with ((s - 1) - (s - 1) mod 65535 + 1 * 65535) by lia.
    rewrite Z_mod_plus_full, Zminus_mod_idemp_r, Z.sub_diag. done.
  - unfold onec in *. case_if; [lia|]. split; [lia|].
    pose proof (Z.mod_pos_bound (s - 1) 65535). zmod.
Qed.

Lemma onec_shift s : 0 < s -> onec (s + 65535) = onec s.
Proof.
  intros Hs. unfold onec. repeat case_if; try lia.
  replace (s + 65535 - 1) with (s - 1 + 1 * 65535) by lia. by rewrite Z_mod_plus_full.
Qed.

(** A verified sum is all ones before the complement. *)
Lemma checksum_zero_iff data o :
  bytes_ok data -> is_u32 o ->
  checksum data o = 0 <-> onec (u32 (o + wsum data)) = 65535.
Proof. intros. rewrite checksum_onec by done. lia. Qed.

(** Storing a word at an even offset adds it to the sum of the rest. *)
Lemma wsum_store n data v :
  (2 * n + 2 <= length data)%nat -> is_u16 v ->
  foldr Z.add 0 (words (take (2 * n) data ++ le_enc 2 v ++ drop (2 * n + 2) data)) =
  foldr Z.add 0 (words (take (2 * n) data ++ le_enc 2 0 ++ drop (2 * n + 2) data)) + v.
Proof.
  intros Hl Hv. revert data Hl. induction n as [|n IH]; intros data Hl.
  - destruct data as [|b0 [|b1 data]]; cbn [length] in Hl; [lia..|].
    cbn -[Z.mul Z.add Z.modulo Z.div]. unfold is_u16 in *. zmod.
  - destruct data as [|b0 [|b1 data]]; cbn [length] in Hl; [lia..|].
    replace (2 * S n)%nat with (S (S (2 * n))) by lia.
    cbn [take drop app words foldr Nat.add]. rewrite IH by lia. lia.
Qed.

Lemma wsum_put16 data k v :
  0 <= k -> 2 * k + 2 <= zlen data -> is_u16 v ->
  wsum (put16 data (2 * k) v) = wsum (put16 data (2 * k) 0) + v.
Proof.
  unfold put16, wsum, patch. rewrite !le_enc_length. intros Hk Hl Hv.
  replace (Z.to_nat (2 * k)) with (2 * Z.to_nat k)%nat by lia.
  apply wsum_store; [unfold zlen in Hl; lia|done].
Qed.

Lemma put16_put16 data off v w : 0 <= off -> off + 2 <= zlen data ->
  put16 (put16 data off v) off w = put16 data off w.
Proof. intros. unfold put16. apply patch_patch_eq; rewrite ?zlen_le_enc; lia. Qed.

Lemma put16_ok data off v : bytes_ok data -> bytes_ok (put16 data off v).
Proof. intros. unfold put16. auto with tapip. Qed.

Lemma put16_len data off v : 0 <= off -> off + 2 <= zlen data -> zlen (put16 data off v) = zlen data.
Proof. intros. unfold put16. apply zlen_patch; rewrite ?zlen_le_enc; lia. Qed.

#[export] Hint Resolve put16_ok : tapip.

(** Filling the checksum field makes the sum of the whole verify, as long as
    the 32-bit accumulator does not wrap. *)
Lemma checksum_fill data k o c :
  bytes_ok data -> is_u32 o -> 0 <= k -> 2 * k + 2 <= zlen data ->
  is_u32 (o + wsum (put16 data (2 * k) 0) + 65535) ->
  c = checksum (put16 data (2 * k) 0) o \/ (c = 65535 /\ checksum (put16 data (2 * k) 0) o = 0) ->
  checksum (put16 data (2 * k) c) o = 0.
Proof.
  intros Hb Ho Hk Hl Hw Hc.
  pose proof (wsum_nonneg (put16 data (2 * k) 0) (put16_ok _ _ _ Hb)) as Hn.
  set (s := o + wsum (put16 data (2 * k) 0)) in *. unfold is_u32 in Ho, Hw.
  assert (Hcs : checksum (put16 data (2 * k) 0) o = 65535 - onec s).
  { rewrite checksum_onec by auto with tapip. by rewrite u32_small by (unfold is_u32; lia). }
  rewrite Hcs in Hc. assert (0 <= s) by lia. pose proof (onec_range s ltac:(done)).
  assert (is_u16 c) by (unfold is_u16; lia).
  apply checksum_zero_iff; [auto with tapip|done|].
  rewrite wsum_put16 by done. rewrite Z.add_assoc. fold s.
  rewrite u32_small by (unfold is_u32, is_u16 in *; lia).
  destruct Hc as [->|[-> E]]; [by apply onec_zero_sum|].
  rewrite onec_shift; [lia|].
  destruct (decide (s = 0)) as [E0|]; [rewrite E0 in E; cbn in E|]; lia.
Qed.

Lemma wsum_small data : bytes_ok data -> zlen data <= 131070 -> 0 <= wsum data /\ wsum data + 65535 < 4294967296.
Proof.
  intros Hb Hl. pose proof (wsum_nonneg data Hb). pose proof (wsum_bound data Hb).
  assert ((zlen data + 1) / 2 <= 65535) by zmod. lia.
Qed.

Lemma onec_mod s : 0 <= s -> onec s mod 65535 = s mod 65535.
Proof.
  intros Hs. unfold onec. case_if; [f_equal; lia|].
  rewrite Zplus_mod_idemp_l. f_equal. lia.
Qed.

Lemma onec_zero s : 0 <= s -> onec s = 0 <-> s = 0.
Proof.
  intros Hs. unfold onec. case_if; [lia|]. pose proof (Z.mod_pos_bound (s - 1) 65535). lia.
Qed.

(** Equal one's complement values have equal residues. *)
Lemma onec_eq_iff a b :
  0 <= a -> 0 <= b -> onec a = onec b <-> a mod 65535 = b mod 65535 /\ (a = 0 <-> b = 0).
Proof.
  intros Ha Hb. split.
  - intros E. split; [by rewrite <- (onec_mod a), E, onec_mod|].
    rewrite <- onec_zero, <- (onec_zero b) by done. by rewrite E.
  - intros [Hm Hz]. apply onec_unique; [done|by apply onec_range| |].
    + by rewrite onec_mod.
    + by rewrite onec_zero.
Qed.

(** What the pseudo header adds, before the 32-bit wrap. *)
Definition pseudo_total (src dst proto len : Z) (data : list Z) : Z :=
  _htons proto + _htons len + src + dst + wsum data.

Lemma tcp_udp_chksum_onec src dst proto len data :
  bytes_ok data ->
  tcp_udp_chksum src dst proto len data = 65535 - onec (u32 (pseudo_total src dst proto len data)).
Proof.
  intros Hb. unfold tcp_udp_chksum, pseudo_total.
  rewrite checksum_onec by auto with tapip. unfold u32.
  do 2 f_equal.
  rewrite Zplus_mod_idemp_l, <- Z.add_assoc, Zplus_mod_idemp_l, <- Z.add_assoc, Zplus_mod_idemp_l.
  f_equal. lia.
Qed.

Lemma rfc1071_pseudo src dst proto len data :
  bytes_ok data -> is_u32 src -> is_u32 dst ->
  rfc1071 (pseudo_words src dst proto len ++ words data) =
  65535 - onec (pseudo_total src dst proto len data).
Proof.
  unfold is_u32. intros Hb Hs Hd. unfold rfc1071. f_equal.
  pose proof (htons_range proto) as Hp. pose proof (htons_range len) as Hl.
  pose proof (wsum_nonneg data Hb).
  rewrite rfc_sum_onec.
  2: { apply Forall_app. split; [|by apply words_u16]. unfold pseudo_words, is_u16 in *.
       repeat (apply Forall_cons; split; [first [done|zmod]|]). apply Forall_nil. exact I. }
  rewrite foldr_app. fold (wsum data). unfold pseudo_words, pseudo_total, is_u16 in *.
  set (w := wsum data) in *. cbn [foldr].
  assert (Hc : forall x, 0 <= x -> exists q, 0 <= q /\ x = x mod 65536 + x / 65536 + q * 65535 /\
    0 <= x mod 65536 /\ 0 <= x / 65536 /\ (x mod 65536 + x / 65536 = 0 -> q = 0)).
  { intros x Hx. exists (x / 65536). zmod. }
  destruct (Hc src) as (q1 & ? & E1 & ?); [lia|]. destruct (Hc dst) as (q2 & ? & E2 & ?); [lia|].
  set (a1 := src mod 65536) in *. set (a2 := src / 65536) in *.
  set (a3 := dst mod 65536) in *. set (a4 := dst / 65536) in *.
  apply onec_eq_iff; [lia|lia|]. rewrite E1, E2. split; [|lia].
  match goal with |- _ = ?r mod _ => replace r with
    (a1 + (a2 + (a3 + (a4 + (_htons proto + (_htons len + w))))) + (q1 + q2) * 65535) by lia end.
  by rewrite Z_mod_plus_full.
Qed.

Lemma tcp_udp_chksum_range src dst proto len data :
  bytes_ok data -> is_u16 (tcp_udp_chksum src dst proto len data).
Proof. intros. unfold tcp_udp_chksum. auto using checksum_range with tapip. Qed.

(** Filling the checksum of a segment under its pseudo header. *)
Lemma segment_fill src dst proto len seg k c :
  bytes_ok seg -> 0 <= k -> 2 * k + 2 <= zlen seg -> 0 <= src -> 0 <= dst ->
  pseudo_total src dst proto len (put16 seg (2 * k) 0) + 65535 < 4294967296 ->
  c = tcp_udp_chksum src dst proto len (put16 seg (2 * k) 0) \/
  (c = 65535 /\ tcp_udp_chksum src dst proto len (put16 seg (2 * k) 0) = 0) ->
  tcp_udp_chksum src dst proto len (put16 seg (2 * k) c) = 0.
Proof.
  intros Hb Hk Hl Hs Hd Ht Hc. unfold tcp_udp_chksum in *.
  set (o := u32 (u32 (u32 (_htons proto + _htons len) + src) + dst)) in *.
  pose proof (htons_range proto). pose proof (htons_range len).
  pose proof (wsum_nonneg (put16 seg (2 * k) 0) (put16_ok _ _ _ Hb)).
  assert (o = _htons proto + _htons len + src + dst) as Ho.
  { subst o. unfold pseudo_total, is_u16 in *. unfold u32.
    rewrite (Z.mod_small (_htons proto + _htons len)) by lia.
    rewrite (Z.mod_small (_ + src)) by lia. apply Z.mod_small. lia. }
  apply checksum_fill; auto; [subst o; auto with tapip|].
  unfold pseudo_total, is_u16, is_u32 in *. lia.
Qed.

(** ** Properties *)

(** C20: for every byte string of at most 131070 bytes, the checksum computed by
    the code equals the RFC 1071 checksum of its 16-bit words: adding into 32
    bits and folding the carries twice at the end loses nothing. *)
Theorem ip_chksum_rfc1071 (data : list Z) :
  bytes_ok data -> zlen data <= 131070 -> ip_chksum data = rfc1071 (words data).
Proof.
  intros Hb Hl. pose proof (wsum_small data Hb Hl). unfold ip_chksum, rfc1071.
  rewrite checksum_onec, rfc_sum_onec by (auto using words_u16; done).
  by rewrite u32_small by (unfold is_u32; lia).
Qed.

Lemma ip_chksum_rfc1071_witness :
  ip_chksum [0x45; 0x00; 0x00; 0x54; 0x00] = rfc1071 (words [0x45; 0x00; 0x00; 0x54; 0x00]).
Proof.
  apply ip_chksum_rfc1071; [|by vm_compute].
  repeat (apply Forall_cons; split; [unfold is_u8; lia|]). apply Forall_nil. exact I.
Defined.

(** A header that went through ip_set_checksum passes the receiver's test
    [ip_chksum(...) == 0] in ip_in. *)
Lemma ip_set_checksum_verifies (hdr : list Z) :
  bytes_ok hdr -> 12 <= zlen hdr <= 131070 -> ip_chksum (ip_set_checksum_bytes hdr) = 0.
Proof.
  intros Hb Hl. unfold ip_set_checksum_bytes, ip_chksum.
  rewrite put16_put16 by lia. change 10 with (2 * 5).
  pose proof (wsum_small (put16 hdr (2 * 5) 0) (put16_ok _ _ _ Hb)) as Hw.
  rewrite put16_len in Hw by lia.
  apply checksum_fill; [done|done|lia|lia|unfold is_u32; lia|by left].
Qed.

Lemma ip_set_checksum_verifies_witness :
  ip_chksum (ip_set_checksum_bytes (0x45 :: replicate 19 7)) = 0.
Proof.
  apply ip_set_checksum_verifies; [|by vm_compute].
  apply Forall_cons. split; [unfold is_u8; lia|]. apply Forall_replicate. unfold is_u8. lia.
Defined.

(** C21: over a pseudo header and segment, the TCP/UDP checksum of the code is
    the RFC one exactly when the sum of the two addresses, protocol, length and
    words fits the 32-bit accumulator: the carry out of [sum += src; sum += dst]
    is not folded back, so two addresses whose last octets add up to 256 or more
    get a wrong checksum. *)
Theorem tcp_udp_chksum_rfc_iff (src dst proto len : Z) (data : list Z) :
  bytes_ok data -> zlen data <= 131070 -> is_u32 src -> is_u32 dst ->
  tcp_udp_chksum src dst proto len data =
    rfc1071 (pseudo_words src dst proto len ++ words data) <->
  pseudo_total src dst proto len data < 4294967296.
Proof.
  intros Hb Hl Hs Hd. pose proof (wsum_small data Hb Hl).
  pose proof (htons_range proto) as Hp. pose proof (htons_range len) as Hn.
  unfold is_u16, is_u32 in *.
  rewrite tcp_udp_chksum_onec, rfc1071_pseudo by done.
  assert (Ht : 0 <= pseudo_total src dst proto len data < 4 * 4294967296) by (unfold pseudo_total; lia).
  set (t := pseudo_total src dst proto len data) in *.
  pose proof (u32_range t) as Hu. unfold is_u32 in Hu.
  split; [|intros; rewrite u32_small; unfold is_u32; lia].
  intros E. assert (E' : onec (u32 t) = onec t) by lia.
  apply onec_eq_iff in E' as [Hm _]; [|lia|lia].
  destruct (Z.lt_ge_cases t 4294967296) as [|Hge]; [done|exfalso].
  unfold u32 in *. clear -Ht Hm Hge. zmod.
Qed.

Lemma tcp_udp_chksum_rfc_iff_witness :
  tcp_udp_chksum 0x0100000a 0x0200000a IP_P_UDP 9 [0x30; 0x39; 0; 53; 0; 9; 0; 0; 65] =
    rfc1071 (pseudo_words 0x0100000a 0x0200000a IP_P_UDP 9 ++
             words [0x30; 0x39; 0; 53; 0; 9; 0; 0; 65]) /\
  tcp_udp_chksum 0xc800000a 0x6400000a IP_P_UDP 9 [0x30; 0x39; 0; 53; 0; 9; 0; 0; 65] <>
    rfc1071 (pseudo_words 0xc800000a 0x6400000a IP_P_UDP 9 ++
             words [0x30; 0x39; 0; 53; 0; 9; 0; 0; 65]).
Proof.
  assert (Hb : bytes_ok [0x30; 0x39; 0; 53; 0; 9; 0; 0; 65]).
  { repeat (apply Forall_cons; split; [unfold is_u8; lia|]). apply Forall_nil. exact I. }
  split.
  - apply (tcp_udp_chksum_rfc_iff 0x0100000a 0x0200000a IP_P_UDP 9 _ Hb); by vm_compute.
  - destruct (tcp_udp_chksum_rfc_iff 0xc800000a 0x6400000a IP_P_UDP 9 _ Hb ltac:(by vm_compute)
      ltac:(by vm_compute) ltac:(by vm_compute)) as [H _].
    intros E. apply H in E. clear H Hb. vm_compute in E. discriminate E.
Defined.

(** A segment filled by tcp_set_checksum or udp_set_checksum passes the test
    of tcp_in and udp_in, when the accumulator does not wrap; the UDP checksum
    stored is never the "no checksum" value 0. *)
Lemma l4_set_checksum_verifies (src dst : Z) (seg : list Z) :
  bytes_ok seg -> 18 <= zlen seg <= 65535 ->
  pseudo_total src dst IP_P_TCP (zlen seg) (put16 seg 16 0) + 65535 < 4294967296 ->
  pseudo_total src dst IP_P_UDP (zlen seg) (put16 seg 6 0) + 65535 < 4294967296 ->
  0 <= src -> 0 <= dst ->
  tcp_chksum src dst (zlen seg) (tcp_set_checksum_bytes src dst seg) = 0 /\
  udp_chksum src dst (zlen seg) (udp_set_checksum_bytes src dst seg) = 0 /\
  fld (udp_set_checksum_bytes src dst seg) 6 2 <> 0.
Proof.
  intros Hb Hl Ht Hu Hs Hd.
  unfold tcp_chksum, udp_chksum, tcp_set_checksum_bytes, udp_set_checksum_bytes.
  rewrite !put16_put16, !put16_len by lia. rewrite (u16_small (zlen seg)) by (unfold is_u16; lia).
  split; [|split].
  - change 16 with (2 * 8). apply (segment_fill _ _ IP_P_TCP (zlen seg) seg 8); auto; lia.
  - change 6 with (2 * 3). apply (segment_fill _ _ IP_P_UDP (zlen seg) seg 3); auto; [lia|lia|].
    case_if; [right; lia|by left].
  - unfold fld, put16. rewrite slice_patch_eq by (rewrite ?zlen_le_enc; lia).
    pose proof (tcp_udp_chksum_range src dst IP_P_UDP (zlen seg) (put16 seg 6 0) (put16_ok _ _ _ Hb)).
    unfold is_u16 in *. fold (put16 seg 6 0). rewrite le_dec_enc; case_if; lia.
Qed.

Lemma l4_set_checksum_verifies_witness :
  tcp_chksum 0x0100000a 0x0200000a 20
    (tcp_set_checksum_bytes 0x0100000a 0x0200000a (replicate 20 9)) = 0 /\
  udp_chksum 0x0100000a 0x0200000a 20
    (udp_set_checksum_bytes 0x0100000a 0x0200000a (replicate 20 9)) = 0 /\
  fld (udp_set_checksum_bytes 0x0100000a 0x0200000a (replicate 20 9)) 6 2 <> 0.
Proof.
  apply (l4_set_checksum_verifies 0x0100000a 0x0200000a (replicate 20 9)); try by vm_compute.
  apply Forall_replicate. unfold is_u8. lia.
Defined.
