(* ===== verification/Ring.v ===== *)
(** * Circular buffers: the shared theory

    lib/cbuf.c and net/fast_pipe.c both keep a byte queue in a fixed array that
    wraps around.  [ring buf cap tail used] is the queue such an array holds:
    the [used] bytes from position [tail], indices taken modulo [cap].  The
    lemmas below are about one [memcpy] that does not cross the end of the
    array; both components split their copies into such pieces. *)

From stdpp Require Import prelude list list_numbers.
From Stdlib Require Import ZArith Lia.
From S2P Require Import Prelude.

Definition zget (l : list Z) (i : Z) : Z := nth (Z.to_nat i) l 0.

Definition ring (buf : list Z) (cap tail used : Z) : list Z :=
  (fun i => zget buf ((tail + i) mod cap)) <$> seqZ 0 used.

(** ** Reading a list by index *)

Lemma zget_slice l o n i : 0 <= o -> 0 <= i < n -> zget (slice l o n) i = zget l (o + i).
Proof.
  unfold zget, slice. intros. rewrite !nth_lookup.
  rewrite lookup_take_lt by lia. rewrite lookup_drop. do 2 f_equal. lia.
Qed.

Lemma zget_patch_in l off d i :
  0 <= off -> off + zlen d <= zlen l -> off <= i < off + zlen d ->
  zget (patch l off d) i = zget d (i - off).
Proof.
  intros. rewrite <- (slice_patch_eq l off d (zlen d)) at 2 by lia.
  rewrite zget_slice by lia. f_equal. lia.
Qed.

Lemma zget_patch_out l off d i :
  0 <= off -> off + zlen d <= zlen l -> 0 <= i -> i < off \/ off + zlen d <= i ->
  zget (patch l off d) i = zget l i.
Proof.
  intros Ho Hd Hi Hr. pose proof (zlen_nonneg d).
  assert (E : forall l, zget l i = zget (slice l i 1) 0)
    by (intros m; rewrite zget_slice, Z.add_0_r by lia; done).
  rewrite !E.
  destruct Hr; [rewrite slice_patch_before by lia|rewrite slice_patch_after by lia]; done.
Qed.

Lemma fmap_zget l : l = zget l <$> seqZ 0 (zlen l).
Proof.
  apply list_eq. intros i. rewrite list_lookup_fmap.
  destruct (decide (i < length l)%nat) as [Hi|Hi].
  - rewrite lookup_seqZ_lt by (unfold zlen; lia). cbn. unfold zget.
    rewrite Z.add_0_l, Nat2Z.id, nth_lookup. by destruct (lookup_lt_is_Some_2 l i Hi) as [x ->].
  - rewrite lookup_seqZ_ge by (unfold zlen; lia). cbn. apply lookup_ge_None. lia.
Qed.

Lemma slice_fmap l o n :
  0 <= o -> 0 <= n -> o + n <= zlen l -> slice l o n = (fun i => zget l (o + i)) <$> seqZ 0 n.
Proof.
  intros. rewrite (fmap_zget (slice l o n)), zlen_slice by lia.
  apply list_fmap_ext. intros j ? [-> Hi]%lookup_seqZ. apply zget_slice; lia.
Qed.

(** ** The queue in a ring *)

Lemma ring_len buf cap tail used : 0 <= used -> zlen (ring buf cap tail used) = used.
Proof. intros. unfold ring, zlen. rewrite length_fmap, length_seqZ. lia. Qed.

Lemma ring_nil buf cap tail : ring buf cap tail 0 = [].
Proof. done. Qed.

(** Only the position modulo the capacity matters. *)
Lemma ring_mod buf cap t1 t2 used :
  cap <> 0 -> t1 mod cap = t2 mod cap -> ring buf cap t1 used = ring buf cap t2 used.
Proof.
  intros Hc E. unfold ring. apply list_fmap_ext. intros j i _. f_equal.
  by rewrite <- (Zplus_mod_idemp_l t1), E, Zplus_mod_idemp_l.
Qed.

Lemma ring_split buf cap tail a b :
  0 <= a -> 0 <= b ->
  ring buf cap tail (a + b) = ring buf cap tail a ++ ring buf cap (tail + a) b.
Proof.
  intros. unfold ring. rewrite seqZ_app, fmap_app by lia. f_equal.
  apply list_eq. intros i. rewrite !list_lookup_fmap.
  destruct (decide (Z.of_nat i < b)).
  - rewrite !lookup_seqZ_lt by lia. cbn. do 3 f_equal. lia.
  - rewrite !lookup_seqZ_ge by lia. done.
Qed.

(** A contiguous piece of the queue. *)
Lemma ring_slice buf cap tail n :
  0 < cap -> zlen buf = cap -> 0 <= n -> tail mod cap + n <= cap ->
  ring buf cap tail n = slice buf (tail mod cap) n.
Proof.
  intros Hc Hb Hn Hf. pose proof (Z.mod_pos_bound tail cap Hc).
  rewrite slice_fmap by lia. unfold ring. apply list_fmap_ext.
  intros j ? [-> Hi]%lookup_seqZ. f_equal.
  rewrite <- Zplus_mod_idemp_l. apply Z.mod_small. lia.
Qed.

(** A write that stays clear of the queue leaves it alone. *)
Lemma ring_patch_free buf cap tail used off d :
  0 < cap -> zlen buf = cap -> 0 <= used -> used + zlen d <= cap ->
  off = (tail + used) mod cap -> off + zlen d <= cap ->
  ring (patch buf off d) cap tail used = ring buf cap tail used.
Proof.
  intros Hc Hb Hu Hd Ho Hf. unfold ring. apply list_fmap_ext.
  intros j ? [-> Hi]%lookup_seqZ. rewrite Z.add_0_l in *.
  pose proof (Z.mod_pos_bound (tail + used) cap Hc).
  pose proof (Z.mod_pos_bound (tail + Z.of_nat j) cap Hc).
  pose proof (zlen_nonneg d).
  apply zget_patch_out; [lia|lia|lia|].
  set (k := Z.of_nat j) in *. subst off.
  rewrite (Z.mod_eq (tail + used)), (Z.mod_eq (tail + k)) in * by lia.
  set (q1 := (tail + used) / cap) in *. set (q2 := (tail + k) / cap) in *.
  destruct (Z.lt_trichotomy q1 q2) as [|[->|]]; [nia|lia|nia].
Qed.

(** Appending [d] at the write position. *)
Lemma ring_push buf cap tail used off d :
  0 < cap -> zlen buf = cap -> 0 <= used -> used + zlen d <= cap ->
  off = (tail + used) mod cap -> off + zlen d <= cap ->
  ring (patch buf off d) cap tail (used + zlen d) = ring buf cap tail used ++ d.
Proof.
  intros Hc Hb Hu Hd Ho Hf. pose proof (zlen_nonneg d).
  rewrite ring_split, ring_patch_free by lia. f_equal.
  pose proof (Z.mod_pos_bound (tail + used) cap Hc).
  rewrite ring_slice by (rewrite ?zlen_patch; lia).
  rewrite <- Ho. apply slice_patch_eq; lia.
Qed.

(** Taking [n] bytes at the read position. *)
Lemma ring_pop buf cap tail used n :
  0 < cap -> zlen buf = cap -> 0 <= n <= used -> tail mod cap + n <= cap ->
  ring buf cap tail used = slice buf (tail mod cap) n ++ ring buf cap (tail + n) (used - n).
Proof.
  intros. replace used with (n + (used - n)) at 1 by lia.
  rewrite ring_split, ring_slice by lia. done.
Qed.
