(* ===== verification/Cbuf.v ===== *)
(** * The TCP receive buffer: lib/cbuf.c, include/cbuf.h

    A computation over [option cbuf], the [struct cbuf *] of the caller (NULL
    is [None]).  Each [memcpy] faults outside the array or the user's buffer.
    The specification is a byte queue: [content]. *)

From stdpp Require Import prelude list list_numbers.
From Stdlib Require Import ZArith Lia.
From S2P Require Import Prelude Ring.

(** ** The code *)

Record cbuf := mk_cbuf {
  head : Z;   (* write point *)
  tail : Z;   (* read point *)
  size : Z;
  buf : list Z
}.

Definition alloc_cbuf (size : Z) : cbuf := mk_cbuf 0 0 size (replicate (Z.to_nat size) 0).

(** The macros of cbuf.h; [%] on [int] is [Z.rem]. *)
Definition _CBUFHEAD (cb : cbuf) : Z := Z.rem (head cb) (size cb).
Definition _CBUFTAIL (cb : cbuf) : Z := Z.rem (tail cb) (size cb).
Definition CBUFUSED (cb : cbuf) : Z := head cb - tail cb.
Definition CBUFFREE (cb : cbuf) : Z := size cb - CBUFUSED cb.
Definition CBUFHEADRIGHT (cb : cbuf) : Z :=
  if _CBUFTAIL cb <=? _CBUFHEAD cb then size cb - _CBUFHEAD cb
  else _CBUFTAIL cb - _CBUFHEAD cb.
Definition CBUFTAILRIGHT (cb : cbuf) : Z :=
  if _CBUFTAIL cb <? _CBUFHEAD cb then CBUFUSED cb else size cb - _CBUFTAIL cb.

(** [while (len > 0)] of write_cbuf; [b] is what is left of the user's data. *)
Fixpoint write_loop (fuel : nat) (cb : cbuf) (b : list Z) (len : Z) : outcome (option cbuf) unit :=
  if len <=? 0 then Ret tt (Some cb) else
  match fuel with
  | O => NoFuel
  | S fuel =>
      let onelen := Z.min (CBUFHEADRIGHT cb) len in
      if (0 <=? onelen) && (onelen <=? zlen b) && (_CBUFHEAD cb + onelen <=? zlen (buf cb)) then
        let cb := mk_cbuf (head cb + onelen) (tail cb) (size cb)
                    (patch (buf cb) (_CBUFHEAD cb) (slice b 0 onelen)) in
        write_loop fuel cb (slice b onelen (zlen b - onelen)) (len - onelen)
      else Fault OutOfBounds
  end.

Definition write_cbuf (fuel : nat) (b : list Z) (sz : Z) : comp (option cbuf) Z := fun p =>
  match p with
  | None => Ret 0 None
  | Some cb =>
      let wlen := Z.min (CBUFFREE cb) sz in
      match write_loop fuel cb b wlen with
      | Ret _ p => Ret wlen p
      | Fault f => Fault f
      | NoFuel => NoFuel
      end
  end.

(** [while (len > 0)] of read_cbuf; the bytes copied to the user so far are
    [out]. *)
Fixpoint read_loop (fuel : nat) (cb : cbuf) (out : list Z) (len : Z)
    : outcome cbuf (list Z) :=
  if len <=? 0 then Ret out cb else
  match fuel with
  | O => NoFuel
  | S fuel =>
      let onelen := Z.min (CBUFTAILRIGHT cb) len in
      if (0 <=? onelen) && (_CBUFTAIL cb + onelen <=? zlen (buf cb)) then
        let cb' := mk_cbuf (head cb) (tail cb + onelen) (size cb) (buf cb) in
        read_loop fuel cb' (out ++ slice (buf cb) (_CBUFTAIL cb) onelen) (len - onelen)
      else Fault OutOfBounds
  end.

(** The result is the number of bytes and the bytes stored in the user's buffer. *)
Definition read_cbuf (fuel : nat) (sz : Z) : comp (option cbuf) (Z * list Z) := fun p =>
  match p with
  | None => Ret (0, []) None
  | Some cb =>
      let rlen := Z.min (CBUFUSED cb) sz in
      match read_loop fuel cb [] rlen with
      | Ret out cb =>
          (* update I/O point *)
          let cb := if size cb <=? tail cb
                    then mk_cbuf (head cb - size cb) (tail cb - size cb) (size cb) (buf cb)
                    else cb in
          Ret (rlen, out) (Some cb)
      | Fault f => Fault f
      | NoFuel => NoFuel
      end
  end.

(** ** The specification: a bounded byte queue *)

Definition content (cb : cbuf) : list Z := ring (buf cb) (size cb) (tail cb) (CBUFUSED cb).

Record cbuf_inv (cb : cbuf) : Prop := {
  ci_size : 0 < size cb;
  ci_tail : 0 <= tail cb < size cb;
  ci_used : 0 <= CBUFUSED cb <= size cb;
  ci_len : zlen (buf cb) = size cb
}.

(** ** Lemmas *)

Section CbufLemmas.
Implicit Types cb : cbuf.

(** The state after copying [d] at the write point, and after consuming [n]. *)
Definition pushed cb (d : list Z) : cbuf :=
  mk_cbuf (head cb + zlen d) (tail cb) (size cb) (patch (buf cb) (_CBUFHEAD cb) d).
Definition popped cb (n : Z) : cbuf :=
  mk_cbuf (head cb) (tail cb + n) (size cb) (buf cb).

Lemma cbuf_head_pos cb : cbuf_inv cb ->
  _CBUFHEAD cb = head cb mod size cb /\
  _CBUFHEAD cb = if head cb <? size cb then head cb else head cb - size cb.
Proof.
  intros [Hs Ht Hu _]. unfold _CBUFHEAD, CBUFUSED in *. rewrite Z.rem_mod_nonneg by lia.
  split; [done|]. case_if; [apply Z.mod_small; lia|].
  symmetry. apply (Z.mod_unique (head cb) (size cb) 1); lia.
Qed.

Lemma cbuf_tail_pos cb : cbuf_inv cb -> _CBUFTAIL cb = tail cb.
Proof. intros [Hs Ht _ _]. unfold _CBUFTAIL. by rewrite Z.rem_small by lia. Qed.

(** One iteration of write_cbuf: the piece fits, lands after the queue, and
    either finishes the request or stops at the end of the array. *)
Lemma write_step cb b len :
  cbuf_inv cb -> 0 < len <= CBUFFREE cb -> len <= zlen b ->
  let n := Z.min (CBUFHEADRIGHT cb) len in
  let cb' := pushed cb (slice b 0 n) in
  0 < n <= len /\ _CBUFHEAD cb + n <= zlen (buf cb) /\ cbuf_inv cb' /\
  content cb' = content cb ++ slice b 0 n /\ (n = len \/ head cb' = size cb').
Proof.
  intros Hinv Hlen Hb. pose proof (cbuf_head_pos cb Hinv) as [Hh1 Hh2].
  pose proof (cbuf_tail_pos cb Hinv) as Ht'. destruct Hinv as [Hs Ht Hu Hl].
  unfold CBUFFREE in Hlen.
  assert (Hn : 0 < Z.min (CBUFHEADRIGHT cb) len /\
               _CBUFHEAD cb + Z.min (CBUFHEADRIGHT cb) len <= size cb /\
               (Z.min (CBUFHEADRIGHT cb) len = len \/
                head cb + Z.min (CBUFHEADRIGHT cb) len = size cb)).
  { unfold CBUFHEADRIGHT. rewrite Ht'. unfold CBUFUSED in *.
    destruct (head cb <? size cb) eqn:E in Hh2; rewrite Hh2; case_if; lia. }
  set (n := Z.min (CBUFHEADRIGHT cb) len) in *.
  assert (Hd : zlen (slice b 0 n) = n) by (apply zlen_slice; lia).
  pose proof (Z.mod_pos_bound (head cb) (size cb)) as Hpos.
  intros n' cb'. subst n' cb'. unfold pushed. cbn [head size buf tail].
  rewrite Hd, Hl. split_and!; try lia.
  - split; unfold CBUFUSED in *; cbn [head tail size buf]; try lia.
    rewrite zlen_patch; lia.
  - unfold content, CBUFUSED in *. cbn [head tail size buf].
    replace (head cb + n - tail cb) with (head cb - tail cb + zlen (slice b 0 n)) by lia.
    apply ring_push; try lia.
    rewrite Hh1. f_equal. lia.
Qed.

Lemma write_loop_ok fuel cb b len :
  (2 <= fuel)%nat -> cbuf_inv cb -> 0 <= len <= CBUFFREE cb -> len <= zlen b ->
  exists cb', write_loop fuel cb b len = Ret tt (Some cb') /\ cbuf_inv cb' /\
    content cb' = content cb ++ slice b 0 len /\ size cb' = size cb.
Proof.
  intros Hf Hinv Hlen Hb. destruct fuel as [|[|fuel]]; [lia..|].
  cbn [write_loop]. case_if.
  { exists cb. replace len with 0 by lia. unfold slice. cbn. by rewrite app_nil_r. }
  destruct (write_step cb b len) as (Hn & Hfit & Hinv' & Hc & Hend); [done|lia|done|].
  set (n := Z.min (CBUFHEADRIGHT cb) len) in *.
  assert (Hd : zlen (slice b 0 n) = n) by (apply zlen_slice; lia).
  unfold pushed in Hinv', Hc, Hend. rewrite Hd in *.
  set (cb1 := mk_cbuf _ _ _ _) in *.
  replace ((0 <=? n) && (n <=? zlen b) && (_CBUFHEAD cb + n <=? zlen (buf cb))) with true by lia.
  case_if.
  { exists cb1. replace len with n by lia. by split_and!. }
  destruct Hend as [|Hend]; [lia|].
  set (b1 := slice b n (zlen b - n)) in *.
  assert (Hb1 : zlen b1 = zlen b - n) by (apply zlen_slice; lia).
  destruct (write_step cb1 b1 (len - n)) as (Hn' & Hfit' & Hinv2 & Hc' & _);
    [done|subst cb1; unfold CBUFFREE, CBUFUSED in *; cbn [head tail size] in *; lia|lia|].
  assert (HR : CBUFHEADRIGHT cb1 >= len - n).
  { pose proof (cbuf_head_pos cb1 Hinv') as [_ Hh]. pose proof (cbuf_tail_pos cb1 Hinv') as Ht.
    destruct Hinv' as [? ? ? ?]. unfold CBUFHEADRIGHT. rewrite Ht, Hh.
    subst cb1; unfold CBUFFREE, CBUFUSED in *; cbn [head tail size] in *.
    repeat case_if; lia. }
  set (n1 := Z.min (CBUFHEADRIGHT cb1) (len - n)) in *.
  assert (n1 = len - n) by lia.
  assert (Hd1 : zlen (slice b1 0 n1) = n1) by (apply zlen_slice; lia).
  replace ((0 <=? n1) && (n1 <=? zlen b1) && (_CBUFHEAD cb1 + n1 <=? zlen (buf cb1))) with true by lia.
  unfold pushed in Hinv2, Hc'. rewrite Hd1 in *.
  exists (mk_cbuf (head cb1 + n1) (tail cb1) (size cb1) (patch (buf cb1) (_CBUFHEAD cb1) (slice b1 0 n1))).
  split.
  - destruct fuel; cbn [write_loop]; case_if; first [done|lia].
  - split_and!; [done| |done]. rewrite Hc', Hc, <- app_assoc. f_equal.
    subst b1. rewrite slice_slice, Z.add_0_r by lia.
    assert (slice b 0 len = slice b 0 n ++ slice b n (len - n)) as ->.
    { replace len with (n + (len - n)) at 1 by lia. apply slice_split; lia. }
    by replace n1 with (len - n) by lia.
Qed.

(** One iteration of read_cbuf.  Inside the loop the read point may sit on the
    end of the array ([tail = size]), where its index is 0. *)
Definition read_inv cb : Prop :=
  0 < size cb /\ 0 <= tail cb <= size cb /\ 0 <= CBUFUSED cb <= size cb /\
  head cb < 2 * size cb /\ zlen (buf cb) = size cb.

Lemma read_step cb len :
  read_inv cb -> 0 < len <= CBUFUSED cb ->
  let n := Z.min (CBUFTAILRIGHT cb) len in
  0 < n <= len /\ _CBUFTAIL cb + n <= zlen (buf cb) /\
  content cb = slice (buf cb) (_CBUFTAIL cb) n ++ content (popped cb n) /\
  (n = len \/ (tail cb + n = size cb /\ tail cb < size cb)).
Proof.
  intros (Hs & Ht & Hu & Hh & Hl) Hlen.
  assert (Ht' : _CBUFTAIL cb = tail cb mod size cb).
  { unfold _CBUFTAIL. apply Z.rem_mod_nonneg; lia. }
  assert (Ht2 : _CBUFTAIL cb = if tail cb <? size cb then tail cb else 0).
  { rewrite Ht'. case_if; [apply Z.mod_small; lia|].
    replace (tail cb) with (size cb) by lia. apply Z_mod_same_full. }
  assert (Hh2 : _CBUFHEAD cb = if head cb <? size cb then head cb else head cb - size cb).
  { unfold _CBUFHEAD, CBUFUSED in *. rewrite Z.rem_mod_nonneg by lia.
    case_if; [apply Z.mod_small; lia|].
    symmetry. apply (Z.mod_unique (head cb) (size cb) 1); lia. }
  assert (Hn : 0 < Z.min (CBUFTAILRIGHT cb) len /\
               _CBUFTAIL cb + Z.min (CBUFTAILRIGHT cb) len <= size cb /\
               (Z.min (CBUFTAILRIGHT cb) len = len \/
                (tail cb + Z.min (CBUFTAILRIGHT cb) len = size cb /\ tail cb < size cb))).
  { unfold CBUFTAILRIGHT. rewrite Hh2, Ht2. unfold CBUFUSED in *. repeat case_if; lia. }
  set (n := Z.min (CBUFTAILRIGHT cb) len) in *. intros n'. subst n'.
  split_and!; try lia.
  unfold content, popped, CBUFUSED in *. cbn [head tail size buf].
  rewrite Ht' in *. rewrite (ring_pop _ _ _ _ n) by lia. do 2 f_equal. lia.
Qed.

Lemma read_loop_ok fuel cb out len :
  (2 <= fuel)%nat -> cbuf_inv cb -> 0 <= len <= CBUFUSED cb ->
  exists d, read_loop fuel cb out len = Ret (out ++ d) (popped cb len) /\ zlen d = len /\
    content cb = d ++ content (popped cb len).
Proof.
  intros Hf Hinv Hlen. destruct fuel as [|[|fuel]]; [lia..|].
  assert (Hr : read_inv cb) by (destruct Hinv; unfold read_inv, CBUFUSED in *; lia).
  cbn [read_loop]. case_if.
  { exists []. replace len with 0 by lia. unfold popped. rewrite Z.add_0_r, app_nil_r.
    by destruct cb. }
  destruct (read_step cb len) as (Hn & Hfit & Hc & Hend); [done|lia|].
  set (n := Z.min (CBUFTAILRIGHT cb) len) in *.
  assert (Hpos : 0 <= _CBUFTAIL cb) by (unfold _CBUFTAIL, read_inv in *; apply Z.rem_nonneg; lia).
  replace ((0 <=? n) && (_CBUFTAIL cb + n <=? zlen (buf cb))) with true by lia.
  fold (popped cb n).
  assert (Hd : zlen (slice (buf cb) (_CBUFTAIL cb) n) = n) by (apply zlen_slice; lia).
  case_if.
  { exists (slice (buf cb) (_CBUFTAIL cb) n). by replace len with n by lia. }
  destruct Hend as [|Hend]; [lia|].
  assert (Hr1 : read_inv (popped cb n))
    by (unfold read_inv, popped, CBUFUSED in *; cbn [head tail size buf]; lia).
  destruct (read_step (popped cb n) (len - n)) as (Hn' & Hfit' & Hc' & Hend');
    [done|unfold popped, CBUFUSED in *; cbn [head tail size]; lia|].
  set (n1 := Z.min (CBUFTAILRIGHT (popped cb n)) (len - n)) in *.
  assert (n1 = len - n) by (unfold popped in Hend'; cbn [tail size] in Hend'; lia).
  assert (Hp1 : 0 <= _CBUFTAIL (popped cb n))
    by (unfold _CBUFTAIL, read_inv in *; apply Z.rem_nonneg; lia).
  set (d1 := slice (buf (popped cb n)) (_CBUFTAIL (popped cb n)) n1) in *.
  assert (Hd1 : zlen d1 = n1) by (apply zlen_slice; lia).
  replace ((0 <=? n1) && (_CBUFTAIL (popped cb n) + n1 <=? zlen (buf (popped cb n)))) with true by lia.
  fold (popped (popped cb n) n1).
  assert (Hpp : popped (popped cb n) n1 = popped cb len)
    by (unfold popped; cbn [head tail size buf]; f_equal; lia).
  exists (slice (buf cb) (_CBUFTAIL cb) n ++ d1). rewrite Hpp in *. split_and!.
  - rewrite app_assoc. destruct fuel; cbn [read_loop]; case_if; first [done|lia].
  - rewrite zlen_app. lia.
  - by rewrite Hc, Hc', app_assoc.
Qed.

(** The two operations as operations on the queue. *)
Lemma write_cbuf_appends (fuel : nat) (cb : cbuf) (b : list Z) (sz : Z) :
  (2 <= fuel)%nat -> cbuf_inv cb -> 0 <= sz <= zlen b ->
  exists cb', write_cbuf fuel b sz (Some cb) = Ret (Z.min (CBUFFREE cb) sz) (Some cb') /\
    cbuf_inv cb' /\ size cb' = size cb /\
    content cb' = content cb ++ slice b 0 (Z.min (size cb - zlen (content cb)) sz).
Proof.
  intros Hf Hinv Hsz.
  assert (Hfree : CBUFFREE cb = size cb - zlen (content cb) /\ 0 <= CBUFFREE cb).
  { unfold content, CBUFFREE. destruct Hinv. rewrite ring_len; lia. }
  destruct (write_loop_ok fuel cb b (Z.min (CBUFFREE cb) sz)) as (cb' & E & Hi & Hc & Hs);
    [done|done|lia|lia|].
  exists cb'. unfold write_cbuf. rewrite E. destruct Hfree as [<- _]. by split_and!.
Qed.

Lemma read_cbuf_takes (fuel : nat) (cb : cbuf) (sz : Z) :
  (2 <= fuel)%nat -> cbuf_inv cb -> 0 <= sz ->
  exists d cb', read_cbuf fuel sz (Some cb) = Ret (zlen d, d) (Some cb') /\
    zlen d = Z.min (zlen (content cb)) sz /\ content cb = d ++ content cb' /\
    cbuf_inv cb' /\ size cb' = size cb.
Proof.
  intros Hf Hinv Hsz.
  assert (Hu : zlen (content cb) = CBUFUSED cb).
  { unfold content. destruct Hinv. apply ring_len. lia. }
  destruct (read_loop_ok fuel cb [] (Z.min (CBUFUSED cb) sz)) as (d & E & Hd & Hc);
    [done|done|destruct Hinv; lia|].
  unfold read_cbuf. rewrite E. cbn [app]. set (n := Z.min (CBUFUSED cb) sz) in *.
  destruct Hinv as [Hs Ht Hus Hl].
  destruct (size (popped cb n) <=? tail (popped cb n)) eqn:Et.
  - eexists d, _. rewrite Hd, Hu. split; [done|]. split; [done|].
    split; [|split; [split; unfold popped, CBUFUSED in *; cbn [head tail size buf] in *; lia|done]].
    rewrite Hc. f_equal. unfold content, popped, CBUFUSED in *. cbn [head tail size buf] in *.
    replace (head cb - size cb - (tail cb + n - size cb)) with (head cb - (tail cb + n)) by lia.
    apply ring_mod; [lia|]. replace (tail cb + n) with (tail cb + n - size cb + 1 * size cb) at 1 by lia.
    by rewrite Z_mod_plus_full.
  - eexists d, _. rewrite Hd, Hu. split_and!; try done.
    split; unfold popped, CBUFUSED in *; cbn [head tail size buf] in *; lia.
Qed.

End CbufLemmas.

(** ** Properties *)

(** C22: the circular buffer is a queue of bytes.  write_cbuf appends the longest prefix
    of the data that fits and returns its length; read_cbuf returns the first min(used,
    size) bytes, in order, and removes them.  Neither leaves the array, their loops end
    after at most two pieces, and the invariant is kept. *)
Theorem cbuf_refines_queue (fuel : nat) (cb : cbuf) (sz : Z) :
  (2 <= fuel)%nat -> cbuf_inv cb -> 0 <= sz ->
  (forall b, sz <= zlen b ->
     exists cb', write_cbuf fuel b sz (Some cb) = Ret (Z.min (CBUFFREE cb) sz) (Some cb') /\
       cbuf_inv cb' /\ size cb' = size cb /\
       content cb' = content cb ++ slice b 0 (Z.min (size cb - zlen (content cb)) sz)) /\
  exists d cb', read_cbuf fuel sz (Some cb) = Ret (zlen d, d) (Some cb') /\
    zlen d = Z.min (zlen (content cb)) sz /\ content cb = d ++ content cb' /\
    cbuf_inv cb' /\ size cb' = size cb.
Proof.
  intros Hf Hi Hs. split; [|by apply read_cbuf_takes]. intros b Hb. by apply write_cbuf_appends.
Qed.

Lemma cbuf_refines_queue_witness :
  (exists cb', write_cbuf 2 [1; 2; 3; 4; 5] 5 (Some (mk_cbuf 6 3 4 [10; 11; 12; 13])) = Ret 1 (Some cb') /\
     content cb' = [13; 10; 11] ++ [1]) /\
  exists d cb', read_cbuf 2 2 (Some (mk_cbuf 6 3 4 [10; 11; 12; 13])) = Ret (zlen d, d) (Some cb') /\
    zlen d = 2 /\ [13; 10; 11] = d ++ content cb'.
Proof.
  assert (Hi : cbuf_inv (mk_cbuf 6 3 4 [10; 11; 12; 13])) by (split; by vm_compute).
  split.
  - destruct (proj1 (cbuf_refines_queue 2 _ 5 ltac:(lia) Hi ltac:(lia)) [1; 2; 3; 4; 5] ltac:(by vm_compute)) as (cb' & E & _ & _ & Ec).
    exists cb'. split; [exact E|exact Ec].
  - destruct (proj2 (cbuf_refines_queue 2 _ 2 ltac:(lia) Hi ltac:(lia))) as (d & cb' & E & El & Ec & _).
    exists d, cb'. split; [exact E|]. split; [exact El|exact Ec].
Defined.
