(* ===== verification/FastPipe.v ===== *)
(** * Packet pipe over shared memory: net/fast_pipe.c, net/shm_eth.c

    [circular_buffer_t] is a byte ring with explicit indices; packets are
    stored as a 32-bit length followed by the bytes.  A [memcpy] outside the
    array faults.  [uint32_t] arithmetic is wrapped; comparisons against
    [sizeof(uint32_t) + len] are done in [size_t] and are not.  The
    specification is a queue of packets. *)

From stdpp Require Import prelude list list_numbers.
From Stdlib Require Import ZArith Lia.
From S2P Require Import Prelude Ring.

(** ** The code *)

Record circular_buffer_t := mk_cb {
  capacity : Z;
  write_index : Z;
  used : Z;
  read_index : Z;
  data : list Z
}.

Definition set_data (cb : circular_buffer_t) (d : list Z) : circular_buffer_t :=
  mk_cb (capacity cb) (write_index cb) (used cb) (read_index cb) d.
Definition set_write (cb : circular_buffer_t) (wi u : Z) : circular_buffer_t :=
  mk_cb (capacity cb) wi u (read_index cb) (data cb).
Definition set_read (cb : circular_buffer_t) (ri u : Z) : circular_buffer_t :=
  mk_cb (capacity cb) (write_index cb) u ri (data cb).

(** cb_init leaves the bytes of the array as they are. *)
Definition cb_init (cb : circular_buffer_t) (cap : Z) : circular_buffer_t :=
  mk_cb cap 0 0 0 (data cb).
Definition cb_new (cap : Z) (garbage : list Z) : circular_buffer_t :=
  cb_init (mk_cb 0 0 0 0 garbage) cap.

(** [memcpy(&cb->data[off], src, n)] and [memcpy(dst, &cb->data[off], n)]. *)
Definition store (off : Z) (src : list Z) : comp circular_buffer_t unit := fun cb =>
  if off + zlen src <=? zlen (data cb) then Ret tt (set_data cb (patch (data cb) off src))
  else Fault OutOfBounds.
Definition load (off n : Z) : comp circular_buffer_t (list Z) := fun cb =>
  if off + n <=? zlen (data cb) then Ret (slice (data cb) off n) cb else Fault OutOfBounds.

Definition cb_push_data (wi : Z) (d : list Z) : comp circular_buffer_t Z :=
  let* cap := gets capacity in
  let len := zlen d in
  let copylen := len in
  if cap <? u32 (wi + copylen) then
    let copylen := u32 (cap - wi) in
    store wi (slice d 0 copylen);;
    let len := u32 (len - copylen) in
    store 0 (slice d copylen len);;
    ret len
  else
    store wi d;;
    ret (u32 (wi + len)).

(** The result is the new read index and the bytes copied out. *)
Definition cb_shift_data (ri buflen : Z) : comp circular_buffer_t (Z * list Z) :=
  let* cap := gets capacity in
  let tail_length := u32 (cap - ri) in
  if buflen <=? tail_length then
    let* b := load ri buflen in
    ret (u32 (ri + buflen), b)
  else
    let* b1 := load ri tail_length in
    let buflen := u32 (buflen - tail_length) in
    let* b2 := load 0 buflen in
    ret (buflen, b1 ++ b2).

Definition cb_put (d : list Z) : comp circular_buffer_t bool :=
  let* cb := gets id in
  if capacity cb <? u32 (used cb + zlen d) then ret false
  else
    let* wi := cb_push_data (write_index cb) d in
    modify (fun cb => set_write cb wi (u32 (used cb + zlen d)));;
    ret true.

Definition cb_get (len : Z) : comp circular_buffer_t (option (list Z)) :=
  let* cb := gets id in
  if used cb <? len then ret None
  else
    let* '(ri, b) := cb_shift_data (read_index cb) len in
    modify (fun cb => set_read cb ri (u32 (used cb - len)));;
    ret (Some b).

Definition cb_put_packet (d : list Z) : comp circular_buffer_t bool :=
  let* cb := gets id in
  let len := zlen d in
  if u32 (capacity cb - used cb) <? 4 + len then ret false
  else
    let* wi := cb_push_data (write_index cb) (le_enc 4 len) in
    let* wi := cb_push_data wi d in
    modify (fun cb => set_write cb wi (u32 (used cb + (4 + len))));;
    ret true.

(** [None] is the [false] of the C function; [*pktlen] is the length of the result. *)
Definition cb_get_packet (buflen : Z) : comp circular_buffer_t (option (list Z)) :=
  let* cb := gets id in
  if used cb <? 4 then ret None
  else
    let* '(ri, lenb) := cb_shift_data (read_index cb) 4 in
    let pktlen := le_dec lenb in
    if (used cb <? pktlen + 4) || (buflen <? pktlen) then ret None
    else
      let* '(ri, b) := cb_shift_data ri pktlen in
      modify (fun cb => set_read cb ri (u32 (used cb - (pktlen + 4))));;
      ret (Some b).

(** *** net/shm_eth.c: two pipes, one per direction *)

Inductive shmeth_side_t := SHMETH_SIDE_A | SHMETH_SIDE_B.
#[export] Instance shmeth_side_eq_dec : EqDecision shmeth_side_t.
Proof. solve_decision. Defined.

(** The shared segment: what both ends see. *)
Record shm := mk_shm { cb_atob : circular_buffer_t; cb_btoa : circular_buffer_t }.

Definition on_atob {A} (m : comp circular_buffer_t A) : comp shm A := fun s =>
  match m (cb_atob s) with
  | Ret a cb => Ret a (mk_shm cb (cb_btoa s))
  | Fault f => Fault f
  | NoFuel => NoFuel
  end.
Definition on_btoa {A} (m : comp circular_buffer_t A) : comp shm A := fun s =>
  match m (cb_btoa s) with
  | Ret a cb => Ret a (mk_shm (cb_atob s) cb)
  | Fault f => Fault f
  | NoFuel => NoFuel
  end.

Definition shmeth_write_packet (side : shmeth_side_t) (d : list Z) : comp shm bool :=
  match side with
  | SHMETH_SIDE_A => on_atob (cb_put_packet d)
  | SHMETH_SIDE_B => on_btoa (cb_put_packet d)
  end.

Definition shmeth_read_packet (side : shmeth_side_t) (buflen : Z) : comp shm (option (list Z)) :=
  match side with
  | SHMETH_SIDE_B => on_atob (cb_get_packet buflen)
  | SHMETH_SIDE_A => on_btoa (cb_get_packet buflen)
  end.

(** string_hash: the key of the shared segment. *)
Definition string_hash (s : list Z) : Z :=
  fold_left (fun hash c => Z.lxor (u32 (33 * hash)) c) s 5381.

(** ** The specification: a queue of packets *)

Definition frame (p : list Z) : list Z := le_enc 4 (zlen p) ++ p.

Record cb_inv (cb : circular_buffer_t) : Prop := {
  cb_cap : 0 < capacity cb < 2147483648;
  cb_len : zlen (data cb) = capacity cb;
  cb_used : 0 <= used cb <= capacity cb;
  cb_ri : 0 <= read_index cb <= capacity cb;
  cb_wi : 0 <= write_index cb <= capacity cb;
  cb_pos : write_index cb mod capacity cb = (read_index cb + used cb) mod capacity cb
}.

Definition bytes_of (cb : circular_buffer_t) : list Z :=
  ring (data cb) (capacity cb) (read_index cb) (used cb).

(** The pipe holds the packets [ps], oldest first. *)
Definition holds (cb : circular_buffer_t) (ps : list (list Z)) : Prop :=
  bytes_of cb = concat (frame <$> ps) /\ Forall bytes_ok ps.

(** ** Lemmas *)

Section FastPipeLemmas.
Implicit Types cb : circular_buffer_t.

(** A piece that does not cross the end of the array; the index may sit on the
    end, where it is taken as 0 and the piece is empty. *)
Lemma piece_push buf cap tail u wi d :
  0 < cap -> zlen buf = cap -> 0 <= wi <= cap -> 0 <= u -> u + zlen d <= cap ->
  wi mod cap = (tail + u) mod cap -> wi + zlen d <= cap ->
  ring (patch buf wi d) cap tail (u + zlen d) = ring buf cap tail u ++ d.
Proof.
  intros Hc Hl Hw Hu Hd Hp Hf. pose proof (zlen_nonneg d).
  destruct (decide (wi = cap)) as [->|].
  - assert (d = []) as -> by (destruct d; [done|rewrite zlen_cons in Hf; pose proof (zlen_nonneg d); lia]).
    rewrite zlen_nil, Z.add_0_r, app_nil_r. unfold patch. cbn.
    by rewrite Nat.add_0_r, take_drop.
  - apply ring_push; try done. rewrite <- Hp. symmetry. apply Z.mod_small. lia.
Qed.

Lemma piece_pop buf cap tail u ri n :
  0 < cap -> zlen buf = cap -> 0 <= ri <= cap -> ri mod cap = tail mod cap -> 0 <= n <= u ->
  ri + n <= cap -> ring buf cap tail u = slice buf ri n ++ ring buf cap (tail + n) (u - n).
Proof.
  intros Hc Hl Hr Hp Hn Hf. destruct (decide (ri = cap)) as [->|].
  - assert (n = 0) as -> by lia. unfold slice. cbn. by rewrite Z.add_0_r, Z.sub_0_r.
  - rewrite (ring_pop _ _ _ _ n) by (rewrite <- ?Hp, ?Z.mod_small; lia).
    rewrite <- Hp, Z.mod_small by lia. done.
Qed.

Lemma mod_shift a b c cap : a mod cap = b mod cap -> (a + c) mod cap = (b + c) mod cap.
Proof. intros E. by rewrite <- Zplus_mod_idemp_l, E, Zplus_mod_idemp_l. Qed.

Lemma store_ok cb off src :
  off + zlen src <= zlen (data cb) -> store off src cb = Ret tt (set_data cb (patch (data cb) off src)).
Proof. intros. unfold store. case_if; [done|lia]. Qed.

Lemma load_ok cb off n :
  off + n <= zlen (data cb) -> load off n cb = Ret (slice (data cb) off n) cb.
Proof. intros. unfold load. case_if; [done|lia]. Qed.

(** Copying [d] in behind [u] bytes of the ring. *)
Lemma push_data_ok cb wi u d :
  0 < capacity cb < 2147483648 -> zlen (data cb) = capacity cb -> 0 <= wi <= capacity cb ->
  0 <= u -> u + zlen d <= capacity cb ->
  wi mod capacity cb = (read_index cb + u) mod capacity cb ->
  exists wi' dat', cb_push_data wi d cb = Ret wi' (set_data cb dat') /\
    zlen dat' = capacity cb /\ 0 <= wi' <= capacity cb /\
    wi' mod capacity cb = (read_index cb + (u + zlen d)) mod capacity cb /\
    ring dat' (capacity cb) (read_index cb) (u + zlen d) =
    ring (data cb) (capacity cb) (read_index cb) u ++ d.
Proof.
  intros Hc Hl Hw Hu Hd Hp. pose proof (zlen_nonneg d) as Hn.
  set (cap := capacity cb) in *. set (t := read_index cb) in *.
  unfold cb_push_data. rewrite bind_gets. fold cap.
  rewrite (u32_small (wi + zlen d)) by (unfold is_u32; lia). case_if.
  - rewrite (u32_small (cap - wi)) by (unfold is_u32; lia).
    set (c := cap - wi) in *.
    assert (H1 : zlen (slice d 0 c) = c) by (apply zlen_slice; lia).
    rewrite (u32_small (zlen d - c)) by (unfold is_u32; lia).
    set (c2 := zlen d - c) in *.
    assert (H2 : zlen (slice d c c2) = c2) by (apply zlen_slice; lia).
    erewrite bind_ok by (apply store_ok; lia).
    set (dat1 := patch (data cb) wi (slice d 0 c)).
    assert (Hd1 : zlen dat1 = cap) by (subst dat1; rewrite zlen_patch; lia).
    erewrite bind_ok by (apply store_ok; cbn [data set_data]; lia).
    exists c2, (patch dat1 0 (slice d c c2)).
    assert (Hp0 : 0 mod cap = (t + (u + c)) mod cap).
    { rewrite Z.add_assoc, <- (mod_shift _ _ c _ Hp).
      replace (wi + c) with (0 + 1 * cap) by lia. by rewrite Z_mod_plus_full. }
    assert (E1 : ring dat1 cap t (u + c) = ring (data cb) cap t u ++ slice d 0 c).
    { pose proof (piece_push (data cb) cap t u wi (slice d 0 c)) as P. rewrite H1 in P. apply P; lia. }
    assert (E2 : ring (patch dat1 0 (slice d c c2)) cap t (u + c + c2) =
                 ring dat1 cap t (u + c) ++ slice d c c2).
    { pose proof (piece_push dat1 cap t (u + c) 0 (slice d c c2)) as P. rewrite H2 in P. apply P; lia. }
    split_and!; [done|rewrite zlen_patch; lia|lia|lia| |].
    + rewrite <- (Z.add_0_l c2), (mod_shift _ _ c2 _ Hp0). f_equal. lia.
    + replace (u + zlen d) with (u + c + c2) by lia. rewrite E2, E1, <- app_assoc. f_equal.
      rewrite <- (slice_full d (c + c2)) at 3 by lia.
      by rewrite slice_split, Z.add_0_l by lia.
  - erewrite bind_ok by (apply store_ok; lia).
    exists (wi + zlen d), (patch (data cb) wi d). unfold ret.
    split_and!; [done|rewrite zlen_patch; lia|lia|lia| |].
    + rewrite Z.add_assoc. by apply mod_shift.
    + apply piece_push; lia.
Qed.

(** Copying [n] bytes out of the front of the ring. *)
Lemma shift_data_ok cb ri t u n :
  0 < capacity cb < 2147483648 -> zlen (data cb) = capacity cb -> 0 <= ri <= capacity cb ->
  ri mod capacity cb = t mod capacity cb -> 0 <= n <= u -> u <= capacity cb ->
  exists ri' b, cb_shift_data ri n cb = Ret (ri', b) cb /\
    zlen b = n /\ 0 <= ri' <= capacity cb /\ ri' mod capacity cb = (t + n) mod capacity cb /\
    ring (data cb) (capacity cb) t u = b ++ ring (data cb) (capacity cb) (t + n) (u - n).
Proof.
  intros Hc Hl Hr Hp Hn Hu. set (cap := capacity cb) in *.
  unfold cb_shift_data. rewrite bind_gets. fold cap.
  rewrite (u32_small (cap - ri)) by (unfold is_u32; lia). case_if.
  - erewrite bind_ok by (apply load_ok; lia).
    exists (ri + n), (slice (data cb) ri n). unfold ret.
    rewrite u32_small by (unfold is_u32; lia).
    split_and!; [done|apply zlen_slice; lia|lia|lia|by apply mod_shift|by apply piece_pop; lia].
  - set (c := cap - ri) in *. erewrite bind_ok by (apply load_ok; lia).
    rewrite (u32_small (n - c)) by (unfold is_u32; lia). set (c2 := n - c) in *.
    erewrite bind_ok by (apply load_ok; lia).
    exists c2, (slice (data cb) ri c ++ slice (data cb) 0 c2).
    assert (Hp0 : 0 mod cap = (t + c) mod cap).
    { rewrite <- (mod_shift _ _ c _ Hp). replace (ri + c) with (0 + 1 * cap) by lia.
      by rewrite Z_mod_plus_full. }
    split_and!; [done|rewrite zlen_app, !zlen_slice; lia|lia|lia| |].
    + rewrite <- (Z.add_0_l c2), (mod_shift _ _ c2 _ Hp0). f_equal. lia.
    + rewrite (piece_pop _ _ t u ri c) by lia. rewrite <- app_assoc. f_equal.
      rewrite (piece_pop _ _ (t + c) (u - c) 0 c2) by lia. f_equal. f_equal; lia.
Qed.

End FastPipeLemmas.

Section PacketLemmas.
Implicit Types cb : circular_buffer_t.

Lemma frame_len p : zlen (frame p) = 4 + zlen p.
Proof. unfold frame. rewrite zlen_app, zlen_le_enc. lia. Qed.

Lemma put_packet_room cb ps p :
  cb_inv cb -> holds cb ps -> bytes_ok p -> 4 + zlen p <= capacity cb - used cb ->
  exists cb', cb_put_packet p cb = Ret true cb' /\ cb_inv cb' /\ holds cb' (ps ++ [p]) /\
    capacity cb' = capacity cb /\ used cb' = used cb + 4 + zlen p.
Proof.
  intros [Hc Hl Hu Hri Hwi Hp] [Hb Hok] Hpk Hroom. pose proof (zlen_nonneg p).
  unfold cb_put_packet. rewrite bind_gets. unfold id.
  rewrite (u32_small (capacity cb - used cb)) by (unfold is_u32; lia).
  case_if; [lia|].
  destruct (push_data_ok cb (write_index cb) (used cb) (le_enc 4 (zlen p)))
    as (wi1 & d1 & E1 & Hl1 & Hw1 & Hp1 & R1); [done|done|done|lia|rewrite zlen_le_enc; lia|done|].
  rewrite zlen_le_enc in *. change (Z.of_nat 4) with 4 in *.
  erewrite bind_ok by exact E1.
  destruct (push_data_ok (set_data cb d1) wi1 (used cb + 4) p)
    as (wi2 & d2 & E2 & Hl2 & Hw2 & Hp2 & R2); cbn [capacity data read_index set_data] in *;
    [done|done|done|lia|lia|done|].
  erewrite bind_ok by exact E2. rewrite bind_modify. unfold ret. eexists. split; [done|].
  cbn [used set_data set_write]. rewrite u32_small by (unfold is_u32; lia).
  split_and!; cbn [capacity used read_index write_index data set_write set_data]; try done; [| |lia].
  - split; cbn [capacity used read_index write_index data set_write set_data]; try lia. rewrite Hp2. f_equal. lia.
  - split; [|apply Forall_app; auto].
    unfold bytes_of in *. cbn [capacity used read_index write_index data set_write set_data].
    replace (used cb + (4 + zlen p)) with (used cb + 4 + zlen p) by lia.
    rewrite R2, R1, Hb, fmap_app, concat_app. cbn. by rewrite app_nil_r, <- app_assoc.
Qed.

Lemma get_packet_head cb p ps buflen :
  cb_inv cb -> holds cb (p :: ps) -> zlen p < 4294967296 ->
  exists cb', cb_inv cb' /\ holds cb' ps /\ capacity cb' = capacity cb /\
    cb_get_packet buflen cb =
      if buflen <? zlen p then Ret None cb else Ret (Some p) cb'.
Proof.
  intros [Hc Hl Hu Hri Hwi Hp] [Hb Hok] Hsz. apply Forall_cons in Hok as [Hpk Hok].
  assert (Hlen : used cb = 4 + zlen p + zlen (concat (frame <$> ps))).
  { rewrite <- (ring_len (data cb) (capacity cb) (read_index cb) (used cb)) by lia.
    fold (bytes_of cb). rewrite Hb, fmap_cons. cbn [concat].
    rewrite zlen_app, frame_len. lia. }
  pose proof (zlen_nonneg p). pose proof (zlen_nonneg (concat (frame <$> ps))).
  destruct (shift_data_ok cb (read_index cb) (read_index cb) (used cb) 4)
    as (r1 & b1 & E1 & Hl1 & Hr1 & Hp1 & R1); [done|done|done|done|lia|lia|].
  destruct (shift_data_ok cb r1 (read_index cb + 4) (used cb - 4) (zlen p))
    as (r2 & b2 & E2 & Hl2 & Hr2 & Hp2 & R2); [done|done|done|done|lia|lia|].
  fold (bytes_of cb) in R1. rewrite Hb, R2, fmap_cons in R1. cbn [concat] in R1. unfold frame at 1 in R1.
  rewrite <- !app_assoc in R1.
  apply app_inj_1 in R1 as [Eb1 R1].
  2: { apply Nat2Z.inj. fold (zlen b1). fold (zlen (le_enc 4 (zlen p))). by rewrite zlen_le_enc, Hl1. }
  apply app_inj_1 in R1 as [Eb2 R1].
  2: { apply Nat2Z.inj. fold (zlen b2). fold (zlen p). lia. }
  subst b1 b2.
  exists (set_read cb r2 (u32 (used cb - (zlen p + 4)))).
  cbn [capacity set_read]. rewrite u32_small by (unfold is_u32; lia). split_and!; try done.
  - split; cbn [capacity used read_index write_index data set_read]; try done; try lia.
    rewrite Hp. rewrite <- (mod_shift _ _ (used cb - (zlen p + 4)) _ (eq_sym Hp2)). f_equal. lia.
  - split; [|done]. unfold bytes_of. cbn [capacity used read_index data set_read].
    rewrite R1. replace (used cb - 4 - zlen p) with (used cb - (zlen p + 4)) by lia.
    apply ring_mod; [lia|]. rewrite Hp2. f_equal. 
  - unfold cb_get_packet. rewrite bind_gets. unfold id. case_if; [lia|].
    erewrite bind_ok by exact E1. cbn beta iota.
    rewrite le_dec_enc by (change (256 ^ Z.of_nat 4) with 4294967296; lia).
    destruct (buflen <? zlen p) eqn:Eb; [by rewrite orb_true_r|].
    rewrite orb_false_r. case_if; [lia|].
    erewrite bind_ok by exact E2. cbn beta iota. rewrite bind_modify. unfold ret.
    by rewrite (u32_small (used cb - (zlen p + 4))) by (unfold is_u32; lia).
Qed.

(** Whatever the room, putting a packet returns and keeps the pipe well formed. *)
Lemma put_packet_total cb ps p :
  cb_inv cb -> holds cb ps -> bytes_ok p ->
  exists b cb' ps', cb_put_packet p cb = Ret b cb' /\ cb_inv cb' /\ holds cb' ps'.
Proof.
  intros Hi Hh Hp. destruct (Z.ltb_spec (capacity cb - used cb) (4 + zlen p)).
  - exists false, cb, ps. split_and!; [|done|done]. destruct Hi. unfold cb_put_packet. rewrite bind_gets.
    unfold id. rewrite (u32_small (capacity cb - used cb)) by (unfold is_u32; lia).
    case_if; [done|lia].
  - destruct (put_packet_room cb ps p) as (cb' & E & Hi' & Hh' & _); auto. by exists true, cb', (ps ++ [p]).
Qed.

End PacketLemmas.

(** ** Properties *)

(** cb_put_packet appends the packet to the queue when four bytes of length
    and the packet fit in what is free, and otherwise returns false and leaves
    the pipe alone; no copy leaves the array and the invariant is kept. *)
Lemma cb_put_packet_spec (cb : circular_buffer_t) (ps : list (list Z)) (p : list Z) :
  cb_inv cb -> holds cb ps -> bytes_ok p ->
  if capacity cb - used cb <? 4 + zlen p
  then cb_put_packet p cb = Ret false cb
  else exists cb', cb_put_packet p cb = Ret true cb' /\ cb_inv cb' /\ holds cb' (ps ++ [p]) /\
         capacity cb' = capacity cb /\ used cb' = used cb + 4 + zlen p.
Proof.
  intros Hi Hh Hp. case_if; [|apply put_packet_room; auto; lia].
  destruct Hi. unfold cb_put_packet. rewrite bind_gets. unfold id.
  rewrite (u32_small (capacity cb - used cb)) by (unfold is_u32; lia). by rewrite E.
Qed.

(** cb_get_packet on an empty pipe returns false; otherwise it returns the
    oldest packet and removes it when it fits the caller's buffer, and returns
    false and leaves the pipe alone when it does not.  The packet comes back
    byte for byte, also when it wrapped around the end of the array. *)
Lemma cb_get_packet_spec (cb : circular_buffer_t) (ps : list (list Z)) (buflen : Z) :
  cb_inv cb -> holds cb ps -> Forall (fun p => zlen p < 4294967296) ps ->
  match ps with
  | [] => cb_get_packet buflen cb = Ret None cb
  | p :: ps =>
      if buflen <? zlen p then cb_get_packet buflen cb = Ret None cb
      else exists cb', cb_get_packet buflen cb = Ret (Some p) cb' /\ cb_inv cb' /\ holds cb' ps
  end.
Proof.
  intros Hi Hh Hs. destruct ps as [|p ps].
  - destruct Hi, Hh as [Hb _]. unfold cb_get_packet. rewrite bind_gets. unfold id.
    pose proof (ring_len (data cb) (capacity cb) (read_index cb) (used cb)) as Hl.
    fold (bytes_of cb) in Hl. rewrite Hb in Hl. specialize (Hl ltac:(lia)). cbn in Hl.
    rewrite zlen_nil in Hl. case_if; [done|lia].
  - apply Forall_cons in Hs as [Hs _].
    destruct (get_packet_head cb p ps buflen) as (cb' & Hi' & Hh' & _ & E); auto.
    case_if; [done|]. by exists cb'.
Qed.

(** C23: a pipe is a queue of packets.  cb_put_packet appends the packet when four bytes of
    length and the packet fit in what is free, and otherwise returns false and leaves the
    pipe alone.  cb_get_packet removes the oldest packet and returns it byte for byte, also
    when it wrapped around the end of the array, when it fits the caller's buffer;
    otherwise, and on an empty pipe, it returns false and leaves the pipe alone.  No copy
    leaves the array, and the invariant is kept. *)
Theorem pipe_refines_queue (cb : circular_buffer_t) (ps : list (list Z)) :
  cb_inv cb -> holds cb ps -> Forall (fun p => zlen p < 4294967296) ps ->
  (forall p, bytes_ok p ->
     if capacity cb - used cb <? 4 + zlen p
     then cb_put_packet p cb = Ret false cb
     else exists cb', cb_put_packet p cb = Ret true cb' /\ cb_inv cb' /\ holds cb' (ps ++ [p]) /\
            capacity cb' = capacity cb /\ used cb' = used cb + 4 + zlen p) /\
  (forall buflen, match ps with
     | [] => cb_get_packet buflen cb = Ret None cb
     | p :: ps =>
         if buflen <? zlen p then cb_get_packet buflen cb = Ret None cb
         else exists cb', cb_get_packet buflen cb = Ret (Some p) cb' /\ cb_inv cb' /\ holds cb' ps
     end).
Proof.
  intros Hi Hh Hs. split; [intros p Hp; by apply cb_put_packet_spec|intros buflen; by apply cb_get_packet_spec].
Qed.

Lemma pipe_refines_queue_witness :
  exists cb', cb_get_packet 10 (mk_cb 8 3 6 5 [0; 7; 8; 0; 0; 2; 0; 0]) = Ret (Some [7; 8]) cb' /\
    cb_inv cb' /\ holds cb' [].
Proof.
  refine (proj2 (pipe_refines_queue (mk_cb 8 3 6 5 [0; 7; 8; 0; 0; 2; 0; 0]) [[7; 8]] _ _ _) 10).
  - split; by vm_compute.
  - split; [by vm_compute|]. apply Forall_cons. split; [|apply Forall_nil; exact I].
    repeat (apply Forall_cons; split; [by vm_compute|]). apply Forall_nil. exact I.
  - apply Forall_cons. split; [by vm_compute|apply Forall_nil; exact I].
Defined.


