(* ===== verification/LinkedList.v ===== *)
(** * Doubly linked lists: include/list.h

    The other files keep the C lists (packet queues, routes, datagrams being
    reassembled, devices) as Rocq lists.  This file justifies that: the pointer
    operations of include/list.h on a heap of nodes refine the operations on the
    list of addresses in the ring. *)

From stdpp Require Import prelude list gmap.
From Stdlib Require Import ZArith Lia.
From S2P Require Import Prelude.

(** ** The code *)

Definition addr : Type := nat.

Record list_head := mk_list_head { prev : option addr; next : option addr }.   (* None is NULL *)

Abbreviation heap := (gmap addr list_head).

Definition ld_node (a : addr) : comp heap list_head := fun m =>
  match m !! a with Some n => Ret n m | None => Fault UseAfterFree end.

(** [a->prev = v] and [a->next = v]. *)
Definition st_prev (a : addr) (v : option addr) : comp heap unit :=
  let* n := ld_node a in modify (<[a := mk_list_head v (next n)]>).
Definition st_next (a : addr) (v : option addr) : comp heap unit :=
  let* n := ld_node a in modify (<[a := mk_list_head (prev n) v]>).

(** A pointer that is dereferenced. *)
Definition deref (p : option addr) : comp heap addr := of_opt NullDeref p.

Definition list_init (head : addr) : comp heap unit :=
  st_next head (Some head);; st_prev head (Some head).

Definition __list_add (list prev next : addr) : comp heap unit :=
  st_prev list (Some prev);;
  st_next list (Some next);;
  st_prev next (Some list);;
  st_next prev (Some list).

Definition list_add (list head : addr) : comp heap unit :=
  let* h := ld_node head in
  let* n := deref (next h) in
  __list_add list head n.

Definition list_add_tail (list head : addr) : comp heap unit :=
  let* h := ld_node head in
  let* p := deref (prev h) in
  __list_add list p head.

Definition __list_del (prev next : addr) : comp heap unit :=
  st_next prev (Some next);; st_prev next (Some prev).

(** The two pointers are read before the neighbours are changed. *)
Definition unlink_node (list : addr) : comp heap unit :=
  let* n := ld_node list in
  let* p := deref (prev n) in
  let* q := deref (next n) in
  __list_del p q.

Definition list_del (list : addr) : comp heap unit :=
  unlink_node list;; st_prev list None;; st_next list None.

Definition list_del_init (list : addr) : comp heap unit :=
  unlink_node list;; st_prev list (Some list);; st_next list (Some list).

Definition list_empty (head : addr) : comp heap bool :=
  let* h := ld_node head in ret (bool_decide (next h = Some head)).

(** The nodes that list_for_each_entry visits, from the one after [pos]. *)
Fixpoint visit (fuel : nat) (head pos : addr) : comp heap (list addr) :=
  match fuel with
  | O => out_of_fuel
  | S n =>
      let* p := ld_node pos in
      let* a := deref (next p) in
      if bool_decide (a = head) then ret []
      else let* r := visit n head a in ret (a :: r)
  end.

Definition list_for_each (fuel : nat) (head : addr) : comp heap (list addr) := visit fuel head head.

(** list_for_each_entry_reverse *)
Fixpoint visit_rev (fuel : nat) (head pos : addr) : comp heap (list addr) :=
  match fuel with
  | O => out_of_fuel
  | S n =>
      let* p := ld_node pos in
      let* a := deref (prev p) in
      if bool_decide (a = head) then ret []
      else let* r := visit_rev n head a in ret (a :: r)
  end.

Definition list_for_each_reverse (fuel : nat) (head : addr) : comp heap (list addr) :=
  visit_rev fuel head head.

(** ** The abstraction *)

Definition nxt (m : heap) (a : addr) : option addr := m !! a ≫= next.
Definition prv (m : heap) (a : addr) : option addr := m !! a ≫= prev.

(** Neighbours in [l] point to each other. *)
Fixpoint linked (m : heap) (l : list addr) : Prop :=
  match l with
  | a :: ((b :: _) as r) => nxt m a = Some b /\ prv m b = Some a /\ linked m r
  | _ => True
  end.

(** The ring with head [h] holds the nodes [xs], in this order. *)
Definition is_list (m : heap) (h : addr) (xs : list addr) : Prop :=
  NoDup (h :: xs) /\ linked m (h :: xs ++ [h]).

(** ** Lemmas *)

Section Lemmas.
Implicit Types (m : heap) (a b h p q : addr).

Lemma linked_app m l1 a l2 :
  linked m (l1 ++ a :: l2) <-> linked m (l1 ++ [a]) /\ linked m (a :: l2).
Proof.
  induction l1 as [|x l1 IH]; [simpl; tauto|].
  destruct l1 as [|y l1]; simpl in *; [tauto|]. rewrite IH. tauto.
Qed.

Lemma linked_cons2 m a b r :
  linked m (a :: b :: r) <-> nxt m a = Some b /\ prv m b = Some a /\ linked m (b :: r).
Proof. done. Qed.

Lemma linked_frame m m' l :
  (forall a, a ∈ removelast l -> nxt m' a = nxt m a) ->
  (forall a, a ∈ tail l -> prv m' a = prv m a) ->
  linked m l -> linked m' l.
Proof.
  induction l as [|a [|b r] IH]; intros Hn Hp; [done|done|].
  intros (H1 & H2 & H3). split_and!.
  - rewrite Hn; [done|]. simpl. set_solver.
  - rewrite Hp; [done|]. simpl. set_solver.
  - apply IH; [|intros x Hx; apply Hp; simpl; set_solver|done].
    intros x Hx. apply Hn. change (x ∈ a :: removelast (b :: r)). set_solver.
Qed.

Lemma removelast_elem (l : list addr) a x : x ∈ removelast (l ++ [a]) <-> x ∈ l.
Proof. by rewrite removelast_last. Qed.

(** A ring with a gap after the nodes [xs]. *)
Lemma split_ring h xs ys : exists pre p q post,
  h :: xs = pre ++ [p] /\ ys ++ [h] = q :: post.
Proof.
  destruct (exists_last (l := h :: xs)) as (pre & p & E); [done|].
  destruct ys as [|y ys]; simpl.
  - by exists pre, p, h, [].
  - by exists pre, p, y, (ys ++ [h]).
Qed.

Lemma linked_live m l a : linked m l -> (2 <= length l)%nat -> a ∈ l -> is_Some (m !! a).
Proof.
  induction l as [|x [|y r] IH]; simpl; [lia|lia|]. intros (H1 & H2 & H3) _ [->|Hin]%elem_of_cons.
  - unfold nxt in H1. destruct (m !! x); [by eexists|done].
  - destruct r as [|z r].
    + apply list_elem_of_singleton in Hin as ->. unfold prv in H2. destruct (m !! y); [by eexists|done].
    + apply IH; [done|simpl; lia|done].
Qed.

Lemma is_list_live m h xs a : is_list m h xs -> a ∈ h :: xs -> is_Some (m !! a).
Proof.
  intros [_ Hl] Ha. eapply linked_live; [exact Hl|rewrite length_cons, length_app; simpl; lia|set_solver].
Qed.

(** Pointer stores on nodes that exist. *)
Lemma st_prev_ok m a n v : m !! a = Some n ->
  st_prev a v m = Ret tt (<[a := mk_list_head v (next n)]> m).
Proof. intros E. unfold st_prev, ld_node, bind. by rewrite E. Qed.

Lemma st_next_ok m a n v : m !! a = Some n ->
  st_next a v m = Ret tt (<[a := mk_list_head (prev n) v]> m).
Proof. intros E. unfold st_next, ld_node, bind. by rewrite E. Qed.

(** What a store changes, seen through [nxt] and [prv]. *)
Definition alive m a : Prop := is_Some (m !! a).

Lemma st_prev_spec m a v : alive m a -> exists m', st_prev a v m = Ret tt m' /\
  (forall x, alive m' x <-> alive m x) /\ (forall x, nxt m' x = nxt m x) /\
  (forall x, prv m' x = if decide (x = a) then v else prv m x) /\
  (forall x, x <> a -> m' !! x = m !! x).
Proof.
  intros [n E]. eexists. split_and!; [by apply st_prev_ok| | | |];
    intros x; unfold nxt, prv, alive; (destruct (decide (x = a)) as [->|Hne];
    [rewrite ?lookup_insert_eq, ?E|rewrite ?lookup_insert_ne by done]); try done.
Qed.

Lemma st_next_spec m a v : alive m a -> exists m', st_next a v m = Ret tt m' /\
  (forall x, alive m' x <-> alive m x) /\ (forall x, prv m' x = prv m x) /\
  (forall x, nxt m' x = if decide (x = a) then v else nxt m x) /\
  (forall x, x <> a -> m' !! x = m !! x).
Proof.
  intros [n E]. eexists. split_and!; [by apply st_next_ok| | | |];
    intros x; unfold nxt, prv, alive; (destruct (decide (x = a)) as [->|Hne];
    [rewrite ?lookup_insert_eq, ?E|rewrite ?lookup_insert_ne by done]); try done.
Qed.

Lemma bind_deref {B} p (k : addr -> comp heap B) m : bind (deref (Some p)) k m = k p m.
Proof. done. Qed.

Lemma nxt_ld m a b : nxt m a = Some b -> exists n, ld_node a m = Ret n m /\ next n = Some b.
Proof. unfold nxt, ld_node. destruct (m !! a) as [n|]; [|done]. simpl. intros. by exists n. Qed.

Lemma prv_ld m a b : prv m a = Some b -> exists n, ld_node a m = Ret n m /\ prev n = Some b.
Proof. unfold prv, ld_node. destruct (m !! a) as [n|]; [|done]. simpl. intros. by exists n. Qed.

(** Where the ends of a gap occur in the ring. *)
Lemma gap_nodup h xs ys pre p q post :
  NoDup (h :: xs ++ ys) -> h :: xs = pre ++ [p] -> ys ++ [h] = q :: post ->
  p ∉ pre /\ q ∉ tail (pre ++ [p]) /\ p ∉ removelast (q :: post) /\ q ∉ post.
Proof.
  intros Hnd Ep Eq. rewrite <- Ep, <- Eq, removelast_last. simpl.
  change (h :: xs ++ ys) with ((h :: xs) ++ ys) in Hnd.
  apply NoDup_app in Hnd as (Hx & Hxy & Hy).
  assert (Hh : h ∉ xs) by by apply NoDup_cons in Hx as [? _].
  split_and!.
  - rewrite Ep in Hx. apply NoDup_app in Hx as (_ & Hd & _). intros Hp. apply (Hd p Hp). set_solver.
  - intros Hq. destruct ys as [|y ys]; simplify_eq/=; [done|]. apply (Hxy q); set_solver.
  - intros Hp. apply (Hxy p); [rewrite Ep; set_solver|done].
  - destruct ys as [|y ys]; simplify_eq/=; [set_solver|].
    apply NoDup_cons in Hy as [Hq _]. intros [?|Hqh]%elem_of_app; [done|].
    apply list_elem_of_singleton in Hqh as ->. apply (Hxy h); set_solver.
Qed.

(** The stores that link [l] between [p] and [q]. *)
Lemma linked_splice m m' pre p l q post :
  linked m (pre ++ p :: q :: post) ->
  p ∉ pre -> q ∉ tail (pre ++ [p]) -> p ∉ removelast (q :: post) -> q ∉ post ->
  l ∉ pre ++ p :: q :: post ->
  (forall x, nxt m' x = if decide (x = p) then Some l else if decide (x = l) then Some q else nxt m x) ->
  (forall x, prv m' x = if decide (x = q) then Some l else if decide (x = l) then Some p else prv m x) ->
  linked m' (pre ++ p :: l :: q :: post).
Proof.
  intros Hl Hp1 Hq1 Hp2 Hq2 Hlf Hnx Hpv.
  rewrite linked_app in Hl |- *. destruct Hl as (Hl1 & _ & _ & Hl2).
  assert (l <> p) by set_solver. assert (l <> q) by set_solver.
  rewrite !linked_cons2. split; [|split_and!].
  - eapply linked_frame; [| |exact Hl1].
    + intros x Hx. rewrite removelast_elem in Hx. rewrite Hnx, !decide_False; set_solver.
    + intros x Hx. rewrite Hpv, !decide_False; [done| |by intros ->].
      intros ->. apply Hlf. destruct pre; set_solver.
  - by rewrite Hnx, decide_True.
  - by rewrite Hpv, decide_False, decide_True.
  - by rewrite Hnx, decide_False, decide_True.
  - by rewrite Hpv, decide_True.
  - eapply linked_frame; [| |exact Hl2].
    + intros x Hx. rewrite Hnx, !decide_False; [done| |by intros ->].
      intros ->. apply Hlf. apply elem_of_app. right. apply elem_of_cons. right.
      rewrite (app_removelast_last q (l := q :: post)) by done. set_solver.
    + simpl. intros x Hx. rewrite Hpv, !decide_False; set_solver.
Qed.

(** __list_add into the gap between [p] and [q]. *)
Lemma __list_add_ok m h xs ys l pre p q post :
  is_list m h (xs ++ ys) -> alive m l -> l ∉ h :: xs ++ ys ->
  h :: xs = pre ++ [p] -> ys ++ [h] = q :: post ->
  exists m', __list_add l p q m = Ret tt m' /\ is_list m' h (xs ++ l :: ys) /\
    (forall x, x ∉ l :: h :: xs ++ ys -> m' !! x = m !! x).
Proof.
  intros Hlist Hal Hnew Ep Eq. destruct (Hlist) as [Hnd Hl].
  destruct (gap_nodup _ _ _ _ _ _ _ Hnd Ep Eq) as (Hp1 & Hq1 & Hp2 & Hq2).
  assert (Hp : p ∈ h :: xs) by (rewrite Ep; set_solver).
  assert (Hq : q ∈ ys ++ [h]) by (rewrite Eq; set_solver).
  destruct (st_prev_spec m l (Some p) Hal) as (m1 & E1 & A1 & N1 & P1 & U1).
  destruct (st_next_spec m1 l (Some q)) as (m2 & E2 & A2 & P2 & N2 & U2); [by apply A1|].
  destruct (st_prev_spec m2 q (Some l)) as (m3 & E3 & A3 & N3 & P3 & U3).
  { apply A2, A1. eapply is_list_live; [done|set_solver]. }
  destruct (st_next_spec m3 p (Some l)) as (m4 & E4 & A4 & P4 & N4 & U4).
  { apply A3, A2, A1. eapply is_list_live; [done|set_solver]. }
  exists m4. split; [|split; [split|]].
  - unfold __list_add. erewrite bind_ok by exact E1. erewrite bind_ok by exact E2.
    by erewrite bind_ok by exact E3.
  - apply NoDup_cons in Hnd as [Hh Hnd]. apply NoDup_cons. split; [set_solver|].
    rewrite NoDup_app in Hnd |- *. destruct Hnd as (Hx & Hxy & Hy).
    split_and!; [done|set_solver|]. apply NoDup_cons. split; [set_solver|done].
  - assert (Er : forall zs, h :: (xs ++ zs ++ ys) ++ [h] = pre ++ p :: zs ++ q :: post).
    { intros zs. rewrite <- !app_assoc, Eq.
      change (h :: xs ++ zs ++ q :: post) with ((h :: xs) ++ zs ++ q :: post).
      by rewrite Ep, <- app_assoc. }
    pose proof (Er []) as Er0. pose proof (Er [l]) as Er1. cbn [app] in Er0, Er1. rewrite Er1.
    apply (linked_splice m); [by rewrite <- Er0|done|done|done|done| | |].
    + rewrite <- Er0. set_solver.
    + intros x. by rewrite N4, N3, N2, N1.
    + intros x. by rewrite P4, P3, P2, P1.
  - intros x Hx. rewrite U4, U3, U2, U1 by set_solver. done.
Qed.

(** Unlinking the node between [p] and [q]. *)
Lemma unlink_node_ok m h xs ys l :
  is_list m h (xs ++ l :: ys) ->
  exists m', unlink_node l m = Ret tt m' /\ is_list m' h (xs ++ ys) /\
    (forall x, x ∉ h :: xs ++ ys -> m' !! x = m !! x).
Proof.
  intros Hlist. destruct (Hlist) as [Hnd Hl].
  destruct (split_ring h xs ys) as (pre & p & q & post & Ep & Eq).
  assert (Hnd' : NoDup (h :: xs ++ ys) /\ l ∉ h :: xs ++ ys).
  { apply NoDup_cons in Hnd as [Hh Hnd]. apply NoDup_app in Hnd as (Hx & Hxy & [Hly Hy]%NoDup_cons).
    split; [|set_solver]. apply NoDup_cons. split; [set_solver|]. apply NoDup_app. set_solver. }
  destruct Hnd' as [Hnd' Hlf].
  destruct (gap_nodup _ _ _ _ _ _ _ Hnd' Ep Eq) as (Hp1 & Hq1 & Hp2 & Hq2).
  assert (Er : forall zs, h :: (xs ++ zs ++ ys) ++ [h] = pre ++ p :: zs ++ q :: post).
  { intros zs. rewrite <- !app_assoc, Eq.
    change (h :: xs ++ zs ++ q :: post) with ((h :: xs) ++ zs ++ q :: post).
    by rewrite Ep, <- app_assoc. }
  assert (Hp : p ∈ h :: xs) by (rewrite Ep; set_solver).
  assert (Hq : q ∈ ys ++ [h]) by (rewrite Eq; set_solver).
  pose proof (Er []) as Er0. pose proof (Er [l]) as Er1. cbn [app] in Er0, Er1.
  rewrite Er1, linked_app in Hl.
  rewrite !linked_cons2 in Hl. destruct Hl as (Hl1 & Npl & Plp & Nlq & Pql & Hl2).
  destruct (nxt_ld _ _ _ Nlq) as (n & Eld & En). destruct (prv_ld _ _ _ Plp) as (n' & Eld' & En').
  rewrite Eld in Eld'. injection Eld' as <-.
  destruct (st_next_spec m p (Some q)) as (m1 & E1 & A1 & P1 & N1 & U1).
  { eapply is_list_live; [done|set_solver]. }
  destruct (st_prev_spec m1 q (Some p)) as (m2 & E2 & A2 & N2 & P2 & U2).
  { apply A1. eapply is_list_live; [done|set_solver]. }
  exists m2. split; [|split; [split|]].
  - unfold unlink_node. erewrite bind_ok by exact Eld. rewrite En, En', !bind_deref.
    unfold __list_del. by erewrite bind_ok by exact E1.
  - done.
  - rewrite Er0, linked_app, linked_cons2.
    split; [|split_and!].
    + eapply linked_frame; [| |exact Hl1]; intros x Hx.
      * rewrite removelast_elem in Hx. rewrite N2, N1, decide_False; set_solver.
      * rewrite P2, P1, decide_False; set_solver.
    + by rewrite N2, N1, decide_True.
    + by rewrite P2, decide_True.
    + eapply linked_frame; [| |exact Hl2]; intros x Hx.
      * rewrite N2, N1, decide_False; [done|by intros ->].
      * simpl in Hx. rewrite P2, P1, decide_False; set_solver.
  - intros x Hx. rewrite U2, U1 by set_solver. done.
Qed.

End Lemmas.

(** Traversal: the nodes after [a], in the rest of the ring. *)
Lemma visit_ok m h : forall ys pre a fuel,
  linked m (pre ++ a :: ys ++ [h]) -> h ∉ ys -> (length ys < fuel)%nat ->
  visit fuel h a m = Ret ys m.
Proof.
  induction ys as [|y ys IH]; intros pre a [|fuel] Hl Hh Hf; simpl in Hf; try lia; cbn [visit].
  - rewrite linked_app in Hl. destruct Hl as (_ & Hn & _ & _).
    destruct (nxt_ld _ _ _ Hn) as (n & E & En). erewrite bind_ok by exact E.
    rewrite En, bind_deref. by rewrite bool_decide_true.
  - pose proof Hl as Hl'. rewrite linked_app in Hl'. destruct Hl' as (_ & Hn & _ & _).
    destruct (nxt_ld _ _ _ Hn) as (n & E & En). erewrite bind_ok by exact E.
    rewrite En, bind_deref, bool_decide_false by set_solver.
    erewrite bind_ok; [done|]. apply (IH (pre ++ [a])); [by rewrite <- app_assoc|set_solver|lia].
Qed.

Lemma visit_rev_ok m h : forall xs a post fuel,
  linked m (h :: rev xs ++ a :: post) -> h ∉ xs -> (length xs < fuel)%nat ->
  visit_rev fuel h a m = Ret xs m.
Proof.
  induction xs as [|x xs IH]; intros a post [|fuel] Hl Hh Hf; simpl in Hf; try lia; cbn [visit_rev].
  - destruct Hl as (_ & Hp & _).
    destruct (prv_ld _ _ _ Hp) as (n & E & En). erewrite bind_ok by exact E.
    rewrite En, bind_deref. by rewrite bool_decide_true.
  - cbn [rev] in Hl. rewrite <- app_assoc in Hl. cbn [app] in Hl.
    pose proof Hl as Hl'. change (h :: rev xs ++ x :: a :: post) with ((h :: rev xs) ++ x :: a :: post) in Hl'.
    rewrite linked_app in Hl'. destruct Hl' as (_ & _ & Hp & _).
    destruct (prv_ld _ _ _ Hp) as (n & E & En). erewrite bind_ok by exact E.
    rewrite En, bind_deref, bool_decide_false by set_solver.
    erewrite bind_ok; [done|]. apply (IH x (a :: post)); [done|set_solver|lia].
Qed.

(** A ring of three nodes, for the witnesses. *)
Definition sample_ring : heap :=
  {[ 0%nat := mk_list_head (Some 2%nat) (Some 1%nat); 1%nat := mk_list_head (Some 0%nat) (Some 2%nat);
     2%nat := mk_list_head (Some 1%nat) (Some 0%nat); 3%nat := mk_list_head None None ]}.

Lemma sample_ring_list : is_list sample_ring 0%nat [1%nat; 2%nat].
Proof. split; [by apply (bool_decide_unpack _)|by vm_compute]. Qed.

(** ** Properties *)

(** On a ring that holds [xs], list_add puts a new node at the front and
    list_add_tail at the end of the list, nothing else on the heap changes, and no
    store goes through a NULL or dead pointer. *)
Lemma list_add_refines (m : heap) (h l : addr) (xs : list addr)
    (H : is_list m h xs) (Hl : is_Some (m !! l)) (Hn : l ∉ h :: xs) :
  (exists m', list_add l h m = Ret tt m' /\ is_list m' h (l :: xs) /\
     forall x, x ∉ l :: h :: xs -> m' !! x = m !! x) /\
  (exists m', list_add_tail l h m = Ret tt m' /\ is_list m' h (xs ++ [l]) /\
     forall x, x ∉ l :: h :: xs -> m' !! x = m !! x).
Proof.
  split.
  - destruct (split_ring h [] xs) as (pre & p & q & post & Ep & Eq).
    destruct (__list_add_ok m h [] xs l pre p q post H Hl Hn Ep Eq) as (m' & E & Hl' & Hf).
    exists m'. split_and!; [|done|done]. rewrite <- E. unfold list_add.
    destruct pre as [|? []]; simplify_eq/=. destruct H as [_ Hlk]. rewrite Eq in Hlk.
    destruct Hlk as (Hn1 & _ & _). destruct (nxt_ld _ _ _ Hn1) as (n & En & E').
    erewrite bind_ok by exact En. by rewrite E', bind_deref.
  - rewrite <- (app_nil_r xs) in H, Hn.
    destruct (split_ring h xs []) as (pre & p & q & post & Ep & Eq).
    destruct (__list_add_ok m h xs [] l pre p q post H Hl Hn Ep Eq) as (m' & E & Hl' & Hf).
    rewrite app_nil_r in *. exists m'. split_and!; [|done|done]. rewrite <- E. unfold list_add_tail.
    cbn in Eq. assert (q = h) as -> by congruence. destruct H as [_ Hlk]. change (h :: xs ++ [h]) with ((h :: xs) ++ [h]) in Hlk.
    rewrite Ep, <- app_assoc in Hlk. cbn [app] in Hlk. rewrite linked_app in Hlk.
    destruct Hlk as (_ & _ & Hp & _).
    destruct (prv_ld _ _ _ Hp) as (n & En & E').
    erewrite bind_ok by exact En. by rewrite E', bind_deref.
Qed.

Lemma list_add_refines_witness :
  exists m', list_add_tail 3%nat 0%nat sample_ring = Ret tt m' /\ is_list m' 0%nat [1%nat; 2%nat; 3%nat].
Proof.
  destruct (list_add_refines sample_ring 0%nat 3%nat [1%nat; 2%nat] sample_ring_list)
    as [_ (m' & E & Hl & _)].
  - vm_compute. eauto.
  - by apply (bool_decide_unpack _).
  - by exists m'.
Defined.

(** list_del removes exactly its node from the ring and leaves it with NULL
    pointers; list_del_init leaves it as an empty ring of its own.  The order of
    the other nodes is kept. *)
Lemma list_del_refines (m : heap) (h l : addr) (xs ys : list addr)
    (H : is_list m h (xs ++ l :: ys)) :
  (exists m', list_del l m = Ret tt m' /\ is_list m' h (xs ++ ys) /\
     m' !! l = Some (mk_list_head None None) /\
     forall x, x ∉ l :: h :: xs ++ ys -> m' !! x = m !! x) /\
  (exists m', list_del_init l m = Ret tt m' /\ is_list m' h (xs ++ ys) /\ is_list m' l [] /\
     forall x, x ∉ l :: h :: xs ++ ys -> m' !! x = m !! x).
Proof.
  destruct (unlink_node_ok m h xs ys l H) as (m1 & E1 & [Hnd Hl1] & Hf1).
  assert (Hlf : l ∉ h :: xs ++ ys).
  { destruct H as [Hd _]. apply NoDup_cons in Hd as [? Hd]. apply NoDup_app in Hd as (_ & ? & [? _]%NoDup_cons).
    set_solver. }
  destruct (is_list_live m h _ l H ltac:(set_solver)) as [n0 Hn0].
  assert (Hn1 : m1 !! l = Some n0) by by rewrite Hf1.
  assert (Hst : forall v w, (st_prev l v;; st_next l w) m1 =
            Ret tt (<[l := mk_list_head v w]> m1)).
  { intros v w. erewrite bind_ok by by apply st_prev_ok.
    erewrite st_next_ok by apply lookup_insert_eq. by rewrite insert_insert_eq. }
  assert (Hkeep : forall n, is_list (<[l := n]> m1) h (xs ++ ys)).
  { intros n. split; [done|]. eapply linked_frame; [| |exact Hl1]; intros x Hx;
      unfold nxt, prv; rewrite lookup_insert_ne; try done; intros ->; apply Hlf.
    - change (h :: (xs ++ ys) ++ [h]) with ((h :: xs ++ ys) ++ [h]) in Hx.
      by rewrite removelast_elem in Hx.
    - simpl in Hx. set_solver. }
  assert (Hfr : forall n x, x ∉ l :: h :: xs ++ ys -> <[l := n]> m1 !! x = m !! x).
  { intros n x Hx. rewrite lookup_insert_ne by set_solver. apply Hf1. set_solver. }
  split; eexists; (split; [unfold list_del, list_del_init; erewrite bind_ok by exact E1; apply Hst|]).
  - split_and!; [apply Hkeep|apply lookup_insert_eq|apply Hfr].
  - split_and!; [apply Hkeep| |apply Hfr]. split; [apply NoDup_singleton|].
    cbn. unfold nxt, prv. by rewrite lookup_insert_eq.
Qed.

Lemma list_del_refines_witness :
  exists m', list_del 1%nat sample_ring = Ret tt m' /\ is_list m' 0%nat [2%nat].
Proof.
  destruct (list_del_refines sample_ring 0%nat 1%nat [] [2%nat] sample_ring_list)
    as [(m' & E & Hl & _) _].
  by exists m'.
Defined.

(** The traversal macros terminate after one turn per node: list_for_each_entry
    visits the nodes of the list in order, list_for_each_entry_reverse in reverse
    order, and list_empty tells whether there are none. *)
Lemma list_traversals (m : heap) (h : addr) (xs : list addr) (fuel : nat)
    (H : is_list m h xs) (Hf : (length xs < fuel)%nat) :
  list_for_each fuel h m = Ret xs m /\
  list_for_each_reverse fuel h m = Ret (rev xs) m /\
  list_empty h m = Ret (bool_decide (xs = [])) m.
Proof.
  destruct H as [Hnd Hl]. apply NoDup_cons in Hnd as [Hh Hnd]. split_and!.
  - apply (visit_ok m h xs [] h); done.
  - apply (visit_rev_ok m h (rev xs) h []); [by rewrite rev_involutive| |by rewrite length_rev].
    intros Hin. apply Hh, list_elem_of_In, in_rev. by apply list_elem_of_In.
  - unfold list_empty. destruct xs as [|x xs]; destruct Hl as (Hn & _);
      destruct (nxt_ld _ _ _ Hn) as (n & E & En); erewrite bind_ok by exact E; rewrite En.
    + rewrite bool_decide_true by done. done.
    + rewrite bool_decide_false by set_solver. done.
Qed.

Lemma list_traversals_witness :
  list_for_each 3 0%nat sample_ring = Ret [1%nat; 2%nat] sample_ring /\
  list_for_each_reverse 3 0%nat sample_ring = Ret (rev [1%nat; 2%nat]) sample_ring /\
  list_empty 0%nat sample_ring = Ret (bool_decide ([1%nat; 2%nat] = [])) sample_ring.
Proof.
  apply (list_traversals sample_ring 0%nat [1%nat; 2%nat] 3 sample_ring_list).
  cbn. lia.
Defined.
