(* ===== verification/HashList.v ===== *)
(** * Hash lists: the second half of include/list.h

    The chains of the socket tables are kept as Rocq lists in the other files.  Here
    they are what they are in the code: nodes with a pointer to the next node, and a
    pointer to the place that points to the node, which is a [slot]: the field first of a
    head or the field next of a node.  The pointer operations refine the operations on
    the list of addresses. *)

From stdpp Require Import prelude list gmap.
From Stdlib Require Import ZArith Lia.
From S2P Require Import Prelude.

(** ** The code *)

Definition naddr : Type := nat.
Definition haddr : Type := nat.

Inductive slot := First (h : haddr) | NextOf (a : naddr).

#[global] Instance slot_eq_dec : EqDecision slot.
Proof. solve_decision. Defined.

Record hlist_node := mk_hlist_node { hnext : option naddr; pprev : option slot }.   (* None is NULL *)

(** The nodes, and the field first of the heads. *)
Record hheap := mk_hheap { hnodes : gmap naddr hlist_node; hheads : gmap haddr (option naddr) }.

Definition ld_hnode (a : naddr) : comp hheap hlist_node := fun m =>
  match hnodes m !! a with Some n => Ret n m | None => Fault UseAfterFree end.

Definition st_hnode (a : naddr) (f : hlist_node -> hlist_node) : comp hheap unit :=
  let* n := ld_hnode a in modify (fun m => mk_hheap (<[a := f n]> (hnodes m)) (hheads m)).

Definition st_hnext (a : naddr) (v : option naddr) : comp hheap unit := st_hnode a (fun n => mk_hlist_node v (pprev n)).
Definition st_pprev (a : naddr) (v : option slot) : comp hheap unit := st_hnode a (fun n => mk_hlist_node (hnext n) v).

Definition ld_first (h : haddr) : comp hheap (option naddr) := fun m =>
  match hheads m !! h with Some v => Ret v m | None => Fault UseAfterFree end.

Definition st_first (h : haddr) (v : option naddr) : comp hheap unit :=
  ld_first h;; modify (fun m => mk_hheap (hnodes m) (<[h := v]> (hheads m))).

(** A store through a pointer to a pointer. *)
Definition st_slot (p : option slot) (v : option naddr) : comp hheap unit :=
  match p with
  | None => fail NullDeref
  | Some (First h) => st_first h v
  | Some (NextOf a) => st_hnext a v
  end.

Definition hlist_unhashed (node : naddr) : comp hheap bool :=
  let* n := ld_hnode node in ret (bool_decide (pprev n = None)).

Definition hlist_empty (head : haddr) : comp hheap bool :=
  let* f := ld_first head in ret (bool_decide (f = None)).

Definition hlist_head_init (head : haddr) : comp hheap unit := st_first head None.

Definition hlist_node_init (node : naddr) : comp hheap unit := st_hnext node None;; st_pprev node None.

(** [if (p) p->pprev = v] *)
Definition set_pprev_of (p : option naddr) (v : option slot) : comp hheap unit :=
  match p with Some a => st_pprev a v | None => ret tt end.

Definition __hlist_del (n : naddr) : comp hheap unit :=
  let* k := ld_hnode n in
  st_slot (pprev k) (hnext k);;
  let* k := ld_hnode n in
  set_pprev_of (hnext k) (pprev k).

Definition hlist_del (n : naddr) : comp hheap unit :=
  __hlist_del n;; st_hnext n None;; st_pprev n None.

Definition hlist_add_head (n : naddr) (h : haddr) : comp hheap unit :=
  let* f := ld_first h in
  st_hnext n f;;
  st_pprev n (Some (First h));;
  let* f := ld_first h in
  set_pprev_of f (Some (NextOf n));;
  st_first h (Some n).

(** add @n before @next *)
Definition hlist_add_before (n next : naddr) : comp hheap unit :=
  st_hnext n (Some next);;
  let* k := ld_hnode next in
  st_pprev n (pprev k);;
  let* k := ld_hnode next in
  st_slot (pprev k) (Some n);;
  st_pprev next (Some (NextOf n)).

(** add @next after @n *)
Definition hlist_add_after (n next : naddr) : comp hheap unit :=
  let* k := ld_hnode n in
  st_hnext next (hnext k);;
  st_pprev next (Some (NextOf n));;
  let* k := ld_hnode n in
  set_pprev_of (hnext k) (Some (NextOf next));;
  st_hnext n (Some next).

(** The nodes that hlist_for_each_entry visits, from [node] on. *)
Fixpoint hvisit (fuel : nat) (node : option naddr) : comp hheap (list naddr) :=
  match node with
  | None => ret []
  | Some a =>
      match fuel with
      | O => out_of_fuel
      | S f => let* k := ld_hnode a in let* r := hvisit f (hnext k) in ret (a :: r)
      end
  end.

Definition hlist_for_each (fuel : nat) (head : haddr) : comp hheap (list naddr) :=
  let* f := ld_first head in hvisit fuel f.

(** ** The abstraction *)

(** What a slot holds, and where pprev points. *)
Definition held (m : hheap) (sl : slot) : option (option naddr) :=
  match sl with First h => hheads m !! h | NextOf a => hnext <$> hnodes m !! a end.
Definition back (m : hheap) (a : naddr) : option (option slot) := pprev <$> hnodes m !! a.

(** From the slot [sl] on the nodes [xs] follow each other, up to the slot [sl']. *)
Fixpoint hseg (m : hheap) (sl : slot) (xs : list naddr) (sl' : slot) : Prop :=
  match xs with
  | [] => sl = sl'
  | a :: r => held m sl = Some (Some a) /\ back m a = Some (Some sl) /\ hseg m (NextOf a) r sl'
  end.

(** The chain of the head [h] has the nodes [xs]. *)
Definition is_hlist (m : hheap) (h : haddr) (xs : list naddr) : Prop :=
  NoDup xs /\ exists sl, hseg m (First h) xs sl /\ held m sl = Some None.

(** ** Lemmas *)

Section Lemmas.
Implicit Types (m : hheap) (a b n : naddr) (sl : slot).

(** The slots inside a segment. *)
Fixpoint slots sl (xs : list naddr) : list slot :=
  match xs with [] => [] | a :: r => sl :: slots (NextOf a) r end.

Lemma hseg_frame m m' sl xs sl' : hseg m sl xs sl' ->
  (forall s, s ∈ slots sl xs -> held m' s = held m s) -> (forall a, a ∈ xs -> back m' a = back m a) -> hseg m' sl xs sl'.
Proof.
  revert sl. induction xs as [|a r IH]; intros sl; cbn; [done|]. intros (H1 & H2 & H3) Hs Hb.
  rewrite Hs, Hb by set_solver. split_and!; [done|done|]. apply IH; [done| |]; set_solver.
Qed.

Lemma hseg_app m sl xs ys sl' : hseg m sl (xs ++ ys) sl' <-> exists s, hseg m sl xs s /\ hseg m s ys sl'.
Proof.
  revert sl. induction xs as [|a r IH]; intros sl; cbn.
  - split; [by exists sl|]. by intros (s & -> & H).
  - rewrite IH. naive_solver.
Qed.

(** The last slot of a segment is the first one, or the field next of a node in it. *)
Lemma hseg_end m sl xs sl' : hseg m sl xs sl' -> sl' = sl /\ xs = [] \/ exists a, a ∈ xs /\ sl' = NextOf a.
Proof.
  revert sl. induction xs as [|a r IH]; intros sl; cbn; [by left|]. intros (_ & _ & H). right.
  destruct (IH _ H) as [[-> _]|(b & Hb & ->)]; [exists a|exists b]; set_solver.
Qed.

Lemma slots_in sl xs s : s ∈ slots sl xs -> s = sl \/ exists a, a ∈ xs /\ s = NextOf a.
Proof.
  revert sl. induction xs as [|a r IH]; intros sl; cbn; [set_solver|]. intros [->|H]%elem_of_cons; [by left|].
  destruct (IH _ H) as [->|(b & Hb & ->)]; right; [exists a|exists b]; set_solver.
Qed.

Lemma hseg_end_out m sl xs sl' : hseg m sl xs sl' -> NoDup xs -> (forall a, a ∈ xs -> sl <> NextOf a) -> sl' ∉ slots sl xs.
Proof.
  revert sl. induction xs as [|a r IH]; intros sl; cbn; [set_solver|]. intros (_ & _ & H) [Ha Hn]%NoDup_cons Hsl.
  intros [->|Hin]%elem_of_cons.
  - destruct (hseg_end _ _ _ _ H) as [[E _]|(b & Hb & E)]; [by apply (Hsl a); [set_solver|]|by apply (Hsl b); [set_solver|]].
  - revert Hin. apply IH; [done|done|]. intros b Hb [= ->]. done.
Qed.

(** Loads and stores in terms of [held] and [back]. *)
Lemma ld_hnode_run m a x y : held m (NextOf a) = Some x -> back m a = Some y -> ld_hnode a m = Ret (mk_hlist_node x y) m.
Proof. unfold held, back, ld_hnode. destruct (hnodes m !! a) as [[]|]; [|done]. by intros [= <-] [= <-]. Qed.

Lemma ld_first_run m h x : held m (First h) = Some x -> ld_first h m = Ret x m.
Proof. unfold held, ld_first. by intros ->. Qed.

(** The heap in which the slot [sl] holds [v], and the heap in which pprev of [a] is [v]. *)
Record put_held m sl (v : option naddr) m' : Prop := {
  ph_held s : held m' s = if decide (s = sl) then Some v else held m s;
  ph_back a : back m' a = back m a
}.

Record put_back m a (v : option slot) m' : Prop := {
  pb_held s : held m' s = held m s;
  pb_back b : back m' b = if decide (b = a) then Some v else back m b
}.

Lemma st_slot_run m sl v : is_Some (held m sl) -> exists m', st_slot (Some sl) v m = Ret tt m' /\ put_held m sl v m'.
Proof.
  destruct sl as [h|a]; cbn [held st_slot]; intros [x Hx].
  - unfold st_first. erewrite bind_ok by (by apply ld_first_run). eexists. split; [reflexivity|]. split; [|done].
    intros [h'|a]; cbn; [|by rewrite decide_False]. destruct (decide (h' = h)) as [->|Hn].
    + by rewrite lookup_insert_eq, decide_True.
    + rewrite lookup_insert_ne, decide_False by congruence. done.
  - unfold st_hnext, st_hnode, ld_hnode, bind. destruct (hnodes m !! a) as [k|] eqn:E; [|done]. eexists. split; [reflexivity|]. split.
    + intros [h'|b]; cbn; [by rewrite decide_False|]. destruct (decide (b = a)) as [->|Hn].
      * by rewrite lookup_insert_eq, decide_True.
      * rewrite lookup_insert_ne, decide_False by congruence. done.
    + intros b. unfold back. cbn. destruct (decide (b = a)) as [->|Hn]; [by rewrite lookup_insert_eq, E|by rewrite lookup_insert_ne].
Qed.

Lemma st_pprev_run m a v : is_Some (back m a) -> exists m', st_pprev a v m = Ret tt m' /\ put_back m a v m'.
Proof.
  intros [x Hx]. unfold back in Hx. unfold st_pprev, st_hnode, ld_hnode, bind. destruct (hnodes m !! a) as [k|] eqn:E; [|done].
  eexists. split; [reflexivity|]. split.
  - intros [h'|b]; cbn; [done|]. destruct (decide (b = a)) as [->|Hn]; [by rewrite lookup_insert_eq, E|by rewrite lookup_insert_ne].
  - intros b. unfold back. cbn. case_decide as Hb; [subst; by rewrite lookup_insert_eq|by rewrite lookup_insert_ne].
Qed.

Lemma st_hnext_run m a v : is_Some (held m (NextOf a)) -> exists m', st_hnext a v m = Ret tt m' /\ put_held m (NextOf a) v m'.
Proof. apply (st_slot_run m (NextOf a)). Qed.

Lemma st_first_run m h v : is_Some (held m (First h)) -> exists m', st_first h v m = Ret tt m' /\ put_held m (First h) v m'.
Proof. apply (st_slot_run m (First h)). Qed.

(** ** A node enters and leaves a chain *)

(** The node [n] stands between the slot [sl] and what it held. *)
Record entered m n sl (c : option naddr) m' : Prop := {
  en_held s : held m' s = if decide (s = sl) then Some (Some n) else if decide (s = NextOf n) then Some c else held m s;
  en_back a : back m' a = if decide (a = n) then Some (Some sl) else if decide (c = Some a) then Some (Some (NextOf n)) else back m a
}.

Lemma entered_hlist m h xs ys n sl c m' : NoDup (xs ++ ys) -> n ∉ xs ++ ys ->
  hseg m (First h) xs sl -> held m sl = Some c -> (exists e, hseg m sl ys e /\ held m e = Some None) ->
  entered m n sl c m' -> is_hlist m' h (xs ++ n :: ys).
Proof.
  intros Hn Hnn Hs Hc (e & Hy & He) [Eh Eb]. apply NoDup_app in Hn as (N1 & N12 & N2).
  assert (Hsl : sl <> NextOf n) by (destruct (hseg_end _ _ _ _ Hs) as [[-> _]|(a & Ha & ->)]; [done|intros [= ->]; set_solver]).
  split.
  - apply NoDup_app. split_and!; [done| |apply NoDup_cons; set_solver]. intros x Hx [->|Hx']%elem_of_cons; [set_solver|]. by apply (N12 x).
  - assert (Hxs : hseg m' (First h) xs sl).
    { apply (hseg_frame m); [done| |].
      - intros s Hin. rewrite Eh, !decide_False; [done| |].
        + intros ->. destruct (slots_in _ _ _ Hin) as [|(a & Ha & [= ->])]; [done|set_solver].
        + intros ->. by apply (hseg_end_out m (First h) xs sl).
      - intros a Ha. rewrite Eb, !decide_False; [done| |by intros ->; set_solver].
        intros ->. destruct ys as [|y ys]; cbn in Hy; [rewrite Hy, He in Hc; done|].
        destruct Hy as (Hy & _). rewrite Hc in Hy. injection Hy as ->. apply (N12 y); set_solver. }
    destruct ys as [|y ys]; cbn in Hy.
    + subst e. rewrite He in Hc. injection Hc as <-. exists (NextOf n). rewrite hseg_app. split.
      * exists sl. split; [done|]. cbn [hseg]. rewrite Eh, Eb, !decide_True by done. done.
      * rewrite Eh, decide_False, decide_True by done. done.
    + destruct Hy as (Hy1 & Hy2 & Hy3). rewrite Hc in Hy1. injection Hy1 as ->. exists e. rewrite hseg_app.
      assert (Hyn : y <> n) by set_solver. apply NoDup_cons in N2 as [Ny N2].
      assert (Hout : forall s, s = NextOf y \/ (exists a, a ∈ ys /\ s = NextOf a) -> s <> sl /\ s <> NextOf n).
      { intros s Hs'. split.
        - destruct (hseg_end _ _ _ _ Hs) as [[-> _]|(a & Ha & ->)]; [by destruct Hs' as [->|(? & _ & ->)]|].
          intros ->. destruct Hs' as [[= ->]|(b & Hb & [= ->])]; [by apply (N12 y); set_solver|by apply (N12 b); set_solver].
        - intros ->. destruct Hs' as [[= ->]|(b & Hb & [= ->])]; [done|set_solver]. }
      split.
      * exists sl. split; [done|]. cbn [hseg]. rewrite (Eh sl), Eb, !decide_True by done.
        rewrite (Eh (NextOf n)), decide_False, decide_True by done. rewrite Eb, decide_False, decide_True by done. split_and!; try done.
        apply (hseg_frame m); [done| |].
        -- intros s Hin. destruct (Hout s (slots_in _ _ _ Hin)). by rewrite Eh, !decide_False.
        -- intros a Ha. rewrite Eb, !decide_False; [done|by intros [= ->]|by intros ->; set_solver].
      * assert (Hee : e = NextOf y \/ exists a, a ∈ ys /\ e = NextOf a) by (destruct (hseg_end _ _ _ _ Hy3) as [[-> _]|H]; auto).
        destruct (Hout e Hee). by rewrite Eh, !decide_False.
Qed.

(** The node [n], which pointed to [c], has left the slot [sl]. *)
Record left_chain m n sl (c : option naddr) m' : Prop := {
  lc_held s : held m' s = if decide (s = NextOf n) then Some None else if decide (s = sl) then Some c else held m s;
  lc_back a : back m' a = if decide (a = n) then Some None else if decide (c = Some a) then Some (Some sl) else back m a
}.

Lemma left_hlist m h xs ys n sl c m' e : NoDup (xs ++ n :: ys) ->
  hseg m (First h) xs sl -> held m (NextOf n) = Some c -> hseg m (NextOf n) ys e -> held m e = Some None ->
  left_chain m n sl c m' -> is_hlist m' h (xs ++ ys).
Proof.
  intros Hn Hs Hc Hy He [Eh Eb]. apply NoDup_app in Hn as (N1 & N12 & [Ny N2]%NoDup_cons).
  assert (Hsl : sl <> NextOf n).
  { destruct (hseg_end _ _ _ _ Hs) as [[-> _]|(a & Ha & ->)]; [done|intros [= ->]]. by apply (N12 n); set_solver. }
  assert (Hend : sl = First h \/ exists a, a ∈ xs /\ sl = NextOf a) by (destruct (hseg_end _ _ _ _ Hs) as [[-> _]|H]; auto).
  assert (Hcx : forall a, a ∈ xs -> c <> Some a).
  { intros a Ha ->. destruct ys as [|y ys]; cbn [hseg] in Hy; [rewrite Hy, He in Hc; done|].
    destruct Hy as (Hy & _). rewrite Hc in Hy. injection Hy as ->. apply (N12 y); set_solver. }
  assert (Hxs : hseg m' (First h) xs sl).
  { apply (hseg_frame m); [done| |].
    - intros s Hin. rewrite Eh, !decide_False; [done| |].
      + intros ->. by apply (hseg_end_out m (First h) xs sl).
      + intros ->. destruct (slots_in _ _ _ Hin) as [|(a & Ha & [= ->])]; [done|]. apply (N12 a); set_solver.
    - intros a Ha. rewrite Eb, !decide_False; [done|by apply Hcx|]. intros ->. apply (N12 n); set_solver. }
  split; [apply NoDup_app; split_and!; [done| |done]; intros x Hx Hx'; apply (N12 x); set_solver|].
  destruct ys as [|y ys]; cbn [hseg] in Hy.
  - subst e. rewrite He in Hc. injection Hc as <-. exists sl. rewrite app_nil_r. split; [done|].
    by rewrite Eh, decide_False, decide_True.
  - destruct Hy as (Hy1 & Hy2 & Hy3). rewrite Hc in Hy1. injection Hy1 as ->. exists e. rewrite hseg_app.
    assert (Hyn : y <> n) by set_solver. apply NoDup_cons in N2 as [Nyy N2].
    assert (Hout : forall s, s = NextOf y \/ (exists a, a ∈ ys /\ s = NextOf a) -> s <> sl /\ s <> NextOf n).
    { intros s Hs'. split.
      - intros ->. destruct Hend as [->|(a & Ha & ->)]; [by destruct Hs' as [?|(? & _ & ?)]|].
        destruct Hs' as [[= ->]|(b & Hb & [= ->])]; [apply (N12 y)|apply (N12 b)]; set_solver.
      - intros ->. destruct Hs' as [[= ->]|(b & Hb & [= ->])]; [done|set_solver]. }
    split.
    + exists sl. split; [done|]. cbn [hseg]. rewrite (Eh sl), decide_False, decide_True by done.
      rewrite Eb, decide_False, decide_True by done. split_and!; [done|done|]. apply (hseg_frame m); [done| |].
      * intros s Hin. destruct (Hout s (slots_in _ _ _ Hin)). by rewrite Eh, !decide_False.
      * intros a Ha. rewrite Eb, !decide_False; [done|by intros [= ->]|by intros ->; set_solver].
    + assert (Hee : e = NextOf y \/ exists a, a ∈ ys /\ e = NextOf a) by (destruct (hseg_end _ _ _ _ Hy3) as [[-> _]|H]; auto).
      destruct (Hout e Hee). by rewrite Eh, !decide_False.
Qed.

(** ** Runs *)

Lemma back_held m a y : back m a = Some y -> is_Some (held m (NextOf a)).
Proof. unfold back, held. destruct (hnodes m !! a); [by eexists|done]. Qed.

Lemma set_pprev_run m c v : (forall a, c = Some a -> is_Some (back m a)) ->
  exists m', set_pprev_of c v m = Ret tt m' /\ (forall s, held m' s = held m s) /\
    (forall b, back m' b = if decide (c = Some b) then Some v else back m b).
Proof.
  intros Hc. destruct c as [a|]; cbn [set_pprev_of].
  - destruct (st_pprev_run m a v (Hc a eq_refl)) as (m' & E & [H1 H2]). exists m'. split_and!; [done|done|].
    intros b. rewrite H2. apply decide_ext. split; congruence.
  - exists m. split_and!; done.
Qed.

Ltac heap_cases :=
  repeat (case_decide; simplify_eq); first [done|congruence].

Lemma add_head_run m h n c : held m (First h) = Some c -> is_Some (back m n) -> c <> Some n ->
  (forall a, c = Some a -> is_Some (back m a)) ->
  exists m', hlist_add_head n h m = Ret tt m' /\ entered m n (First h) c m'.
Proof.
  intros Hc [y Hn] Hcn Hca. unfold hlist_add_head. erewrite bind_ok by (by apply ld_first_run).
  destruct (st_hnext_run m n c (back_held _ _ _ Hn)) as (m1 & E1 & [A1 B1]). rewrite (bind_ok _ _ _ _ _ E1).
  destruct (st_pprev_run m1 n (Some (First h))) as (m2 & E2 & [A2 B2]); [rewrite B1; by eexists|]. rewrite (bind_ok _ _ _ _ _ E2).
  erewrite bind_ok by (apply ld_first_run; rewrite A2, A1, decide_False by done; exact Hc).
  destruct (set_pprev_run m2 c (Some (NextOf n))) as (m3 & E3 & A3 & B3).
  { intros a Ha. rewrite B2, decide_False, B1 by congruence. by apply Hca. }
  rewrite (bind_ok _ _ _ _ _ E3).
  destruct (st_first_run m3 h (Some n)) as (m4 & E4 & [A4 B4]); [rewrite A3, A2, A1, decide_False by done; by eexists|].
  exists m4. split; [exact E4|]. split.
  - intros s. rewrite A4, A3, A2, A1. heap_cases.
  - intros a. rewrite B4, B3, B2, B1. heap_cases.
Qed.

Lemma add_before_run m n a sl : held m sl = Some (Some a) -> back m a = Some (Some sl) -> is_Some (back m n) ->
  a <> n -> sl <> NextOf n ->
  exists m', hlist_add_before n a m = Ret tt m' /\ entered m n sl (Some a) m'.
Proof.
  intros Hs Ha [y Hn] Han Hsn. unfold hlist_add_before.
  destruct (st_hnext_run m n (Some a) (back_held _ _ _ Hn)) as (m1 & E1 & [A1 B1]). rewrite (bind_ok _ _ _ _ _ E1).
  destruct (back_held _ _ _ Ha) as [x Hx].
  erewrite bind_ok by (apply (ld_hnode_run m1 a x); [rewrite A1, decide_False by congruence; exact Hx|rewrite B1; exact Ha]).
  cbn [pprev]. destruct (st_pprev_run m1 n (Some sl)) as (m2 & E2 & [A2 B2]); [rewrite B1; by eexists|]. rewrite (bind_ok _ _ _ _ _ E2).
  erewrite bind_ok by (apply (ld_hnode_run m2 a x); [rewrite A2, A1, decide_False by congruence; exact Hx|rewrite B2, decide_False, B1 by done; exact Ha]).
  cbn [pprev]. destruct (st_slot_run m2 sl (Some n)) as (m3 & E3 & [A3 B3]); [rewrite A2, A1, decide_False by done; by eexists|].
  rewrite (bind_ok _ _ _ _ _ E3).
  destruct (st_pprev_run m3 a (Some (NextOf n))) as (m4 & E4 & [A4 B4]); [rewrite B3, B2, decide_False, B1 by done; by eexists|].
  exists m4. split; [exact E4|]. split.
  - intros s. rewrite A4, A3, A2, A1. heap_cases.
  - intros b. rewrite B4, B3, B2, B1. heap_cases.
Qed.

Lemma add_after_run m a n c : held m (NextOf a) = Some c -> is_Some (back m a) -> is_Some (back m n) -> a <> n -> c <> Some n ->
  (forall b, c = Some b -> is_Some (back m b)) ->
  exists m', hlist_add_after a n m = Ret tt m' /\ entered m n (NextOf a) c m'.
Proof.
  intros Hc [y Ha] [z Hn] Han Hcn Hcb. unfold hlist_add_after. erewrite bind_ok by (by apply ld_hnode_run). cbn [hnext].
  destruct (st_hnext_run m n c (back_held _ _ _ Hn)) as (m1 & E1 & [A1 B1]). rewrite (bind_ok _ _ _ _ _ E1).
  destruct (st_pprev_run m1 n (Some (NextOf a))) as (m2 & E2 & [A2 B2]); [rewrite B1; by eexists|]. rewrite (bind_ok _ _ _ _ _ E2).
  erewrite bind_ok by (apply (ld_hnode_run m2 a c); [rewrite A2, A1, decide_False by congruence; exact Hc|rewrite B2, decide_False, B1 by done; exact Ha]).
  cbn [hnext]. destruct (set_pprev_run m2 c (Some (NextOf n))) as (m3 & E3 & A3 & B3).
  { intros b Hb. rewrite B2, decide_False, B1 by congruence. by apply Hcb. }
  rewrite (bind_ok _ _ _ _ _ E3).
  destruct (st_hnext_run m3 a (Some n)) as (m4 & E4 & [A4 B4]); [rewrite A3, A2, A1, decide_False by congruence; by eexists|].
  exists m4. split; [exact E4|]. split.
  - intros s. rewrite A4, A3, A2, A1. heap_cases.
  - intros b. rewrite B4, B3, B2, B1. heap_cases.
Qed.

Lemma del_run m n sl c : held m sl = Some (Some n) -> back m n = Some (Some sl) -> held m (NextOf n) = Some c ->
  sl <> NextOf n -> c <> Some n -> (forall a, c = Some a -> is_Some (back m a)) ->
  exists m', hlist_del n m = Ret tt m' /\ left_chain m n sl c m'.
Proof.
  intros Hs Hn Hc Hsl Hcn Hca. unfold hlist_del, __hlist_del. rewrite bind_assoc. erewrite bind_ok by (by apply ld_hnode_run).
  cbn [pprev hnext]. destruct (st_slot_run m sl c) as (m1 & E1 & [A1 B1]); [by eexists|]. rewrite bind_assoc, (bind_ok _ _ _ _ _ E1).
  rewrite bind_assoc.
  erewrite bind_ok by (apply (ld_hnode_run m1 n c); [rewrite A1, decide_False by congruence; exact Hc|rewrite B1; exact Hn]).
  cbn [pprev hnext]. destruct (set_pprev_run m1 c (Some sl)) as (m2 & E2 & A2 & B2); [intros a Ha; rewrite B1; by apply Hca|].
  rewrite (bind_ok _ _ _ _ _ E2).
  destruct (st_hnext_run m2 n None) as (m3 & E3 & [A3 B3]); [rewrite A2, A1, decide_False by congruence; by eexists|]. rewrite (bind_ok _ _ _ _ _ E3).
  destruct (st_pprev_run m3 n None) as (m4 & E4 & [A4 B4]); [rewrite B3, B2, decide_False, B1 by done; by eexists|].
  exists m4. split; [exact E4|]. split.
  - intros s. rewrite A4, A3, A2, A1. heap_cases.
  - intros b. rewrite B4, B3, B2, B1. heap_cases.
Qed.

(** What happens to the nodes [xs] and the head [h] does not touch other chains. *)
Definition only_in (h : haddr) (xs : list naddr) m m' : Prop :=
  (forall s, s <> First h -> (forall a, a ∈ xs -> s <> NextOf a) -> held m' s = held m s) /\
  (forall a, a ∉ xs -> back m' a = back m a).

Lemma only_in_frame h xs m m' h' zs : only_in h xs m m' -> h' <> h -> (forall a, a ∈ zs -> a ∉ xs) ->
  is_hlist m h' zs -> is_hlist m' h' zs.
Proof.
  intros [Eh Eb] Hh Hz (Hn & sl & Hs & He). split; [done|]. exists sl.
  assert (Hk : forall s, s = First h' \/ (exists a, a ∈ zs /\ s = NextOf a) -> held m' s = held m s).
  { intros s Hs'. apply Eh.
    - destruct Hs' as [->|(a & _ & ->)]; congruence.
    - intros b Hb. destruct Hs' as [->|(a & Ha & ->)]; [done|]. intros [= ->]. by apply (Hz b). }
  split; [|rewrite Hk; [done|destruct (hseg_end _ _ _ _ Hs) as [[-> _]|H]; auto]].
  apply (hseg_frame m); [done| |].
  - intros s Hin. apply Hk. by apply slots_in.
  - intros a Ha. apply Eb. by apply Hz.
Qed.
End Lemmas.

(** ** Properties *)

Section Refinement.
Implicit Types (m : hheap) (a b n : naddr) (sl : slot) (xs ys pre post : list naddr).

(** What the slot in front of a segment that ends the chain holds. *)
Lemma hseg_first m sl ys e : hseg m sl ys e -> held m e = Some None ->
  held m sl = Some (head ys) /\ forall b, head ys = Some b -> is_Some (back m b) /\ b ∈ ys.
Proof.
  destruct ys as [|y ys]; cbn [hseg head]; [by intros ->|]. intros (H1 & H2 & _) _. split; [done|].
  intros b [= <-]. split; [by eexists|set_solver].
Qed.

Lemma hlist_split m h pre a post : is_hlist m h (pre ++ a :: post) ->
  exists sl e, hseg m (First h) pre sl /\ held m sl = Some (Some a) /\ back m a = Some (Some sl) /\
    hseg m (NextOf a) post e /\ held m e = Some None.
Proof. intros (_ & e & Hs & He). apply hseg_app in Hs as (sl & Hp & H1 & H2 & H3). by exists sl, e. Qed.

Lemma entered_only m n sl c m' h xs : entered m n sl c m' ->
  (sl = First h \/ exists a, a ∈ xs /\ sl = NextOf a) -> (forall a, c = Some a -> a ∈ xs) -> only_in h (n :: xs) m m'.
Proof.
  intros [Eh Eb] Hsl Hc. split.
  - intros s H1 H2. rewrite Eh, !decide_False; [done| |].
    + apply H2. set_solver.
    + intros ->. destruct Hsl as [->|(a & Ha & ->)]; [done|]. by apply (H2 a); [set_solver|].
  - intros a Ha. rewrite Eb, !decide_False; [done| |by intros ->; set_solver]. intros H. apply Hc in H. set_solver.
Qed.

Lemma left_only m n sl c m' h xs : left_chain m n sl c m' -> n ∈ xs ->
  (sl = First h \/ exists a, a ∈ xs /\ sl = NextOf a) -> (forall a, c = Some a -> a ∈ xs) -> only_in h xs m m'.
Proof.
  intros [Eh Eb] Hn Hsl Hc. split.
  - intros s H1 H2. rewrite Eh, !decide_False; [done| |by apply H2].
    intros ->. destruct Hsl as [->|(a & Ha & ->)]; [done|]. by apply (H2 a).
  - intros a Ha. rewrite Eb, !decide_False; [done| |by intros ->]. intros H. by apply Hc in H.
Qed.

(** The operation [op] returns, makes the chain [ys], and leaves the heap outside the head,
    the nodes [xs] and the node [n] alone. *)
Definition refines (op : comp hheap unit) m h (n : naddr) xs ys : Prop :=
  exists m', op m = Ret tt m' /\ is_hlist m' h ys /\ only_in h (n :: xs) m m'.

Lemma hlist_add_head_ok m h xs n : is_hlist m h xs -> n ∉ xs -> is_Some (back m n) ->
  refines (hlist_add_head n h) m h n xs (n :: xs).
Proof.
  intros (Hd & e & Hs & He) Hx Hn. destruct (hseg_first _ _ _ _ Hs He) as [Hc Hcb].
  destruct (add_head_run m h n (head xs) Hc Hn) as (m' & E & Hen); [intros H; apply Hcb in H as [_ H]; done|intros a Ha; by apply Hcb|].
  exists m'. split_and!; [done| |].
  - apply (entered_hlist m h [] xs n (First h) (head xs)); try done. by exists e.
  - eapply entered_only; [done|by left|]. intros a Ha. by apply Hcb.
Qed.

Lemma hlist_add_between m h pre a post n : is_hlist m h (pre ++ a :: post) -> n ∉ pre ++ a :: post -> is_Some (back m n) ->
  refines (hlist_add_before n a) m h n (pre ++ a :: post) (pre ++ n :: a :: post) /\
  refines (hlist_add_after a n) m h n (pre ++ a :: post) (pre ++ a :: n :: post).
Proof.
  intros Hl Hx Hn. destruct (hlist_split _ _ _ _ _ Hl) as (sl & e & Hp & H1 & H2 & Hs & He). destruct Hl as [Hd _].
  assert (Han : a <> n) by set_solver.
  assert (Hend : sl = First h \/ exists b, b ∈ pre ++ a :: post /\ sl = NextOf b).
  { destruct (hseg_end _ _ _ _ Hp) as [[-> _]|(b & Hb & ->)]; [by left|right; exists b; set_solver]. }
  split.
  - destruct (add_before_run m n a sl) as (m' & E & Hen); try done.
    { intros ->. destruct Hend as [?|(b & Hb & [= ->])]; done. }
    exists m'. split_and!; [done| |].
    + eapply (entered_hlist m h pre (a :: post) n sl); try done. exists e. cbn [hseg]. done.
    + eapply entered_only; [done|done|]. intros b [= <-]. set_solver.
  - destruct (hseg_first _ _ _ _ Hs He) as [Hc Hcb].
    destruct (add_after_run m a n (head post)) as (m' & E & Hen); try done.
    { intros H. apply Hcb in H as [_ H]. set_solver. } { intros b Hb. by apply Hcb. }
    exists m'. split_and!; [done| |].
    + rewrite (cons_middle a), app_assoc in Hd, Hx |- *. eapply (entered_hlist m h (pre ++ [a]) post n (NextOf a)); try done.
      * apply hseg_app. exists sl. cbn [hseg]. done.
      * by exists e.
    + eapply entered_only; [done|right; exists a; set_solver|]. intros b Hb. apply Hcb in Hb as [_ Hb]. set_solver.
Qed.

Lemma hlist_del_ok m h pre a post : is_hlist m h (pre ++ a :: post) ->
  exists m', hlist_del a m = Ret tt m' /\ is_hlist m' h (pre ++ post) /\ only_in h (pre ++ a :: post) m m' /\
    hlist_unhashed a m' = Ret true m'.
Proof.
  intros Hl. destruct (hlist_split _ _ _ _ _ Hl) as (sl & e & Hp & H1 & H2 & Hs & He). destruct Hl as [Hd _].
  destruct (hseg_first _ _ _ _ Hs He) as [Hc Hcb].
  assert (Hpa : a ∉ pre) by (apply NoDup_app in Hd as (_ & Hd & _); intros Hin; apply (Hd a); set_solver).
  assert (Hna : a ∉ post) by (apply NoDup_app in Hd as (_ & _ & Hd); by apply NoDup_cons in Hd as [? _]).
  destruct (del_run m a sl (head post)) as (m' & E & Hle); try done.
  { intros ->. destruct (hseg_end _ _ _ _ Hp) as [[? _]|(b & Hb & [= ->])]; done. }
  { intros H. apply Hcb in H as [_ H]. done. } { intros b Hb. by apply Hcb. }
  exists m'. split_and!; [done| | |].
  - by eapply (left_hlist m h pre post a sl).
  - eapply left_only; [done|set_solver| |intros b Hb; apply Hcb in Hb as [_ Hb]; set_solver].
    destruct (hseg_end _ _ _ _ Hp) as [[-> _]|(b & Hb & ->)]; [by left|right; exists b; set_solver].
  - destruct Hle as [Eh Eb]. unfold hlist_unhashed.
    by rewrite (bind_ok _ _ _ _ _ (ld_hnode_run m' a None None ltac:(rewrite Eh; by rewrite decide_True) ltac:(rewrite Eb; by rewrite decide_True))).
Qed.

Lemma hvisit_ok m sl ys e fuel : hseg m sl ys e -> held m e = Some None -> (length ys <= fuel)%nat -> hvisit fuel (head ys) m = Ret ys m.
Proof.
  intros Hs He. revert sl fuel Hs. induction ys as [|y ys IH]; intros sl fuel Hs Hf; [by destruct fuel|].
  destruct fuel as [|f]; [cbn in Hf; lia|]. destruct Hs as (H1 & H2 & H3). cbn [head hvisit].
  destruct (hseg_first _ _ _ _ H3 He) as [Hn _]. erewrite bind_ok by (by apply ld_hnode_run). cbn [hnext].
  rewrite (bind_ok _ _ _ _ _ (IH _ f H3 ltac:(cbn in Hf; lia))). done.
Qed.

(** C27: the pointer operations on a hash chain do what they should to the list of its
    nodes: hlist_add_head puts a node in front, hlist_add_before and hlist_add_after put it
    next to a given node, hlist_del takes a node out and marks it as unhashed, and
    hlist_for_each_entry visits the nodes in order; chains of other heads, with other
    nodes, stay as they are, and no NULL pointer is followed. *)
Theorem hlist_ops_refine m h xs n : is_hlist m h xs -> n ∉ xs -> is_Some (hnodes m !! n) ->
  refines (hlist_add_head n h) m h n xs (n :: xs) /\
  (forall pre a post, xs = pre ++ a :: post ->
     refines (hlist_add_before n a) m h n xs (pre ++ n :: a :: post) /\
     refines (hlist_add_after a n) m h n xs (pre ++ a :: n :: post) /\
     exists m', hlist_del a m = Ret tt m' /\ is_hlist m' h (pre ++ post) /\ only_in h xs m m' /\ hlist_unhashed a m' = Ret true m') /\
  hlist_for_each (length xs) h m = Ret xs m /\
  (forall h' zs ys m', h' <> h -> (forall a, a ∈ zs -> a ∉ ys) -> only_in h ys m m' -> is_hlist m h' zs -> is_hlist m' h' zs).
Proof.
  intros Hl Hx [k Hk]. assert (Hn : is_Some (back m n)) by (unfold back; rewrite Hk; by eexists). split_and!.
  - by apply hlist_add_head_ok.
  - intros pre a post ->. destruct (hlist_add_between m h pre a post n Hl Hx Hn). split_and!; [done|done|by apply hlist_del_ok].
  - destruct Hl as (_ & e & Hs & He). destruct (hseg_first _ _ _ _ Hs He) as [Hf _]. unfold hlist_for_each.
    erewrite bind_ok by (by apply ld_first_run). by eapply hvisit_ok.
  - intros h' zs ys m' Hh Hz Ho Hl'. by eapply only_in_frame.
Qed.
End Refinement.

(** Two heads; the chain of the first has the nodes 1 and 2, and node 3 is free. *)
Definition sample_hheap : hheap :=
  mk_hheap {[1%nat := mk_hlist_node (Some 2%nat) (Some (First 0%nat)); 2%nat := mk_hlist_node None (Some (NextOf 1%nat));
             3%nat := mk_hlist_node None None]} {[0%nat := Some 1%nat; 1%nat := None]}.

Lemma hlist_ops_refine_witness :
  is_hlist sample_hheap 0%nat [1%nat; 2%nat] /\
  (exists m', hlist_add_before 3%nat 2%nat sample_hheap = Ret tt m' /\ is_hlist m' 0%nat [1%nat; 3%nat; 2%nat]) /\
  hlist_for_each 2 0%nat sample_hheap = Ret [1%nat; 2%nat] sample_hheap.
Proof.
  assert (Hl : is_hlist sample_hheap 0%nat [1%nat; 2%nat]).
  { split; [apply (bool_decide_unpack _); by vm_compute|]. exists (NextOf 2%nat). by vm_compute. }
  destruct (hlist_ops_refine sample_hheap 0%nat [1%nat; 2%nat] 3%nat Hl) as (_ & H & Hv & _).
  - intros Hin. apply (bool_decide_pack _) in Hin. by vm_compute in Hin.
  - by eexists; vm_compute.
  - split_and!; [exact Hl| |exact Hv]. destruct (H [1%nat] 2%nat [] eq_refl) as ((m' & E & Hm & _) & _). by exists m'.
Defined.
