(* ===== verification/Wait.v ===== *)
(** * Blocking and waking threads: include/wait.h

    Each function runs under the mutex of the wait, except while
    pthread_cond_wait has released it.  The model therefore has one step per
    critical section: sleep_on has two, before and after the wait.  The
    condition variable is the set of threads that wait on it;
    pthread_cond_signal wakes one of them (none if there are none),
    pthread_cond_broadcast all, and POSIX allows a thread to wake up without
    either. *)

From stdpp Require Import prelude list gmap.
From Stdlib Require Import ZArith Lia.
From S2P Require Import Prelude.

(** ** The code *)

Record tapip_wait := mk_wait { notified : Z; dead : Z; sleep : Z }.

Definition wait_init : tapip_wait := mk_wait 0 0 0.

(** Where a thread is that calls sleep_on. *)
Inductive pc :=
  | Running            (* not in sleep_on *)
  | Waiting            (* in pthread_cond_wait *)
  | Woken.             (* woken, has to take the mutex again *)
#[export] Instance pc_eq_dec : EqDecision pc.
Proof. solve_decision. Defined.

(** What is done to the condition variable. *)
Inductive cond_op := NoOp | Signal | Broadcast.

(** wake_up: the result is the new wait and the operation on the condition. *)
Definition wake_up (w : tapip_wait) : tapip_wait * cond_op :=
  if negb (dead w =? 0) then (w, NoOp)
  else if notified w =? 0 then
    (mk_wait 1 (dead w) (sleep w), if negb (sleep w =? 0) then Signal else NoOp)
  else (w, NoOp).

(** sleep_on up to pthread_cond_wait, or to its end when it does not wait. *)
Definition sleep_on_enter (w : tapip_wait) : tapip_wait * pc :=
  if negb (dead w =? 0) then (w, Running)
  else if notified w =? 0 then (mk_wait (notified w) (dead w) 1, Waiting)
  else (mk_wait 0 (dead w) 0, Running).

(** sleep_on after pthread_cond_wait. *)
Definition sleep_on_resume (w : tapip_wait) : tapip_wait := mk_wait 0 (dead w) 0.

(** What sleep_on returns. *)
Definition sleep_on_ret (w : tapip_wait) : Z := - dead w.

Definition wait_exit (w : tapip_wait) : tapip_wait * cond_op :=
  if negb (dead w =? 0) then (w, NoOp)
  else (mk_wait (notified w) 1 (sleep w), if negb (sleep w =? 0) then Broadcast else NoOp).

(** ** The threads *)

Record system := mk_system { wait : tapip_wait; threads : list pc }.

(** The threads after an operation on the condition. *)
Inductive cond_effect : cond_op -> list pc -> list pc -> Prop :=
  | effect_none ts : cond_effect NoOp ts ts
  | effect_signal ts t : ts !! t = Some Waiting -> cond_effect Signal ts (<[t := Woken]> ts)
  | effect_signal_none ts : Waiting ∉ ts -> cond_effect Signal ts ts
  | effect_broadcast ts :
      cond_effect Broadcast ts ((fun p => if decide (p = Waiting) then Woken else p) <$> ts).

Inductive step : system -> system -> Prop :=
  | step_wake_up w ts ts' :
      cond_effect (snd (wake_up w)) ts ts' ->
      step (mk_system w ts) (mk_system (fst (wake_up w)) ts')
  | step_wait_exit w ts ts' :
      cond_effect (snd (wait_exit w)) ts ts' ->
      step (mk_system w ts) (mk_system (fst (wait_exit w)) ts')
  | step_sleep w ts t :
      ts !! t = Some Running ->
      step (mk_system w ts) (mk_system (fst (sleep_on_enter w)) (<[t := snd (sleep_on_enter w)]> ts))
  | step_resume w ts t :
      ts !! t = Some Woken ->
      step (mk_system w ts) (mk_system (sleep_on_resume w) (<[t := Running]> ts))
  | step_spurious w ts t :
      ts !! t = Some Waiting ->
      step (mk_system w ts) (mk_system w (<[t := Woken]> ts)).

Definition reachable (n : nat) (s : system) : Prop :=
  rtc step (mk_system wait_init (replicate n Running)) s.

(** ** Lemmas *)

(** With one sleeper: while it waits, nobody has notified it and the wait is not
    dead; while it is awake or woken, [sleep] is set only if it was woken. *)
Definition one_sleeper (s : system) : Prop :=
  exists p, threads s = [p] /\
    match p with
    | Running => sleep (wait s) = 0
    | Waiting => notified (wait s) = 0 /\ dead (wait s) = 0 /\ sleep (wait s) = 1
    | Woken => sleep (wait s) = 1
    end.

Lemma one_sleeper_step s s' : one_sleeper s -> step s s' -> one_sleeper s'.
Proof.
  intros (p & Hp & Hinv) Hs. unfold one_sleeper.
  destruct Hs as [w ts ts' He|w ts ts' He|w ts t Ht|w ts t Ht|w ts t Ht]; cbn in *; subst ts.
  - unfold wake_up in *. destruct (dead w =? 0) eqn:Ed; [|inversion He; subst; by exists p].
    destruct (notified w =? 0) eqn:En; [|inversion He; subst; by exists p]. cbn in *.
    destruct (sleep w =? 0) eqn:Es; cbn in *; inversion He as [|ts t Ht|ts Hw|]; subst.
    + exists p. split; [done|]. destruct p; lia.
    + destruct t as [|[]]; simplify_eq/=. exists Woken. split; [done|]. cbn. lia.
    + exists p. split; [done|]. destruct p; [done|set_solver|done].
  - unfold wait_exit in *. destruct (dead w =? 0) eqn:Ed; [|inversion He; subst; by exists p].
    cbn in *. destruct (sleep w =? 0) eqn:Es; cbn in *; inversion He; subst.
    + exists p. split; [done|]. destruct p; lia.
    + destruct p; [lia|exists Woken|exists Woken]; (split; [done|cbn; lia]).
  - destruct t as [|[]]; simplify_eq/=. unfold sleep_on_enter. eexists. split; [done|].
    repeat case_if; cbn; lia.
  - destruct t as [|[]]; simplify_eq/=. by exists Running.
  - destruct t as [|[]]; simplify_eq/=. exists Woken. split; [done|]. tauto.
Qed.

Lemma one_sleeper_reachable s : reachable 1 s -> one_sleeper s.
Proof.
  unfold reachable. intros Hr. remember (mk_system wait_init (replicate 1 Running)) as s0 eqn:E.
  assert (H0 : one_sleeper s0) by (subst; by exists Running).
  clear E. induction Hr as [|s1 s2 s3 Hs Hr IH]; [done|]. apply IH. by eapply one_sleeper_step.
Qed.

(** ** Properties *)



(** With two threads sleeping on the same wait a wake-up can be lost: a state
    is reachable in which a thread is blocked although a notification is pending,
    and no later call of wake_up signals it. *)
Lemma two_sleepers_lose_wakeup :
  exists s, reachable 2 s /\ Waiting ∈ threads s /\ notified (wait s) = 1 /\
    wake_up (wait s) = (wait s, NoOp).
Proof.
  exists (mk_system (mk_wait 1 0 0) [Running; Waiting]). split_and!; [|set_solver|done|done].
  eapply rtc_l; [apply (step_sleep _ _ 0); reflexivity|].
  eapply rtc_l; [apply (step_sleep _ _ 1); reflexivity|].
  eapply rtc_l; [apply step_wake_up; cbn; apply (effect_signal _ 0); reflexivity|].
  eapply rtc_l; [apply (step_resume _ _ 0); reflexivity|].
  eapply rtc_l; [apply step_wake_up; cbn; constructor|]. apply rtc_refl.
Qed.
