(* ===== verification/Route.v ===== *)
(** * Routing table: ip/route.c, include/route.h

    The table is the list [rt_head], in the order the code keeps it.  Addresses
    and masks are the 32-bit words the host loads (network order), so the
    code's [rt_netmask >= ...] compares those words. *)

From stdpp Require Import prelude list list_numbers sorting.
From Stdlib Require Import ZArith Lia.
From S2P Require Import Prelude Structs.

(** ** The code *)

(** A net device is referred to by its address, here a number. *)
Definition devid : Type := nat.

Record rtentry := mk_rtentry {
  rt_net : Z; rt_netmask : Z; rt_gw : Z; rt_flags : Z; rt_metric : Z; rt_dev : devid
}.
#[export] Instance rtentry_eq_dec : EqDecision rtentry.
Proof. solve_decision. Defined.

Definition RT_NONE : Z := 0.
Definition RT_LOCALHOST : Z := 1.
Definition RT_DEFAULT : Z := 2.

Definition rt_match (ipaddr : Z) (rt : rtentry) : bool :=
  Z.land (rt_netmask rt) ipaddr =? Z.land (rt_netmask rt) (rt_net rt).

Fixpoint rt_lookup (rt_head : list rtentry) (ipaddr : Z) : option rtentry :=
  match rt_head with
  | [] => None
  | rt :: r => if rt_match ipaddr rt then Some rt else rt_lookup r ipaddr
  end.

Fixpoint rt_delete (rt_head : list rtentry) (ip mask : Z) : list rtentry :=
  match rt_head with
  | [] => []
  | rt :: r =>
      if (rt_netmask rt =? mask) && (rt_net rt =? ip) then r else rt :: rt_delete r ip mask
  end.

Definition rt_alloc (net netmask gw metric flags : Z) (dev : devid) : rtentry :=
  mk_rtentry net netmask gw flags metric dev.

(** The loop looks for the first entry whose mask is not larger; the new entry
    is linked before it, or at the end of the list. *)
Fixpoint rt_insert (rt_head : list rtentry) (rt : rtentry) : list rtentry :=
  match rt_head with
  | [] => [rt]
  | rte :: r => if rt_netmask rte <=? rt_netmask rt then rt :: rte :: r else rte :: rt_insert r rt
  end.

Definition rt_add (rt_head : list rtentry) (net netmask gw metric flags : Z) (dev : devid)
    : list rtentry :=
  rt_insert rt_head (rt_alloc net netmask gw metric flags dev).

(** rt_init with CONFIG_TOP2: only the loopback network is entered. *)
Definition rt_init (loop_ipaddr loop_mask : Z) (loop : devid) : list rtentry :=
  rt_add [] (Z.land loop_ipaddr loop_mask) loop_mask 0 0 RT_LOCALHOST loop.

(** ** Specifications *)

(** The prefix length of a mask, as written [/n] by the user. *)
Definition mask_of (n : Z) : Z := _htonl (u32 (Z.lnot (2 ^ (32 - n) - 1))).

Definition table_sorted (t : list rtentry) : Prop :=
  StronglySorted (fun a b => rt_netmask b <= rt_netmask a) t.

(** Tables the code can build: from rt_init's table by rt_add and rt_delete. *)
Inductive table_op :=
  | Add (net netmask gw metric flags : Z) (dev : devid)
  | Delete (ip mask : Z).

Definition run_op (t : list rtentry) (o : table_op) : list rtentry :=
  match o with
  | Add net mask gw metric flags dev => rt_add t net mask gw metric flags dev
  | Delete ip mask => rt_delete t ip mask
  end.

Definition run_ops (t : list rtentry) (os : list table_op) : list rtentry := fold_left run_op os t.

(** ** Lemmas *)

Lemma rt_insert_perm t rt : rt_insert t rt ≡ₚ rt :: t.
Proof.
  induction t as [|r t IH]; simpl; [done|]. case_if; [done|].
  rewrite IH. apply Permutation_swap.
Qed.

Lemma rt_insert_sorted t rt : table_sorted t -> table_sorted (rt_insert t rt).
Proof.
  unfold table_sorted. induction 1 as [|r t Hs IH Hf]; simpl; [repeat constructor|].
  case_if.
  - constructor; [by constructor|]. constructor; [lia|].
    eapply Forall_impl; [exact Hf|]. simpl. intros. lia.
  - constructor; [done|]. rewrite rt_insert_perm. constructor; [lia|done].
Qed.

Lemma rt_delete_elem t ip mask x : x ∈ rt_delete t ip mask -> x ∈ t.
Proof.
  induction t as [|r t IH]; simpl; [done|]. case_if; set_solver.
Qed.

Lemma rt_delete_sorted t ip mask : table_sorted t -> table_sorted (rt_delete t ip mask).
Proof.
  unfold table_sorted. induction 1 as [|r t Hs IH Hf]; simpl; [constructor|].
  case_if; [done|]. constructor; [done|].
  rewrite Forall_forall in Hf |- *. intros x Hx. by apply Hf, (rt_delete_elem t ip mask).
Qed.

Lemma run_ops_sorted t os : table_sorted t -> table_sorted (run_ops t os).
Proof.
  revert t. induction os as [|o os IH]; intros t Ht; simpl; [done|]. apply IH.
  destruct o; simpl; [by apply rt_insert_sorted|by apply rt_delete_sorted].
Qed.

Lemma rt_init_sorted ip mask dev : table_sorted (rt_init ip mask dev).
Proof. repeat constructor. Qed.

Lemma rt_lookup_first t addr :
  table_sorted t ->
  match rt_lookup t addr with
  | None => forall rt, rt ∈ t -> rt_match addr rt = false
  | Some rt => rt ∈ t /\ rt_match addr rt = true /\
      forall rt', rt' ∈ t -> rt_match addr rt' = true -> rt_netmask rt' <= rt_netmask rt
  end.
Proof.
  unfold table_sorted. induction 1 as [|r t Hs IH Hf]; simpl; [set_solver|].
  destruct (rt_match addr r) eqn:E.
  - split_and!; [set_solver|done|]. intros rt' [->|Hin]%elem_of_cons _; [lia|].
    rewrite Forall_forall in Hf. by apply Hf.
  - destruct (rt_lookup t addr) as [rt|].
    + destruct IH as (Hin & Hm & Hmax). split_and!; [set_solver|done|].
      intros rt' [->|H']%elem_of_cons Hm'; [congruence|by apply Hmax].
    + intros rt [->|Hin]%elem_of_cons; [done|by apply IH].
Qed.

(** On masks of the form /n, the order of the words is the order of n. *)
Lemma mask_of_mono n m : 0 <= n < m -> m <= 32 -> mask_of n < mask_of m.
Proof.
  intros Hn Hm.
  assert (H : forallb (fun n => forallb (fun m => implb (n <? m) (mask_of n <? mask_of m))
            (seqZ 0 33)) (seqZ 0 33) = true) by by vm_compute.
  rewrite forallb_forall in H. specialize (H n).
  rewrite <- list_elem_of_In, elem_of_seqZ, forallb_forall in H. specialize (H ltac:(lia) m).
  rewrite <- list_elem_of_In, elem_of_seqZ in H. specialize (H ltac:(lia)).
  destruct (n <? m) eqn:E; simpl in H; lia.
Qed.

(** ** Properties *)

(** C25: whatever routes were added and deleted since start-up, rt_lookup returns
    an entry that matches the address, and among the entries that match with
    prefix-length masks one with the longest prefix; it finds nothing only when
    nothing matches. *)
Theorem rt_lookup_longest_prefix (ip mask : Z) (dev : devid) (os : list table_op) (addr : Z) :
  let t := run_ops (rt_init ip mask dev) os in
  match rt_lookup t addr with
  | None => forall rt, rt ∈ t -> rt_match addr rt = false
  | Some rt => rt ∈ t /\ rt_match addr rt = true /\
      forall rt' n n', rt' ∈ t -> rt_match addr rt' = true -> 0 <= n <= 32 -> 0 <= n' <= 32 ->
        rt_netmask rt = mask_of n -> rt_netmask rt' = mask_of n' -> n' <= n
  end.
Proof.
  intros t.
  pose proof (rt_lookup_first t addr (run_ops_sorted _ os (rt_init_sorted ip mask dev))) as H.
  destruct (rt_lookup t addr) as [rt|]; [|done]. destruct H as (Hin & Hm & Hmax).
  split_and!; [done|done|]. intros rt' n n' Hin' Hm' Hn Hn' E E'.
  specialize (Hmax rt' Hin' Hm'). destruct (Z.le_gt_cases n' n); [done|].
  pose proof (mask_of_mono n n'). lia.
Qed.

(** Deleting the route that was just added gives the table back, entry for
    entry and in the same order, also when other routes have the same mask. *)
Lemma delete_added (t : list rtentry) (net netmask gw metric flags : Z) (dev : devid) :
  rt_delete (rt_add t net netmask gw metric flags dev) net netmask = t.
Proof.
  unfold rt_add. set (rt := rt_alloc net netmask gw metric flags dev).
  assert (Hd : forall t, rt_delete (rt :: t) net netmask = t).
  { intros t'. simpl. by rewrite !Z.eqb_refl. }
  induction t as [|r t IH]; [apply Hd|]. cbn [rt_insert]. case_if; [apply Hd|].
  simpl in *. assert ((rt_netmask r =? netmask) = false) as -> by (subst rt; simpl in E; lia).
  by rewrite IH.
Qed.
