(* ===== verification/Pkb.v ===== *)
(** * Packet buffers: net/pkb.c and struct pkbuf of include/netif.h

    Packet buffers are heap objects shared by reference: queues, the network
    devices and the protocol handlers hold their addresses.  [pkmem] is the
    heap of live buffers; an access through an address that is not live is a
    use after free.  [pk_data] is the memory behind the struct, which may be
    longer than [pk_len].

    The operations work over any state that contains such a heap ([HasMem]). *)

From stdpp Require Import prelude list gmap.
From Stdlib Require Import ZArith Lia.
From S2P Require Import Prelude Structs Route.

(** ** The data *)

(** Address of a packet buffer. *)
Definition pid : Type := nat.

Record pkbuf := mk_pkbuf {
  pk_pro : Z;                  (* ethernet packet type ID *)
  pk_type : Z;                 (* packet hardware address type *)
  pk_len : Z;
  pk_refcnt : Z;
  pk_indev : option devid;
  pk_rtdst : option rtentry;   (* entries are never changed once allocated *)
  pk_sk : option nat;
  pk_data : list Z
}.

Definition set_pk_pro (k : pkbuf) v := mk_pkbuf v (pk_type k) (pk_len k) (pk_refcnt k) (pk_indev k) (pk_rtdst k) (pk_sk k) (pk_data k).
Definition set_pk_type (k : pkbuf) v := mk_pkbuf (pk_pro k) v (pk_len k) (pk_refcnt k) (pk_indev k) (pk_rtdst k) (pk_sk k) (pk_data k).
Definition set_pk_len (k : pkbuf) v := mk_pkbuf (pk_pro k) (pk_type k) v (pk_refcnt k) (pk_indev k) (pk_rtdst k) (pk_sk k) (pk_data k).
Definition set_pk_refcnt (k : pkbuf) v := mk_pkbuf (pk_pro k) (pk_type k) (pk_len k) v (pk_indev k) (pk_rtdst k) (pk_sk k) (pk_data k).
Definition set_pk_indev (k : pkbuf) v := mk_pkbuf (pk_pro k) (pk_type k) (pk_len k) (pk_refcnt k) v (pk_rtdst k) (pk_sk k) (pk_data k).
Definition set_pk_rtdst (k : pkbuf) v := mk_pkbuf (pk_pro k) (pk_type k) (pk_len k) (pk_refcnt k) (pk_indev k) v (pk_sk k) (pk_data k).
Definition set_pk_sk (k : pkbuf) v := mk_pkbuf (pk_pro k) (pk_type k) (pk_len k) (pk_refcnt k) (pk_indev k) (pk_rtdst k) v (pk_data k).
Definition set_pk_data (k : pkbuf) v := mk_pkbuf (pk_pro k) (pk_type k) (pk_len k) (pk_refcnt k) (pk_indev k) (pk_rtdst k) (pk_sk k) v.

(** packet hardware address type *)
Definition PKT_NONE : Z := 0.
Definition PKT_LOCALHOST : Z := 1.
Definition PKT_OTHERHOST : Z := 2.
Definition PKT_MULTICAST : Z := 3.
Definition PKT_BROADCAST : Z := 4.

(** sizeof(struct pkbuf), packed, with 8-byte pointers: two list pointers, two
    shorts, two ints, three pointers. *)
Definition SIZEOF_PKBUF : Z := 52.

Definition MAX_PKBS : Z := 200000.

(** The heap: live buffers, the next address malloc hands out, the counters. *)
Record pkmem := mk_pkmem {
  pkbs : gmap nat pkbuf;
  next_pid : nat;
  alloc_pkbs : Z;
  free_pkbs : Z
}.

(** A state that contains a packet heap. *)
Class HasMem (S : Type) := {
  st_mem : S -> pkmem;
  set_mem : pkmem -> S -> S;
  st_set_mem m s : st_mem (set_mem m s) = m;
  set_set_mem m m' s : set_mem m (set_mem m' s) = set_mem m s;
  set_st_mem s : set_mem (st_mem s) s = s
}.

#[export] Instance pkmem_has_mem : HasMem pkmem :=
  {| st_mem m := m; set_mem m _ := m;
     st_set_mem _ _ := eq_refl; set_set_mem _ _ _ := eq_refl; set_st_mem _ := eq_refl |}.

(** ** The code *)

Section Ops.
Context {S : Type} `{HasMem S}.

(** [*pkb], and an assignment through [pkb]. *)
Definition ld (p : pid) : comp S pkbuf := fun s =>
  match pkbs (st_mem s) !! p with
  | Some k => Ret k s
  | None => Fault UseAfterFree
  end.

Definition put_pkb (p : pid) (k : pkbuf) : comp S unit := fun s =>
  let m := st_mem s in
  Ret tt (set_mem (mk_pkmem (<[p := k]> (pkbs m)) (next_pid m) (alloc_pkbs m) (free_pkbs m)) s).

Definition upd (p : pid) (f : pkbuf -> pkbuf) : comp S unit :=
  let* k := ld p in put_pkb p (f k).

(** [memcpy] from and to the data of a buffer. *)
Definition ld_bytes (p : pid) (off n : Z) : comp S (list Z) :=
  let* k := ld p in
  guard OutOfBounds ((0 <=? off) && (0 <=? n) && (off + n <=? zlen (pk_data k)));;
  ret (slice (pk_data k) off n).

Definition st_bytes (p : pid) (off : Z) (d : list Z) : comp S unit :=
  let* k := ld p in
  guard OutOfBounds ((0 <=? off) && (off + zlen d <=? zlen (pk_data k)));;
  put_pkb p (set_pk_data k (patch (pk_data k) off d)).

(** The struct overlaid at [off]. *)
Definition ld_at (T : Type) `{Struct T} (p : pid) (off : Z) : comp S T :=
  let* b := ld_bytes p off (sizeof T) in ret (decode b).

Definition st_at {T : Type} `{Struct T} (p : pid) (off : Z) (t : T) : comp S unit :=
  st_bytes p off (encode t).

(** [malloc] of a new buffer with its reference counted in [alloc_pkbs], and the
    [pkb_safe] check that follows every allocation. *)
Definition new_pkb (k : pkbuf) : comp S pid := fun s =>
  let m := st_mem s in
  let p := next_pid m in
  let a := alloc_pkbs m + 1 in
  if MAX_PKBS <? a - free_pkbs m then Fault Exit
  else Ret p (set_mem (mk_pkmem (<[p := k]> (pkbs m)) (Datatypes.S p) a (free_pkbs m)) s).

Definition alloc_pkb (size : Z) : comp S pid :=
  new_pkb (mk_pkbuf 0xffff 0 size 1 None None None (replicate (Z.to_nat size) 0)).

Definition alloc_netdev_pkb (net_mtu : Z) : comp S pid := alloc_pkb (net_mtu + ETH_HRD_SZ).

(** [realloc(pkb, sizeof( *pkb) + len)] drops the returned pointer: shrinking is
    taken to happen in place, a block that grows may move. *)
Definition pkb_trim (p : pid) (len : Z) : comp S unit :=
  let* k := ld p in
  guard Undefined ((0 <=? len) && (len <=? zlen (pk_data k)));;
  put_pkb p (set_pk_data (set_pk_len k len) (slice (pk_data k) 0 len)).

(** copy_pkb allocates and copies [pk_len] bytes counted from the struct, not
    from the data: the copy holds the struct and the first
    [pk_len - sizeof(struct pkbuf)] data bytes, and not even the whole struct
    when [pk_len] is smaller. *)
Definition copy_pkb (p : pid) : comp S pid :=
  let* k := ld p in
  guard OutOfBounds ((SIZEOF_PKBUF <=? pk_len k) &&
                     (pk_len k <=? SIZEOF_PKBUF + zlen (pk_data k)));;
  new_pkb (set_pk_refcnt (set_pk_data k (slice (pk_data k) 0 (pk_len k - SIZEOF_PKBUF))) 1).

Definition free_pkb (p : pid) : comp S unit :=
  let* k := ld p in
  let c := pk_refcnt k - 1 in
  if c <=? 0 then
    fun s =>
      let m := st_mem s in
      Ret tt (set_mem (mk_pkmem (delete p (pkbs m)) (next_pid m) (alloc_pkbs m) (free_pkbs m + 1)) s)
  else put_pkb p (set_pk_refcnt k c).

Definition get_pkb (p : pid) : comp S unit := upd p (fun k => set_pk_refcnt k (pk_refcnt k + 1)).

End Ops.

(** ** Invariant *)

(** Every live buffer has a positive count, data bytes are bytes, addresses are
    not reused, and the counters account for what is live. *)
Record mem_inv (m : pkmem) : Prop := {
  mi_ref : map_Forall (fun _ k => 1 <= pk_refcnt k) (pkbs m);
  mi_bytes : map_Forall (fun _ k => bytes_ok (pk_data k)) (pkbs m);
  mi_fresh : forall p, (next_pid m <= p)%nat -> pkbs m !! p = None;
  mi_count : alloc_pkbs m - free_pkbs m = Z.of_nat (size (pkbs m))
}.

(** ** Rules *)

Section Rules.
Context {S : Type} `{HasMem S}.
Implicit Types (s : S) (p : pid) (k : pkbuf).

(** [live s p k]: the address [p] holds the buffer [k]. *)
Definition live s p k : Prop := pkbs (st_mem s) !! p = Some k.

(** The state with the buffer at [p] replaced. *)
Definition with_pkb s p k : S :=
  let m := st_mem s in
  set_mem (mk_pkmem (<[p := k]> (pkbs m)) (next_pid m) (alloc_pkbs m) (free_pkbs m)) s.

Definition without_pkb s p : S :=
  let m := st_mem s in
  set_mem (mk_pkmem (delete p (pkbs m)) (next_pid m) (alloc_pkbs m) (free_pkbs m + 1)) s.

Lemma ld_ok s p k : live s p k -> ld p s = Ret k s.
Proof. unfold live, ld. by intros ->. Qed.

Lemma upd_ok s p k f : live s p k -> upd p f s = Ret tt (with_pkb s p (f k)).
Proof. intros Hk. unfold upd. by erewrite bind_ok by (by apply ld_ok). Qed.

Lemma ld_bytes_ok s p k off n :
  live s p k -> 0 <= off -> 0 <= n -> off + n <= zlen (pk_data k) ->
  ld_bytes p off n s = Ret (slice (pk_data k) off n) s.
Proof.
  intros Hk ? ? ?. unfold ld_bytes. erewrite bind_ok by (by apply ld_ok).
  by replace ((0 <=? off) && (0 <=? n) && (off + n <=? zlen (pk_data k))) with true by lia.
Qed.

Lemma st_bytes_ok s p k off d :
  live s p k -> 0 <= off -> off + zlen d <= zlen (pk_data k) ->
  st_bytes p off d s = Ret tt (with_pkb s p (set_pk_data k (patch (pk_data k) off d))).
Proof.
  intros Hk ? ?. unfold st_bytes. erewrite bind_ok by (by apply ld_ok).
  by replace ((0 <=? off) && (off + zlen d <=? zlen (pk_data k))) with true by lia.
Qed.

Lemma ld_at_ok (T : Type) `{StructOk T} s p k off :
  live s p k -> 0 <= off -> 0 <= sizeof T -> off + sizeof T <= zlen (pk_data k) ->
  ld_at T p off s = Ret (decode (slice (pk_data k) off (sizeof T))) s.
Proof. intros. unfold ld_at. by erewrite bind_ok by (by apply ld_bytes_ok). Qed.

Lemma st_at_ok {T : Type} `{StructOk T} s p k off (t : T) :
  live s p k -> 0 <= off -> wf_struct t -> off + sizeof T <= zlen (pk_data k) ->
  st_at p off t s = Ret tt (with_pkb s p (set_pk_data k (patch (pk_data k) off (encode t)))).
Proof. intros. unfold st_at. apply st_bytes_ok; rewrite ?encode_len; auto. Qed.

Lemma free_pkb_ok s p k : live s p k ->
  free_pkb p s = Ret tt (if pk_refcnt k - 1 <=? 0 then without_pkb s p
                         else with_pkb s p (set_pk_refcnt k (pk_refcnt k - 1))).
Proof.
  intros Hk. unfold free_pkb. erewrite bind_ok by (by apply ld_ok). by case_if.
Qed.

Lemma live_with s p k : live (with_pkb s p k) p k.
Proof. unfold live, with_pkb. rewrite st_set_mem. apply lookup_insert_eq. Qed.

Lemma live_with_ne s p q k k' : p <> q -> live s q k' -> live (with_pkb s p k) q k'.
Proof. unfold live, with_pkb. intros. rewrite st_set_mem. cbn. by rewrite lookup_insert_ne. Qed.

Lemma with_with s p k k' : with_pkb (with_pkb s p k) p k' = with_pkb s p k'.
Proof.
  unfold with_pkb. rewrite !st_set_mem, set_set_mem. cbn. by rewrite insert_insert_eq.
Qed.

Lemma with_live s p k : live s p k -> with_pkb s p k = s.
Proof.
  unfold live, with_pkb. intros Hk. rewrite insert_id by done.
  transitivity (set_mem (st_mem s) s); [|apply set_st_mem]. f_equal. by destruct (st_mem s).
Qed.

End Rules.

#[export] Hint Resolve live_with : tapip.

(** ** The invariant is kept *)

(** What a step may do to the heap; the components change it only through
    these. *)
Inductive mem_step : pkmem -> pkmem -> Prop :=
  | step_put m p k k' :
      pkbs m !! p = Some k -> 1 <= pk_refcnt k' -> bytes_ok (pk_data k') ->
      mem_step m (mk_pkmem (<[p := k']> (pkbs m)) (next_pid m) (alloc_pkbs m) (free_pkbs m))
  | step_new m k :
      1 <= pk_refcnt k -> bytes_ok (pk_data k) ->
      mem_step m (mk_pkmem (<[next_pid m := k]> (pkbs m)) (Datatypes.S (next_pid m))
                    (alloc_pkbs m + 1) (free_pkbs m))
  | step_free m p k :
      pkbs m !! p = Some k ->
      mem_step m (mk_pkmem (delete p (pkbs m)) (next_pid m) (alloc_pkbs m) (free_pkbs m + 1)).

Lemma mem_step_inv m m' : mem_step m m' -> mem_inv m -> mem_inv m'.
Proof.
  destruct 1 as [m p k k' Hk Hr Hb|m k Hr Hb|m p k Hk]; intros [Mr Mb Mf Mc]; split; cbn.
  - by apply map_Forall_insert_2.
  - by apply map_Forall_insert_2.
  - intros q Hq. rewrite lookup_insert_ne; [by apply Mf|].
    intros ->. rewrite Mf in Hk; done.
  - rewrite Mc. f_equal. symmetry. by apply map_size_insert_Some.
  - by apply map_Forall_insert_2.
  - by apply map_Forall_insert_2.
  - intros q Hq. rewrite lookup_insert_ne by lia. apply Mf. lia.
  - rewrite map_size_insert_None by (by apply Mf). lia.
  - by apply map_Forall_delete.
  - by apply map_Forall_delete.
  - intros q Hq. rewrite lookup_delete. case_decide; [done|]. by apply Mf.
  - rewrite map_size_delete_Some by by eexists.
    assert (size (pkbs m) <> 0%nat) by (eapply map_size_non_empty_iff; intros E; by rewrite E in Hk).
    lia.
Qed.
