(* ===== verification/ArpCache.v ===== *)
(** * ARP cache: the table operations of arp/arp_cache.c, include/arp.h

    [arp_cache] is the static array of [ARP_CACHE_SZ] entries together with the
    static round-robin index of arp_alloc.  Entries are referred to by their
    index (the code holds [struct arpentry *] into the array).  The operations
    that send or free packets (arp_queue_send, arp_queue_drop, arp_timer) are in
    the file Arp. *)

From stdpp Require Import prelude list list_numbers.
From Stdlib Require Import ZArith Lia.
From S2P Require Import Prelude Structs Route Pkb.

(** ** The code *)

Definition ARP_CACHE_SZ : nat := 20.
Definition ARP_TIMEOUT : Z := 600.
Definition ARP_WAITTIME : Z := 1.
Definition ARP_REQ_RETRY : Z := 4.

Definition ARP_FREE : Z := 1.
Definition ARP_WAITING : Z := 2.
Definition ARP_RESOLVED : Z := 3.

Record arpentry := mk_arpentry {
  ae_list : list pid;          (* packet pending for hard address *)
  ae_dev : option devid;       (* associated net interface *)
  ae_retry : Z;
  ae_ttl : Z;
  ae_state : Z;
  ae_pro : Z;
  ae_ipaddr : Z;
  ae_hwaddr : list Z
}.

Definition set_ae_list (e : arpentry) v := mk_arpentry v (ae_dev e) (ae_retry e) (ae_ttl e) (ae_state e) (ae_pro e) (ae_ipaddr e) (ae_hwaddr e).
Definition set_ae_dev (e : arpentry) v := mk_arpentry (ae_list e) v (ae_retry e) (ae_ttl e) (ae_state e) (ae_pro e) (ae_ipaddr e) (ae_hwaddr e).
Definition set_ae_retry (e : arpentry) v := mk_arpentry (ae_list e) (ae_dev e) v (ae_ttl e) (ae_state e) (ae_pro e) (ae_ipaddr e) (ae_hwaddr e).
Definition set_ae_ttl (e : arpentry) v := mk_arpentry (ae_list e) (ae_dev e) (ae_retry e) v (ae_state e) (ae_pro e) (ae_ipaddr e) (ae_hwaddr e).
Definition set_ae_state (e : arpentry) v := mk_arpentry (ae_list e) (ae_dev e) (ae_retry e) (ae_ttl e) v (ae_pro e) (ae_ipaddr e) (ae_hwaddr e).
Definition set_ae_pro (e : arpentry) v := mk_arpentry (ae_list e) (ae_dev e) (ae_retry e) (ae_ttl e) (ae_state e) v (ae_ipaddr e) (ae_hwaddr e).
Definition set_ae_ipaddr (e : arpentry) v := mk_arpentry (ae_list e) (ae_dev e) (ae_retry e) (ae_ttl e) (ae_state e) (ae_pro e) v (ae_hwaddr e).
Definition set_ae_hwaddr (e : arpentry) v := mk_arpentry (ae_list e) (ae_dev e) (ae_retry e) (ae_ttl e) (ae_state e) (ae_pro e) (ae_ipaddr e) v.

(** An entry of the zero-initialised static array. *)
Definition zero_entry : arpentry := mk_arpentry [] None 0 0 0 0 0 (replicate 6 0).
#[export] Instance arpentry_inhabited : Inhabited arpentry := populate zero_entry.

Record arpcache := mk_arpcache {
  arp_cache : list arpentry;
  next : nat                   (* the static variable of arp_alloc *)
}.

Definition arp_cache_init (c : arpcache) : arpcache :=
  mk_arpcache ((fun e => set_ae_state e ARP_FREE) <$> arp_cache c) (next c).

(** The cache the program starts with. *)
Definition arp_cache_start : arpcache :=
  arp_cache_init (mk_arpcache (replicate ARP_CACHE_SZ zero_entry) 0).

(** The loop of arp_alloc: at most [n] further entries are looked at, from index
    [i]; the result says whether it stopped at a free one, and where. *)
Fixpoint arp_alloc_loop (n : nat) (cache : list arpentry) (i : nat) : bool * nat :=
  match n with
  | O => (false, i)
  | S m =>
      if ae_state (cache !!! i) =? ARP_FREE then (true, i)
      else arp_alloc_loop m cache ((i + 1) mod ARP_CACHE_SZ)
  end.

Definition arp_alloc_init (e : arpentry) : arpentry :=
  set_ae_list (set_ae_pro (set_ae_state (set_ae_ttl (set_ae_retry (set_ae_dev e None)
    ARP_REQ_RETRY) ARP_WAITTIME) ARP_WAITING) ETH_P_IP) [].

Definition arp_alloc (c : arpcache) : option nat * arpcache :=
  match arp_alloc_loop ARP_CACHE_SZ (arp_cache c) (next c) with
  | (false, i) => (None, mk_arpcache (arp_cache c) i)
  | (true, i) =>
      (Some i, mk_arpcache (<[i := arp_alloc_init (arp_cache c !!! i)]> (arp_cache c))
                 ((i + 1) mod ARP_CACHE_SZ))
  end.

(** An assignment through [ae]. *)
Definition upd_entry (c : arpcache) (i : nat) (f : arpentry -> arpentry) : arpcache :=
  mk_arpcache (<[i := f (arp_cache c !!! i)]> (arp_cache c)) (next c).

Definition arp_insert (c : arpcache) (nd : devid) (pro ipaddr : Z) (hwaddr : list Z)
    : Z * arpcache :=
  match arp_alloc c with
  | (None, c) => (-1, c)
  | (Some i, c) =>
      (0, upd_entry c i (fun ae =>
            set_ae_hwaddr (set_ae_state (set_ae_ipaddr (set_ae_ttl (set_ae_pro
              (set_ae_dev ae (Some nd)) pro) ARP_TIMEOUT) ipaddr) ARP_RESOLVED) hwaddr))
  end.

Definition ae_match (pro ipaddr : Z) (ae : arpentry) : bool :=
  negb (ae_state ae =? ARP_FREE) && (ae_pro ae =? pro) && (ae_ipaddr ae =? ipaddr).

Fixpoint arp_lookup_from (i : nat) (cache : list arpentry) (pro ipaddr : Z) : option nat :=
  match cache with
  | [] => None
  | ae :: r => if ae_match pro ipaddr ae then Some i else arp_lookup_from (S i) r pro ipaddr
  end.

Definition arp_lookup (c : arpcache) (pro ipaddr : Z) : option nat :=
  arp_lookup_from 0 (arp_cache c) pro ipaddr.

(** The test is on [ae_pro], as in the source. *)
Definition arp_lookup_resolv (c : arpcache) (pro ipaddr : Z) : option nat :=
  match arp_lookup c pro ipaddr with
  | Some i => if ae_pro (arp_cache c !!! i) =? ARP_RESOLVED then Some i else None
  | None => None
  end.

(** ** Invariant *)

Record entry_inv (e : arpentry) : Prop := {
  ei_state : ae_state e = ARP_FREE \/ ae_state e = ARP_WAITING \/ ae_state e = ARP_RESOLVED;
  ei_queue : ae_state e <> ARP_WAITING -> ae_list e = [];
  ei_hw : hwaddr_ok (ae_hwaddr e);
  ei_pro : ae_state e <> ARP_FREE -> ae_pro e = ETH_P_IP
}.

(** No two entries in use are for the same protocol address. *)
Definition unique_keys (l : list arpentry) : Prop :=
  forall i j e e', l !! i = Some e -> l !! j = Some e' ->
    ae_state e <> ARP_FREE -> ae_state e' <> ARP_FREE ->
    ae_pro e = ae_pro e' -> ae_ipaddr e = ae_ipaddr e' -> i = j.

Record cache_inv (c : arpcache) : Prop := {
  ci_len : length (arp_cache c) = ARP_CACHE_SZ;
  ci_next : (next c < ARP_CACHE_SZ)%nat;
  ci_entries : Forall entry_inv (arp_cache c);
  ci_unique : unique_keys (arp_cache c)
}.

(** What the cache holds: the entry in use for an address. *)
Definition cached (c : arpcache) (pro ipaddr : Z) (i : nat) (ae : arpentry) : Prop :=
  arp_cache c !! i = Some ae /\ ae_state ae <> ARP_FREE /\ ae_pro ae = pro /\ ae_ipaddr ae = ipaddr.

(** ** Lemmas *)

Lemma total_lookup_some (c : list arpentry) i : (i < length c)%nat -> c !! i = Some (c !!! i).
Proof. intros. by apply list_lookup_lookup_total_lt. Qed.

(** The loop visits [i], [i+1], ... modulo the size of the array. *)
Lemma arp_alloc_loop_spec n c i : (i < ARP_CACHE_SZ)%nat ->
  match arp_alloc_loop n c i with
  | (true, j) => exists k, (k < n)%nat /\ j = ((i + k) mod ARP_CACHE_SZ)%nat /\
      ae_state (c !!! j) = ARP_FREE /\
      forall m, (m < k)%nat -> ae_state (c !!! ((i + m) mod ARP_CACHE_SZ)%nat) <> ARP_FREE
  | (false, j) => j = ((i + n) mod ARP_CACHE_SZ)%nat /\
      forall m, (m < n)%nat -> ae_state (c !!! ((i + m) mod ARP_CACHE_SZ)%nat) <> ARP_FREE
  end.
Proof.
  unfold ARP_CACHE_SZ.
  revert i. induction n as [|n IH]; intros i Hi; cbn [arp_alloc_loop].
  - rewrite Nat.add_0_r, Nat.mod_small by done. split; [done|lia].
  - destruct (Z.eqb_spec (ae_state (c !!! i)) ARP_FREE) as [E|E].
    { exists 0%nat. rewrite Nat.add_0_r, Nat.mod_small by done. split_and!; [lia|done|done|lia]. }
    assert (Hs : forall k, ((((i + 1) mod 20) + k) mod 20 = (i + S k) mod 20)%nat).
    { intros k. rewrite Nat.Div0.add_mod_idemp_l. f_equal. lia. }
    unfold ARP_CACHE_SZ in *.
    specialize (IH ((i + 1) mod 20)%nat (Nat.mod_upper_bound _ 20 ltac:(done))).
    destruct (arp_alloc_loop n c ((i + 1) mod 20)) as [[] j].
    + destruct IH as (k & Hk & -> & Hf & Hb). rewrite Hs in *. exists (S k).
      split_and!; [lia|done|done|]. intros [|m] Hm; [by rewrite Nat.add_0_r, Nat.mod_small|].
      rewrite <- Hs. apply Hb. lia.
    + destruct IH as (-> & Hb). rewrite Hs. split; [done|].
      intros [|m] Hm; [by rewrite Nat.add_0_r, Nat.mod_small|]. rewrite <- Hs. apply Hb. lia.
Qed.

(** A full turn visits every entry. *)
Lemma cyclic_cover (P : nat -> Prop) i j : (i < ARP_CACHE_SZ)%nat -> (j < ARP_CACHE_SZ)%nat ->
  (forall m, (m < ARP_CACHE_SZ)%nat -> P ((i + m) mod ARP_CACHE_SZ)%nat) -> P j.
Proof.
  unfold ARP_CACHE_SZ. intros Hi Hj H. destruct (le_lt_dec i j).
  - specialize (H (j - i)%nat ltac:(lia)). replace (i + (j - i))%nat with j in H by lia.
    by rewrite Nat.mod_small in H.
  - specialize (H (j + 20 - i)%nat ltac:(lia)).
    replace (i + (j + 20 - i))%nat with (j + 1 * 20)%nat in H by lia.
    by rewrite Nat.Div0.mod_add, Nat.mod_small in H.
Qed.

Lemma arp_lookup_from_spec k l pro ipaddr :
  match arp_lookup_from k l pro ipaddr with
  | Some i => exists j ae, i = (k + j)%nat /\ l !! j = Some ae /\ ae_match pro ipaddr ae = true
  | None => forall ae, ae ∈ l -> ae_match pro ipaddr ae = false
  end.
Proof.
  revert k. induction l as [|e l IH]; intros k; cbn; [set_solver|].
  destruct (ae_match pro ipaddr e) eqn:E.
  - exists 0%nat, e. split_and!; [lia|done|done].
  - specialize (IH (S k)). destruct (arp_lookup_from (S k) l pro ipaddr) as [i|].
    + destruct IH as (j & ae & -> & Hl & Hm). exists (S j), ae. split_and!; [lia|done|done].
    + intros ae [->|Hin]%elem_of_cons; auto.
Qed.

Lemma ae_match_true pro ipaddr ae :
  ae_match pro ipaddr ae = true <->
  ae_state ae <> ARP_FREE /\ ae_pro ae = pro /\ ae_ipaddr ae = ipaddr.
Proof. unfold ae_match. rewrite !andb_true_iff, negb_true_iff. lia. Qed.

(** arp_lookup finds the entry in use, when there is one. *)
Lemma arp_lookup_Some c pro ipaddr i :
  arp_lookup c pro ipaddr = Some i -> exists ae, cached c pro ipaddr i ae.
Proof.
  intros E. pose proof (arp_lookup_from_spec 0 (arp_cache c) pro ipaddr) as H.
  unfold arp_lookup in E. rewrite E in H. destruct H as (j & ae & -> & Hl & Hm).
  exists ae. split; [done|]. by apply ae_match_true.
Qed.

Lemma arp_lookup_None c pro ipaddr :
  arp_lookup c pro ipaddr = None -> forall i ae, ~ cached c pro ipaddr i ae.
Proof.
  intros E i ae (Hl & Hm). pose proof (arp_lookup_from_spec 0 (arp_cache c) pro ipaddr) as H.
  unfold arp_lookup in E. rewrite E in H.
  apply ae_match_true in Hm. rewrite H in Hm; [done|]. by eapply list_elem_of_lookup_2.
Qed.

Lemma arp_lookup_cached c pro ipaddr i ae :
  cache_inv c -> cached c pro ipaddr i ae -> arp_lookup c pro ipaddr = Some i.
Proof.
  intros Hi Hc. destruct (arp_lookup c pro ipaddr) as [j|] eqn:E.
  - destruct (arp_lookup_Some _ _ _ _ E) as (ae' & Hl' & Hs' & Hp' & Ha').
    destruct Hc as (Hl & Hs & Hp & Ha). f_equal.
    eapply (ci_unique c Hi); [exact Hl'|exact Hl|done|done|congruence|congruence].
  - by destruct (arp_lookup_None _ _ _ E i ae).
Qed.

Lemma arp_lookup_lt c pro ipaddr i :
  arp_lookup c pro ipaddr = Some i -> (i < length (arp_cache c))%nat.
Proof. intros (ae & Hl & _)%arp_lookup_Some. by eapply lookup_lt_Some. Qed.

(** *** Updates keep the invariant *)

Lemma unique_keys_insert l i e :
  unique_keys l -> (i < length l)%nat ->
  (ae_state e <> ARP_FREE -> forall j e', j <> i -> l !! j = Some e' -> ae_state e' <> ARP_FREE ->
     ae_pro e = ae_pro e' -> ae_ipaddr e = ae_ipaddr e' -> False) ->
  unique_keys (<[i := e]> l).
Proof.
  intros Hu Hi He a b ea eb Ha Hb Hsa Hsb Hp Hip.
  apply list_lookup_insert_Some in Ha as [(<- & <- & _)|[Hne Ha]];
    apply list_lookup_insert_Some in Hb as [(<- & <- & _)|[Hne' Hb]]; [done| | |].
  - exfalso. eapply (He Hsa b eb); eauto.
  - exfalso. eapply (He Hsb a ea); eauto.
  - by eapply Hu.
Qed.

(** An update that keeps the key, or frees the entry. *)
Lemma upd_entry_inv c i f :
  cache_inv c -> (i < length (arp_cache c))%nat ->
  (forall e, arp_cache c !! i = Some e -> entry_inv e -> entry_inv (f e) /\
     (ae_state (f e) = ARP_FREE \/
      ae_state e <> ARP_FREE /\ ae_pro (f e) = ae_pro e /\ ae_ipaddr (f e) = ae_ipaddr e)) ->
  cache_inv (upd_entry c i f).
Proof.
  intros [Hl Hn He Hu] Hi Hf. pose proof (total_lookup_some _ _ Hi) as Hsome.
  destruct (Hf _ Hsome) as [Hinv Hk].
  { eapply Forall_lookup_1; eauto. }
  split; cbn; [by rewrite length_insert|done|by apply Forall_insert|].
  apply unique_keys_insert; [done|done|]. intros Hs j e' Hne Hj Hs' Hp Hip.
  destruct Hk as [?|(Hs0 & Hp0 & Hip0)]; [done|]. apply Hne.
  eapply Hu; [exact Hj|exact Hsome|done|done|congruence|congruence].
Qed.

(** arp_alloc followed by the assignments that give the entry its key; the key
    was not in the cache. *)
Lemma arp_alloc_fill_inv c c' i f ipaddr :
  cache_inv c -> arp_alloc c = (Some i, c') ->
  arp_lookup c ETH_P_IP ipaddr = None ->
  (forall e, entry_inv e -> ae_list e = [] -> ae_state e = ARP_WAITING ->
     entry_inv (f e) /\ ae_pro (f e) = ETH_P_IP /\ ae_ipaddr (f e) = ipaddr) ->
  cache_inv (upd_entry c' i f) /\ (i < ARP_CACHE_SZ)%nat /\ ae_state (arp_cache c !!! i) = ARP_FREE /\
  arp_cache c' = <[i := arp_alloc_init (arp_cache c !!! i)]> (arp_cache c).
Proof.
  intros [Hl Hn He Hu] Ha Hno Hf. unfold arp_alloc in Ha.
  pose proof (arp_alloc_loop_spec ARP_CACHE_SZ (arp_cache c) (next c) Hn) as Hs.
  destruct (arp_alloc_loop _ _ _) as [[] j]; [|discriminate]. injection Ha as <- <-.
  destruct Hs as (k & Hk & Hj & Hfree & _).
  assert (Hlt : (j < ARP_CACHE_SZ)%nat).
  { rewrite Hj. by apply Nat.mod_upper_bound. }
  assert (Hlt' : (j < length (arp_cache c))%nat) by lia.
  assert (Hinit : entry_inv (arp_alloc_init (arp_cache c !!! j))).
  { pose proof (Forall_lookup_1 _ _ _ _ He (total_lookup_some _ _ Hlt')) as [H1 H2 H3 H4].
    split; cbn; auto. }
  split_and!; [|done|done|done].
  unfold upd_entry. cbn [arp_cache next]. rewrite list_lookup_total_insert_eq by done.
  destruct (Hf _ Hinit eq_refl eq_refl) as (Hi1 & Hi2 & Hi3).
  rewrite list_insert_insert_eq. split; cbn [arp_cache next]; [by rewrite length_insert|exact (Nat.mod_upper_bound (j + 1) ARP_CACHE_SZ ltac:(done))|by apply Forall_insert|].
  apply unique_keys_insert; [done|done|]. intros _ m e' Hne Hm Hs' Hp Hip.
  eapply (arp_lookup_None _ _ _ Hno m e'). split_and!; [done|done|congruence|congruence].
Qed.

Lemma arp_alloc_None c c' : cache_inv c -> arp_alloc c = (None, c') ->
  arp_cache c' = arp_cache c /\ next c' = next c /\
  Forall (fun e => ae_state e <> ARP_FREE) (arp_cache c).
Proof.
  intros [Hl Hn He Hu] E. unfold arp_alloc in E.
  pose proof (arp_alloc_loop_spec ARP_CACHE_SZ (arp_cache c) (next c) Hn) as Hs.
  destruct (arp_alloc_loop _ _ _) as [[] i]; [discriminate|]. injection E as <-.
  destruct Hs as (-> & Hb). cbn [arp_cache next]. split_and!; [done| |].
  - unfold ARP_CACHE_SZ in *. replace (next c + 20)%nat with (next c + 1 * 20)%nat by lia.
    by rewrite Nat.Div0.mod_add, Nat.mod_small.
  - apply Forall_lookup. intros j e Hj. pose proof (lookup_lt_Some _ _ _ Hj).
    rewrite <- (list_lookup_total_correct _ _ _ Hj).
    apply (cyclic_cover (fun j => ae_state (arp_cache c !!! j) <> ARP_FREE) (next c)); [done|lia|done].
Qed.

Lemma arp_cache_start_inv : cache_inv arp_cache_start.
Proof.
  split; [done|unfold ARP_CACHE_SZ; cbn; lia| |].
  - cbn. repeat constructor; cbn; auto; try (unfold is_u8; lia); by intros [].
  - intros i j e e' He _ Hs. exfalso. apply Hs.
    cbn in He. do 20 (destruct i as [|i]; [by injection He as <-|]). done.
Qed.

(** ** Properties *)

(** Arp_alloc refuses exactly when every entry is in use, leaving the
    entries alone; otherwise it hands out the first free entry at or after the
    round-robin index, cyclically, initialised for waiting with an empty queue,
    changes no other entry, and starts the next search behind it. *)
Lemma arp_alloc_spec (c : arpcache) (H : cache_inv c) :
  match arp_alloc c with
  | (None, c') => arp_cache c' = arp_cache c /\ next c' = next c /\
      Forall (fun e => ae_state e <> ARP_FREE) (arp_cache c)
  | (Some i, c') => exists k, (k < ARP_CACHE_SZ)%nat /\ i = ((next c + k) mod ARP_CACHE_SZ)%nat /\
      ae_state (arp_cache c !!! i) = ARP_FREE /\
      (forall m, (m < k)%nat ->
         ae_state (arp_cache c !!! ((next c + m) mod ARP_CACHE_SZ)%nat) <> ARP_FREE) /\
      next c' = ((i + 1) mod ARP_CACHE_SZ)%nat /\
      (forall j, j <> i -> arp_cache c' !! j = arp_cache c !! j) /\
      exists e, arp_cache c' !! i = Some e /\ ae_state e = ARP_WAITING /\ ae_list e = [] /\
        ae_dev e = None /\ ae_retry e = ARP_REQ_RETRY /\ ae_ttl e = ARP_WAITTIME
  end.
Proof.
  destruct (arp_alloc c) as [[i|] c'] eqn:E; [|by apply arp_alloc_None].
  destruct H as [Hl Hn He Hu]. unfold arp_alloc in E.
  pose proof (arp_alloc_loop_spec ARP_CACHE_SZ (arp_cache c) (next c) Hn) as Hs.
  destruct (arp_alloc_loop _ _ _) as [[] j]; [|discriminate]. injection E as <- <-.
  cbn [arp_cache next]. destruct Hs as (k & Hk & Hi & Hf & Hb). exists k. split_and!; auto.
  - intros m Hj. by rewrite list_lookup_insert_ne.
  - eexists. rewrite list_lookup_insert_eq; [by split_and!|].
    rewrite Hl, Hi. by apply Nat.mod_upper_bound.
Qed.

(** A cache with one resolved entry, for the witnesses. *)
Definition sample_cache : arpcache :=
  snd (arp_insert arp_cache_start 0%nat ETH_P_IP 0x0200000a [0; 1; 2; 3; 4; 5]).

(** arp_insert of an address that is not cached. *)
Lemma arp_insert_inv c nd ipaddr hw :
  cache_inv c -> arp_lookup c ETH_P_IP ipaddr = None -> hwaddr_ok hw ->
  cache_inv (snd (arp_insert c nd ETH_P_IP ipaddr hw)).
Proof.
  intros Hc Hno Hhw. unfold arp_insert. destruct (arp_alloc c) as [[i|] c'] eqn:E; cbn [snd].
  - eapply (arp_alloc_fill_inv c c' i _ ipaddr Hc E Hno).
    intros e [H1 H2 H3 H4] Hq Hs. split_and!; [split; cbn; auto|done|done].
  - destruct (arp_alloc_None c c' Hc E) as (Ec & En & _). destruct Hc as [Hl Hn He Hu].
    by split; rewrite ?Ec, ?En.
Qed.

Lemma sample_cache_inv : cache_inv sample_cache.
Proof.
  apply arp_insert_inv; [apply arp_cache_start_inv|done|].
  split; [|done]. repeat constructor; unfold is_u8; lia.
Qed.

Lemma arp_alloc_spec_witness : exists i, fst (arp_alloc sample_cache) = Some i /\ i = 1%nat.
Proof.
  pose proof (arp_alloc_spec sample_cache sample_cache_inv) as H.
  destruct (arp_alloc sample_cache) as [[i|] c'] eqn:E.
  - exists i. split; [done|]. vm_compute in E. by injection E as <- _.
  - vm_compute in E. discriminate E.
Defined.

(** C26: inserting an address that is not cached, while an entry is free, makes
    arp_lookup return a resolved entry with the given device and hardware
    address, leaves the lookup of every other address as it was, and keeps the
    cache well formed (one entry per address, queues only on waiting entries). *)
Theorem arp_insert_lookup (c : arpcache) (nd : devid) (ipaddr : Z) (hw : list Z)
    (H : cache_inv c) (Hno : arp_lookup c ETH_P_IP ipaddr = None) (Hhw : hwaddr_ok hw)
    (Hfree : exists i e, arp_cache c !! i = Some e /\ ae_state e = ARP_FREE) :
  exists c' i ae, arp_insert c nd ETH_P_IP ipaddr hw = (0, c') /\ cache_inv c' /\
    arp_lookup c' ETH_P_IP ipaddr = Some i /\ cached c' ETH_P_IP ipaddr i ae /\
    ae_state ae = ARP_RESOLVED /\ ae_dev ae = Some nd /\ ae_hwaddr ae = hw /\
    ae_ttl ae = ARP_TIMEOUT /\
    forall ip' j ae', ip' <> ipaddr ->
      cached c' ETH_P_IP ip' j ae' <-> cached c ETH_P_IP ip' j ae'.
Proof.
  pose proof (arp_insert_inv c nd ipaddr hw H Hno Hhw) as Hinv. unfold arp_insert in *.
  destruct (arp_alloc c) as [[i|] c'] eqn:E; cbn [snd] in *.
  - destruct (arp_alloc_fill_inv c c' i (fun e => set_ae_ipaddr (set_ae_pro e ETH_P_IP) ipaddr) ipaddr H E Hno)
      as (_ & Hi & Hf & Hc').
    { intros e [H1 H2 H3 H4] _ _. split_and!; [by split|done|done]. }
    assert (Hlt : (i < length (arp_cache c))%nat) by (rewrite (ci_len c H); done).
    eexists _, i, _. split_and!; [done|done| | | | | | |].
    + eapply arp_lookup_cached; [done|].
      split; [apply list_lookup_insert_eq; rewrite Hc', length_insert; done|by split_and!].
    + split; [apply list_lookup_insert_eq; rewrite Hc', length_insert; done|by split_and!].
    + done.
    + done.
    + done.
    + done.
    + intros ip' j ae' Hne. unfold cached. cbn. rewrite Hc', list_insert_insert_eq.
      destruct (decide (j = i)) as [->|Hj].
      * rewrite list_lookup_insert_eq by done. rewrite (total_lookup_some _ _ Hlt).
        split; intros ([= <-] & Hs & Hp & Hip); [by cbn in Hip|congruence].
      * by rewrite list_lookup_insert_ne.
  - destruct (arp_alloc_None c c' H E) as (_ & _ & Hall).
    destruct Hfree as (i & e & Hi & He). by eapply (Forall_lookup_1 _ _ _ _ Hall) in Hi.
Qed.

Lemma arp_insert_lookup_witness :
  exists c' i ae, arp_insert sample_cache 1%nat ETH_P_IP 0x0300000a [9; 9; 9; 9; 9; 9] = (0, c') /\
    arp_lookup c' ETH_P_IP 0x0300000a = Some i /\ arp_cache c' !! i = Some ae /\
    ae_hwaddr ae = [9; 9; 9; 9; 9; 9].
Proof.
  destruct (arp_insert_lookup sample_cache 1%nat 0x0300000a [9; 9; 9; 9; 9; 9] sample_cache_inv)
    as (c' & i & ae & E & _ & Hl & (Hc & _) & _ & _ & Hh & _).
  - vm_compute. reflexivity.
  - split; [repeat constructor; unfold is_u8; lia|done].
  - exists 1%nat. eexists. split; vm_compute; reflexivity.
  - by exists c', i, ae.
Defined.

(** Arp_lookup_resolv, which compares the protocol of the entry with the
    state ARP_RESOLVED, finds nothing in any well-formed cache, whatever is
    resolved there. *)
Lemma arp_lookup_resolv_never (c : arpcache) (pro ipaddr : Z) (H : cache_inv c) :
  arp_lookup_resolv c pro ipaddr = None.
Proof.
  unfold arp_lookup_resolv. destruct (arp_lookup c pro ipaddr) as [i|] eqn:E; [|done].
  destruct (arp_lookup_Some _ _ _ _ E) as (ae & Hl & Hs & _).
  rewrite (list_lookup_total_correct _ _ _ Hl).
  pose proof (Forall_lookup_1 _ _ _ _ (ci_entries c H) Hl) as He.
  by rewrite (ei_pro _ He Hs).
Qed.

Lemma arp_lookup_resolv_never_witness :
  arp_lookup sample_cache ETH_P_IP 0x0200000a = Some 0%nat /\
  ae_state (arp_cache sample_cache !!! 0%nat) = ARP_RESOLVED /\
  arp_lookup_resolv sample_cache ETH_P_IP 0x0200000a = None.
Proof.
  split_and!; [reflexivity|reflexivity|].
  apply (arp_lookup_resolv_never sample_cache ETH_P_IP 0x0200000a sample_cache_inv).
Defined.
