(* ===== verification/Sock.v ===== *)
(** * Socks and sockets as data: include/sock.h, include/socket.h,
    socket/sock.c (reference counts and hash chains), the tables of
    socket/raw_sock.c and udp/udp_sock.c, the data of include/tcp.h,
    include/tcp_hash.h and include/tcp_timer.h

    Socks ([struct sock], the protocol's object) and sockets ([struct socket],
    the user's object) are heap objects shared by reference.  A TCP sock is a
    [struct tcp_sock], which starts with its [struct sock]: the two parts are kept
    under the same address in [socks] and [tsks].  The operations here touch no
    packet; those that do are in the files Udp, Raw and the Tcp files. *)

From stdpp Require Import prelude list gmap.
From Stdlib Require Import ZArith Lia.
From S2P Require Import Prelude Structs Route Pkb Wait Cbuf.

(** ** The data *)

(** Addresses of socks and of sockets. *)
Definition skid : Type := nat.
Definition soid : Type := nat.

Record sock_addr := mk_sock_addr {
  src_addr : Z; dst_addr : Z; src_port : Z; dst_port : Z   (* ports in net order *)
}.

(** The operation tables [raw_ops], [udp_ops] and [tcp_ops]. *)
Inductive sock_ops := raw_ops | udp_ops | tcp_ops.
#[export] Instance sock_ops_eq_dec : EqDecision sock_ops.
Proof. solve_decision. Defined.

Record sock := mk_sock {
  protocol : Z;
  sk_addr : sock_addr;
  sk_socket : option soid;       (* field [sock] *)
  sk_ops : sock_ops;
  sk_dst : option rtentry;
  recv_queue : list pid;
  recv_wait : option soid;       (* &sock->sleep of that socket, or NULL *)
  sk_hash : Z;
  hashed : bool;                 (* hash_list.pprev is not NULL *)
  sk_refcnt : Z
}.

Definition sk_saddr (k : sock) : Z := src_addr (sk_addr k).
Definition sk_daddr (k : sock) : Z := dst_addr (sk_addr k).
Definition sk_sport (k : sock) : Z := src_port (sk_addr k).
Definition sk_dport (k : sock) : Z := dst_port (sk_addr k).

Definition set_protocol (k : sock) v := mk_sock v (sk_addr k) (sk_socket k) (sk_ops k) (sk_dst k) (recv_queue k) (recv_wait k) (sk_hash k) (hashed k) (sk_refcnt k).
Definition set_sk_addr (k : sock) v := mk_sock (protocol k) v (sk_socket k) (sk_ops k) (sk_dst k) (recv_queue k) (recv_wait k) (sk_hash k) (hashed k) (sk_refcnt k).
Definition set_sk_socket (k : sock) v := mk_sock (protocol k) (sk_addr k) v (sk_ops k) (sk_dst k) (recv_queue k) (recv_wait k) (sk_hash k) (hashed k) (sk_refcnt k).
Definition set_sk_dst (k : sock) v := mk_sock (protocol k) (sk_addr k) (sk_socket k) (sk_ops k) v (recv_queue k) (recv_wait k) (sk_hash k) (hashed k) (sk_refcnt k).
Definition set_recv_queue (k : sock) v := mk_sock (protocol k) (sk_addr k) (sk_socket k) (sk_ops k) (sk_dst k) v (recv_wait k) (sk_hash k) (hashed k) (sk_refcnt k).
Definition set_recv_wait (k : sock) v := mk_sock (protocol k) (sk_addr k) (sk_socket k) (sk_ops k) (sk_dst k) (recv_queue k) v (sk_hash k) (hashed k) (sk_refcnt k).
Definition set_sk_hash (k : sock) v := mk_sock (protocol k) (sk_addr k) (sk_socket k) (sk_ops k) (sk_dst k) (recv_queue k) (recv_wait k) v (hashed k) (sk_refcnt k).
Definition set_hashed (k : sock) v := mk_sock (protocol k) (sk_addr k) (sk_socket k) (sk_ops k) (sk_dst k) (recv_queue k) (recv_wait k) (sk_hash k) v (sk_refcnt k).
Definition set_sk_refcnt (k : sock) v := mk_sock (protocol k) (sk_addr k) (sk_socket k) (sk_ops k) (sk_dst k) (recv_queue k) (recv_wait k) (sk_hash k) (hashed k) v.
Definition set_sk_saddr (k : sock) v := set_sk_addr k (mk_sock_addr v (sk_daddr k) (sk_sport k) (sk_dport k)).
Definition set_sk_daddr (k : sock) v := set_sk_addr k (mk_sock_addr (sk_saddr k) v (sk_sport k) (sk_dport k)).
Definition set_sk_sport (k : sock) v := set_sk_addr k (mk_sock_addr (sk_saddr k) (sk_daddr k) v (sk_dport k)).
Definition set_sk_dport (k : sock) v := set_sk_addr k (mk_sock_addr (sk_saddr k) (sk_daddr k) (sk_sport k) v).

(** enum socket_state, sock_type, socket_family *)
Definition SS_UNCONNECTED : Z := 1.
Definition SOCK_STREAM : Z := 1.
Definition SOCK_DGRAM : Z := 2.
Definition SOCK_RAW : Z := 3.
Definition SOCK_MAX : Z := 4.
Definition AF_INET : Z := 1.

Record socket := mk_socket {
  so_state : Z; so_family : Z; so_type : Z;
  so_sleep : tapip_wait;        (* field [sleep] *)
  so_ops : bool;                (* ops is &inet_ops, or NULL *)
  so_sk : option skid;
  so_refcnt : Z;
  so_rx_cb : option nat         (* the callback, NULL when not set *)
}.

Definition set_so_sleep (k : socket) v := mk_socket (so_state k) (so_family k) (so_type k) v (so_ops k) (so_sk k) (so_refcnt k) (so_rx_cb k).
Definition set_so_ops (k : socket) v := mk_socket (so_state k) (so_family k) (so_type k) (so_sleep k) v (so_sk k) (so_refcnt k) (so_rx_cb k).
Definition set_so_sk (k : socket) v := mk_socket (so_state k) (so_family k) (so_type k) (so_sleep k) (so_ops k) v (so_refcnt k) (so_rx_cb k).
Definition set_so_refcnt (k : socket) v := mk_socket (so_state k) (so_family k) (so_type k) (so_sleep k) (so_ops k) (so_sk k) v (so_rx_cb k).
Definition set_so_rx_cb (k : socket) v := mk_socket (so_state k) (so_family k) (so_type k) (so_sleep k) (so_ops k) (so_sk k) (so_refcnt k) v.

(** struct hash_slot and struct hash_table of udp/udp_sock.c *)
Record hash_slot := mk_slot { slot_head : list skid; slot_used : Z }.
#[export] Instance hash_slot_inhabited : Inhabited hash_slot := populate (mk_slot [] 0).

Record hash_table := mk_table {
  slot : list hash_slot;
  best_slot : Z;                (* index of best hash slot *)
  best_update : Z               (* when down to zero, update best field *)
}.

(** *** TCP *)

(** enum tcp_state *)
Inductive tcp_state :=
  | TCP_CLOSED | TCP_LISTEN | TCP_SYN_RECV | TCP_SYN_SENT | TCP_ESTABLISHED | TCP_CLOSE_WAIT
  | TCP_LAST_ACK | TCP_FIN_WAIT1 | TCP_FIN_WAIT2 | TCP_CLOSING | TCP_TIME_WAIT.
#[export] Instance tcp_state_eq_dec : EqDecision tcp_state.
Proof. solve_decision. Defined.

(** The pointer [parent]; TCP_DEAD_PARENT is an address that is never followed. *)
Inductive tcp_parent := NoParent | DeadParent | Parent (tsk : skid).

(** The node [list] of a tcp_sock: linked to itself, or in a queue of another. *)
Inductive queue_node := Unlinked | InListenQueue (tsk : skid) | InAcceptQueue (tsk : skid).

(** struct tcp_reass_head, laid over the data of the packet [trh_pkb]; the text is
    at the offset [trh_data] of that packet. *)
Record tcp_reass_head := mk_trh { trh_pkb : pid; trh_data : Z; trh_seq : Z; trh_len : Z }.

(** struct tcp_sock without its [struct sock]. *)
Record tcp_sock := mk_tsk {
  bhashed : bool;                (* bhash_list.pprev is not NULL *)
  bhash : Z;                     (* bind hash value *)
  accept_backlog : Z;            (* current entries of accept queue *)
  backlog : Z;                   (* size of accept queue *)
  listen_queue : list skid;      (* waiting for second SYN+ACK of three-way handshake *)
  accept_queue : list skid;      (* waiting for third ACK of three-way handshake *)
  list_node : queue_node;        (* field [list] *)
  tw_next : option skid;         (* timewait.next *)
  tw_timeout : Z;                (* timewait.timeout *)
  wait_accept : option soid;     (* &sock->sleep of that socket, or NULL *)
  wait_connect : option soid;
  parent : tcp_parent;
  flags : Z;
  rcv_buf : option cbuf;
  rcv_reass : list tcp_reass_head;
  snd_una : Z; snd_nxt : Z; snd_wnd : Z; snd_up : Z; snd_wl1 : Z; snd_wl2 : Z;
  iss : Z;
  rcv_nxt : Z; rcv_wnd : Z; rcv_up : Z; irs : Z;
  state : tcp_state
}.

Definition set_bhashed (t : tcp_sock) v := mk_tsk v (bhash t) (accept_backlog t) (backlog t) (listen_queue t) (accept_queue t) (list_node t) (tw_next t) (tw_timeout t) (wait_accept t) (wait_connect t) (parent t) (flags t) (rcv_buf t) (rcv_reass t) (snd_una t) (snd_nxt t) (snd_wnd t) (snd_up t) (snd_wl1 t) (snd_wl2 t) (iss t) (rcv_nxt t) (rcv_wnd t) (rcv_up t) (irs t) (state t).
Definition set_bhash (t : tcp_sock) v := mk_tsk (bhashed t) v (accept_backlog t) (backlog t) (listen_queue t) (accept_queue t) (list_node t) (tw_next t) (tw_timeout t) (wait_accept t) (wait_connect t) (parent t) (flags t) (rcv_buf t) (rcv_reass t) (snd_una t) (snd_nxt t) (snd_wnd t) (snd_up t) (snd_wl1 t) (snd_wl2 t) (iss t) (rcv_nxt t) (rcv_wnd t) (rcv_up t) (irs t) (state t).
Definition set_accept_backlog (t : tcp_sock) v := mk_tsk (bhashed t) (bhash t) v (backlog t) (listen_queue t) (accept_queue t) (list_node t) (tw_next t) (tw_timeout t) (wait_accept t) (wait_connect t) (parent t) (flags t) (rcv_buf t) (rcv_reass t) (snd_una t) (snd_nxt t) (snd_wnd t) (snd_up t) (snd_wl1 t) (snd_wl2 t) (iss t) (rcv_nxt t) (rcv_wnd t) (rcv_up t) (irs t) (state t).
Definition set_backlog (t : tcp_sock) v := mk_tsk (bhashed t) (bhash t) (accept_backlog t) v (listen_queue t) (accept_queue t) (list_node t) (tw_next t) (tw_timeout t) (wait_accept t) (wait_connect t) (parent t) (flags t) (rcv_buf t) (rcv_reass t) (snd_una t) (snd_nxt t) (snd_wnd t) (snd_up t) (snd_wl1 t) (snd_wl2 t) (iss t) (rcv_nxt t) (rcv_wnd t) (rcv_up t) (irs t) (state t).
Definition set_listen_queue (t : tcp_sock) v := mk_tsk (bhashed t) (bhash t) (accept_backlog t) (backlog t) v (accept_queue t) (list_node t) (tw_next t) (tw_timeout t) (wait_accept t) (wait_connect t) (parent t) (flags t) (rcv_buf t) (rcv_reass t) (snd_una t) (snd_nxt t) (snd_wnd t) (snd_up t) (snd_wl1 t) (snd_wl2 t) (iss t) (rcv_nxt t) (rcv_wnd t) (rcv_up t) (irs t) (state t).
Definition set_accept_queue (t : tcp_sock) v := mk_tsk (bhashed t) (bhash t) (accept_backlog t) (backlog t) (listen_queue t) v (list_node t) (tw_next t) (tw_timeout t) (wait_accept t) (wait_connect t) (parent t) (flags t) (rcv_buf t) (rcv_reass t) (snd_una t) (snd_nxt t) (snd_wnd t) (snd_up t) (snd_wl1 t) (snd_wl2 t) (iss t) (rcv_nxt t) (rcv_wnd t) (rcv_up t) (irs t) (state t).
Definition set_list_node (t : tcp_sock) v := mk_tsk (bhashed t) (bhash t) (accept_backlog t) (backlog t) (listen_queue t) (accept_queue t) v (tw_next t) (tw_timeout t) (wait_accept t) (wait_connect t) (parent t) (flags t) (rcv_buf t) (rcv_reass t) (snd_una t) (snd_nxt t) (snd_wnd t) (snd_up t) (snd_wl1 t) (snd_wl2 t) (iss t) (rcv_nxt t) (rcv_wnd t) (rcv_up t) (irs t) (state t).
Definition set_tw_next (t : tcp_sock) v := mk_tsk (bhashed t) (bhash t) (accept_backlog t) (backlog t) (listen_queue t) (accept_queue t) (list_node t) v (tw_timeout t) (wait_accept t) (wait_connect t) (parent t) (flags t) (rcv_buf t) (rcv_reass t) (snd_una t) (snd_nxt t) (snd_wnd t) (snd_up t) (snd_wl1 t) (snd_wl2 t) (iss t) (rcv_nxt t) (rcv_wnd t) (rcv_up t) (irs t) (state t).
Definition set_tw_timeout (t : tcp_sock) v := mk_tsk (bhashed t) (bhash t) (accept_backlog t) (backlog t) (listen_queue t) (accept_queue t) (list_node t) (tw_next t) v (wait_accept t) (wait_connect t) (parent t) (flags t) (rcv_buf t) (rcv_reass t) (snd_una t) (snd_nxt t) (snd_wnd t) (snd_up t) (snd_wl1 t) (snd_wl2 t) (iss t) (rcv_nxt t) (rcv_wnd t) (rcv_up t) (irs t) (state t).
Definition set_wait_accept (t : tcp_sock) v := mk_tsk (bhashed t) (bhash t) (accept_backlog t) (backlog t) (listen_queue t) (accept_queue t) (list_node t) (tw_next t) (tw_timeout t) v (wait_connect t) (parent t) (flags t) (rcv_buf t) (rcv_reass t) (snd_una t) (snd_nxt t) (snd_wnd t) (snd_up t) (snd_wl1 t) (snd_wl2 t) (iss t) (rcv_nxt t) (rcv_wnd t) (rcv_up t) (irs t) (state t).
Definition set_wait_connect (t : tcp_sock) v := mk_tsk (bhashed t) (bhash t) (accept_backlog t) (backlog t) (listen_queue t) (accept_queue t) (list_node t) (tw_next t) (tw_timeout t) (wait_accept t) v (parent t) (flags t) (rcv_buf t) (rcv_reass t) (snd_una t) (snd_nxt t) (snd_wnd t) (snd_up t) (snd_wl1 t) (snd_wl2 t) (iss t) (rcv_nxt t) (rcv_wnd t) (rcv_up t) (irs t) (state t).
Definition set_parent (t : tcp_sock) v := mk_tsk (bhashed t) (bhash t) (accept_backlog t) (backlog t) (listen_queue t) (accept_queue t) (list_node t) (tw_next t) (tw_timeout t) (wait_accept t) (wait_connect t) v (flags t) (rcv_buf t) (rcv_reass t) (snd_una t) (snd_nxt t) (snd_wnd t) (snd_up t) (snd_wl1 t) (snd_wl2 t) (iss t) (rcv_nxt t) (rcv_wnd t) (rcv_up t) (irs t) (state t).
Definition set_flags (t : tcp_sock) v := mk_tsk (bhashed t) (bhash t) (accept_backlog t) (backlog t) (listen_queue t) (accept_queue t) (list_node t) (tw_next t) (tw_timeout t) (wait_accept t) (wait_connect t) (parent t) v (rcv_buf t) (rcv_reass t) (snd_una t) (snd_nxt t) (snd_wnd t) (snd_up t) (snd_wl1 t) (snd_wl2 t) (iss t) (rcv_nxt t) (rcv_wnd t) (rcv_up t) (irs t) (state t).
Definition set_rcv_buf (t : tcp_sock) v := mk_tsk (bhashed t) (bhash t) (accept_backlog t) (backlog t) (listen_queue t) (accept_queue t) (list_node t) (tw_next t) (tw_timeout t) (wait_accept t) (wait_connect t) (parent t) (flags t) v (rcv_reass t) (snd_una t) (snd_nxt t) (snd_wnd t) (snd_up t) (snd_wl1 t) (snd_wl2 t) (iss t) (rcv_nxt t) (rcv_wnd t) (rcv_up t) (irs t) (state t).
Definition set_rcv_reass (t : tcp_sock) v := mk_tsk (bhashed t) (bhash t) (accept_backlog t) (backlog t) (listen_queue t) (accept_queue t) (list_node t) (tw_next t) (tw_timeout t) (wait_accept t) (wait_connect t) (parent t) (flags t) (rcv_buf t) v (snd_una t) (snd_nxt t) (snd_wnd t) (snd_up t) (snd_wl1 t) (snd_wl2 t) (iss t) (rcv_nxt t) (rcv_wnd t) (rcv_up t) (irs t) (state t).
Definition set_snd_una (t : tcp_sock) v := mk_tsk (bhashed t) (bhash t) (accept_backlog t) (backlog t) (listen_queue t) (accept_queue t) (list_node t) (tw_next t) (tw_timeout t) (wait_accept t) (wait_connect t) (parent t) (flags t) (rcv_buf t) (rcv_reass t) v (snd_nxt t) (snd_wnd t) (snd_up t) (snd_wl1 t) (snd_wl2 t) (iss t) (rcv_nxt t) (rcv_wnd t) (rcv_up t) (irs t) (state t).
Definition set_snd_nxt (t : tcp_sock) v := mk_tsk (bhashed t) (bhash t) (accept_backlog t) (backlog t) (listen_queue t) (accept_queue t) (list_node t) (tw_next t) (tw_timeout t) (wait_accept t) (wait_connect t) (parent t) (flags t) (rcv_buf t) (rcv_reass t) (snd_una t) v (snd_wnd t) (snd_up t) (snd_wl1 t) (snd_wl2 t) (iss t) (rcv_nxt t) (rcv_wnd t) (rcv_up t) (irs t) (state t).
Definition set_snd_wnd (t : tcp_sock) v := mk_tsk (bhashed t) (bhash t) (accept_backlog t) (backlog t) (listen_queue t) (accept_queue t) (list_node t) (tw_next t) (tw_timeout t) (wait_accept t) (wait_connect t) (parent t) (flags t) (rcv_buf t) (rcv_reass t) (snd_una t) (snd_nxt t) v (snd_up t) (snd_wl1 t) (snd_wl2 t) (iss t) (rcv_nxt t) (rcv_wnd t) (rcv_up t) (irs t) (state t).
Definition set_snd_wl1 (t : tcp_sock) v := mk_tsk (bhashed t) (bhash t) (accept_backlog t) (backlog t) (listen_queue t) (accept_queue t) (list_node t) (tw_next t) (tw_timeout t) (wait_accept t) (wait_connect t) (parent t) (flags t) (rcv_buf t) (rcv_reass t) (snd_una t) (snd_nxt t) (snd_wnd t) (snd_up t) v (snd_wl2 t) (iss t) (rcv_nxt t) (rcv_wnd t) (rcv_up t) (irs t) (state t).
Definition set_snd_wl2 (t : tcp_sock) v := mk_tsk (bhashed t) (bhash t) (accept_backlog t) (backlog t) (listen_queue t) (accept_queue t) (list_node t) (tw_next t) (tw_timeout t) (wait_accept t) (wait_connect t) (parent t) (flags t) (rcv_buf t) (rcv_reass t) (snd_una t) (snd_nxt t) (snd_wnd t) (snd_up t) (snd_wl1 t) v (iss t) (rcv_nxt t) (rcv_wnd t) (rcv_up t) (irs t) (state t).
Definition set_iss (t : tcp_sock) v := mk_tsk (bhashed t) (bhash t) (accept_backlog t) (backlog t) (listen_queue t) (accept_queue t) (list_node t) (tw_next t) (tw_timeout t) (wait_accept t) (wait_connect t) (parent t) (flags t) (rcv_buf t) (rcv_reass t) (snd_una t) (snd_nxt t) (snd_wnd t) (snd_up t) (snd_wl1 t) (snd_wl2 t) v (rcv_nxt t) (rcv_wnd t) (rcv_up t) (irs t) (state t).
Definition set_rcv_nxt (t : tcp_sock) v := mk_tsk (bhashed t) (bhash t) (accept_backlog t) (backlog t) (listen_queue t) (accept_queue t) (list_node t) (tw_next t) (tw_timeout t) (wait_accept t) (wait_connect t) (parent t) (flags t) (rcv_buf t) (rcv_reass t) (snd_una t) (snd_nxt t) (snd_wnd t) (snd_up t) (snd_wl1 t) (snd_wl2 t) (iss t) v (rcv_wnd t) (rcv_up t) (irs t) (state t).
Definition set_rcv_wnd (t : tcp_sock) v := mk_tsk (bhashed t) (bhash t) (accept_backlog t) (backlog t) (listen_queue t) (accept_queue t) (list_node t) (tw_next t) (tw_timeout t) (wait_accept t) (wait_connect t) (parent t) (flags t) (rcv_buf t) (rcv_reass t) (snd_una t) (snd_nxt t) (snd_wnd t) (snd_up t) (snd_wl1 t) (snd_wl2 t) (iss t) (rcv_nxt t) v (rcv_up t) (irs t) (state t).
Definition set_irs (t : tcp_sock) v := mk_tsk (bhashed t) (bhash t) (accept_backlog t) (backlog t) (listen_queue t) (accept_queue t) (list_node t) (tw_next t) (tw_timeout t) (wait_accept t) (wait_connect t) (parent t) (flags t) (rcv_buf t) (rcv_reass t) (snd_una t) (snd_nxt t) (snd_wnd t) (snd_up t) (snd_wl1 t) (snd_wl2 t) (iss t) (rcv_nxt t) (rcv_wnd t) (rcv_up t) v (state t).
Definition set_state (t : tcp_sock) v := mk_tsk (bhashed t) (bhash t) (accept_backlog t) (backlog t) (listen_queue t) (accept_queue t) (list_node t) (tw_next t) (tw_timeout t) (wait_accept t) (wait_connect t) (parent t) (flags t) (rcv_buf t) (rcv_reass t) (snd_una t) (snd_nxt t) (snd_wnd t) (snd_up t) (snd_wl1 t) (snd_wl2 t) (iss t) (rcv_nxt t) (rcv_wnd t) (rcv_up t) (irs t) v.

(** The variables of TCP: tcp_table, the static defport and iss, tcp_id, the list
    head [timewait] and the counters of lib/cbuf.c. *)
Record tcpstate := mk_tcpstate {
  tsks : gmap skid tcp_sock;
  etable : list (list skid);     (* establish hash table *)
  ltable : list (list skid);     (* listen hash table *)
  btable : list (list skid);     (* bind hash table *)
  bfree : Z;
  defport : Z;
  tcp_id : Z;
  next_iss : Z;
  timewait : option skid;
  alloc_cbufs : Z;
  free_cbufs : Z
}.

Definition set_tsks v (t : tcpstate) := mk_tcpstate v (etable t) (ltable t) (btable t) (bfree t) (defport t) (tcp_id t) (next_iss t) (timewait t) (alloc_cbufs t) (free_cbufs t).
Definition set_etable v (t : tcpstate) := mk_tcpstate (tsks t) v (ltable t) (btable t) (bfree t) (defport t) (tcp_id t) (next_iss t) (timewait t) (alloc_cbufs t) (free_cbufs t).
Definition set_ltable v (t : tcpstate) := mk_tcpstate (tsks t) (etable t) v (btable t) (bfree t) (defport t) (tcp_id t) (next_iss t) (timewait t) (alloc_cbufs t) (free_cbufs t).
Definition set_btable v (t : tcpstate) := mk_tcpstate (tsks t) (etable t) (ltable t) v (bfree t) (defport t) (tcp_id t) (next_iss t) (timewait t) (alloc_cbufs t) (free_cbufs t).
Definition set_bfree v (t : tcpstate) := mk_tcpstate (tsks t) (etable t) (ltable t) (btable t) v (defport t) (tcp_id t) (next_iss t) (timewait t) (alloc_cbufs t) (free_cbufs t).
Definition set_defport v (t : tcpstate) := mk_tcpstate (tsks t) (etable t) (ltable t) (btable t) (bfree t) v (tcp_id t) (next_iss t) (timewait t) (alloc_cbufs t) (free_cbufs t).
Definition set_tcp_id v (t : tcpstate) := mk_tcpstate (tsks t) (etable t) (ltable t) (btable t) (bfree t) (defport t) v (next_iss t) (timewait t) (alloc_cbufs t) (free_cbufs t).
Definition set_next_iss v (t : tcpstate) := mk_tcpstate (tsks t) (etable t) (ltable t) (btable t) (bfree t) (defport t) (tcp_id t) v (timewait t) (alloc_cbufs t) (free_cbufs t).
Definition set_timewait v (t : tcpstate) := mk_tcpstate (tsks t) (etable t) (ltable t) (btable t) (bfree t) (defport t) (tcp_id t) (next_iss t) v (alloc_cbufs t) (free_cbufs t).
Definition set_alloc_cbufs v (t : tcpstate) := mk_tcpstate (tsks t) (etable t) (ltable t) (btable t) (bfree t) (defport t) (tcp_id t) (next_iss t) (timewait t) v (free_cbufs t).
Definition set_free_cbufs v (t : tcpstate) := mk_tcpstate (tsks t) (etable t) (ltable t) (btable t) (bfree t) (defport t) (tcp_id t) (next_iss t) (timewait t) (alloc_cbufs t) v.

(** The sock layer's global variables. *)
Record sockstate := mk_sockstate {
  socks : gmap skid sock;
  sockets : gmap soid socket;
  next_addr : nat;              (* next address malloc hands out *)
  alloc_socks : Z;
  free_socks : Z;
  raw_hash_table : list (list skid);
  raw_id : Z;
  udp_table : hash_table;
  udp_id : Z;
  tcp_st : tcpstate
}.

Definition set_socks v (s : sockstate) := mk_sockstate v (sockets s) (next_addr s) (alloc_socks s) (free_socks s) (raw_hash_table s) (raw_id s) (udp_table s) (udp_id s) (tcp_st s).
Definition set_sockets v (s : sockstate) := mk_sockstate (socks s) v (next_addr s) (alloc_socks s) (free_socks s) (raw_hash_table s) (raw_id s) (udp_table s) (udp_id s) (tcp_st s).
Definition set_next_addr v (s : sockstate) := mk_sockstate (socks s) (sockets s) v (alloc_socks s) (free_socks s) (raw_hash_table s) (raw_id s) (udp_table s) (udp_id s) (tcp_st s).
Definition set_alloc_socks v (s : sockstate) := mk_sockstate (socks s) (sockets s) (next_addr s) v (free_socks s) (raw_hash_table s) (raw_id s) (udp_table s) (udp_id s) (tcp_st s).
Definition set_free_socks v (s : sockstate) := mk_sockstate (socks s) (sockets s) (next_addr s) (alloc_socks s) v (raw_hash_table s) (raw_id s) (udp_table s) (udp_id s) (tcp_st s).
Definition set_raw_hash_table v (s : sockstate) := mk_sockstate (socks s) (sockets s) (next_addr s) (alloc_socks s) (free_socks s) v (raw_id s) (udp_table s) (udp_id s) (tcp_st s).
Definition set_raw_id v (s : sockstate) := mk_sockstate (socks s) (sockets s) (next_addr s) (alloc_socks s) (free_socks s) (raw_hash_table s) v (udp_table s) (udp_id s) (tcp_st s).
Definition set_udp_table v (s : sockstate) := mk_sockstate (socks s) (sockets s) (next_addr s) (alloc_socks s) (free_socks s) (raw_hash_table s) (raw_id s) v (udp_id s) (tcp_st s).
Definition set_udp_id v (s : sockstate) := mk_sockstate (socks s) (sockets s) (next_addr s) (alloc_socks s) (free_socks s) (raw_hash_table s) (raw_id s) (udp_table s) v (tcp_st s).
Definition set_tcp_st v (s : sockstate) := mk_sockstate (socks s) (sockets s) (next_addr s) (alloc_socks s) (free_socks s) (raw_hash_table s) (raw_id s) (udp_table s) (udp_id s) v.

(** ** Access *)

Definition ld_sk (sk : skid) : comp sockstate sock := fun s =>
  match socks s !! sk with Some k => Ret k s | None => Fault UseAfterFree end.

Definition upd_sk (sk : skid) (f : sock -> sock) : comp sockstate unit :=
  let* k := ld_sk sk in modify (fun s => set_socks (<[sk := f k]> (socks s)) s).

Definition ld_so (so : soid) : comp sockstate socket := fun s =>
  match sockets s !! so with Some v => Ret v s | None => Fault UseAfterFree end.

Definition upd_so (so : soid) (f : socket -> socket) : comp sockstate unit :=
  let* v := ld_so so in modify (fun s => set_sockets (<[so := f v]> (sockets s)) s).

(** wake_up through a pointer to the [sleep] of a socket; [None] is NULL. *)
Definition wake (w : option soid) : comp sockstate unit :=
  let* so := of_opt NullDeref w in
  upd_so so (fun v => set_so_sleep v (fst (wake_up (so_sleep v)))).

(** ** socket/sock.c *)

Definition sock_recv_notify (sk : skid) : comp sockstate unit :=
  let* k := ld_sk sk in
  match recv_queue k, recv_wait k with
  | _ :: _, Some so => wake (Some so)
  | _, _ => ret tt
  end.

Definition get_sock (sk : skid) : comp sockstate unit :=
  upd_sk sk (fun k => set_sk_refcnt k (sk_refcnt k + 1)).

Definition free_sock (sk : skid) : comp sockstate unit :=
  let* k := ld_sk sk in
  if sk_refcnt k - 1 <=? 0 then
    modify (fun s => set_free_socks (free_socks s + 1) (set_socks (delete sk (socks s)) s))
  else upd_sk sk (fun k => set_sk_refcnt k (sk_refcnt k - 1)).

(** hlist_add_head to a chain, given by how it changes the tables. *)
Definition sock_add_hash (sk : skid) (add : sockstate -> sockstate) : comp sockstate unit :=
  get_sock sk;;
  modify add;;
  upd_sk sk (fun k => set_hashed k true).

(** hlist_del unlinks the node from the chain it is in. *)
Definition unlink (sk : skid) (l : list skid) : list skid := filter (fun x => x <> sk) l.

Definition unlink_all (sk : skid) (s : sockstate) : sockstate :=
  let t := udp_table s in
  let c := tcp_st s in
  set_tcp_st (set_etable (unlink sk <$> etable c) (set_ltable (unlink sk <$> ltable c) c))
    (set_udp_table (mk_table ((fun b => mk_slot (unlink sk (slot_head b)) (slot_used b)) <$> slot t)
                     (best_slot t) (best_update t))
      (set_raw_hash_table (unlink sk <$> raw_hash_table s) s)).

Definition sock_del_hash (sk : skid) : comp sockstate unit :=
  let* k := ld_sk sk in
  when (hashed k)
    (modify (unlink_all sk);;
     upd_sk sk (fun k => set_hashed k false);;
     free_sock sk).

(** ** socket/raw_sock.c: the table *)

Definition __raw_hash_func (proto : Z) : Z := Z.land proto IP_P_RAW.

Definition raw_hash (sk : skid) : comp sockstate Z :=
  let* k := ld_sk sk in
  let h := Z.to_nat (__raw_hash_func (protocol k)) in
  sock_add_hash sk (fun s =>
    set_raw_hash_table (<[h := sk :: (raw_hash_table s !!! h)]> (raw_hash_table s)) s);;
  ret 0.

Definition raw_unhash (sk : skid) : comp sockstate unit := sock_del_hash sk.

Definition raw_match (src dst proto : Z) (k : sock) : bool :=
  (protocol k =? proto) && ((sk_saddr k =? 0) || (sk_saddr k =? src))
  && ((sk_daddr k =? 0) || (sk_daddr k =? dst)).

(** The loop over a chain from a node on: the first match and what follows it. *)
Fixpoint __raw_lookup_sock (chain : list skid) (src dst proto : Z)
    : comp sockstate (option (skid * list skid)) :=
  match chain with
  | [] => ret None
  | sk :: r =>
      let* k := ld_sk sk in
      if raw_match src dst proto k then ret (Some (sk, r)) else __raw_lookup_sock r src dst proto
  end.

Definition raw_lookup_sock (src dst proto : Z) : comp sockstate (option (skid * list skid)) :=
  let* t := gets raw_hash_table in
  __raw_lookup_sock (t !!! Z.to_nat (__raw_hash_func proto)) src dst proto.

(** raw_lookup_sock_next searches behind [sk], here the rest of the chain. *)
Definition raw_lookup_sock_next (rest : list skid) (src dst proto : Z)
    : comp sockstate (option (skid * list skid)) :=
  __raw_lookup_sock rest src dst proto.

Definition raw_init (s : sockstate) : sockstate :=
  set_raw_id 0 (set_raw_hash_table (replicate 256 []) s).

(** xzalloc of a sock: all fields zero. *)
Definition new_sock (ops : sock_ops) (hash : Z) : comp sockstate skid :=
  let* a := gets next_addr in
  modify (fun s => set_alloc_socks (alloc_socks s + 1) (set_next_addr (S a)
    (set_socks (<[a := mk_sock 0 (mk_sock_addr 0 0 0 0) None ops None [] None hash false 0]> (socks s)) s)));;
  ret a.

Definition raw_alloc_sock (proto : Z) : comp sockstate (option skid) :=
  if proto =? IP_P_IP then ret None
  else
    let* sk := new_sock raw_ops proto in
    modify (fun s => set_raw_id (u16 (raw_id s + 1)) s);;
    ret (Some sk).

(** ** udp/udp_sock.c: ports *)

Definition UDP_HASH_SIZE : Z := 128.
Definition UDP_HASH_MASK : Z := 127.
Definition UDP_BEST_UPDATE : Z := 10.
Definition UDP_PORT_MIN : Z := 0x8000.
Definition UDP_PORT_MAX : Z := 0xf000.
Definition BEST_PORT_MIN : Z := UDP_PORT_MIN.

Definition get_slot (t : hash_table) (h : Z) : hash_slot := slot t !!! Z.to_nat h.
Definition upd_slot (h : Z) (f : hash_slot -> hash_slot) (s : sockstate) : sockstate :=
  let t := udp_table s in
  set_udp_table (mk_table (<[Z.to_nat h := f (get_slot t h)]> (slot t)) (best_slot t) (best_update t)) s.
Definition set_best_slot (h : Z) (s : sockstate) : sockstate :=
  let t := udp_table s in set_udp_table (mk_table (slot t) h (best_update t)) s.
Definition set_best_update (u : Z) (s : sockstate) : sockstate :=
  let t := udp_table s in set_udp_table (mk_table (slot t) (best_slot t) u) s.
Definition udp_slot (port : Z) : Z := Z.land port UDP_HASH_MASK.

Fixpoint __port_used (port : Z) (chain : list skid) : comp sockstate bool :=
  match chain with
  | [] => ret false
  | sk :: r =>
      let* k := ld_sk sk in
      if sk_sport k =? _htons port then ret true else __port_used port r
  end.

Definition port_used (port : Z) : comp sockstate bool :=
  let* t := gets udp_table in __port_used port (slot_head (get_slot t (udp_slot port))).

(** The search loop of udp_get_best_port: the port steps by the number of slots,
    so at most (UDP_PORT_MAX - UDP_PORT_MIN) / UDP_HASH_SIZE turns are made. *)
Fixpoint best_port_loop (n : nat) (port : Z) (chain : list skid) : comp sockstate Z :=
  match n with
  | O => ret port
  | S m =>
      if port <? UDP_PORT_MAX then
        let* u := __port_used port chain in
        if u then best_port_loop m (u16 (port + UDP_HASH_SIZE)) chain else ret port
      else ret port
  end.

Definition BEST_PORT_TURNS : nat := 225.

Definition udp_get_best_port : comp sockstate Z :=
  let* t := gets udp_table in
  let best := get_slot t (best_slot t) in
  let port := u16 (best_slot t + BEST_PORT_MIN) in
  let* port := if slot_used best =? 0 then ret port
               else best_port_loop BEST_PORT_TURNS port (slot_head best) in
  if negb (slot_used best =? 0) && (UDP_PORT_MAX <=? port) then ret 0
  else
    modify (upd_slot (best_slot t) (fun b => mk_slot (slot_head b) (slot_used b + 1)));;
    ret port.

Definition udp_update_best (hash : Z) : comp sockstate unit :=
  let* t := gets udp_table in
  when (negb (best_slot t =? hash) && (slot_used (get_slot t hash) <? slot_used (get_slot t (best_slot t))))
    (modify (set_best_slot hash)).

(** The loop of udp_get_port_slow over all slots: the least used one. *)
Definition slow_best (t : hash_table) : Z :=
  snd (fold_left (fun '(bu, bs) i =>
         let u := slot_used (get_slot t i) in if u <? bu then (u, i) else (bu, bs))
       (seqZ 0 UDP_HASH_SIZE) (slot_used (get_slot t (best_slot t)), best_slot t)).

(** The port found here is returned as it is, in host order. *)
Definition udp_get_port_slow : comp sockstate Z :=
  let* t := gets udp_table in
  let b := slow_best t in
  if b =? best_slot t then ret 0
  else
    modify (fun s => set_best_update UDP_BEST_UPDATE (set_best_slot b s));;
    udp_get_best_port.

(** The first slot less used than [best]. *)
Fixpoint first_better (l : list hash_slot) (i used : Z) : option Z :=
  match l with
  | [] => None
  | b :: r => if slot_used b <? used then Some i else first_better r (i + 1) used
  end.

Definition udp_get_port : comp sockstate Z :=
  let* t := gets udp_table in
  let best := best_slot t in
  let* port := udp_get_best_port in
  if port =? 0 then udp_get_port_slow
  else
    let* t := gets udp_table in
    modify (set_best_update (best_update t - 1));;
    when (best_update t - 1 <=? 0)
      (modify (set_best_update UDP_BEST_UPDATE);;
       match first_better (slot t) 0 (slot_used (get_slot t best)) with
       | Some i => modify (set_best_slot i)
       | None => ret tt
       end);;
    ret (_htons port).

Definition udp_hash (sk : skid) : comp sockstate Z :=
  let* k := ld_sk sk in
  sock_add_hash sk (upd_slot (sk_hash k) (fun b => mk_slot (sk :: slot_head b) (slot_used b)));;
  ret 0.

Definition udp_set_sport (sk : skid) (nport : Z) : comp sockstate Z :=
  let* nport :=
    if negb (nport =? 0) then
      let* u := port_used (_ntohs nport) in ret (if u then 0 else nport)
    else udp_get_port in
  if nport =? 0 then ret (-1)
  else
    let hash := Z.land (_ntohs nport) UDP_HASH_MASK in
    udp_update_best hash;;
    upd_sk sk (fun k => set_sk_sport (set_sk_hash k hash) nport);;
    udp_hash sk;;
    ret 0.

Definition udp_unset_sport (sk : skid) : comp sockstate unit :=
  let* k := ld_sk sk in
  modify (upd_slot (sk_hash k) (fun b => mk_slot (slot_head b) (slot_used b - 1)));;
  udp_update_best (sk_hash k).

Definition udp_unhash (sk : skid) : comp sockstate unit :=
  udp_unset_sport sk;; sock_del_hash sk.

Fixpoint udp_lookup_chain (chain : list skid) (nport : Z) : comp sockstate (option skid) :=
  match chain with
  | [] => ret None
  | sk :: r =>
      let* k := ld_sk sk in
      if sk_sport k =? nport then get_sock sk;; ret (Some sk) else udp_lookup_chain r nport
  end.

Definition udp_lookup_sock (nport : Z) : comp sockstate (option skid) :=
  let* t := gets udp_table in
  udp_lookup_chain (slot_head (get_slot t (udp_slot (_ntohs nport)))) nport.

Definition udp_init (s : sockstate) : sockstate :=
  set_udp_id 0 (set_udp_table (mk_table (replicate 128 (mk_slot [] 0)) 0 UDP_BEST_UPDATE) s).

Definition udp_alloc_sock (proto : Z) : comp sockstate (option skid) :=
  if negb (proto =? 0) && negb (proto =? IP_P_UDP) then ret None
  else
    let* sk := new_sock udp_ops 0 in
    modify (fun s => set_udp_id (u16 (udp_id s + 1)) s);;
    ret (Some sk).

(** ** Lemmas: access *)

Lemma ld_sk_ok s sk k : socks s !! sk = Some k -> ld_sk sk s = Ret k s.
Proof. unfold ld_sk. by intros ->. Qed.

Lemma upd_sk_ok s sk k f : socks s !! sk = Some k ->
  upd_sk sk f s = Ret tt (set_socks (<[sk := f k]> (socks s)) s).
Proof. intros E. unfold upd_sk. by erewrite bind_ok by (by apply ld_sk_ok). Qed.
