(* ===== verification/TcpTable.v ===== *)
(** * The hash tables and ports of TCP: include/tcp_hash.h, the first half of
    tcp/tcp_sock.c, alloc_new_iss of tcp/tcp_state.c

    Three tables: connections by their four-tuple, listening socks by port, and
    bound socks by port. *)

From stdpp Require Import prelude list gmap.
From Stdlib Require Import ZArith Lia.
From S2P Require Import Prelude Structs Route Pkb Sock.

(** ** The code *)

Definition TCP_EHASH_SIZE : Z := 0x40.
Definition TCP_EHASH_MASK : Z := TCP_EHASH_SIZE - 1.
Definition TCP_LHASH_SIZE : Z := 0x20.
Definition TCP_LHASH_MASK : Z := TCP_LHASH_SIZE - 1.
Definition TCP_BHASH_SIZE : Z := 0x100.
Definition TCP_BHASH_MASK : Z := TCP_BHASH_SIZE - 1.
Definition TCP_BPORT_MIN : Z := 0x8000.
Definition TCP_BPORT_MAX : Z := 0xf000.

Definition TCP_DEFAULT_WINDOW : Z := 4096.
Definition TCP_MAX_BACKLOG : Z := 128.

(** Access to the second part of a tcp_sock; the memory is that of the sock. *)
Definition ld_tsk (sk : skid) : comp sockstate tcp_sock :=
  ld_sk sk;; fun s => match tsks (tcp_st s) !! sk with Some t => Ret t s | None => Fault Undefined end.

Definition upd_tcp (f : tcpstate -> tcpstate) : comp sockstate unit :=
  modify (fun s => set_tcp_st (f (tcp_st s)) s).

Definition upd_tsk (sk : skid) (f : tcp_sock -> tcp_sock) : comp sockstate unit :=
  let* t := ld_tsk sk in upd_tcp (fun c => set_tsks (<[sk := f t]> (tsks c)) c).

Definition get_tcp_sock (sk : skid) : comp sockstate unit := get_sock sk.

Definition tcp_set_state (sk : skid) (st : tcp_state) : comp sockstate unit :=
  upd_tsk sk (fun t => set_state t st).

(** [unsigned int] arithmetic; the exclusive or makes all bits count in the low 8. *)
Definition tcp_ehashfn (src dst src_port dst_port : Z) : Z :=
  let hash := Z.lxor (Z.lxor src src_port) (Z.lxor dst dst_port) in
  let hash := Z.lxor hash (Z.shiftr hash 16) in
  let hash := Z.lxor hash (Z.shiftr hash 8) in
  Z.land hash TCP_EHASH_MASK.

(** The chain of a hash value. *)
Definition bucket (t : list (list skid)) (h : Z) : list skid := t !!! Z.to_nat h.
Definition add_head (h : Z) (sk : skid) (t : list (list skid)) : list (list skid) :=
  <[Z.to_nat h := sk :: bucket t h]> t.

(** *** Lookup *)

Definition est_match (src dst src_port dst_port : Z) (k : sock) : bool :=
  (sk_saddr k =? dst) && (sk_daddr k =? src) && (sk_sport k =? dst_port) && (sk_dport k =? src_port).

(** The first sock of a chain that matches, with a reference. *)
Fixpoint lookup_chain (f : sock -> bool) (chain : list skid) : comp sockstate (option skid) :=
  match chain with
  | [] => ret None
  | sk :: r =>
      let* k := ld_sk sk in
      if f k then get_sock sk;; ret (Some sk) else lookup_chain f r
  end.

(** [src] is the remote machine. *)
Definition tcp_lookup_sock_establish (src dst src_port dst_port : Z) : comp sockstate (option skid) :=
  let* c := gets tcp_st in
  lookup_chain (est_match src dst src_port dst_port)
    (bucket (etable c) (tcp_ehashfn src dst src_port dst_port)).

Definition listen_match (addr nport : Z) (k : sock) : bool :=
  ((sk_saddr k =? 0) || (sk_saddr k =? addr)) && (sk_sport k =? nport).

Definition tcp_lookup_sock_listen (addr nport : Z) : comp sockstate (option skid) :=
  let* c := gets tcp_st in
  lookup_chain (listen_match addr nport) (bucket (ltable c) (Z.land (_ntohs nport) TCP_LHASH_MASK)).

Definition tcp_lookup_sock (src dst src_port dst_port : Z) : comp sockstate (option skid) :=
  let* o := tcp_lookup_sock_establish src dst src_port dst_port in
  match o with
  | Some sk => ret (Some sk)
  | None => tcp_lookup_sock_listen dst dst_port
  end.

(** *** Ports *)

Fixpoint __tcp_port_used (nport : Z) (chain : list skid) : comp sockstate bool :=
  match chain with
  | [] => ret false
  | sk :: r =>
      let* k := ld_sk sk in
      if sk_sport k =? nport then ret true else __tcp_port_used nport r
  end.

Definition tcp_port_used (nport : Z) : comp sockstate bool :=
  let* c := gets tcp_st in
  __tcp_port_used nport (bucket (btable c) (Z.land (_ntohs nport) TCP_BHASH_MASK)).

(** [++defport], back to the first port behind the last. *)
Definition next_port (p : Z) : Z :=
  let p := u16 (p + 1) in if TCP_BPORT_MAX <? p then TCP_BPORT_MIN else p.

(** The loop of tcp_get_port over the static [defport]. *)
Fixpoint get_port_loop (fuel : nat) : comp sockstate unit :=
  let* c := gets tcp_st in
  let* u := tcp_port_used (_htons (defport c)) in
  if u then
    match fuel with
    | O => out_of_fuel
    | S n => upd_tcp (fun c => set_defport (next_port (defport c)) c);; get_port_loop n
    end
  else ret tt.

Definition BPORTS : Z := TCP_BPORT_MAX - TCP_BPORT_MIN + 1.

Definition tcp_get_port : comp sockstate Z :=
  let* c := gets tcp_st in
  if bfree c <=? 0 then ret 0
  else
    get_port_loop (Z.to_nat BPORTS);;
    let* c := gets tcp_st in
    upd_tcp (set_defport (next_port (defport c)));;
    ret (_htons (defport c)).

Definition tcp_bhash (sk : skid) : comp sockstate unit :=
  get_tcp_sock sk;;
  let* t := ld_tsk sk in
  upd_tcp (fun c => set_btable (add_head (bhash t) sk (btable c)) c);;
  upd_tsk sk (fun t => set_bhashed t true).

Definition tcp_set_sport (sk : skid) (nport : Z) : comp sockstate Z :=
  let* nport :=
    if negb (nport =? 0) then let* u := tcp_port_used nport in ret (if u then 0 else nport)
    else tcp_get_port in
  if nport =? 0 then ret (-1)
  else
    upd_tcp (fun c => set_bfree (bfree c - 1) c);;
    upd_sk sk (fun k => set_sk_sport k nport);;
    upd_tsk sk (fun t => set_bhash t (Z.land (_ntohs nport) TCP_BHASH_MASK));;
    tcp_bhash sk;;
    ret 0.

Definition tcp_unset_sport (sk : skid) : comp sockstate unit :=
  upd_tcp (fun c => set_bfree (bfree c + 1) c).

Definition tcp_unbhash (sk : skid) : comp sockstate unit :=
  let* t := ld_tsk sk in
  when (bhashed t)
    (tcp_unset_sport sk;;
     upd_tcp (fun c => set_btable (unlink sk <$> btable c) c);;
     upd_tsk sk (fun t => set_bhashed t false);;
     free_sock sk).

(** *** Hashing *)

Fixpoint tcp_ehash_conflict (chain : list skid) (k : sock) : comp sockstate bool :=
  match chain with
  | [] => ret false
  | sk :: r =>
      let* t := ld_sk sk in
      if (sk_saddr k =? sk_saddr t) && (sk_daddr k =? sk_daddr t) && (sk_sport k =? sk_sport t)
         && (sk_dport k =? sk_dport t)
      then ret true else tcp_ehash_conflict r k
  end.

Definition tcp_hash (sk : skid) : comp sockstate Z :=
  let* t := ld_tsk sk in
  let* k := ld_sk sk in
  if bool_decide (state t = TCP_CLOSED) then ret (-1)
  else if bool_decide (state t = TCP_LISTEN) then
    let h := Z.land (_ntohs (sk_sport k)) TCP_LHASH_MASK in
    upd_sk sk (fun k => set_sk_hash k h);;
    sock_add_hash sk (fun s => set_tcp_st (set_ltable (add_head h sk (ltable (tcp_st s))) (tcp_st s)) s);;
    ret 0
  else
    let h := tcp_ehashfn (sk_saddr k) (sk_daddr k) (sk_sport k) (sk_dport k) in
    let* c := gets tcp_st in
    let* conflict := tcp_ehash_conflict (bucket (etable c) h) k in
    if conflict then ret (-1)
    else
      upd_sk sk (fun k => set_sk_hash k h);;
      sock_add_hash sk (fun s => set_tcp_st (set_etable (add_head h sk (etable (tcp_st s))) (tcp_st s)) s);;
      ret 0.

(** The field is cleared also when sock_del_hash freed the sock. *)
Definition tcp_unhash (sk : skid) : comp sockstate unit :=
  sock_del_hash sk;;
  upd_sk sk (fun k => set_sk_hash k 0).

(** *** Allocation *)

Definition new_tsk : tcp_sock :=
  mk_tsk false 0 0 0 [] [] Unlinked None 0 None None NoParent 0 None []
    0 0 0 0 0 0 0 0 TCP_DEFAULT_WINDOW 0 0 TCP_CLOSED.

Definition tcp_alloc_sock (proto : Z) : comp sockstate (option skid) :=
  if negb (proto =? 0) && negb (proto =? IP_P_TCP) then ret None
  else
    let* sk := new_sock tcp_ops 0 in
    upd_tcp (fun c => set_tcp_id (s32 (tcp_id c + 1)) (set_tsks (<[sk := new_tsk]> (tsks c)) c));;
    ret (Some sk).

Definition FIRST_ISS : Z := 12345678.

Definition alloc_new_iss : comp sockstate Z :=
  let* c := gets tcp_st in
  let i := u32 (next_iss c + 1) in
  let i := if 0xffffffff <=? i then FIRST_ISS else i in
  upd_tcp (set_next_iss i);;
  ret i.

Definition tcp_init (s : sockstate) : sockstate :=
  let c := tcp_st s in
  set_tcp_st (set_tcp_id 0 (set_bfree (TCP_BPORT_MAX - TCP_BPORT_MIN + 1)
    (set_ltable (replicate (Z.to_nat TCP_LHASH_SIZE) [])
      (set_etable (replicate (Z.to_nat TCP_EHASH_SIZE) []) c)))) s.

(** The variables of TCP before tcp_init: the statics. *)
Definition tcp_static : tcpstate :=
  mk_tcpstate ∅ [] [] (replicate (Z.to_nat TCP_BHASH_SIZE) []) 0 TCP_BPORT_MIN 0 FIRST_ISS None 0 0.

(** inet_init: the sock layer at start-up. *)
Definition inet_init (s : sockstate) : sockstate := tcp_init (udp_init (raw_init s)).

Definition sock_start : sockstate :=
  inet_init (mk_sockstate ∅ ∅ 0 0 0 [] 0 (mk_table [] 0 0) 0 tcp_static).

(** ** Dispatch through sk->ops *)

(** [ops->hash], [ops->unhash] and [ops->set_port]; [None] where the table has no
    such operation. *)
Definition ops_hash (o : sock_ops) : option (skid -> comp sockstate Z) :=
  match o with raw_ops => Some raw_hash | udp_ops => Some udp_hash | tcp_ops => Some tcp_hash end.
Definition ops_unhash (o : sock_ops) : option (skid -> comp sockstate unit) :=
  match o with raw_ops => Some raw_unhash | udp_ops => Some udp_unhash | tcp_ops => Some tcp_unhash end.
Definition ops_set_port (o : sock_ops) : option (skid -> Z -> comp sockstate Z) :=
  match o with udp_ops => Some udp_set_sport | raw_ops => None | tcp_ops => Some tcp_set_sport end.

Definition sock_autobind (sk : skid) : comp sockstate Z :=
  let* k := ld_sk sk in
  match ops_set_port (sk_ops k) with
  | Some f => f sk 0
  | None => ret (-1)
  end.

(** ** Lemmas: access *)

Lemma ld_tsk_ok v sk k t : socks v !! sk = Some k -> tsks (tcp_st v) !! sk = Some t -> ld_tsk sk v = Ret t v.
Proof. intros Hk Ht. unfold ld_tsk. erewrite bind_ok by (by apply ld_sk_ok). by rewrite Ht. Qed.

Lemma upd_tsk_ok v sk k t f : socks v !! sk = Some k -> tsks (tcp_st v) !! sk = Some t ->
  upd_tsk sk f v = Ret tt (set_tcp_st (set_tsks (<[sk := f t]> (tsks (tcp_st v))) (tcp_st v)) v).
Proof. intros Hk Ht. unfold upd_tsk. by erewrite bind_ok by (by eapply ld_tsk_ok). Qed.
