(* ===== verification/UdpPorts.v ===== *)
(** * UDP port allocation: correctness of the table of udp/udp_sock.c

    Theorems about the definitions of the file Sock: the sock a port is bound
    to is unique, udp_lookup_sock finds it, and automatic binding picks an unused
    port. *)

From stdpp Require Import prelude list list_numbers gmap.
From Stdlib Require Import ZArith Lia.
From S2P Require Import Prelude Structs Route Pkb Sock TcpTable.

(** ** Specification *)

Definition chain (s : sockstate) (h : Z) : list skid := slot_head (get_slot (udp_table s) h).

Definition sport_of (s : sockstate) (sk : skid) : Z := from_option sk_sport 0 (socks s !! sk).

(** [sk] is bound to the port [nport] (in net order). *)
Definition bound (s : sockstate) (nport : Z) (sk : skid) : Prop :=
  exists h, 0 <= h < 128 /\ sk ∈ chain s h /\ sport_of s sk = nport.

Record ports_inv (s : sockstate) : Prop := {
  pi_len : length (slot (udp_table s)) = 128%nat;
  pi_best : 0 <= best_slot (udp_table s) < 128;
  pi_chain h sk : 0 <= h < 128 -> sk ∈ chain s h ->
    exists k, socks s !! sk = Some k /\ sk_sport k <> 0 /\ is_u16 (sk_sport k) /\
      udp_slot (_ntohs (sk_sport k)) = h;
  pi_unique p sk sk' : bound s p sk -> bound s p sk' -> sk = sk'
}.

(** ** Lemmas *)

Lemma udp_slot_range p : 0 <= udp_slot p < 128.
Proof.
  unfold udp_slot, UDP_HASH_MASK. change 127 with (Z.ones 7). rewrite Z.land_ones by lia.
  apply Z.mod_pos_bound. lia.
Qed.

Lemma udp_slot_mod p : udp_slot p = p mod 128.
Proof. unfold udp_slot, UDP_HASH_MASK. change 127 with (Z.ones 7). by rewrite Z.land_ones. Qed.

(** A socks map in which every member of a chain lives. *)
Definition live_chain (s : sockstate) (l : list skid) : Prop := Forall (fun sk => is_Some (socks s !! sk)) l.

Lemma port_used_ok s port l : live_chain s l ->
  __port_used port l s = Ret (bool_decide (Exists (fun sk => sport_of s sk = _htons port) l)) s.
Proof.
  induction 1 as [|sk l [k Hk] Hl IH]; cbn [__port_used].
  - by rewrite bool_decide_false by (by intros ?%Exists_nil).
  - erewrite bind_ok by (by apply ld_sk_ok).
    assert (Hs : sport_of s sk = sk_sport k) by (unfold sport_of; by rewrite Hk).
    destruct (Z.eqb_spec (sk_sport k) (_htons port)) as [E|E].
    + rewrite bool_decide_true; [done|]. left. congruence.
    + rewrite IH. f_equal. apply bool_decide_ext. rewrite Exists_cons, Hs. tauto.
Qed.

Lemma chain_live s h : ports_inv s -> 0 <= h < 128 -> live_chain s (chain s h).
Proof.
  intros Hi Hh. apply Forall_forall. intros sk Hsk.
  destruct (pi_chain s Hi h sk Hh Hsk) as (k & Hk & _). by exists k.
Qed.

(** A bound port is found in the chain it hashes to. *)
Lemma bound_iff s nport : ports_inv s -> is_u16 nport ->
  Exists (fun sk => sport_of s sk = nport) (chain s (udp_slot (_ntohs nport))) <->
  exists sk, bound s nport sk.
Proof.
  intros Hi Hn. rewrite Exists_exists. split.
  - intros (sk & Hin & Hp). exists sk, (udp_slot (_ntohs nport)). split_and!; [apply udp_slot_range..|done|done].
  - intros (sk & h & Hh & Hin & Hp). exists sk. split; [|done].
    destruct (pi_chain s Hi h sk Hh Hin) as (k & Hk & _ & _ & Hslot).
    unfold sport_of in Hp. rewrite Hk in Hp. cbn in Hp. by rewrite <- Hp, Hslot.
Qed.

Lemma lookup_chain_ok s l nport : live_chain s l ->
  match list_find (fun sk => sport_of s sk = nport) l with
  | Some (_, sk) => exists k, socks s !! sk = Some k /\ udp_lookup_chain l nport s =
      Ret (Some sk) (set_socks (<[sk := set_sk_refcnt k (sk_refcnt k + 1)]> (socks s)) s)
  | None => udp_lookup_chain l nport s = Ret None s
  end.
Proof.
  induction 1 as [|sk l [k Hk] Hl IH]; [done|]. cbn [list_find udp_lookup_chain].
  assert (Hs : sport_of s sk = sk_sport k) by (unfold sport_of; by rewrite Hk).
  erewrite bind_ok by (by apply ld_sk_ok).
  destruct (decide (sport_of s sk = nport)) as [E|E].
  - exists k. split; [done|]. rewrite (proj2 (Z.eqb_eq _ _)) by congruence.
    unfold get_sock. by erewrite bind_ok by (by apply upd_sk_ok).
  - rewrite (proj2 (Z.eqb_neq _ _)) by congruence.
    destruct (list_find (fun sk => sport_of s sk = nport) l) as [[i x]|]; cbn; done.
Qed.

(** udp_lookup_sock finds the sock that is bound, and takes a reference. *)
Lemma lookup_sock_bound s nport sk : ports_inv s -> is_u16 nport -> bound s nport sk ->
  exists k, socks s !! sk = Some k /\ udp_lookup_sock nport s =
    Ret (Some sk) (set_socks (<[sk := set_sk_refcnt k (sk_refcnt k + 1)]> (socks s)) s).
Proof.
  intros Hi Hn Hb. unfold udp_lookup_sock. rewrite bind_gets. fold (chain s (udp_slot (_ntohs nport))).
  pose proof (lookup_chain_ok s (chain s (udp_slot (_ntohs nport))) nport) as H.
  pose proof (udp_slot_range (_ntohs nport)) as Hr.
  specialize (H (chain_live s _ Hi Hr)).
  destruct (list_find _ _) as [[i x]|] eqn:E.
  - apply list_find_Some in E as (Hx & Hp & _).
    assert (x = sk) as ->; [|done].
    apply (pi_unique s Hi nport); [|done]. exists (udp_slot (_ntohs nport)).
    split_and!; [lia|lia|by eapply list_elem_of_lookup_2|done].
  - apply list_find_None in E. exfalso.
    assert (Hex : Exists (fun sk => sport_of s sk = nport) (chain s (udp_slot (_ntohs nport)))).
    { apply bound_iff; [done|done|by exists sk]. }
    apply Exists_exists in Hex as (y & Hy & Hyp). rewrite Forall_forall in E. by apply (E y).
Qed.

Lemma lookup_sock_unbound s nport : ports_inv s -> is_u16 nport -> (forall sk, ~ bound s nport sk) ->
  udp_lookup_sock nport s = Ret None s.
Proof.
  intros Hi Hn Hb. unfold udp_lookup_sock. rewrite bind_gets. fold (chain s (udp_slot (_ntohs nport))).
  pose proof (lookup_chain_ok s (chain s (udp_slot (_ntohs nport))) nport) as H.
  pose proof (udp_slot_range (_ntohs nport)) as Hr.
  specialize (H (chain_live s _ Hi Hr)).
  destruct (list_find _ _) as [[i x]|] eqn:E; [|done].
  apply list_find_Some in E as (Hx & Hp & _). exfalso. apply (Hb x). exists (udp_slot (_ntohs nport)).
  split_and!; [lia|lia|by eapply list_elem_of_lookup_2|done].
Qed.

(** Same chains, same socks: the rest of the table does not matter. *)
Lemma ports_inv_same s s' : ports_inv s ->
  length (slot (udp_table s')) = 128%nat -> 0 <= best_slot (udp_table s') < 128 ->
  (forall h, 0 <= h < 128 -> chain s' h = chain s h) -> socks s' = socks s -> ports_inv s'.
Proof.
  intros [Hl Hb Hc Hu] Hl' Hb' Hch Hs. split; [done|done| |].
  - intros h sk Hh. rewrite Hch, Hs by done. by apply Hc.
  - intros p sk sk' (h & Hh & Hin & Hp) (h' & Hh' & Hin' & Hp').
    apply (Hu p); [exists h|exists h']; rewrite <- Hch by done; unfold sport_of in *; by rewrite <- Hs.
Qed.

Lemma get_slot_upd s h h' f : ports_inv s -> 0 <= h < 128 -> 0 <= h' < 128 ->
  get_slot (udp_table (upd_slot h f s)) h' =
  if decide (h' = h) then f (get_slot (udp_table s) h) else get_slot (udp_table s) h'.
Proof.
  intros Hi Hh Hh'. unfold get_slot, upd_slot. cbn. rewrite list_lookup_total_alt.
  destruct (decide (h' = h)) as [->|Hne].
  - rewrite list_lookup_insert_eq; [done|]. rewrite (pi_len s Hi). lia.
  - rewrite list_lookup_insert_ne by lia. by rewrite <- list_lookup_total_alt.
Qed.

(** The last part of udp_set_sport: give the sock its port and link it. *)
Definition bind_port (sk : skid) (nport : Z) : comp sockstate Z :=
  let hash := Z.land (_ntohs nport) UDP_HASH_MASK in
  udp_update_best hash;;
  upd_sk sk (fun k => set_sk_sport (set_sk_hash k hash) nport);;
  udp_hash sk;;
  ret 0.

Lemma udp_update_best_ok s h : ports_inv s -> 0 <= h < 128 ->
  exists s', udp_update_best h s = Ret tt s' /\ ports_inv s' /\ socks s' = socks s /\
    slot (udp_table s') = slot (udp_table s).
Proof.
  intros Hi Hh. unfold udp_update_best. rewrite bind_gets. unfold when. case_if.
  - eexists. split_and!; [done| |done|done]. eapply ports_inv_same; [exact Hi|apply Hi|cbn; lia|done|done].
  - by exists s.
Qed.

(** Linking a sock with a free port into the chain of the port. *)
Lemma ports_inv_add s s' sk k' nport :
  ports_inv s -> (forall h, 0 <= h < 128 -> sk ∉ chain s h) ->
  is_u16 nport -> nport <> 0 -> (forall x, ~ bound s nport x) ->
  length (slot (udp_table s')) = 128%nat -> 0 <= best_slot (udp_table s') < 128 ->
  socks s' !! sk = Some k' -> sk_sport k' = nport ->
  (forall x, x <> sk -> socks s' !! x = socks s !! x) ->
  (forall h, 0 <= h < 128 ->
     chain s' h = if decide (h = udp_slot (_ntohs nport)) then sk :: chain s h else chain s h) ->
  ports_inv s' /\ bound s' nport sk /\ (forall p x, p <> nport -> bound s' p x <-> bound s p x).
Proof.
  intros Hi Hnew Hn Hnz Hfree Hl Hb Hk' Hp Hso Hch.
  pose proof (udp_slot_range (_ntohs nport)) as Hr.
  assert (Hsk : sport_of s' sk = nport) by (unfold sport_of; by rewrite Hk').
  assert (Hother : forall x, x <> sk -> sport_of s' x = sport_of s x).
  { intros x Hx. unfold sport_of. by rewrite Hso. }
  assert (Hbn : bound s' nport sk).
  { exists (udp_slot (_ntohs nport)). split_and!; [lia|lia| |done].
    rewrite Hch, decide_True by done. set_solver. }
  assert (Hold : forall p x, x <> sk -> bound s' p x <-> bound s p x).
  { intros p x Hx. unfold bound. setoid_rewrite Hother; [|done].
    apply exist_proper. intros h. split; intros (Hh & Hin & Hpx); (split_and!; [lia|lia| |done]).
    - rewrite Hch in Hin by done. case_decide; set_solver.
    - rewrite Hch by done. case_decide; set_solver. }
  assert (Hsk' : forall p, bound s' p sk -> p = nport).
  { intros p (h & _ & _ & Hpx). congruence. }
  split_and!; [|done|].
  - split; [done|done| |].
    + intros h x Hh Hin. destruct (decide (x = sk)) as [->|Hx].
      * rewrite Hch in Hin by done. case_decide as Eh; [|by destruct (Hnew h)].
        exists k'. rewrite Hp. by split_and!.
      * rewrite Hso by done. apply (pi_chain s Hi); [done|].
        rewrite Hch in Hin by done. case_decide; set_solver.
    + intros p x y Hx Hy.
      destruct (decide (x = sk)) as [->|Nx], (decide (y = sk)) as [->|Ny]; [done| | |].
      * apply Hsk' in Hx as ->. apply Hold in Hy; [|done]. by destruct (Hfree y).
      * apply Hsk' in Hy as ->. apply Hold in Hx; [|done]. by destruct (Hfree x).
      * apply (pi_unique s Hi p); by apply Hold.
  - intros p x Hne. destruct (decide (x = sk)) as [->|Nx]; [|by apply Hold].
    split; [by intros ->%Hsk'|]. intros (h & Hh & Hin & _). by destruct (Hnew h).
Qed.

Lemma bind_port_ok s sk k nport :
  ports_inv s -> socks s !! sk = Some k -> (forall h, 0 <= h < 128 -> sk ∉ chain s h) ->
  is_u16 nport -> nport <> 0 -> (forall x, ~ bound s nport x) ->
  exists s', bind_port sk nport s = Ret 0 s' /\ ports_inv s' /\ bound s' nport sk /\
    (forall p x, p <> nport -> bound s' p x <-> bound s p x).
Proof.
  intros Hi Hk Hnew Hn Hnz Hfree. unfold bind_port.
  pose proof (udp_slot_range (_ntohs nport)) as Hr. fold (udp_slot (_ntohs nport)).
  destruct (udp_update_best_ok s (udp_slot (_ntohs nport)) Hi Hr) as (s1 & E1 & Hi1 & Hs1 & Hsl1).
  assert (Hk1 : socks s1 !! sk = Some k) by by rewrite Hs1.
  erewrite bind_ok by exact E1. erewrite bind_ok by (by apply upd_sk_ok).
  unfold udp_hash, sock_add_hash, get_sock. rewrite !bind_assoc.
  erewrite bind_ok by (apply ld_sk_ok, lookup_insert_eq). rewrite !bind_assoc.
  erewrite bind_ok by (apply upd_sk_ok, lookup_insert_eq). rewrite ?bind_assoc, bind_modify, ?bind_assoc.
  erewrite bind_ok by (apply upd_sk_ok, lookup_insert_eq). rewrite bind_ret.
  eexists. split; [done|].
  eapply (ports_inv_add s _ sk _ nport Hi Hnew Hn Hnz Hfree).
  - cbn. rewrite length_insert. apply Hi1.
  - apply Hi1.
  - cbn. apply lookup_insert_eq.
  - done.
  - intros x Hx. cbn. rewrite !lookup_insert_ne by done. by rewrite Hs1.
  - intros h Hh. unfold chain.
    pose proof (get_slot_upd s1 (udp_slot (_ntohs nport)) h
                  (fun b => mk_slot (sk :: slot_head b) (slot_used b)) Hi1 Hr Hh) as Hg.
    unfold get_slot, upd_slot in Hg |- *. cbn in Hg |- *. rewrite Hg, Hsl1.
    case_decide as Eh; [by rewrite Eh|done].
Qed.

(** The search for a free port of the best slot ends within its turns, at a free
    port of the slot or behind the range. *)
Lemma best_port_loop_ok s l : live_chain s l -> forall n port,
  0 <= port < 0xf000 + 128 -> 0xf000 <= port + 128 * Z.of_nat n ->
  exists p, best_port_loop n port l s = Ret p s /\ port <= p < 0xf000 + 128 /\
    p mod 128 = port mod 128 /\
    (0xf000 <= p \/ ~ Exists (fun sk => sport_of s sk = _htons p) l).
Proof.
  intros Hl. induction n as [|n IH]; intros port Hp Hn; cbn [best_port_loop].
  - exists port. split_and!; [done|lia|lia|done|left; lia].
  - unfold UDP_PORT_MAX. destruct (Z.ltb_spec port 0xf000); [|exists port; split_and!; [done|lia|lia|done|left; lia]].
    erewrite bind_ok by (by apply port_used_ok).
    destruct (bool_decide (Exists (fun sk => sport_of s sk = _htons port) l)) eqn:E.
    + unfold UDP_HASH_SIZE. rewrite u16_small by (unfold is_u16; lia).
      destruct (IH (port + 128)) as (p & E' & Hr & Hm & Hd); [lia|lia|].
      exists p. split_and!; [done|lia|lia| |done]. rewrite Hm. apply (Z_mod_plus_full port 1 128).
    + apply bool_decide_eq_false in E. exists port. split_and!; [done|lia|lia|done|by right].
Qed.

Lemma htons_slot p : is_u16 p -> _ntohs (_htons p) = p.
Proof. apply htons_involutive. Qed.

Lemma bound_in_slot s p b x : ports_inv s -> is_u16 p -> p mod 128 = b -> bound s (_htons p) x ->
  Exists (fun sk => sport_of s sk = _htons p) (chain s b).
Proof.
  intros Hi Hp <- Hx. rewrite <- udp_slot_mod, <- (htons_slot p) at 1 by done.
  apply bound_iff; [done|apply htons_range|by exists x].
Qed.

(** udp_get_best_port on a slot whose ports are not checked only when its chain is
    empty: an unused port of the slot, or 0. *)
Lemma get_best_port_ok s :
  ports_inv s ->
  (slot_used (get_slot (udp_table s) (best_slot (udp_table s))) = 0 ->
     chain s (best_slot (udp_table s)) = []) ->
  exists p s', udp_get_best_port s = Ret p s' /\ ports_inv s' /\ socks s' = socks s /\
    (forall h, 0 <= h < 128 -> chain s' h = chain s h) /\
    (p = 0 \/ 0x8000 <= p < 0xf000 /\ forall x, ~ bound s (_htons p) x).
Proof.
  intros Hi Hempty. destruct (pi_best s Hi) as [Hb1 Hb2].
  set (b := best_slot (udp_table s)) in *.
  pose proof (chain_live s b Hi ltac:(lia)) as Hlive.
  assert (Hinc : let s' := upd_slot b (fun b => mk_slot (slot_head b) (slot_used b + 1)) s in
            ports_inv s' /\ socks s' = socks s /\ (forall h, 0 <= h < 128 -> chain s' h = chain s h)).
  { assert (Hch : forall h, 0 <= h < 128 ->
       chain (upd_slot b (fun b => mk_slot (slot_head b) (slot_used b + 1)) s) h = chain s h).
    { intros h Hh. unfold chain. rewrite get_slot_upd by (done || lia). case_decide as E; [by rewrite E|done]. }
    split_and!; [|done|done]. eapply ports_inv_same; [exact Hi| | |done|done]; cbn; [|lia].
    rewrite length_insert. apply Hi. }
  unfold udp_get_best_port. rewrite bind_gets. cbv zeta. fold b.
  assert (Hu : u16 (b + BEST_PORT_MIN) = b + 0x8000)
    by (unfold BEST_PORT_MIN, UDP_PORT_MIN; apply u16_small; unfold is_u16; lia).
  rewrite Hu. destruct (Z.eqb_spec (slot_used (get_slot (udp_table s) b)) 0) as [E0|E0]; cbn [negb andb].
  - rewrite bind_ret, bind_modify. eexists _, _. split; [done|]. destruct Hinc as (H1 & H2 & H3).
    split_and!; [done|done|done|]. right. split; [lia|]. intros x Hx.
    pose proof (bound_in_slot s (b + 0x8000) b x Hi ltac:(unfold is_u16; lia)) as Hex.
    change 0x8000 with (256 * 128) in Hex. rewrite Z_mod_plus_full, Z.mod_small in Hex by lia.
    specialize (Hex eq_refl Hx).
    rewrite Hempty in Hex by done. by apply Exists_nil in Hex.
  - destruct (best_port_loop_ok s _ Hlive BEST_PORT_TURNS (b + 0x8000)) as (p & E & Hr & Hm & Hd);
      [lia|unfold BEST_PORT_TURNS; lia|].
    erewrite bind_ok by exact E. unfold UDP_PORT_MAX. destruct (Z.leb_spec 0xf000 p).
    + exists 0, s. split_and!; [done|done|done|done|by left].
    + rewrite bind_modify. eexists _, _. split; [done|]. destruct Hinc as (H1 & H2 & H3).
      split_and!; [done|done|done|]. right. split; [lia|]. intros x Hx.
      destruct Hd as [?|Hd]; [lia|]. apply Hd.
      apply (bound_in_slot s p b x); [done|unfold is_u16; lia| |done].
      rewrite Hm. change 0x8000 with (256 * 128). rewrite Z_mod_plus_full, Z.mod_small; lia.
Qed.

Lemma first_better_range l i used j : first_better l i used = Some j -> i <= j < i + zlen l.
Proof.
  revert i. induction l as [|b l IH]; intros i; cbn; [done|]. rewrite zlen_cons.
  pose proof (zlen_nonneg l). case_if; [intros [= <-]; lia|]. intros Hf%IH. lia.
Qed.

(** The rest of udp_get_port only moves the best slot. *)
Lemma get_port_ok s p s1 : udp_get_best_port s = Ret p s1 -> p <> 0 -> ports_inv s1 ->
  exists s2, udp_get_port s = Ret (_htons p) s2 /\ ports_inv s2 /\ socks s2 = socks s1 /\
    (forall h, 0 <= h < 128 -> chain s2 h = chain s1 h).
Proof.
  intros E Hp Hi.
  assert (Hsame : forall b u, 0 <= b < 128 ->
            ports_inv (set_udp_table (mk_table (slot (udp_table s1)) b u) s1)).
  { intros b u Hb. eapply ports_inv_same; [exact Hi|apply Hi|done|done|done]. }
  unfold udp_get_port. rewrite bind_gets. erewrite bind_ok by exact E.
  rewrite (proj2 (Z.eqb_neq p 0) Hp), bind_gets. unfold when, bind, modify, ret.
  case_if; [|eexists; split_and!; [done|apply Hsame, Hi|done|done]].
  destruct (first_better _ _ _) as [j|] eqn:Ej; eexists; (split_and!; [done| |done|done]).
  - apply first_better_range in Ej. unfold zlen in Ej. rewrite (pi_len s1 Hi) in Ej. by apply Hsame.
  - apply Hsame, Hi.
Qed.

(** Socks of two sockets, for the witnesses: sock 0 is bound to port 7. *)
Definition two_socks : sockstate :=
  match (udp_alloc_sock 0;; udp_alloc_sock 0;; udp_set_sport 0%nat (_htons 7)) sock_start with
  | Ret _ s => s
  | _ => sock_start
  end.

(** One sock is bound. *)
Lemma single_inv s h0 sk k :
  length (slot (udp_table s)) = 128%nat -> 0 <= best_slot (udp_table s) < 128 ->
  forallb (fun h => bool_decide (chain s h = if decide (h = h0) then [sk] else [])) (seqZ 0 128) = true ->
  socks s !! sk = Some k -> sk_sport k <> 0 -> is_u16 (sk_sport k) -> udp_slot (_ntohs (sk_sport k)) = h0 -> ports_inv s.
Proof.
  intros Hl Hbest E Hk Hp Hu Hs.
  assert (Hch : forall h, 0 <= h < 128 -> chain s h = if decide (h = h0) then [sk] else []).
  { intros h Hh. rewrite forallb_forall in E. specialize (E h). rewrite <- list_elem_of_In, elem_of_seqZ in E.
    apply (bool_decide_eq_true_1 _), E. lia. }
  clear E. split; [done|done| |].
  - intros h x Hh. rewrite Hch by done. case_decide; [|by intros ?%elem_of_nil].
    intros ->%list_elem_of_singleton. subst. exists k. done.
  - intros p x x' (h & Hh & Hin & _) (h' & Hh' & Hin' & _). rewrite Hch in Hin, Hin' by done.
    repeat case_decide; set_solver.
Qed.

Lemma two_socks_inv : ports_inv two_socks.
Proof. eapply (single_inv two_socks 7 0%nat); [by vm_compute|by vm_compute|by vm_compute|vm_compute; reflexivity|by vm_compute..]. Qed.

Lemma two_socks_fresh h : 0 <= h < 128 -> 1%nat ∉ chain two_socks h.
Proof.
  intros Hh.
  assert (E : forallb (fun h => bool_decide (1%nat ∉ chain two_socks h)) (seqZ 0 128) = true) by by vm_compute.
  rewrite forallb_forall in E. specialize (E h). rewrite <- list_elem_of_In, elem_of_seqZ in E.
  apply (bool_decide_eq_true_1 _), E. lia.
Qed.

(** ** Properties *)

(** C29: binding a UDP sock to a given port fails and changes nothing when the port
    is taken; otherwise it succeeds, afterwards exactly this sock is bound to the
    port and udp_lookup_sock returns it (with a reference), and no other binding
    changes: no two socks ever share a port. *)
Theorem udp_bind_unique (s : sockstate) (sk : skid) (k : sock) (nport : Z)
    (Hi : ports_inv s) (Hk : socks s !! sk = Some k)
    (Hnew : forall h, 0 <= h < 128 -> sk ∉ chain s h) (Hn : is_u16 nport) (Hnz : nport <> 0) :
  ((exists x, bound s nport x) -> udp_set_sport sk nport s = Ret (-1) s) /\
  ((forall x, ~ bound s nport x) ->
     exists s', udp_set_sport sk nport s = Ret 0 s' /\ ports_inv s' /\ bound s' nport sk /\
       (forall p x, p <> nport -> bound s' p x <-> bound s p x) /\
       exists s'', udp_lookup_sock nport s' = Ret (Some sk) s'').
Proof.
  assert (Hpu : port_used (_ntohs nport) s =
    Ret (bool_decide (Exists (fun sk => sport_of s sk = nport) (chain s (udp_slot (_ntohs nport))))) s).
  { unfold port_used. rewrite bind_gets, port_used_ok by (apply chain_live; [done|apply udp_slot_range]).
    by rewrite htons_involutive. }
  unfold udp_set_sport. rewrite (proj2 (Z.eqb_neq nport 0) Hnz). cbn [negb].
  rewrite bind_assoc. erewrite bind_ok by exact Hpu. rewrite bind_ret. split.
  - intros Hb. by rewrite bool_decide_true by by apply bound_iff.
  - intros Hb. rewrite bool_decide_false by (rewrite bound_iff by done; intros (x & Hx); by apply (Hb x)).
    rewrite (proj2 (Z.eqb_neq nport 0) Hnz).
    destruct (bind_port_ok s sk k nport) as (s' & E & Hi' & Hb' & Ho); auto.
    exists s'. split_and!; [done|done|done|done|].
    destruct (lookup_sock_bound s' nport sk Hi' Hn Hb') as (k' & _ & E'). eauto.
Qed.

Lemma udp_bind_unique_witness :
  udp_set_sport 1%nat (_htons 7) two_socks = Ret (-1) two_socks.
Proof.
  apply (udp_bind_unique two_socks 1%nat (mk_sock 0 (mk_sock_addr 0 0 0 0) None udp_ops None [] None 0 false 0)
           (_htons 7) two_socks_inv).
  - by vm_compute.
  - apply two_socks_fresh.
  - by vm_compute.
  - by vm_compute.
  - exists 0%nat, 7. split_and!; [lia|lia| |]; vm_compute; [by left|reflexivity].
Defined.

(** Automatic binding, when the best slot has a free port and its use count is
    zero only if its chain is empty, binds the sock to a port of
    [UDP_PORT_MIN, UDP_PORT_MAX) that no sock had. *)
Lemma udp_autobind_unused (s : sockstate) (sk : skid) (k : sock)
    (Hi : ports_inv s) (Hk : socks s !! sk = Some k)
    (Hnew : forall h, 0 <= h < 128 -> sk ∉ chain s h)
    (Hempty : slot_used (get_slot (udp_table s) (best_slot (udp_table s))) = 0 ->
              chain s (best_slot (udp_table s)) = [])
    (Hroom : exists p s', udp_get_best_port s = Ret p s' /\ p <> 0) :
  exists p s', udp_set_sport sk 0 s = Ret 0 s' /\ UDP_PORT_MIN <= p < UDP_PORT_MAX /\
    (forall x, ~ bound s (_htons p) x) /\ ports_inv s' /\ bound s' (_htons p) sk.
Proof.
  destruct Hroom as (p & s1 & E & Hp0).
  destruct (get_best_port_ok s Hi Hempty) as (p' & s1' & E' & Hi1 & Hs1 & Hc1 & [?|[Hr Hfree]]);
    rewrite E in E'; injection E' as <- <-; [done|].
  destruct (get_port_ok s p s1 E Hp0 Hi1) as (s2 & E2 & Hi2 & Hs2 & Hc2).
  unfold udp_set_sport. cbn [Z.eqb negb]. erewrite bind_ok by exact E2.
  assert (Hpn : _htons p <> 0).
  { intros Hz. apply Hp0. rewrite <- (htons_slot p), Hz by (unfold is_u16; lia). reflexivity. }
  rewrite (proj2 (Z.eqb_neq _ 0) Hpn).
  assert (Hb2 : forall q x, bound s2 q x -> bound s q x).
  { intros q x (h & Hh & Hin & Hq). exists h. rewrite Hc2, Hc1 in Hin by done.
    unfold sport_of in *. rewrite Hs2, Hs1 in Hq. done. }
  destruct (bind_port_ok s2 sk k (_htons p)) as (s' & E3 & Hi3 & Hb3 & _); auto.
  - by rewrite Hs2, Hs1.
  - intros h Hh. rewrite Hc2, Hc1 by done. by apply Hnew.
  - apply htons_range.
  - intros x Hx. by apply (Hfree x), Hb2.
  - exists p, s'. unfold UDP_PORT_MIN, UDP_PORT_MAX. split_and!; [done|lia|lia|done|done|done].
Qed.

Lemma udp_autobind_unused_witness :
  exists p s', udp_set_sport 1%nat 0 two_socks = Ret 0 s' /\ UDP_PORT_MIN <= p < UDP_PORT_MAX /\
    bound s' (_htons p) 1%nat.
Proof.
  destruct (udp_autobind_unused two_socks 1%nat
              (mk_sock 0 (mk_sock_addr 0 0 0 0) None udp_ops None [] None 0 false 0) two_socks_inv)
    as (p & s' & E & Hp & _ & _ & Hb).
  - by vm_compute.
  - apply two_socks_fresh.
  - by vm_compute.
  - eexists _, _. split; [vm_compute; reflexivity|by vm_compute].
  - exists p, s'. exact (conj E (conj Hp Hb)).
Defined.

(** Binding a port of the dynamic range by hand does not count the slot as
    used, and automatic binding skips its check on an unused slot: after sock 0 is
    bound to port 0x8000, binding sock 1 automatically gives it the same port, and
    from then on datagrams for the port go to sock 1 only. *)
Lemma udp_autobind_collides :
  exists s s', (udp_alloc_sock 0;; udp_alloc_sock 0;; udp_set_sport 0%nat (_htons UDP_PORT_MIN)) sock_start
      = Ret 0 s /\
    udp_set_sport 1%nat 0 s = Ret 0 s' /\
    bound s' (_htons UDP_PORT_MIN) 0%nat /\ bound s' (_htons UDP_PORT_MIN) 1%nat /\
    exists s'', udp_lookup_sock (_htons UDP_PORT_MIN) s' = Ret (Some 1%nat) s''.
Proof.
  eexists _, _. split; [vm_compute; reflexivity|]. split; [vm_compute; reflexivity|].
  split_and!.
  - exists 0. split_and!; [lia|lia| |]; vm_compute; [by right; left|reflexivity].
  - exists 0. split_and!; [lia|lia| |]; vm_compute; [by left|reflexivity].
  - eexists. vm_compute. reflexivity.
Qed.
