(* ===== verification/TcpPorts.v ===== *)
(** * TCP port allocation: correctness of the bind table of tcp/tcp_sock.c

    Theorems about the definitions of the file TcpTable: a port is bound by at most
    one sock, binding fails exactly when the port is taken or none is left, and the
    search for a free port ends. *)

From stdpp Require Import prelude list list_numbers gmap.
From Stdlib Require Import ZArith Lia.
From S2P Require Import Prelude Structs Route Pkb Sock TcpTable UdpPorts.

(** ** Specification *)

Definition bslot (nport : Z) : Z := Z.land (_ntohs nport) TCP_BHASH_MASK.
Definition bchain (v : sockstate) (h : Z) : list skid := bucket (btable (tcp_st v)) h.
(** The socks in the bind table. *)
Definition bsocks (v : sockstate) : list skid := concat (btable (tcp_st v)).

(** [sk] is bound to the port [nport] (in net order). *)
Definition tcp_bound (v : sockstate) (nport : Z) (sk : skid) : Prop := sk ∈ bsocks v /\ sport_of v sk = nport.

Record tports_inv (v : sockstate) : Prop := {
  tp_len : length (btable (tcp_st v)) = 256%nat;
  tp_live h sk : 0 <= h < 256 -> sk ∈ bchain v h ->
    exists k t, socks v !! sk = Some k /\ tsks (tcp_st v) !! sk = Some t /\ bhashed t = true /\
      sk_sport k <> 0 /\ is_u16 (sk_sport k) /\ bslot (sk_sport k) = h;
  tp_nodup : NoDup (bsocks v);
  tp_unique p sk sk' : tcp_bound v p sk -> tcp_bound v p sk' -> sk = sk';
  tp_free : bfree (tcp_st v) = BPORTS - zlen (bsocks v);
  tp_defport : TCP_BPORT_MIN <= defport (tcp_st v) <= TCP_BPORT_MAX
}.

(** ** Lemmas: the table *)

Lemma bslot_range p : 0 <= bslot p < 256.
Proof.
  unfold bslot. change TCP_BHASH_MASK with (Z.ones 8). rewrite Z.land_ones by lia. apply Z.mod_pos_bound. lia.
Qed.

Lemma bsocks_chain v sk : length (btable (tcp_st v)) = 256%nat ->
  sk ∈ bsocks v <-> exists h, 0 <= h < 256 /\ sk ∈ bchain v h.
Proof.
  intros Hl. unfold bsocks, bchain, bucket. rewrite list_elem_of_In, in_concat. split.
  - intros (l & Hl' & Hin). apply list_elem_of_In, list_elem_of_lookup_1 in Hl' as [i Hi].
    pose proof (lookup_lt_Some _ _ _ Hi). exists (Z.of_nat i). split; [lia|].
    rewrite Nat2Z.id. erewrite list_lookup_total_correct by done. by apply list_elem_of_In.
  - intros (h & Hh & Hin). exists (btable (tcp_st v) !!! Z.to_nat h). split; [|by apply list_elem_of_In].
    apply list_elem_of_In, list_elem_of_lookup_2 with (i := Z.to_nat h), list_lookup_lookup_total_lt. lia.
Qed.

Lemma tcp_bound_slot v p sk : tports_inv v -> tcp_bound v p sk -> sk ∈ bchain v (bslot p).
Proof.
  intros Hi [Hin Hp]. apply bsocks_chain in Hin as (h & Hh & Hin); [|apply Hi].
  destruct (tp_live v Hi h sk Hh Hin) as (k & t & Hk & _ & _ & _ & _ & Hs).
  unfold sport_of in Hp. rewrite Hk in Hp. cbn in Hp. by rewrite <- Hp, Hs.
Qed.

Lemma port_used_chain v nport l : live_chain v l ->
  __tcp_port_used nport l v = Ret (bool_decide (Exists (fun sk => sport_of v sk = nport) l)) v.
Proof.
  induction 1 as [|sk l [k Hk] Hl IH]; cbn [__tcp_port_used].
  - by rewrite bool_decide_false by (by intros ?%Exists_nil).
  - erewrite bind_ok by (by apply ld_sk_ok).
    assert (Hs : sport_of v sk = sk_sport k) by (unfold sport_of; by rewrite Hk).
    destruct (Z.eqb_spec (sk_sport k) nport) as [E|E].
    + rewrite bool_decide_true; [done|]. left. congruence.
    + rewrite IH. f_equal. apply bool_decide_ext. rewrite Exists_cons, Hs. tauto.
Qed.

(** Whether a port is taken, decided over the whole table. *)
Definition port_taken (v : sockstate) (nport : Z) : bool := bool_decide (Exists (fun sk => sport_of v sk = nport) (bsocks v)).

Lemma port_taken_true v nport : port_taken v nport = true <-> exists sk, tcp_bound v nport sk.
Proof. unfold port_taken, tcp_bound. by rewrite bool_decide_eq_true, Exists_exists. Qed.

Lemma tcp_port_used_ok v nport : tports_inv v -> tcp_port_used nport v = Ret (port_taken v nport) v.
Proof.
  intros Hi. unfold tcp_port_used. rewrite bind_gets. fold (bslot nport) (bchain v (bslot nport)).
  pose proof (bslot_range nport) as Hr. rewrite port_used_chain.
  2: { apply Forall_forall. intros sk Hsk. destruct (tp_live v Hi _ sk Hr Hsk) as (k & t & Hk & _). by exists k. }
  f_equal. apply bool_decide_ext. rewrite !Exists_exists. split.
  - intros (sk & Hin & Hp). exists sk. split; [|done]. apply bsocks_chain; [apply Hi|]. by exists (bslot nport).
  - intros (sk & Hin & Hp). exists sk. split; [|done]. by apply tcp_bound_slot.
Qed.

(** ** Lemmas: the search for a free port *)

(** Not all of the ports of the range are taken while [bfree] is positive. *)
Lemma free_port_exists v : tports_inv v -> 0 < bfree (tcp_st v) ->
  exists p, TCP_BPORT_MIN <= p <= TCP_BPORT_MAX /\ port_taken v (_htons p) = false.
Proof.
  intros Hi Hb. set (ports := _htons <$> seqZ TCP_BPORT_MIN BPORTS).
  destruct (decide (Forall (fun q => port_taken v q = true) ports)) as [Hall|Hno].
  - exfalso.
    assert (Hnd : NoDup ports).
    { apply NoDup_fmap_2_strong; [|apply NoDup_seqZ]. intros a b Ha Hb' E.
      apply elem_of_seqZ in Ha, Hb'. unfold BPORTS, TCP_BPORT_MIN, TCP_BPORT_MAX in *.
      apply htons_inj; [unfold is_u16; lia..|done]. }
    assert (Hsub : ports ⊆+ (sport_of v <$> bsocks v)).
    { apply NoDup_submseteq; [done|]. intros q Hq. rewrite Forall_forall in Hall.
      specialize (Hall q Hq). apply port_taken_true in Hall as (sk & Hin & <-). by apply list_elem_of_fmap_2. }
    apply submseteq_length in Hsub. unfold ports in Hsub. rewrite !length_fmap, length_seqZ in Hsub.
    rewrite (tp_free v Hi) in Hb. unfold zlen in Hb. lia.
  - apply not_Forall_Exists, Exists_exists in Hno as (q & Hq & Hf); [|apply _].
    unfold ports in Hq. apply list_elem_of_fmap_1 in Hq as (p & -> & Hp%elem_of_seqZ).
    exists p. split; [unfold BPORTS in Hp; lia|]. by apply not_true_is_false.
Qed.

Definition cycle (d : Z) (j : nat) : Z := TCP_BPORT_MIN + (d - TCP_BPORT_MIN + Z.of_nat j) mod BPORTS.

Lemma cycle_0 d : TCP_BPORT_MIN <= d <= TCP_BPORT_MAX -> cycle d 0 = d.
Proof.
  unfold cycle, BPORTS, TCP_BPORT_MIN, TCP_BPORT_MAX. intros Hd. change (Z.of_nat 0) with 0. rewrite Z.mod_small; lia.
Qed.

Lemma next_port_cycle d j : TCP_BPORT_MIN <= d <= TCP_BPORT_MAX -> cycle (next_port d) j = cycle d (S j).
Proof.
  intros Hd. unfold cycle, next_port, BPORTS, TCP_BPORT_MIN, TCP_BPORT_MAX in *.
  rewrite u16_small by (unfold is_u16; lia). case_if.
  - replace d with 0xf000 by lia. change (0xf000 - 0x8000 + 1) with 28673.
    replace (0xf000 - 0x8000 + Z.of_nat (S j)) with (Z.of_nat j + 1 * 28673) by lia. rewrite Z_mod_plus_full.
    do 2 f_equal; lia.
  - do 2 f_equal. lia.
Qed.

Lemma next_port_range d : TCP_BPORT_MIN <= d <= TCP_BPORT_MAX -> TCP_BPORT_MIN <= next_port d <= TCP_BPORT_MAX.
Proof.
  unfold next_port, TCP_BPORT_MIN, TCP_BPORT_MAX. intros Hd. rewrite u16_small by (unfold is_u16; lia). case_if; lia.
Qed.

(** The state with another [defport]. *)
Definition with_defport (d : Z) (v : sockstate) : sockstate := set_tcp_st (set_defport d (tcp_st v)) v.

Lemma with_defport_inv d v : tports_inv v -> TCP_BPORT_MIN <= d <= TCP_BPORT_MAX -> tports_inv (with_defport d v).
Proof. intros [] Hd. by split. Qed.

Lemma port_taken_defport d v q : port_taken (with_defport d v) q = port_taken v q.
Proof. done. Qed.

Lemma get_port_loop_ok fuel v j :
  tports_inv v -> (j <= fuel)%nat -> port_taken v (_htons (cycle (defport (tcp_st v)) j)) = false ->
  exists d, get_port_loop fuel v = Ret tt (with_defport d v) /\ TCP_BPORT_MIN <= d <= TCP_BPORT_MAX /\
    port_taken v (_htons d) = false.
Proof.
  revert v j. induction fuel as [|n IH]; intros v j Hi Hj Hf; pose proof (tp_defport v Hi) as Hd; cbn [get_port_loop];
    rewrite bind_gets; erewrite bind_ok by (by apply tcp_port_used_ok);
    destruct (port_taken v (_htons (defport (tcp_st v)))) eqn:E;
    try (exists (defport (tcp_st v)); split_and!; [by destruct v as [????????? []]|lia|lia|done]).
  - replace j with 0%nat in Hf by lia. rewrite cycle_0 in Hf by done. congruence.
  - destruct j as [|j]; [rewrite cycle_0 in Hf by done; congruence|].
    set (v1 := with_defport (next_port (defport (tcp_st v))) v).
    destruct (IH v1 j) as (d & E1 & Hr & Hp).
    + apply with_defport_inv; [done|by apply next_port_range].
    + lia.
    + unfold v1 at 1. rewrite port_taken_defport. change (defport (tcp_st v1)) with (next_port (defport (tcp_st v))).
      by rewrite next_port_cycle.
    + exists d. split_and!; [exact E1|lia|lia|done].
Qed.

Lemma cycle_reaches d q : TCP_BPORT_MIN <= d <= TCP_BPORT_MAX -> TCP_BPORT_MIN <= q <= TCP_BPORT_MAX ->
  exists j, (j <= Z.to_nat BPORTS)%nat /\ cycle d j = q.
Proof.
  intros Hd Hq. exists (Z.to_nat ((q - d) mod BPORTS)).
  pose proof (Z.mod_pos_bound (q - d) BPORTS). unfold BPORTS, TCP_BPORT_MIN, TCP_BPORT_MAX, cycle in *.
  split; [lia|]. rewrite Z2Nat.id by lia. rewrite Zplus_mod_idemp_r.
  replace (d - 0x8000 + (q - d)) with (q - 0x8000) by lia. unfold BPORTS, TCP_BPORT_MIN, TCP_BPORT_MAX. rewrite Z.mod_small; lia.
Qed.

(** tcp_get_port ends: with a free port, in net order, or with 0 when [bfree] is
    used up. *)
Lemma tcp_get_port_ok v : tports_inv v ->
  (bfree (tcp_st v) <= 0 /\ tcp_get_port v = Ret 0 v) \/
  (0 < bfree (tcp_st v) /\ exists p d, TCP_BPORT_MIN <= p <= TCP_BPORT_MAX /\ port_taken v (_htons p) = false /\
     TCP_BPORT_MIN <= d <= TCP_BPORT_MAX /\ tcp_get_port v = Ret (_htons p) (with_defport d v)).
Proof.
  intros Hi. unfold tcp_get_port. rewrite bind_gets. destruct (Z.leb_spec (bfree (tcp_st v)) 0) as [Hb|Hb]; [by left|right].
  split; [done|]. destruct (free_port_exists v Hi Hb) as (q & Hq & Hf).
  destruct (cycle_reaches (defport (tcp_st v)) q (tp_defport v Hi) Hq) as (j & Hj & <-).
  destruct (get_port_loop_ok (Z.to_nat BPORTS) v j Hi Hj Hf) as (p & E & Hp & Hfp).
  exists p, (next_port p). split_and!; try lia; try done; try (by apply next_port_range).
  by erewrite bind_ok by exact E.
Qed.

(** ** Lemmas: adding to and removing from the table *)

Lemma concat_add_head h sk (tb : list (list skid)) : 0 <= h -> (Z.to_nat h < length tb)%nat ->
  concat (add_head h sk tb) ≡ₚ sk :: concat tb.
Proof.
  intros Hh Hl. unfold add_head, bucket. set (i := Z.to_nat h) in *.
  assert (E : tb !! i = Some (tb !!! i)) by by apply list_lookup_lookup_total_lt.
  rewrite <- (take_drop_middle tb i (tb !!! i) E) at 3. rewrite insert_take_drop by done.
  rewrite !concat_app. cbn. by rewrite <- Permutation_middle.
Qed.

(** The state in which [sk] is bound to [p]. *)
Definition bound_state (v : sockstate) (sk : skid) (k : sock) (t : tcp_sock) (p : Z) : sockstate :=
  let c := tcp_st v in
  set_socks (<[sk := set_sk_refcnt (set_sk_sport k p) (sk_refcnt k + 1)]> (socks v))
    (set_tcp_st (mk_tcpstate (<[sk := set_bhashed (set_bhash t (bslot p)) true]> (tsks c)) (etable c) (ltable c)
                   (add_head (bslot p) sk (btable c)) (bfree c - 1) (defport c) (tcp_id c) (next_iss c) (timewait c)
                   (alloc_cbufs c) (free_cbufs c)) v).

(** The stores of tcp_set_sport once the port is chosen. *)
Definition do_bind (sk : skid) (p : Z) : comp sockstate Z :=
  upd_tcp (fun c => set_bfree (bfree c - 1) c);;
  upd_sk sk (fun k => set_sk_sport k p);;
  upd_tsk sk (fun t => set_bhash t (Z.land (_ntohs p) TCP_BHASH_MASK));;
  tcp_bhash sk;;
  ret 0.

Lemma do_bind_ok v sk k t p : socks v !! sk = Some k -> tsks (tcp_st v) !! sk = Some t ->
  do_bind sk p v = Ret 0 (bound_state v sk k t p).
Proof.
  intros Hk Ht. unfold do_bind, tcp_bhash, get_tcp_sock, get_sock.
  erewrite bind_ok; [|reflexivity]. erewrite bind_ok by (by apply upd_sk_ok).
  erewrite bind_ok. 2: { eapply upd_tsk_ok; cbn; [by rewrite lookup_insert_eq|done]. }
  erewrite bind_ok.
  2: { erewrite bind_ok. 2: { apply upd_sk_ok. cbn. by rewrite lookup_insert_eq. }
       erewrite bind_ok. 2: { eapply ld_tsk_ok; cbn; by rewrite lookup_insert_eq. }
       erewrite bind_ok; [|reflexivity]. eapply upd_tsk_ok; cbn; by rewrite lookup_insert_eq. }
  cbn. unfold bound_state, ret. cbn. by rewrite !insert_insert_eq.
Qed.

Lemma sport_of_bound v sk k t p q :
  sport_of (bound_state v sk k t p) q = if decide (q = sk) then p else sport_of v q.
Proof.
  unfold sport_of, bound_state. cbn. case_decide as E; [subst; by rewrite lookup_insert_eq|by rewrite lookup_insert_ne].
Qed.

Lemma bsocks_bound v sk k t p : tports_inv v -> bsocks (bound_state v sk k t p) ≡ₚ sk :: bsocks v.
Proof.
  intros Hi. pose proof (bslot_range p). unfold bsocks, bound_state. cbn. apply concat_add_head; [lia|].
  rewrite (tp_len v Hi). lia.
Qed.

Lemma tcp_bound_iff v sk k t p q x : tports_inv v -> sk ∉ bsocks v ->
  tcp_bound (bound_state v sk k t p) q x <-> (x = sk /\ q = p) \/ tcp_bound v q x.
Proof.
  intros Hi Hsk. unfold tcp_bound. rewrite sport_of_bound, bsocks_bound, elem_of_cons by done.
  case_decide as E; [|by intuition congruence]. subst x. intuition congruence.
Qed.

Lemma bchain_bound v sk k t p h x : tports_inv v -> 0 <= h < 256 ->
  x ∈ bchain (bound_state v sk k t p) h -> (x = sk /\ h = bslot p) \/ x ∈ bchain v h.
Proof.
  intros Hi Hh. unfold bchain, bucket, bound_state. cbn. unfold add_head, bucket.
  destruct (decide (h = bslot p)) as [->|Hne].
  - rewrite list_lookup_total_insert_eq by (rewrite (tp_len v Hi); lia). rewrite elem_of_cons. tauto.
  - rewrite list_lookup_total_insert_ne; [tauto|]. pose proof (bslot_range p). lia.
Qed.

Lemma bound_state_inv v sk k t p : tports_inv v -> sk ∉ bsocks v -> p <> 0 -> is_u16 p -> port_taken v p = false ->
  tports_inv (bound_state v sk k t p).
Proof.
  intros Hi Hsk Hp0 Hp Hf. split.
  - cbn. unfold add_head. by rewrite length_insert, (tp_len v Hi).
  - intros h x Hh [[-> ->]|Hx]%(bchain_bound v sk k t p h x Hi Hh).
    + eexists _, _. split; [cbn; by rewrite lookup_insert_eq|]. split; [cbn; by rewrite lookup_insert_eq|]. done.
    + assert (x <> sk) by (intros ->; apply Hsk, bsocks_chain; [apply Hi|by exists h]).
      destruct (tp_live v Hi h x Hh Hx) as (k' & t' & Hk' & Ht' & Hr). exists k', t'.
      split; [cbn; by rewrite lookup_insert_ne|]. split; [cbn; by rewrite lookup_insert_ne|done].
  - rewrite bsocks_bound by done. constructor; [done|apply Hi].
  - assert (Hno : forall x, ~ tcp_bound v p x).
    { intros x Hx. assert (port_taken v p = true) by (apply port_taken_true; by exists x). congruence. }
    intros q x y. rewrite !tcp_bound_iff by done. intros [[-> Hqx]|Hx] [[-> Hqy]|Hy].
    + done.
    + subst. by destruct (Hno y).
    + subst. by destruct (Hno x).
    + by apply (tp_unique v Hi q).
  - unfold zlen. rewrite (Permutation_length (bsocks_bound v sk k t p Hi)). cbn.
    rewrite (tp_free v Hi). unfold zlen. lia.
  - apply Hi.
Qed.

(** ** Properties *)

(** What tcp_set_sport may do: bind the sock to a port nobody has - the one that was
    asked for, or one of the dynamic range - or fail because the port is taken, or
    because no port is left to choose. *)
Inductive bind_outcome (v : sockstate) (sk : skid) (nport : Z) : Z -> sockstate -> Prop :=
  | BindOk p v' :
      (nport <> 0 -> p = nport) ->
      (nport = 0 -> exists q, TCP_BPORT_MIN <= q <= TCP_BPORT_MAX /\ p = _htons q) ->
      (forall x, ~ tcp_bound v p x) -> tcp_bound v' p sk ->
      (forall q x, q <> p -> tcp_bound v' q x <-> tcp_bound v q x) ->
      bind_outcome v sk nport 0 v'
  | BindTaken x : nport <> 0 -> tcp_bound v nport x -> bind_outcome v sk nport (-1) v
  | BindNone : nport = 0 -> bfree (tcp_st v) <= 0 -> bind_outcome v sk nport (-1) v.

(** C15: tcp_set_sport terminates without a fault, binds the sock to a port that no
    other sock has or reports why it cannot, and keeps the bind table consistent: one
    sock per port, each sock in the chain its port hashes to, and [bfree] the number
    of ports of the range minus the number of socks in the table - which is what makes
    the search loop of tcp_get_port end. *)
Theorem tcp_set_sport_ok (v : sockstate) (sk : skid) (k : sock) (t : tcp_sock) (nport : Z)
    (Hi : tports_inv v) (Hk : socks v !! sk = Some k) (Ht : tsks (tcp_st v) !! sk = Some t)
    (Hnew : sk ∉ bsocks v) (Hn : is_u16 nport) :
  exists r v', tcp_set_sport sk nport v = Ret r v' /\ tports_inv v' /\ bind_outcome v sk nport r v'.
Proof.
  assert (Hdo : forall w p, tports_inv w -> socks w = socks v -> tsks (tcp_st w) = tsks (tcp_st v) -> btable (tcp_st w) = btable (tcp_st v) ->
    p <> 0 -> is_u16 p -> port_taken v p = false ->
    do_bind sk p w = Ret 0 (bound_state w sk k t p) /\ tports_inv (bound_state w sk k t p) /\
    (forall x, ~ tcp_bound v p x) /\ tcp_bound (bound_state w sk k t p) p sk /\
    (forall q x, q <> p -> tcp_bound (bound_state w sk k t p) q x <-> tcp_bound v q x)).
  { intros w p Hw E1 E2 E3 Hp0 Hp Hf.
    assert (Hbw : forall q x, tcp_bound w q x <-> tcp_bound v q x).
    { intros q x. unfold tcp_bound, bsocks, sport_of. by rewrite E1, E3. }
    assert (Hnw : sk ∉ bsocks w) by (unfold bsocks; by rewrite E3).
    assert (Hfw : port_taken w p = false).
    { apply not_true_is_false. rewrite port_taken_true. intros (x & Hx%Hbw).
      assert (port_taken v p = true) by (apply port_taken_true; by exists x). congruence. }
    split_and!.
    - apply do_bind_ok; congruence.
    - by apply bound_state_inv.
    - intros x Hx. assert (port_taken v p = true) by (apply port_taken_true; by exists x). congruence.
    - apply tcp_bound_iff; [done|done|]. by left.
    - intros q x Hq. rewrite tcp_bound_iff, Hbw by done. intuition congruence. }
  unfold tcp_set_sport. destruct (Z.eqb_spec nport 0) as [->|Hne]; cbn [negb].
  - destruct (tcp_get_port_ok v Hi) as [[Hb E]|(Hb & p & d & Hp & Hf & Hd & E)]; erewrite bind_ok by exact E.
    + cbn. eexists _, _. split; [reflexivity|]. split; [done|]. by apply BindNone.
    + unfold TCP_BPORT_MIN, TCP_BPORT_MAX in Hp.
      assert (Hp0 : _htons p <> 0).
      { rewrite htons_arith by (unfold is_u16; lia). zmod. }
      rewrite (proj2 (Z.eqb_neq _ _) Hp0).
      destruct (Hdo (with_defport d v) (_htons p)) as (E' & Hi' & H1 & H2 & H3);
        [by apply with_defport_inv|done|done|done|done|apply htons_range|done|].
      eexists _, _. split; [exact E'|]. split; [done|]. apply (BindOk _ _ _ (_htons p)); [done| |done|done|done].
      intros _. exists p. unfold TCP_BPORT_MIN, TCP_BPORT_MAX. split; [lia|done].
  - erewrite bind_ok. 2: { erewrite bind_ok by (by apply tcp_port_used_ok). reflexivity. }
    destruct (port_taken v nport) eqn:Hf.
    + cbn. eexists _, _. split; [reflexivity|]. split; [done|].
      apply port_taken_true in Hf as (x & Hx). by eapply BindTaken.
    + rewrite (proj2 (Z.eqb_neq _ _) Hne). destruct (Hdo v nport) as (E' & Hi' & H1 & H2 & H3); [done..|].
      eexists _, _. split; [exact E'|]. split; [done|]. by apply (BindOk _ _ _ nport).
Qed.

(** Two TCP socks, the first bound to port 80. *)
Definition two_tsks : sockstate :=
  match (tcp_alloc_sock 0;; tcp_alloc_sock 0;; tcp_set_sport 0%nat (_htons 80)) sock_start with
  | Ret _ v => v
  | _ => sock_start
  end.

Definition two_tsks_facts : Prop :=
  btable (tcp_st two_tsks) = <[80%nat := [0%nat]]> (replicate 256 []) /\
  bfree (tcp_st two_tsks) = BPORTS - 1 /\ defport (tcp_st two_tsks) = TCP_BPORT_MIN /\
  match socks two_tsks !! 0%nat, tsks (tcp_st two_tsks) !! 0%nat with
  | Some k, Some t => bhashed t = true /\ sk_sport k = _htons 80
  | _, _ => False
  end.

Lemma two_tsks_facts_ok : two_tsks_facts.
Proof. vm_compute. tauto. Qed.

Lemma two_tsks_inv : tports_inv two_tsks.
Proof.
  destruct two_tsks_facts_ok as (Et & Ef & Ed & Hl).
  assert (Hb : bsocks two_tsks = [0%nat]) by (unfold bsocks; rewrite Et; vm_compute; reflexivity).
  generalize dependent two_tsks. intros v Et Ef Ed Hl Hb.
  assert (Hs : forall h sk, 0 <= h < 256 -> sk ∈ bchain v h -> sk = 0%nat /\ h = 80).
  { intros h sk Hh Hsk. unfold bchain, bucket in Hsk. rewrite Et in Hsk. destruct (decide (h = 80)) as [->|Hne].
    - rewrite list_lookup_total_insert_eq in Hsk by (rewrite length_replicate; lia). set_solver.
    - rewrite list_lookup_total_insert_ne in Hsk by lia.
      rewrite lookup_total_replicate_2 in Hsk by lia. by apply elem_of_nil in Hsk. }
  split.
  - by rewrite Et, length_insert, length_replicate.
  - intros h sk Hh [-> ->]%Hs; [|done].
    destruct (socks v !! 0%nat) as [k|] eqn:Ek; [|done].
    destruct (tsks (tcp_st v) !! 0%nat) as [t|] eqn:Et0; [|done].
    destruct Hl as [Hb' Hp]. exists k, t. rewrite Hp. by split_and!.
  - rewrite Hb. apply NoDup_singleton.
  - intros p x y [Hx _] [Hy _]. rewrite Hb in Hx, Hy. set_solver.
  - by rewrite Hb, Ef.
  - rewrite Ed. by vm_compute.
Qed.

Lemma tcp_set_sport_ok_witness :
  exists r v', tcp_set_sport 1%nat 0 two_tsks = Ret r v' /\ tports_inv v' /\ bind_outcome two_tsks 1%nat 0 r v'.
Proof.
  assert (Hb : bsocks two_tsks = [0%nat]) by (vm_compute; reflexivity).
  destruct (socks two_tsks !! 1%nat) as [k|] eqn:Ek; [|vm_compute in Ek; discriminate].
  destruct (tsks (tcp_st two_tsks) !! 1%nat) as [t|] eqn:Et; [|vm_compute in Et; discriminate].
  apply (tcp_set_sport_ok two_tsks 1%nat k t 0 two_tsks_inv Ek Et).
  - rewrite Hb. set_solver.
  - split; [discriminate|reflexivity].
Defined.
