(* ===== verification/TcpLookup.v ===== *)
(** * Connections in the hash table: tcp_hash and tcp_lookup_sock

    A connection is hashed by its four-tuple as the local side sees it, and looked
    up by the four-tuple of an incoming segment, where source and destination are
    the other way round. *)

From stdpp Require Import prelude list gmap.
From Stdlib Require Import ZArith Lia.
From S2P Require Import Prelude Structs Route Pkb Sock TcpTable UdpPorts.

(** ** The specification *)

Definition same_tuple (k k' : sock) : Prop :=
  sk_saddr k = sk_saddr k' /\ sk_daddr k = sk_daddr k' /\ sk_sport k = sk_sport k' /\ sk_dport k = sk_dport k'.

Definition conn_hash (k : sock) : Z := tcp_ehashfn (sk_saddr k) (sk_daddr k) (sk_sport k) (sk_dport k).

(** The chain of the connections with the hash value of [k]. *)
Definition chain_of (v : sockstate) (k : sock) : list skid := bucket (etable (tcp_st v)) (conn_hash k).

Definition taken (v : sockstate) (k : sock) : Prop :=
  exists sk' k', sk' ∈ chain_of v k /\ socks v !! sk' = Some k' /\ same_tuple k k'.

(** ** Lemmas *)

(** Both sides of a connection compute the same hash value. *)
Lemma tcp_ehashfn_sym src dst sp dp : tcp_ehashfn src dst sp dp = tcp_ehashfn dst src dp sp.
Proof. unfold tcp_ehashfn. by rewrite (Z.lxor_comm (Z.lxor src sp)). Qed.

Lemma tcp_ehashfn_range src dst sp dp : 0 <= tcp_ehashfn src dst sp dp < TCP_EHASH_SIZE.
Proof.
  unfold tcp_ehashfn. change TCP_EHASH_MASK with (Z.ones 6). rewrite Z.land_ones by lia. by apply Z.mod_pos_bound.
Qed.

Lemma ehash_conflict_ok v k l : live_chain v l ->
  exists b, tcp_ehash_conflict l k v = Ret b v /\
    (b = true <-> exists sk' k', sk' ∈ l /\ socks v !! sk' = Some k' /\ same_tuple k k').
Proof.
  induction 1 as [|sk l [k' Hk] Hl IH]; cbn [tcp_ehash_conflict].
  - exists false. split; [done|]. split; [done|]. intros (? & ? & ?%elem_of_nil & _). done.
  - erewrite bind_ok by (by apply ld_sk_ok). case_if.
    + exists true. split; [done|]. split; [|done]. intros _. exists sk, k'. split; [left|]. split; [done|].
      unfold same_tuple. lia.
    + destruct IH as (b & E' & Hb). exists b. split; [done|]. rewrite Hb. split.
      * intros (x & kx & ? & ?). exists x, kx. split; [by right|done].
      * intros (x & kx & [->|Hx]%elem_of_cons & Hkx & Hs); [|by exists x, kx].
        rewrite Hk in Hkx. injection Hkx as <-. destruct Hs as (S1 & S2 & S3 & S4). lia.
Qed.

(** The connection is in front of its chain. *)
Lemma lookup_establish_head v sk k l : socks v !! sk = Some k -> chain_of v k = sk :: l ->
  tcp_lookup_sock (sk_daddr k) (sk_saddr k) (sk_dport k) (sk_sport k) v =
    Ret (Some sk) (set_socks (<[sk := set_sk_refcnt k (sk_refcnt k + 1)]> (socks v)) v).
Proof.
  intros Hk Hc. unfold tcp_lookup_sock, tcp_lookup_sock_establish.
  assert (E : forall f, f k = true -> lookup_chain f (chain_of v k) v =
    Ret (Some sk) (set_socks (<[sk := set_sk_refcnt k (sk_refcnt k + 1)]> (socks v)) v)).
  { intros f Hf. rewrite Hc. cbn [lookup_chain]. erewrite bind_ok by (by apply ld_sk_ok). rewrite Hf.
    by erewrite bind_ok by (by apply upd_sk_ok). }
  erewrite (bind_ok _ _ (Some sk)); [reflexivity|]. erewrite bind_ok; [|reflexivity]. rewrite tcp_ehashfn_sym. apply E.
  unfold est_match. rewrite !Z.eqb_refl. done.
Qed.

(** ** Property *)

(** C16: tcp_hash of a connection fails exactly when another connection in the
    table has the same four-tuple, and then changes nothing; otherwise the segments
    of the peer find the connection, and the lookup takes a reference to it. *)
Theorem tcp_hash_lookup (v : sockstate) (sk : skid) (k : sock) (t : tcp_sock) :
  socks v !! sk = Some k -> tsks (tcp_st v) !! sk = Some t ->
  state t <> TCP_CLOSED -> state t <> TCP_LISTEN ->
  length (etable (tcp_st v)) = Z.to_nat TCP_EHASH_SIZE -> live_chain v (chain_of v k) ->
  (taken v k /\ tcp_hash sk v = Ret (-1) v) \/
  (~ taken v k /\ exists v' v'', tcp_hash sk v = Ret 0 v' /\
     tcp_lookup_sock (sk_daddr k) (sk_saddr k) (sk_dport k) (sk_sport k) v' = Ret (Some sk) v'' /\
     exists k'', socks v'' !! sk = Some k'' /\ sk_refcnt k'' = sk_refcnt k + 2).
Proof.
  intros Hk Ht Hs1 Hs2 Hlen Hlive. unfold tcp_hash.
  erewrite bind_ok by (by eapply ld_tsk_ok). erewrite bind_ok by (by apply ld_sk_ok).
  rewrite !bool_decide_false by done. erewrite bind_ok; [|reflexivity].
  fold (conn_hash k). fold (chain_of v k).
  destruct (ehash_conflict_ok v k _ Hlive) as (b & E & Hb). erewrite bind_ok by exact E.
  destruct b; [left; split; [by apply Hb|done]|right]. split; [intros Htk; by apply Hb in Htk|].
  set (h := conn_hash k) in *.
  set (add := fun s => set_tcp_st (set_etable (add_head h sk (etable (tcp_st s))) (tcp_st s)) s).
  set (k1 := set_hashed (set_sk_refcnt (set_sk_hash k h) (sk_refcnt k + 1)) true).
  set (v1 := set_socks (<[sk := k1]> (socks v)) (add v)).
  assert (Eh : (upd_sk sk (fun k => set_sk_hash k h);; sock_add_hash sk add;; ret 0) v = Ret 0 v1).
  { erewrite bind_ok by (by apply upd_sk_ok). unfold sock_add_hash, get_sock. rewrite bind_assoc.
    erewrite bind_ok by (apply upd_sk_ok; cbn; apply lookup_insert_eq). rewrite bind_assoc.
    erewrite bind_ok; [|reflexivity]. erewrite bind_ok by (apply upd_sk_ok; cbn; apply lookup_insert_eq).
    unfold v1, add, k1. cbn. by rewrite !insert_insert_eq. }
  exists v1. eexists. split; [exact Eh|].
  assert (Hk1 : socks v1 !! sk = Some k1) by apply lookup_insert_eq.
  assert (Hc1 : chain_of v1 k1 = sk :: chain_of v k).
  { unfold chain_of, bucket. change (conn_hash k1) with h.
    change (etable (tcp_st v1)) with (add_head h sk (etable (tcp_st v))). unfold add_head.
    apply list_lookup_total_insert_eq. pose proof (tcp_ehashfn_range (sk_saddr k) (sk_daddr k) (sk_sport k) (sk_dport k)).
    unfold h, conn_hash, TCP_EHASH_SIZE in *. lia. }
  split; [exact (lookup_establish_head v1 sk k1 _ Hk1 Hc1)|].
  eexists. split; [cbn; apply lookup_insert_eq|]. cbn. lia.
Qed.

(** Two sockets; the first one is connecting. *)
Definition connecting : sockstate :=
  match (tcp_alloc_sock 0;; tcp_alloc_sock 0;;
         upd_sk 0%nat (fun k => set_sk_addr k (mk_sock_addr 0x0100000a 0x0200000a 80 20480));;
         tcp_set_state 0%nat TCP_SYN_SENT) sock_start with
  | Ret _ v => v
  | _ => sock_start
  end.

Lemma tcp_hash_lookup_witness : exists k v' v'',
  socks connecting !! 0%nat = Some k /\ tcp_hash 0%nat connecting = Ret 0 v' /\
  tcp_lookup_sock 0x0200000a 0x0100000a 20480 80 v' = Ret (Some 0%nat) v''.
Proof.
  assert (Hx : match socks connecting !! 0%nat, tsks (tcp_st connecting) !! 0%nat with
    | Some k, Some t => sk_addr k = mk_sock_addr 0x0100000a 0x0200000a 80 20480 /\ state t = TCP_SYN_SENT
    | _, _ => False end) by (vm_compute; tauto).
  destruct (socks connecting !! 0%nat) as [k|] eqn:Ek; [|done].
  destruct (tsks (tcp_st connecting) !! 0%nat) as [t|] eqn:Et; [|done]. destruct Hx as [Ha Hs].
  assert (Hc : chain_of connecting k = []).
  { unfold chain_of, conn_hash, sk_saddr, sk_daddr, sk_sport, sk_dport. rewrite Ha. by vm_compute. }
  destruct (tcp_hash_lookup connecting 0%nat k t Ek Et) as [[Htk _]|(_ & v' & v'' & E & E' & _)].
  - by rewrite Hs.
  - by rewrite Hs.
  - by vm_compute.
  - rewrite Hc. constructor.
  - destruct Htk as (x & kx & Hx & _). rewrite Hc in Hx. by apply elem_of_nil in Hx.
  - exists k, v', v''. split; [done|]. split; [exact E|].
    unfold sk_saddr, sk_daddr, sk_sport, sk_dport in E'. rewrite Ha in E'. exact E'.
Defined.
