(* ===== verification/Stack.v ===== *)
(** * The state of the stack and its net devices: net/netdev.c, net/loop.c, the
    transmit functions of net/veth.c, net/physical_eth.c and
    net/shmeth_netdev.c, include/netif.h

    [stack] gathers the global variables of the C program.  Devices are chosen
    through [net_ops] in the source; here the constructor of [net_ops] selects
    the transmit function.  Writing to the loopback device re-enters the stack:
    that call goes through the class [Reentry], whose instance ties the knot
    with a bound on the nesting (file NetIn).

    The result of the write() system call is a parameter ([OS]). *)

From stdpp Require Import prelude list gmap.
From Stdlib Require Import ZArith Lia.
From S2P Require Import Prelude Structs Route Pkb FastPipe ArpCache Sock.

(** ** The data *)

Record netstats := mk_netstats {
  rx_packets : Z; tx_packets : Z; rx_errors : Z; tx_errors : Z; rx_bytes : Z; tx_bytes : Z
}.

(** Counters are [unsigned long]. *)
Definition u64 (z : Z) : Z := z mod 18446744073709551616.

(** loop_ops, veth_ops, the two peth_ops, and dpdk_ops; [priv] of a shared-memory
    device is the segment and the side of it. *)
Inductive netdev_ops :=
  | loop_ops
  | veth_ops
  | peth_ops
  | shmeth_ops (segment : nat) (side : shmeth_side_t)
  | dpdk_ops.

Record netdev := mk_netdev {
  net_mtu : Z;
  net_ipaddr : Z;
  net_mask : Z;
  net_hwaddr : list Z;
  net_name : list Z;
  net_ops : netdev_ops;
  net_stats : netstats
}.

Definition set_net_stats (d : netdev) v :=
  mk_netdev (net_mtu d) (net_ipaddr d) (net_mask d) (net_hwaddr d) (net_name d) (net_ops d) v.

Definition LOCALNET (dev : netdev) : Z := Z.land (net_ipaddr dev) (net_mask dev).

(** struct fragment of include/ip.h: a datagram being put together. *)
Record fragment := mk_fragment {
  frag_id : Z; frag_src : Z; frag_dst : Z; frag_pro : Z;
  frag_hlen : Z;
  frag_rsize : Z;              (* size of received fragments *)
  frag_size : Z;               (* total fragments payload size *)
  frag_ttl : Z;
  frag_flags : Z;
  frag_pkb : list pid
}.

Record stack := mk_stack {
  st_pkmem : pkmem;
  st_netdevs : gmap devid netdev;     (* allocated devices *)
  st_net_devices : list devid;        (* the list net_devices *)
  st_loop : devid;
  st_rt_head : list rtentry;
  st_arp : arpcache;
  st_frag_head : list (nat * fragment);   (* address and contents *)
  st_next_frag : nat;
  st_ipid : Z;
  st_shm : gmap nat shm;
  st_wire : list (devid * list Z);    (* frames handed to write(), last first *)
  st_sock : sockstate
}.

Definition set_pkmem v (s : stack) := mk_stack v (st_netdevs s) (st_net_devices s) (st_loop s) (st_rt_head s) (st_arp s) (st_frag_head s) (st_next_frag s) (st_ipid s) (st_shm s) (st_wire s) (st_sock s).
Definition set_netdevs v (s : stack) := mk_stack (st_pkmem s) v (st_net_devices s) (st_loop s) (st_rt_head s) (st_arp s) (st_frag_head s) (st_next_frag s) (st_ipid s) (st_shm s) (st_wire s) (st_sock s).
Definition set_net_devices v (s : stack) := mk_stack (st_pkmem s) (st_netdevs s) v (st_loop s) (st_rt_head s) (st_arp s) (st_frag_head s) (st_next_frag s) (st_ipid s) (st_shm s) (st_wire s) (st_sock s).
Definition set_loop v (s : stack) := mk_stack (st_pkmem s) (st_netdevs s) (st_net_devices s) v (st_rt_head s) (st_arp s) (st_frag_head s) (st_next_frag s) (st_ipid s) (st_shm s) (st_wire s) (st_sock s).
Definition set_rt_head v (s : stack) := mk_stack (st_pkmem s) (st_netdevs s) (st_net_devices s) (st_loop s) v (st_arp s) (st_frag_head s) (st_next_frag s) (st_ipid s) (st_shm s) (st_wire s) (st_sock s).
Definition set_arp v (s : stack) := mk_stack (st_pkmem s) (st_netdevs s) (st_net_devices s) (st_loop s) (st_rt_head s) v (st_frag_head s) (st_next_frag s) (st_ipid s) (st_shm s) (st_wire s) (st_sock s).
Definition set_frag_head v (s : stack) := mk_stack (st_pkmem s) (st_netdevs s) (st_net_devices s) (st_loop s) (st_rt_head s) (st_arp s) v (st_next_frag s) (st_ipid s) (st_shm s) (st_wire s) (st_sock s).
Definition set_next_frag v (s : stack) := mk_stack (st_pkmem s) (st_netdevs s) (st_net_devices s) (st_loop s) (st_rt_head s) (st_arp s) (st_frag_head s) v (st_ipid s) (st_shm s) (st_wire s) (st_sock s).
Definition set_ipid v (s : stack) := mk_stack (st_pkmem s) (st_netdevs s) (st_net_devices s) (st_loop s) (st_rt_head s) (st_arp s) (st_frag_head s) (st_next_frag s) v (st_shm s) (st_wire s) (st_sock s).
Definition set_shm v (s : stack) := mk_stack (st_pkmem s) (st_netdevs s) (st_net_devices s) (st_loop s) (st_rt_head s) (st_arp s) (st_frag_head s) (st_next_frag s) (st_ipid s) v (st_wire s) (st_sock s).
Definition set_wire v (s : stack) := mk_stack (st_pkmem s) (st_netdevs s) (st_net_devices s) (st_loop s) (st_rt_head s) (st_arp s) (st_frag_head s) (st_next_frag s) (st_ipid s) (st_shm s) v (st_sock s).
Definition set_sock v (s : stack) := mk_stack (st_pkmem s) (st_netdevs s) (st_net_devices s) (st_loop s) (st_rt_head s) (st_arp s) (st_frag_head s) (st_next_frag s) (st_ipid s) (st_shm s) (st_wire s) v.

#[export] Instance stack_has_mem : HasMem stack.
Proof.
  refine {| st_mem := st_pkmem; set_mem := set_pkmem |}; [done|done|by intros []].
Defined.

(** ** Parameters *)

(** write(2) on the tap or packet socket of a device: the number of bytes
    written or -1, given the frames written before. *)
Class OS := os_write : list (devid * list Z) -> devid -> list Z -> Z.

(** Re-entry of net_in through the loopback device, and the bound on the
    iterations of the loops that send queued packets. *)
Class Reentry := {
  net_input : devid -> pid -> comp stack unit;
  queue_fuel : nat
}.

(** ** The code *)

Definition ld_dev (d : devid) : comp stack netdev := fun s =>
  match st_netdevs s !! d with
  | Some v => Ret v s
  | None => Fault UseAfterFree
  end.

(** Update of the counters of a device. *)
Definition upd_stats (d : devid) (f : netstats -> netstats) : comp stack unit :=
  let* v := ld_dev d in
  modify (fun s => set_netdevs (<[d := set_net_stats v (f (net_stats v))]> (st_netdevs s)) s).

Definition count_rx (len : Z) (t : netstats) : netstats :=
  mk_netstats (u64 (rx_packets t + 1)) (tx_packets t) (rx_errors t) (tx_errors t)
    (u64 (rx_bytes t + len)) (tx_bytes t).
Definition count_tx (len : Z) (t : netstats) : netstats :=
  mk_netstats (rx_packets t) (u64 (tx_packets t + 1)) (rx_errors t) (tx_errors t)
    (rx_bytes t) (u64 (tx_bytes t + len)).
Definition count_tx_error (t : netstats) : netstats :=
  mk_netstats (rx_packets t) (tx_packets t) (rx_errors t) (u64 (tx_errors t + 1))
    (rx_bytes t) (tx_bytes t).
Definition count_rx_error (t : netstats) : netstats :=
  mk_netstats (rx_packets t) (tx_packets t) (u64 (rx_errors t + 1)) (tx_errors t)
    (rx_bytes t) (tx_bytes t).

(** Addresses are passed as pointers: to a value elsewhere, or into the packet
    that is being sent. *)
Inductive hwptr :=
  | HwVal (a : list Z)
  | HwIn (off : Z).

Definition ld_hw (p : pid) (h : hwptr) : comp stack (list Z) :=
  match h with
  | HwVal a => ret a
  | HwIn off => ld_bytes p off ETH_ALEN
  end.

Section Devices.
Context `{OS} `{Reentry}.

Definition loop_recv (dev : devid) (pkb : pid) : comp stack unit :=
  let* k := ld pkb in
  upd_stats dev (count_rx (pk_len k));;
  net_input dev pkb.

Definition loop_xmit (dev : devid) (pkb : pid) : comp stack Z :=
  get_pkb pkb;;
  loop_recv dev pkb;;
  let* k := ld pkb in
  upd_stats dev (count_tx (pk_len k));;
  ret (pk_len k).

(** veth_xmit and physical_eth_dev_xmit have the same body over different file
    descriptors. *)
Definition write_xmit (dev : devid) (pkb : pid) : comp stack Z :=
  let* k := ld pkb in
  let* bytes := ld_bytes pkb 0 (pk_len k) in
  let* wire := gets st_wire in
  let l := os_write wire dev bytes in
  modify (set_wire ((dev, bytes) :: wire));;
  (if l =? pk_len k then upd_stats dev (count_tx l) else upd_stats dev count_tx_error);;
  ret l.

Definition veth_xmit := write_xmit.
Definition physical_eth_dev_xmit := write_xmit.

Definition on_segment {A} (seg : nat) (m : comp shm A) : comp stack A := fun s =>
  match st_shm s !! seg with
  | None => Fault UseAfterFree
  | Some v =>
      match m v with
      | Ret a v' => Ret a (set_shm (<[seg := v']> (st_shm s)) s)
      | Fault f => Fault f
      | NoFuel => NoFuel
      end
  end.

Definition shmeth_dev_xmit (seg : nat) (side : shmeth_side_t) (d : devid) (b : pid)
    : comp stack Z :=
  let* k := ld b in
  let* bytes := ld_bytes b 0 (pk_len k) in
  let* ok := on_segment seg (shmeth_write_packet side bytes) in
  if ok then upd_stats d (count_tx (pk_len k));; ret (pk_len k)
  else upd_stats d count_tx_error;; ret 0.

(** dpdk_dev_xmit as the stack sees it: the frame is queued for the device when
    rte_ring_enqueue, whose result is [os_write], returns 0.  The file Dpdk has the
    whole function. *)
Definition dpdk_xmit (dev : devid) (pkb : pid) : comp stack Z :=
  let* k := ld pkb in
  let* bytes := ld_bytes pkb 0 (pk_len k) in
  let* wire := gets st_wire in
  if os_write wire dev bytes =? 0 then
    modify (set_wire ((dev, bytes) :: wire));;
    upd_stats dev (count_tx (pk_len k));;
    ret (pk_len k)
  else
    upd_stats dev count_tx_error;;
    ret 0.

Definition xmit (ops : netdev_ops) (dev : devid) (pkb : pid) : comp stack Z :=
  match ops with
  | loop_ops => loop_xmit dev pkb
  | veth_ops => veth_xmit dev pkb
  | peth_ops => physical_eth_dev_xmit dev pkb
  | shmeth_ops seg side => shmeth_dev_xmit seg side dev pkb
  | dpdk_ops => dpdk_xmit dev pkb
  end.

(** The stores to the ether header are done one field after the other: [dst] may
    point to [eth_src] of the packet. *)
Definition netdev_tx (dev : devid) (pkb : pid) (len proto : Z) (dst : hwptr) : comp stack unit :=
  let* v := ld_dev dev in
  st_bytes pkb 12 (le_enc 2 (_htons proto));;
  let* a := ld_hw pkb dst in
  st_bytes pkb 0 a;;
  st_bytes pkb 6 (net_hwaddr v);;
  upd pkb (fun k => set_pk_len k (len + ETH_HRD_SZ));;
  xmit (net_ops v) dev pkb;;
  free_pkb pkb.

End Devices.

(** local_address *)
Definition local_address (addr : Z) : comp stack bool :=
  if addr =? 0 then ret true
  else
    let* l := gets st_loop in
    let* v := ld_dev l in
    if LOCALNET v =? Z.land (net_mask v) addr then ret true
    else
      let* devs := gets st_net_devices in
      (fix go (ds : list devid) : comp stack bool :=
         match ds with
         | [] => ret false
         | d :: r => let* v := ld_dev d in if net_ipaddr v =? addr then ret true else go r
         end) devs.

(** netdev_alloc links the device at the end of net_devices and runs its init
    function; the address of the device is chosen by the allocator. *)
Definition NETDEV_NLEN : nat := 16.

Definition LOOPBACK_MTU : Z := 1500.
Definition LOOPBACK_IPADDR : Z := 0x0100007F.
Definition LOOPBACK_NETMASK : Z := 0x000000FF.

Definition zero_stats : netstats := mk_netstats 0 0 0 0 0 0.

(** strncpy of at most 15 characters into the zeroed name. *)
Definition dev_name (str : list Z) : list Z :=
  let n := take (NETDEV_NLEN - 1) str in n ++ replicate (NETDEV_NLEN - length n) 0.

(** [init] is what the init function of the operations assigns. *)
Definition netdev_alloc (d : devid) (devstr : list Z) (ops : netdev_ops) (init : netdev -> netdev)
    : comp stack devid :=
  modify (fun s =>
    set_net_devices (st_net_devices s ++ [d])
      (set_netdevs (<[d := init (mk_netdev 0 0 0 (replicate 6 0) (dev_name devstr) ops zero_stats)]>
         (st_netdevs s)) s));;
  ret d.

Definition loop_dev_init (v : netdev) : netdev :=
  mk_netdev LOOPBACK_MTU LOOPBACK_IPADDR LOOPBACK_NETMASK (net_hwaddr v) (net_name v) (net_ops v)
    (net_stats v).

Definition loop_init (d : devid) : comp stack unit :=
  let* l := netdev_alloc d [108; 111] loop_ops loop_dev_init in
  modify (set_loop l).

(** list_init of net_devices, then loop_init. *)
Definition netdev_init (d : devid) : comp stack unit :=
  modify (set_net_devices []);; loop_init d.

Definition netdev_free (d : devid) : comp stack unit :=
  ld_dev d;;
  modify (fun s => set_net_devices (filter (fun x => x <> d) (st_net_devices s))
                     (set_netdevs (delete d (st_netdevs s)) s)).
