(* ===== verification/Arp.v ===== *)
(** * ARP: arp/arp.c and the queue and timer functions of arp/arp_cache.c *)

From stdpp Require Import prelude list gmap.
From Stdlib Require Import ZArith Lia.
From S2P Require Import Prelude Structs Route Pkb FastPipe ArpCache Stack.

(** ** The code *)

(** [*ae], and assignments through [ae]. *)
Definition ld_ae (ae : nat) : comp stack arpentry := gets (fun s => arp_cache (st_arp s) !!! ae).
Definition upd_ae (ae : nat) (f : arpentry -> arpentry) : comp stack unit :=
  modify (fun s => set_arp (upd_entry (st_arp s) ae f) s).

Definition BRD_HWADDR : list Z := replicate 6 0xff.

Section Arp.
Context `{OS} `{Reentry}.

(** Sending may re-enter the stack and queue more packets: the loop is bounded
    by [queue_fuel]. *)
Fixpoint arp_queue_send_loop (fuel : nat) (ae : nat) : comp stack unit :=
  match fuel with
  | O => out_of_fuel
  | S n =>
      let* e := ld_ae ae in
      match ae_list e with
      | [] => ret tt
      | pkb :: r =>
          upd_ae ae (fun e => set_ae_list e r);;
          let* dev := of_opt NullDeref (ae_dev e) in
          let* k := ld pkb in
          netdev_tx dev pkb (pk_len k - ETH_HRD_SZ) (pk_pro k) (HwVal (ae_hwaddr e));;
          arp_queue_send_loop n ae
      end
  end.

Definition arp_queue_send (ae : nat) : comp stack unit := arp_queue_send_loop queue_fuel ae.

(** free_pkb touches no queue, so the loop empties the list it starts with. *)
Definition arp_queue_drop (ae : nat) : comp stack unit :=
  let* e := ld_ae ae in
  for_each (ae_list e) (fun pkb =>
    upd_ae ae (fun e => set_ae_list e (tail (ae_list e)));;
    free_pkb pkb).

Definition arp_request (ae : nat) : comp stack unit :=
  let* pkb := alloc_pkb (ETH_HRD_SZ + ARP_HRD_SZ) in
  let* e := ld_ae ae in
  let* dev := of_opt NullDeref (ae_dev e) in
  let* v := ld_dev dev in
  st_at pkb ETH_HRD_SZ
    (mk_arp (_htons ARP_HRD_ETHER) (_htons ETH_P_IP) ETH_ALEN IP_ALEN (_htons ARP_OP_REQUEST)
       (net_hwaddr v) (net_ipaddr v) BRD_HWADDR (ae_ipaddr e));;
  let* k := ld pkb in
  netdev_tx dev pkb (pk_len k - ETH_HRD_SZ) ETH_P_ARP (HwVal BRD_HWADDR).

Definition arp_reply (dev : devid) (pkb : pid) : comp stack unit :=
  let* a := ld_at arp pkb ETH_HRD_SZ in
  let* v := ld_dev dev in
  st_at pkb ETH_HRD_SZ
    (arp_hton (mk_arp (arp_hrd a) (arp_pro a) (arp_hrdlen a) (arp_prolen a) ARP_OP_REPLY
       (net_hwaddr v) (net_ipaddr v) (arp_sha a) (arp_sip a)));;
  netdev_tx dev pkb ARP_HRD_SZ ETH_P_ARP (HwIn 6).

Definition arp_recv (dev : devid) (pkb : pid) : comp stack unit :=
  let* a := ld_at arp pkb ETH_HRD_SZ in
  let* v := ld_dev dev in
  if MULTICAST (arp_tip a) then free_pkb pkb
  else if negb (arp_tip a =? net_ipaddr v) then free_pkb pkb
  else
    let* c := gets st_arp in
    match arp_lookup c (arp_pro a) (arp_sip a) with
    | Some ae =>
        upd_ae ae (fun e => set_ae_hwaddr e (arp_sha a));;
        let* e := ld_ae ae in
        when (ae_state e =? ARP_WAITING) (arp_queue_send ae);;
        upd_ae ae (fun e => set_ae_ttl (set_ae_state e ARP_RESOLVED) ARP_TIMEOUT)
    | None =>
        when (arp_op a =? ARP_OP_REQUEST)
          (modify (fun s => set_arp (snd (arp_insert (st_arp s) dev (arp_pro a) (arp_sip a) (arp_sha a))) s))
    end;;
    let* a := ld_at arp pkb ETH_HRD_SZ in
    if arp_op a =? ARP_OP_REQUEST then arp_reply dev pkb
    else free_pkb pkb.

Definition arp_in (dev : devid) (pkb : pid) : comp stack unit :=
  let* k := ld pkb in
  if pk_type k =? PKT_OTHERHOST then free_pkb pkb
  else if pk_len k <? ETH_HRD_SZ + ARP_HRD_SZ then free_pkb pkb
  else
    let* e := ld_at ether pkb 0 in
    let* a := ld_at arp pkb ETH_HRD_SZ in
    if negb (hwacmp_eq (arp_sha a) (eth_src e)) then free_pkb pkb
    else
      let a := arp_hton a in
      st_at pkb ETH_HRD_SZ a;;
      if negb (arp_hrd a =? ARP_HRD_ETHER) || negb (arp_pro a =? ETH_P_IP)
         || negb (arp_hrdlen a =? ETH_ALEN) || negb (arp_prolen a =? IP_ALEN) then free_pkb pkb
      else if negb (arp_op a =? ARP_OP_REQUEST) && negb (arp_op a =? ARP_OP_REPLY)
      then free_pkb pkb
      else arp_recv dev pkb.

(** One turn of the loop of arp_timer.  [--ae->ae_retry] is evaluated only for a
    waiting entry. *)
Definition arp_timer_entry (delta : Z) (ae : nat) : comp stack unit :=
  let* e := ld_ae ae in
  if ae_state e =? ARP_FREE then ret tt
  else
    upd_ae ae (fun e => set_ae_ttl e (ae_ttl e - delta));;
    if ae_ttl e - delta <=? 0 then
      when (ae_state e =? ARP_WAITING) (upd_ae ae (fun e => set_ae_retry e (ae_retry e - 1)));;
      if ((ae_state e =? ARP_WAITING) && (ae_retry e - 1 <? 0)) || (ae_state e =? ARP_RESOLVED) then
        when (ae_state e =? ARP_WAITING) (arp_queue_drop ae);;
        upd_ae ae (fun e => set_ae_state e ARP_FREE)
      else
        upd_ae ae (fun e => set_ae_ttl e ARP_WAITTIME);;
        arp_request ae
    else ret tt.

Definition arp_timer (delta : Z) : comp stack unit :=
  for_each (seq 0 ARP_CACHE_SZ) (arp_timer_entry delta).

End Arp.
