(* ===== verification/IpOut.v ===== *)
(** * IP output: ip/ip_out.c, ip_frag and ip_send_frag of ip/ip_frag.c, rt_output
    of ip/route.c, ip_set_checksum of lib/checksum.c *)

From stdpp Require Import prelude list gmap.
From Stdlib Require Import ZArith Lia.
From S2P Require Import Prelude Structs Checksum Route Pkb FastPipe ArpCache Stack Arp.

(** ** The code *)

(** [pkb2ip(pkb)]: the IP header starts behind the ether header. *)
Definition ld_ip (pkb : pid) : comp stack ip := ld_at ip pkb ETH_HRD_SZ.
Definition st_ip (pkb : pid) (h : ip) : comp stack unit := st_at pkb ETH_HRD_SZ h.
Definition upd_ip (pkb : pid) (f : ip -> ip) : comp stack unit :=
  let* h := ld_ip pkb in st_ip pkb (f h).

(** ip_set_checksum: clear the field, sum the header with its options, store. *)
Definition ip_set_checksum (pkb : pid) : comp stack unit :=
  upd_ip pkb (fun h => set_ip_cksum h 0);;
  let* h := ld_ip pkb in
  let* hdr := ld_bytes pkb ETH_HRD_SZ (iphlen h) in
  upd_ip pkb (fun h => set_ip_cksum h (ip_chksum hdr)).

Definition rt_output (pkb : pid) : comp stack Z :=
  let* h := ld_ip pkb in
  let* t := gets st_rt_head in
  match rt_lookup t (ip_dst h) with
  | None => ret (-1)
  | Some rt =>
      upd pkb (fun k => set_pk_rtdst k (Some rt));;
      let* v := ld_dev (rt_dev rt) in
      upd_ip pkb (fun h => set_ip_src h (net_ipaddr v));;
      ret 0
  end.

(** The next hop a route gives for a packet. *)
Definition next_hop (rt : rtentry) (h : ip) : Z :=
  if negb (Z.land (rt_flags rt) RT_DEFAULT =? 0) || (0 <? rt_metric rt) then rt_gw rt else ip_dst h.

Section Out.
Context `{OS} `{Reentry}.

Definition ip_send_dev (dev : devid) (pkb : pid) : comp stack unit :=
  let* k := ld pkb in
  let* rt := of_opt NullDeref (pk_rtdst k) in
  if negb (Z.land (rt_flags rt) RT_LOCALHOST =? 0) then
    let* v := ld_dev dev in
    netdev_tx dev pkb (pk_len k - ETH_HRD_SZ) ETH_P_IP (HwVal (net_hwaddr v))
  else
    let* h := ld_ip pkb in
    let dst := next_hop rt h in
    let* c := gets st_arp in
    match arp_lookup c ETH_P_IP dst with
    | None =>
        let (o, c') := arp_alloc c in
        modify (set_arp c');;
        match o with
        | None => free_pkb pkb
        | Some ae =>
            upd_ae ae (fun e => set_ae_list (set_ae_dev (set_ae_ipaddr e dst) (Some dev))
                                  (ae_list e ++ [pkb]));;
            arp_request ae
        end
    | Some ae =>
        let* e := ld_ae ae in
        if ae_state e =? ARP_WAITING then upd_ae ae (fun e => set_ae_list e (ae_list e ++ [pkb]))
        else netdev_tx dev pkb (pk_len k - ETH_HRD_SZ) ETH_P_IP (HwVal (ae_hwaddr e))
    end.

(** A new packet with the header and [dlen] bytes of data at [off]. *)
Definition ip_frag (pkb : pid) (hlen dlen off mf_bit : Z) : comp stack pid :=
  let* fragpkb := alloc_pkb (ETH_HRD_SZ + hlen + dlen) in
  let* k := ld pkb in
  upd fragpkb (fun f => set_pk_rtdst (set_pk_indev (set_pk_type (set_pk_pro f (pk_pro k))
                          (pk_type k)) (pk_indev k)) (pk_rtdst k));;
  let* hd := ld_bytes pkb ETH_HRD_SZ hlen in
  st_bytes fragpkb ETH_HRD_SZ hd;;
  let* d := ld_bytes pkb (ETH_HRD_SZ + hlen + off) dlen in
  st_bytes fragpkb (ETH_HRD_SZ + hlen) d;;
  upd_ip fragpkb (fun h =>
    set_ip_fragoff (set_ip_len h (_htons (u16 (hlen + dlen))))
      (_htons (u16 (Z.lor mf_bit (Z.shiftr off 3)))));;
  ip_set_checksum fragpkb;;
  ret fragpkb.

(** The loop of ip_send_frag; the result is what is left to send. *)
Fixpoint ip_send_frag_loop (fuel : nat) (dev : devid) (pkb : pid) (hlen mlen dlen off : Z)
    : comp stack (Z * Z) :=
  if mlen <? dlen then
    match fuel with
    | O => out_of_fuel
    | S n =>
        let* fragpkb := ip_frag pkb hlen mlen off IP_FRAG_MF in
        ip_send_dev dev fragpkb;;
        ip_send_frag_loop n dev pkb hlen mlen (dlen - mlen) (off + mlen)
    end
  else ret (dlen, off).

Definition ip_send_frag (dev : devid) (pkb : pid) : comp stack unit :=
  let* h := ld_ip pkb in
  let* v := ld_dev dev in
  let hlen := iphlen h in
  let dlen := _ntohs (ip_len h) - hlen in
  let mlen := Z.land (net_mtu v - hlen) (Z.lnot 7) in
  let* '(dlen, off) := ip_send_frag_loop (Z.to_nat dlen) dev pkb hlen mlen dlen 0 in
  when (negb (dlen =? 0))
    (let* h := ld_ip pkb in
     let* fragpkb := ip_frag pkb hlen dlen off (Z.land (ip_fragoff h) IP_FRAG_MF) in
     ip_send_dev dev fragpkb);;
  free_pkb pkb.

Definition ip_send_out (pkb : pid) : comp stack unit :=
  upd pkb (fun k => set_pk_pro k ETH_P_IP);;
  let* k := ld pkb in
  let* r := match pk_rtdst k with Some _ => ret 0 | None => rt_output pkb end in
  if r <? 0 then free_pkb pkb
  else
    ip_set_checksum pkb;;
    let* h := ld_ip pkb in
    let* k := ld pkb in
    let* rt := of_opt NullDeref (pk_rtdst k) in
    let* v := ld_dev (rt_dev rt) in
    if net_mtu v <? _ntohs (ip_len h) then ip_send_frag (rt_dev rt) pkb
    else ip_send_dev (rt_dev rt) pkb.

Definition ip_send_info (pkb : pid) (tos len ttl pro dst : Z) : comp stack unit :=
  let* id := gets st_ipid in
  modify (set_ipid (u16 (id + 1)));;
  upd_ip pkb (fun h =>
    mk_ip (IP_HRD_SZ / 4) IP_VERSION_4 tos (_htons len) (_htons id) 0 ttl pro (ip_cksum h)
      (ip_src h) dst);;
  ip_send_out pkb.

End Out.
