(* ===== verification/Icmp.v ===== *)
(** * ICMP: ip/icmp.c, include/icmp.h *)

From stdpp Require Import prelude list gmap.
From Stdlib Require Import ZArith Lia.
From S2P Require Import Prelude Structs Checksum Route Pkb FastPipe ArpCache Stack Arp IpOut.

(** ** The code *)

Definition ICMP_T_ECHORLY : Z := 0.
Definition ICMP_T_DESTUNREACH : Z := 3.
Definition ICMP_T_SOURCEQUENCH : Z := 4.
Definition ICMP_T_REDIRECT : Z := 5.
Definition ICMP_T_ECHOREQ : Z := 8.
Definition ICMP_T_TIMEEXCEED : Z := 11.
Definition ICMP_T_MAXNUM : Z := 18.

Definition ICMP_NET_UNREACH : Z := 0.
Definition ICMP_PORT_UNREACH : Z := 3.
Definition ICMP_FRAG_NEEDED : Z := 4.
Definition ICMP_REDIRECT_HOST : Z := 1.
Definition ICMP_EXC_TTL : Z := 0.
Definition ICMP_EXC_FRAGTIME : Z := 1.

(** The handlers icmp_table points to. *)
Inductive icmp_handler :=
  | icmp_drop_reply
  | icmp_dest_unreach
  | icmp_echo_request
  | icmp_echo_reply
  | icmp_redirect.

Record icmp_desc := mk_icmp_desc { error : Z; handler : icmp_handler }.

Definition ICMP_DESC_DUMMY_ENTRY : icmp_desc := mk_icmp_desc 1 icmp_drop_reply.

Definition icmp_table : list icmp_desc := [
  mk_icmp_desc 0 icmp_echo_reply;        (* ICMP_T_ECHORLY *)
  ICMP_DESC_DUMMY_ENTRY;
  ICMP_DESC_DUMMY_ENTRY;
  mk_icmp_desc 1 icmp_dest_unreach;      (* ICMP_T_DESTUNREACH *)
  mk_icmp_desc 1 icmp_drop_reply;        (* ICMP_T_SOURCEQUENCH *)
  mk_icmp_desc 1 icmp_redirect;          (* ICMP_T_REDIRECT *)
  ICMP_DESC_DUMMY_ENTRY;
  ICMP_DESC_DUMMY_ENTRY;
  mk_icmp_desc 0 icmp_echo_request;      (* ICMP_T_ECHOREQ *)
  ICMP_DESC_DUMMY_ENTRY;
  ICMP_DESC_DUMMY_ENTRY;
  mk_icmp_desc 1 icmp_drop_reply;        (* ICMP_T_TIMEEXCEED *)
  mk_icmp_desc 1 icmp_drop_reply;        (* ICMP_T_PARAMPROBLEM *)
  mk_icmp_desc 0 icmp_drop_reply;        (* ICMP_T_TIMESTAMPREQ *)
  mk_icmp_desc 0 icmp_drop_reply;        (* ICMP_T_TIMESTAMPRLY *)
  mk_icmp_desc 0 icmp_drop_reply;        (* ICMP_T_INFOREQ *)
  mk_icmp_desc 0 icmp_drop_reply;        (* ICMP_T_INFORLY *)
  mk_icmp_desc 0 icmp_drop_reply;        (* ICMP_T_ADDRMASKREQ *)
  mk_icmp_desc 0 icmp_drop_reply         (* ICMP_T_ADDRMASKRLY *)
].

Definition icmp_type_error (type : Z) : comp stack bool :=
  let* d := of_opt OutOfBounds (if type <? 0 then None else icmp_table !! Z.to_nat type) in
  ret (negb (error d =? 0)).

(** The new checksum of an echo request turned into a reply; [icmp_cksum] is an
    unsigned short. *)
Definition echo_cksum (c : Z) : Z :=
  if 0xffff - ICMP_T_ECHOREQ <=? c then u16 (c + (ICMP_T_ECHOREQ + 1)) else u16 (c + ICMP_T_ECHOREQ).

Section Icmp.
Context `{OS} `{Reentry}.

Definition do_echo_request (pkb : pid) : comp stack unit :=
  let* h := ld_ip pkb in
  let off := ETH_HRD_SZ + iphlen h in
  let* i := ld_at icmp pkb off in
  if negb (icmp_code i =? 0) then free_pkb pkb
  else
    st_at pkb off (mk_icmp ICMP_T_ECHORLY (icmp_code i) (echo_cksum (icmp_cksum i)) (icmp_undata i));;
    upd_ip pkb (fun h => ip_ntoh (set_ip_dst h (ip_src h)));;
    upd pkb (fun k => set_pk_type (set_pk_indev (set_pk_rtdst k None) None) PKT_NONE);;
    ip_send_out pkb.

(** Apart from debugging output, the other handlers only free the packet. *)
Definition run_handler (hd : icmp_handler) (pkb : pid) : comp stack unit :=
  match hd with
  | icmp_echo_request => do_echo_request pkb
  | icmp_drop_reply | icmp_dest_unreach | icmp_echo_reply | icmp_redirect => free_pkb pkb
  end.

Definition icmp_in (pkb : pid) : comp stack unit :=
  let* h := ld_ip pkb in
  let off := ETH_HRD_SZ + iphlen h in
  let icmplen := ipdlen h in
  if icmplen <? ICMP_HRD_SZ then free_pkb pkb
  else
    let* d := ld_bytes pkb off icmplen in
    if negb (icmp_chksum d =? 0) then free_pkb pkb
    else
      let* i := ld_at icmp pkb off in
      if ICMP_T_MAXNUM <? icmp_type i then free_pkb pkb
      else
        let* desc := of_opt OutOfBounds (icmp_table !! Z.to_nat (icmp_type i)) in
        run_handler (handler desc) pkb.

(** The packet that icmp_send builds around the head of [pkb_in], and sends. *)
Definition icmp_build (type code data paylen : Z) (pkb_in : pid) : comp stack unit :=
  let paylen := if 576 <? IP_HRD_SZ + ICMP_HRD_SZ + paylen
                then 576 - IP_HRD_SZ - ICMP_HRD_SZ else paylen in
  let* pkb := alloc_pkb (ETH_HRD_SZ + IP_HRD_SZ + ICMP_HRD_SZ + paylen) in
  let off := ETH_HRD_SZ + IP_HRD_SZ in
  st_at pkb off (mk_icmp type code 0 data);;
  let* d := ld_bytes pkb_in ETH_HRD_SZ paylen in
  st_bytes pkb (off + ICMP_HRD_SZ) d;;
  let* m := ld_bytes pkb off (ICMP_HRD_SZ + paylen) in
  st_at pkb off (mk_icmp type code (icmp_chksum m) data);;
  let* h := ld_ip pkb_in in
  ip_send_info pkb 0 (IP_HRD_SZ + ICMP_HRD_SZ + paylen) 0 IP_P_ICMP (ip_src h).

(** Whether the packet is an ICMP message that icmp_send must not answer with an
    error. *)
Definition icmp_error_in (type : Z) (pkb_in : pid) (h : ip) : comp stack bool :=
  let* e := icmp_type_error type in
  if e && (ip_pro h =? IP_P_ICMP) then
    let* i := ld_at icmp pkb_in (ETH_HRD_SZ + iphlen h) in
    if ICMP_T_MAXNUM <? icmp_type i then ret true else icmp_type_error (icmp_type i)
  else ret false.

Definition icmp_send (type code data : Z) (pkb_in : pid) : comp stack unit :=
  let* h := ld_ip pkb_in in
  let paylen := _ntohs (ip_len h) in
  if paylen <? iphlen h + 8 then ret tt
  else
    let* k := ld pkb_in in
    if negb (pk_type k =? PKT_LOCALHOST) then ret tt
    else if MULTICAST (ip_dst h) || BROADCAST (ip_dst h) then ret tt
    else if negb (Z.land (ip_fragoff h) (_htons IP_FRAG_OFF) =? 0) then ret tt
    else
      let* e := icmp_error_in type pkb_in h in
      if e then ret tt else icmp_build type code data paylen pkb_in.

End Icmp.

(** ** The checksum of echo replies *)

(** The ICMP message after the stores of icmp_echo_request. *)
Definition echo_reply_bytes (d : list Z) : list Z :=
  let i := decode (slice d 0 ICMP_HRD_SZ) : icmp in
  patch d 0 (encode (mk_icmp ICMP_T_ECHORLY (icmp_code i) (echo_cksum (icmp_cksum i)) (icmp_undata i))).

Lemma wsum_cons2 b0 b1 r : wsum (b0 :: b1 :: r) = b0 + 256 * b1 + wsum r.
Proof. unfold wsum. cbn. lia. Qed.

Lemma wsum_zero r : bytes_ok r -> wsum r = 0 <-> Forall (eq 0) r.
Proof.
  induction r as [|b|b0 b1 r IH] using pair_ind; intros Hb.
  - done.
  - apply Forall_cons in Hb as [Hb _]. unfold wsum. cbn. rewrite Forall_singleton. lia.
  - apply Forall_cons in Hb as [H0 [H1 Hb]%Forall_cons]. unfold is_u8 in *.
    pose proof (wsum_nonneg r Hb). rewrite wsum_cons2, !Forall_cons, <- IH by done. lia.
Qed.

(** What the stores do to a message that is opened into its first bytes. *)
Lemma echo_reply_open b2 b3 u0 u1 u2 u3 r :
  bytes_ok (8 :: 0 :: b2 :: b3 :: u0 :: u1 :: u2 :: u3 :: r) ->
  echo_reply_bytes (8 :: 0 :: b2 :: b3 :: u0 :: u1 :: u2 :: u3 :: r) =
  0 :: 0 :: le_enc 2 (echo_cksum (b2 + 256 * b3)) ++ u0 :: u1 :: u2 :: u3 :: r.
Proof.
  intros Hb. split_bytes. unfold echo_reply_bytes.
  change (slice (8 :: 0 :: b2 :: b3 :: u0 :: u1 :: u2 :: u3 :: r) 0 ICMP_HRD_SZ)
    with [8; 0; b2; b3; u0; u1; u2; u3].
  set (c' := echo_cksum (icmp_cksum (decode [8; 0; b2; b3; u0; u1; u2; u3]))).
  replace (b2 + 256 * b3) with (b2 + 256 * (b3 + 256 * 0)) by lia.
  change (echo_cksum (b2 + 256 * (b3 + 256 * 0))) with c'.
  assert (E : encode (mk_icmp ICMP_T_ECHORLY (icmp_code (decode [8; 0; b2; b3; u0; u1; u2; u3])) c'
                (icmp_undata (decode [8; 0; b2; b3; u0; u1; u2; u3])))
              = 0 :: 0 :: le_enc 2 c' ++ [u0; u1; u2; u3]).
  { clearbody c'. struct_cbv. by bytes_eqs. }
  rewrite E. unfold patch. cbn [Z.to_nat take app length le_enc]. done.
Qed.

(** The reply that icmp_echo_request makes of an echo request that passed the
    checksum test passes the same test at the receiver, by the update of the old
    checksum alone, exactly when something behind the checksum field is not zero:
    for an all-zero identifier, sequence number and payload the update gives
    checksum 0 and the reply is rejected. *)
Lemma echo_reply_checksum (d : list Z) (Hb : bytes_ok d) (Hl : 8 <= zlen d <= 65535)
    (Ht : fld d 0 1 = ICMP_T_ECHOREQ) (Hc : fld d 1 1 = 0) (Hv : icmp_chksum d = 0) :
  icmp_chksum (echo_reply_bytes d) = 0 <-> ~ Forall (eq 0) (drop 4 d).
Proof.
  do 8 (destruct d as [|? d]; [unfold zlen in Hl; cbn in Hl; lia|]).
  cbv -[Z.mul Z.add] in Ht, Hc. rewrite Z.mul_0_r, Z.add_0_r in Ht, Hc. subst.
  rewrite echo_reply_open by done. cbn [drop]. split_bytes.
  set (r := z3 :: z4 :: z5 :: z6 :: d) in *.
  assert (Hr : bytes_ok r) by (repeat (apply Forall_cons; split; [done|]); done).
  rewrite <- wsum_zero by done. unfold icmp_chksum in *.
  assert (Hz : zlen r <= 65535) by (unfold zlen in *; subst r; cbn in *; lia).
  assert (Hw : 0 <= wsum r <= 2147450880).
  { pose proof (wsum_nonneg r Hr). pose proof (wsum_bound r Hr). zmod. }
  clearbody r. unfold is_u8 in *.
  assert (Hb' : bytes_ok (0 :: 0 :: le_enc 2 (echo_cksum (z1 + 256 * z2)) ++ r)).
  { do 2 (apply Forall_cons; split; [unfold is_u8; lia|]). apply bytes_ok_app. auto with tapip. }
  assert (Hc16 : is_u16 (echo_cksum (z1 + 256 * z2))) by (unfold echo_cksum; case_if; apply u16_range).
  assert (Hs : wsum (0 :: 0 :: le_enc 2 (echo_cksum (z1 + 256 * z2)) ++ r) =
               echo_cksum (z1 + 256 * z2) + wsum r).
  { cbn [le_enc app]. rewrite !wsum_cons2. unfold is_u16 in Hc16. zmod. }
  assert (Hb8 : bytes_ok (8 :: 0 :: z1 :: z2 :: r)).
  { do 4 (apply Forall_cons; split; [unfold is_u8; lia|]). done. }
  assert (is_u32 0) by (unfold is_u32; lia).
  rewrite checksum_zero_iff in Hv |- * by assumption.
  rewrite Hs. rewrite !wsum_cons2 in Hv. unfold is_u16 in Hc16.
  rewrite u32_small in Hv |- * by (unfold is_u32; lia).
  clear Hs Hb'. unfold echo_cksum, ICMP_T_ECHOREQ, u16, onec in *. revert Hv. repeat case_if; zmod.
Qed.
