(* ===== verification/IpFrag.v ===== *)
(** * IP reassembly: ip/ip_frag.c (the receiving half), struct fragment of
    include/ip.h *)

From stdpp Require Import prelude list gmap.
From Stdlib Require Import ZArith Lia.
From S2P Require Import Prelude Structs Checksum Route Pkb FastPipe ArpCache Stack Arp IpOut Icmp.

(** ** The code *)

Definition FRAG_COMPLETE : Z := 1.
Definition FRAG_FIRST_IN : Z := 2.
Definition FRAG_LAST_IN : Z := 4.
Definition FRAG_FL_IN : Z := 6.
Definition FRAG_TIME : Z := 30.

Definition set_frag_hlen (f : fragment) v := mk_fragment (frag_id f) (frag_src f) (frag_dst f) (frag_pro f) v (frag_rsize f) (frag_size f) (frag_ttl f) (frag_flags f) (frag_pkb f).
Definition set_frag_rsize (f : fragment) v := mk_fragment (frag_id f) (frag_src f) (frag_dst f) (frag_pro f) (frag_hlen f) v (frag_size f) (frag_ttl f) (frag_flags f) (frag_pkb f).
Definition set_frag_size (f : fragment) v := mk_fragment (frag_id f) (frag_src f) (frag_dst f) (frag_pro f) (frag_hlen f) (frag_rsize f) v (frag_ttl f) (frag_flags f) (frag_pkb f).
Definition set_frag_ttl (f : fragment) v := mk_fragment (frag_id f) (frag_src f) (frag_dst f) (frag_pro f) (frag_hlen f) (frag_rsize f) (frag_size f) v (frag_flags f) (frag_pkb f).
Definition set_frag_flags (f : fragment) v := mk_fragment (frag_id f) (frag_src f) (frag_dst f) (frag_pro f) (frag_hlen f) (frag_rsize f) (frag_size f) (frag_ttl f) v (frag_pkb f).
Definition set_frag_pkb (f : fragment) v := mk_fragment (frag_id f) (frag_src f) (frag_dst f) (frag_pro f) (frag_hlen f) (frag_rsize f) (frag_size f) (frag_ttl f) (frag_flags f) v.

Definition full_frag (f : fragment) : bool :=
  (Z.land (frag_flags f) FRAG_FL_IN =? FRAG_FL_IN) && (frag_rsize f =? frag_size f).
Definition complete_frag (f : fragment) : bool := negb (Z.land (frag_flags f) FRAG_COMPLETE =? 0).

(** Addresses of fragments: [frag_head] lists address and contents. *)
Definition fid : Type := nat.

Fixpoint frag_get (l : list (fid * fragment)) (i : fid) : option fragment :=
  match l with
  | [] => None
  | (j, f) :: r => if Nat.eqb j i then Some f else frag_get r i
  end.

Definition frag_put (l : list (fid * fragment)) (i : fid) (f : fragment) : list (fid * fragment) :=
  (fun jf => if Nat.eqb jf.1 i then (i, f) else jf) <$> l.

Definition frag_del (l : list (fid * fragment)) (i : fid) : list (fid * fragment) :=
  filter (fun jf => jf.1 <> i) l.

Definition ld_frag (i : fid) : comp stack fragment := fun s =>
  match frag_get (st_frag_head s) i with
  | Some f => Ret f s
  | None => Fault UseAfterFree
  end.

Definition upd_frag (i : fid) (g : fragment -> fragment) : comp stack unit :=
  let* f := ld_frag i in
  modify (fun s => set_frag_head (frag_put (st_frag_head s) i (g f)) s).

Definition new_frag (h : ip) : comp stack fid :=
  let* i := gets st_next_frag in
  modify (fun s => set_next_frag (S i)
    (set_frag_head ((i, mk_fragment (ip_id h) (ip_src h) (ip_dst h) (ip_pro h) 0 0 0 FRAG_TIME 0 [])
       :: st_frag_head s) s));;
  ret i.

(** The datagram is unlinked first, its packets are freed one by one. *)
Definition delete_frag (i : fid) : comp stack unit :=
  let* f := ld_frag i in
  modify (fun s => set_frag_head (frag_del (st_frag_head s) i) s);;
  for_each (frag_pkb f) free_pkb.

(** The copy loop of reass_frag: [p] is the offset in the new packet. *)
Fixpoint reass_copy (pkb : pid) (hlen p : Z) (l : list pid) : comp stack unit :=
  match l with
  | [] => ret tt
  | fragpkb :: r =>
      let* h := ld_ip fragpkb in
      let* d := ld_bytes fragpkb (ETH_HRD_SZ + hlen) (ip_len h - hlen) in
      st_bytes pkb p d;;
      reass_copy pkb hlen (p + (ip_len h - hlen)) r
  end.

Definition reass_frag (i : fid) : comp stack (option pid) :=
  let* f := ld_frag i in
  let hlen := frag_hlen f in
  let len := s32 (frag_hlen f + frag_size f) in
  if 65535 <? len then delete_frag i;; ret None
  else
    let* fragpkb := of_opt NullDeref (head (frag_pkb f)) in
    let* pkb := alloc_pkb (ETH_HRD_SZ + len) in
    upd pkb (fun k => set_pk_pro k ETH_P_IP);;
    let* d := ld_bytes fragpkb 0 (ETH_HRD_SZ + hlen) in
    st_bytes pkb 0 d;;
    upd_ip pkb (fun h => set_ip_len (set_ip_fragoff h 0) (u16 len));;
    reass_copy pkb hlen (ETH_HRD_SZ + hlen) (frag_pkb f);;
    delete_frag i;;
    ret (Some pkb).

(** The reverse search of insert_frag over the packets of the datagram, given
    last first: the packet behind which the new one goes. *)
Inductive search_result :=
  | Duplicate
  | Found (after : nat) (fraghdr : ip)   (* position counted from the front *)
  | NotFound.

Fixpoint insert_search (rev_pkbs : list pid) (off : Z) : comp stack search_result :=
  match rev_pkbs with
  | [] => ret NotFound
  | p :: r =>
      let* h := ld_ip p in
      if off =? ipoff h then ret Duplicate
      else if ipoff h <? off then ret (Found (length r) h)
      else insert_search r off
  end.

Definition insert_at (n : nat) (p : pid) (l : list pid) : list pid := take n l ++ p :: drop n l.

(** The label frag_out: link the packet at position [n], account for it. *)
Definition frag_out (i : fid) (pkb : pid) (n : nat) (h : ip) : comp stack Z :=
  upd_frag i (fun f =>
    let f := set_frag_pkb f (insert_at n pkb (frag_pkb f)) in
    let f := set_frag_rsize f (u32 (frag_rsize f + (ip_len h - iphlen h))) in
    if full_frag f then set_frag_flags f (Z.lor (frag_flags f) FRAG_COMPLETE) else f);;
  ret 0.

Definition frag_drop (pkb : pid) : comp stack Z := free_pkb pkb;; ret (-1).

(** From the label frag_found: [fraghdr] is the header of the packet before the
    new one, if there is one. *)
Definition frag_found (i : fid) (pkb : pid) (n : nat) (fraghdr : option ip) (h : ip) : comp stack Z :=
  let off := ipoff h in
  let hlen := iphlen h in
  let* f := ld_frag i in
  if negb (frag_hlen f =? 0) && negb (frag_hlen f =? hlen) then frag_drop pkb
  else
    upd_frag i (fun f => set_frag_hlen f hlen);;
    if match fraghdr with Some fh => off <? ipoff fh + ip_len fh - hlen | None => false end
    then frag_drop pkb
    else
      when (off =? 0) (upd_frag i (fun f => set_frag_flags f (Z.lor (frag_flags f) FRAG_FIRST_IN)));;
      frag_out i pkb n h.

Definition insert_frag (pkb : pid) (i : fid) : comp stack Z :=
  let* f := ld_frag i in
  if complete_frag f then frag_drop pkb
  else
    let* h := ld_ip pkb in
    let off := ipoff h in
    let hlen := iphlen h in
    if Z.land (ip_fragoff h) IP_FRAG_MF =? 0 then
      if negb (Z.land (frag_flags f) FRAG_LAST_IN =? 0) then frag_drop pkb
      else
        upd_frag i (fun f => set_frag_size (set_frag_flags f (Z.lor (frag_flags f) FRAG_LAST_IN))
                               (u32 (off + ip_len h - hlen)));;
        frag_out i pkb (length (frag_pkb f)) h
    else
      let* r := insert_search (rev (frag_pkb f)) off in
      match r with
      | Duplicate => frag_drop pkb
      | Found n fh => frag_found i pkb (S n) (Some fh) h
      | NotFound => frag_found i pkb 0 None h
      end.

Fixpoint lookup_frag_in (l : list (fid * fragment)) (h : ip) : option fid :=
  match l with
  | [] => None
  | (i, f) :: r =>
      if (frag_id f =? ip_id h) && (frag_pro f =? ip_pro h) && (frag_src f =? ip_src h)
         && (frag_dst f =? ip_dst h) then Some i
      else lookup_frag_in r h
  end.

Definition lookup_frag (h : ip) : comp stack (option fid) :=
  gets (fun s => lookup_frag_in (st_frag_head s) h).

Definition ip_reass (pkb : pid) : comp stack (option pid) :=
  let* h := ld_ip pkb in
  let* o := lookup_frag h in
  let* i := match o with Some i => ret i | None => new_frag h end in
  let* r := insert_frag pkb i in
  if r <? 0 then ret None
  else
    let* f := ld_frag i in
    if complete_frag f then reass_frag i else ret None.

Section Timer.
Context `{OS} `{Reentry}.

(** One turn of the loop of ip_timer. *)
Definition ip_timer_frag (delta : Z) (i : fid) : comp stack unit :=
  let* f := ld_frag i in
  if full_frag f then ret tt
  else
    upd_frag i (fun f => set_frag_ttl f (frag_ttl f - delta));;
    if frag_ttl f - delta <=? 0 then
      let* pkb := of_opt NullDeref (head (frag_pkb f)) in
      upd_ip pkb ip_ntoh;;
      icmp_send ICMP_T_TIMEEXCEED ICMP_EXC_FRAGTIME 0 pkb;;
      delete_frag i
    else ret tt.

Definition ip_timer (delta : Z) : comp stack unit :=
  let* l := gets st_frag_head in
  for_each (fst <$> l) (ip_timer_frag delta).

End Timer.
