(* ===== verification/Own.v ===== *)
(** * Ownership of packets: the invariant of the whole stack

    Every packet buffer is kept alive by references: its places in the queues of
    the ARP cache and of the reassembly lists, and the references held by running
    code and by the layers above.  [inv D s H] says that the reference count of
    every live buffer is exactly the number of its places in the queues plus the
    number of times it occurs in [H], the references held outside; and that the
    data of the queued packets, the caches and the tables are well formed.  [D] is
    the configuration of the devices, which does not change.

    The file also has the rules for the primitive operations. *)

From stdpp Require Import prelude list gmap sorting.
From Stdlib Require Import ZArith Lia.
From S2P Require Import Prelude Structs Checksum Route Pkb FastPipe ArpCache Sock Stack Arp IpOut Icmp IpFrag.

(** ** Packets *)

Definition hdr_of (k : pkbuf) : ip := decode (slice (pk_data k) ETH_HRD_SZ IP_HRD_SZ).
Definition eth_of (k : pkbuf) : ether := decode (slice (pk_data k) 0 ETH_HRD_SZ).

(** An IP packet without options, whose protocol is not UDP. *)
Record hdr_ok (k : pkbuf) : Prop := {
  ho_len : 34 <= pk_len k <= zlen (pk_data k);
  ho_hlen : ip_hlen (hdr_of k) = 5;
  ho_pro : ip_pro (hdr_of k) <> IP_P_UDP
}.

(** The length field in network order, and in host order. *)
Definition net_pkt (k : pkbuf) : Prop :=
  hdr_ok k /\ 20 <= _ntohs (ip_len (hdr_of k)) /\ 14 + _ntohs (ip_len (hdr_of k)) <= pk_len k.
Definition host_pkt (k : pkbuf) : Prop :=
  hdr_ok k /\ 20 <= ip_len (hdr_of k) /\ 14 + ip_len (hdr_of k) <= pk_len k.

(** A frame net_in can take. *)
Definition frame_ok (k : pkbuf) : Prop :=
  14 <= pk_len k <= zlen (pk_data k) /\ eth_pro (eth_of k) <> _htons ETH_P_RARP /\
  (eth_pro (eth_of k) = _htons ETH_P_IP -> 34 <= pk_len k ->
     ip_hlen (hdr_of k) <= 5 /\ ip_pro (hdr_of k) <> IP_P_UDP).

(** ** The invariant *)

(** No raw sock, no listening TCP sock and no TCP connection in the hash tables. *)
Record no_socks (v : sockstate) : Prop := {
  ns_raw : forall i, raw_hash_table v !!! i = [];
  ns_est : forall i, etable (tcp_st v) !!! i = [];
  ns_listen : forall i, ltable (tcp_st v) !!! i = []
}.

Definition arp_pkts (c : arpcache) : list pid := concat (ae_list <$> arp_cache c).
Definition frag_pkts (l : list (fid * fragment)) : list pid := concat ((fun jf => frag_pkb jf.2) <$> l).
Definition queued (s : stack) : list pid := arp_pkts (st_arp s) ++ frag_pkts (st_frag_head s).

Fixpoint occ (p : pid) (l : list pid) : Z :=
  match l with
  | [] => 0
  | q :: r => (if decide (q = p) then 1 else 0) + occ p r
  end.

(** The configuration of a device: all but its counters. *)
Definition cfg (v : netdev) : netdev := set_net_stats v zero_stats.

Definition dev_ok (v : netdev) : Prop :=
  68 <= net_mtu v /\ hwaddr_ok (net_hwaddr v) /\ is_u32 (net_ipaddr v).

Definition pipe_ok (cb : circular_buffer_t) : Prop := cb_inv cb /\ exists ps, holds cb ps.

(** The offsets of the fragments in a list, and the bytes they carry. *)
Definition off_of (m : gmap nat pkbuf) (p : pid) : Z := from_option (fun k => ipoff (hdr_of k)) 0 (m !! p).
Definition size_of (m : gmap nat pkbuf) (p : pid) : Z :=
  from_option (fun k => ip_len (hdr_of k) - 20) 0 (m !! p).
Definition total (m : gmap nat pkbuf) (l : list pid) : Z := foldr Z.add 0 (size_of m <$> l).
Definition sorted_offs (m : gmap nat pkbuf) (l : list pid) : Prop := StronglySorted Z.lt (off_of m <$> l).

Record frag_ok (m : gmap nat pkbuf) (f : fragment) : Prop := {
  fo_hlen : frag_hlen f = 0 \/ frag_hlen f = 20;
  fo_first : Z.land (frag_flags f) FRAG_FIRST_IN <> 0 -> frag_hlen f = 20;
  fo_size : 0 <= frag_size f <= 131072;
  fo_rsize : frag_rsize f = total m (frag_pkb f);
  fo_sorted : exists A B, frag_pkb f = A ++ B /\ sorted_offs m A /\ sorted_offs m B /\
                (Z.land (frag_flags f) FRAG_LAST_IN = 0 -> B = [])
}.

(** A datagram in the list has packets. *)
Definition frag_inv (m : gmap nat pkbuf) (f : fragment) : Prop := frag_ok m f /\ frag_pkb f <> [].

Section Inv.
Context (D : gmap devid netdev).

Record inv (s : stack) (H : list pid) : Prop := {
  i_mem : mem_inv (st_pkmem s);
  i_ref : forall p k, live s p k -> pk_refcnt k = occ p (queued s ++ H);
  i_live : forall p, p ∈ queued s ++ H -> exists k, live s p k;
  i_nodup : NoDup (queued s);
  i_rtdst : forall p k rt, live s p k -> pk_rtdst k = Some rt -> is_Some (D !! rt_dev rt);
  i_dev : cfg <$> st_netdevs s = D;
  i_rt : Forall (fun rt => is_Some (D !! rt_dev rt)) (st_rt_head s);
  i_arp : cache_inv (st_arp s);
  i_arp_dev : Forall (fun e => ae_state e <> ARP_FREE -> exists d, ae_dev e = Some d /\ is_Some (D !! d))
                (arp_cache (st_arp s));
  i_arpq : forall p k, p ∈ arp_pkts (st_arp s) -> live s p k -> net_pkt k /\ pk_pro k = ETH_P_IP;
  i_fragq : forall p k, p ∈ frag_pkts (st_frag_head s) -> live s p k -> host_pkt k;
  i_frag : Forall (fun jf => frag_inv (pkbs (st_pkmem s)) jf.2) (st_frag_head s);
  i_frag_ids : NoDup (fst <$> st_frag_head s) /\
               Forall (fun jf => (jf.1 < st_next_frag s)%nat) (st_frag_head s);
  i_shm : map_Forall (fun _ v => pipe_ok (cb_atob v) /\ pipe_ok (cb_btoa v)) (st_shm s);
  i_seg : forall d v seg side, D !! d = Some v -> net_ops v = shmeth_ops seg side -> is_Some (st_shm s !! seg);
  i_socks : no_socks (st_sock s)
}.

(** The packets of [K] are in no queue. *)
Definition unqueued (s : stack) (K : list pid) : Prop := forall q, q ∈ K -> q ∉ queued s.

(** Entries of the ARP cache in use stay in use. *)
Definition arp_mono (s s' : stack) : Prop :=
  forall i, ae_state (arp_cache (st_arp s) !!! i) <> ARP_FREE ->
            ae_state (arp_cache (st_arp s') !!! i) <> ARP_FREE.

(** What the code relies on when it calls into the stack with references [H] of
    its own, of which those to [K] are to packets it goes on using. *)
Definition ready (s : stack) (H K : list pid) : Prop := inv s H /\ unqueued s K /\ K ⊆ H.

(** What it gets back: the invariant for the references that are left, and the
    packets of [K] untouched. *)
Definition kept (s : stack) (H K : list pid) (s' : stack) : Prop :=
  inv s' H /\ unqueued s' K /\ (forall q, q ∈ K -> pkbs (st_pkmem s') !! q = pkbs (st_pkmem s) !! q) /\
  arp_mono s s'.

(** A function that takes over one reference to the packet [p]. *)
Definition consumes (f : pid -> comp stack unit) (P : pkbuf -> Prop) : Prop :=
  forall s p k H K, ready s (p :: H) (p :: K) -> p ∉ K -> live s p k -> P k ->
    wp (f p) (fun _ => kept s H K) s.

End Inv.

(** ** Packets: headers under stores *)

Section Headers.
Implicit Types (k : pkbuf) (h : ip).

Definition store k (off : Z) (d : list Z) : pkbuf := set_pk_data k (patch (pk_data k) off d).
Definition store_ip k h : pkbuf := store k ETH_HRD_SZ (encode h).

Lemma ip_encode_len h : zlen (encode h) = 20.
Proof. cbn -[le_enc]. by autorewrite with bytes. Qed.

Lemma ip_encode_ok h : bytes_ok (encode h).
Proof. cbn -[le_enc]. rewrite !bytes_ok_app. split_and!; auto with tapip. Qed.

Lemma icmp_encode_len (i : icmp) : zlen (encode i) = 8 /\ bytes_ok (encode i).
Proof.
  cbn -[le_enc]. split; [by autorewrite with bytes|]. rewrite !bytes_ok_app. split_and!; auto with tapip.
Qed.

Lemma arp_encode_len (a : arp) : hwaddr_ok (arp_sha a) -> hwaddr_ok (arp_tha a) ->
  zlen (encode a) = 28 /\ bytes_ok (encode a).
Proof.
  intros [Hb1 Hl1] [Hb2 Hl2]. cbn -[le_enc]. split; [autorewrite with bytes; unfold zlen; lia|].
  rewrite !bytes_ok_app. split_and!; auto with tapip.
Qed.

Lemma store_len k off d : 0 <= off -> off + zlen d <= zlen (pk_data k) ->
  zlen (pk_data (store k off d)) = zlen (pk_data k).
Proof. apply zlen_patch. Qed.

Lemma store_ip_len k h : 34 <= zlen (pk_data k) -> zlen (pk_data (store_ip k h)) = zlen (pk_data k).
Proof.
  intros. apply store_len; [done|]. rewrite ip_encode_len. change ETH_HRD_SZ with 14. lia.
Qed.

Lemma hdr_wf k : bytes_ok (pk_data k) -> 34 <= zlen (pk_data k) -> wf_struct (hdr_of k).
Proof.
  intros Hb Hl. apply decode_wf; [by apply bytes_ok_slice|].
  transitivity IP_HRD_SZ; [|done]. apply zlen_slice; change ETH_HRD_SZ with 14; change IP_HRD_SZ with 20; lia.
Qed.

Lemma hdr_store k h : 34 <= zlen (pk_data k) -> wf_struct h -> hdr_of (store_ip k h) = h.
Proof.
  intros Hl Hw. unfold hdr_of, store_ip, store. cbn [pk_data set_pk_data].
  rewrite slice_patch_eq; [by apply decode_encode|done|by rewrite ip_encode_len|].
  rewrite ip_encode_len. change ETH_HRD_SZ with 14. lia.
Qed.

Lemma hdr_before k off d : 0 <= off -> off + zlen d <= 14 -> 34 <= zlen (pk_data k) ->
  hdr_of (store k off d) = hdr_of k.
Proof.
  intros. unfold hdr_of, store. cbn [pk_data set_pk_data].
  rewrite slice_patch_after; [done|done|change ETH_HRD_SZ with 14; lia|lia].
Qed.

Lemma hdr_after k off d : 34 <= off -> off <= zlen (pk_data k) -> hdr_of (store k off d) = hdr_of k.
Proof.
  intros. unfold hdr_of, store. cbn [pk_data set_pk_data].
  rewrite slice_patch_before; [done|done|done| |done]. change ETH_HRD_SZ with 14. change IP_HRD_SZ with 20. lia.
Qed.

(** Changing the byte order of the header. *)
Lemma ip_ntoh_wf h : wf_struct h -> wf_struct (ip_ntoh h).
Proof. intros Hw. cbn in Hw |- *. destruct_and! Hw. split_and!; auto with tapip; lia. Qed.

Lemma host_net k : bytes_ok (pk_data k) -> host_pkt k -> net_pkt (store_ip k (ip_ntoh (hdr_of k))).
Proof.
  intros Hb ([Hl Hh Hp] & H1 & H2). pose proof (hdr_wf k Hb ltac:(lia)) as Hw.
  unfold net_pkt. rewrite hdr_store by (auto using ip_ntoh_wf; lia). cbn [ip_len ip_ntoh set_ip_fragoff].
  cbn in Hw. unfold _ntohs. rewrite htons_involutive by tauto.
  split_and!; [split|done|done].
  - rewrite store_ip_len by lia. done.
  - rewrite hdr_store by (auto using ip_ntoh_wf; lia). done.
  - rewrite hdr_store by (auto using ip_ntoh_wf; lia). done.
Qed.

End Headers.

(** ** Occurrences *)

Lemma elem_of_concat {A} (x : A) ll : x ∈ concat ll <-> exists l, l ∈ ll /\ x ∈ l.
Proof.
  rewrite list_elem_of_In, in_concat. by setoid_rewrite list_elem_of_In.
Qed.

Lemma occ_app p l l' : occ p (l ++ l') = occ p l + occ p l'.
Proof. induction l as [|q l IH]; simpl; lia. Qed.

Lemma occ_nonneg p l : 0 <= occ p l.
Proof. induction l as [|q l IH]; simpl; [done|]. case_decide; lia. Qed.

Lemma occ_not p l : p ∉ l -> occ p l = 0.
Proof.
  induction l as [|q l IH]; simpl; [done|]. intros [Hne Hn]%not_elem_of_cons.
  rewrite decide_False, IH by done. done.
Qed.

Lemma occ_in p l : p ∈ l -> 1 <= occ p l.
Proof.
  induction 1 as [q l|q r l Hin IH]; simpl; pose proof (occ_nonneg q l); case_decide; try lia; done.
Qed.

Lemma occ_perm p l l' : l ≡ₚ l' -> occ p l = occ p l'.
Proof. induction 1; simpl; lia. Qed.

(** ** Live packets *)

Lemma live_with_iff (s : stack) p k q kq :
  live (with_pkb s p k) q kq <-> (q = p /\ kq = k) \/ (q <> p /\ live s q kq).
Proof.
  unfold live, with_pkb. rewrite st_set_mem. cbn [pkbs]. rewrite lookup_insert_Some. intuition congruence.
Qed.

Lemma lookup_with (s : stack) p k q : q <> p ->
  pkbs (st_pkmem (with_pkb s p k)) !! q = pkbs (st_pkmem s) !! q.
Proof. intros. cbn. by rewrite lookup_insert_ne. Qed.

Lemma lookup_with_eq (s : stack) p k : pkbs (st_pkmem (with_pkb s p k)) !! p = Some k.
Proof. cbn. apply lookup_insert_eq. Qed.

Lemma frag_ok_ext m m' f :
  (forall p, p ∈ frag_pkb f -> off_of m' p = off_of m p /\ size_of m' p = size_of m p) ->
  frag_ok m f -> frag_ok m' f.
Proof.
  intros He [H1 H2 H3 H4 (A & B & EAB & HA & HB & HL)].
  assert (Hm : forall l, l ⊆ frag_pkb f -> off_of m' <$> l = off_of m <$> l).
  { intros l Hl. apply list_fmap_ext. intros i x Hx. apply He, Hl. by eapply list_elem_of_lookup_2. }
  split; auto.
  - rewrite H4. unfold total. f_equal. apply list_fmap_ext. intros i x Hx. symmetry. apply He.
    by eapply list_elem_of_lookup_2.
  - exists A, B. unfold sorted_offs. rewrite !Hm by (rewrite EAB; set_solver). done.
Qed.

Lemma frag_inv_ext m m' f :
  (forall p, p ∈ frag_pkb f -> off_of m' p = off_of m p /\ size_of m' p = size_of m p) ->
  frag_inv m f -> frag_inv m' f.
Proof. intros He (H1 & H2). split; [by eapply frag_ok_ext|done]. Qed.

Lemma frag_pkts_elem l jf p : jf ∈ l -> p ∈ frag_pkb jf.2 -> p ∈ frag_pkts l.
Proof.
  intros Hin Hp. unfold frag_pkts. apply elem_of_concat. exists (frag_pkb jf.2). split; [|done].
  by apply (list_elem_of_fmap_2 (fun jf => frag_pkb jf.2)).
Qed.

Section InvRules.
Context (D : gmap devid netdev).
Implicit Types (s : stack) (p q : pid) (k : pkbuf) (H K : list pid).

Notation inv := (inv D).
Notation ready := (ready D).
Notation kept := (kept D).
Notation fresh s := (next_pid (st_pkmem s)).

Lemma inv_bytes s H p k : inv s H -> live s p k -> bytes_ok (pk_data k).
Proof. intros Hi Hk. apply (mi_bytes _ (i_mem _ _ _ Hi) p k Hk). Qed.

Lemma inv_ref_pos s H p k : inv s H -> live s p k -> 1 <= pk_refcnt k.
Proof. intros Hi Hk. apply (mi_ref _ (i_mem _ _ _ Hi) p k Hk). Qed.

(** *** Stores to a packet *)

(** A buffer of no queue may change in any way but its reference count; a queued
    one keeps what the queues rely on. *)
Lemma inv_put_gen s H H' p k k' :
  inv s H -> live s p k -> 1 <= pk_refcnt k' -> pk_refcnt k' = occ p (queued s ++ H') ->
  (forall q, q <> p -> occ q H' = occ q H) -> (forall q, q ∈ H' -> q = p \/ q ∈ H) ->
  bytes_ok (pk_data k') ->
  (forall rt, pk_rtdst k' = Some rt -> is_Some (D !! rt_dev rt)) ->
  (p ∈ queued s -> hdr_of k' = hdr_of k /\ pk_len k' = pk_len k /\ zlen (pk_data k') = zlen (pk_data k) /\
     pk_pro k' = pk_pro k) ->
  inv (with_pkb s p k') H'.
Proof.
  intros Hi Hk Hr1 Hr Hocc Hsub Hb Hrt Hq. destruct (Hi) as [].
  assert (Hq' : forall q kq, live (with_pkb s p k') q kq -> q ∈ queued s -> exists kq0, live s q kq0 /\
            hdr_of kq = hdr_of kq0 /\ pk_len kq = pk_len kq0 /\ zlen (pk_data kq) = zlen (pk_data kq0) /\
            pk_pro kq = pk_pro kq0).
  { intros q kq [[-> ->]|[Hne Hl]]%live_with_iff Hin; [exists k; by split; [|apply Hq]|exists kq; by split_and!]. }
  split; auto.
  - eapply mem_step_inv; [|exact i_mem0]. eapply step_put; [exact Hk|done|done].
  - intros q kq [[-> ->]|[Hne Hl]]%live_with_iff; [done|].
    change (queued (with_pkb s p k')) with (queued s).
    rewrite (i_ref0 q kq Hl), !occ_app, Hocc by done. done.
  - intros q. change (queued (with_pkb s p k')) with (queued s). intros Hin.
    destruct (decide (q = p)) as [->|Hne].
    + exists k'. apply live_with_iff. by left.
    + destruct (i_live0 q) as [kq Hkq].
      { apply elem_of_app in Hin as [Hin|Hin]; [by apply elem_of_app; left|].
        destruct (Hsub q Hin); [done|by apply elem_of_app; right]. }
      exists kq. apply live_with_iff. by right.
  - intros q kq rt [[-> ->]|[Hne Hl]]%live_with_iff; [apply Hrt|by apply (i_rtdst0 q)].
  - intros q kq Hin Hl. destruct (Hq' q kq Hl) as (k0 & Hl0 & Eh & El & Ez & Ep); [set_solver|].
    destruct (i_arpq0 q k0 Hin Hl0) as [([] & ? & ?) ?]. unfold net_pkt.
    rewrite Eh, El, Ep. split_and!; auto. split; rewrite ?Eh, ?El, ?Ez; auto.
  - intros q kq Hin Hl. destruct (Hq' q kq Hl) as (k0 & Hl0 & Eh & El & Ez & Ep); [set_solver|].
    destruct (i_fragq0 q k0 Hin Hl0) as ([] & ? & ?). unfold host_pkt.
    rewrite Eh, El. split_and!; auto. split; rewrite ?Eh, ?El, ?Ez; auto.
  - apply Forall_forall. intros jf Hin. rewrite Forall_forall in i_frag0.
    eapply frag_inv_ext; [|by apply i_frag0]. intros q Hqf. unfold off_of, size_of.
    assert (Hin' : q ∈ frag_pkts (st_frag_head s)) by by eapply frag_pkts_elem.
    destruct (decide (q = p)) as [->|Hne]; [|by rewrite lookup_with].
    assert (Hpq : p ∈ queued s) by set_solver. destruct (Hq Hpq) as (Eh & _).
    rewrite lookup_with_eq, (Hk : pkbs (st_pkmem s) !! p = Some k). cbn [from_option]. by rewrite Eh.
Qed.

Lemma inv_put s H p k k' :
  inv s H -> live s p k -> pk_refcnt k' = pk_refcnt k -> bytes_ok (pk_data k') ->
  (forall rt, pk_rtdst k' = Some rt -> is_Some (D !! rt_dev rt)) ->
  (p ∈ queued s -> hdr_of k' = hdr_of k /\ pk_len k' = pk_len k /\ zlen (pk_data k') = zlen (pk_data k) /\
     pk_pro k' = pk_pro k) ->
  inv (with_pkb s p k') H.
Proof.
  intros Hi Hk Hr Hb Hrt Hq. eapply (inv_put_gen s H H); eauto; rewrite Hr.
  - by eapply inv_ref_pos.
  - by eapply i_ref.
Qed.

(** Taking and dropping a reference. *)
Lemma inv_recount s H H' p k c :
  inv s H -> live s p k -> 1 <= c -> c = occ p (queued s ++ H') ->
  (forall q, q <> p -> occ q H' = occ q H) -> (forall q, q ∈ H' -> q = p \/ q ∈ H) ->
  inv (with_pkb s p (set_pk_refcnt k c)) H'.
Proof.
  intros Hi Hk Hc He Ho Hs. eapply (inv_put_gen s H H' p k); auto.
  - by apply (inv_bytes s H p k).
  - intros rt. by apply (i_rtdst _ _ _ Hi p k rt).
Qed.

Lemma inv_delete s H p k :
  inv s (p :: H) -> live s p k -> pk_refcnt k = 1 -> inv (without_pkb s p) H.
Proof.
  intros Hi Hk Hr. destruct (Hi) as [].
  pose proof (i_ref0 p k Hk) as Hocc. rewrite Hr, occ_app in Hocc. simpl in Hocc.
  rewrite decide_True in Hocc by done.
  assert (Hnq : p ∉ queued s) by (intros Hin; apply occ_in in Hin; pose proof (occ_nonneg p H); lia).
  assert (HnH : p ∉ H) by (intros Hin; apply occ_in in Hin; pose proof (occ_nonneg p (queued s)); lia).
  assert (Hlive : forall q kq, live (without_pkb s p) q kq <-> q <> p /\ live s q kq).
  { intros q kq. unfold live. cbn. rewrite lookup_delete_Some. intuition congruence. }
  split; auto.
  - eapply mem_step_inv; [|exact i_mem0]. by eapply step_free.
  - intros q kq [Hne Hl]%Hlive. change (queued (without_pkb s p)) with (queued s).
    rewrite (i_ref0 q kq Hl), !occ_app. simpl. rewrite decide_False by (intros Epq; by apply Hne). lia.
  - intros q. change (queued (without_pkb s p)) with (queued s). intros Hin.
    destruct (i_live0 q) as [kq Hkq]; [set_solver|]. exists kq. apply Hlive. split; [|done].
    intros ->. set_solver.
  - intros q kq rt [Hne Hl]%Hlive. by apply (i_rtdst0 q kq rt).
  - intros q kq Hin [Hne Hl]%Hlive. by apply (i_arpq0 q).
  - intros q kq Hin [Hne Hl]%Hlive. by apply (i_fragq0 q).
  - apply Forall_forall. intros jf Hin. rewrite Forall_forall in i_frag0.
    eapply frag_inv_ext; [|by apply i_frag0]. intros q Hqf. unfold off_of, size_of. cbn.
    rewrite lookup_delete_ne; [done|]. intros <-. apply Hnq. unfold queued. apply elem_of_app. right.
    by eapply frag_pkts_elem.
Qed.

Lemma kept_refl s H K : ready s H K -> kept s H K s.
Proof. intros (Hi & Hu & _). split_and!; [done|done|done|]. by intros i. Qed.

(** States that differ only where the holder of [K] does not look. *)
Lemma kept_from s s1 H K s' :
  (forall q, q ∈ K -> pkbs (st_pkmem s1) !! q = pkbs (st_pkmem s) !! q) -> arp_mono s s1 ->
  kept s1 H K s' -> kept s H K s'.
Proof.
  intros Hl Hm (Hi & Hu & Hs & Hm'). split_and!; [done|done| |].
  - intros q Hq. rewrite Hs by done. by apply Hl.
  - intros i Hne. by apply Hm', Hm.
Qed.

Lemma kept_with s p k' H K s' : p ∉ K -> kept (with_pkb s p k') H K s' -> kept s H K s'.
Proof.
  intros Hp. apply kept_from; [|by intros i]. intros q Hq. apply lookup_with. by intros ->.
Qed.

Lemma ready_put s H K p k k' :
  ready s (p :: H) (p :: K) -> live s p k -> pk_refcnt k' = pk_refcnt k -> bytes_ok (pk_data k') ->
  (forall rt, pk_rtdst k' = Some rt -> is_Some (D !! rt_dev rt)) ->
  ready (with_pkb s p k') (p :: H) (p :: K).
Proof.
  intros (Hi & Hu & Hs) Hk Hr Hb Hrt. split_and!; [|done|done].
  eapply inv_put; eauto. intros Hin. exfalso. apply (Hu p); set_solver.
Qed.

(** Keeping the route and the reference count is common. *)
Lemma ready_store s H K p k off d :
  ready s (p :: H) (p :: K) -> live s p k -> bytes_ok d ->
  ready (with_pkb s p (store k off d)) (p :: H) (p :: K).
Proof.
  intros Hr Hk Hd. eapply ready_put; [done|done|done| |].
  - cbn. apply bytes_ok_patch; [|done]. eapply inv_bytes; [apply Hr|done].
  - intros rt Hrt. by apply (i_rtdst _ _ _ (proj1 Hr) p k).
Qed.

(** *** Allocation *)

Definition with_new s k : stack :=
  let m := st_pkmem s in
  set_pkmem (mk_pkmem (<[next_pid m := k]> (pkbs m)) (S (next_pid m)) (alloc_pkbs m + 1) (free_pkbs m)) s.

Lemma wp_new_pkb s k (Q : pid -> stack -> Prop) :
  Q (next_pid (st_pkmem s)) (with_new s k) -> wp (new_pkb k) Q s.
Proof. intros HQ. unfold wp, new_pkb. cbn. by case_if. Qed.

Lemma new_fresh s H q : inv s H -> q ∈ queued s ++ H -> q <> next_pid (st_pkmem s).
Proof.
  intros Hi Hq ->. destruct (i_live _ _ _ Hi _ Hq) as [k Hk]. unfold live in Hk. cbn in Hk.
  by rewrite (mi_fresh _ (i_mem _ _ _ Hi)) in Hk.
Qed.

Lemma live_new_iff s k q kq :
  live (with_new s k) q kq <->
  (q = next_pid (st_pkmem s) /\ kq = k) \/ (q <> next_pid (st_pkmem s) /\ live s q kq).
Proof. unfold live. cbn. rewrite lookup_insert_Some. intuition congruence. Qed.

Lemma inv_new s H k :
  inv s H -> pk_refcnt k = 1 -> pk_rtdst k = None -> bytes_ok (pk_data k) ->
  inv (with_new s k) (next_pid (st_pkmem s) :: H).
Proof.
  intros Hi Hr Hrt Hb. destruct (Hi) as [].
  assert (Hp : fresh s ∉ queued s ++ H) by (intros Hin; by apply (new_fresh s H (fresh s))).
  assert (Hne : forall q, q ∈ queued s -> q <> fresh s) by (intros q Hq E; rewrite E in Hq; set_solver).
  split; auto.
  - eapply mem_step_inv; [|exact i_mem0]. apply step_new; [lia|done].
  - intros q kq [[-> ->]|[Hq Hl]]%live_new_iff.
    + change (queued (with_new s k)) with (queued s). rewrite occ_app. simpl. rewrite decide_True by done.
      assert (occ (fresh s) (queued s ++ H) = 0) as E by by apply occ_not. rewrite occ_app in E. lia.
    + change (queued (with_new s k)) with (queued s). rewrite (i_ref0 q kq Hl), !occ_app. simpl.
      rewrite decide_False by (intros Epq; by apply Hq). lia.
  - intros q. change (queued (with_new s k)) with (queued s). intros Hq.
    destruct (decide (q = fresh s)) as [->|Hqp].
    + exists k. apply live_new_iff. by left.
    + destruct (i_live0 q) as [kq Hkq]; [set_solver|]. exists kq. apply live_new_iff. by right.
  - intros q kq rt [[-> ->]|[Hq Hl]]%live_new_iff Ert; [congruence|by apply (i_rtdst0 q kq rt)].
  - intros q kq Hin [[-> ->]|[Hq Hl]]%live_new_iff; [|by apply (i_arpq0 q)].
    exfalso. apply Hp. unfold queued. set_solver.
  - intros q kq Hin [[-> ->]|[Hq Hl]]%live_new_iff; [|by apply (i_fragq0 q)].
    exfalso. apply Hp. unfold queued. set_solver.
  - apply Forall_forall. intros jf Hin. rewrite Forall_forall in i_frag0.
    eapply frag_inv_ext; [|by apply i_frag0]. intros q Hqf. unfold off_of, size_of. cbn.
    rewrite lookup_insert_ne; [done|]. intros E. apply (Hne q); [|done].
    unfold queued. apply elem_of_app. right. by eapply frag_pkts_elem.
Qed.

(** A new buffer with zeroed data, owned by the caller. *)
Definition zero_pkb (size : Z) : pkbuf := mk_pkbuf 0xffff 0 size 1 None None None (replicate (Z.to_nat size) 0).

Lemma wp_alloc s H K size (Q : pid -> stack -> Prop) :
  ready s H K ->
  (forall p s', ready s' (p :: H) (p :: K) -> p ∉ H -> p ∉ queued s -> live s' p (zero_pkb size) ->
     (forall q, q ∈ queued s ++ H -> pkbs (st_pkmem s') !! q = pkbs (st_pkmem s) !! q) ->
     st_arp s' = st_arp s -> st_rt_head s' = st_rt_head s -> st_frag_head s' = st_frag_head s ->
     Q p s') ->
  wp (alloc_pkb size) Q s.
Proof.
  intros (Hi & Hu & Hs) HQ. unfold alloc_pkb. apply wp_new_pkb.
  assert (Hf : forall q, q ∈ queued s ++ H -> q <> next_pid (st_pkmem s)) by (intros q; by eapply new_fresh).
  apply HQ; auto.
  - split_and!; [|intros q [->|Hq]%elem_of_cons|set_solver].
    + apply inv_new; auto. cbn. apply bytes_ok_zeros.
    + intros Hin. by apply (Hf (next_pid (st_pkmem s))); [apply elem_of_app; left|].
    + by apply Hu.
  - intros Hin. by apply (Hf (next_pid (st_pkmem s))); [apply elem_of_app; right|].
  - intros Hin. by apply (Hf (next_pid (st_pkmem s))); [apply elem_of_app; left|].
  - apply live_new_iff. by left.
  - intros q Hq. cbn. rewrite lookup_insert_ne; [done|]. intros E. by apply (Hf q).
Qed.

(** *** Reference counts *)

(** free_pkb drops one reference, whoever else has one. *)
Lemma wp_free s H p (Q : unit -> stack -> Prop) :
  inv s (p :: H) ->
  (forall s', inv s' H -> queued s' = queued s -> st_arp s' = st_arp s ->
     (forall q, q <> p -> pkbs (st_pkmem s') !! q = pkbs (st_pkmem s) !! q) -> Q tt s') ->
  wp (free_pkb p) Q s.
Proof.
  intros Hi HQ. destruct (i_live _ _ _ Hi p ltac:(set_solver)) as [k Hk].
  pose proof (inv_ref_pos _ _ _ _ Hi Hk) as Hpos. pose proof (i_ref _ _ _ Hi p k Hk) as Hocc.
  rewrite occ_app in Hocc. simpl in Hocc. rewrite decide_True in Hocc by done.
  eapply wp_ok; [by apply free_pkb_ok|]. case_if.
  - apply HQ; [|done|done|].
    + eapply inv_delete; [done|done|lia].
    + intros q Hq. cbn. by rewrite lookup_delete_ne.
  - apply HQ; [|done|done|].
    + eapply inv_recount; [done|done|lia|rewrite occ_app; lia| |set_solver].
      intros q Hq. simpl. rewrite decide_False by (intros Epq; by apply Hq). lia.
    + intros q Hq. by apply lookup_with.
Qed.

Lemma free_consumes : consumes D free_pkb (fun _ => True).
Proof.
  intros s p k H K (Hi & Hu & Hs) HpK Hk _. apply (wp_free s H p); [done|].
  intros s' Hi' Hq Ha Hl. split_and!; [done| | |].
  - intros q Hq'. rewrite Hq. apply Hu. set_solver.
  - intros q Hq'. apply Hl. by intros ->.
  - intros i. by rewrite Ha.
Qed.

Lemma inv_get s H p k :
  inv s (p :: H) -> live s p k -> inv (with_pkb s p (set_pk_refcnt k (pk_refcnt k + 1))) (p :: p :: H).
Proof.
  intros Hi Hk. pose proof (inv_ref_pos _ _ _ _ Hi Hk). pose proof (i_ref _ _ _ Hi p k Hk) as Hocc.
  rewrite occ_app in Hocc. simpl in Hocc. rewrite decide_True in Hocc by done.
  eapply inv_recount; [done|done|lia| | |set_solver].
  - rewrite occ_app. simpl. rewrite !decide_True by done. lia.
  - intros q Hq. simpl. rewrite !decide_False by (intros Epq; by apply Hq). lia.
Qed.

(** *** Parts of the state the invariant does not look at, or only in part *)

Lemma inv_wire s H w : inv s H -> inv (set_wire w s) H.
Proof. intros []. by split. Qed.

Lemma inv_ipid s H v : inv s H -> inv (set_ipid v s) H.
Proof. intros []. by split. Qed.

Lemma inv_shm_put s H seg v :
  inv s H -> pipe_ok (cb_atob v) -> pipe_ok (cb_btoa v) ->
  inv (set_shm (<[seg := v]> (st_shm s)) s) H.
Proof.
  intros [] Ha Hb. split; auto; cbn.
  - by apply map_Forall_insert_2.
  - intros d w sg side Hd Ho. destruct (decide (sg = seg)) as [->|Hne].
    + rewrite lookup_insert_eq. by eexists.
    + rewrite lookup_insert_ne by done. by eapply i_seg0.
Qed.

Lemma inv_dev s H d v : inv s H -> D !! d = Some v -> exists v', st_netdevs s !! d = Some v' /\ cfg v' = v.
Proof.
  intros Hi Hd. rewrite <- (i_dev _ _ _ Hi), lookup_fmap in Hd.
  destruct (st_netdevs s !! d) as [v'|]; [|done]. injection Hd as <-. by exists v'.
Qed.

(** Device counters. *)
Lemma wp_upd_stats s H d f (Q : unit -> stack -> Prop) :
  inv s H -> is_Some (D !! d) ->
  (forall s', inv s' H -> st_pkmem s' = st_pkmem s -> st_arp s' = st_arp s -> queued s' = queued s -> Q tt s') ->
  wp (upd_stats d f) Q s.
Proof.
  intros Hi [v Hd] HQ. destruct (inv_dev s H d v Hi Hd) as (v' & Hv' & Ec).
  unfold upd_stats. apply wp_bind. unfold ld_dev, wp at 1. rewrite Hv'. apply wp_modify.
  apply HQ; auto. destruct Hi. split; auto. cbn. rewrite fmap_insert.
  rewrite insert_id; [done|]. rewrite i_dev0, Hd. by f_equal.
Qed.

Lemma wp_ld_dev s H d v (Q : netdev -> stack -> Prop) :
  inv s H -> D !! d = Some v -> (forall v', cfg v' = v -> Q v' s) -> wp (ld_dev d) Q s.
Proof.
  intros Hi Hd HQ. destruct (inv_dev s H d v Hi Hd) as (v' & Hv' & Ec).
  unfold ld_dev, wp. rewrite Hv'. by apply HQ.
Qed.

(** *** Access *)

Lemma wp_ld s p k (Q : pkbuf -> stack -> Prop) : live s p k -> Q k s -> wp (ld p) Q s.
Proof. intros Hk HQ. eapply wp_ok; [by apply ld_ok|done]. Qed.

Lemma wp_upd s p k f (Q : unit -> stack -> Prop) : live s p k -> Q tt (with_pkb s p (f k)) -> wp (upd p f) Q s.
Proof. intros Hk HQ. eapply wp_ok; [by apply upd_ok|done]. Qed.

Lemma wp_ld_bytes s p k off n (Q : list Z -> stack -> Prop) :
  live s p k -> 0 <= off -> 0 <= n -> off + n <= zlen (pk_data k) ->
  Q (slice (pk_data k) off n) s -> wp (ld_bytes p off n) Q s.
Proof. intros. eapply wp_ok; [by apply ld_bytes_ok|done]. Qed.

Lemma wp_st_bytes s p k off d (Q : unit -> stack -> Prop) :
  live s p k -> 0 <= off -> off + zlen d <= zlen (pk_data k) ->
  Q tt (with_pkb s p (store k off d)) -> wp (st_bytes p off d) Q s.
Proof. intros. eapply wp_ok; [by apply st_bytes_ok|done]. Qed.

Lemma ld_ip_run s p k : live s p k -> 34 <= zlen (pk_data k) -> ld_ip p s = Ret (hdr_of k) s.
Proof. intros. apply (ld_at_ok ip); auto; change (sizeof ip) with 20; change ETH_HRD_SZ with 14; lia. Qed.

Lemma st_ip_run s p k h : live s p k -> 34 <= zlen (pk_data k) -> st_ip p h s = Ret tt (with_pkb s p (store_ip k h)).
Proof.
  intros. unfold st_ip, st_at. apply st_bytes_ok; [done|done|]. rewrite ip_encode_len. change ETH_HRD_SZ with 14. lia.
Qed.

Lemma upd_ip_run s p k f : live s p k -> 34 <= zlen (pk_data k) ->
  upd_ip p f s = Ret tt (with_pkb s p (store_ip k (f (hdr_of k)))).
Proof. intros. unfold upd_ip. erewrite bind_ok by (by apply ld_ip_run). by apply st_ip_run. Qed.

Lemma wp_ld_ip s p k (Q : ip -> stack -> Prop) :
  live s p k -> 34 <= zlen (pk_data k) -> Q (hdr_of k) s -> wp (ld_ip p) Q s.
Proof. intros. eapply wp_ok; [by apply ld_ip_run|done]. Qed.

Lemma wp_st_ip s p k h (Q : unit -> stack -> Prop) :
  live s p k -> 34 <= zlen (pk_data k) -> Q tt (with_pkb s p (store_ip k h)) -> wp (st_ip p h) Q s.
Proof. intros. eapply wp_ok; [by apply st_ip_run|done]. Qed.

Lemma wp_upd_ip s p k f (Q : unit -> stack -> Prop) :
  live s p k -> 34 <= zlen (pk_data k) -> Q tt (with_pkb s p (store_ip k (f (hdr_of k)))) ->
  wp (upd_ip p f) Q s.
Proof. intros. eapply wp_ok; [by apply upd_ip_run|done]. Qed.

(** *** Using a function that consumes a packet *)

(** ... after stores to that packet. *)
Lemma consumes_with f P s p k H K :
  consumes D f P -> ready (with_pkb s p k) (p :: H) (p :: K) -> p ∉ K -> P k ->
  wp (f p) (fun _ => kept s H K) (with_pkb s p k).
Proof.
  intros Hf Hr HpK HP. eapply wp_mono; [by apply (Hf _ p k H K Hr HpK (live_with _ _ _))|].
  intros [] s'. by apply kept_with.
Qed.

(** ... after calls that kept it. *)
Lemma consumes_from f P s s1 p k H K :
  consumes D f P -> ready s (p :: H) (p :: K) -> kept s (p :: H) (p :: K) s1 -> p ∉ K -> live s p k -> P k ->
  wp (f p) (fun _ => kept s H K) s1.
Proof.
  intros Hf (_ & _ & Hs) Hk1 HpK Hk HP. destruct (Hk1) as (Hi & Hu & Hsame & Hm).
  assert (Hl1 : live s1 p k) by (unfold live; rewrite <- Hk; apply Hsame; set_solver).
  eapply wp_mono; [by apply (Hf s1 p k H K)|]. intros [] s' Hk'.
  eapply kept_from; [|exact Hm|exact Hk']. intros q Hq. apply Hsame. set_solver.
Qed.

Lemma kept_live s H K p k s1 : kept s H K s1 -> p ∈ K -> live s p k -> live s1 p k.
Proof. intros (_ & _ & Hs & _) Hp Hk. unfold live. rewrite <- Hk. by apply Hs. Qed.

End InvRules.
