(* ===== verification/SafeNet.v ===== *)
(** * Safety of the link layer and of ARP

    Every function below, called in a state that satisfies the ownership
    invariant, neither faults nor loses or duplicates a reference.  Re-entry
    through the loopback device is used through its contract [ReentryOk]. *)

From stdpp Require Import prelude list gmap.
From Stdlib Require Import ZArith Lia.
From S2P Require Import Prelude Structs Checksum Route Pkb FastPipe ArpCache Sock Stack Arp IpOut Icmp IpFrag Own.

(** What the stack promises when the loopback device calls it. *)
Class ReentryOk (D : gmap devid netdev) `{Reentry} :=
  net_input_ok dev : is_Some (D !! dev) -> consumes D (net_input dev) frame_ok.

Section Tx.
Context (D : gmap devid netdev) (HD : map_Forall (fun _ => dev_ok) D).
Context {os : OS} {re : Reentry} {reok : ReentryOk D}.
Implicit Types (s : stack) (p q : pid) (k : pkbuf) (H K : list pid).

(** ** Transmission *)

Definition dst_ok (dst : hwptr) : Prop :=
  match dst with
  | HwVal a => hwaddr_ok a
  | HwIn off => 0 <= off /\ off + 6 <= 14
  end.

(** A payload that may be sent as [proto]. *)
Definition tx_ok k (len proto : Z) : Prop :=
  14 <= zlen (pk_data k) /\ 0 <= len /\ len + 14 <= zlen (pk_data k) /\
  is_u16 proto /\ proto <> ETH_P_RARP /\
  (proto = ETH_P_IP -> 20 <= len -> ip_hlen (hdr_of k) <= 5 /\ ip_pro (hdr_of k) <> IP_P_UDP).

(** The ether header after the three stores. *)
Definition ether_stored k (proto : Z) (dst src : list Z) (len : Z) : pkbuf :=
  set_pk_len (store (store (store k 12 (le_enc 2 (_htons proto))) 0 dst) 6 src) len.

Lemma ether_stored_frame k proto dst src len :
  tx_ok k len proto -> hwaddr_ok dst -> hwaddr_ok src ->
  frame_ok (ether_stored k proto dst src (len + 14)).
Proof.
  intros (H14 & H0 & Hl & Hp & Hr & Hip) [_ Hd] [_ Hs].
  assert (Ed : zlen dst = 6) by (unfold zlen; lia). assert (Es : zlen src = 6) by (unfold zlen; lia).
  assert (E2 : zlen (le_enc 2 (_htons proto)) = 2) by by rewrite zlen_le_enc.
  set (k1 := store k 12 (le_enc 2 (_htons proto))). set (k2 := store k1 0 dst). set (k3 := store k2 6 src).
  assert (L1 : zlen (pk_data k1) = zlen (pk_data k)) by (apply store_len; lia).
  assert (L2 : zlen (pk_data k2) = zlen (pk_data k)) by (rewrite <- L1; apply store_len; lia).
  assert (Elen : zlen (pk_data (ether_stored k proto dst src (len + 14))) = zlen (pk_data k)).
  { rewrite <- L2. apply (store_len k2 6 src); lia. }
  assert (Ehdr : 34 <= zlen (pk_data k) -> hdr_of (ether_stored k proto dst src (len + 14)) = hdr_of k).
  { intros. change (hdr_of k3 = hdr_of k). unfold k3. rewrite hdr_before by lia.
    unfold k2. rewrite hdr_before by lia. unfold k1. by rewrite hdr_before by lia. }
  assert (Epro : eth_pro (eth_of (ether_stored k proto dst src (len + 14))) = _htons proto).
  { change (fld (slice (pk_data k3) 0 14) 12 2 = _htons proto). unfold fld, k3, store. cbn [pk_data set_pk_data].
    rewrite slice_slice by lia. cbn [Z.add].
    rewrite slice_patch_after by lia. unfold k2, store. cbn [pk_data set_pk_data].
    rewrite slice_patch_after by lia. unfold k1, store. cbn [pk_data set_pk_data].
    rewrite slice_patch_eq by lia. apply le_dec_enc. apply htons_range. }
  split_and!.
  - cbn. lia.
  - rewrite Elen. cbn. lia.
  - rewrite Epro. intros E. apply htons_inj in E; [done|done|by vm_compute].
  - rewrite Epro. intros E Hlen. apply htons_inj in E; [|done|by vm_compute].
    cbn in Hlen. rewrite Ehdr by lia. apply Hip; [done|lia].
Qed.

(** A function that changes counters, frames or pipes only. *)
Lemma kept_same s s' H K : unqueued s K -> inv D s' H -> st_pkmem s' = st_pkmem s -> st_arp s' = st_arp s ->
  queued s' = queued s -> kept D s H K s'.
Proof.
  intros Hu Hi Em Ea Eq. split_and!; [done|intros q; rewrite Eq; apply Hu|by rewrite Em|]. intros i. by rewrite Ea.
Qed.

(** Each device returns with the packet still referenced by the caller. *)
Lemma write_xmit_ok dev s p k H K :
  is_Some (D !! dev) -> inv D s H -> unqueued s K -> live s p k -> frame_ok k ->
  wp (write_xmit dev p) (fun _ => kept D s H K) s.
Proof.
  intros Hd Hi HuK Hk ((Hl1 & Hl2) & _). unfold write_xmit. apply wp_bind. eapply wp_ld; [done|]. apply wp_bind.
  eapply wp_ld_bytes; [done|lia|lia|lia|]. apply wp_bind, wp_gets, wp_bind, wp_modify, wp_bind.
  apply (inv_wire D s H ((dev, slice (pk_data k) 0 (pk_len k)) :: st_wire s)) in Hi.
  case_if; (eapply wp_upd_stats; [exact Hi|done|]; intros; apply wp_ret; by apply kept_same).
Qed.

Lemma dpdk_xmit_ok dev s p k H K :
  is_Some (D !! dev) -> inv D s H -> unqueued s K -> live s p k -> frame_ok k ->
  wp (dpdk_xmit dev p) (fun _ => kept D s H K) s.
Proof.
  intros Hd Hi HuK Hk ((Hl1 & Hl2) & _). unfold dpdk_xmit. apply wp_bind. eapply wp_ld; [done|]. apply wp_bind.
  eapply wp_ld_bytes; [done|lia|lia|lia|]. apply wp_bind, wp_gets.
  pose proof (inv_wire D s H ((dev, slice (pk_data k) 0 (pk_len k)) :: st_wire s) Hi) as Hi'.
  case_if; [apply wp_bind, wp_modify|]; apply wp_bind;
    (eapply wp_upd_stats; [done|done|]; intros; apply wp_ret; by apply kept_same).
Qed.

Lemma loop_xmit_ok dev s p k H K :
  is_Some (D !! dev) -> ready D s (p :: H) (p :: K) -> p ∉ K -> live s p k -> frame_ok k ->
  wp (loop_xmit dev p) (fun _ => kept D s (p :: H) K) s.
Proof.
  intros Hd (Hi & Hu & Hs) HpK Hk Hf. unfold loop_xmit. apply wp_bind. eapply wp_upd; [done|].
  set (s1 := with_pkb s p (set_pk_refcnt k (pk_refcnt k + 1))).
  assert (Hi1 : inv D s1 (p :: p :: H)) by by apply inv_get.
  assert (Hk1 : live s1 p (set_pk_refcnt k (pk_refcnt k + 1))) by apply live_with.
  apply wp_bind. unfold loop_recv. apply wp_bind. eapply wp_ld; [done|]. apply wp_bind.
  eapply wp_upd_stats; [exact Hi1|done|]. intros s2 Hi2 Em2 Ea2 Eq2.
  assert (Hk2 : live s2 p (set_pk_refcnt k (pk_refcnt k + 1))).
  { unfold live. change (st_mem s2) with (st_pkmem s2). rewrite Em2. exact Hk1. }
  assert (Hr2 : ready D s2 (p :: p :: H) (p :: K)).
  { split_and!; [done|intros q Hq; rewrite Eq2; by apply Hu|set_solver]. }
  eapply wp_mono; [by apply (net_input_ok dev Hd s2 p _ (p :: H) K Hr2 HpK Hk2)|].
  intros _ s3 (Hi3 & Hu3 & Hl3 & Hm3). cbn beta.
  destruct (i_live _ _ _ Hi3 p ltac:(set_solver)) as [k3 Hk3].
  apply wp_bind. eapply wp_ld; [done|]. apply wp_bind.
  eapply wp_upd_stats; [exact Hi3|done|]. intros s4 Hi4 Em4 Ea4 Eq4. apply wp_ret.
  split_and!; [done|intros q; rewrite Eq4; apply Hu3| |].
  - intros q Hq. rewrite Em4, Hl3, Em2 by done. apply lookup_with. by intros ->.
  - intros i Hne. rewrite Ea4. apply Hm3. by rewrite Ea2.
Qed.

Lemma write_packet_total side d sh : bytes_ok d -> pipe_ok (cb_atob sh) -> pipe_ok (cb_btoa sh) ->
  exists b sh', shmeth_write_packet side d sh = Ret b sh' /\ pipe_ok (cb_atob sh') /\ pipe_ok (cb_btoa sh').
Proof.
  intros Hd (Ha & pa & Hpa) (Hb & pb & Hpb). destruct side; unfold shmeth_write_packet, on_atob, on_btoa.
  - destruct (put_packet_total _ _ _ Ha Hpa Hd) as (b & cb' & ps' & E & Hi' & Hh').
    rewrite E. eexists _, _. split; [done|]. split; split; eauto.
  - destruct (put_packet_total _ _ _ Hb Hpb Hd) as (b & cb' & ps' & E & Hi' & Hh').
    rewrite E. eexists _, _. split; [done|]. split; split; eauto.
Qed.

Lemma shmeth_xmit_ok dev v seg side s p k H K :
  D !! dev = Some v -> net_ops v = shmeth_ops seg side -> inv D s H -> unqueued s K -> live s p k -> frame_ok k ->
  wp (shmeth_dev_xmit seg side dev p) (fun _ => kept D s H K) s.
Proof.
  intros Hd Eo Hi HuK Hk ((Hl1 & Hl2) & _). unfold shmeth_dev_xmit. apply wp_bind. eapply wp_ld; [done|]. apply wp_bind.
  eapply wp_ld_bytes; [done|lia|lia|lia|]. apply wp_bind. set (d := slice (pk_data k) 0 (pk_len k)).
  assert (Hd' : bytes_ok d) by (apply bytes_ok_slice; by eapply inv_bytes).
  destruct (i_seg _ _ _ Hi dev v seg side Hd Eo) as [sh Hsh]. destruct (i_shm _ _ _ Hi seg sh Hsh) as [Ha Hb].
  destruct (write_packet_total side d sh Hd' Ha Hb) as (b & sh' & E & Hp1 & Hp2). unfold on_segment, wp at 1. rewrite Hsh, E.
  pose proof (inv_shm_put D s H seg sh' Hi Hp1 Hp2) as Hi'.
  destruct b; apply wp_bind; (eapply wp_upd_stats; [exact Hi'|by eexists|]); intros; apply wp_ret; by apply kept_same.
Qed.

Lemma xmit_ok dev v s p k H K :
  D !! dev = Some v -> ready D s (p :: H) (p :: K) -> p ∉ K -> live s p k -> frame_ok k ->
  wp (xmit (net_ops v) dev p) (fun _ => kept D s (p :: H) K) s.
Proof.
  intros Hd Hr HpK Hk Hf. assert (Hd' : is_Some (D !! dev)) by by eexists.
  assert (HuK : unqueued s K) by (intros q Hq; apply (proj1 (proj2 Hr)); set_solver).
  destruct (net_ops v) as [| | |seg side|] eqn:Eo; cbn [xmit];
    [by apply (loop_xmit_ok dev s p k)| | |by apply (shmeth_xmit_ok dev v seg side s p k); try apply Hr|
     by apply (dpdk_xmit_ok dev s p k); try apply Hr];
    by apply (write_xmit_ok dev s p k); try apply Hr.
Qed.

Lemma netdev_tx_ok dev len proto dst s p k H K :
  is_Some (D !! dev) -> ready D s (p :: H) (p :: K) -> p ∉ K -> live s p k ->
  dst_ok dst -> tx_ok k len proto ->
  wp (netdev_tx dev p len proto dst) (fun _ => kept D s H K) s.
Proof.
  intros [v Hd] Hr HpK Hk Hdst Htx. destruct (HD dev v Hd) as (_ & Hhw & _).
  destruct (Htx) as (H14 & H0 & Hl & _).
  unfold netdev_tx. apply wp_bind. eapply wp_ld_dev; [apply Hr|done|]. intros v' Ev.
  assert (Hhw' : net_hwaddr v' = net_hwaddr v) by by rewrite <- Ev.
  assert (Hops : net_ops v' = net_ops v) by by rewrite <- Ev.
  assert (E2 : zlen (le_enc 2 (_htons proto)) = 2) by by rewrite zlen_le_enc.
  apply wp_bind. eapply wp_st_bytes; [done|lia|rewrite E2; lia|].
  set (k1 := store k 12 (le_enc 2 (_htons proto))). set (s1 := with_pkb s p k1).
  assert (Hr1 : ready D s1 (p :: H) (p :: K)) by (apply ready_store; auto with tapip).
  assert (Hk1 : live s1 p k1) by apply live_with.
  assert (El1 : zlen (pk_data k1) = zlen (pk_data k)) by (apply store_len; rewrite ?E2; lia).
  apply wp_bind.
  assert (Hhd : exists a, hwaddr_ok a /\ ld_hw p dst s1 = Ret a s1).
  { destruct dst as [a|off]; cbn in Hdst |- *; [by exists a|]. exists (slice (pk_data k1) off 6). split.
    - apply hwaddr_slice; [exact (inv_bytes D s1 (p :: H) p k1 (proj1 Hr1) Hk1)|lia|lia].
    - apply (ld_bytes_ok _ _ k1); [done|lia|done|change ETH_ALEN with 6; lia]. }
  destruct Hhd as (a & [Hab Hal] & Ea). eapply wp_ok; [exact Ea|]. assert (Eal : zlen a = 6) by (unfold zlen; lia).
  apply wp_bind. eapply wp_st_bytes; [done|lia|lia|].
  assert (Hr2 : ready D (with_pkb s1 p (store k1 0 a)) (p :: H) (p :: K)) by (by apply ready_store).
  assert (Hsl : zlen (net_hwaddr v') = 6) by (rewrite Hhw'; destruct Hhw as [_ Hx]; unfold zlen; lia).
  apply wp_bind. eapply wp_st_bytes; [apply live_with|lia|rewrite store_len; lia|].
  apply wp_bind. eapply wp_upd; [apply live_with|]. change ETH_HRD_SZ with 14.
  change (set_pk_len (store (store k1 0 a) 6 (net_hwaddr v')) (len + 14))
    with (ether_stored k proto a (net_hwaddr v') (len + 14)).
  unfold s1. rewrite !with_with. set (k' := ether_stored k proto a (net_hwaddr v') (len + 14)).
  assert (Hf : frame_ok k') by (apply ether_stored_frame; [done|done|by rewrite Hhw']).
  assert (Hr' : ready D (with_pkb s p k') (p :: H) (p :: K)).
  { eapply ready_put; [done|done|done| |].
    - unfold k', ether_stored, store. cbn [pk_data set_pk_len set_pk_data]. rewrite Hhw'. destruct Hhw.
      pose proof (inv_bytes D _ _ _ _ (proj1 Hr) Hk). repeat apply bytes_ok_patch; auto with tapip.
    - intros rt Hrt. by apply (i_rtdst _ _ _ (proj1 Hr) p k). }
  apply wp_bind. rewrite Hops. eapply wp_mono; [apply (xmit_ok dev v _ p k' H K Hd Hr' HpK); [apply live_with|done]|].
  intros _ s3 (Hi3 & Hu3 & Hl3 & Hm3). apply (wp_free D s3 H p); [done|].
  intros s4 Hi4 Hq4 Ha4 Hl4. apply (kept_with D s p k'); [done|]. split_and!; [done| | |].
  - intros q Hq. rewrite Hq4. by apply Hu3.
  - intros q Hq. rewrite Hl4 by (by intros ->). by apply Hl3.
  - intros i Hne. rewrite Ha4. by apply Hm3.
Qed.

End Tx.

(** ** The ARP cache *)

Section Cache.
Context (D : gmap devid netdev).
Implicit Types (s : stack) (p q : pid) (k : pkbuf) (H K : list pid).


Lemma kept_trans s1 s2 s3 H K : kept D s1 H K s2 -> kept D s2 H K s3 -> kept D s1 H K s3.
Proof. intros (_ & _ & Hl & Hm). by apply kept_from. Qed.

Lemma kept_ready s s' H K : K ⊆ H -> kept D s H K s' -> ready D s' H K.
Proof. intros Hs (Hi & Hu & _). done. Qed.

Lemma arp_pkts_split c i : (i < length (arp_cache c))%nat -> exists rest,
  (forall f, arp_pkts (upd_entry c i f) ≡ₚ ae_list (f (arp_cache c !!! i)) ++ rest) /\
  arp_pkts c ≡ₚ ae_list (arp_cache c !!! i) ++ rest.
Proof.
  intros Hi. pose proof (total_lookup_some _ _ Hi) as Hl.
  exists (concat (ae_list <$> take i (arp_cache c)) ++ concat (ae_list <$> drop (S i) (arp_cache c))).
  assert (Hgen : forall e, concat (ae_list <$> (take i (arp_cache c) ++ e :: drop (S i) (arp_cache c))) ≡ₚ
    ae_list e ++ concat (ae_list <$> take i (arp_cache c)) ++ concat (ae_list <$> drop (S i) (arp_cache c))).
  { intros e. rewrite fmap_app, fmap_cons, concat_app. cbn [concat]. apply Permutation_app_swap_app. }
  split.
  - intros f. unfold arp_pkts, upd_entry. cbn [arp_cache]. rewrite insert_take_drop by done. apply Hgen.
  - unfold arp_pkts. rewrite <- (take_drop_middle _ _ _ Hl) at 1. apply Hgen.
Qed.

Lemma upd_entry_lookup c i f j : (i < length (arp_cache c))%nat ->
  arp_cache (upd_entry c i f) !!! j =
  if decide (j = i) then f (arp_cache c !!! i) else arp_cache c !!! j.
Proof.
  intros Hi. unfold upd_entry. cbn [arp_cache]. destruct (decide (j = i)) as [->|Hne].
  - by apply list_lookup_total_insert_eq.
  - by apply list_lookup_total_insert_ne.
Qed.

Lemma inv_set_arp s H H' c' :
  inv D s H -> cache_inv c' ->
  Forall (fun e => ae_state e <> ARP_FREE -> exists d, ae_dev e = Some d /\ is_Some (D !! d)) (arp_cache c') ->
  arp_pkts c' ++ H' ≡ₚ arp_pkts (st_arp s) ++ H -> NoDup (arp_pkts c' ++ frag_pkts (st_frag_head s)) ->
  (forall p k, p ∈ arp_pkts c' -> live s p k -> net_pkt k /\ pk_pro k = ETH_P_IP) ->
  inv D (set_arp c' s) H'.
Proof.
  intros [] Hc Hd Hp Hnd Hq.
  assert (Hperm : queued (set_arp c' s) ++ H' ≡ₚ queued s ++ H).
  { unfold queued. cbn. transitivity (frag_pkts (st_frag_head s) ++ arp_pkts c' ++ H');
      [rewrite !app_assoc; apply Permutation_app_tail, Permutation_app_comm|].
    rewrite Hp, !app_assoc. apply Permutation_app_tail, Permutation_app_comm. }
  split; auto.
  - intros p k Hk. rewrite (occ_perm _ _ _ Hperm). by apply i_ref.
  - intros p Hin. apply i_live. by rewrite <- Hperm.
Qed.

(** The entry behind an index, with what the invariant says about it. *)
Lemma inv_entry s H i : inv D s H -> (i < ARP_CACHE_SZ)%nat ->
  let e := arp_cache (st_arp s) !!! i in
  (i < length (arp_cache (st_arp s)))%nat /\ entry_inv e /\
  (ae_state e <> ARP_FREE -> exists d, ae_dev e = Some d /\ is_Some (D !! d)).
Proof.
  intros Hi Hlt. pose proof (ci_len _ (i_arp _ _ _ Hi)) as Hl.
  assert (Hlt' : (i < length (arp_cache (st_arp s)))%nat) by lia.
  pose proof (total_lookup_some _ _ Hlt') as Hs. split_and!; [done| |].
  - eapply Forall_lookup_1; [apply (ci_entries _ (i_arp _ _ _ Hi))|done].
  - exact (Forall_lookup_1 _ _ _ _ (i_arp_dev _ _ _ Hi) Hs).
Qed.

(** An assignment that leaves the queue of the entry alone. *)
Lemma inv_upd_ae s H i f :
  inv D s H -> (i < ARP_CACHE_SZ)%nat ->
  let e := arp_cache (st_arp s) !!! i in
  ae_list (f e) = ae_list e -> cache_inv (upd_entry (st_arp s) i f) ->
  (ae_state (f e) <> ARP_FREE -> exists d, ae_dev (f e) = Some d /\ is_Some (D !! d)) ->
  inv D (set_arp (upd_entry (st_arp s) i f) s) H /\
  (forall x, x ∈ queued (set_arp (upd_entry (st_arp s) i f) s) <-> x ∈ queued s).
Proof.
  intros Hi Hlt e He Hc Hd. destruct (inv_entry s H i Hi Hlt) as (Hlt' & _ & _).
  destruct (arp_pkts_split (st_arp s) i Hlt') as (rest & Hp1 & Hp2). fold e in Hp1, Hp2.
  assert (Hp : arp_pkts (upd_entry (st_arp s) i f) ≡ₚ arp_pkts (st_arp s)) by by rewrite Hp1, Hp2, He.
  split; [|intros x; unfold queued; cbn; by rewrite Hp].
  eapply inv_set_arp; [exact Hi|done| |by rewrite Hp|rewrite Hp; apply Hi|].
  - apply Forall_insert; [apply Hi|]. exact Hd.
  - intros p k Hin. rewrite Hp in Hin. by apply (i_arpq _ _ _ Hi p k).
Qed.

(** Taking the first packet out of a queue. *)
Lemma inv_pop s H i p r :
  inv D s H -> (i < ARP_CACHE_SZ)%nat -> ae_list (arp_cache (st_arp s) !!! i) = p :: r ->
  let s' := set_arp (upd_entry (st_arp s) i (fun e => set_ae_list e r)) s in
  inv D s' (p :: H) /\ p ∉ queued s' /\ (forall x, x ∈ queued s' -> x ∈ queued s) /\
  exists k, live s p k /\ net_pkt k /\ pk_pro k = ETH_P_IP.
Proof.
  intros Hi Hlt El s'. destruct (inv_entry s H i Hi Hlt) as (Hlt' & He & Hd).
  destruct (arp_pkts_split (st_arp s) i Hlt') as (rest & Hp1 & Hp2).
  specialize (Hp1 (fun e => set_ae_list e r)). cbn in Hp1. rewrite El in Hp2. cbn in Hp2.
  assert (Hnd : NoDup (p :: arp_pkts (upd_entry (st_arp s) i (fun e => set_ae_list e r)) ++ frag_pkts (st_frag_head s))).
  { rewrite Hp1. change (NoDup ((p :: r ++ rest) ++ frag_pkts (st_frag_head s))). rewrite <- Hp2. apply Hi. }
  apply NoDup_cons in Hnd as [Hnp Hnd].
  assert (Hwait : ae_state (arp_cache (st_arp s) !!! i) = ARP_WAITING).
  { destruct (decide (ae_state (arp_cache (st_arp s) !!! i) = ARP_WAITING)); [done|].
    by rewrite (ei_queue _ He) in El. }
  assert (Hsub : forall x, x ∈ arp_pkts (upd_entry (st_arp s) i (fun e => set_ae_list e r)) -> x ∈ arp_pkts (st_arp s)).
  { intros x. rewrite Hp1, Hp2. set_solver. }
  assert (Hpin : p ∈ arp_pkts (st_arp s)) by (rewrite Hp2; set_solver).
  destruct (i_live _ _ _ Hi p) as [k Hk]; [unfold queued; set_solver|].
  split_and!.
  - eapply inv_set_arp; [exact Hi| | | |done|].
    + apply upd_entry_inv; [apply Hi|done|]. intros e He' _. rewrite (list_lookup_total_correct _ _ _ He') in *.
      split; [split; cbn; try apply He; rewrite Hwait; by intros []|]. right. by rewrite Hwait.
    + apply Forall_insert; [apply Hi|]. exact Hd.
    + rewrite Hp1, Hp2. symmetry. apply Permutation_middle.
    + intros q kq Hq. apply (i_arpq _ _ _ Hi q kq). by apply Hsub.
  - done.
  - intros x. unfold queued. cbn. rewrite !elem_of_app. intros [Hx|Hx]; [left; by apply Hsub|by right].
  - exists k. split; [done|]. by apply (i_arpq _ _ _ Hi p k).
Qed.

(** Adding a packet to the queue of a waiting entry. *)
Lemma inv_push s H i p k :
  inv D s (p :: H) -> (i < ARP_CACHE_SZ)%nat -> ae_state (arp_cache (st_arp s) !!! i) = ARP_WAITING ->
  p ∉ queued s -> live s p k -> net_pkt k -> pk_pro k = ETH_P_IP ->
  let s' := set_arp (upd_entry (st_arp s) i (fun e => set_ae_list e (ae_list e ++ [p]))) s in
  inv D s' H /\ (forall x, x ∈ queued s' <-> x = p \/ x ∈ queued s).
Proof.
  intros Hi Hlt Hw Hpq Hk Hn Hpro s'. destruct (inv_entry s (p :: H) i Hi Hlt) as (Hlt' & He & Hd).
  destruct (arp_pkts_split (st_arp s) i Hlt') as (rest & Hp1 & Hp2).
  specialize (Hp1 (fun e => set_ae_list e (ae_list e ++ [p]))). cbn [ae_list set_ae_list] in Hp1.
  assert (Hp : arp_pkts (st_arp s') ≡ₚ p :: arp_pkts (st_arp s)).
  { etransitivity; [exact Hp1|]. rewrite Hp2, (Permutation_app_comm (ae_list _) [p]). done. }
  split; [|intros x; unfold queued; rewrite Hp; set_solver]. unfold s' in Hp; cbn [st_arp set_arp] in Hp.
  eapply inv_set_arp; [exact Hi| | | | |].
  - apply upd_entry_inv; [apply Hi|done|]. intros e He' _. rewrite (list_lookup_total_correct _ _ _ He') in *.
    split; [split; cbn; try apply He; rewrite Hw; by intros []|]. right. by rewrite Hw.
  - apply Forall_insert; [apply Hi|]. exact Hd.
  - rewrite Hp. apply Permutation_middle.
  - rewrite Hp. apply NoDup_cons. split; [exact Hpq|apply Hi].
  - intros q kq Hq Hl. rewrite Hp in Hq. apply elem_of_cons in Hq as [->|Hq]; [|by apply (i_arpq _ _ _ Hi q kq)].
    unfold live in Hl, Hk. rewrite Hk in Hl. by injection Hl as <-.
Qed.

(** A new entry: arp_alloc, then the assignments [f]; its queue is [L]. *)
Lemma inv_fill s H H' L i c' f ip :
  inv D s H -> arp_lookup (st_arp s) ETH_P_IP ip = None -> arp_alloc (st_arp s) = (Some i, c') ->
  (forall e, entry_inv e -> ae_list e = [] -> ae_state e = ARP_WAITING ->
     entry_inv (f e) /\ ae_pro (f e) = ETH_P_IP /\ ae_ipaddr (f e) = ip /\ ae_list (f e) = L /\
     (exists d, ae_dev (f e) = Some d /\ is_Some (D !! d)) /\ ae_state (f e) <> ARP_FREE) ->
  L ++ H' ≡ₚ H -> NoDup (L ++ queued s) ->
  (forall q k, q ∈ L -> live s q k -> net_pkt k /\ pk_pro k = ETH_P_IP) ->
  let s' := set_arp (upd_entry c' i f) s in
  inv D s' H' /\ (i < ARP_CACHE_SZ)%nat /\ arp_mono s s' /\
  (forall x, x ∈ queued s' <-> x ∈ L \/ x ∈ queued s) /\
  ae_state (arp_cache (st_arp s') !!! i) <> ARP_FREE.
Proof.
  intros Hi Hlk Ha Hf HL Hnd Hq s'.
  destruct (arp_alloc_fill_inv _ _ _ f ip (i_arp _ _ _ Hi) Ha Hlk) as (Hc & Hlt & Hfree & Ec).
  { intros e He1 He2 He3. by destruct (Hf e He1 He2 He3) as (? & ? & ? & _). }
  destruct (inv_entry s H i Hi Hlt) as (Hlt' & He & _).
  set (e0 := arp_alloc_init (arp_cache (st_arp s) !!! i)) in *.
  destruct (Hf e0) as (_ & _ & _ & El & Hd & Hne); [|done|done|].
  { destruct He. split; cbn; auto. }
  assert (Ec' : arp_cache (upd_entry c' i f) = <[i := f e0]> (arp_cache (st_arp s))).
  { unfold upd_entry. cbn [arp_cache]. rewrite Ec, list_lookup_total_insert_eq, list_insert_insert_eq by done. done. }
  destruct (arp_pkts_split (st_arp s) i Hlt') as (rest & Hp1 & Hp2). specialize (Hp1 (fun _ => f e0)).
  rewrite (ei_queue _ He) in Hp2 by by rewrite Hfree. cbn in Hp2.
  assert (Hp : arp_pkts (st_arp s') ≡ₚ L ++ arp_pkts (st_arp s)).
  { change (arp_pkts (upd_entry c' i f) ≡ₚ L ++ arp_pkts (st_arp s)). unfold arp_pkts at 1. rewrite Ec'.
    etransitivity; [exact Hp1|]. cbv beta. by rewrite El, Hp2. }
  split_and!; [|done| | |].
  - unfold s' in Hp; cbn [st_arp set_arp] in Hp. eapply inv_set_arp; [exact Hi|done| | | |].
    + rewrite Ec'. apply Forall_insert; [apply Hi|done].
    + rewrite Hp, <- HL. rewrite (Permutation_app_comm L), <- app_assoc. done.
    + rewrite Hp, <- app_assoc. exact Hnd.
    + intros q kq Hin Hl. rewrite Hp in Hin. apply elem_of_app in Hin as [Hin|Hin]; [by apply (Hq q kq)|].
      by apply (i_arpq _ _ _ Hi q kq).
  - intros j. unfold s'. cbn [st_arp set_arp]. rewrite Ec'. destruct (decide (j = i)) as [->|Hji].
    + by rewrite list_lookup_total_insert_eq.
    + by rewrite list_lookup_total_insert_ne.
  - intros x. unfold queued. rewrite Hp. set_solver.
  - unfold s'. cbn [st_arp set_arp]. by rewrite Ec', list_lookup_total_insert_eq.
Qed.

(** When every entry is in use arp_alloc changes nothing. *)
Lemma inv_full s H c' : inv D s H -> arp_alloc (st_arp s) = (None, c') -> set_arp c' s = s.
Proof.
  intros Hi Ha. destruct (arp_alloc_None _ _ (i_arp _ _ _ Hi) Ha) as (E1 & E2 & _).
  destruct s as [? ? ? ? ? [] ? ? ? ? ? ?], c'. cbn in *. by subst.
Qed.

Lemma arp_mono_upd s i f : (i < length (arp_cache (st_arp s)))%nat ->
  (ae_state (arp_cache (st_arp s) !!! i) <> ARP_FREE ->
   ae_state (f (arp_cache (st_arp s) !!! i)) <> ARP_FREE) ->
  arp_mono s (set_arp (upd_entry (st_arp s) i f) s).
Proof.
  intros Hlt Hf j. cbn [st_arp set_arp]. rewrite upd_entry_lookup by done. by case_decide; [subst|].
Qed.

(** An assignment to an entry in use that leaves its queue, key and device. *)
Lemma kept_upd_ae s H K i f :
  ready D s H K -> (i < ARP_CACHE_SZ)%nat -> ae_state (arp_cache (st_arp s) !!! i) <> ARP_FREE ->
  let e := arp_cache (st_arp s) !!! i in
  ae_list (f e) = ae_list e -> ae_pro (f e) = ae_pro e -> ae_ipaddr (f e) = ae_ipaddr e ->
  ae_dev (f e) = ae_dev e -> ae_state (f e) <> ARP_FREE -> entry_inv (f e) ->
  wp (upd_ae i f) (fun _ s' => kept D s H K s' /\ arp_cache (st_arp s') !!! i = f e) s.
Proof.
  intros (Hi & Hu & Hs) Hlt Hne e H1 H2 H3 H4 H5 H6. apply wp_modify.
  destruct (inv_entry s H i Hi Hlt) as (Hlt' & He & Hd).
  pose proof (Hd Hne) as Hd'. fold e in Hd'. rewrite <- H4 in Hd'.
  destruct (inv_upd_ae s H i f Hi Hlt) as [Hi' Hq]; [done| |by intros|].
  - apply upd_entry_inv; [apply Hi|done|]. intros e' He' _.
    rewrite <- (list_lookup_total_correct _ _ _ He'). split; [done|by right].
  - split; [split_and!; [done| |done|]|].
    + intros q Hin. rewrite Hq. by apply Hu.
    + by apply arp_mono_upd.
    + cbn [st_arp set_arp]. by rewrite upd_entry_lookup, decide_True.
Qed.

End Cache.

(** ** Sending queued packets *)

Section SafeArp.
Context (D : gmap devid netdev) (HD : map_Forall (fun _ => dev_ok) D).
Context {os : OS} {re : Reentry} {reok : ReentryOk D}.
Implicit Types (s : stack) (p q : pid) (k : pkbuf) (H K : list pid).

(** An IP packet of a queue can be transmitted. *)
Lemma tx_ok_net k : net_pkt k -> tx_ok k (pk_len k - 14) ETH_P_IP.
Proof.
  intros ([Hl Hh Hp] & _). unfold tx_ok, is_u16, ETH_P_IP. split_and!; (done || lia).
Qed.

(** arp_queue_send empties the queue of an entry in use. *)
Lemma arp_queue_send_loop_ok n i s H K :
  ready D s H K -> (i < ARP_CACHE_SZ)%nat -> ae_state (arp_cache (st_arp s) !!! i) <> ARP_FREE ->
  wp (arp_queue_send_loop n i)
    (fun _ s' => kept D s H K s' /\ ae_list (arp_cache (st_arp s') !!! i) = []) s.
Proof.
  revert s. induction n as [|n IH]; intros s Hr Hlt Hne; [done|].
  cbn [arp_queue_send_loop]. apply wp_bind, wp_gets.
  destruct (inv_entry D s H i (proj1 Hr) Hlt) as (Hlt' & He & Hd). destruct (Hd Hne) as (d & Ed & HDd).
  destruct (ae_list _) as [|p r] eqn:El; [by split; [apply kept_refl|]|].
  destruct (inv_pop D s H i p r (proj1 Hr) Hlt El) as (Hi1 & Hp1 & Hq1 & k & Hk & Hn & Epro).
  apply wp_bind, wp_modify, wp_bind. rewrite Ed. eapply wp_of_opt; [done|].
  set (s1 := set_arp _ s) in *.
  assert (Hm1 : arp_mono s s1) by by apply arp_mono_upd.
  assert (HpK : p ∉ K).
  { intros Hin. destruct Hr as (_ & Hu & _). apply (Hu p Hin). unfold queued.
    apply elem_of_app. left. apply elem_of_concat. exists (p :: r). split; [|set_solver].
    rewrite <- El. apply list_elem_of_fmap_2. eapply list_elem_of_lookup_2. by apply total_lookup_some. }
  assert (Hr1 : ready D s1 (p :: H) (p :: K)).
  { destruct Hr as (_ & Hu & Hs). split_and!; [done| |set_solver].
    intros q [->|Hq]%elem_of_cons; [done|]. intros Hin. by apply (Hu q Hq), Hq1. }
  apply wp_bind. eapply wp_ld; [exact Hk|]. apply wp_bind. rewrite Epro. change ETH_HRD_SZ with 14.
  eapply wp_mono; [apply (netdev_tx_ok D HD d _ _ _ s1 p k H K); try done; [apply He|by apply tx_ok_net]|].
  intros [] s2 Hk2.
  assert (Hkept : kept D s H K s2) by (eapply kept_from; [| |exact Hk2]; done).
  eapply wp_mono; [apply IH; [apply (kept_ready D s); [apply Hr|done]|done|]|].
  - by apply Hkept.
  - intros _ s3 [Hk3 El3]. split; [by apply (kept_trans D s s2)|done].
Qed.

(** ** ARP packets *)

Lemma arp_request_ok i s H K :
  ready D s H K -> (i < ARP_CACHE_SZ)%nat -> ae_state (arp_cache (st_arp s) !!! i) <> ARP_FREE ->
  wp (arp_request i) (fun _ => kept D s H K) s.
Proof.
  intros Hr Hlt Hne. unfold arp_request. apply wp_bind. eapply (wp_alloc D); [exact Hr|].
  intros p s1 Hr1 HpH Hpq Hk Hsame Ea _ _. apply wp_bind, wp_gets, wp_bind. rewrite Ea.
  destruct (inv_entry D s H i (proj1 Hr) Hlt) as (Hlt' & He & Hd). destruct (Hd Hne) as (d & Ed & [v HDd]).
  rewrite Ed. eapply wp_of_opt; [done|]. apply wp_bind. eapply wp_ld_dev; [apply Hr1|done|].
  intros v' Ev. destruct (HD d v HDd) as (_ & Hhw & _).
  assert (Hhw' : hwaddr_ok (net_hwaddr v')) by by rewrite <- Ev in Hhw.
  set (a := mk_arp _ _ _ _ _ _ _ _ _). assert (Hbrd : hwaddr_ok BRD_HWADDR).
  { split; [|done]. apply Forall_replicate. by vm_compute. }
  destruct (arp_encode_len a) as [Hal Hab]; [done|done|].
  apply wp_bind. unfold st_at. eapply wp_st_bytes; [done|done|rewrite Hal; by vm_compute|].
  assert (HpK : p ∉ K) by (destruct Hr as (_ & _ & Hs); set_solver).
  assert (Hr2 : ready D (with_pkb s1 p (store (zero_pkb (ETH_HRD_SZ + ARP_HRD_SZ)) ETH_HRD_SZ (encode a))) (p :: H) (p :: K))
    by by apply ready_store.
  apply wp_bind. eapply wp_ld; [apply live_with|]. cbn [pk_len store set_pk_data zero_pkb].
  eapply wp_mono; [apply (netdev_tx_ok D HD d _ _ _ _ p _ H K ltac:(by eexists) Hr2 HpK (live_with _ _ _)); [done|]|].
  - split_and!; rewrite ?store_len; rewrite ?Hal; by vm_compute.
  - intros [] s3 Hk3. apply kept_with in Hk3; [|done]. eapply kept_from; [| |exact Hk3].
    + intros q Hq. apply Hsame. destruct Hr as (_ & _ & Hs). set_solver.
    + intros j. by rewrite Ea.
Qed.

(** The ARP packet in a buffer. *)
Definition arp_of k : arp := decode (slice (pk_data k) ETH_HRD_SZ ARP_HRD_SZ).

Lemma arp_wf k : bytes_ok (pk_data k) -> 42 <= zlen (pk_data k) -> wf_struct (arp_of k).
Proof.
  intros Hb Hl. apply decode_wf; [by apply bytes_ok_slice|].
  transitivity ARP_HRD_SZ; [|done]. apply zlen_slice; change ETH_HRD_SZ with 14; change ARP_HRD_SZ with 28; lia.
Qed.

Lemma wp_ld_arp s p k (Q : arp -> stack -> Prop) :
  live s p k -> 42 <= zlen (pk_data k) -> Q (arp_of k) s -> wp (ld_at arp p ETH_HRD_SZ) Q s.
Proof.
  intros Hk Hl HQ. eapply wp_ok; [|exact HQ].
  apply (ld_at_ok arp); auto; change (sizeof arp) with 28; change ETH_HRD_SZ with 14; lia.
Qed.

Lemma arp_reply_ok dev : is_Some (D !! dev) -> consumes D (arp_reply dev) (fun k => 42 <= zlen (pk_data k)).
Proof.
  intros [v Hd] s p k H K Hr HpK Hk Hl. unfold arp_reply. apply wp_bind. eapply wp_ld_arp; [done|done|].
  apply wp_bind. eapply wp_ld_dev; [apply Hr|done|]. intros v' Ev. destruct (HD dev v Hd) as (_ & Hhw & _).
  rewrite <- Ev in Hhw. pose proof (arp_wf k (inv_bytes D _ _ _ _ (proj1 Hr) Hk) Hl) as Hw. cbn in Hw.
  set (a := arp_hton _). destruct (arp_encode_len a) as [Hal Hab]; [done|apply Hw|].
  apply wp_bind. unfold st_at. eapply wp_st_bytes; [done|done|rewrite Hal; change ETH_HRD_SZ with 14; lia|].
  assert (Hr1 : ready D (with_pkb s p (store k ETH_HRD_SZ (encode a))) (p :: H) (p :: K)) by by apply ready_store.
  eapply wp_mono; [apply (netdev_tx_ok D HD dev _ _ _ _ p _ H K ltac:(by eexists) Hr1 HpK (live_with _ _ _)); [done|]|].
  - unfold tx_ok. rewrite store_len by (rewrite ?Hal; change ETH_HRD_SZ with 14; lia).
    change ARP_HRD_SZ with 28. unfold is_u16, ETH_P_ARP. split_and!; (done || lia).
  - intros [] s3 Hk3. by eapply kept_with.
Qed.

(** The first half of arp_recv: the cache learns the sender. *)
Definition arp_learn (dev : devid) (a : arp) (o : option nat) : comp stack unit :=
  match o with
  | Some ae =>
      upd_ae ae (fun e => set_ae_hwaddr e (arp_sha a));;
      let* e := ld_ae ae in
      when (ae_state e =? ARP_WAITING) (arp_queue_send ae);;
      upd_ae ae (fun e => set_ae_ttl (set_ae_state e ARP_RESOLVED) ARP_TIMEOUT)
  | None =>
      when (arp_op a =? ARP_OP_REQUEST)
        (modify (fun s => set_arp (snd (arp_insert (st_arp s) dev (arp_pro a) (arp_sip a) (arp_sha a))) s))
  end.

Lemma arp_learn_ok dev a s H K :
  is_Some (D !! dev) -> wf_struct a -> arp_pro a = ETH_P_IP -> ready D s H K ->
  wp (arp_learn dev a (arp_lookup (st_arp s) (arp_pro a) (arp_sip a))) (fun _ => kept D s H K) s.
Proof.
  intros HDd Hw Hpro Hr. destruct (arp_lookup _ _ _) as [i|] eqn:El; cbn [arp_learn].
  - destruct (arp_lookup_Some _ _ _ _ El) as (e & Hl & Hne & Hpr & Hip).
    pose proof (arp_lookup_lt _ _ _ _ El) as Hlt'. rewrite (ci_len _ (i_arp _ _ _ (proj1 Hr))) in Hlt'.
    assert (Hsh : hwaddr_ok (arp_sha a)) by apply Hw.
    destruct (inv_entry D s H i (proj1 Hr) Hlt') as (Hlt & He & Hd).
    rewrite <- (list_lookup_total_correct _ _ _ Hl) in Hne. apply wp_bind.
    eapply wp_mono; [apply (kept_upd_ae D s H K); try done; destruct He; by split|].
    intros [] s1 [Hk1 _]. apply wp_bind, wp_gets, wp_bind.
    assert (Hr1 : ready D s1 H K) by (apply (kept_ready D s); [apply Hr|done]).
    assert (Hne1 : ae_state (arp_cache (st_arp s1) !!! i) <> ARP_FREE) by by apply Hk1.
    assert (Hsend : wp (when (ae_state (arp_cache (st_arp s1) !!! i) =? ARP_WAITING) (arp_queue_send i))
      (fun _ s' => kept D s1 H K s' /\ ae_list (arp_cache (st_arp s') !!! i) = []) s1).
    { apply wp_when; intros Ew; [by apply arp_queue_send_loop_ok|]. split; [by apply kept_refl|].
      destruct (inv_entry D s1 H i (proj1 Hr1) Hlt') as (_ & He1 & _). apply He1. intros E. by rewrite E in Ew. }
    eapply wp_mono; [exact Hsend|]. intros [] s2 [Hk2 El2].
    assert (Hr2 : ready D s2 H K) by (apply (kept_ready D s1); [apply Hr|done]).
    destruct (inv_entry D s2 H i (proj1 Hr2) Hlt') as (_ & He2 & _).
    assert (Hne2 : ae_state (arp_cache (st_arp s2) !!! i) <> ARP_FREE) by by apply Hk2.
    eapply wp_mono; [apply (kept_upd_ae D s2 H K); try done|].
    + destruct He2. split; cbn; auto.
    + intros [] s3 [Hk3 _]. by apply (kept_trans D s s1), (kept_trans D s1 s2).
  - apply wp_when; [|by intros; apply kept_refl]. intros _. apply wp_modify. unfold arp_insert.
    destruct (arp_alloc (st_arp s)) as [[i|] c'] eqn:Ea; cbn [snd].
    + rewrite Hpro in El.
      destruct (inv_fill D s H H [] i c' (fun ae => set_ae_hwaddr (set_ae_state (set_ae_ipaddr (set_ae_ttl (set_ae_pro
              (set_ae_dev ae (Some dev)) (arp_pro a)) ARP_TIMEOUT) (arp_sip a)) ARP_RESOLVED) (arp_sha a))
              (arp_sip a) (proj1 Hr) El Ea) as (Hi' & _ & Hm & Hq & _); try done.
      * intros e [] Hl _. split_and!; try done; [|by exists dev]. split; cbn; auto. apply Hw.
      * apply Hr.
      * set_solver.
      * split_and!; [done| |done|done]. intros q Hin Hq'. apply Hq in Hq' as [Hq'|Hq']; [set_solver|].
        destruct Hr as (_ & Hu & _). by apply (Hu q).
    + rewrite (inv_full D s H c' (proj1 Hr) Ea). by apply kept_refl.
Qed.

Lemma arp_recv_ok dev : is_Some (D !! dev) ->
  consumes D (arp_recv dev) (fun k => 42 <= zlen (pk_data k) /\ arp_pro (arp_of k) = ETH_P_IP).
Proof.
  intros HDd s p k H K Hr HpK Hk [Hl Hpro]. unfold arp_recv. apply wp_bind. eapply wp_ld_arp; [done|done|].
  destruct HDd as [v HDd]. apply wp_bind. eapply wp_ld_dev; [apply Hr|done|]. intros v' _.
  case_if; [by apply (free_consumes D s p k)|]. case_if; [by apply (free_consumes D s p k)|].
  apply wp_bind, wp_gets, wp_bind.
  pose proof (arp_wf k (inv_bytes D _ _ _ _ (proj1 Hr) Hk) Hl) as Hw.
  eapply wp_mono; [apply (arp_learn_ok dev (arp_of k) s (p :: H) (p :: K)); [by eexists|done|done|done]|].
  intros [] s1 Hk1. assert (Hr1 : ready D s1 (p :: H) (p :: K)) by (apply (kept_ready D s); [apply Hr|done]).
  assert (Hl1 : live s1 p k).
  { unfold live. rewrite <- Hk. destruct Hk1 as (_ & _ & Hsame & _). apply Hsame. set_solver. }
  apply wp_bind. eapply wp_ld_arp; [done|done|].
  assert (Hfrom : forall s', kept D s1 H K s' -> kept D s H K s').
  { intros s'. apply kept_from; [|apply Hk1]. intros q Hq. apply Hk1. set_solver. }
  case_if.
  - eapply wp_mono; [by apply (arp_reply_ok dev ltac:(by eexists) s1 p k H K)|intros [] s'; apply Hfrom].
  - eapply wp_mono; [by apply (free_consumes D s1 p k H K)|intros [] s'; apply Hfrom].
Qed.

Lemma arp_in_ok dev : is_Some (D !! dev) ->
  consumes D (arp_in dev) (fun k => 14 <= pk_len k <= zlen (pk_data k)).
Proof.
  intros HDd s p k H K Hr HpK Hk Hl. unfold arp_in. apply wp_bind. eapply wp_ld; [done|].
  case_if; [by apply (free_consumes D s p k)|]. case_if; [by apply (free_consumes D s p k)|].
  change (ETH_HRD_SZ + ARP_HRD_SZ) with 42 in *.
  apply wp_bind. eapply wp_ok; [by apply (ld_at_ok ether s p k); [| |change (sizeof ether) with 14|change (sizeof ether) with 14; lia]|].
  apply wp_bind. eapply wp_ld_arp; [done|lia|]. case_if; [by apply (free_consumes D s p k)|].
  pose proof (arp_wf k (inv_bytes D _ _ _ _ (proj1 Hr) Hk) ltac:(lia)) as Hw.
  assert (Hw' : wf_struct (arp_hton (arp_of k))).
  { cbn in Hw |- *. destruct_and! Hw. split_and!; auto with tapip; lia. }
  set (a := arp_hton (arp_of k)) in *.
  destruct (arp_encode_len a) as [Hal Hab]; [apply Hw'|apply Hw'|].
  apply wp_bind. unfold st_at. eapply wp_st_bytes; [done|done|rewrite Hal; change ETH_HRD_SZ with 14; lia|].
  assert (Hr1 : ready D (with_pkb s p (store k ETH_HRD_SZ (encode a))) (p :: H) (p :: K)) by by apply ready_store.
  assert (Hfree : wp (free_pkb p) (fun _ => kept D s H K) (with_pkb s p (store k ETH_HRD_SZ (encode a)))).
  { eapply wp_mono; [by apply (free_consumes D _ p _ H K Hr1 HpK (live_with _ _ _))|].
    intros [] s' Hk'. by eapply kept_with. }
  destruct (negb (arp_hrd a =? _) || _ || _ || _) eqn:Eb; [done|]. case_if; [done|].
  eapply wp_mono; [apply (arp_recv_ok dev HDd _ p _ H K Hr1 HpK (live_with _ _ _))|].
  - rewrite store_len by (rewrite ?Hal; change ETH_HRD_SZ with 14; lia). split; [lia|].
    unfold arp_of, store. cbn [pk_data set_pk_data].
    rewrite slice_patch_eq; [|done|by rewrite Hal|rewrite Hal; change ETH_HRD_SZ with 14; lia].
    rewrite decode_encode by done.
    apply orb_false_iff in Eb as [[[_ Eb]%orb_false_iff _]%orb_false_iff _].
    apply negb_false_iff in Eb. lia.
  - intros [] s' Hk'. by eapply kept_with.
Qed.

(** ** The timer *)

Lemma arp_queue_drop_ok i s H :
  inv D s H -> (i < ARP_CACHE_SZ)%nat ->
  wp (arp_queue_drop i) (fun _ s' => inv D s' H /\
    arp_cache (st_arp s') !!! i = set_ae_list (arp_cache (st_arp s) !!! i) []) s.
Proof.
  intros Hi Hlt. unfold arp_queue_drop. apply wp_bind, wp_gets. set (e := arp_cache (st_arp s) !!! i).
  apply (wp_for_each _ _ (fun r s' => inv D s' H /\ arp_cache (st_arp s') !!! i = set_ae_list e r)).
  { split; [done|]. by destruct e eqn:Ee. }
  intros p r s1 [Hi1 He1]. assert (El : ae_list (arp_cache (st_arp s1) !!! i) = p :: r) by by rewrite He1.
  destruct (inv_entry D s1 H i Hi1 Hlt) as (Hlt1 & _).
  destruct (inv_pop D s1 H i p r Hi1 Hlt El) as (Hi2 & _).
  apply wp_bind, wp_modify.
  assert (Eu : upd_entry (st_arp s1) i (fun e => set_ae_list e (tail (ae_list e))) =
               upd_entry (st_arp s1) i (fun e => set_ae_list e r)) by (unfold upd_entry; by rewrite El).
  rewrite Eu. eapply wp_free; [exact Hi2|]. intros s' Hi' _ Ha _. split; [done|].
  rewrite Ha. cbn [st_arp set_arp]. rewrite upd_entry_lookup, decide_True by done. by rewrite He1.
Qed.

(** A waiting entry whose queue is empty, or a resolved one, may become free. *)
Lemma free_entry_ok i s H :
  inv D s H -> (i < ARP_CACHE_SZ)%nat -> ae_list (arp_cache (st_arp s) !!! i) = [] ->
  wp (upd_ae i (fun e => set_ae_state e ARP_FREE)) (fun _ s' => inv D s' H) s.
Proof.
  intros Hi Hlt El. destruct (inv_entry D s H i Hi Hlt) as (Hlt' & [E1 E2 E3 E4] & _). apply wp_modify.
  apply (inv_upd_ae D s H i (fun e => set_ae_state e ARP_FREE) Hi Hlt); [done| |by intros []].
  apply upd_entry_inv; [apply Hi|done|]. intros e He _. apply list_lookup_total_correct in He. subst e.
  split; [|by left]. split; cbn; auto.
Qed.

Lemma arp_timer_entry_ok delta i s H :
  inv D s H -> (i < ARP_CACHE_SZ)%nat -> wp (arp_timer_entry delta i) (fun _ s' => inv D s' H) s.
Proof.
  intros Hi Hlt. destruct (inv_entry D s H i Hi Hlt) as (_ & He & _). unfold arp_timer_entry.
  apply wp_bind, wp_gets. set (e := arp_cache (st_arp s) !!! i) in *. case_if; [by apply wp_ret|].
  apply Z.eqb_neq in E. assert (Hr : ready D s H []) by (split_and!; [done|by intros q Hq%elem_of_nil|set_solver]).
  assert (Hkeep : forall s' g, ready D s' H [] -> ae_state (arp_cache (st_arp s') !!! i) = ae_state e ->
     (forall x, entry_inv x -> entry_inv (g x)) -> (forall x, ae_list (g x) = ae_list x /\ ae_pro (g x) = ae_pro x /\
        ae_ipaddr (g x) = ae_ipaddr x /\ ae_dev (g x) = ae_dev x /\ ae_state (g x) = ae_state x) ->
     wp (upd_ae i g) (fun _ s'' => ready D s'' H [] /\ ae_state (arp_cache (st_arp s'') !!! i) = ae_state e) s').
  { intros s' g Hr' Es Hg Hs. destruct (inv_entry D s' H i (proj1 Hr') Hlt) as (_ & He' & _).
    destruct (Hs (arp_cache (st_arp s') !!! i)) as (G1 & G2 & G3 & G4 & G5).
    eapply wp_mono; [apply (kept_upd_ae D s' H []); auto; by rewrite ?G5, Es|].
    intros [] s'' [Hk E'']. split; [by apply (kept_ready D s'); [set_solver|]|]. by rewrite E'', G5. }
  apply wp_bind. eapply wp_mono; [apply (Hkeep s); [done|done|intros x []; by split|done]|].
  intros [] s1 [Hr1 Es1]. case_if; [|by apply wp_ret, Hr1]. apply wp_bind.
  eapply (wp_mono _ (fun _ s' => ready D s' H [] /\ ae_state (arp_cache (st_arp s') !!! i) = ae_state e)).
  { apply wp_when; intros _; [|done]. apply (Hkeep s1); [done|done|intros x []; by split|done]. }
  intros [] s2 [Hr2 Es2]. destruct (inv_entry D s2 H i (proj1 Hr2) Hlt) as (_ & He2 & _). case_if.
  - apply wp_bind. eapply (wp_mono _ (fun _ s' => inv D s' H /\ ae_list (arp_cache (st_arp s') !!! i) = [])).
    + apply wp_when; intros Ew; [|split; [apply Hr2|apply He2; rewrite Es2; lia]].
      eapply wp_mono; [apply arp_queue_drop_ok; [apply Hr2|done]|]. intros [] s3 [Hi3 E3]. by rewrite E3.
    + intros [] s3 [Hi3 E3]. by apply free_entry_ok.
  - apply wp_bind. eapply wp_mono; [apply (Hkeep s2); [done|done|intros x []; by split|done]|].
    intros [] s3 [Hr3 Es3]. eapply wp_mono; [apply (arp_request_ok i s3 H [] Hr3 Hlt); by rewrite Es3|].
    intros [] s4 Hk4. apply Hk4.
Qed.

Lemma arp_timer_ok delta s H : inv D s H -> wp (arp_timer delta) (fun _ s' => inv D s' H) s.
Proof.
  intros Hi. unfold arp_timer.
  eapply wp_mono; [apply (wp_for_each _ _ (fun r s' => inv D s' H /\ forall i, i ∈ r -> (i < ARP_CACHE_SZ)%nat))|].
  - split; [done|]. intros i Hin%elem_of_seq. lia.
  - intros i r s1 [Hi1 Hr1]. eapply wp_mono; [apply arp_timer_entry_ok; [done|apply Hr1; set_solver]|].
    intros [] s2 Hi2. split; [done|]. intros j Hj. apply Hr1. set_solver.
  - by intros [] s2 [Hi2 _].
Qed.

End SafeArp.
