(* ===== verification/SafeIp.v ===== *)
(** * Safety of IP output and of ICMP

    ip_send_dev, fragmentation, ip_send_out and ip_send_info take over the
    reference to the packet they send; icmp_send borrows the packet it answers;
    icmp_in takes over the message. *)

From stdpp Require Import prelude list gmap.
From Stdlib Require Import ZArith Lia.
From S2P Require Import Prelude Structs Checksum Route Pkb FastPipe ArpCache Sock Stack Arp IpOut Icmp IpFrag Own SafeNet.

(** ** Headers *)

Section Headers.
Implicit Types (k : pkbuf) (h : ip).

Lemma iphlen_5 h : ip_hlen h = 5 -> iphlen h = 20.
Proof. unfold iphlen. by intros ->. Qed.

Lemma store_ip_store_ip k h h' : 34 <= zlen (pk_data k) -> store_ip (store_ip k h) h' = store_ip k h'.
Proof.
  intros Hl. unfold store_ip, store. cbn [pk_data set_pk_data].
  rewrite patch_patch_eq; [done|done|by rewrite !ip_encode_len|].
  rewrite ip_encode_len. change ETH_HRD_SZ with 14. lia.
Qed.

Lemma net_pkt_store k h :
  34 <= pk_len k <= zlen (pk_data k) -> wf_struct h -> ip_hlen h = 5 -> ip_pro h <> IP_P_UDP ->
  20 <= _ntohs (ip_len h) -> 14 + _ntohs (ip_len h) <= pk_len k -> net_pkt (store_ip k h).
Proof.
  intros. unfold net_pkt. split; [split|]; rewrite ?hdr_store by (auto; lia); auto.
  rewrite store_ip_len by lia. done.
Qed.

Lemma host_pkt_store k h :
  34 <= pk_len k <= zlen (pk_data k) -> wf_struct h -> ip_hlen h = 5 -> ip_pro h <> IP_P_UDP ->
  20 <= ip_len h -> 14 + ip_len h <= pk_len k -> host_pkt (store_ip k h).
Proof.
  intros. unfold host_pkt. split; [split|]; rewrite ?hdr_store by (auto; lia); auto.
  rewrite store_ip_len by lia. done.
Qed.

(** An update of the other fields of the header. *)
Lemma net_pkt_upd k h :
  net_pkt k -> wf_struct h -> ip_hlen h = ip_hlen (hdr_of k) -> ip_pro h = ip_pro (hdr_of k) ->
  ip_len h = ip_len (hdr_of k) -> net_pkt (store_ip k h).
Proof.
  intros ([Hl Hh Hp] & H1 & H2) Hw E1 E2 E3. apply net_pkt_store; rewrite ?E1, ?E2, ?E3; done.
Qed.

Lemma ip_chksum_u16 d : bytes_ok d -> is_u16 (ip_chksum d).
Proof. intros. apply checksum_range; [done|by vm_compute]. Qed.

Lemma set_cksum_wf h c : wf_struct h -> is_u16 c -> wf_struct (set_ip_cksum h c).
Proof. cbn. tauto. Qed.

Lemma set_src_wf h v : wf_struct h -> is_u32 v -> wf_struct (set_ip_src h v).
Proof. cbn. tauto. Qed.

Lemma set_dst_wf h v : wf_struct h -> is_u32 v -> wf_struct (set_ip_dst h v).
Proof. cbn. tauto. Qed.

Lemma info_hdr_wf h tos len id ttl pro dst :
  wf_struct h -> is_u8 tos -> is_u8 ttl -> is_u8 pro -> is_u32 dst ->
  wf_struct (mk_ip (IP_HRD_SZ / 4) IP_VERSION_4 tos (_htons len) (_htons id) 0 ttl pro (ip_cksum h) (ip_src h) dst).
Proof.
  intros Hw ? ? ? ?. pose proof (htons_range len). pose proof (htons_range id). cbn in Hw |- *.
  unfold IP_VERSION_4, is_u8, is_u16, is_u32 in *. destruct Hw as (W1 & W2 & W3 & W4 & W5 & W6 & W7 & W8 & W9 & W10 & W11). split_and!; (done || lia).
Qed.

(** The other fields of the buffer do not matter. *)
Lemma net_pkt_ext k k' : pk_len k' = pk_len k -> pk_data k' = pk_data k -> net_pkt k -> net_pkt k'.
Proof.
  intros El Ed ([H1 H2 H3] & H4). unfold net_pkt, hdr_of in *. rewrite El, Ed.
  split; [split|]; unfold hdr_of; rewrite ?El, ?Ed; done.
Qed.

Lemma host_pkt_ext k k' : pk_len k' = pk_len k -> pk_data k' = pk_data k -> host_pkt k -> host_pkt k'.
Proof.
  intros El Ed ([H1 H2 H3] & H4). unfold host_pkt, hdr_of in *. rewrite El, Ed.
  split; [split|]; unfold hdr_of; rewrite ?El, ?Ed; done.
Qed.

(** The header with its checksum set. *)
Definition sealed h : ip := set_ip_cksum h (ip_chksum (encode (set_ip_cksum h 0))).

Lemma sealed_wf h : wf_struct h -> wf_struct (sealed h).
Proof. intros Hw. apply set_cksum_wf; [done|]. apply ip_chksum_u16, ip_encode_ok. Qed.

Lemma ip_set_checksum_run (s : stack) (p : pid) k :
  live s p k -> bytes_ok (pk_data k) -> 34 <= zlen (pk_data k) -> ip_hlen (hdr_of k) = 5 ->
  ip_set_checksum p s = Ret tt (with_pkb s p (store_ip k (sealed (hdr_of k)))).
Proof.
  intros Hk Hb Hl Hh. pose proof (hdr_wf k Hb Hl) as Hw. set (h0 := set_ip_cksum (hdr_of k) 0).
  assert (Hw0 : wf_struct h0) by (by apply set_cksum_wf; [|vm_compute]).
  unfold ip_set_checksum. erewrite bind_ok by (by apply upd_ip_run). fold h0. set (k0 := store_ip k h0).
  assert (Hl0 : zlen (pk_data k0) = zlen (pk_data k)) by by apply store_ip_len.
  assert (Eh : hdr_of k0 = h0) by by apply hdr_store.
  erewrite bind_ok by (apply (ld_ip_run _ p k0); [apply live_with|lia]). rewrite Eh, iphlen_5 by done.
  erewrite bind_ok by (apply (ld_bytes_ok _ p k0); [apply live_with|done|lia|change ETH_HRD_SZ with 14; lia]).
  assert (Es : slice (pk_data k0) ETH_HRD_SZ 20 = encode h0).
  { unfold k0, store_ip, store. cbn [pk_data set_pk_data]. apply slice_patch_eq; [done|by rewrite ip_encode_len|].
    rewrite ip_encode_len. change ETH_HRD_SZ with 14. lia. }
  rewrite Es, (upd_ip_run _ p k0) by (apply live_with || lia). rewrite Eh, with_with. unfold k0.
  by rewrite store_ip_store_ip.
Qed.

End Headers.

Lemma rt_lookup_in t addr rt : rt_lookup t addr = Some rt -> rt ∈ t.
Proof.
  induction t as [|r t IH]; simpl; [done|]. case_if; [intros [= ->]; set_solver|].
  intros E'. apply elem_of_cons. right. by apply IH.
Qed.

Section Safe.
Context (D : gmap devid netdev) (HD : map_Forall (fun _ => dev_ok) D).
Context {os : OS} {re : Reentry} {reok : ReentryOk D}.
Implicit Types (s : stack) (p q : pid) (k : pkbuf) (H K : list pid).

Lemma ready_st_ip s H K p k h :
  ready D s (p :: H) (p :: K) -> live s p k -> ready D (with_pkb s p (store_ip k h)) (p :: H) (p :: K).
Proof. intros. apply ready_store; [done|done|apply ip_encode_ok]. Qed.

(** ** ip_set_checksum *)

Lemma wp_set_checksum s H p k (Q : unit -> stack -> Prop) :
  inv D s H -> live s p k -> 34 <= zlen (pk_data k) -> ip_hlen (hdr_of k) = 5 ->
  (forall c, is_u16 c -> Q tt (with_pkb s p (store_ip k (set_ip_cksum (hdr_of k) c)))) ->
  wp (ip_set_checksum p) Q s.
Proof.
  intros Hi Hk Hl Hh HQ. eapply wp_ok; [apply (ip_set_checksum_run s p k); try done; by eapply inv_bytes|].
  apply HQ, ip_chksum_u16, ip_encode_ok.
Qed.

(** ** ip_send_dev *)

(** A packet with a route, ready to be sent. *)
Definition routed k : Prop := net_pkt k /\ pk_pro k = ETH_P_IP /\ is_Some (pk_rtdst k).

Lemma enqueue_new_ok dev dst i c' s p k H K :
  is_Some (D !! dev) -> ready D s (p :: H) (p :: K) -> p ∉ K -> live s p k -> routed k ->
  arp_lookup (st_arp s) ETH_P_IP dst = None -> arp_alloc (st_arp s) = (Some i, c') ->
  wp (upd_ae i (fun e => set_ae_list (set_ae_dev (set_ae_ipaddr e dst) (Some dev)) (ae_list e ++ [p]));;
      arp_request i) (fun _ => kept D s H K) (set_arp c' s).
Proof.
  intros HDd Hr HpK Hk (Hn & Hpro & _) Hlk Ha. destruct (Hr) as (Hi & Hu & Hs).
  apply wp_bind, wp_modify.
  destruct (inv_fill D s (p :: H) H [p] i c' (fun e => set_ae_list (set_ae_dev (set_ae_ipaddr e dst) (Some dev)) (ae_list e ++ [p])) dst)
    as (Hi' & Hlt & Hm & Hq & Hne); try done.
  - intros e He El Ew. cbn. rewrite El, Ew. split_and!; try done; [|by apply He; rewrite Ew|by exists dev].
    destruct He. rewrite Ew in *. split; cbn; rewrite ?Ew; auto. by intros [].
  - apply NoDup_cons. split; [apply Hu; set_solver|apply Hi].
  - intros q kq ->%list_elem_of_singleton Hl. unfold live in Hl, Hk. rewrite Hk in Hl. by injection Hl as <-.
  - set (s' := set_arp (upd_entry c' i _) s) in *.
    assert (Hr' : ready D s' H K).
    { split_and!; [done| |set_solver]. intros q Hin Hq'. apply Hq in Hq' as [->%list_elem_of_singleton|Hq']; [done|].
      apply (Hu q); [set_solver|done]. }
    eapply wp_mono; [apply (arp_request_ok D HD i s' H K Hr' Hlt Hne)|]. intros [] s'' Hk''.
    eapply kept_from; [| |exact Hk'']; done.
Qed.

Lemma ip_send_dev_ok dev : is_Some (D !! dev) -> consumes D (ip_send_dev dev) routed.
Proof.
  intros HDd s p k H K Hr HpK Hk Hrt. destruct (Hrt) as (Hn & Hpro & rt & Ert). unfold ip_send_dev.
  apply wp_bind. eapply wp_ld; [done|]. apply wp_bind. rewrite Ert. eapply wp_of_opt; [done|].
  destruct (HDd) as [v Hv]. destruct (HD dev v Hv) as (_ & Hhw & _).
  change ETH_HRD_SZ with 14. case_if.
  { apply wp_bind. eapply wp_ld_dev; [apply Hr|done|]. intros v' Ev. rewrite <- Ev in Hhw.
    by apply (netdev_tx_ok D HD dev _ _ _ s p k); [..|apply tx_ok_net]. }
  destruct (Hn) as ([Hl _ _] & _).
  apply wp_bind. eapply wp_ld_ip; [done|lia|]. cbv zeta. set (dst := next_hop rt (hdr_of k)).
  apply wp_bind, wp_gets. destruct (arp_lookup _ _ dst) as [i|] eqn:El.
  - pose proof (arp_lookup_lt _ _ _ _ El) as Hlt. rewrite (ci_len _ (i_arp _ _ _ (proj1 Hr))) in Hlt.
    destruct (inv_entry D s _ i (proj1 Hr) Hlt) as (Hlt' & He & _).
    apply wp_bind, wp_gets. case_if.
    + apply wp_modify. destruct Hr as (Hi & Hu & Hs).
      destruct (inv_push D s H i p k Hi Hlt) as [Hi' Hq]; try done; [by apply Z.eqb_eq|apply Hu; set_solver|].
      split_and!; [done| |done|by apply arp_mono_upd].
      intros q Hin [->|Hq']%Hq; [done|]. apply (Hu q); [set_solver|done].
    + by apply (netdev_tx_ok D HD dev _ _ _ s p k); [..|apply He|apply tx_ok_net].
  - destruct (arp_alloc (st_arp s)) as [[i|] c'] eqn:Ea; apply wp_bind, wp_modify.
    + by apply (enqueue_new_ok dev dst i c' s p k H K).
    + rewrite (inv_full D s _ c' (proj1 Hr) Ea). by apply (free_consumes D s p k).
Qed.

(** ** Fragmentation *)

(** The header of a fragment before its checksum is set. *)
Definition frag_hdr (h : ip) (dlen off mf : Z) : ip :=
  set_ip_fragoff (set_ip_len h (_htons (u16 (20 + dlen)))) (_htons (u16 (Z.lor mf (Z.shiftr off 3)))).

Lemma frag_hdr_wf h dlen off mf : wf_struct h -> wf_struct (frag_hdr h dlen off mf).
Proof. cbn. intros Hw. destruct_and! Hw. split_and!; auto with tapip; lia. Qed.

(** The buffer ip_frag fills before it sets the checksum: [k] is the packet. *)
Definition frag_raw k (dlen off : Z) : pkbuf :=
  store (store (set_pk_rtdst (set_pk_indev (set_pk_type (set_pk_pro (zero_pkb (34 + dlen)) (pk_pro k))
                  (pk_type k)) (pk_indev k)) (pk_rtdst k))
           14 (slice (pk_data k) 14 20)) 34 (slice (pk_data k) (34 + off) dlen).

Lemma frag_raw_ok k dlen off :
  bytes_ok (pk_data k) -> 0 <= dlen -> 0 <= off -> 34 + off + dlen <= zlen (pk_data k) ->
  zlen (pk_data (frag_raw k dlen off)) = 34 + dlen /\ bytes_ok (pk_data (frag_raw k dlen off)) /\
  hdr_of (frag_raw k dlen off) = hdr_of k.
Proof.
  intros Hb Hd Ho Hl. unfold frag_raw.
  set (k1 := set_pk_rtdst _ _).
  assert (H1 : zlen (pk_data k1) = 34 + dlen) by (cbn; rewrite zlen_replicate; lia).
  assert (Hs1 : zlen (slice (pk_data k) 14 20) = 20) by (apply zlen_slice; lia).
  assert (Hs2 : zlen (slice (pk_data k) (34 + off) dlen) = dlen) by (apply zlen_slice; lia).
  assert (H2 : zlen (pk_data (store k1 14 (slice (pk_data k) 14 20))) = 34 + dlen)
    by (rewrite store_len; lia).
  split_and!.
  - rewrite store_len; lia.
  - unfold store. cbn [pk_data set_pk_data]. repeat apply bytes_ok_patch; auto with tapip. apply bytes_ok_zeros.
  - rewrite hdr_after by lia. unfold hdr_of, store. cbn [pk_data set_pk_data].
    rewrite slice_patch_eq; [done|done|by rewrite Hs1|change ETH_HRD_SZ with 14; lia].
Qed.

Lemma wp_ip_frag s H K p k dlen off mf (Q : pid -> stack -> Prop) :
  ready D s H K -> p ∈ K -> live s p k -> hdr_ok k -> 0 <= dlen -> 20 + dlen <= 65535 -> 0 <= off ->
  34 + off + dlen <= zlen (pk_data k) ->
  (forall f s' c, ready D s' (f :: H) (f :: K) -> f ∉ H -> is_u16 c ->
     live s' f (store_ip (frag_raw k dlen off) (set_ip_cksum (frag_hdr (hdr_of k) dlen off mf) c)) ->
     (forall q, q ∈ K -> pkbs (st_pkmem s') !! q = pkbs (st_pkmem s) !! q) -> st_arp s' = st_arp s -> Q f s') ->
  wp (ip_frag p 20 dlen off mf) Q s.
Proof.
  intros Hr Hp Hk Hh Hd Hd' Ho Hl HQ. pose proof (inv_bytes D _ _ _ _ (proj1 Hr) Hk) as Hb.
  destruct (frag_raw_ok k dlen off Hb Hd Ho Hl) as (El & Hbr & Eh).
  unfold ip_frag. change (ETH_HRD_SZ + 20) with 34. change ETH_HRD_SZ with 14. apply wp_bind.
  eapply (wp_alloc D); [exact Hr|]. intros f s1 Hr1 HfH _ Hf Hsame Ea _ _.
  assert (HKH : K ⊆ H) by apply Hr.
  assert (Hpf : f <> p) by (intros ->; apply HfH, HKH, Hp).
  assert (Hk1 : live s1 p k).
  { unfold live. rewrite <- Hk. apply Hsame. set_solver. }
  apply wp_bind. eapply wp_ld; [exact Hk1|]. apply wp_bind. eapply wp_upd; [exact Hf|].
  destruct Hh as [Hlen Hhl Hhp].
  apply wp_bind. eapply wp_ld_bytes; [by apply live_with_ne|lia|lia|lia|].
  apply wp_bind. eapply wp_st_bytes; [apply live_with|lia| |].
  { rewrite zlen_slice by lia. cbn. rewrite zlen_replicate. lia. }
  rewrite with_with. apply wp_bind. eapply wp_ld_bytes; [by apply live_with_ne|lia|lia|lia|].
  apply wp_bind. eapply wp_st_bytes; [apply live_with|lia| |].
  { rewrite zlen_slice by lia. rewrite store_len by (rewrite ?zlen_slice; cbn; rewrite ?zlen_replicate; lia).
    cbn. rewrite zlen_replicate. lia. }
  rewrite with_with. fold (frag_raw k dlen off). set (kr := frag_raw k dlen off) in *.
  apply wp_bind. eapply wp_upd_ip; [apply live_with|lia|]. rewrite with_with, Eh.
  fold (frag_hdr (hdr_of k) dlen off mf). set (h := frag_hdr (hdr_of k) dlen off mf).
  assert (Hw : wf_struct h) by (apply frag_hdr_wf, hdr_wf; [done|lia]).
  assert (Eh' : hdr_of (store_ip kr h) = h) by (apply hdr_store; [lia|done]).
  assert (Hput : forall h', ready D (with_pkb s1 f (store_ip kr h')) (f :: H) (f :: K)).
  { intros h'. eapply ready_put; [exact Hr1|exact Hf|done| |].
    - unfold store_ip, store. cbn [pk_data set_pk_data]. apply bytes_ok_patch; [done|apply ip_encode_ok].
    - intros rt Hrt. by apply (i_rtdst _ _ _ (proj1 Hr) p k rt). }
  apply wp_bind. eapply wp_set_checksum; [apply Hput|apply live_with|rewrite store_ip_len; lia|by rewrite Eh'|].
  intros c Hc. rewrite Eh', with_with, store_ip_store_ip by lia. apply wp_ret.
  apply (HQ f _ c); [apply Hput|done|done|apply live_with| |done].
  intros q Hq. rewrite lookup_with; [apply Hsame; set_solver|]. intros ->. by apply HfH, HKH.
Qed.

Lemma frag_routed k dlen off mf c :
  bytes_ok (pk_data k) -> routed k -> 0 <= dlen -> 20 + dlen <= 65535 -> 0 <= off -> is_u16 c ->
  34 + off + dlen <= zlen (pk_data k) ->
  routed (store_ip (frag_raw k dlen off) (set_ip_cksum (frag_hdr (hdr_of k) dlen off mf) c)).
Proof.
  intros Hb (([Hlen Hhl Hhp] & _) & Hpro & Hrt) Hd Hd' Ho Hc Hl.
  destruct (frag_raw_ok k dlen off Hb Hd Ho Hl) as (El & Hbr & Eh). split_and!; [|done|done].
  assert (Hw : wf_struct (frag_hdr (hdr_of k) dlen off mf)) by (apply frag_hdr_wf, hdr_wf; [done|lia]).
  assert (Elen : _ntohs (ip_len (set_ip_cksum (frag_hdr (hdr_of k) dlen off mf) c)) = 20 + dlen).
  { cbn. unfold _ntohs. rewrite htons_involutive by apply u16_range. apply u16_small. unfold is_u16. lia. }
  apply net_pkt_store; rewrite ?Elen, ?El; auto using set_cksum_wf; cbn; lia.
Qed.

(** One fragment is built and sent; the packet stays. *)
Lemma send_one_frag_ok dev s H K p k dlen off mf :
  is_Some (D !! dev) -> ready D s H K -> p ∈ K -> live s p k -> routed k -> 0 <= dlen -> 20 + dlen <= 65535 ->
  0 <= off -> 34 + off + dlen <= zlen (pk_data k) ->
  wp (let* f := ip_frag p 20 dlen off mf in ip_send_dev dev f) (fun _ => kept D s H K) s.
Proof.
  intros HDd Hr Hp Hk Hrt Hd Hd' Ho Hl. apply wp_bind.
  eapply wp_ip_frag; try done; [apply Hrt|]. intros f s1 c Hr1 Hf Hc Hlf Hsame Ea.
  assert (HfK : f ∉ K) by (intros Hin; apply Hf; by apply Hr).
  eapply wp_mono; [apply (ip_send_dev_ok dev HDd s1 f _ H K Hr1 HfK Hlf)|].
  - apply frag_routed; try done. by apply (inv_bytes D s H p k (proj1 Hr)).
  - intros [] s2 Hk2. eapply kept_from; [exact Hsame| |exact Hk2]. intros i. by rewrite Ea.
Qed.

Lemma ip_send_frag_loop_ok n dev p k mlen dlen off s H K :
  is_Some (D !! dev) -> ready D s H K -> p ∈ K -> live s p k -> routed k -> 0 < mlen -> 0 <= dlen ->
  20 + dlen <= 65535 -> 0 <= off -> 34 + off + dlen <= zlen (pk_data k) ->
  wp (ip_send_frag_loop n dev p 20 mlen dlen off)
    (fun r s' => kept D s H K s' /\ 0 <= r.1 <= dlen /\ 0 <= r.2 /\ r.1 + r.2 = dlen + off) s.
Proof.
  intros HDd. revert s dlen off. induction n as [|n IH]; intros s dlen off Hr Hp Hk Hrt Hm Hd Hd' Ho Hl;
    cbn [ip_send_frag_loop]; case_if; try done.
  - apply wp_ret. cbn. split_and!; try lia. by apply kept_refl.
  - apply Z.ltb_lt in E. rewrite wp_bind_assoc. apply wp_bind.
    eapply wp_mono; [apply (send_one_frag_ok dev s H K p k mlen off IP_FRAG_MF); try done; lia|].
    intros [] s1 Hk1. assert (Hl1 : live s1 p k).
    { unfold live. rewrite <- Hk. destruct Hk1 as (_ & _ & Hsame & _). by apply Hsame. }
    eapply wp_mono; [apply (IH s1 (dlen - mlen) (off + mlen)); try done; try lia|].
    + apply (kept_ready D s); [apply Hr|done].
    + intros [r1 r2] s2 (Hk2 & H1 & H2 & H3). cbn in *. split_and!; try lia. by apply (kept_trans D s s1).
  - apply wp_ret. cbn. split_and!; try lia. by apply kept_refl.
Qed.

Lemma align8_pos x : 8 <= x -> 0 < Z.land x (Z.lnot 7) <= x.
Proof.
  intros Hx. rewrite <- Z.ldiff_land. change 7 with (Z.ones 3).
  rewrite Z.ldiff_ones_r, Z.shiftr_div_pow2, Z.shiftl_mul_pow2 by lia. change (2 ^ 3) with 8. zmod.
Qed.

Lemma ip_send_frag_ok dev : is_Some (D !! dev) -> consumes D (ip_send_frag dev) routed.
Proof.
  intros HDd s p k H K Hr HpK Hk Hrt. destruct (HDd) as [v Hv]. destruct (HD dev v Hv) as (Hmtu & _).
  destruct (Hrt) as (([Hlen Hhl Hhp] & Hn1 & Hn2) & _). unfold ip_send_frag.
  apply wp_bind. eapply wp_ld_ip; [done|lia|]. apply wp_bind. eapply wp_ld_dev; [apply Hr|done|].
  intros v' Ev. cbv zeta. rewrite iphlen_5 by done.
  assert (Hmtu' : 68 <= net_mtu v') by by rewrite <- Ev in Hmtu.
  pose proof (align8_pos (net_mtu v' - 20) ltac:(lia)) as Hm. set (mlen := Z.land _ _) in *.
  pose proof (htons_range (ip_len (hdr_of k))) as Hu. fold (_ntohs (ip_len (hdr_of k))) in Hu. unfold is_u16 in Hu.
  set (dlen := _ntohs (ip_len (hdr_of k)) - 20). assert (Hp : p ∈ p :: K) by set_solver.
  apply wp_bind. eapply wp_mono; [apply (ip_send_frag_loop_ok _ dev p k mlen dlen 0 s (p :: H) (p :: K)); try done; lia|].
  intros [r1 r2] s1 (Hk1 & H1 & H2 & H3). cbn in H1, H2, H3.
  assert (Hl1 : live s1 p k) by (unfold live; rewrite <- Hk; by apply Hk1).
  assert (Hr1 : ready D s1 (p :: H) (p :: K)) by (apply (kept_ready D s); [apply Hr|done]).
  apply wp_bind. eapply wp_mono.
  { eapply (wp_when _ _ (fun _ => kept D s1 (p :: H) (p :: K))); intros _; [|by apply kept_refl].
    apply wp_bind. eapply wp_ld_ip; [done|lia|]. apply (send_one_frag_ok dev s1 _ _ p k); try done; lia. }
  intros [] s2 Hk2.
  assert (Hk02 : kept D s (p :: H) (p :: K) s2) by by apply (kept_trans D s s1).
  by apply (consumes_from D _ _ _ _ _ k _ _ (free_consumes D)).
Qed.

(** ** ip_send_out *)

(** rt_output gives the packet a route, or none. *)
Lemma rt_output_ok s p k H K :
  ready D s (p :: H) (p :: K) -> live s p k -> net_pkt k ->
  wp (rt_output p) (fun r s' => r < 0 /\ s' = s \/
     r = 0 /\ exists k', s' = with_pkb s p k' /\ ready D s' (p :: H) (p :: K) /\ net_pkt k' /\
       pk_pro k' = pk_pro k /\ is_Some (pk_rtdst k') /\ ip_len (hdr_of k') = ip_len (hdr_of k)) s.
Proof.
  intros Hr Hk Hn. destruct (Hn) as ([Hl _ _] & _). unfold rt_output.
  apply wp_bind. eapply wp_ld_ip; [done|lia|]. apply wp_bind, wp_gets.
  destruct (rt_lookup _ _) as [rt|] eqn:El; [|apply wp_ret; by left].
  assert (HDr : is_Some (D !! rt_dev rt)).
  { pose proof (i_rt _ _ _ (proj1 Hr)) as Hf. rewrite Forall_forall in Hf. apply Hf. by eapply rt_lookup_in. }
  apply wp_bind. eapply wp_upd; [done|]. set (k1 := set_pk_rtdst k (Some rt)).
  pose proof (inv_bytes D _ _ _ _ (proj1 Hr) Hk) as Hb.
  assert (Hr1 : ready D (with_pkb s p k1) (p :: H) (p :: K)).
  { eapply ready_put; [exact Hr|exact Hk|done|done|]. by intros ? [= <-]. }
  destruct HDr as [v Hv]. apply wp_bind. eapply wp_ld_dev; [apply Hr1|done|]. intros v' Ev.
  destruct (HD _ v Hv) as (_ & _ & Hip). rewrite <- Ev in Hip. apply wp_bind.
  eapply wp_upd_ip; [apply live_with|cbn; lia|]. rewrite with_with. apply wp_ret. right. split; [done|].
  exists (store_ip k1 (set_ip_src (hdr_of k1) (net_ipaddr v'))). split_and!; [done| | |done|by eexists|].
  - rewrite <- (with_with s p k1). apply ready_st_ip; [done|apply live_with].
  - apply net_pkt_upd; try done; [by apply (net_pkt_ext k)|]. change (hdr_of k1) with (hdr_of k).
    apply set_src_wf; [apply hdr_wf; [done|lia]|exact Hip].
  - rewrite hdr_store; [done|cbn; lia|]. apply set_src_wf; [apply hdr_wf; [done|cbn; lia]|exact Hip].
Qed.

(** The rest of ip_send_out, once the packet has a route. *)
Definition ip_send_routed (p : pid) : comp stack unit :=
  ip_set_checksum p;;
  let* h := ld_ip p in
  let* k := ld p in
  let* rt := of_opt NullDeref (pk_rtdst k) in
  let* v := ld_dev (rt_dev rt) in
  if net_mtu v <? _ntohs (ip_len h) then ip_send_frag (rt_dev rt) p
  else ip_send_dev (rt_dev rt) p.

Lemma ip_send_routed_ok : consumes D ip_send_routed routed.
Proof.
  intros s p k H K Hr HpK Hk (Hn & Hpro & rt & Ert). destruct (Hn) as ([Hl Hh _] & _).
  pose proof (inv_bytes D _ _ _ _ (proj1 Hr) Hk) as Hb. unfold ip_send_routed.
  apply wp_bind. eapply wp_set_checksum; [apply Hr|done|lia|done|]. intros c Hc.
  set (k1 := store_ip k _).
  assert (Hr1 : ready D (with_pkb s p k1) (p :: H) (p :: K)) by by apply ready_st_ip.
  assert (Hk1 : routed k1).
  { split_and!; [|done|by exists rt]. apply net_pkt_upd; try done.
    apply set_cksum_wf; [apply hdr_wf; [done|lia]|done]. }
  apply wp_bind. eapply wp_ld_ip; [apply live_with|unfold k1; rewrite store_ip_len; lia|].
  apply wp_bind. eapply wp_ld; [apply live_with|]. apply wp_bind. eapply wp_of_opt; [exact Ert|].
  pose proof (i_rtdst _ _ _ (proj1 Hr) p k rt Hk Ert) as HDr. destruct (HDr) as [v Hv].
  apply wp_bind. eapply wp_ld_dev; [apply Hr1|done|]. intros v' _.
  case_if; eapply consumes_with; eauto using ip_send_frag_ok, ip_send_dev_ok.
Qed.

Lemma ip_send_out_ok : consumes D ip_send_out net_pkt.
Proof.
  intros s p k H K Hr HpK Hk Hn. unfold ip_send_out. apply wp_bind. eapply wp_upd; [done|].
  set (k1 := set_pk_pro k ETH_P_IP). pose proof (inv_bytes D _ _ _ _ (proj1 Hr) Hk) as Hb.
  assert (Hr1 : ready D (with_pkb s p k1) (p :: H) (p :: K)).
  { eapply ready_put; [exact Hr|exact Hk|done|done|]. intros rt. by apply (i_rtdst _ _ _ (proj1 Hr) p k). }
  assert (Hn1 : net_pkt k1) by by apply (net_pkt_ext k).
  apply wp_bind. eapply wp_ld; [apply live_with|].
  change (wp (let* r := match pk_rtdst k1 with Some _ => ret 0 | None => rt_output p end in
              if r <? 0 then free_pkb p else ip_send_routed p) (fun _ => kept D s H K) (with_pkb s p k1)).
  apply wp_bind. destruct (pk_rtdst k1) as [rt|] eqn:Ert.
  - apply wp_ret. apply (consumes_with D _ _ _ _ _ _ _ ip_send_routed_ok); [done|done|].
    split_and!; [done|done|by eexists].
  - eapply wp_mono; [by apply (rt_output_ok _ p k1 H K Hr1 (live_with _ _ _))|].
    intros r s2 [[Hr' ->]|(-> & k2 & -> & Hr2 & Hn2 & Hp2 & Hrt2 & _)].
    + rewrite (proj2 (Z.ltb_lt r 0)) by done. by apply (consumes_with D _ _ _ _ _ _ _ (free_consumes D)).
    + rewrite with_with in Hr2 |- *. by apply (consumes_with D _ _ _ _ _ _ _ ip_send_routed_ok).
Qed.

(** A buffer ip_send_info can complete. *)
Definition info_ok k (tos len ttl pro dst : Z) : Prop :=
  pk_len k <= zlen (pk_data k) /\ 20 <= len <= 65535 /\ 14 + len <= pk_len k /\
  is_u8 tos /\ is_u8 ttl /\ is_u8 pro /\ pro <> IP_P_UDP /\ is_u32 dst.

Lemma ip_send_info_ok tos len ttl pro dst :
  consumes D (fun p => ip_send_info p tos len ttl pro dst) (fun k => info_ok k tos len ttl pro dst).
Proof.
  intros s p k H K Hr HpK Hk (H1 & H2 & H3 & H4 & H5 & H6 & H7 & H8). unfold ip_send_info.
  apply wp_bind, wp_gets, wp_bind, wp_modify. set (s1 := set_ipid _ s).
  assert (Hr1 : ready D s1 (p :: H) (p :: K)).
  { destruct Hr as (Hi & Hu & Hs). split_and!; [by apply inv_ipid|done|done]. }
  assert (Hk1 : live s1 p k) by exact Hk.
  apply wp_bind. eapply wp_upd_ip; [done|lia|]. set (h := mk_ip _ _ _ _ _ _ _ _ _ _ _).
  pose proof (hdr_wf k (inv_bytes D _ _ _ _ (proj1 Hr) Hk) ltac:(lia)) as Hw.
  assert (Hr2 : ready D (with_pkb s1 p (store_ip k h)) (p :: H) (p :: K)) by by apply ready_st_ip.
  assert (Elen : _ntohs (ip_len h) = len).
  { cbn. unfold _ntohs. apply htons_involutive. unfold is_u16. lia. }
  eapply wp_mono; [apply (ip_send_out_ok _ p _ H K Hr2 HpK (live_with _ _ _))|].
  - apply net_pkt_store; rewrite ?Elen; try done; try lia. by apply info_hdr_wf.
  - intros [] s' Hk'. apply kept_with in Hk'; [|done]. eapply kept_from; [| |exact Hk']; [done|by intros i].
Qed.

(** ** icmp_send *)

(** The message around the head of [pkb_in], which is at least [paylen] long. *)
Lemma icmp_build_ok type code data paylen s H K p k :
  0 <= paylen -> ready D s H K -> p ∈ K -> live s p k ->
  34 <= zlen (pk_data k) -> 14 + paylen <= zlen (pk_data k) ->
  wp (icmp_build type code data paylen p) (fun _ => kept D s H K) s.
Proof.
  intros Hpl Hr Hp Hk Hl Hl'. unfold icmp_build. cbv zeta.
  change (IP_HRD_SZ + ICMP_HRD_SZ) with 28. change (576 - IP_HRD_SZ - ICMP_HRD_SZ) with 548.
  set (pl := if 576 <? 28 + paylen then 548 else paylen).
  assert (Hplr : 0 <= pl <= 548 /\ pl <= paylen) by (unfold pl; case_if; lia). clearbody pl.
  change (ETH_HRD_SZ + IP_HRD_SZ + ICMP_HRD_SZ + pl) with (42 + pl). change (ETH_HRD_SZ + IP_HRD_SZ) with 34.
  change (34 + ICMP_HRD_SZ) with 42. change ICMP_HRD_SZ with 8. change ETH_HRD_SZ with 14.
  apply wp_bind. eapply (wp_alloc D); [exact Hr|]. intros f s1 Hr1 HfH _ Hf Hsame Ea _ _.
  assert (HKH : K ⊆ H) by apply Hr.
  assert (Hpf : f <> p) by (intros ->; apply HfH, HKH, Hp).
  assert (Hk1 : live s1 p k) by (unfold live; rewrite <- Hk; apply Hsame; set_solver).
  pose proof (inv_bytes D _ _ _ _ (proj1 Hr) Hk) as Hb.
  assert (Hz : zlen (pk_data (zero_pkb (42 + pl))) = 42 + pl) by (cbn; rewrite zlen_replicate; lia).
  destruct (icmp_encode_len (mk_icmp type code 0 data)) as [He0 Hb0].
  apply wp_bind. unfold st_at. eapply wp_st_bytes; [done|lia|rewrite He0; lia|].
  set (k1 := store _ 34 _). assert (Hz1 : zlen (pk_data k1) = 42 + pl) by (unfold k1; rewrite store_len; lia).
  apply wp_bind. eapply wp_ld_bytes; [by apply live_with_ne|lia|lia|lia|].
  assert (Hs : zlen (slice (pk_data k) 14 pl) = pl) by (apply zlen_slice; lia).
  apply wp_bind. eapply wp_st_bytes; [apply live_with|lia|lia|]. rewrite with_with.
  set (k2 := store k1 42 _). assert (Hz2 : zlen (pk_data k2) = 42 + pl) by (unfold k2; rewrite store_len; lia).
  apply wp_bind. eapply wp_ld_bytes; [apply live_with|lia|lia|lia|].
  set (m := mk_icmp type code _ data). destruct (icmp_encode_len m) as [Hem Hbm].
  apply wp_bind. eapply wp_st_bytes; [apply live_with|lia|lia|]. rewrite with_with.
  set (k3 := store k2 34 (encode m)). assert (Hz3 : zlen (pk_data k3) = 42 + pl) by (unfold k3; rewrite store_len; lia).
  apply wp_bind. eapply wp_ld_ip; [by apply live_with_ne|lia|].
  assert (Hr3 : ready D (with_pkb s1 f k3) (f :: H) (f :: K)).
  { eapply ready_put; [exact Hr1|exact Hf|done| |done].
    unfold k3, k2, k1, store. cbn [pk_data set_pk_data zero_pkb]. repeat apply bytes_ok_patch; auto with tapip. }
  assert (HfK : f ∉ K) by (intros Hin; by apply HfH, HKH).
  eapply wp_mono; [apply (consumes_with D _ _ s1 f k3 H K (ip_send_info_ok 0 (28 + pl) 0 IP_P_ICMP (ip_src (hdr_of k))) Hr3 HfK)|].
  - pose proof (hdr_wf k Hb ltac:(lia)) as Hw. unfold info_ok. cbn [pk_len k3 k2 k1 store set_pk_data zero_pkb].
    rewrite Hz3. unfold is_u8 in *. split_and!; try lia; try done; apply Hw.
  - intros [] s' Hk'. eapply kept_from; [| |exact Hk'].
    + intros q Hq. apply Hsame. set_solver.
    + intros i. by rewrite Ea.
Qed.

(** icmp_send borrows the packet it answers. *)
Lemma icmp_send_ok type code data s H K p k :
  0 <= type <= 18 -> ready D s H K -> p ∈ K -> live s p k -> net_pkt k ->
  wp (icmp_send type code data p) (fun _ => kept D s H K) s.
Proof.
  intros Ht Hr Hp Hk ([Hl Hh Hpr] & Hn1 & Hn2).
  assert (Hret : wp (ret tt) (fun _ => kept D s H K) s) by (apply wp_ret; by apply kept_refl).
  unfold icmp_send. apply wp_bind. eapply wp_ld_ip; [done|lia|]. cbv zeta. rewrite iphlen_5 by done.
  case_if; [done|]. apply wp_bind. eapply wp_ld; [done|]. do 3 (case_if; [done|]).
  assert (Htab : forall t, 0 <= t <= 18 -> exists b, icmp_type_error t s = Ret b s).
  { intros t Ht'. unfold icmp_type_error. rewrite (proj2 (Z.ltb_ge t 0)) by lia.
    destruct (lookup_lt_is_Some_2 icmp_table (Z.to_nat t)) as [d Ed].
    - change (length icmp_table) with 19%nat. lia.
    - rewrite Ed. by eexists. }
  apply wp_bind.
  eapply (wp_mono _ (fun _ s' => s' = s)).
  - unfold icmp_error_in. apply wp_bind. destruct (Htab type Ht) as [b Eb]. eapply wp_ok; [exact Eb|].
    case_if; [|by apply wp_ret]. apply wp_bind. rewrite iphlen_5 by done.
    eapply wp_ok; [apply (ld_at_ok icmp s p k); [done|done|done|change (sizeof icmp) with 8; change ETH_HRD_SZ with 14; lia]|].
    pose proof (inv_bytes D _ _ _ _ (proj1 Hr) Hk) as Hb.
    match goal with |- context [icmp_type ?i] => set (ic := i) end.
    assert (Hic : wf_struct ic).
    { apply decode_wf; [by apply bytes_ok_slice|]. apply zlen_slice; change (sizeof icmp) with 8; change ETH_HRD_SZ with 14; lia. }
    case_if; [by apply wp_ret|]. destruct (Htab (icmp_type ic)) as [b' Eb'].
    + destruct Hic as (Hi1 & _). unfold is_u8, ICMP_T_MAXNUM in *. lia.
    + by eapply wp_ok; [exact Eb'|].
  - intros b s' ->. case_if; [done|]. apply icmp_build_ok with (k := k); try done; lia.
Qed.

(** ** icmp_in *)

(** An ICMP message inside a packet. *)
Definition icmp_of k : icmp := decode (slice (pk_data k) 34 (sizeof icmp)).

Lemma icmp_wf k : bytes_ok (pk_data k) -> 42 <= zlen (pk_data k) -> wf_struct (icmp_of k).
Proof.
  intros Hb Hl. apply decode_wf; [by apply bytes_ok_slice|]. change (sizeof icmp) with 8. apply zlen_slice; lia.
Qed.

Lemma wp_ld_icmp s p k (Q : icmp -> stack -> Prop) :
  live s p k -> 42 <= zlen (pk_data k) -> Q (icmp_of k) s -> wp (ld_at icmp p 34) Q s.
Proof.
  intros Hk Hl HQ. eapply wp_ok; [|exact HQ]. apply (ld_at_ok icmp s p k 34); [done|lia|done|change (sizeof icmp) with 8; lia].
Qed.

Lemma do_echo_request_ok : consumes D do_echo_request (fun k => host_pkt k /\ 42 <= zlen (pk_data k)).
Proof.
  intros s p k H K Hr HpK Hk (([Hl Hh Hpr] & Hn1 & Hn2) & Hl'). unfold do_echo_request.
  pose proof (inv_bytes D _ _ _ _ (proj1 Hr) Hk) as Hb. pose proof (hdr_wf k Hb ltac:(lia)) as Hw.
  apply wp_bind. eapply wp_ld_ip; [done|lia|]. cbv zeta. rewrite iphlen_5 by done. change (ETH_HRD_SZ + 20) with 34.
  apply wp_bind. eapply wp_ld_icmp; [done|lia|]. case_if; [by apply (free_consumes D s p k)|].
  set (m := mk_icmp _ _ _ _). destruct (icmp_encode_len m) as [Hem Hbm].
  apply wp_bind. unfold st_at. eapply wp_st_bytes; [done|lia|lia|]. set (k1 := store k 34 (encode m)).
  assert (El1 : zlen (pk_data k1) = zlen (pk_data k)) by (apply store_len; lia).
  assert (Eh1 : hdr_of k1 = hdr_of k) by (apply hdr_after; lia).
  assert (Hr1 : ready D (with_pkb s p k1) (p :: H) (p :: K)) by by apply ready_store.
  apply wp_bind. eapply wp_upd_ip; [apply live_with|lia|]. rewrite with_with, Eh1.
  set (h := ip_ntoh (set_ip_dst (hdr_of k) (ip_src (hdr_of k)))).
  assert (Hw' : wf_struct h) by (apply ip_ntoh_wf, set_dst_wf; [done|apply Hw]).
  assert (Elen : _ntohs (ip_len h) = ip_len (hdr_of k)) by (cbn; apply htons_involutive; apply Hw).
  assert (Hn : net_pkt (store_ip k1 h)) by (apply net_pkt_store; rewrite ?Elen, ?El1; done).
  apply wp_bind. eapply wp_upd; [apply live_with|]. rewrite with_with.
  eapply (consumes_with D _ _ _ _ _ _ _ ip_send_out_ok); [|done|by eapply net_pkt_ext; [..|exact Hn]].
  eapply ready_put; [exact Hr|exact Hk|done| |done].
  unfold store_ip, k1, store. cbn [pk_data set_pk_data set_pk_type set_pk_indev set_pk_rtdst].
  repeat apply bytes_ok_patch; auto using ip_encode_ok.
Qed.

Lemma icmp_in_ok : consumes D icmp_in host_pkt.
Proof.
  intros s p k H K Hr HpK Hk Hhost. destruct (Hhost) as ([Hl Hh Hpr] & Hn1 & Hn2). unfold icmp_in.
  assert (Hfree : wp (free_pkb p) (fun _ => kept D s H K) s) by by apply (free_consumes D s p k).
  pose proof (inv_bytes D _ _ _ _ (proj1 Hr) Hk) as Hb.
  apply wp_bind. eapply wp_ld_ip; [done|lia|]. cbv zeta. unfold ipdlen. rewrite iphlen_5 by done.
  change (ETH_HRD_SZ + 20) with 34. change ICMP_HRD_SZ with 8. case_if; [done|]. apply Z.ltb_ge in E.
  apply wp_bind. eapply wp_ld_bytes; [done|lia|lia|lia|]. case_if; [done|].
  apply wp_bind. eapply wp_ld_icmp; [done|lia|]. case_if; [done|]. apply Z.ltb_ge in E1. unfold ICMP_T_MAXNUM in E1.
  destruct (icmp_wf k Hb ltac:(lia)) as (Ht & _). unfold is_u8 in Ht.
  destruct (lookup_lt_is_Some_2 icmp_table (Z.to_nat (icmp_type (icmp_of k)))) as [d Ed].
  { change (length icmp_table) with 19%nat. lia. }
  apply wp_bind. eapply wp_of_opt; [exact Ed|]. destruct (handler d); cbn [run_handler]; try done.
  apply (do_echo_request_ok s p k H K); try done. split; [done|lia].
Qed.

End Safe.
