(* ===== verification/Wire.v ===== *)
(** * What the stack puts on the wire

    For the tap and packet-socket devices the frames handed to write() are part of
    the state ([st_wire]).  This file says which frames the link layer, ARP and
    fragmentation write; the results are total: the functions return. *)

From stdpp Require Import prelude list gmap.
From Stdlib Require Import ZArith Lia.
From S2P Require Import Prelude Structs Checksum Route Pkb FastPipe ArpCache Sock Stack Arp IpOut Icmp IpFrag Own SafeNet SafeIp.

(** [frames] went out on [dev], oldest first; the buffers of [gone] were freed, and
    nothing else changed but counters of the devices and addresses of free memory. *)
Record sent (s : stack) (dev : devid) (frames : list (list Z)) (gone : list pid) (s' : stack) : Prop := {
  sn_wire : st_wire s' = rev ((fun f => (dev, f)) <$> frames) ++ st_wire s;
  sn_arp : st_arp s' = st_arp s;
  sn_frag : st_frag_head s' = st_frag_head s;
  sn_rt : st_rt_head s' = st_rt_head s;
  sn_dev : cfg <$> st_netdevs s' = cfg <$> st_netdevs s;
  sn_gone : forall q, q ∈ gone -> pkbs (st_pkmem s') !! q = None;
  sn_kept : forall q, q ∉ gone -> pkbs (st_pkmem s') !! q = pkbs (st_pkmem s) !! q;
  sn_next : (next_pid (st_pkmem s) <= next_pid (st_pkmem s'))%nat;
  sn_count : alloc_pkbs (st_pkmem s') - free_pkbs (st_pkmem s') =
             alloc_pkbs (st_pkmem s) - free_pkbs (st_pkmem s) - zlen gone;
  sn_sock : st_sock s' = st_sock s
}.

Section Wire.
Context {os : OS} {re : Reentry}.
Implicit Types (s : stack) (p q : pid) (k : pkbuf) (v : netdev).

Lemma upd_stats_run s d v f : st_netdevs s !! d = Some v ->
  upd_stats d f s = Ret tt (set_netdevs (<[d := set_net_stats v (f (net_stats v))]> (st_netdevs s)) s).
Proof. intros Hv. unfold upd_stats, ld_dev, bind, modify. by rewrite Hv. Qed.

Lemma stats_cfg (m : gmap devid netdev) d v t : m !! d = Some v -> cfg <$> <[d := set_net_stats v t]> m = cfg <$> m.
Proof.
  intros Hv. rewrite fmap_insert. change (cfg (set_net_stats v t)) with (cfg v). apply insert_id. by rewrite lookup_fmap, Hv.
Qed.

(** A frame: the ether header and [len] bytes of the packet. *)
Definition frame_of k (dst src : list Z) (proto len : Z) : list Z :=
  encode (mk_ether dst src (_htons proto)) ++ slice (pk_data k) 14 len.

Lemma frame_stored k proto dst src len :
  zlen dst = 6 -> zlen src = 6 -> 0 <= len -> len + 14 <= zlen (pk_data k) ->
  slice (pk_data (ether_stored k proto dst src (len + 14))) 0 (len + 14) = frame_of k dst src proto len.
Proof.
  intros Hd Hs Hl Hle. unfold ether_stored, store, frame_of. cbn [pk_data set_pk_len set_pk_data encode ether_struct eth_dst eth_src eth_pro].
  set (w := le_enc 2 (_htons proto)). assert (Hw : zlen w = 2) by (unfold w; by rewrite zlen_le_enc). clearbody w.
  destruct (pk_data k) as [|x0 [|x1 [|x2 [|x3 [|x4 [|x5 [|x6 [|x7 [|x8 [|x9 [|x10 [|x11 [|x12 [|x13 r]]]]]]]]]]]]]] eqn:Ed;
    try (unfold zlen in Hle; cbn in Hle; lia).
  unfold zlen in Hd, Hs, Hw.
  destruct dst as [|? [|? [|? [|? [|? [|? []]]]]]]; cbn in Hd; try lia.
  destruct src as [|? [|? [|? [|? [|? [|? []]]]]]]; cbn in Hs; try lia.
  destruct w as [|? [|? []]]; cbn in Hw; try lia.
  unfold slice, patch. cbn. replace (Z.to_nat (len + 14)) with (14 + Z.to_nat len)%nat by lia. reflexivity.
Qed.

(** netdev_tx on a device that writes: one frame, and the packet is gone. *)
Lemma netdev_tx_wire dev v len proto dst a s p k :
  st_netdevs s !! dev = Some v -> net_ops v = veth_ops \/ net_ops v = peth_ops -> hwaddr_ok (net_hwaddr v) ->
  live s p k -> pk_refcnt k = 1 -> hwaddr_ok a ->
  match dst with HwVal b => b = a | HwIn off => 0 <= off /\ off + 6 <= 12 /\ slice (pk_data k) off 6 = a end ->
  0 <= len -> len + 14 <= zlen (pk_data k) ->
  twp (netdev_tx dev p len proto dst)
    (fun _ => sent s dev [frame_of k a (net_hwaddr v) proto len] [p]) s.
Proof.
  intros Hv Hops [_ Hhw] Hk Href [_ Ha] Hdst Hl Hle.
  assert (Ea : zlen a = 6) by (unfold zlen; lia). assert (Ehw : zlen (net_hwaddr v) = 6) by (unfold zlen; lia).
  assert (E2 : zlen (le_enc 2 (_htons proto)) = 2) by by rewrite zlen_le_enc.
  unfold netdev_tx. eapply twp_step; [unfold ld_dev; by rewrite Hv|].
  eapply twp_step; [apply (st_bytes_ok s p k); [done|lia|lia]|]. set (k1 := set_pk_data k _).
  assert (L1 : zlen (pk_data k1) = zlen (pk_data k)) by (apply (store_len k); lia).
  eapply twp_step with (a := a) (s' := with_pkb s p k1).
  { destruct dst as [b|off]; cbn [ld_hw]; [by subst|]. destruct Hdst as (H1 & H2 & H3).
    change ETH_ALEN with 6. rewrite (ld_bytes_ok _ p k1); [|apply live_with|lia|lia|lia].
    f_equal. unfold k1. cbn [pk_data set_pk_data]. rewrite slice_patch_before by lia. done. }
  eapply twp_step; [apply (st_bytes_ok _ p k1); [apply live_with|lia|lia]|]. rewrite with_with. set (k2 := set_pk_data k1 _).
  assert (L2 : zlen (pk_data k2) = zlen (pk_data k)) by (rewrite <- L1; apply (store_len k1); lia).
  eapply twp_step; [apply (st_bytes_ok _ p k2); [apply live_with|lia|lia]|]. rewrite with_with.
  eapply twp_step; [apply upd_ok, live_with|]. rewrite with_with. change ETH_HRD_SZ with 14.
  change (set_pk_len _ (len + 14)) with (ether_stored k proto a (net_hwaddr v) (len + 14)).
  set (k3 := ether_stored k proto a (net_hwaddr v) (len + 14)).
  assert (L3 : zlen (pk_data k3) = zlen (pk_data k)) by (rewrite <- L2; apply (store_len k2); lia).
  assert (Ef : slice (pk_data k3) 0 (pk_len k3) = frame_of k a (net_hwaddr v) proto len) by (apply frame_stored; done).
  assert (Hx : xmit (net_ops v) dev p = write_xmit dev p) by (destruct Hops as [-> | ->]; done).
  rewrite Hx. clear Hx. unfold write_xmit. apply twp_bind.
  eapply twp_step; [apply ld_ok, live_with|]. eapply twp_step; [apply (ld_bytes_ok _ p k3); [apply live_with|lia|change (pk_len k3) with (len + 14); lia|change (pk_len k3) with (len + 14); lia]|].
  rewrite Ef. eapply twp_step; [done|]. cbv zeta. eapply twp_step; [done|].
  set (s1 := set_wire _ _). assert (Hv1 : st_netdevs s1 !! dev = Some v) by exact Hv.
  assert (Hfree : forall s2 u, s2 = set_netdevs (<[dev := set_net_stats v u]> (st_netdevs s1)) s1 ->
            twp (free_pkb p) (fun _ => sent s dev [frame_of k a (net_hwaddr v) proto len] [p]) s2).
  { intros s2 u ->. eapply twp_ok; [apply (free_pkb_ok _ p k3); exact (lookup_with_eq s p k3)|].
    change (pk_refcnt k3) with (pk_refcnt k). rewrite Href. cbn [Z.sub Z.leb Z.compare].
    split; try done.
    - cbn [st_netdevs set_netdevs without_pkb set_pkmem]. by apply stats_cfg.
    - intros q ->%list_elem_of_singleton. change (delete p (<[p := k3]> (pkbs (st_pkmem s))) !! p = None). by rewrite lookup_delete_eq.
    - intros q Hq%not_elem_of_cons. change (delete p (<[p := k3]> (pkbs (st_pkmem s))) !! q = pkbs (st_pkmem s) !! q). rewrite lookup_delete_ne, lookup_insert_ne by (intros E; destruct Hq as [Hq _]; congruence). done.
    - change (alloc_pkbs (st_pkmem s) - (free_pkbs (st_pkmem s) + 1) = alloc_pkbs (st_pkmem s) - free_pkbs (st_pkmem s) - 1). lia. }
  case_if; (eapply twp_step; [by apply upd_stats_run|]; by apply twp_ret; eapply Hfree).
Qed.

End Wire.
