(* ===== verification/SafeFrag.v ===== *)
(** * Safety of reassembly

    ip_reass takes over the reference to a fragment; a complete datagram comes
    back as a new packet whose header and length agree.  The list of a datagram
    is, whatever arrives in whatever order, two runs of strictly increasing
    offsets, so its size cannot wrap. *)

From stdpp Require Import prelude list gmap sorting.
From Stdlib Require Import ZArith Lia.
From S2P Require Import Prelude Structs Checksum Route Pkb FastPipe ArpCache Sock Stack Arp IpOut Icmp IpFrag Own SafeNet SafeIp.

(** ** Lists in order *)

Section Order.
Context (f : pid -> Z).
Implicit Types (l A B : list pid) (p q : pid).

Notation sorted l := (StronglySorted Z.lt (f <$> l)).

Lemma sorted_nil : sorted [].
Proof. constructor. Qed.

Lemma sorted_one p : sorted [p].
Proof. repeat constructor. Qed.

Lemma sorted_app A B : sorted (A ++ B) <->
  sorted A /\ sorted B /\ forall a b, a ∈ A -> b ∈ B -> f a < f b.
Proof.
  rewrite fmap_app. split.
  - intros Hs. split_and!; [by eapply StronglySorted_app_1_l|by eapply StronglySorted_app_1_r|].
    intros a b Ha Hb. eapply StronglySorted_app_1_elem_of; [exact Hs|by apply list_elem_of_fmap_2|by apply list_elem_of_fmap_2].
  - intros (HA & HB & Hab). apply StronglySorted_app_2; [|done|done].
    intros x y (a & -> & Ha)%list_elem_of_fmap (b & -> & Hb)%list_elem_of_fmap. by apply Hab.
Qed.

Lemma sorted_insert A q p B : sorted (A ++ q :: B) -> f q < f p -> Forall (fun x => f p < f x) B ->
  sorted (A ++ q :: p :: B).
Proof.
  intros Hs Hq HB. change (A ++ q :: B) with (A ++ [q] ++ B) in Hs. change (A ++ q :: p :: B) with (A ++ [q] ++ [p] ++ B).
  rewrite Forall_forall in HB. rewrite app_assoc, !sorted_app in Hs. rewrite app_assoc, !sorted_app.
  destruct Hs as ((HA & _ & HAq) & HsB & HAB). split_and!; auto using sorted_one.
  - intros a b ->%list_elem_of_singleton Hb. by apply HB.
  - intros a b Ha Hb. apply elem_of_cons in Hb as [->|Hb]; [|by apply HAB].
    apply elem_of_app in Ha as [Ha| ->%list_elem_of_singleton]; [|done].
    pose proof (HAq a q Ha ltac:(set_solver)). lia.
Qed.

(** Two runs stay two runs when a packet goes behind the last smaller one. *)
Lemma runs_insert A B l1 q p l2 :
  A ++ B = l1 ++ q :: l2 -> sorted A -> sorted B -> f q < f p -> Forall (fun x => f p < f x) l2 ->
  exists A' B', l1 ++ q :: p :: l2 = A' ++ B' /\ sorted A' /\ sorted B' /\ (B = [] -> B' = []).
Proof.
  intros E HA HB Hq Hl2. replace (l1 ++ q :: l2) with ((l1 ++ [q]) ++ l2) in E by by rewrite <- app_assoc.
  apply app_eq_app in E as (l & [[-> ->]|[E ->]]).
  - exists (l1 ++ q :: p :: l), B. split_and!; [by rewrite <- app_assoc| |done|done].
    rewrite <- app_assoc in HA. apply sorted_insert; [done|done|]. apply Forall_app in Hl2. apply Hl2.
  - destruct l as [|x l _] using rev_ind.
    + rewrite app_nil_r in E. subst A. exists (l1 ++ [q; p]), l2.
      split_and!; [by rewrite <- app_assoc| |done|done]. by apply (sorted_insert l1 q p []).
    + rewrite app_assoc in E. apply app_inj_tail in E as [-> <-].
      exists A, (l ++ q :: p :: l2). split_and!; [by rewrite <- app_assoc|done| |].
      * apply sorted_insert; [by rewrite <- app_assoc in HB|done|done].
      * intros Enil. by destruct l.
Qed.

(** Offsets are multiples of eight below 65536: a run is short. *)
Lemma run_length A a b : sorted A -> Forall (fun x => 8 * a <= f x < 8 * b /\ f x mod 8 = 0) A ->
  zlen A <= Z.max 0 (b - a).
Proof.
  revert a. induction A as [|x A IH]; intros a Hs HA; [unfold zlen; cbn; lia|].
  apply Forall_cons in HA as [[Hx Hx8] HA]. rewrite fmap_cons in Hs. apply StronglySorted_inv in Hs as [Hs Hlt].
  specialize (IH (f x / 8 + 1) Hs). rewrite zlen_cons.
  assert (zlen A <= Z.max 0 (b - (f x / 8 + 1))); [|zmod].
  apply IH. apply Forall_forall. intros y Hy. rewrite Forall_forall in HA. destruct (HA y Hy) as [Hy1 Hy2].
  rewrite Forall_fmap, Forall_forall in Hlt. specialize (Hlt y Hy). cbn in Hlt. zmod.
Qed.

End Order.

(** ** The list of datagrams *)

Section FragList.
Implicit Types (l : list (fid * fragment)) (i : fid) (f g : fragment).

Lemma frag_get_split l i f : frag_get l i = Some f ->
  exists l1 l2, l = l1 ++ (i, f) :: l2 /\ i ∉ fst <$> l1.
Proof.
  induction l as [|[j g] l IH]; cbn; [done|]. destruct (Nat.eqb_spec j i) as [->|Hne].
  - intros [= ->]. exists [], l. split; [done|set_solver].
  - intros (l1 & l2 & -> & Hn)%IH. exists ((j, g) :: l1), l2. split; [done|]. cbn. set_solver.
Qed.

Lemma frag_get_elem l i f : frag_get l i = Some f -> (i, f) ∈ l.
Proof. intros (l1 & l2 & -> & _)%frag_get_split. set_solver. Qed.

Lemma frag_put_other l i g : i ∉ fst <$> l -> frag_put l i g = l.
Proof.
  intros Hn. unfold frag_put. rewrite <- (list_fmap_id l) at 2. apply list_fmap_ext. intros n [j f] Hl.
  cbn. destruct (Nat.eqb_spec j i) as [->|]; [|done]. exfalso. apply Hn.
  apply (list_elem_of_fmap_2' fst _ (i, f)); [by eapply list_elem_of_lookup_2|done].
Qed.

Lemma frag_put_split l1 i f l2 g : i ∉ fst <$> l1 -> i ∉ fst <$> l2 ->
  frag_put (l1 ++ (i, f) :: l2) i g = l1 ++ (i, g) :: l2.
Proof.
  intros H1 H2. unfold frag_put. rewrite fmap_app, fmap_cons. cbn [fst]. rewrite Nat.eqb_refl.
  pose proof (frag_put_other l1 i g H1) as E1. pose proof (frag_put_other l2 i g H2) as E2.
  unfold frag_put in E1, E2. by rewrite E1, E2.
Qed.

Lemma frag_get_here l1 i f l2 : i ∉ fst <$> l1 -> frag_get (l1 ++ (i, f) :: l2) i = Some f.
Proof.
  induction l1 as [|[j g] l1 IH]; cbn; intros Hn; [by rewrite Nat.eqb_refl|].
  apply not_elem_of_cons in Hn as [Hne Hn]. rewrite (proj2 (Nat.eqb_neq j i)) by congruence. by apply IH.
Qed.

Lemma frag_del_split l1 i f l2 : i ∉ fst <$> l1 -> i ∉ fst <$> l2 ->
  frag_del (l1 ++ (i, f) :: l2) i = l1 ++ l2.
Proof.
  assert (Hd : forall l, i ∉ fst <$> l -> frag_del l i = l).
  { intros l Hn. unfold frag_del. induction l as [|jf l IH]; [done|]. rewrite fmap_cons in Hn.
    apply not_elem_of_cons in Hn as [Hne Hn]. rewrite filter_cons_True by congruence. by rewrite IH. }
  intros H1 H2. unfold frag_del in *. rewrite filter_app, filter_cons_False by (intros E; by apply E).
  by rewrite !Hd.
Qed.

Lemma frag_pkts_split l1 i f l2 :
  frag_pkts (l1 ++ (i, f) :: l2) ≡ₚ frag_pkb f ++ frag_pkts (l1 ++ l2).
Proof.
  unfold frag_pkts. rewrite !fmap_app, fmap_cons, !concat_app. cbn [concat snd]. apply Permutation_app_swap_app.
Qed.

Lemma lookup_frag_in_get l h i : lookup_frag_in l h = Some i -> exists f, frag_get l i = Some f.
Proof.
  induction l as [|[j f] l IH]; cbn; [done|]. case_if.
  - intros [= ->]. rewrite Nat.eqb_refl. by eexists.
  - intros Hl. destruct (IH Hl) as [g Hg]. case_if; by eexists.
Qed.

End FragList.

(** ** Sizes and flags *)

Section Sizes.
Implicit Types (m : gmap nat pkbuf) (l : list pid) (p q : pid) (f : fragment).

(** A packet without options, in host order, that is all there. *)
Definition whole_pkt (k : pkbuf) : Prop :=
  34 <= pk_len k <= zlen (pk_data k) /\ ip_hlen (hdr_of k) = 5 /\
  20 <= ip_len (hdr_of k) /\ 14 + ip_len (hdr_of k) <= pk_len k.

Lemma host_whole k : host_pkt k -> whole_pkt k.
Proof. by intros ([] & ? & ?). Qed.

(** The packets of a datagram in memory [m]. *)
Definition all_host m l : Prop := forall q, q ∈ l -> exists k, m !! q = Some k /\ whole_pkt k /\ bytes_ok (pk_data k).

Lemma total_perm m l l' : l ≡ₚ l' -> total m l = total m l'.
Proof. intros Hp. unfold total. induction Hp; cbn; lia. Qed.

Lemma total_ext m m' l : (forall x, x ∈ l -> size_of m x = size_of m' x) -> total m l = total m' l.
Proof.
  intros He. unfold total. f_equal. apply list_fmap_ext. intros i x Hx. apply He. by eapply list_elem_of_lookup_2.
Qed.

Lemma total_cons m p l : total m (p :: l) = size_of m p + total m l.
Proof. done. Qed.

Lemma total_app m l l' : total m (l ++ l') = total m l + total m l'.
Proof. induction l as [|p l IH]; [done|]. rewrite <- app_comm_cons, !total_cons. lia. Qed.

Lemma insert_at_perm n p l : insert_at n p l ≡ₚ p :: l.
Proof. unfold insert_at. rewrite <- Permutation_middle. by rewrite take_drop. Qed.

Lemma size_range m l q : all_host m l -> q ∈ l -> 0 <= size_of m q <= 65515.
Proof.
  intros Hl (k & Hk & (Hlen & _ & H1 & H2) & Hb)%Hl. unfold size_of. rewrite Hk. cbn [from_option].
  pose proof (hdr_wf k Hb ltac:(lia)) as (_ & _ & _ & Hu & _). unfold is_u16 in Hu. lia.
Qed.

Lemma off_range m l q : all_host m l -> q ∈ l -> 8 * 0 <= off_of m q < 8 * 8192 /\ off_of m q mod 8 = 0.
Proof.
  intros Hl (k & Hk & (Hlen & _ & H1 & H2) & Hb)%Hl. unfold off_of. rewrite Hk. cbn [from_option].
  unfold ipoff. change IP_FRAG_OFF with (Z.ones 13). rewrite Z.land_ones by lia. zmod.
Qed.

Lemma total_bound m l : all_host m l -> 0 <= total m l <= 65515 * zlen l.
Proof.
  induction l as [|q l IH]; intros Hl; [unfold zlen; cbn; lia|]. rewrite total_cons, zlen_cons.
  assert (Hl' : all_host m l) by (intros x Hx; apply Hl; set_solver). specialize (IH Hl').
  pose proof (size_range m (q :: l) q Hl ltac:(set_solver)). lia.
Qed.

Lemma runs_total m A B : all_host m (A ++ B) -> sorted_offs m A -> sorted_offs m B ->
  0 <= total m (A ++ B) < 1073741824.
Proof.
  intros Hl HA HB. rewrite total_app.
  assert (Hrun : forall X, X ⊆ A ++ B -> sorted_offs m X -> 0 <= total m X <= 65515 * 8192).
  { intros X HX Hs. assert (Hh : all_host m X) by (intros x Hx; by apply Hl, HX).
    pose proof (total_bound m X Hh). pose proof (run_length (off_of m) X 0 8192 Hs) as Hz.
    assert (zlen X <= 8192); [|lia]. etransitivity; [apply Hz|lia]. apply Forall_forall. intros x Hx. by eapply off_range. }
  pose proof (Hrun A ltac:(set_solver) HA). pose proof (Hrun B ltac:(set_solver) HB). lia.
Qed.

Lemma flag_other x a b : Z.land a b = 0 -> Z.land (Z.lor x a) b = Z.land x b.
Proof. intros E. by rewrite Z.land_lor_distr_l, E, Z.lor_0_r. Qed.

Lemma flag_set x a : 0 < a -> Z.land (Z.lor x a) a <> 0.
Proof.
  intros Ha E. rewrite Z.land_lor_distr_l, Z.land_diag in E. apply Z.lor_eq_0_iff in E. lia.
Qed.

(** What frag_out stores. *)
Definition linked f n p (h : ip) : fragment :=
  let f := set_frag_pkb f (insert_at n p (frag_pkb f)) in
  let f := set_frag_rsize f (u32 (frag_rsize f + (ip_len h - iphlen h))) in
  if full_frag f then set_frag_flags f (Z.lor (frag_flags f) FRAG_COMPLETE) else f.

Lemma linked_ok m f n p k :
  all_host m (frag_pkb f) -> m !! p = Some k -> host_pkt k -> bytes_ok (pk_data k) -> complete_frag f = false ->
  frag_hlen f = 0 \/ frag_hlen f = 20 -> (Z.land (frag_flags f) FRAG_FIRST_IN <> 0 -> frag_hlen f = 20) ->
  0 <= frag_size f <= 131072 -> frag_rsize f = total m (frag_pkb f) ->
  (exists A B, frag_pkb f = A ++ B /\ sorted_offs m A /\ sorted_offs m B) ->
  (exists A B, insert_at n p (frag_pkb f) = A ++ B /\ sorted_offs m A /\ sorted_offs m B /\
     (Z.land (frag_flags f) FRAG_LAST_IN = 0 -> B = [])) ->
  let f' := linked f n p (hdr_of k) in
  frag_ok m f' /\ frag_pkb f' = insert_at n p (frag_pkb f) /\ (complete_frag f' = true -> full_frag f' = true).
Proof.
  intros Hl Hk Hh Hb Hc H1 H2 H3 H4 (A0 & B0 & E0 & HA0 & HB0) Hs f'.
  assert (Hsz : ip_len (hdr_of k) - iphlen (hdr_of k) = size_of m p).
  { unfold size_of. rewrite Hk. cbn. rewrite iphlen_5 by apply Hh. done. }
  assert (Htot : total m (insert_at n p (frag_pkb f)) = u32 (frag_rsize f + size_of m p)).
  { rewrite (total_perm _ _ _ (insert_at_perm n p (frag_pkb f))), total_cons, H4, u32_small; [lia|].
    rewrite E0 in Hl |- *. pose proof (runs_total m A0 B0 Hl HA0 HB0).
    assert (all_host m [p]) as Hp by (intros x ->%list_elem_of_singleton; exists k; auto using host_whole).
    pose proof (size_range m [p] p Hp ltac:(set_solver)). unfold is_u32. lia. }
  unfold f', linked. cbv zeta. rewrite Hsz.
  set (g := set_frag_rsize _ _). assert (Hg : frag_ok m g) by by split.
  assert (Hgc : complete_frag g = false) by done.
  destruct (full_frag g) eqn:Ef.
  - assert (Hff : full_frag (set_frag_flags g (Z.lor (frag_flags g) FRAG_COMPLETE)) = true).
    { unfold full_frag in *. cbn [frag_flags set_frag_flags frag_rsize frag_size]. by rewrite flag_other. }
    split_and!; [|done|done]. destruct Hg as [? Hg2 ? ? Hg5].
    split; cbn [frag_flags set_frag_flags frag_hlen frag_size frag_rsize frag_pkb]; auto; rewrite flag_other by done; auto.
  - split_and!; [done|done|]. by rewrite Hgc.
Qed.

End Sizes.

(** ** insert_frag *)

Section Insert.
Implicit Types (s : stack) (p q : pid) (k : pkbuf) (l : list pid) (f : fragment).

(** The state with datagram [i] in the list. *)
Definition at_frag s (l1 l2 : list (fid * fragment)) (i : fid) f : stack :=
  set_frag_head (l1 ++ (i, f) :: l2) s.

Section At.
Context (l1 l2 : list (fid * fragment)) (i : fid) (Hi1 : i ∉ fst <$> l1) (Hi2 : i ∉ fst <$> l2).

Lemma ld_frag_at s f : ld_frag i (at_frag s l1 l2 i f) = Ret f (at_frag s l1 l2 i f).
Proof. unfold ld_frag. cbn. by rewrite frag_get_here. Qed.

Lemma upd_frag_at s f g : upd_frag i g (at_frag s l1 l2 i f) = Ret tt (at_frag s l1 l2 i (g f)).
Proof.
  unfold upd_frag. erewrite bind_ok by apply ld_frag_at. unfold modify. cbn [st_frag_head at_frag set_frag_head].
  by rewrite frag_put_split.
Qed.

Lemma frag_out_at s f p n h :
  frag_out i p n h (at_frag s l1 l2 i f) = Ret 0 (at_frag s l1 l2 i (linked f n p h)).
Proof. unfold frag_out. erewrite bind_ok by apply upd_frag_at. done. Qed.

Lemma ld_ip_at s f p k : live s p k -> 34 <= zlen (pk_data k) ->
  ld_ip p (at_frag s l1 l2 i f) = Ret (hdr_of k) (at_frag s l1 l2 i f).
Proof.
  intros Hk Hl. apply (ld_at_ok ip (at_frag s l1 l2 i f) p k ETH_HRD_SZ); [done|done|done|].
  change (sizeof ip) with 20. change ETH_HRD_SZ with 14. lia.
Qed.

(** The search from the back finds the last packet with a smaller offset. *)
Lemma insert_search_at s f off l :
  all_host (pkbs (st_pkmem s)) l ->
  exists r, insert_search (rev l) off (at_frag s l1 l2 i f) = Ret r (at_frag s l1 l2 i f) /\
  match r with
  | Duplicate => exists q, q ∈ l /\ off_of (pkbs (st_pkmem s)) q = off
  | NotFound => Forall (fun q => off < off_of (pkbs (st_pkmem s)) q) l
  | Found n fh => exists la q lb, l = la ++ q :: lb /\ length la = n /\
      hdr_of <$> pkbs (st_pkmem s) !! q = Some fh /\ off_of (pkbs (st_pkmem s)) q < off /\
      Forall (fun q => off < off_of (pkbs (st_pkmem s)) q) lb
  end.
Proof.
  induction l as [|q l IH] using rev_ind; intros Hh; [by exists NotFound|].
  destruct (Hh q ltac:(set_solver)) as (k & Hk & (Hl & _) & _).
  assert (Eoff : off_of (pkbs (st_pkmem s)) q = ipoff (hdr_of k)) by (unfold off_of; by rewrite Hk).
  rewrite rev_app_distr. cbn [rev app insert_search]. erewrite bind_ok by (apply ld_ip_at; [exact Hk|lia]).
  destruct (Z.eqb_spec off (ipoff (hdr_of k))) as [E1|E1].
  { exists Duplicate. split; [done|]. exists q. rewrite Eoff. split; [set_solver|done]. }
  destruct (Z.ltb_spec (ipoff (hdr_of k)) off) as [E2|E2].
  { eexists. split; [done|]. exists l, q, []. split_and!; [done|by rewrite length_rev|by rewrite Hk|lia|constructor]. }
  destruct IH as (r & Er & Hr); [intros x Hx; apply Hh; set_solver|].
  exists r. split; [done|]. destruct r as [|n fh|].
  - destruct Hr as (x & Hx & Ex). exists x. split; [set_solver|done].
  - destruct Hr as (la & x & lb & -> & Hn & Hfh & Hx & Hlb). exists la, x, (lb ++ [q]).
    split_and!; [by rewrite <- app_assoc|done|done|done|]. apply Forall_app. split; [done|]. apply Forall_singleton. lia.
  - apply Forall_app. split; [done|]. apply Forall_singleton. lia.
Qed.

(** A datagram as insert_frag finds it: new, or with packets. *)
Definition open_frag (m : gmap nat pkbuf) f : Prop :=
  frag_ok m f /\ (frag_pkb f = [] -> frag_flags f = 0).

(** insert_frag drops the packet of a datagram that has others, or links it. *)
Definition insert_result s f p (o : outcome stack Z) : Prop :=
  let m := pkbs (st_pkmem s) in
  (exists f1, o = frag_drop p (at_frag s l1 l2 i f1) /\ frag_pkb f1 = frag_pkb f /\ frag_inv m f1) \/
  (exists f2 n, o = Ret 0 (at_frag s l1 l2 i f2) /\ frag_ok m f2 /\ frag_pkb f2 = insert_at n p (frag_pkb f) /\
     (complete_frag f2 = true -> full_frag f2 = true)).

Lemma frag_found_at s f p k n fh :
  let m := pkbs (st_pkmem s) in
  live s p k -> host_pkt k -> bytes_ok (pk_data k) -> all_host m (frag_pkb f) -> open_frag m f -> complete_frag f = false ->
  (fh = None \/ frag_pkb f <> []) ->
  (exists A B, insert_at n p (frag_pkb f) = A ++ B /\ sorted_offs m A /\ sorted_offs m B /\
     (Z.land (frag_flags f) FRAG_LAST_IN = 0 -> B = [])) ->
  insert_result s f p (frag_found i p n fh (hdr_of k) (at_frag s l1 l2 i f)).
Proof.
  intros m Hk Hh Hb Hall ([F1 F2 F3 F4 F5] & Hne) Hc Hfh Hs. unfold frag_found.
  erewrite bind_ok by apply ld_frag_at. rewrite iphlen_5 by apply Hh.
  assert (Eh : negb (frag_hlen f =? 0) && negb (frag_hlen f =? 20) = false) by (destruct F1 as [->| ->]; done).
  rewrite Eh. erewrite bind_ok by apply upd_frag_at. set (f1 := set_frag_hlen f 20).
  assert (Hf1 : frag_ok m f1) by (split; cbn; auto).
  assert (Hruns : exists A B, frag_pkb f = A ++ B /\ sorted_offs m A /\ sorted_offs m B).
  { destruct F5 as (A & B & ? & ? & ? & _). by exists A, B. }
  case_if.
  - left. exists f1. split_and!; [done|done|]. split; [done|].
    destruct Hfh as [->|Hfh]; [discriminate|done].
  - right. destruct (Z.eqb_spec (ipoff (hdr_of k)) 0); cbn [when].
    + erewrite bind_ok by apply upd_frag_at. rewrite frag_out_at.
      destruct (linked_ok m (set_frag_flags f1 (Z.lor (frag_flags f1) FRAG_FIRST_IN)) n p k) as (Hok & Ep & Hcf);
        cbn [frag_flags set_frag_flags frag_hlen frag_size frag_rsize frag_pkb]; auto; try apply Hf1; try rewrite flag_other; auto.
      * unfold complete_frag in *. cbn [frag_flags set_frag_flags]. by rewrite flag_other.
      * by eexists _, n.
    + erewrite bind_ok by done. rewrite frag_out_at.
      destruct (linked_ok m f1 n p k) as (Hok & Ep & Hcf); auto; try apply Hf1. by eexists _, n.
Qed.

Lemma insert_frag_at s f p k :
  let m := pkbs (st_pkmem s) in
  live s p k -> host_pkt k -> bytes_ok (pk_data k) -> all_host m (frag_pkb f) -> open_frag m f ->
  insert_result s f p (insert_frag p i (at_frag s l1 l2 i f)).
Proof.
  intros m Hk Hh Hb Hall Hop. destruct (Hop) as (Hok & Hne). destruct (Hok) as [F1 F2 F3 F4 (A & B & EAB & HA & HB & HL)].
  unfold insert_frag. erewrite bind_ok by apply ld_frag_at. destruct (complete_frag f) eqn:Hc.
  { left. exists f. split_and!; [done|done|]. split; [done|]. intros Enil. unfold complete_frag in Hc. by rewrite Hne in Hc. }
  erewrite bind_ok by (apply ld_ip_at; [exact Hk|destruct Hh as ([] & _); lia]). cbv zeta.
  assert (Eoff : off_of m p = ipoff (hdr_of k)) by (unfold off_of; by rewrite (Hk : m !! p = Some k)).
  case_if.
  - destruct (Z.eqb_spec (Z.land (frag_flags f) FRAG_LAST_IN) 0) as [EL|EL]; cbn [negb].
    + specialize (HL EL). subst B. rewrite app_nil_r in EAB. right. erewrite bind_ok by apply upd_frag_at. rewrite frag_out_at.
      set (f1 := set_frag_size _ _).
      destruct (linked_ok m f1 (length (frag_pkb f)) p k) as (Hok' & Ep & Hcf);
        unfold f1; cbn [frag_flags set_frag_flags set_frag_size frag_hlen frag_size frag_rsize frag_pkb]; auto.
      * unfold complete_frag in *. cbn [frag_flags set_frag_flags set_frag_size]. by rewrite flag_other.
      * by rewrite flag_other.
      * destruct (Hh) as ([Hl _ _] & H1 & H2). pose proof (hdr_wf k Hb ltac:(lia)) as (_ & _ & _ & Hu & _).
        assert (all_host m [p]) as Hp by (intros x ->%list_elem_of_singleton; exists k; auto using host_whole).
        pose proof (off_range m [p] p Hp ltac:(set_solver)). rewrite Eoff in *. rewrite iphlen_5 by apply Hh.
        unfold is_u16 in Hu. rewrite u32_small; [lia|]. unfold is_u32. lia.
      * exists A, []. rewrite app_nil_r. split_and!; [done|done|constructor].
      * exists A, [p]. unfold insert_at. rewrite take_ge, drop_ge, EAB by lia.
        split_and!; [done|done|apply sorted_one|]. intros E'. exfalso. by apply (flag_set (frag_flags f) FRAG_LAST_IN).
      * by eexists _, _.
    + left. exists f. split_and!; [done|done|]. split; [done|]. intros Enil. rewrite Hne in EL by done. done.
  - destruct (insert_search_at s f (ipoff (hdr_of k)) (frag_pkb f) Hall) as (r & Er & Hr).
    erewrite bind_ok by exact Er. destruct r as [|n fh|].
    + left. exists f. split_and!; [done|done|]. split; [done|]. destruct Hr as (x & Hx & _). intros E'. rewrite E' in Hx. set_solver.
    + destruct Hr as (la & q & lb & El & Hn & _ & Hq & Hlb). apply frag_found_at; auto.
      { right. rewrite El. by destruct la. }
      rewrite <- Eoff in Hq, Hlb. rewrite EAB in El.
      destruct (runs_insert (off_of m) A B la q p lb El HA HB Hq Hlb) as (A' & B' & E' & HA' & HB' & HBn).
      exists A', B'. split_and!; [|done|done|by intros; apply HBn, HL].
      rewrite <- E', EAB, El. unfold insert_at. subst n.
      replace (la ++ q :: lb) with ((la ++ [q]) ++ lb) by by rewrite <- app_assoc.
      rewrite take_app_length', drop_app_length' by (rewrite length_app; cbn; lia). by rewrite <- app_assoc.
    + apply frag_found_at; auto. exists (p :: A), B. rewrite EAB. split_and!; [done| |done|done].
      rewrite EAB, <- Eoff in Hr. apply Forall_app in Hr as [HrA _]. unfold sorted_offs. rewrite fmap_cons.
      constructor; [done|]. by rewrite Forall_fmap.
Qed.

End At.
End Insert.

(** ** Reassembly keeps the invariant *)

Section Safe.
Context (D : gmap devid netdev).
Implicit Types (s : stack) (p q : pid) (k : pkbuf) (H K : list pid) (f : fragment) (i : fid).

Lemma inv_set_frag s H H' l' n' :
  inv D s H -> frag_pkts l' ++ H' ≡ₚ frag_pkts (st_frag_head s) ++ H ->
  NoDup (arp_pkts (st_arp s) ++ frag_pkts l') ->
  (forall p k, p ∈ frag_pkts l' -> live s p k -> host_pkt k) ->
  Forall (fun jf => frag_inv (pkbs (st_pkmem s)) jf.2) l' ->
  NoDup (fst <$> l') -> Forall (fun jf => (jf.1 < n')%nat) l' ->
  inv D (set_next_frag n' (set_frag_head l' s)) H'.
Proof.
  intros [] Hp Hnd Hq Hf Hid Hlt.
  assert (Hperm : queued (set_next_frag n' (set_frag_head l' s)) ++ H' ≡ₚ queued s ++ H).
  { unfold queued. cbn. rewrite <- !app_assoc. by rewrite Hp. }
  split; auto.
  - intros p k Hk. rewrite (occ_perm _ _ _ Hperm). by apply i_ref.
  - intros p Hin. apply i_live. by rewrite <- Hperm.
Qed.

Lemma inv_all_host s H l : inv D s H -> l ⊆ frag_pkts (st_frag_head s) -> all_host (pkbs (st_pkmem s)) l.
Proof.
  intros Hi Hl q Hq. destruct (i_live _ _ _ Hi q) as [k Hk].
  { apply elem_of_app. left. apply elem_of_app. right. by apply Hl. }
  exists k. split_and!; [exact Hk| |by eapply inv_bytes]. apply host_whole. by apply (i_fragq _ _ _ Hi q k); [apply Hl|].
Qed.

Lemma ld_frag_split s l1 i f l2 : st_frag_head s = l1 ++ (i, f) :: l2 -> i ∉ fst <$> l1 -> ld_frag i s = Ret f s.
Proof. intros El Hn. unfold ld_frag. by rewrite El, frag_get_here. Qed.

(** *** delete_frag *)

Lemma free_all_ok l s H :
  inv D s (l ++ H) ->
  wp (for_each l free_pkb) (fun _ s' => inv D s' H /\ queued s' = queued s /\ st_arp s' = st_arp s /\
    forall q, q ∉ l -> pkbs (st_pkmem s') !! q = pkbs (st_pkmem s) !! q) s.
Proof.
  revert s. induction l as [|p l IH]; intros s Hi; [by apply wp_ret|].
  cbn [for_each]. apply wp_bind. apply (wp_free D s (l ++ H) p); [done|]. intros s1 Hi1 Hq1 Ha1 Hs1.
  eapply wp_mono; [by apply IH|]. intros [] s2 (Hi2 & Hq2 & Ha2 & Hs2).
  split_and!; [done|congruence|congruence|]. intros q [Hqp Hql]%not_elem_of_cons. by rewrite Hs2, Hs1.
Qed.

Lemma delete_frag_ok s H K l1 i f l2 :
  ready D s H K -> st_frag_head s = l1 ++ (i, f) :: l2 -> wp (delete_frag i) (fun _ => kept D s H K) s.
Proof.
  intros (Hi & Hu & Hs) El. destruct (i_frag_ids _ _ _ Hi) as [Hid Hlt].
  rewrite El in Hid, Hlt. rewrite fmap_app, fmap_cons in Hid. cbn [fst] in Hid.
  apply NoDup_app in Hid as (Hid1 & Hid12 & [Hid2 Hid3]%NoDup_cons).
  assert (Hn1 : i ∉ fst <$> l1) by (intros Hin; apply (Hid12 i Hin); set_solver).
  unfold delete_frag. apply wp_bind. eapply wp_ok; [by apply (ld_frag_split s l1 i f l2)|]. apply wp_bind, wp_modify. rewrite El, frag_del_split by done.
  pose proof (frag_pkts_split l1 i f l2) as Hp. rewrite <- El in Hp.
  assert (Hnd : NoDup (arp_pkts (st_arp s) ++ frag_pkb f ++ frag_pkts (l1 ++ l2))) by (rewrite <- Hp; apply Hi).
  assert (Hi1 : inv D (set_frag_head (l1 ++ l2) s) (frag_pkb f ++ H)).
  { apply (inv_set_frag s H _ (l1 ++ l2) (st_next_frag s)); [done| | | | | |].
    - rewrite Hp, <- app_assoc. apply Permutation_app_swap_app.
    - apply NoDup_app in Hnd as (? & Hd & [? [? ?]]%NoDup_app). apply NoDup_app. split_and!; [done| |done].
      intros x Hx Hx'. apply (Hd x Hx). set_solver.
    - intros q k Hq. apply (i_fragq _ _ _ Hi q k). rewrite Hp. set_solver.
    - pose proof (i_frag _ _ _ Hi) as Hf. rewrite El in Hf. apply Forall_app in Hf as [? [_ ?]%Forall_cons]. by apply Forall_app.
    - rewrite fmap_app. apply NoDup_app. split_and!; [done| |done]. intros x Hx Hx'. apply (Hid12 x Hx). set_solver.
    - apply Forall_app in Hlt as [? [_ ?]%Forall_cons]. by apply Forall_app. }
  eapply wp_mono; [by apply free_all_ok|]. intros [] s' (Hi' & Hq' & Ha' & Hs').
  assert (Hsub : forall x, x ∈ queued (set_frag_head (l1 ++ l2) s) -> x ∈ queued s).
  { intros x. unfold queued. cbn. rewrite Hp. set_solver. }
  split_and!; [done| | |].
  - intros q Hq. rewrite Hq'. intros Hin. by apply (Hu q Hq), Hsub.
  - intros q Hq. rewrite Hs'; [done|]. intros Hin. apply (Hu q Hq). unfold queued. rewrite Hp. set_solver.
  - intros j. by rewrite Ha'.
Qed.

(** *** reass_frag *)

(** The data of a fragment. *)
Definition payload (m : gmap nat pkbuf) q : list Z :=
  from_option (fun k => slice (pk_data k) 34 (ip_len (hdr_of k) - 20)) [] (m !! q).

Lemma payload_len m l q : all_host m l -> q ∈ l -> zlen (payload m q) = size_of m q.
Proof.
  intros Hl (k & Hk & (Hlen & _ & H1 & H2) & Hb)%Hl. unfold payload, size_of. rewrite Hk.
  cbn [from_option]. apply zlen_slice; lia.
Qed.

Lemma payloads_len m l : all_host m l -> zlen (concat (payload m <$> l)) = total m l.
Proof.
  induction l as [|q l IH]; intros Hl; [done|]. rewrite fmap_cons, total_cons. cbn [concat].
  rewrite zlen_app, (payload_len m (q :: l)), IH; [done| |done|set_solver]. intros x Hx. apply Hl. set_solver.
Qed.

Lemma payloads_ok m l : all_host m l -> bytes_ok (concat (payload m <$> l)).
Proof.
  induction l as [|q l IH]; intros Hl; [constructor|]. rewrite fmap_cons. cbn [concat]. apply bytes_ok_app. split.
  - destruct (Hl q ltac:(set_solver)) as (k & Hk & _ & Hb). unfold payload. rewrite Hk. by apply bytes_ok_slice.
  - apply IH. intros x Hx. apply Hl. set_solver.
Qed.

(** The copy loop appends the data of the fragments. *)
Lemma reass_copy_run l s n kn pos (m := pkbs (st_pkmem s)) :
  all_host m l -> n ∉ l -> live s n kn -> 0 <= pos -> pos + total m l <= zlen (pk_data kn) ->
  reass_copy n 20 pos l s = Ret tt (with_pkb s n (store kn pos (concat (payload m <$> l)))).
Proof.
  revert s kn pos m. induction l as [|q l IH]; intros s kn pos m Hl Hn Hk Hp Hle; cbn [reass_copy].
  - rewrite with_live; [done|]. unfold live in *. rewrite Hk. f_equal. unfold store, patch. cbn.
    destruct kn. cbn. unfold set_pk_data. cbn. by rewrite Nat.add_0_r, take_drop.
  - apply not_elem_of_cons in Hn as [Hne Hn]. assert (Hl' : all_host m l) by (intros x Hx; apply Hl; set_solver).
    destruct (Hl q ltac:(set_solver)) as (k & Hkq & (Hlen & Hh & H1 & H2) & Hb).
    pose proof (size_range m (q :: l) q Hl ltac:(set_solver)) as Hsz.
    pose proof (payload_len m (q :: l) q Hl ltac:(set_solver)) as Hpl.
    pose proof (total_bound m l Hl') as Htb. rewrite total_cons in Hle.
    assert (Epl : payload m q = slice (pk_data k) 34 (ip_len (hdr_of k) - 20)) by (unfold payload; by rewrite Hkq).
    assert (Esz : size_of m q = ip_len (hdr_of k) - 20) by (unfold size_of; by rewrite Hkq).
    erewrite bind_ok.
    2: { apply (ld_at_ok ip s q k ETH_HRD_SZ); [exact Hkq|done|done|change (sizeof ip) with 20; change ETH_HRD_SZ with 14; lia]. }
    change (decode (slice (pk_data k) ETH_HRD_SZ (sizeof ip))) with (hdr_of k). change (ETH_HRD_SZ + 20) with 34.
    erewrite bind_ok by (apply (ld_bytes_ok s q k); [exact Hkq|lia|lia|lia]). rewrite <- Epl.
    erewrite bind_ok by (apply (st_bytes_ok s n kn); [done|lia|lia]).
    change (set_pk_data kn (patch (pk_data kn) pos (payload m q))) with (store kn pos (payload m q)).
    assert (Hm : forall x, x ∈ l -> pkbs (st_pkmem (with_pkb s n (store kn pos (payload m q)))) !! x = m !! x).
    { intros x Hx. apply lookup_with. by intros ->. }
    rewrite (IH _ (store kn pos (payload m q))); [|intros x Hx; rewrite Hm by done; by apply Hl'|done|apply live_with|lia|].
    + rewrite with_with. rewrite <- Esz, <- Hpl, fmap_cons. cbn [concat]. do 2 f_equal. unfold store. cbn [pk_data set_pk_data].
      f_equal. rewrite <- patch_patch_app; [|done|rewrite payloads_len by done; lia].
      do 2 f_equal. apply list_fmap_ext. intros j x Hx. unfold payload. rewrite Hm; [done|]. by eapply list_elem_of_lookup_2.
    + rewrite store_len by lia. rewrite (total_ext _ m); [lia|]. intros x Hx. unfold size_of. by rewrite Hm.
Qed.

(** The optional packet a function hands out. *)
Definition given s H K (o : option pid) (s' : stack) : Prop :=
  match o with
  | None => kept D s H K s'
  | Some n => n ∉ H /\ (exists k, live s' n k /\ host_pkt k) /\ ready D s' (n :: H) (n :: K) /\
      (forall q, q ∈ K -> pkbs (st_pkmem s') !! q = pkbs (st_pkmem s) !! q) /\ arp_mono s s'
  end.

(** The packet reass_frag builds: the head of the first fragment with a new
    length and offset, and the data of all. *)
Definition reassembled (m : gmap nat pkbuf) (k0 : pkbuf) (len : Z) (l : list pid) : pkbuf :=
  let base := store (set_pk_pro (zero_pkb (14 + len)) ETH_P_IP) 0 (slice (pk_data k0) 0 34) in
  store (store_ip base (set_ip_len (set_ip_fragoff (hdr_of k0) 0) len)) 34 (concat (payload m <$> l)).

Lemma reassembled_ok m k0 len l :
  bytes_ok (pk_data k0) -> host_pkt k0 -> all_host m l -> len = 20 + total m l -> len <= 65535 ->
  host_pkt (reassembled m k0 len l) /\ bytes_ok (pk_data (reassembled m k0 len l)).
Proof.
  intros Hb ([Hlen Hh Hp] & _) Hl Elen Hle. pose proof (total_bound m l Hl) as Htb.
  pose proof (payloads_len m l Hl) as Hpl. pose proof (hdr_wf k0 Hb ltac:(lia)) as Hw.
  assert (Hs : zlen (slice (pk_data k0) 0 34) = 34) by (apply zlen_slice; lia).
  unfold reassembled. cbv zeta. set (z := set_pk_pro _ _).
  assert (Hz : zlen (pk_data z) = 14 + len) by (cbn; rewrite zlen_replicate; lia).
  set (base := store z 0 _). assert (Hbl : zlen (pk_data base) = 14 + len) by (unfold base; rewrite store_len; lia).
  set (h := set_ip_len _ _). assert (Hwh : wf_struct h).
  { cbn in Hw |- *. unfold is_u16 in *. destruct Hw as (W1 & W2 & W3 & W4 & W5 & W6 & W7).
    split_and!; try lia; tauto. }
  assert (Hhost : host_pkt (store_ip base h)).
  { apply host_pkt_store; try done; rewrite ?Hbl; cbn [pk_len base store set_pk_data z set_pk_pro zero_pkb]; cbn [h ip_len set_ip_len]; lia. }
  split.
  - destruct Hhost as ([H1 H2 H3] & H4 & H5). unfold host_pkt.
    rewrite hdr_after by (rewrite ?store_ip_len; lia).
    split_and!; [split|done|done]; rewrite ?hdr_after by (rewrite ?store_ip_len; lia); try done.
    rewrite store_len by (rewrite ?store_ip_len, ?Hpl; lia). done.
  - unfold store_ip, base, store. cbn [pk_data set_pk_data]. repeat apply bytes_ok_patch; auto using payloads_ok, ip_encode_ok with tapip.
    cbn. auto with tapip.
Qed.

Lemma full_frag_facts m f : frag_ok m f -> full_frag f = true ->
  frag_hlen f = 20 /\ frag_size f = total m (frag_pkb f).
Proof.
  intros [F1 F2 F3 F4 F5] [Hfl Hsz]%andb_prop. apply Z.eqb_eq in Hfl, Hsz. split; [|congruence]. apply F2.
  intros E. assert (E' : Z.land (Z.land (frag_flags f) FRAG_FL_IN) FRAG_FIRST_IN = 0) by by rewrite <- Z.land_assoc.
  by rewrite Hfl in E'.
Qed.

(** From the new buffer on: the head, the data, and the datagram goes. *)
Lemma reass_frag_run s l1 i f l2 n s1 q0 k0 (m := pkbs (st_pkmem s)) (len := 20 + frag_size f) :
  st_frag_head s = l1 ++ (i, f) :: l2 -> i ∉ fst <$> l1 -> frag_hlen f = 20 -> frag_size f = total m (frag_pkb f) ->
  len <= 65535 -> all_host m (frag_pkb f) -> head (frag_pkb f) = Some q0 -> m !! q0 = Some k0 ->
  alloc_pkb (14 + len) s = Ret n s1 -> live s1 n (zero_pkb (14 + len)) -> n ∉ frag_pkb f ->
  (forall x, x ∈ frag_pkb f -> pkbs (st_pkmem s1) !! x = m !! x) ->
  reass_frag i s = bind (delete_frag i) (fun _ => ret (Some n)) (with_pkb s1 n (reassembled m k0 len (frag_pkb f))).
Proof.
  intros El Hn Ehl Esz Hle Hall Hq0 Hk0 Ea Hln Hnf Hsame. pose proof (total_bound m _ Hall) as Htb.
  assert (Hin0 : q0 ∈ frag_pkb f) by (destruct (frag_pkb f); [done|injection Hq0 as ->; set_solver]).
  destruct (Hall q0 Hin0) as (k0' & Hk0' & (Hl0 & _) & Hb0). rewrite Hk0 in Hk0'. injection Hk0' as <-.
  unfold reass_frag. erewrite bind_ok by (by apply (ld_frag_split s l1 i f l2)). cbv zeta. rewrite Ehl. fold len.
  rewrite s32_small by (unfold is_s32, len; lia). rewrite (proj2 (Z.ltb_ge 65535 len)) by done. rewrite Hq0.
  erewrite bind_ok by done. change ETH_HRD_SZ with 14 at 1. erewrite bind_ok by exact Ea.
  erewrite bind_ok by (by apply upd_ok). change (ETH_HRD_SZ + 20) with 34.
  assert (Hlq : live s1 q0 k0) by (unfold live; rewrite <- Hk0; by apply Hsame).
  erewrite bind_ok by (apply (ld_bytes_ok _ q0 k0); [by apply live_with_ne; [intros ->|]|lia|lia|lia]).
  assert (Hs : zlen (slice (pk_data k0) 0 34) = 34) by (apply zlen_slice; lia).
  set (z := set_pk_pro _ _). assert (Hz : zlen (pk_data z) = 14 + len) by (cbn; rewrite zlen_replicate; lia).
  erewrite bind_ok by (apply (st_bytes_ok _ n z); [apply live_with|lia|unfold len in *; lia]). rewrite with_with.
  change (set_pk_data z _) with (store z 0 (slice (pk_data k0) 0 34)). set (base := store z 0 _).
  assert (Hbl : zlen (pk_data base) = 14 + len) by (unfold base; rewrite store_len; unfold len in *; lia).
  assert (Ehb : hdr_of base = hdr_of k0).
  { unfold hdr_of, base, store. cbn [pk_data set_pk_data]. f_equal. change ETH_HRD_SZ with 14. change IP_HRD_SZ with 20.
    change (patch (pk_data z) 0 (slice (pk_data k0) 0 34))
      with (slice (pk_data k0) 0 34 ++ drop (0 + length (slice (pk_data k0) 0 34)) (pk_data z)).
    rewrite slice_app_l by lia. by rewrite slice_slice by lia. }
  erewrite bind_ok by (apply (upd_ip_run _ n base); [apply live_with|unfold len in *; lia]).
  rewrite with_with, Ehb, u16_small by (unfold is_u16, len; lia). set (k1 := store_ip base _).
  assert (Hm : forall x, x ∈ frag_pkb f -> pkbs (st_pkmem (with_pkb s1 n k1)) !! x = m !! x).
  { intros x Hx. rewrite lookup_with by (by intros ->). by apply Hsame. }
  erewrite bind_ok.
  2: { apply (reass_copy_run (frag_pkb f) _ n k1 34); [|done|apply live_with|lia|].
       - intros x Hx. rewrite Hm by done. by apply Hall.
       - unfold k1. rewrite store_ip_len by (unfold len in *; lia). rewrite (total_ext _ m); [unfold len in *; lia|].
         intros x Hx. unfold size_of. by rewrite Hm. }
  rewrite with_with. do 2 f_equal. unfold k1, base, reassembled. do 2 f_equal. apply list_fmap_ext. intros j x Hx.
  unfold payload. rewrite Hm; [done|]. by eapply list_elem_of_lookup_2.
Qed.

Lemma reass_frag_ok s H K l1 i f l2 :
  ready D s H K -> st_frag_head s = l1 ++ (i, f) :: l2 -> i ∉ fst <$> l1 -> full_frag f = true ->
  wp (reass_frag i) (given s H K) s.
Proof.
  intros Hr El Hn Hfull. pose proof (proj1 Hr) as Hi. set (m := pkbs (st_pkmem s)).
  assert (Hfi : frag_inv m f).
  { pose proof (i_frag _ _ _ Hi) as Hf. rewrite El in Hf. by apply Forall_app in Hf as [_ [? _]%Forall_cons]. }
  destruct Hfi as [Hfo Hne]. destruct (full_frag_facts m f Hfo Hfull) as [Ehl Esz].
  assert (Hsub : frag_pkb f ⊆ frag_pkts (st_frag_head s)) by (rewrite El, frag_pkts_split; set_solver).
  pose proof (inv_all_host s H (frag_pkb f) Hi Hsub) as Hall. fold m in Hall. pose proof (fo_size _ _ Hfo) as Hsr.
  set (len := 20 + frag_size f). destruct (Z.ltb_spec 65535 len) as [Hbig|Hle].
  { unfold reass_frag. apply wp_bind. eapply wp_ok; [by apply (ld_frag_split s l1 i f l2)|]. cbv zeta. rewrite Ehl. fold len.
    rewrite s32_small by (unfold is_s32, len; lia). rewrite (proj2 (Z.ltb_lt 65535 len)) by done.
    apply wp_bind. eapply wp_mono; [by apply (delete_frag_ok s H K l1 i f l2)|]. intros [] s' Hk'. by apply wp_ret. }
  destruct (frag_pkb f) as [|q0 rest] eqn:Epk; [done|]. rewrite <- Epk in *.
  assert (Hin0 : q0 ∈ frag_pkb f) by (rewrite Epk; set_solver).
  destruct (Hall q0 Hin0) as (k0 & Hk0 & _ & Hb0).
  pose proof (i_fragq _ _ _ Hi q0 k0 (Hsub q0 Hin0) Hk0) as Hh0.
  assert (Hal := fun Q => wp_alloc D s H K (14 + len) Q Hr). unfold wp in Hal.
  destruct (alloc_pkb (14 + len) s) as [n s1|e|] eqn:Ea.
  2,3: unfold wp, reass_frag; erewrite bind_ok by (by apply (ld_frag_split s l1 i f l2)); cbv zeta; rewrite Ehl; fold len;
    rewrite s32_small by (unfold is_s32, len; lia); rewrite (proj2 (Z.ltb_ge 65535 len)) by done; rewrite Epk;
    erewrite bind_ok by done; unfold bind at 1; change ETH_HRD_SZ with 14 at 1; rewrite Ea;
    exact (Hal (fun _ _ => True) ltac:(done)).
  apply (Hal (fun n s1 => alloc_pkb (14 + len) s = Ret n s1 -> wp (reass_frag i) (given s H K) s)); [clear Hal n s1 Ea|done].
  intros n s1 Hr1 HnH Hnq Hln Hsame Ear _ Ef Ea.
  assert (Hsame' : forall x, x ∈ frag_pkb f -> pkbs (st_pkmem s1) !! x = m !! x).
  { intros x Hx. apply Hsame. apply elem_of_app. left. apply elem_of_app. right. by apply Hsub. }
  assert (Hnf : n ∉ frag_pkb f) by (intros Hin; apply Hnq, elem_of_app; right; by apply Hsub).
  unfold wp. rewrite (reass_frag_run s l1 i f l2 n s1 q0 k0); try done; [|by rewrite Epk]. fold m len.
  destruct (reassembled_ok m k0 len (frag_pkb f) Hb0 Hh0 Hall ltac:(lia) ltac:(lia)) as [Hhost Hbok].
  assert (Hr3 : ready D (with_pkb s1 n (reassembled m k0 len (frag_pkb f))) (n :: H) (n :: K)).
  { eapply ready_put; [exact Hr1|exact Hln|done|done|done]. }
  revert Hr3. set (s3 := with_pkb s1 n _). intros Hr3. change (wp (delete_frag i;; ret (Some n)) (given s H K) s3).
  apply wp_bind. eapply wp_mono; [apply (delete_frag_ok _ _ _ l1 i f l2 Hr3); cbn; by rewrite Ef|].
  intros [] s4 Hk4. apply wp_ret. assert (HKH : K ⊆ H) by apply Hr.
  split_and!; [done| | | |].
  - eexists. split; [|exact Hhost]. eapply kept_live; [exact Hk4|set_solver|apply live_with].
  - apply (kept_ready D _ s4 _ _ (proj2 (proj2 Hr3)) Hk4).
  - intros q Hq. destruct Hk4 as (_ & _ & Hs4 & _). rewrite Hs4 by set_solver. unfold s3.
    rewrite lookup_with; [apply Hsame; set_solver|]. intros ->. by apply HnH, HKH.
  - intros j Hj. apply Hk4. cbn. by rewrite Ear.
Qed.

(** *** ip_reass *)

(** Datagram [i] is [f], found in the list or new; the others are [l1] and [l2]. *)
Record slot s (n' : nat) (l1 l2 : list (fid * fragment)) i f : Prop := {
  sl_pkts : frag_pkts (st_frag_head s) ≡ₚ frag_pkb f ++ frag_pkts (l1 ++ l2);
  sl_others : Forall (fun jf => frag_inv (pkbs (st_pkmem s)) jf.2) (l1 ++ l2);
  sl_ids : NoDup (fst <$> l1 ++ (i, f) :: l2);
  sl_next : Forall (fun j => (j < n')%nat) (fst <$> l1 ++ (i, f) :: l2);
  sl_open : open_frag (pkbs (st_pkmem s)) f
}.

Lemma slot_ids s n' l1 l2 i f : slot s n' l1 l2 i f -> i ∉ fst <$> l1 /\ i ∉ fst <$> l2.
Proof.
  intros [_ _ Hid _ _]. rewrite fmap_app, fmap_cons in Hid. cbn [fst] in Hid.
  apply NoDup_app in Hid as (_ & H12 & [H2 _]%NoDup_cons). split; [|done]. intros Hin. apply (H12 i Hin). set_solver.
Qed.

(** The datagram gets new contents, with or without the packet. *)
Lemma slot_inv s n' l1 l2 i f f' H H' :
  inv D s H -> slot s n' l1 l2 i f -> frag_inv (pkbs (st_pkmem s)) f' ->
  frag_pkb f' ++ H' ≡ₚ frag_pkb f ++ H -> NoDup (frag_pkb f' ++ arp_pkts (st_arp s) ++ frag_pkts (l1 ++ l2)) ->
  (forall p k, p ∈ frag_pkb f' -> live s p k -> host_pkt k) ->
  inv D (set_next_frag n' (at_frag s l1 l2 i f')) H'.
Proof.
  intros Hi [S1 S2 S3 S4 S5] Hf Hp Hnd Hq. unfold at_frag. apply (inv_set_frag s H); [done| | | | | |].
  - rewrite frag_pkts_split, S1, <- !app_assoc. rewrite !(Permutation_app_swap_app (frag_pkb _)). by rewrite Hp.
  - by rewrite frag_pkts_split, Permutation_app_swap_app.
  - intros p k Hin. rewrite frag_pkts_split in Hin. apply elem_of_app in Hin as [Hin|Hin]; [by apply Hq|].
    apply (i_fragq _ _ _ Hi p k). rewrite S1. set_solver.
  - apply Forall_app in S2 as [? ?]. apply Forall_app. split; [done|]. by apply Forall_cons.
  - by rewrite fmap_app, fmap_cons in S3 |- *.
  - rewrite fmap_app, fmap_cons in S4. apply Forall_app in S4 as [H1 [H2 H3]%Forall_cons].
    rewrite Forall_fmap in H1, H3. apply Forall_app. split; [exact H1|]. by apply Forall_cons.
Qed.

Lemma insert_frag_ok s n' l1 l2 i f p k H K :
  ready D s (p :: H) (p :: K) -> p ∉ K -> live s p k -> host_pkt k -> slot s n' l1 l2 i f ->
  wp (insert_frag p i) (fun r s' => kept D s H K s' /\
      (r < 0 \/ r = 0 /\ exists f2, st_frag_head s' = l1 ++ (i, f2) :: l2 /\ (complete_frag f2 = true -> full_frag f2 = true)))
    (at_frag (set_next_frag n' s) l1 l2 i f).
Proof.
  intros (Hi & Hu & Hs) HpK Hk Hh Hsl. pose proof (inv_bytes D _ _ _ _ Hi Hk) as Hb.
  destruct (slot_ids _ _ _ _ _ _ Hsl) as [Hn1 Hn2]. set (m := pkbs (st_pkmem s)).
  assert (Hsub : frag_pkb f ⊆ frag_pkts (st_frag_head s)) by (rewrite (sl_pkts _ _ _ _ _ _ Hsl); set_solver).
  assert (Hnd : NoDup (frag_pkb f ++ arp_pkts (st_arp s) ++ frag_pkts (l1 ++ l2))).
  { rewrite Permutation_app_swap_app, <- (sl_pkts _ _ _ _ _ _ Hsl). apply Hi. }
  assert (Hpq : p ∉ queued s) by (apply Hu; set_solver).
  assert (Hfq : forall q kq, q ∈ frag_pkb f -> live s q kq -> host_pkt kq).
  { intros q kq Hq. apply (i_fragq _ _ _ Hi q kq). by apply Hsub. }
  destruct (insert_frag_at l1 l2 i Hn1 Hn2 (set_next_frag n' s) f p k Hk Hh Hb) as [(f1 & E & Ep & Hf1)|(f2 & n & E & Hok & Ep & Hc)].
  - by apply (inv_all_host s (p :: H)).
  - apply Hsl.
  - unfold wp. rewrite E. fold (wp (frag_drop p) (fun r s' => kept D s H K s' /\ (r < 0 \/ r = 0 /\ exists f2,
      st_frag_head s' = l1 ++ (i, f2) :: l2 /\ (complete_frag f2 = true -> full_frag f2 = true))) (at_frag (set_next_frag n' s) l1 l2 i f1)).
    set (s1 := at_frag _ l1 l2 i f1).
    assert (Hi1 : inv D s1 (p :: H)) by (apply (slot_inv s n' l1 l2 i f f1 (p :: H)); rewrite ?Ep; done).
    assert (Hq1 : forall x, x ∈ queued s1 <-> x ∈ queued s).
    { intros x. change (queued s1) with (arp_pkts (st_arp s) ++ frag_pkts (l1 ++ (i, f1) :: l2)). unfold queued.
      by rewrite frag_pkts_split, Ep, <- (sl_pkts _ _ _ _ _ _ Hsl). }
    assert (Hr1 : ready D s1 (p :: H) (p :: K)) by (split_and!; [done|intros q Hq; rewrite Hq1; by apply Hu|done]).
    unfold frag_drop. apply wp_bind. eapply wp_mono; [by apply (free_consumes D s1 p k H K)|].
    intros [] s2 Hk2. apply wp_ret. split; [|by left]. eapply kept_from; [| |exact Hk2]; [done|by intros j].
  - unfold wp. rewrite E. set (s2 := at_frag _ l1 l2 i f2).
    assert (Hperm : frag_pkb f2 ≡ₚ p :: frag_pkb f) by (rewrite Ep; apply insert_at_perm).
    assert (Hi2 : inv D s2 H).
    { apply (slot_inv s n' l1 l2 i f f2 (p :: H)); [done|done| | | |].
      - split; [exact Hok|]. intros Enil. rewrite Enil in Hperm. by apply Permutation_nil_cons in Hperm.
      - rewrite Hperm. cbn. apply Permutation_middle.
      - rewrite Hperm. cbn. apply NoDup_cons. split; [|done]. intros Hin. apply Hpq. unfold queued.
        rewrite (sl_pkts _ _ _ _ _ _ Hsl). set_solver.
      - intros q kq Hq Hl. rewrite Hperm in Hq. apply elem_of_cons in Hq as [->|Hq]; [|by apply (Hfq q)].
        unfold live in Hl, Hk. rewrite Hk in Hl. by injection Hl as <-. }
    split; [|right; split; [done|by exists f2]]. split_and!; [done| |done|by intros j].
    intros q Hq. change (queued s2) with (arp_pkts (st_arp s) ++ frag_pkts (l1 ++ (i, f2) :: l2)).
    rewrite frag_pkts_split, Hperm. cbn. intros Hin.
    apply (Hu q); [set_solver|]. unfold queued. rewrite (sl_pkts _ _ _ _ _ _ Hsl).
    assert (q <> p) by (by intros ->). set_solver.
Qed.

Lemma ip_reass_ok s p k H K :
  ready D s (p :: H) (p :: K) -> p ∉ K -> live s p k -> host_pkt k ->
  wp (ip_reass p) (given s H K) s.
Proof.
  intros Hr HpK Hk Hh. destruct (Hr) as (Hi & Hu & Hs). destruct (Hh) as ([Hl _ _] & _). unfold ip_reass.
  apply wp_bind. eapply wp_ld_ip; [done|lia|]. apply wp_bind, wp_gets.
  assert (Hrest : forall n' l1 l2 i f, slot s n' l1 l2 i f ->
    wp (let* r := insert_frag p i in
        if r <? 0 then ret None
        else let* f := ld_frag i in if complete_frag f then reass_frag i else ret None)
      (given s H K) (at_frag (set_next_frag n' s) l1 l2 i f)).
  { intros n' l1 l2 i f Hsl. destruct (slot_ids _ _ _ _ _ _ Hsl) as [Hn1 _].
    apply wp_bind. eapply wp_mono; [by apply (insert_frag_ok s n' l1 l2 i f p k H K)|].
    intros r s2 [Hk2 [Hneg|(-> & f2 & El2 & Hc)]].
    - rewrite (proj2 (Z.ltb_lt r 0)) by done. by apply wp_ret.
    - cbn [Z.ltb Z.compare]. apply wp_bind. eapply wp_ok; [by apply (ld_frag_split s2 l1 i f2 l2)|].
      destruct (complete_frag f2) eqn:Ec; [|by apply wp_ret].
      assert (Hr2 : ready D s2 H K) by (apply (kept_ready D s); [set_solver|done]).
      eapply wp_mono; [by apply (reass_frag_ok s2 H K l1 i f2 l2 Hr2 El2 Hn1), Hc|].
      intros [n|] s3; cbn [given].
      + intros (Hn & Hlive & Hr3 & Hsame & Hm). split_and!; try done.
        * intros q Hq. rewrite Hsame by done. by apply Hk2.
        * intros j Hj. by apply Hm, Hk2.
      + by apply (kept_trans D s s2). }
  destruct (lookup_frag_in (st_frag_head s) (hdr_of k)) as [i|] eqn:El.
  - apply wp_bind, wp_ret. destruct (lookup_frag_in_get _ _ _ El) as [f Hf].
    destruct (frag_get_split _ _ _ Hf) as (l1 & l2 & E & Hn1).
    destruct (i_frag_ids _ _ _ Hi) as [Hid Hlt]. pose proof (i_frag _ _ _ Hi) as Hfr.
    rewrite E in Hid, Hlt, Hfr. apply Forall_app in Hfr as [Hf1 [[Hfo Hfne] Hf2]%Forall_cons].
    assert (Es : s = at_frag (set_next_frag (st_next_frag s) s) l1 l2 i f) by (unfold at_frag; rewrite <- E; by destruct s).
    rewrite Es at 2. apply Hrest. split.
    + rewrite E. apply frag_pkts_split.
    + by apply Forall_app.
    + done.
    + by rewrite Forall_fmap.
    + split; [done|]. by intros ?.
  - apply wp_bind. unfold new_frag. apply wp_bind, wp_gets, wp_bind, wp_modify, wp_ret.
    set (f0 := mk_fragment _ _ _ _ _ _ _ _ _ _). destruct (i_frag_ids _ _ _ Hi) as [Hid Hlt].
    apply (Hrest (S (st_next_frag s)) [] (st_frag_head s) (st_next_frag s) f0). split.
    + done.
    + apply Hi.
    + cbn. apply NoDup_cons. split; [|done]. intros (jf & E & Hin)%list_elem_of_fmap.
      rewrite Forall_forall in Hlt. specialize (Hlt jf Hin). apply (Nat.lt_irrefl (st_next_frag s)). rewrite E at 1. exact Hlt.
    + cbn. apply Forall_cons. split; [apply Nat.lt_succ_diag_r|]. rewrite Forall_fmap. eapply Forall_impl; [exact Hlt|]. intros jf Hjf. by apply Nat.lt_lt_succ_r.
    + split; [|done]. split; cbn; try done; [by left|]. exists [], []. split_and!; try done; apply sorted_nil.
Qed.

End Safe.
