(* ===== verification/Raw.v ===== *)
(** * Raw IP: ip/raw.c, the sending half of socket/raw_sock.c, sock_recv_pkb and
    sock_close of socket/sock.c *)

From stdpp Require Import prelude list gmap.
From Stdlib Require Import ZArith Lia.
From S2P Require Import Prelude Structs Checksum Route Pkb FastPipe ArpCache Wait Sock TcpTable Stack Arp IpOut.

(** ** The code *)

(** An operation of the sock layer, run in the stack. *)
Definition on_sock {A} (m : comp sockstate A) : comp stack A := fun s =>
  match m (st_sock s) with
  | Ret a v => Ret a (set_sock v s)
  | Fault f => Fault f
  | NoFuel => NoFuel
  end.

(** The mutex and condition of [sk->recv_wait] are used without a check for NULL. *)
Definition enqueue (sk : skid) (pkb : pid) : comp stack unit :=
  let* k := on_sock (ld_sk sk) in
  of_opt NullDeref (recv_wait k);;
  on_sock (upd_sk sk (fun k => set_recv_queue k (recv_queue k ++ [pkb]))).

Definition raw_recv (pkb : pid) (sk : skid) : comp stack unit :=
  enqueue sk pkb;;
  upd pkb (fun k => set_pk_sk k (Some sk)).

(** The loop of raw_in: [o] is the sock found and the rest of its chain.  Each turn
    goes on further down the chain. *)
Fixpoint raw_in_loop (fuel : nat) (pkb : pid) (o : option (skid * list skid)) : comp stack unit :=
  match o with
  | None => ret tt
  | Some (sk, rest) =>
      match fuel with
      | O => out_of_fuel
      | S n =>
          let* rawpkb := copy_pkb pkb in
          raw_recv rawpkb sk;;
          let* h := ld_ip pkb in
          let* o := on_sock (raw_lookup_sock_next rest (ip_src h) (ip_dst h) (ip_pro h)) in
          raw_in_loop n pkb o
      end
  end.

Definition raw_in (pkb : pid) : comp stack unit :=
  let* h := ld_ip pkb in
  let* o := on_sock (raw_lookup_sock (ip_src h) (ip_dst h) (ip_pro h)) in
  raw_in_loop (match o with Some (_, rest) => S (length rest) | None => 0 end) pkb o.

(** A blocking read of the queue.  [woken] says that the caller comes back from
    pthread_cond_wait, after which a dead socket ends the wait. *)
Inductive recv_result :=
  | Blocked
  | Received (pkb : option pid).

Definition sock_recv_pkb (woken : bool) (sk : skid) : comp stack recv_result :=
  let* k := on_sock (ld_sk sk) in
  let* w := of_opt NullDeref (recv_wait k) in
  let* o := gets (fun s => sockets (st_sock s) !! w) in
  let* so := of_opt UseAfterFree o in
  match recv_queue k with
  | [] => if woken && negb (dead (so_sleep so) =? 0) then ret (Received None) else ret Blocked
  | pkb :: r =>
      on_sock (upd_sk sk (fun k => set_recv_queue k r));;
      ret (Received (Some pkb))
  end.

(** The queue is emptied packet by packet. *)
Definition sock_close (sk : skid) : comp stack Z :=
  on_sock (upd_sk sk (fun k => set_recv_wait k None));;
  let* k := on_sock (ld_sk sk) in
  match ops_unhash (sk_ops k) with Some f => on_sock (f sk) | None => ret tt end;;
  let* k := on_sock (ld_sk sk) in
  for_each (recv_queue k) (fun pkb =>
    on_sock (upd_sk sk (fun k => set_recv_queue k (tail (recv_queue k))));;
    free_pkb pkb);;
  ret 0.

Definition RAW_DEFAULT_TTL : Z := 64.
Definition RAW_MAX_BUFSZ : Z := 65536.

Definition raw_init_pkb (sk : skid) (pkb : pid) (skaddr : sock_addr) : comp stack unit :=
  let* k := on_sock (ld_sk sk) in
  let* id := gets (fun s => raw_id (st_sock s)) in
  let* b := ld pkb in
  upd_ip pkb (fun h =>
    mk_ip (Z.shiftr IP_HRD_SZ 2) IP_VERSION_4 0 (_htons (u16 (pk_len b - ETH_HRD_SZ))) (_htons id) 0
      RAW_DEFAULT_TTL (protocol k) (ip_cksum h) (sk_saddr k) (dst_addr skaddr)).

Section RawSend.
Context `{OS} `{Reentry}.

(** The length is read from the packet after it was given to ip_send_out. *)
Definition raw_send_pkb (sk : skid) (pkb : pid) : comp stack Z :=
  ip_send_out pkb;;
  let* k := ld pkb in
  ret (pk_len k - ETH_HRD_SZ - IP_HRD_SZ).

Definition raw_send_buf (sk : skid) (buf : list Z) (skaddr : sock_addr) : comp stack Z :=
  let size := zlen buf in
  if RAW_MAX_BUFSZ <? size then ret (-1)
  else
    let* pkb := alloc_pkb (ETH_HRD_SZ + IP_HRD_SZ + size) in
    st_bytes pkb (ETH_HRD_SZ + IP_HRD_SZ) buf;;
    raw_init_pkb sk pkb skaddr;;
    raw_send_pkb sk pkb.

End RawSend.
