(* ===== verification/Keeps.v ===== *)
(** * What a computation does to the sock layer

    [keeps R m]: whenever [m] returns, its initial and final states are related by
    [R].  For a preorder [R] the rule for a sequence needs nothing in between, so
    that the functions of the stack are handled by one tactic.  [on_socks R] relates
    two states of the stack by their sock layers: the functions below TCP and UDP
    keep it as soon as re-entry through the loopback device does. *)

From stdpp Require Import prelude list gmap.
From Stdlib Require Import ZArith Lia.
From S2P Require Import Prelude Structs Checksum Route Pkb FastPipe ArpCache Sock TcpTable Stack Arp IpOut Icmp IpFrag Raw.

(** ** The logic *)

Definition keeps {S A} (R : S -> S -> Prop) (m : comp S A) : Prop :=
  forall s a s', m s = Ret a s' -> R s s'.

Definition on_socks (R : sockstate -> sockstate -> Prop) (s s' : stack) : Prop := R (st_sock s) (st_sock s').

#[export] Instance on_socks_preorder R `{!PreOrder R} : PreOrder (on_socks R).
Proof.
  split; unfold on_socks; [intros s; reflexivity|]. intros s1 s2 s3 H1 H2. by transitivity (st_sock s2).
Qed.

Create HintDb keeps.
#[export] Hint Extern 0 (PreOrder _) => apply _ : keeps.

Section Rules.
Context {S : Type} (R : S -> S -> Prop) `{!PreOrder R}.

Lemma keeps_ret {A} (a : A) : keeps R (ret a).
Proof. by intros s b s' [= -> ->]. Qed.

Lemma keeps_bind {A B} (m : comp S A) (k : A -> comp S B) :
  keeps R m -> (forall a, keeps R (k a)) -> keeps R (bind m k).
Proof.
  intros Hm Hk s b s'. unfold bind. destruct (m s) as [a s1| |] eqn:E; [|done|done]. intros E'.
  transitivity s1; [by apply (Hm s a)|by apply (Hk a s1 b)].
Qed.

Lemma keeps_fail {A} f : keeps R (@fail S A f).
Proof. by intros s a s'. Qed.

Lemma keeps_nofuel {A} : keeps R (@out_of_fuel S A).
Proof. by intros s a s'. Qed.

Lemma keeps_gets {A} (f : S -> A) : keeps R (gets f).
Proof. by intros s a s' [= <- ->]. Qed.

Lemma keeps_modify f : (forall s, R s (f s)) -> keeps R (modify f).
Proof. intros Hf s a s' [= <- <-]. apply Hf. Qed.

Lemma keeps_of_opt {A} f (o : option A) : keeps R (of_opt f o).
Proof. destruct o; [apply keeps_ret|apply keeps_fail]. Qed.

Lemma keeps_guard f b : keeps R (guard f b).
Proof. destruct b; [apply keeps_ret|apply keeps_fail]. Qed.

Lemma keeps_when b m : keeps R m -> keeps R (when b m).
Proof. destruct b; [done|]. intros _. apply keeps_ret. Qed.

Lemma keeps_for_each {A} (l : list A) f : (forall x, keeps R (f x)) -> keeps R (for_each l f).
Proof. intros Hf. induction l as [|x l IH]; [apply keeps_ret|]. apply keeps_bind; auto. Qed.

End Rules.

Lemma keeps_mono {S A} (R R' : S -> S -> Prop) (m : comp S A) :
  (forall s s', R s s' -> R' s s') -> keeps R m -> keeps R' m.
Proof. intros HR Hm s a s' E. eapply HR, Hm, E. Qed.

Lemma keeps_on_sock R {A} (m : comp sockstate A) : keeps R m -> keeps (on_socks R) (on_sock m).
Proof.
  intros Hm s a s'. unfold on_sock. destruct (m (st_sock s)) as [b v| |] eqn:E; [|done|done].
  intros [= <- <-]. exact (Hm _ _ _ E).
Qed.

(** [keeps_step] takes one rule; [keeps_auto] closes a function from the lemmas of the
    functions it calls. *)
Ltac keeps_step :=
  match goal with
  | |- keeps _ (bind _ _) => apply keeps_bind; [apply _| |intros]
  | |- keeps _ (when _ _) => apply keeps_when; [apply _|]
  | |- keeps _ (for_each _ _) => apply keeps_for_each; [apply _|intros]
  | |- keeps _ (on_sock _) => apply keeps_on_sock
  | |- keeps _ (ret _) => apply keeps_ret; apply _
  | |- keeps _ (fail _) => apply keeps_fail
  | |- keeps _ out_of_fuel => apply keeps_nofuel
  | |- keeps _ (gets _) => apply keeps_gets; apply _
  | |- keeps _ (of_opt _ _) => apply keeps_of_opt; apply _
  | |- keeps _ (guard _ _) => apply keeps_guard; apply _
  | |- keeps _ (let _ := _ in _) => cbv zeta
  | |- keeps _ (match ?x with _ => _ end) => destruct x
  | |- keeps _ ((match ?x with _ => _ end) _) => destruct x
  end.

Ltac keeps_auto := intros; cbv zeta; repeat first [solve [eauto with keeps nocore]|keeps_step].

(** A change of the stack outside the sock layer. *)
Ltac keeps_outside := intros; apply keeps_modify; intros ?; unfold on_socks; reflexivity.

(** ** Packets and devices *)

Section Stack.
Context (R : sockstate -> sockstate -> Prop) `{!PreOrder R}.

Lemma keeps_same {A} (m : comp stack A) :
  (forall s a s', m s = Ret a s' -> st_sock s' = st_sock s) -> keeps (on_socks R) m.
Proof. intros Hm s a s' E. unfold on_socks. by rewrite (Hm _ _ _ E). Qed.

Lemma keeps_ld p : keeps (on_socks R) (ld p).
Proof. apply keeps_same. intros s a s'. unfold ld. by destruct (_ !! _); [intros [= _ ->]|]. Qed.

Lemma keeps_put p k : keeps (on_socks R) (put_pkb p k).
Proof. apply keeps_same. by intros s a s' [= _ <-]. Qed.

Lemma keeps_new k : keeps (on_socks R) (new_pkb k).
Proof. apply keeps_same. intros s a s'. unfold new_pkb. case_if; [done|]. by intros [= _ <-]. Qed.

Lemma keeps_ld_dev d : keeps (on_socks R) (ld_dev d).
Proof. apply keeps_same. intros s a s'. unfold ld_dev. by destruct (_ !! _); [intros [= _ ->]|]. Qed.

Lemma keeps_on_segment {A} seg (m : comp shm A) : keeps (on_socks R) (on_segment seg m).
Proof.
  apply keeps_same. intros s a s'. unfold on_segment. destruct (_ !! _); [|done]. destruct (m _); [|done|done].
  by intros [= _ <-].
Qed.

Hint Resolve keeps_ld keeps_put keeps_new keeps_ld_dev keeps_on_segment : keeps.

Lemma keeps_free p : keeps (on_socks R) (free_pkb p).
Proof.
  unfold free_pkb. keeps_step; [keeps_auto|]. case_if; [|keeps_auto]. apply keeps_same. by intros s b s' [= _ <-].
Qed.

Lemma keeps_upd p f : keeps (on_socks R) (upd p f).
Proof. unfold upd. keeps_auto. Qed.

Lemma keeps_ld_bytes p off n : keeps (on_socks R) (ld_bytes p off n).
Proof. unfold ld_bytes. keeps_auto. Qed.

Lemma keeps_st_bytes p off d : keeps (on_socks R) (st_bytes p off d).
Proof. unfold st_bytes. keeps_auto. Qed.

Hint Resolve keeps_free keeps_upd keeps_ld_bytes keeps_st_bytes : keeps.

Lemma keeps_get_pkb p : keeps (on_socks R) (get_pkb p).
Proof. unfold get_pkb. keeps_auto. Qed.

Lemma keeps_trim p len : keeps (on_socks R) (pkb_trim p len).
Proof. unfold pkb_trim. keeps_auto. Qed.

Lemma keeps_copy p : keeps (on_socks R) (copy_pkb p).
Proof. unfold copy_pkb. keeps_auto. Qed.

Lemma keeps_ld_at T `{Struct T} p off : keeps (on_socks R) (ld_at T p off).
Proof. unfold ld_at. keeps_auto. Qed.

Lemma keeps_st_at {T} `{Struct T} p off (t : T) : keeps (on_socks R) (st_at p off t).
Proof. unfold st_at. keeps_auto. Qed.

Lemma keeps_alloc size : keeps (on_socks R) (alloc_pkb size).
Proof. unfold alloc_pkb. keeps_auto. Qed.

Hint Resolve keeps_get_pkb keeps_trim keeps_copy keeps_ld_at keeps_st_at keeps_alloc : keeps.

Lemma keeps_ld_ip p : keeps (on_socks R) (ld_ip p).
Proof. unfold ld_ip. keeps_auto. Qed.

Lemma keeps_upd_ip p f : keeps (on_socks R) (upd_ip p f).
Proof. unfold upd_ip, st_ip, ld_ip. keeps_auto. Qed.

Lemma keeps_st_ip p h : keeps (on_socks R) (st_ip p h).
Proof. unfold st_ip. keeps_auto. Qed.

Lemma keeps_stats d f : keeps (on_socks R) (upd_stats d f).
Proof. unfold upd_stats. keeps_step; [keeps_auto|keeps_outside]. Qed.

Lemma keeps_ld_ae ae : keeps (on_socks R) (ld_ae ae).
Proof. unfold ld_ae. keeps_auto. Qed.

Lemma keeps_upd_ae ae f : keeps (on_socks R) (upd_ae ae f).
Proof. unfold upd_ae. keeps_outside. Qed.

Lemma keeps_ld_frag i : keeps (on_socks R) (ld_frag i).
Proof. apply keeps_same. intros s a s'. unfold ld_frag. by destruct (frag_get _ _); [intros [= _ ->]|]. Qed.

Hint Resolve keeps_ld_ip keeps_upd_ip keeps_st_ip keeps_stats keeps_ld_ae keeps_upd_ae keeps_ld_frag : keeps.

(** ** ARP, IP output, ICMP, reassembly *)

Context `{OS} `{re : Reentry} (Hre : forall d p, keeps (on_socks R) (net_input d p)).
Hint Resolve Hre : keeps.

Lemma keeps_tx dev p len proto dst : keeps (on_socks R) (netdev_tx dev p len proto dst).
Proof.
  unfold netdev_tx, xmit, veth_xmit, physical_eth_dev_xmit, write_xmit, dpdk_xmit, loop_xmit, loop_recv, shmeth_dev_xmit, ld_hw.
  keeps_auto; keeps_outside.
Qed.
Hint Resolve keeps_tx : keeps.

Lemma keeps_queue_send fuel ae : keeps (on_socks R) (arp_queue_send_loop fuel ae).
Proof. induction fuel as [|n IH]; cbn [arp_queue_send_loop]; keeps_auto. Qed.

Lemma keeps_arp_request ae : keeps (on_socks R) (arp_request ae).
Proof. unfold arp_request. keeps_auto. Qed.

Lemma keeps_arp_drop ae : keeps (on_socks R) (arp_queue_drop ae).
Proof. unfold arp_queue_drop. keeps_auto. Qed.
Hint Resolve keeps_queue_send keeps_arp_request keeps_arp_drop : keeps.

Lemma keeps_arp_in dev p : keeps (on_socks R) (arp_in dev p).
Proof. unfold arp_in, arp_recv, arp_reply, arp_queue_send. keeps_auto; keeps_outside. Qed.

Lemma keeps_arp_timer delta : keeps (on_socks R) (arp_timer delta).
Proof. unfold arp_timer, arp_timer_entry. keeps_auto. Qed.

Lemma keeps_send_dev dev p : keeps (on_socks R) (ip_send_dev dev p).
Proof. unfold ip_send_dev. keeps_auto; keeps_outside. Qed.

Lemma keeps_set_checksum p : keeps (on_socks R) (ip_set_checksum p).
Proof. unfold ip_set_checksum. keeps_auto. Qed.
Hint Resolve keeps_send_dev keeps_set_checksum : keeps.

Lemma keeps_ip_frag p hlen dlen off mf : keeps (on_socks R) (ip_frag p hlen dlen off mf).
Proof. unfold ip_frag. keeps_auto. Qed.
Hint Resolve keeps_ip_frag : keeps.

Lemma keeps_send_frag_loop fuel dev p hlen mlen dlen off :
  keeps (on_socks R) (ip_send_frag_loop fuel dev p hlen mlen dlen off).
Proof. revert dlen off. induction fuel as [|n IH]; intros dlen off; cbn [ip_send_frag_loop]; keeps_auto. Qed.
Hint Resolve keeps_send_frag_loop : keeps.

Lemma keeps_send_frag dev p : keeps (on_socks R) (ip_send_frag dev p).
Proof. unfold ip_send_frag. keeps_auto. Qed.
Hint Resolve keeps_send_frag : keeps.

Lemma keeps_rt_output p : keeps (on_socks R) (rt_output p).
Proof. unfold rt_output. keeps_auto. Qed.
Hint Resolve keeps_rt_output : keeps.

Lemma keeps_send_out p : keeps (on_socks R) (ip_send_out p).
Proof. unfold ip_send_out. keeps_auto. Qed.
Hint Resolve keeps_send_out : keeps.

Lemma keeps_send_info p tos len ttl pro dst : keeps (on_socks R) (ip_send_info p tos len ttl pro dst).
Proof. unfold ip_send_info. keeps_auto. keeps_outside. Qed.
Hint Resolve keeps_send_info : keeps.

Lemma keeps_icmp_send type code data p : keeps (on_socks R) (icmp_send type code data p).
Proof. unfold icmp_send, icmp_error_in, icmp_build, icmp_type_error. keeps_auto. Qed.
Hint Resolve keeps_icmp_send : keeps.

Lemma keeps_icmp_in p : keeps (on_socks R) (icmp_in p).
Proof. unfold icmp_in, run_handler, do_echo_request. keeps_auto. Qed.

Lemma keeps_upd_frag i f : keeps (on_socks R) (upd_frag i f).
Proof. unfold upd_frag. keeps_step; [keeps_auto|keeps_outside]. Qed.

Lemma keeps_delete_frag i : keeps (on_socks R) (delete_frag i).
Proof. unfold delete_frag. keeps_auto; keeps_outside. Qed.
Hint Resolve keeps_upd_frag keeps_delete_frag : keeps.

Lemma keeps_reass_copy p hlen o l : keeps (on_socks R) (reass_copy p hlen o l).
Proof. revert o. induction l as [|q l IH]; intros o; cbn [reass_copy]; keeps_auto. Qed.

Lemma keeps_insert_search l off : keeps (on_socks R) (insert_search l off).
Proof. induction l as [|q l IH]; cbn [insert_search]; keeps_auto. Qed.
Hint Resolve keeps_reass_copy keeps_insert_search : keeps.

Lemma keeps_reass_frag i : keeps (on_socks R) (reass_frag i).
Proof. unfold reass_frag. keeps_auto. Qed.

Lemma keeps_insert_frag p i : keeps (on_socks R) (insert_frag p i).
Proof. unfold insert_frag, frag_found, frag_out, frag_drop. keeps_auto. Qed.
Hint Resolve keeps_reass_frag keeps_insert_frag : keeps.

Lemma keeps_ip_reass p : keeps (on_socks R) (ip_reass p).
Proof. unfold ip_reass, lookup_frag, new_frag. keeps_auto. keeps_outside. Qed.

Lemma keeps_ip_timer delta : keeps (on_socks R) (ip_timer delta).
Proof. unfold ip_timer, ip_timer_frag. keeps_auto. Qed.

End Stack.

#[export] Hint Resolve keeps_ld keeps_put keeps_new keeps_ld_dev keeps_free keeps_upd keeps_ld_bytes keeps_st_bytes
  keeps_get_pkb keeps_trim keeps_copy keeps_ld_at keeps_st_at keeps_alloc keeps_ld_ip keeps_upd_ip keeps_st_ip
  keeps_stats keeps_arp_in keeps_send_dev keeps_set_checksum keeps_send_frag keeps_rt_output keeps_send_out
  keeps_icmp_send keeps_icmp_in keeps_ip_reass : keeps.
