(* ===== verification/TcpOut.v ===== *)
(** * TCP output: tcp/tcp_out.c, struct tcp_segment of include/tcp.h,
    tcp_segment_init of tcp/tcp_in.c *)

From stdpp Require Import prelude list gmap.
From Stdlib Require Import ZArith Lia.
From S2P Require Import Prelude Structs Checksum Route Pkb FastPipe ArpCache Sock TcpTable Stack Arp IpOut Raw.

(** ** The data *)

(** struct tcp_segment, in host order.  [seg_pkb] is the packet [iphdr] points
    into; [seg_text] is the offset of the text in it.  Nothing writes to the TCP
    header of a packet that is being handled, so [tcphdr] is kept by value; the IP
    header in front of it is overwritten when the segment is queued for
    reassembly, and is read where the code reads it. *)
Record tcp_segment := mk_seg {
  seg_seq : Z;
  seg_ack : Z;
  seg_lastseq : Z;
  seg_len : Z;
  seg_dlen : Z;
  seg_wnd : Z;
  seg_up : Z;
  seg_prc : Z;
  seg_text : Z;
  seg_pkb : pid;
  tcphdr : tcp
}.

(** A control bit is set. *)
Definition on (b : Z) : bool := negb (b =? 0).

(** ** The code *)

Definition tcp_segment_init (pkb : pid) (h : ip) (t : tcp) : tcp_segment :=
  let seq := _ntohl (tcp_seq t) in
  let dlen := u32 (ipdlen h - tcphlen t) in
  let len := u32 (dlen + tcp_syn t + tcp_fin t) in
  mk_seg seq
    (if on (tcp_ack t) then _ntohl (tcp_ackn t) else 0)
    (if on len then u32 (seq + len - 1) else seq)
    len dlen
    (_ntohs (tcp_window t)) (_ntohs (tcp_urgptr t)) 0
    (ETH_HRD_SZ + iphlen h + tcphlen t) pkb t.

(** The TCP header of a packet that is being built. *)
Definition tcp_off : Z := ETH_HRD_SZ + IP_HRD_SZ.

Section Out.
Context `{OS} `{Reentry}.

Definition tcp_init_pkb (tsk : option skid) (pkb : pid) (saddr daddr : Z) : comp stack Z :=
  let* b := ld pkb in
  let* id := gets (fun s => tcp_id (tcp_st (st_sock s))) in
  upd_ip pkb (fun h =>
    mk_ip (Z.shiftr IP_HRD_SZ 2) IP_VERSION_4 0 (_htons (u16 (pk_len b - ETH_HRD_SZ)))
      (_htons (u16 id)) 0 TCP_DEFAULT_TTL IP_P_TCP (ip_cksum h) (ip_src h) daddr);;
  let* dst :=
    match tsk with
    | Some sk => let* k := on_sock (ld_sk sk) in ret (sk_dst k)
    | None => ret None
    end in
  let* r :=
    match dst with
    | Some rt => upd pkb (fun k => set_pk_rtdst k (Some rt));; ret 0
    | None =>
        let* r := rt_output pkb in
        if r <? 0 then ret (-1)
        else
          match tsk with
          | Some sk => let* k := ld pkb in on_sock (upd_sk sk (fun v => set_sk_dst v (pk_rtdst k)))
          | None => ret tt
          end;;
          ret 0
    end in
  if r <? 0 then ret (-1)
  else upd_ip pkb (fun h => set_ip_src h saddr);; ret 0.

(** tcp_set_checksum on the segment behind a 20-byte header. *)
Definition tcp_set_checksum (pkb : pid) : comp stack unit :=
  let* h := ld_ip pkb in
  let* seg := ld_bytes pkb tcp_off (ipndlen h) in
  st_bytes pkb tcp_off (tcp_set_checksum_bytes (ip_src h) (ip_dst h) seg).

Definition tcp_send_out (tsk : option skid) (pkb : pid) (seg : option tcp_segment) : comp stack unit :=
  let* '(saddr, daddr) :=
    match seg, tsk with
    | Some g, _ => let* h := ld_ip (seg_pkb g) in ret (ip_dst h, ip_src h)
    | None, Some sk => let* k := on_sock (ld_sk sk) in ret (sk_saddr k, sk_daddr k)
    | None, None => fail AssertFail
    end in
  let* r := tcp_init_pkb tsk pkb saddr daddr in
  if r <? 0 then free_pkb pkb
  else
    tcp_set_checksum pkb;;
    ip_send_out pkb.

(** A new packet for a segment without text, zeroed, and its header stored. *)
Definition tcp_new_pkb (t : tcp) : comp stack pid :=
  let* opkb := alloc_pkb (ETH_HRD_SZ + IP_HRD_SZ + TCP_HRD_SZ) in
  st_at opkb tcp_off t;;
  ret opkb.

(** The header of the reset that answers a segment. *)
Definition reset_hdr (seg : tcp_segment) : tcp :=
  let t := tcphdr seg in
  let '(seq, ackn, ack) := if on (tcp_ack t) then (tcp_ackn t, 0, 0)
                          else (0, _htonl (u32 (seg_seq seg + seg_len seg)), 1) in
  mk_tcp (tcp_dst t) (tcp_src t) seq ackn 0 TCP_HRD_DOFF 0 0 1 0 ack 0 0 0 0 0 0.

Definition tcp_send_reset (tsk : option skid) (seg : tcp_segment) : comp stack unit :=
  if on (tcp_rst (tcphdr seg)) then ret tt
  else
    let* opkb := tcp_new_pkb (reset_hdr seg) in
    tcp_send_out None opkb (Some seg).

(** An acknowledgment from the state of the connection; the ports are those of the
    segment that is answered, turned around. *)
Definition ack_hdr (t : tcp) (k : tcp_sock) : tcp :=
  mk_tcp (tcp_dst t) (tcp_src t) (_htonl (snd_nxt k)) (_htonl (rcv_nxt k)) 0 TCP_HRD_DOFF
    0 0 0 0 1 0 0 0 (_htons (u16 (rcv_wnd k))) 0 0.

Definition synack_hdr (t : tcp) (k : tcp_sock) : tcp :=
  mk_tcp (tcp_dst t) (tcp_src t) (_htonl (iss k)) (_htonl (rcv_nxt k)) 0 TCP_HRD_DOFF
    0 1 0 0 1 0 0 0 (_htons (u16 (rcv_wnd k))) 0 0.

(** [seg] is followed without a check. *)
Definition tcp_send_ack (tsk : skid) (seg : option tcp_segment) : comp stack unit :=
  let* g := of_opt NullDeref seg in
  if on (tcp_rst (tcphdr g)) then ret tt
  else
    let* k := on_sock (ld_tsk tsk) in
    let* opkb := tcp_new_pkb (ack_hdr (tcphdr g) k) in
    tcp_send_out (Some tsk) opkb seg.

Definition tcp_send_synack (tsk : skid) (seg : tcp_segment) : comp stack unit :=
  if on (tcp_rst (tcphdr seg)) then ret tt
  else
    let* k := on_sock (ld_tsk tsk) in
    let* opkb := tcp_new_pkb (synack_hdr (tcphdr seg) k) in
    tcp_send_out (Some tsk) opkb (Some seg).

Definition syn_hdr (v : sock) (k : tcp_sock) : tcp :=
  mk_tcp (sk_sport v) (sk_dport v) (_htonl (iss k)) 0 0 TCP_HRD_DOFF
    0 1 0 0 0 0 0 0 (_htons (u16 (rcv_wnd k))) 0 0.

Definition tcp_send_syn (tsk : skid) (seg : option tcp_segment) : comp stack unit :=
  let* v := on_sock (ld_sk tsk) in
  let* k := on_sock (ld_tsk tsk) in
  let* opkb := tcp_new_pkb (syn_hdr v k) in
  tcp_send_out (Some tsk) opkb seg.

Definition fin_hdr (v : sock) (k : tcp_sock) : tcp :=
  mk_tcp (sk_sport v) (sk_dport v) (_htonl (snd_nxt k)) (_htonl (rcv_nxt k)) 0 TCP_HRD_DOFF
    1 0 0 0 1 0 0 0 (_htons (u16 (rcv_wnd k))) 0 0.

Definition tcp_send_fin (tsk : skid) : comp stack unit :=
  let* v := on_sock (ld_sk tsk) in
  let* k := on_sock (ld_tsk tsk) in
  let* opkb := tcp_new_pkb (fin_hdr v k) in
  tcp_send_out (Some tsk) opkb None.

End Out.
