(* ===== verification/TcpText.v ===== *)
(** * Segment text: tcp/tcp_text.c and tcp/tcp_reass.c

    Text that arrives in order goes to the receive buffer of the connection;
    text that arrives early waits in the list [rcv_reass], whose nodes are laid
    over the head of the waiting packets. *)

From stdpp Require Import prelude list gmap.
From Stdlib Require Import ZArith Lia.
From S2P Require Import Prelude Structs Checksum Cbuf Wait Route Pkb FastPipe ArpCache Sock TcpTable Stack Arp IpOut Raw TcpOut.

(** ** The data *)

Definition TCP_F_PUSH : Z := 1.
Definition TCP_F_ACKNOW : Z := 2.
Definition TCP_F_ACKDELAY : Z := 4.

Definition flag (t : tcp_sock) (f : Z) : bool := on (Z.land (flags t) f).
Definition add_flag (f : Z) (t : tcp_sock) : tcp_sock := set_flags t (Z.lor (flags t) f).

(** The three pointers of a list node in a packet: 24 bytes that the code never
    reads as anything but pointers. *)
Class Ptrs := node_ptrs : pid -> list Z.

Definition set_seg_dlen (g : tcp_segment) v :=
  mk_seg (seg_seq g) (seg_ack g) (seg_lastseq g) (seg_len g) v (seg_wnd g) (seg_up g) (seg_prc g)
    (seg_text g) (seg_pkb g) (tcphdr g).

(** ADJACENT_SEGMENT_HEAD: drop the text before [nseq]; [None] is its [goto out],
    when nothing is left. *)
Definition adjacent_segment_head (nseq : Z) (g : tcp_segment) : option tcp_segment :=
  if seg_seq g <? nseq then
    let d := u32 (nseq - seg_seq g) in
    if seg_dlen g <=? d then None
    else Some (mk_seg nseq (seg_ack g) (seg_lastseq g) (seg_len g) (u32 (seg_dlen g - d)) (seg_wnd g)
                 (seg_up g) (seg_prc g) (seg_text g + d) (seg_pkb g) (tcphdr g))
  else Some g.

(** ** The code: the receive buffer *)

Definition on_cbuf {A} (sk : skid) (m : comp (option cbuf) A) : comp sockstate A :=
  let* t := ld_tsk sk in
  match m (rcv_buf t) with
  | Ret a cb => upd_tsk sk (fun t => set_rcv_buf t cb);; ret a
  | Fault f => fail f
  | NoFuel => out_of_fuel
  end.

Definition tcp_free_buf (sk : skid) : comp sockstate unit :=
  let* t := ld_tsk sk in
  match rcv_buf t with
  | None => ret tt
  | Some _ =>
      upd_tcp (fun c => set_free_cbufs (free_cbufs c + 1) c);;
      upd_tsk sk (fun t => set_rcv_buf t None)
  end.

(** [data] is the memory from the text on.  The two turns of the loop of write_cbuf
    are enough (file Cbuf). *)
Definition write_text (sk : skid) (data : list Z) (len : Z) : comp sockstate Z :=
  let* t := ld_tsk sk in
  match rcv_buf t with
  | None =>
      upd_tcp (fun c => set_alloc_cbufs (alloc_cbufs c + 1) c);;
      upd_tsk sk (fun t => set_rcv_buf t (Some (alloc_cbuf (rcv_wnd t))))
  | Some _ => ret tt
  end;;
  let* rlen := on_cbuf sk (write_cbuf 2 data len) in
  when (0 <? rlen)
    (upd_tsk sk (fun t => set_rcv_nxt (set_rcv_wnd t (u32 (rcv_wnd t - rlen))) (u32 (rcv_nxt t + rlen))));;
  ret rlen.

Definition tcp_write_buf (sk : skid) (pkb : pid) (off len : Z) : comp stack Z :=
  let* k := ld pkb in
  on_sock (write_text sk (drop (Z.to_nat off) (pk_data k)) len).

(** *** tcp_reass.c *)

Definition tcp_free_reass_head (sk : skid) : comp stack unit :=
  let* t := on_sock (ld_tsk sk) in
  for_each (rcv_reass t) (fun trh =>
    on_sock (upd_tsk sk (fun t => set_rcv_reass t (drop 1 (rcv_reass t))));;
    free_pkb (trh_pkb trh)).

(** The first loop: the nodes before the first one with a greater sequence number,
    and the rest. *)
Fixpoint reass_split (seq : Z) (l : list tcp_reass_head) : list tcp_reass_head * list tcp_reass_head :=
  match l with
  | [] => ([], [])
  | trh :: r =>
      if seq <? trh_seq trh then ([], l)
      else let (a, b) := reass_split seq r in (trh :: a, b)
  end.

(** Where the node before [trh] ends.  In front of the first node is the list head
    itself, inside the tcp_sock: read as a node, its [seq] and [len] are the fields
    snd_wnd and snd_up. *)
Definition prev_end (t : tcp_sock) (before : list tcp_reass_head) : Z :=
  match last before with
  | Some trh => u32 (trh_seq trh + trh_len trh)
  | None => u32 (snd_wnd t + snd_up t)
  end.

(** The second loop: nodes that the segment covers are deleted, the end of the
    segment that overlaps the next one is cut off.  The result is the segment, the
    nodes that stay, and whether the loop ended with [goto out]. *)
Fixpoint reass_cover (before : list tcp_reass_head) (sk : skid) (g : tcp_segment) (l : list tcp_reass_head)
    : comp stack (tcp_segment * list tcp_reass_head * bool) :=
  match l with
  | [] => ret (g, [], false)
  | trh :: r =>
      if u32 (seg_seq g + seg_dlen g) <? u32 (trh_seq trh + trh_len trh) then
        if trh_seq trh <? u32 (seg_seq g + seg_dlen g) then
          let g := set_seg_dlen g (u32 (trh_seq trh - seg_seq g)) in
          ret (g, l, seg_dlen g =? 0)
        else ret (g, l, false)
      else
        on_sock (upd_tsk sk (fun t => set_rcv_reass t (before ++ r)));;
        free_pkb (trh_pkb trh);;
        reass_cover before sk g r
  end.

(** The third loop: nodes whose text is next are written to the buffer; the result is
    the number of bytes. *)
Fixpoint reass_write (sk : skid) (l : list tcp_reass_head) (len : Z) : comp stack Z :=
  match l with
  | [] => ret len
  | trh :: r =>
      let* t := on_sock (ld_tsk sk) in
      if rcv_nxt t <? trh_seq trh then ret len
      else
        guard AssertFail (trh_seq trh =? rcv_nxt t);;
        let* rlen := tcp_write_buf sk (trh_pkb trh) (trh_data trh) (trh_len trh) in
        if rlen <=? 0 then ret len
        else
          on_sock (upd_tsk sk (fun t => set_rcv_reass t r));;
          free_pkb (trh_pkb trh);;
          reass_write sk r (len + rlen)
  end.

Section Reass.
Context `{Ptrs}.

(** The node is 32 bytes long, 18 more than the ether header it is laid over. *)
Definition put_trh (pkb : pid) (seq len : Z) : comp stack unit :=
  st_bytes pkb 0 (node_ptrs pkb ++ le_enc 4 seq ++ le_enc 4 len).

Definition reass_insert (sk : skid) (g : tcp_segment) (pkb : pid) (before after : list tcp_reass_head)
    : comp stack unit :=
  put_trh pkb (seg_seq g) (seg_dlen g);;
  let l := before ++ mk_trh pkb (seg_text g) (seg_seq g) (seg_dlen g) :: after in
  on_sock (upd_tsk sk (fun t => set_rcv_reass t l));;
  get_pkb pkb;;
  let* len := reass_write sk l 0 in
  when ((0 <? len) && on (tcp_psh (tcphdr g))) (on_sock (upd_tsk sk (add_flag TCP_F_PUSH))).

(** The result is the segment, which the caller goes on using. *)
Definition tcp_segment_reass (sk : skid) (g : tcp_segment) (pkb : pid) : comp stack tcp_segment :=
  let* t := on_sock (ld_tsk sk) in
  let (before, after) := reass_split (seg_seq g) (rcv_reass t) in
  let og := match after with [] => Some g | _ => adjacent_segment_head (prev_end t before) g end in
  match og with
  | None => ret g
  | Some g =>
      let* '(g, after, out) := reass_cover before sk g after in
      if out then ret g
      else reass_insert sk g pkb before after;; ret g
  end.

(** *** tcp_text.c *)

Definition tcp_recv_notify (sk : skid) : comp sockstate unit :=
  let* k := ld_sk sk in
  match recv_wait k with None => ret tt | Some so => wake (Some so) end.

(** The text goes to the buffer when it is next and nothing waits, else to the list. *)
Definition recv_text_body (sk : skid) (g : tcp_segment) (pkb : pid) : comp stack tcp_segment :=
  let* t := on_sock (ld_tsk sk) in
  if bool_decide (rcv_nxt t = seg_seq g) && bool_decide (rcv_reass t = []) then
    let* rlen := tcp_write_buf sk pkb (seg_text g) (seg_dlen g) in
    when ((0 <? rlen) && on (tcp_psh (tcphdr g))) (on_sock (upd_tsk sk (add_flag TCP_F_PUSH)));;
    on_sock (upd_tsk sk (add_flag TCP_F_ACKDELAY));;
    ret g
  else
    let* g := tcp_segment_reass sk g pkb in
    on_sock (upd_tsk sk (add_flag TCP_F_ACKNOW));;
    ret g.

Definition tcp_recv_text (sk : skid) (g : tcp_segment) (pkb : pid) : comp stack tcp_segment :=
  let* t := on_sock (ld_tsk sk) in
  let* g :=
    if rcv_wnd t =? 0 then ret g
    else
      match adjacent_segment_head (rcv_nxt t) g with
      | None => ret g
      | Some g => recv_text_body sk g pkb
      end in
  let* t := on_sock (ld_tsk sk) in
  when (flag t TCP_F_PUSH) (on_sock (tcp_recv_notify sk));;
  ret g.

End Reass.

(** ** The code: sending *)

Section Send.
Context `{OS} `{Reentry}.

Definition text_hdr (v : sock) (k : tcp_sock) (psh : Z) : tcp :=
  mk_tcp (sk_sport v) (sk_dport v) (_htonl (snd_nxt k)) (_htonl (rcv_nxt k)) 0 TCP_HRD_DOFF
    0 0 0 psh 1 0 0 0 (_htons (u16 (rcv_wnd k))) 0 0.

Definition tcp_init_text (sk : skid) (pkb : pid) (buf : list Z) : comp stack unit :=
  let* v := on_sock (ld_sk sk) in
  let* k := on_sock (ld_tsk sk) in
  st_at pkb tcp_off (text_hdr v k 0);;
  st_bytes pkb (tcp_off + TCP_HRD_SZ) buf;;
  on_sock (upd_tsk sk (fun k => set_snd_wnd (set_snd_nxt k (u32 (snd_nxt k + zlen buf)))
                                  (u32 (snd_wnd k - zlen buf)))).

Definition set_psh (pkb : pid) : comp stack unit :=
  let* t := ld_at tcp pkb tcp_off in
  st_at pkb tcp_off
    (mk_tcp (tcp_src t) (tcp_dst t) (tcp_seq t) (tcp_ackn t) (tcp_reserved t) (tcp_doff t) (tcp_fin t)
       (tcp_syn t) (tcp_rst t) 1 (tcp_ack t) (tcp_urg t) (tcp_ece t) (tcp_cwr t) (tcp_window t)
       (tcp_checksum t) (tcp_urgptr t)).

(** The loop of tcp_send_text: [slen] bytes of [buf] are sent. *)
Fixpoint send_text_loop (fuel : nat) (sk : skid) (buf : list Z) (segsize slen len : Z) : comp stack Z :=
  if slen <? len then
    match fuel with
    | O => out_of_fuel
    | S n =>
        let segsize := Z.min segsize (len - slen) in
        let* pkb := alloc_pkb (ETH_HRD_SZ + IP_HRD_SZ + TCP_HRD_SZ + segsize) in
        tcp_init_text sk pkb (slice buf slen segsize);;
        let slen := slen + segsize in
        when (len <=? slen) (set_psh pkb);;
        tcp_send_out (Some sk) pkb None;;
        send_text_loop n sk buf segsize slen len
    end
  else ret slen.

(** A closed window leads to tcp_send_ack without a segment. *)
Definition tcp_send_text (sk : skid) (buf : list Z) : comp stack Z :=
  let* v := on_sock (ld_sk sk) in
  let* rt := of_opt NullDeref (sk_dst v) in
  let* d := ld_dev (rt_dev rt) in
  let* k := on_sock (ld_tsk sk) in
  let len := Z.min (zlen buf) (s32 (snd_wnd k)) in
  let* slen := send_text_loop (Z.to_nat len) sk buf (net_mtu d - IP_HRD_SZ - TCP_HRD_SZ) 0 len in
  if slen =? 0 then tcp_send_ack sk None;; ret (-1) else ret slen.

End Send.
