(* ===== verification/TcpState.v ===== *)
(** * The TCP state machine: tcp/tcp_state.c, tcp/tcp_timer.c, tcp/tcp_in.c, the
    accept queue of include/tcp.h *)

From stdpp Require Import prelude list gmap.
From Stdlib Require Import ZArith Lia.
From S2P Require Import Prelude Structs Checksum Route Pkb FastPipe ArpCache Sock TcpTable Stack Arp IpOut Raw TcpOut TcpText.

(** ** Queues of connections *)

(** list_add and list_del write to the nodes next to the one that is added or
    deleted: those have to be alive. *)
Definition touch (sk : skid) : comp sockstate unit := ld_tsk sk;; ret tt.

Fixpoint neighbours (x : skid) (l : list skid) : list skid :=
  match l with
  | a :: ((b :: r') as r) =>
      if decide (a = x) then [b]
      else if decide (b = x) then a :: take 1 r'
      else neighbours x r
  | _ => []
  end.

Definition list_add_listen (sk p : skid) : comp sockstate unit :=
  let* t := ld_tsk p in
  for_each (take 1 (listen_queue t)) touch;;
  upd_tsk p (fun t => set_listen_queue t (sk :: listen_queue t));;
  upd_tsk sk (fun t => set_list_node t (InListenQueue p)).

Definition list_add_accept (sk p : skid) : comp sockstate unit :=
  let* t := ld_tsk p in
  for_each (take 1 (accept_queue t)) touch;;
  upd_tsk p (fun t => set_accept_queue t (sk :: accept_queue t));;
  upd_tsk sk (fun t => set_list_node t (InAcceptQueue p)).

(** list_del_init of the node of [sk]; list_del differs in the pointers it leaves. *)
Definition list_del_node (sk : skid) : comp sockstate unit :=
  let* t := ld_tsk sk in
  match list_node t with
  | Unlinked => ret tt
  | InListenQueue p =>
      let* q := ld_tsk p in
      for_each (neighbours sk (listen_queue q)) touch;;
      upd_tsk p (fun t => set_listen_queue t (unlink sk (listen_queue t)))
  | InAcceptQueue p =>
      let* q := ld_tsk p in
      for_each (neighbours sk (accept_queue q)) touch;;
      upd_tsk p (fun t => set_accept_queue t (unlink sk (accept_queue t)))
  end;;
  upd_tsk sk (fun t => set_list_node t Unlinked).

(** [tsk->parent->...] *)
Definition parent_of (t : tcp_sock) : comp sockstate skid :=
  match parent t with
  | Parent p => ret p
  | NoParent => fail NullDeref
  | DeadParent => fail Undefined
  end.

Definition tcp_accept_queue_full (t : tcp_sock) : bool := backlog t <=? accept_backlog t.

(** The counter is that of the child. *)
Definition tcp_accept_enqueue (sk : skid) : comp sockstate unit :=
  list_del_node sk;;
  let* t := ld_tsk sk in
  let* p := parent_of t in
  list_add_accept sk p;;
  upd_tsk sk (fun t => set_accept_backlog t (accept_backlog t + 1)).

(** list_first_entry of an empty queue is the head itself; the caller has checked. *)
Definition tcp_accept_dequeue (sk : skid) : comp sockstate skid :=
  let* t := ld_tsk sk in
  let* newtsk := of_opt Undefined (head (accept_queue t)) in
  list_del_node newtsk;;
  upd_tsk sk (fun t => set_accept_backlog t (accept_backlog t - 1));;
  ret newtsk.

(** ** tcp_timer.c *)

Definition TCP_MSL : Z := 1000000.
Definition TCP_TIMEWAIT_TIMEOUT : Z := 2 * TCP_MSL.
Definition TCP_TIMER_DELTA : Z := 200000.

Definition tcp_set_timewait_timer (sk : skid) : comp sockstate unit :=
  tcp_set_state sk TCP_TIME_WAIT;;
  let* c := gets tcp_st in
  upd_tsk sk (fun t => set_tw_next (set_tw_timeout t TCP_TIMEWAIT_TIMEOUT) (timewait c));;
  upd_tcp (set_timewait (Some sk));;
  get_tcp_sock sk.

(** An assignment through [pprev]: to the list head, or to [next] of a node. *)
Definition put_pprev (pprev : option skid) (v : option skid) : comp sockstate unit :=
  match pprev with
  | None => upd_tcp (set_timewait v)
  | Some sk => upd_tsk sk (fun t => set_tw_next t v)
  end.

Fixpoint timewait_loop (fuel : nat) (delta : Z) (pprev t : option skid) : comp sockstate unit :=
  match t with
  | None => ret tt
  | Some sk =>
      match fuel with
      | O => out_of_fuel
      | S n =>
          let* k := ld_tsk sk in
          let next := tw_next k in
          let timeout := tw_timeout k - delta in
          upd_tsk sk (fun k => set_tw_timeout (set_tw_next k None) timeout);;
          if timeout <=? 0 then
            match parent k with NoParent => tcp_unbhash sk | _ => ret tt end;;
            tcp_unhash sk;;
            tcp_set_state sk TCP_CLOSED;;
            free_sock sk;;
            put_pprev pprev next;;
            timewait_loop n delta pprev next
          else timewait_loop n delta (Some sk) next
      end
  end.

(** One turn per sock in the list. *)
Definition tcp_timewait_timer (delta : Z) : comp sockstate unit :=
  let* c := gets tcp_st in
  timewait_loop (size (tsks c)) delta None (timewait c).

(** The thread tcp_timer: its start, and the body of its loop after usleep. *)
Definition tcp_timer_start : comp sockstate unit := upd_tcp (set_timewait None).

Definition tcp_timer_tick (i : Z) : comp sockstate Z :=
  let i := u32 (i + 1) in
  when (i mod (1000000 / TCP_TIMER_DELTA) =? 0) (tcp_timewait_timer 1000000);;
  ret i.

(** ** tcp_state.c *)

Section Machine.
Context `{OS} `{Reentry} `{Ptrs}.

(** *** LISTEN *)

(** free() of a sock, without the counter of free_sock. *)
Definition free_mem (sk : skid) : comp sockstate unit :=
  ld_sk sk;; modify (fun s => set_socks (delete sk (socks s)) s).

Definition tcp_listen_child_sock (tsk : skid) (seg : tcp_segment) : comp stack (option skid) :=
  let* k := on_sock (ld_sk tsk) in
  let* o := on_sock (tcp_alloc_sock (protocol k)) in
  let* newsk := of_opt NullDeref o in
  on_sock (tcp_set_state newsk TCP_SYN_RECV);;
  let* h := ld_ip (seg_pkb seg) in
  on_sock (upd_sk newsk (fun k =>
    set_sk_addr k (mk_sock_addr (ip_dst h) (ip_src h) (tcp_dst (tcphdr seg)) (tcp_src (tcphdr seg)))));;
  let* r := on_sock (tcp_hash newsk) in
  if r <? 0 then on_sock (free_mem newsk);; ret None
  else
    on_sock (get_tcp_sock tsk);;
    on_sock (upd_tsk newsk (fun t => set_parent t (Parent tsk)));;
    on_sock (list_add_listen newsk tsk);;
    on_sock (get_tcp_sock newsk);;
    ret (Some newsk).

(** tcp_listen of tcp_state.c: snd_nxt and snd_una are set after the answer was
    sent. *)
Definition tcp_listen_in (pkb : pid) (seg : tcp_segment) (tsk : skid) : comp stack unit :=
  let t := tcphdr seg in
  (if on (tcp_rst t) then ret tt
   else if on (tcp_ack t) then tcp_send_reset (Some tsk) seg
   else if negb (on (tcp_syn t)) then ret tt
   else
     let* o := tcp_listen_child_sock tsk seg in
     match o with
     | None => ret tt
     | Some newtsk =>
         on_sock (upd_tsk newtsk (fun t => set_irs t (seg_seq seg)));;
         let* i := on_sock alloc_new_iss in
         on_sock (upd_tsk newtsk (fun t => set_rcv_nxt (set_iss t i) (u32 (seg_seq seg + 1))));;
         tcp_send_synack newtsk seg;;
         on_sock (upd_tsk newtsk (fun t => set_snd_una (set_snd_nxt t (u32 (iss t + 1))) (iss t)))
     end);;
  free_pkb pkb.

(** *** CLOSED *)

Definition tcp_closed (tsk : option skid) (pkb : pid) (seg : tcp_segment) : comp stack unit :=
  match tsk with None => tcp_send_reset None seg | Some _ => ret tt end;;
  free_pkb pkb.

(** *** SYN-SENT *)

(** The SYN bit; [false] is the [return] of the simultaneous open, which keeps the
    packet. *)
Definition synsent_syn (seg : tcp_segment) (sk : skid) : comp stack bool :=
  let t := tcphdr seg in
  on_sock (upd_tsk sk (fun k => set_rcv_nxt (set_irs k (seg_seq seg)) (u32 (seg_seq seg + 1))));;
  when (on (tcp_ack t)) (on_sock (upd_tsk sk (fun k => set_snd_una k (seg_ack seg))));;
  let* k := on_sock (ld_tsk sk) in
  if iss k <? snd_una k then
    on_sock (tcp_set_state sk TCP_ESTABLISHED);;
    on_sock (upd_tsk sk (fun k => set_snd_wl2 (set_snd_wl1 (set_snd_wnd k (seg_wnd seg)) (seg_seq seg))
                                    (seg_ack seg)));;
    tcp_send_ack sk (Some seg);;
    let* k := on_sock (ld_tsk sk) in
    on_sock (wake (wait_connect k));;
    ret true
  else
    on_sock (tcp_set_state sk TCP_SYN_RECV);;
    tcp_send_synack sk seg;;
    ret false.

Definition tcp_synsent (pkb : pid) (seg : tcp_segment) (sk : skid) : comp stack unit :=
  let t := tcphdr seg in
  let* k := on_sock (ld_tsk sk) in
  if on (tcp_ack t) && ((seg_ack seg <=? iss k) || (snd_nxt k <? seg_ack seg)) then
    tcp_send_reset (Some sk) seg;; free_pkb pkb
  else if on (tcp_rst t) then
    when (on (tcp_ack t))
      (on_sock (tcp_set_state sk TCP_CLOSED);;
       let* k := on_sock (ld_tsk sk) in
       match wait_connect k with None => ret tt | Some so => on_sock (wake (Some so)) end);;
    free_pkb pkb
  else if on (tcp_syn t) then
    let* d := synsent_syn seg sk in
    when d (free_pkb pkb)
  else free_pkb pkb.

(** *** The other states *)

Definition tcp_synrecv_ack (sk : skid) : comp sockstate Z :=
  let* t := ld_tsk sk in
  let* p := parent_of t in
  let* q := ld_tsk p in
  if negb (bool_decide (state q = TCP_LISTEN)) then ret (-1)
  else if tcp_accept_queue_full q then ret (-1)
  else
    tcp_accept_enqueue sk;;
    let* q := ld_tsk p in
    wake (wait_accept q);;
    ret 0.

(** 0 when the segment is acceptable, -1 otherwise. *)
Definition seq_check (seg : tcp_segment) (k : tcp_sock) : Z :=
  let rcv_end := u32 (rcv_nxt k + (if rcv_wnd k =? 0 then 1 else rcv_wnd k)) in
  if (seg_seq seg <? rcv_end) && (rcv_nxt k <=? seg_lastseq seg) then 0 else -1.

Definition __tcp_update_window (seg : tcp_segment) (k : tcp_sock) : tcp_sock :=
  set_snd_wl2 (set_snd_wl1 (set_snd_wnd k (seg_wnd seg)) (seg_seq seg)) (seg_ack seg).

Definition tcp_update_window (seg : tcp_segment) (k : tcp_sock) : tcp_sock :=
  if ((snd_una k <=? seg_ack seg) && (seg_ack seg <=? snd_nxt k)) &&
     ((snd_wl1 k <? seg_seq seg) || ((snd_wl1 k =? seg_seq seg) && (snd_wl2 k <=? seg_ack seg)))
  then __tcp_update_window seg k else k.

(** Second check: an acceptable RST aborts the connection. *)
Definition process_rst (sk : skid) : comp sockstate unit :=
  let* k := ld_tsk sk in
  match state k, parent k with
  | TCP_SYN_RECV, NoParent =>
      match wait_connect k with None => ret tt | Some so => wake (Some so) end
  | TCP_SYN_RECV, _ => tcp_unhash sk
  | _, _ => ret tt
  end;;
  tcp_set_state sk TCP_CLOSED;;
  tcp_unhash sk;;
  tcp_unbhash sk.

(** Fourth check: a SYN; a reference is given back, and processing goes on. *)
Definition process_syn (sk : skid) (seg : tcp_segment) : comp stack unit :=
  tcp_send_reset (Some sk) seg;;
  let* k := on_sock (ld_tsk sk) in
  match state k, parent k with
  | TCP_SYN_RECV, (Parent _ | DeadParent) => on_sock (tcp_unhash sk)
  | _, _ => ret tt
  end;;
  on_sock (tcp_set_state sk TCP_CLOSED);;
  on_sock (free_sock sk).

(** Fifth check: the ACK field; [false] is [goto drop]. *)
Definition ack_synrecv (sk : skid) (seg : tcp_segment) (k : tcp_sock) : comp stack bool :=
  if (snd_una k <=? seg_ack seg) && (seg_ack seg <=? snd_nxt k) then
    let* r := on_sock (tcp_synrecv_ack sk) in
    if r <? 0 then ret false
    else
      on_sock (upd_tsk sk (fun k => __tcp_update_window seg (set_snd_una k (seg_ack seg))));;
      on_sock (tcp_set_state sk TCP_ESTABLISHED);;
      ret true
  else
    tcp_send_reset (Some sk) seg;;
    ret false.

Definition ack_synchronized (sk : skid) (seg : tcp_segment) (k : tcp_sock) : comp sockstate bool :=
  let* go :=
    if (snd_una k <? seg_ack seg) && (seg_ack seg <=? snd_nxt k) then
      upd_tsk sk (fun k => set_snd_una k (seg_ack seg));;
      match state k with
      | TCP_FIN_WAIT1 => tcp_set_state sk TCP_FIN_WAIT2;; ret true
      | TCP_CLOSING => tcp_set_timewait_timer sk;; ret false
      | TCP_LAST_ACK =>
          tcp_set_state sk TCP_CLOSED;;
          tcp_unhash sk;;
          tcp_unbhash sk;;
          ret false
      | _ => ret true
      end
    else ret (negb (snd_nxt k <? seg_ack seg)) in
  if go then upd_tsk sk (tcp_update_window seg);; ret true else ret false.

Definition process_ack (sk : skid) (seg : tcp_segment) : comp stack bool :=
  let* k := on_sock (ld_tsk sk) in
  match state k with
  | TCP_SYN_RECV => ack_synrecv sk seg k
  | TCP_ESTABLISHED | TCP_CLOSE_WAIT | TCP_LAST_ACK | TCP_FIN_WAIT1 | TCP_CLOSING =>
      on_sock (ack_synchronized sk seg k)
  | _ => ret true
  end.

(** Seventh: the segment text.  (The sixth check, of URG, does nothing.) *)
Definition process_text (sk : skid) (seg : tcp_segment) (pkb : pid) : comp stack tcp_segment :=
  let* k := on_sock (ld_tsk sk) in
  match state k with
  | TCP_ESTABLISHED | TCP_FIN_WAIT1 | TCP_FIN_WAIT2 =>
      if on (tcp_psh (tcphdr seg)) || (0 <? seg_dlen seg) then tcp_recv_text sk seg pkb else ret seg
  | _ => ret seg
  end.

(** Eighth: the FIN bit. *)
Definition process_fin (sk : skid) (seg : tcp_segment) : comp sockstate unit :=
  when (on (tcp_fin (tcphdr seg)))
    (let* k := ld_tsk sk in
     match state k with
     | TCP_SYN_RECV | TCP_ESTABLISHED =>
         tcp_set_state sk TCP_CLOSE_WAIT;;
         upd_tsk sk (add_flag TCP_F_PUSH);;
         tcp_recv_notify sk
     | TCP_FIN_WAIT1 => tcp_set_state sk TCP_CLOSING
     | TCP_TIME_WAIT => upd_tsk sk (fun k => set_tw_timeout k TCP_TIMEWAIT_TIMEOUT)
     | TCP_FIN_WAIT2 => tcp_set_timewait_timer sk
     | _ => ret tt
     end;;
     upd_tsk sk (fun k => add_flag TCP_F_ACKNOW (set_rcv_nxt k (u32 (seg_seq seg + 1))))).

(** The label [drop]. *)
Definition process_drop (sk : skid) (seg : tcp_segment) (pkb : pid) : comp stack unit :=
  let* k := on_sock (ld_tsk sk) in
  when (flag k (Z.lor TCP_F_ACKNOW TCP_F_ACKDELAY)) (tcp_send_ack sk (Some seg));;
  free_pkb pkb.

(** From the first check to [drop]; the result is the segment as it is then. *)
Definition process_checks (pkb : pid) (seg : tcp_segment) (sk : skid) : comp stack tcp_segment :=
  let t := tcphdr seg in
  let* k := on_sock (ld_tsk sk) in
  if seq_check seg k <? 0 then
    when (negb (on (tcp_rst t))) (on_sock (upd_tsk sk (add_flag TCP_F_ACKNOW)));;
    ret seg
  else if on (tcp_rst t) then on_sock (process_rst sk);; ret seg
  else
    when (on (tcp_syn t)) (process_syn sk seg);;
    if negb (on (tcp_ack t)) then ret seg
    else
      let* go := process_ack sk seg in
      if go then
        let* seg := process_text sk seg pkb in
        on_sock (process_fin sk seg);;
        ret seg
      else ret seg.

(** Every state is below TCP_MAX_STATE. *)
Definition tcp_process (pkb : pid) (seg : tcp_segment) (sk : option skid) : comp stack unit :=
  match sk with
  | None => tcp_closed None pkb seg
  | Some sk =>
      let* k := on_sock (ld_tsk sk) in
      match state k with
      | TCP_CLOSED => tcp_closed (Some sk) pkb seg
      | TCP_LISTEN => tcp_listen_in pkb seg sk
      | TCP_SYN_SENT => tcp_synsent pkb seg sk
      | _ =>
          let* seg := process_checks pkb seg sk in
          process_drop sk seg pkb
      end
  end.

(** ** tcp_in.c *)

Definition tcp_recv (pkb : pid) (h : ip) (t : tcp) : comp stack unit :=
  let seg := tcp_segment_init pkb h t in
  let* sk := on_sock (tcp_lookup_sock (ip_src h) (ip_dst h) (tcp_src t) (tcp_dst t)) in
  tcp_process pkb seg sk;;
  match sk with None => ret tt | Some sk => on_sock (free_sock sk) end.

Definition tcp_in (pkb : pid) : comp stack unit :=
  let* h := ld_ip pkb in
  let off := ETH_HRD_SZ + iphlen h in
  let tcplen := ipdlen h in
  if tcplen <? TCP_HRD_SZ then free_pkb pkb
  else
    let* t := ld_at tcp pkb off in
    if tcplen <? tcphlen t then free_pkb pkb
    else
      let* seg := ld_bytes pkb off tcplen in
      if negb (tcp_chksum (ip_src h) (ip_dst h) (u16 tcplen) seg =? 0) then free_pkb pkb
      else tcp_recv pkb h t.

End Machine.
