(* ===== verification/TcpWindow.v ===== *)
(** * Sequence numbers: seq_check of tcp/tcp_state.c, tcp_segment_init of tcp/tcp_in.c

    The acceptance test against the table of RFC 793, which the comment in
    seq_check quotes, and the numbers tcp_segment_init computes. *)

From stdpp Require Import prelude list gmap.
From Stdlib Require Import ZArith Lia.
From S2P Require Import Prelude Structs Checksum Route Pkb Sock TcpTable Stack Raw TcpOut TcpText TcpState.

(** ** The specification *)

(** RFC 793, page 69: the four cases of segment length and receive window. *)
Definition rfc793_acceptable (seq len nxt wnd : Z) : Prop :=
  if len =? 0 then
    if wnd =? 0 then seq = nxt else nxt <= seq < nxt + wnd
  else
    if wnd =? 0 then False
    else nxt <= seq < nxt + wnd \/ nxt <= seq + len - 1 < nxt + wnd.

(** What tcp_segment_init computes for the last sequence number, without wrap. *)
Definition last_of (seq len : Z) : Z := if len =? 0 then seq else seq + len - 1.

(** The two kinds of segments the code takes although the table does not: text
    that covers the next byte while the window is closed, and text that starts in
    front of the window and ends behind it. *)
Definition taken_as_well (seq len nxt wnd : Z) : Prop :=
  0 < len /\ wnd = 0 /\ seq <= nxt <= seq + len - 1 \/
  0 < len /\ 0 < wnd /\ seq < nxt /\ nxt + wnd <= seq + len - 1.

(** The window reaches over the end of the sequence space. *)
Definition window_wraps (k : tcp_sock) : Prop := 2 ^ 32 <= rcv_nxt k + Z.max 1 (rcv_wnd k).

(** Where the text of a segment ends in its packet. *)
Definition text_end (g : tcp_segment) : Z := seg_text g + seg_dlen g.

(** ** Properties *)

(** C17: while sequence numbers do not wrap around, seq_check accepts exactly the
    segments of RFC 793's table and the two kinds of [taken_as_well]. *)
Theorem seq_check_rfc793 (g : tcp_segment) (k : tcp_sock) :
  0 <= seg_seq g -> 0 <= seg_len g -> 0 <= rcv_nxt k -> 0 <= rcv_wnd k ->
  seg_lastseq g = last_of (seg_seq g) (seg_len g) -> rcv_nxt k + Z.max 1 (rcv_wnd k) < 2 ^ 32 ->
  seq_check g k = 0 <->
    rfc793_acceptable (seg_seq g) (seg_len g) (rcv_nxt k) (rcv_wnd k) \/
    taken_as_well (seg_seq g) (seg_len g) (rcv_nxt k) (rcv_wnd k).
Proof.
  intros H1 H2 H3 H4 Hl Hw. unfold seq_check, rfc793_acceptable, taken_as_well, last_of in *. rewrite Hl.
  rewrite u32_small by (unfold is_u32; destruct (Z.eqb_spec (rcv_wnd k) 0); lia).
  destruct (Z.eqb_spec (rcv_wnd k) 0), (Z.eqb_spec (seg_len g) 0); case_if; lia.
Qed.

Lemma seq_check_rfc793_witness :
  let g := mk_seg 100 0 109 10 10 0 0 0 54 0%nat (mk_tcp 0 0 0 0 0 5 0 0 0 0 0 0 0 0 0 0 0) in
  let k := set_rcv_nxt new_tsk 105 in
  seq_check g k = 0 <-> rfc793_acceptable 100 10 105 4096 \/ taken_as_well 100 10 105 4096.
Proof. intros g k. apply (seq_check_rfc793 g k); by vm_compute. Defined.

(** Once the receive window reaches over 2^32, seq_check refuses even the
    segment that starts at rcv_nxt: the comparison is not modular, and the
    connection cannot receive any more. *)
Lemma seq_check_refuses_at_wrap (g : tcp_segment) (k : tcp_sock) :
  0 <= rcv_nxt k < 2 ^ 32 -> 0 <= rcv_wnd k < 2 ^ 32 -> window_wraps k ->
  seg_seq g = rcv_nxt k -> seq_check g k = -1.
Proof.
  intros Hn Hw Hwrap Hs. unfold window_wraps in Hwrap. unfold seq_check. set (w := if rcv_wnd k =? 0 then 1 else rcv_wnd k).
  assert (Hw' : w = Z.max 1 (rcv_wnd k)) by (unfold w; case_if; lia).
  assert (E : u32 (rcv_nxt k + w) = rcv_nxt k + w - 2 ^ 32).
  { unfold u32. symmetry. apply (Z.mod_unique_pos _ _ 1); lia. }
  rewrite E. case_if; [lia|done].
Qed.

Lemma seq_check_refuses_at_wrap_witness :
  let g := mk_seg (2 ^ 32 - 10) 0 (2 ^ 32 - 1) 10 10 0 0 0 54 0%nat (mk_tcp 0 0 0 0 0 5 0 0 0 0 0 0 0 0 0 0 0) in
  seq_check g (set_rcv_nxt new_tsk (2 ^ 32 - 10)) = -1.
Proof. intros g. apply seq_check_refuses_at_wrap; by vm_compute. Defined.

(** C18: for a segment that passes the length checks of tcp_in the unsigned
    subtractions do not wrap: the text length is what is left behind the headers,
    the text ends where the IP packet ends, and every number of the segment fits
    its field. *)
Theorem tcp_segment_init_bounds (pkb : pid) (h : ip) (t : tcp) :
  wf_struct h -> wf_struct t -> tcphlen t <= ipdlen h ->
  let g := tcp_segment_init pkb h t in
  seg_dlen g = ipdlen h - tcphlen t /\ 0 <= seg_dlen g < 2 ^ 16 /\
  text_end g = ETH_HRD_SZ + ip_len h /\
  ETH_HRD_SZ + iphlen h <= seg_text g /\
  seg_len g = seg_dlen g + tcp_syn t + tcp_fin t /\
  is_u32 (seg_seq g) /\ is_u32 (seg_ack g) /\ is_u32 (seg_lastseq g) /\ is_u16 (seg_wnd g).
Proof.
  intros Hh Ht Hlen g. cbn in Hh, Ht. destruct_and! Hh. destruct_and! Ht.
  assert (Hi : iphlen h = 4 * ip_hlen h) by (unfold iphlen; rewrite Z.shiftl_mul_pow2; lia).
  assert (Hl : tcphlen t = 4 * tcp_doff t) by (unfold tcphlen; rewrite Z.shiftl_mul_pow2; lia).
  unfold ipdlen in *. unfold is_u16, is_u32, is_bit, is_u8 in *.
  assert (Ed : seg_dlen g = ip_len h - iphlen h - tcphlen t).
  { unfold g, tcp_segment_init. cbn. apply u32_small. unfold ipdlen, is_u32. lia. }
  assert (El : seg_len g = seg_dlen g + tcp_syn t + tcp_fin t).
  { rewrite Ed. unfold g, tcp_segment_init. cbn. unfold ipdlen. rewrite (u32_small (ip_len h - iphlen h - tcphlen t)) by (unfold is_u32; lia).
    apply u32_small. unfold is_u32. lia. }
  split; [done|]. split; [lia|]. split.
  { unfold text_end. rewrite Ed. unfold g, tcp_segment_init. cbn. lia. }
  split. { unfold g, tcp_segment_init. cbn. lia. }
  split; [done|]. unfold g, tcp_segment_init. cbn.
  pose proof (htonl_range (tcp_seq t)) as Hs. pose proof (htonl_range (tcp_ackn t)) as Ha.
  unfold is_u32 in Hs, Ha. split; [by apply Hs|]. split.
  { case_if; [by apply Ha|lia]. }
  split. { case_if; [apply u32_range|by apply Hs]. }
  apply htons_range.
Qed.

Lemma tcp_segment_init_bounds_witness :
  let h := mk_ip 5 4 0 48 0 0 64 6 0 0 0 in
  let t := mk_tcp 80 81 0x01000000 0 0 5 1 0 0 0 1 0 0 0 16 0 0 in
  let g := tcp_segment_init 0%nat h t in
  seg_dlen g = 8 /\ text_end g = 62 /\ seg_len g = 9.
Proof.
  intros h t g. destruct (tcp_segment_init_bounds 0%nat h t) as (E1 & _ & E2 & _ & E3 & _); [by vm_compute..|].
  split; [exact E1|]. split; [exact E2|]. exact E3.
Defined.
