(* ===== verification/SafeTcp.v ===== *)
(** * Safety of TCP on a host without TCP socks

    With no connection and no listening sock every segment is for a closed port:
    tcp_in checks it and answers with a reset, which passes through the whole of IP
    output. *)

From stdpp Require Import prelude list gmap.
From Stdlib Require Import ZArith Lia.
From S2P Require Import Prelude Structs Checksum Route Pkb FastPipe ArpCache Sock TcpTable Stack Arp IpOut Icmp IpFrag Own SafeNet SafeIp Raw TcpOut TcpText TcpState.

(** ** Headers *)

Lemma tcp_encode_len (t : tcp) : zlen (encode t) = 20.
Proof. cbn -[le_enc ctl_byte]. by autorewrite with bytes. Qed.

Lemma tcp_encode_ok (t : tcp) : bytes_ok (encode t).
Proof. cbn -[le_enc ctl_byte]. rewrite !bytes_ok_app. split_and!; auto with tapip. Qed.

Lemma tcp_checksum_bytes_ok src dst seg : bytes_ok seg -> 20 <= zlen seg ->
  zlen (tcp_set_checksum_bytes src dst seg) = zlen seg /\ bytes_ok (tcp_set_checksum_bytes src dst seg).
Proof.
  intros Hb Hl. unfold tcp_set_checksum_bytes, put16.
  assert (Hp : forall l v, zlen l = zlen seg -> zlen (patch l 16 (le_enc 2 v)) = zlen seg).
  { intros l v E. rewrite zlen_patch; [done|lia|]. rewrite zlen_le_enc. lia. }
  split; [by apply Hp, Hp|]. repeat apply bytes_ok_patch; auto with tapip.
Qed.

Section Safe.
Context (D : gmap devid netdev) (HD : map_Forall (fun _ => dev_ok) D).
Context {os : OS} {re : Reentry} {reok : ReentryOk D} {ptrs : Ptrs}.
Implicit Types (s : stack) (p q f : pid) (k : pkbuf) (H K : list pid).

(** The header tcp_init_pkb writes. *)
Definition tcp_ip_hdr (len id : Z) (daddr : Z) (h : ip) : ip :=
  mk_ip (Z.shiftr IP_HRD_SZ 2) IP_VERSION_4 0 (_htons (u16 len)) (_htons (u16 id)) 0 TCP_DEFAULT_TTL IP_P_TCP
    (ip_cksum h) (ip_src h) daddr.

Lemma tcp_ip_hdr_wf len id daddr h : wf_struct h -> is_u32 daddr -> wf_struct (tcp_ip_hdr len id daddr h).
Proof.
  intros Hw Hd. cbn in Hw |- *. change (Z.shiftr IP_HRD_SZ 2) with 5. unfold is_u8 in *.
  split_and!; try lia; try apply htons_range; try tauto; done.
Qed.

(** A segment without text, with its TCP header, ready for tcp_send_out. *)
Definition bare_segment k : Prop := pk_len k = 54 /\ zlen (pk_data k) = 54.

Lemma tcp_set_checksum_ok s p k H K :
  ready D s (p :: H) (p :: K) -> live s p k -> net_pkt k -> _ntohs (ip_len (hdr_of k)) = 40 ->
  wp (tcp_set_checksum p) (fun _ s' => exists k', s' = with_pkb s p k' /\ ready D s' (p :: H) (p :: K) /\ net_pkt k') s.
Proof.
  intros Hr Hk Hn E40. destruct (Hn) as ([Hl Hh Hpr] & Hn1 & Hn2). rewrite E40 in *. unfold tcp_set_checksum, tcp_off.
  pose proof (inv_bytes D _ _ _ _ (proj1 Hr) Hk) as Hb.
  apply wp_bind. eapply wp_ld_ip; [done|lia|]. unfold ipndlen. rewrite E40, iphlen_5 by done.
  change (ETH_HRD_SZ + IP_HRD_SZ) with 34. change (40 - 20) with 20.
  apply wp_bind. eapply wp_ld_bytes; [done|lia|lia|lia|]. set (g := slice _ _ _).
  assert (Hg : zlen g = 20) by (apply zlen_slice; lia).
  destruct (tcp_checksum_bytes_ok (ip_src (hdr_of k)) (ip_dst (hdr_of k)) g) as [Hl2 Hb2];
    [by apply bytes_ok_slice|lia|]. rewrite Hg in Hl2.
  eapply wp_st_bytes; [done|lia|lia|]. set (d := tcp_set_checksum_bytes _ _ g) in *. exists (store k 34 d).
  split_and!; [done|by apply ready_store|].
  assert (Eh : hdr_of (store k 34 d) = hdr_of k) by (apply hdr_after; lia).
  unfold net_pkt. rewrite Eh, E40. cbn [pk_len store set_pk_data].
  split_and!; [|lia|lia]. split; rewrite ?Eh; try done. cbn [pk_len store set_pk_data]. rewrite store_len; lia.
Qed.

(** tcp_send_out without a sock: the answer to the packet [p], which stays. *)
Lemma tcp_send_out_ok seg s f k H K kp :
  ready D s (f :: H) (f :: K) -> f ∉ K -> live s f k -> bare_segment k ->
  seg_pkb seg ∈ K -> live s (seg_pkb seg) kp -> 34 <= zlen (pk_data kp) ->
  wp (tcp_send_out None f (Some seg)) (fun _ => kept D s H K) s.
Proof.
  intros Hr HfK Hk [Hl1 Hl2] HpK Hp Hlp. unfold tcp_send_out.
  pose proof (hdr_wf kp (inv_bytes D _ _ _ _ (proj1 Hr) Hp) Hlp) as Hwp.
  apply wp_bind, wp_bind. eapply wp_ld_ip; [done|done|]. apply wp_ret. apply wp_bind. unfold tcp_init_pkb.
  apply wp_bind. eapply wp_ld; [done|]. apply wp_bind, wp_gets.
  apply wp_bind. eapply wp_upd_ip; [done|lia|]. rewrite Hl1.
  pose proof (hdr_wf k (inv_bytes D _ _ _ _ (proj1 Hr) Hk) ltac:(lia)) as Hw.
  match goal with |- wp _ _ (with_pkb s f (store_ip k ?h0)) => set (h := h0) end.
  assert (Hwh : wf_struct h) by (apply tcp_ip_hdr_wf; [done|apply Hwp]).
  assert (Elen : _ntohs (ip_len h) = 40) by done.
  set (k1 := store_ip k h). assert (Hlk1 : zlen (pk_data k1) = 54) by (unfold k1; rewrite store_ip_len; lia).
  assert (Hr1 : ready D (with_pkb s f k1) (f :: H) (f :: K)) by by apply ready_st_ip.
  assert (Eh1 : hdr_of k1 = h) by (apply hdr_store; [lia|done]).
  assert (Hn1 : net_pkt k1) by (apply net_pkt_store; rewrite ?Elen; done || lia).
  apply wp_bind, wp_ret. apply wp_bind, wp_bind.
  eapply wp_mono; [by apply (rt_output_ok D HD _ f k1 H K Hr1 (live_with _ _ _))|].
  intros r s2 [[Hneg ->]|(-> & k2 & -> & Hr2 & Hn2 & _ & _ & E2)].
  - rewrite (proj2 (Z.ltb_lt r 0)) by done. apply wp_ret. cbn [Z.ltb Z.compare]. apply wp_ret. cbn [Z.ltb Z.compare].
    by apply (consumes_with D _ _ _ _ _ _ _ (free_consumes D)).
  - cbn [Z.ltb Z.compare]. apply wp_bind, wp_ret, wp_ret. cbn [Z.ltb Z.compare].
    rewrite with_with in Hr2 |- *. destruct (Hn2) as ([Hl3 _ _] & _).
    pose proof (hdr_wf k2 (inv_bytes D _ _ f k2 (proj1 Hr2) (live_with _ _ _)) ltac:(lia)) as Hw2.
    apply wp_bind. eapply wp_upd_ip; [apply live_with|lia|]. rewrite with_with.
    set (h3 := set_ip_src (hdr_of k2) _). assert (Hw3 : wf_struct h3) by (apply set_src_wf; [done|apply Hwp]).
    set (k3 := store_ip k2 h3). apply wp_ret. cbn [Z.ltb Z.compare].
    assert (Hr3 : ready D (with_pkb s f k3) (f :: H) (f :: K)).
    { rewrite <- (with_with s f k2). apply ready_st_ip; [done|apply live_with]. }
    assert (Hn3 : net_pkt k3) by by apply net_pkt_upd.
    apply wp_bind. eapply wp_mono; [apply (tcp_set_checksum_ok _ f k3 H K Hr3 (live_with _ _ _) Hn3)|].
    + unfold k3. rewrite hdr_store by (done || lia). cbn [ip_len h3 set_ip_src]. by rewrite E2, Eh1.
    + intros [] s4 (k4 & -> & Hr4 & Hn4). rewrite with_with in Hr4 |- *.
      by apply (consumes_with D _ _ _ _ _ _ _ (ip_send_out_ok D HD)).
Qed.

(** Any segment can be answered with a reset. *)
Lemma tcp_send_reset_ok seg s H K kp tsk :
  ready D s H K -> seg_pkb seg ∈ K -> live s (seg_pkb seg) kp -> 34 <= zlen (pk_data kp) ->
  wp (tcp_send_reset tsk seg) (fun _ => kept D s H K) s.
Proof.
  intros Hr HpK Hp Hlp. unfold tcp_send_reset, tcp_new_pkb. case_if; [by apply wp_ret, kept_refl|].
  apply wp_bind, wp_bind. change (ETH_HRD_SZ + IP_HRD_SZ + TCP_HRD_SZ) with 54.
  eapply (wp_alloc D); [exact Hr|]. intros f s1 Hr1 HfH _ Hf Hsame Ea _ _.
  assert (HKH : K ⊆ H) by apply Hr.
  assert (Hpf : f <> seg_pkb seg) by (intros ->; by apply HfH, HKH).
  assert (Hp1 : live s1 (seg_pkb seg) kp) by (unfold live; rewrite <- Hp; apply Hsame; set_solver).
  set (h := reset_hdr seg). pose proof (tcp_encode_len h) as Hel. pose proof (tcp_encode_ok h) as Heo.
  assert (Hz : zlen (pk_data (zero_pkb 54)) = 54) by done.
  apply wp_bind. unfold st_at, tcp_off. change (ETH_HRD_SZ + IP_HRD_SZ) with 34.
  eapply wp_st_bytes; [done|lia|lia|]. set (k1 := store _ 34 _). apply wp_ret.
  eapply wp_mono; [apply (tcp_send_out_ok seg _ f k1 H K kp)|].
  - by apply ready_store.
  - intros Hin. by apply HfH, HKH.
  - apply live_with.
  - split; [done|]. unfold k1. rewrite store_len; lia.
  - done.
  - by apply live_with_ne.
  - done.
  - intros [] s' Hk'. apply kept_with in Hk'; [|intros Hin; by apply HfH, HKH]. eapply kept_from; [| |exact Hk'].
    + intros q Hq. apply Hsame. set_solver.
    + intros i. by rewrite Ea.
Qed.

(** ** tcp_in *)

Lemma lookup_none s a b c d : no_socks (st_sock s) -> on_sock (tcp_lookup_sock a b c d) s = Ret None s.
Proof.
  intros [_ He Hl]. unfold on_sock, tcp_lookup_sock, tcp_lookup_sock_establish, tcp_lookup_sock_listen, bucket, bind, gets.
  rewrite He. cbn. rewrite Hl. cbn. by destruct s.
Qed.

Lemma tcp_in_ok : consumes D tcp_in host_pkt.
Proof.
  intros s p k H K Hr HpK Hk Hhost. destruct (Hhost) as ([Hl Hh Hpr] & Hn1 & Hn2). unfold tcp_in.
  assert (Hfree : wp (free_pkb p) (fun _ => kept D s H K) s) by by apply (free_consumes D s p k).
  apply wp_bind. eapply wp_ld_ip; [done|lia|]. cbv zeta. unfold ipdlen. rewrite iphlen_5 by done.
  change (ETH_HRD_SZ + 20) with 34. change TCP_HRD_SZ with 20. case_if; [done|]. apply Z.ltb_ge in E.
  apply wp_bind. eapply wp_ok; [apply (ld_at_ok tcp s p k 34); [done|lia|done|change (sizeof tcp) with 20; lia]|].
  case_if; [done|]. apply wp_bind. eapply wp_ld_bytes; [done|lia|lia|lia|]. case_if; [done|].
  unfold tcp_recv. apply wp_bind. eapply wp_ok; [apply lookup_none, (i_socks _ _ _ (proj1 Hr))|].
  cbn [tcp_process]. unfold tcp_closed. set (seg := tcp_segment_init _ _ _).
  apply wp_bind, wp_bind. eapply wp_mono; [apply (tcp_send_reset_ok seg s (p :: H) (p :: K) k None Hr)|].
  - change (seg_pkb seg) with p. left.
  - exact Hk.
  - lia.
  - intros [] s1 Hk1.
    eapply wp_mono; [by apply (consumes_from D _ _ s s1 p k H K (free_consumes D) Hr Hk1 HpK)|].
    intros [] s2 Hk2. by apply wp_ret.
Qed.

End Safe.
