(* ===== verification/TcpSock.v ===== *)
(** * TCP for the user: the second half of tcp/tcp_sock.c

    Calls that block are cut where sleep_on waits: the first part returns
    [Sleeping] when the thread has to wait, and the part that resumes is a
    definition of its own. *)

From stdpp Require Import prelude list gmap.
From Stdlib Require Import ZArith Lia.
From S2P Require Import Prelude Structs Checksum Cbuf Wait Route Pkb FastPipe ArpCache Sock TcpTable Stack Arp IpOut Raw TcpOut TcpText TcpState.

(** A call that has returned, or waits on the [sleep] of a socket. *)
Inductive call (A : Type) :=
  | Returned (a : A)
  | Sleeping (so : soid).
Arguments Returned {A} a.
Arguments Sleeping {A} so.

(** ** The code *)

(** sleep_on: what it returns, or [None] when the thread waits; and its end. *)
Definition sleep_on (w : option soid) : comp sockstate (option Z) :=
  let* so := of_opt NullDeref w in
  let* v := ld_so so in
  let (w', p) := sleep_on_enter (so_sleep v) in
  upd_so so (fun v => set_so_sleep v w');;
  ret (match p with Running => Some (sleep_on_ret w') | _ => None end).

Definition sleep_on_end (so : soid) : comp sockstate Z :=
  upd_so so (fun v => set_so_sleep v (sleep_on_resume (so_sleep v)));;
  let* v := ld_so so in
  ret (sleep_on_ret (so_sleep v)).

(** *** connect *)

Definition tcp_pre_wait_connect (sk : skid) : comp sockstate unit :=
  let* k := ld_sk sk in upd_tsk sk (fun t => set_wait_connect t (sk_socket k)).

(** tcp_connect behind sleep_on, which returned [err]. *)
Definition tcp_connect_end (sk : skid) (err : Z) : comp sockstate Z :=
  upd_tsk sk (fun t => set_wait_connect t None);;
  let* t := ld_tsk sk in
  if negb (err =? 0) || negb (bool_decide (state t = TCP_ESTABLISHED)) then
    tcp_unhash sk;;
    tcp_unbhash sk;;
    tcp_set_state sk TCP_CLOSED;;
    ret (-1)
  else ret err.

Definition tcp_connect_resume (sk : skid) (so : soid) : comp sockstate Z :=
  let* err := sleep_on_end so in tcp_connect_end sk err.

(** *** listen and accept *)

Definition tcp_listen (sk : skid) (n : Z) : comp sockstate Z :=
  let* t := ld_tsk sk in
  let* k := ld_sk sk in
  if sk_sport k =? 0 then ret (-1)
  else if TCP_MAX_BACKLOG <? n then ret (-1)
  else if negb (bool_decide (state t = TCP_CLOSED)) && negb (bool_decide (state t = TCP_LISTEN)) then ret (-1)
  else
    upd_tsk sk (fun t => set_state (set_backlog t n) TCP_LISTEN);;
    (if bool_decide (state t = TCP_LISTEN) then ret tt else tcp_hash sk;; ret tt);;
    ret 0.

Definition accept_next (sk : skid) : comp sockstate skid :=
  let* newtsk := tcp_accept_dequeue sk in
  free_sock newtsk;;
  let* t := ld_tsk newtsk in
  let* p := parent_of t in
  free_sock p;;
  upd_tsk newtsk (fun t => set_parent t DeadParent);;
  ret newtsk.

(** The loop of tcp_accept: when sleep_on does not wait it clears [notified], so that
    it waits the next time. *)
Fixpoint accept_loop (fuel : nat) (sk : skid) : comp sockstate (call (option skid)) :=
  let* t := ld_tsk sk in
  match accept_queue t with
  | _ :: _ => let* n := accept_next sk in ret (Returned (Some n))
  | [] =>
      let* k := ld_sk sk in
      upd_tsk sk (fun t => set_wait_accept t (sk_socket k));;
      let* r := sleep_on (sk_socket k) in
      match r with
      | None => let* so := of_opt NullDeref (sk_socket k) in ret (Sleeping so)
      | Some err =>
          upd_tsk sk (fun t => set_wait_accept t None);;
          if err <? 0 then ret (Returned None)
          else match fuel with O => out_of_fuel | S n => accept_loop n sk end
      end
  end.

Definition tcp_accept (sk : skid) : comp sockstate (call (option skid)) := accept_loop 1 sk.

Definition tcp_accept_resume (sk : skid) (so : soid) : comp sockstate (call (option skid)) :=
  let* err := sleep_on_end so in
  upd_tsk sk (fun t => set_wait_accept t None);;
  if err <? 0 then ret (Returned None) else accept_loop 1 sk.

(** *** close *)

Definition tcp_clear_listen_queue (sk : skid) : comp sockstate unit :=
  let* t := ld_tsk sk in
  for_each (listen_queue t) (fun ltsk =>
    list_del_node ltsk;;
    let* l := ld_tsk ltsk in
    when (bool_decide (state l = TCP_SYN_RECV))
      (let* p := parent_of l in
       free_sock p;;
       upd_tsk ltsk (fun t => set_parent t NoParent);;
       tcp_unhash ltsk;;
       free_sock ltsk)).

Section User.
Context `{OS} `{Reentry}.

Definition tcp_connect (sk : skid) (skaddr : sock_addr) : comp stack (call Z) :=
  let* t := on_sock (ld_tsk sk) in
  if negb (bool_decide (state t = TCP_CLOSED)) then ret (Returned (-1))
  else
    on_sock (upd_sk sk (fun k => set_sk_dport (set_sk_daddr k (dst_addr skaddr)) (dst_port skaddr)));;
    on_sock (tcp_set_state sk TCP_SYN_SENT);;
    let* i := on_sock alloc_new_iss in
    on_sock (upd_tsk sk (fun t => set_snd_nxt (set_snd_una (set_iss t i) i) (u32 (i + 1))));;
    let* r := on_sock (tcp_hash sk) in
    if r <? 0 then on_sock (tcp_set_state sk TCP_CLOSED);; ret (Returned (-1))
    else
      on_sock (tcp_pre_wait_connect sk);;
      tcp_send_syn sk None;;
      let* t := on_sock (ld_tsk sk) in
      let* r := on_sock (sleep_on (wait_connect t)) in
      match r with
      | None => let* so := of_opt NullDeref (wait_connect t) in ret (Sleeping so)
      | Some err => let* e := on_sock (tcp_connect_end sk err) in ret (Returned e)
      end.

(** The FIN is sent before snd_nxt counts it. *)
Definition close_fin (sk : skid) (st : tcp_state) : comp stack unit :=
  on_sock (tcp_set_state sk st);;
  tcp_send_fin sk;;
  on_sock (upd_tsk sk (fun t => set_snd_nxt t (u32 (snd_nxt t + 1)))).

Definition tcp_close (sk : skid) : comp stack Z :=
  let* t := on_sock (ld_tsk sk) in
  match state t with
  | TCP_LISTEN =>
      on_sock (tcp_clear_listen_queue sk);;
      on_sock (tcp_unhash sk);;
      on_sock (tcp_unbhash sk);;
      on_sock (tcp_set_state sk TCP_CLOSED)
  | TCP_ESTABLISHED => close_fin sk TCP_FIN_WAIT1
  | TCP_CLOSE_WAIT => close_fin sk TCP_LAST_ACK
  | _ => ret tt
  end;;
  on_sock (tcp_free_buf sk);;
  tcp_free_reass_head sk;;
  ret 0.

(** *** send and receive *)

Definition tcp_send_buf (sk : skid) (b : list Z) (saddr : option sock_addr) : comp stack Z :=
  let* t := on_sock (ld_tsk sk) in
  match state t with
  | TCP_ESTABLISHED | TCP_CLOSE_WAIT => tcp_send_text sk b
  | _ => ret (-1)
  end.

End User.

(** [tsk->rcv_buf && CBUFUSED(tsk->rcv_buf)] *)
Definition has_text (t : tcp_sock) : bool :=
  match rcv_buf t with None => false | Some cb => on (CBUFUSED cb) end.

(** One turn of the outer loop of tcp_recv_buf up to the inner loop; [out] is what is
    in the user's buffer. *)
Definition recv_fill (sk : skid) (out : list Z) (len : Z) : comp sockstate (list Z) :=
  let* '(curlen, d) := on_cbuf sk (read_cbuf 2 (len - zlen out)) in
  upd_tsk sk (fun t => set_rcv_wnd t (u32 (rcv_wnd t + curlen)));;
  ret (out ++ d).

(** The result of the call and the bytes stored for the user. *)
Definition recv_result : Type := Z * list Z.

(** Where the call waits it keeps [out]. *)
Inductive recv_call :=
  | RecvDone (r : recv_result)
  | RecvSleep (so : soid) (out : list Z).

(** The two loops of tcp_recv_buf: fill the user's buffer, wait for text.  Every turn
    after the first stores a byte at least, and sleep_on returns at once at most
    once: [2 * len + 4] turns are enough. *)
Inductive recv_phase := Fill | WaitText.

Fixpoint recv_loop (fuel : nat) (ph : recv_phase) (sk : skid) (out : list Z) (len : Z)
    : comp sockstate recv_call :=
  match fuel with
  | O => out_of_fuel
  | S n =>
      match ph with
      | Fill =>
          if zlen out <? len then
            let* out := recv_fill sk out len in recv_loop n WaitText sk out len
          else ret (RecvDone (zlen out, out))
      | WaitText =>
          let* t := ld_tsk sk in
          if flag t TCP_F_PUSH || has_text t || (len <=? zlen out) then
            if flag t TCP_F_PUSH && negb (has_text t) then
              upd_tsk sk (fun t => set_flags t (Z.land (flags t) (Z.lnot TCP_F_PUSH)));;
              ret (RecvDone (zlen out, out))
            else recv_loop n Fill sk out len
          else
            let* k := ld_sk sk in
            let* r := sleep_on (recv_wait k) in
            match r with
            | None => let* so := of_opt NullDeref (recv_wait k) in ret (RecvSleep so out)
            | Some err =>
                if err <? 0 then ret (RecvDone (if 0 <? zlen out then zlen out else -1, out))
                else recv_loop n WaitText sk out len
            end
      end
  end.

Definition recv_turns (len : Z) : nat := Z.to_nat (2 * len + 4).

Definition tcp_recv_buf (sk : skid) (len : Z) : comp sockstate recv_call :=
  let* t := ld_tsk sk in
  match state t with
  | TCP_CLOSE_WAIT => if has_text t then recv_loop (recv_turns len) Fill sk [] len else ret (RecvDone (-1, []))
  | TCP_ESTABLISHED | TCP_FIN_WAIT1 | TCP_FIN_WAIT2 => recv_loop (recv_turns len) Fill sk [] len
  | _ => ret (RecvDone (-1, []))
  end.

Definition tcp_recv_buf_resume (sk : skid) (so : soid) (out : list Z) (len : Z) : comp sockstate recv_call :=
  let* err := sleep_on_end so in
  if err <? 0 then ret (RecvDone (if 0 <? zlen out then zlen out else -1, out))
  else recv_loop (recv_turns len) WaitText sk out len.
