(* ===== verification/TcpStream.v ===== *)
(** * What TCP delivers: the byte stream

    The peer's stream is a function from sequence numbers to bytes.  [conn_inv]
    says that the receive buffer of a connection holds the bytes of the stream in
    front of [rcv_nxt], that [rcv_wnd] is the room left, and that the segments that
    wait in [rcv_reass] are pieces of the stream behind [rcv_nxt], in order and
    without overlap.  Handling a segment of the stream keeps this (tcp_recv_text),
    and reading takes the bytes out in order (tcp_recv_buf).  Sequence numbers do
    not wrap around in this file: the code compares them as plain integers. *)

From stdpp Require Import prelude list list_numbers gmap.
From Stdlib Require Import ZArith Lia.
From S2P Require Import Prelude Ring Structs Checksum Cbuf Wait Route Pkb FastPipe ArpCache Sock TcpTable Stack Arp IpOut Raw TcpOut TcpText TcpState TcpSock.

(** ** The specification *)

(** The [n] bytes of the stream [b] from sequence number [a] on. *)
Definition stream (b : Z -> Z) (a n : Z) : list Z := (fun i => b (a + i)) <$> seqZ 0 n.

(** What waits for the user. *)
Definition buffered (t : tcp_sock) : list Z :=
  match rcv_buf t with None => [] | Some cb => content cb end.

Record rcv_ok (b : Z -> Z) (W : Z) (t : tcp_sock) : Prop := {
  ro_size : 0 < W < 2 ^ 31;
  ro_nxt : 0 <= rcv_nxt t < 2 ^ 32;
  ro_buf : match rcv_buf t with None => True | Some cb => cbuf_inv cb /\ size cb = W end;
  ro_wnd : rcv_wnd t = W - zlen (buffered t);
  ro_text : buffered t = stream b (rcv_nxt t - zlen (buffered t)) (zlen (buffered t))
}.

(** The early segments from [lo] on: in order, not empty, without overlap. *)
Fixpoint ordered (lo : Z) (l : list tcp_reass_head) : Prop :=
  match l with
  | [] => True
  | n :: r => lo <= trh_seq n /\ 0 < trh_len n /\ trh_seq n + trh_len n < 2 ^ 32 /\
              ordered (trh_seq n + trh_len n) r
  end.

(** The packet of a node is alive and holds the text of the node; the text is
    behind the node itself. *)
Definition held (b : Z -> Z) (s : stack) (n : tcp_reass_head) : Prop :=
  exists k, live s (trh_pkb n) k /\ 1 <= pk_refcnt k /\ 32 <= trh_data n /\
    trh_data n + trh_len n <= zlen (pk_data k) /\
    slice (pk_data k) (trh_data n) (trh_len n) = stream b (trh_seq n) (trh_len n).

Definition has_tsk (v : sockstate) (sk : skid) (t : tcp_sock) : Prop :=
  is_Some (socks v !! sk) /\ tsks (tcp_st v) !! sk = Some t.

Record conn_inv (b : Z -> Z) (W : Z) (s : stack) (sk : skid) (t : tcp_sock) : Prop := {
  cn_tsk : has_tsk (st_sock s) sk t;
  cn_rcv : rcv_ok b W t;
  cn_ord : ordered (rcv_nxt t) (rcv_reass t);
  cn_held : Forall (held b s) (rcv_reass t);
  cn_nodup : NoDup (trh_pkb <$> rcv_reass t)
}.

(** How far the text goes without a gap, from [lo] on. *)
Fixpoint reach (lo : Z) (l : list tcp_reass_head) : Z :=
  match l with
  | [] => lo
  | n :: r => if trh_seq n <=? lo then reach (trh_seq n + trh_len n) r else lo
  end.

(** ** Lemmas: the stream *)

Section Stream.
Implicit Types (b : Z -> Z) (t : tcp_sock) (l : list tcp_reass_head).

Lemma stream_len b a n : 0 <= n -> zlen (stream b a n) = n.
Proof. intros. unfold zlen, stream. rewrite length_fmap, length_seqZ. lia. Qed.

Lemma stream_app b a m n : 0 <= m -> 0 <= n -> stream b a (m + n) = stream b a m ++ stream b (a + m) n.
Proof.
  intros. unfold stream. rewrite seqZ_app, fmap_app by lia. f_equal.
  apply list_eq. intros i. rewrite !list_lookup_fmap.
  destruct (decide (Z.of_nat i < n)).
  - rewrite !lookup_seqZ_lt by lia. cbn. do 2 f_equal. lia.
  - rewrite !lookup_seqZ_ge by lia. done.
Qed.

Lemma stream_slice b a n o m : 0 <= o -> 0 <= m -> o + m <= n -> slice (stream b a n) o m = stream b (a + o) m.
Proof.
  intros. replace n with (o + (m + (n - o - m))) by lia. rewrite !stream_app by lia.
  rewrite slice_app_r by (rewrite stream_len; lia). rewrite stream_len, Z.sub_diag by lia.
  rewrite slice_app_l by (rewrite ?stream_len; lia). rewrite slice_full by (rewrite stream_len; lia).
  done.
Qed.

Lemma stream_split b a n (l1 l2 : list Z) : 0 <= n -> stream b a n = l1 ++ l2 ->
  l1 = stream b a (zlen l1) /\ l2 = stream b (a + zlen l1) (zlen l2) /\ zlen l1 + zlen l2 = n.
Proof.
  intros Hn E. assert (Hl : zlen l1 + zlen l2 = n) by (rewrite <- zlen_app, <- E; by apply stream_len).
  pose proof (zlen_nonneg l1). pose proof (zlen_nonneg l2).
  rewrite <- Hl, stream_app in E by lia.
  apply app_inj_1 in E as [E1 E2].
  - by split_and!; [symmetry| |].
  - pose proof (stream_len b a (zlen l1)). unfold zlen in *. lia.
Qed.

(** ** Lemmas: the list of early segments *)

Lemma ordered_le lo lo' l : lo' <= lo -> ordered lo l -> ordered lo' l.
Proof. destruct l as [|n r]; cbn; [done|]. intros ? (? & ?). split; [lia|done]. Qed.

Lemma reach_ge lo l : ordered lo l -> lo <= reach lo l.
Proof.
  revert lo. induction l as [|n r IH]; cbn; intros lo; [lia|]. intros (? & ? & ? & Ho).
  case_if; [|lia]. specialize (IH _ Ho). lia.
Qed.

(** Where a list that starts at [lo] ends. *)
Definition list_end (lo : Z) (l : list tcp_reass_head) : Z :=
  match last l with Some n => trh_seq n + trh_len n | None => lo end.

Lemma ordered_app lo l1 l2 : ordered lo (l1 ++ l2) <->
  ordered lo l1 /\ ordered (list_end lo l1) l2.
Proof.
  revert lo. unfold list_end. induction l1 as [|n r IH]; intros lo; cbn [app ordered]; [cbn; tauto|].
  rewrite IH. rewrite last_cons. destruct (last r); tauto.
Qed.

Lemma list_end_ge lo l : ordered lo l -> lo <= list_end lo l /\ (l <> [] -> list_end lo l < 2 ^ 32).
Proof.
  revert lo. induction l as [|n r IH]; intros lo; [cbn; split; [lia|done]|]. cbn [ordered]. intros (? & ? & ? & Ho).
  destruct (IH _ Ho) as [Hl1 Hl2]. unfold list_end in *. rewrite last_cons.
  destruct (last r) eqn:E; (split; [lia|]); intros _; [|lia]. apply Hl2. by intros ->.
Qed.

(** The first loop of tcp_segment_reass. *)
Lemma reass_split_ok q l : forall before after, reass_split q l = (before, after) ->
  l = before ++ after /\ Forall (fun n => trh_seq n <= q) before /\
  match after with [] => True | n :: _ => q < trh_seq n end.
Proof.
  induction l as [|n r IH]; cbn; intros before after.
  - intros [= <- <-]. done.
  - case_if; [intros [= <- <-]; split_and!; [done|done|lia]|].
    destruct (reass_split q r) as [x y] eqn:E'. intros [= <- <-].
    destruct (IH x y eq_refl) as (-> & ? & ?). split_and!; [done| |done]. constructor; [lia|done].
Qed.

(** ** Lemmas: one connection changes *)

(** What handling a segment may change of the connection itself. *)
Definition only_rcv (t t' : tcp_sock) : Prop :=
  exists f c l n w, n + w = rcv_nxt t + rcv_wnd t /\ t' = set_flags (set_rcv_buf (set_rcv_reass (set_rcv_nxt (set_rcv_wnd t w) n) l) c) f.

#[local] Instance only_rcv_preorder : PreOrder only_rcv.
Proof.
  split.
  - intros t. exists (flags t), (rcv_buf t), (rcv_reass t), (rcv_nxt t), (rcv_wnd t). split; [lia|by destruct t].
  - intros t t' t'' (f & c & l & n & w & E & ->) (f' & c' & l' & n' & w' & E' & ->). cbn in E'.
    exists f', c', l', n', w'. split; [lia|done].
Qed.

(** Socks, sockets and the other connections stay as they are. *)
Definition frame (sk : skid) (v v' : sockstate) : Prop :=
  socks v' = socks v /\ sockets v' = sockets v /\
  forall x, x <> sk -> tsks (tcp_st v') !! x = tsks (tcp_st v) !! x.

#[local] Instance frame_preorder sk : PreOrder (frame sk).
Proof.
  split; [done|]. intros v v' v'' (A & B & C) (A' & B' & C').
  split_and!; [congruence|congruence|]. intros x Hx. by rewrite C', C.
Qed.

Definition with_tsk (v : sockstate) (sk : skid) (t : tcp_sock) : sockstate :=
  set_tcp_st (set_tsks (<[sk := t]> (tsks (tcp_st v))) (tcp_st v)) v.

Lemma frame_with v sk t : frame sk v (with_tsk v sk t).
Proof. split_and!; [done|done|]. intros x Hx. cbn. by rewrite lookup_insert_ne. Qed.

Lemma has_with v sk t t' : has_tsk v sk t -> has_tsk (with_tsk v sk t') sk t'.
Proof. intros [Hk Ht]. split; [done|]. cbn. by rewrite lookup_insert_eq. Qed.

Lemma with_tsk_tsk v sk t t' : with_tsk (with_tsk v sk t) sk t' = with_tsk v sk t'.
Proof. unfold with_tsk. cbn. by rewrite insert_insert_eq. Qed.

Lemma ld_tsk_has v sk t : has_tsk v sk t -> ld_tsk sk v = Ret t v.
Proof. intros [[k Hk] Ht]. by eapply ld_tsk_ok. Qed.

Lemma upd_tsk_has v sk t f : has_tsk v sk t -> upd_tsk sk f v = Ret tt (with_tsk v sk (f t)).
Proof. intros [[k Hk] Ht]. by eapply upd_tsk_ok. Qed.

Lemma on_sock_ok {A} (m : comp sockstate A) s a v : m (st_sock s) = Ret a v -> on_sock m s = Ret a (set_sock v s).
Proof. unfold on_sock. by intros ->. Qed.

Lemma set_sock_same s : set_sock (st_sock s) s = s.
Proof. by destruct s. Qed.

Lemma on_ld_tsk s sk t : has_tsk (st_sock s) sk t -> on_sock (ld_tsk sk) s = Ret t s.
Proof. intros Ht. rewrite <- (set_sock_same s) at 2. apply on_sock_ok. by apply ld_tsk_has. Qed.

Lemma on_upd_tsk s sk t f : has_tsk (st_sock s) sk t ->
  on_sock (upd_tsk sk f) s = Ret tt (set_sock (with_tsk (st_sock s) sk (f t)) s).
Proof. intros Ht. apply on_sock_ok. by apply upd_tsk_has. Qed.

(** ** Lemmas: the receive buffer *)

Lemma on_cbuf_ok {A} v sk t (m : comp (option cbuf) A) a cb : has_tsk v sk t -> m (rcv_buf t) = Ret a cb ->
  on_cbuf sk m v = Ret a (with_tsk v sk (set_rcv_buf t cb)).
Proof.
  intros Ht E. unfold on_cbuf. erewrite bind_ok by (by apply ld_tsk_has). rewrite E.
  by erewrite bind_ok by (by apply upd_tsk_has).
Qed.

Lemma rcv_wnd_range b W t : rcv_ok b W t -> 0 <= rcv_wnd t <= W.
Proof.
  intros [Hs Hn Hb Hw Ht]. unfold buffered in Hw. destruct (rcv_buf t) as [cb|]; [|rewrite zlen_nil in Hw; lia].
  destruct Hb as [[? ? Hu ?] Hsz].
  assert (zlen (content cb) = CBUFUSED cb) by (apply ring_len; lia). lia.
Qed.

(** The state with a buffer, as tcp_write_buf makes sure. *)
Lemma alloc_rcv_ok b W t : rcv_ok b W t -> rcv_buf t = None ->
  rcv_ok b W (set_rcv_buf t (Some (alloc_cbuf (rcv_wnd t)))) /\
  buffered (set_rcv_buf t (Some (alloc_cbuf (rcv_wnd t)))) = [].
Proof.
  intros [Hs Hn _ Hw Ht] E. unfold buffered in *. rewrite E in *. cbn in Hw. rewrite Z.sub_0_r in Hw.
  assert (Hc : content (alloc_cbuf W) = []) by apply ring_nil.
  rewrite Hw. split; [|done].
  split; unfold buffered; cbn [rcv_buf set_rcv_buf rcv_nxt rcv_wnd]; rewrite ?Hc; try done.
  - split; [|done]. split; cbn; rewrite ?zlen_replicate; unfold CBUFUSED; cbn; lia.
  - rewrite Hw, zlen_nil. lia.
Qed.

(** What write_text makes of the connection when [n] bytes fit. *)
Definition received (t : tcp_sock) (cb : cbuf) (n : Z) : tcp_sock :=
  set_rcv_nxt (set_rcv_wnd (set_rcv_buf t (Some cb)) (rcv_wnd t - n)) (rcv_nxt t + n).

Lemma received_ok b W t cb cb' d n : rcv_ok b W t -> rcv_buf t = Some cb -> cbuf_inv cb' -> size cb' = size cb ->
  0 <= n <= rcv_wnd t -> rcv_nxt t + n < 2 ^ 32 -> content cb' = content cb ++ d -> d = stream b (rcv_nxt t) n ->
  rcv_ok b W (received t cb' n).
Proof.
  intros [Hs Hn Hb Hw Ht] E Hi Hsz Hr Hlt Hc ->. unfold buffered in *. rewrite E in *. destruct Hb as [_ Hb].
  set (c := content cb) in *. pose proof (zlen_nonneg c).
  assert (Hl : zlen (content cb') = zlen c + n) by (rewrite Hc, zlen_app, stream_len; lia).
  split; unfold buffered; cbn [rcv_buf rcv_nxt rcv_wnd received set_rcv_nxt set_rcv_wnd set_rcv_buf]; try done.
  - lia.
  - split; [done|lia].
  - lia.
  - rewrite Hl, Hc. replace (rcv_nxt t + n - (zlen c + n)) with (rcv_nxt t - zlen c) by lia.
    rewrite stream_app by lia. rewrite <- Ht. do 2 f_equal. lia.
Qed.

Lemma write_text_ok b W v sk t d len : has_tsk v sk t -> rcv_ok b W t -> 0 <= len <= zlen d ->
  rcv_nxt t + len < 2 ^ 32 -> slice d 0 len = stream b (rcv_nxt t) len ->
  exists cb v', let n := Z.min (rcv_wnd t) len in
    write_text sk d len v = Ret n v' /\ has_tsk v' sk (received t cb n) /\ frame sk v v' /\
    rcv_ok b W (received t cb n).
Proof.
  intros Ht Hr Hlen Hlt Hd. unfold write_text. erewrite bind_ok by (by apply ld_tsk_has).
  assert (Hbuf : exists cb v1, (match rcv_buf t with
      | None => upd_tcp (fun c => set_alloc_cbufs (alloc_cbufs c + 1) c);;
                upd_tsk sk (fun t => set_rcv_buf t (Some (alloc_cbuf (rcv_wnd t))))
      | Some _ => ret tt end) v = Ret tt v1 /\ has_tsk v1 sk (set_rcv_buf t (Some cb)) /\ frame sk v v1 /\
      rcv_ok b W (set_rcv_buf t (Some cb))).
  { destruct (rcv_buf t) as [cb|] eqn:E.
    - exists cb, v. rewrite <- E. replace (set_rcv_buf t (rcv_buf t)) with t by (by destruct t). done.
    - destruct (alloc_rcv_ok b W t Hr E) as [Hr' _].
      set (v0 := set_tcp_st (set_alloc_cbufs (alloc_cbufs (tcp_st v) + 1) (tcp_st v)) v).
      assert (Ht0 : has_tsk v0 sk t) by done.
      eexists _, _. erewrite bind_ok; [|reflexivity]. split; [by apply (upd_tsk_has v0 sk t)|].
      split; [by eapply has_with|]. split; [|done]. transitivity v0; [done|apply frame_with]. }
  destruct Hbuf as (cb & v1 & E1 & Ht1 & Hf1 & Hr1). erewrite bind_ok by exact E1.
  pose proof (ro_buf _ _ _ Hr1) as [Hi Hsz]. cbn in Hsz. pose proof (ro_wnd _ _ _ Hr1) as Hw. cbn in Hw.
  unfold buffered in Hw; cbn in Hw.
  assert (Hfree : CBUFFREE cb = rcv_wnd t).
  { rewrite Hw. unfold content, CBUFFREE. rewrite ring_len by (destruct Hi; lia). lia. }
  destruct (write_cbuf_appends 2 cb d len) as (cb' & Ew & Hi' & Hs' & Hc'); [lia|done|lia|].
  rewrite Hfree in Ew. replace (size cb - zlen (content cb)) with (rcv_wnd t) in Hc' by lia.
  set (n := Z.min (rcv_wnd t) len) in *. pose proof (zlen_nonneg (content cb)).
  assert (0 <= rcv_wnd t) by (destruct Hi as [? ? Hu ?]; unfold content in Hw; rewrite ring_len in Hw; lia).
  erewrite bind_ok by (eapply on_cbuf_ok; [exact Ht1|exact Ew]).
  assert (Hr2 : rcv_ok b W (received t cb' n)).
  { change (received t cb' n) with (received (set_rcv_buf t (Some cb)) cb' n).
    apply (received_ok b W _ cb cb' (slice d 0 n)); cbn; try done; try lia.
    replace (slice d 0 n) with (slice (slice d 0 len) 0 n) by (rewrite slice_slice by lia; done).
    rewrite Hd, stream_slice by lia. f_equal. lia. }
  exists cb'. destruct (Z.ltb_spec 0 n) as [Hpos|Hz].
  - eexists. cbn [when]. erewrite bind_ok.
    2: { apply upd_tsk_has. by eapply has_with. }
    cbn. rewrite !u32_small by (destruct (ro_nxt _ _ _ Hr); destruct (ro_size _ _ _ Hr); unfold is_u32; lia).
    split; [reflexivity|]. rewrite !with_tsk_tsk. split; [by eapply has_with|].
    split; [|done]. transitivity v1; [done|apply frame_with].
  - assert (n = 0) as Hn0 by lia. eexists. cbn [when]. erewrite bind_ok; [|reflexivity].
    split; [reflexivity|].
    assert (Eq : set_rcv_buf (set_rcv_buf t (Some cb)) (Some cb') = received t cb' n).
    { unfold received. rewrite Hn0, Z.sub_0_r, Z.add_0_r. by destruct t. }
    rewrite Eq. split; [by eapply has_with|]. split; [|done]. transitivity v1; [done|apply frame_with].
Qed.

(** ** Lemmas: packets *)

(** Only the packets [ps] changed. *)
Definition pk_frame (ps : list pid) (s s' : stack) : Prop :=
  forall p, p ∉ ps -> pkbs (st_mem s') !! p = pkbs (st_mem s) !! p.

Lemma held_frame b ps s s' n : pk_frame ps s s' -> trh_pkb n ∉ ps -> held b s n -> held b s' n.
Proof. intros H Hp (k & Hk & ?). exists k. split; [|done]. unfold live in *. by rewrite H. Qed.

Lemma all_held_frame b ps s s' l : pk_frame ps s s' -> (forall p, p ∈ trh_pkb <$> l -> p ∉ ps) ->
  Forall (held b s) l -> Forall (held b s') l.
Proof.
  intros H Hp Hl. apply Forall_forall. intros n Hn. rewrite Forall_forall in Hl.
  eapply held_frame; [done| |by apply Hl]. apply Hp. by apply list_elem_of_fmap_2.
Qed.

(** The references of the packets [ps] are given back, some of them at least, once each. *)
Definition one_less (k : pkbuf) : option pkbuf :=
  if pk_refcnt k - 1 <=? 0 then None else Some (set_pk_refcnt k (pk_refcnt k - 1)).

Definition released (ps : list pid) (s s' : stack) : Prop := forall p,
  pkbs (st_mem s') !! p = pkbs (st_mem s) !! p \/
  p ∈ ps /\ exists k, live s p k /\ pkbs (st_mem s') !! p = one_less k.

Lemma released_frame ps s s' : released ps s s' -> pk_frame ps s s'.
Proof. intros H p Hp. by destruct (H p) as [|[]]. Qed.

Lemma released_cons p ps s s' s'' : released [p] s s' -> released ps s' s'' -> p ∉ ps -> released (p :: ps) s s''.
Proof.
  intros H H' Hp q. destruct (H' q) as [E|[Hq (k & Hk & E)]].
  - rewrite E. destruct (H q) as [?|[?%list_elem_of_singleton ?]]; [by left|]. subst q. right. split; [left|done].
  - right. split; [by right|]. exists k. split; [|done]. unfold live in *.
    destruct (H q) as [<-|[?%list_elem_of_singleton ?]]; [done|]. by subst q.
Qed.

Lemma free_pkb_frame s p k : live s p k ->
  exists s', free_pkb p s = Ret tt s' /\ st_sock s' = st_sock s /\ released [p] s s'.
Proof.
  intros Hk. eexists. split; [by apply free_pkb_ok|]. split; [by case_if|]. intros q. unfold one_less.
  destruct (decide (q = p)) as [->|Hq].
  - right. split; [by left|]. exists k. split; [done|]. case_if; cbn; [apply lookup_delete_eq|apply lookup_insert_eq].
  - left. case_if; cbn; [by apply lookup_delete_ne|by apply lookup_insert_ne].
Qed.

Lemma tcp_write_buf_ok b W s sk t p k off len : has_tsk (st_sock s) sk t -> rcv_ok b W t -> live s p k ->
  0 <= off -> 0 <= len -> off + len <= zlen (pk_data k) -> rcv_nxt t + len < 2 ^ 32 ->
  slice (pk_data k) off len = stream b (rcv_nxt t) len ->
  exists cb s', let n := Z.min (rcv_wnd t) len in
    tcp_write_buf sk p off len s = Ret n s' /\ has_tsk (st_sock s') sk (received t cb n) /\
    frame sk (st_sock s) (st_sock s') /\ st_mem s' = st_mem s /\ rcv_ok b W (received t cb n).
Proof.
  intros Ht Hr Hk Ho Hl Hb Hlt Hs. unfold tcp_write_buf. erewrite bind_ok by (by apply ld_ok).
  destruct (write_text_ok b W (st_sock s) sk t (drop (Z.to_nat off) (pk_data k)) len)
    as (cb & v' & E & Ht' & Hf & Hr'); [done|done| |done| |].
  - unfold zlen in *. rewrite length_drop. lia.
  - by rewrite <- Hs.
  - exists cb, (set_sock v' s). split; [by apply on_sock_ok|]. done.
Qed.

(** ** Lemmas: reassembly *)

Lemma received_only_rcv t cb q l : only_rcv t (set_rcv_reass (received t cb q) l).
Proof. exists (flags t), (Some cb), l, (rcv_nxt t + q), (rcv_wnd t - q). split; [lia|by destruct t]. Qed.

Lemma set_rcv_reass_same t : set_rcv_reass t (rcv_reass t) = t.
Proof. by destruct t. Qed.

(** One turn of the third loop, for a node whose text is next: [q] bytes fit.  When
    there are any the node goes, else it stays. *)
Lemma consume_node_ok b W s sk t n l : conn_inv b W s sk t -> rcv_reass t = n :: l -> trh_seq n = rcv_nxt t ->
  let q := Z.min (rcv_wnd t) (trh_len n) in
  exists cb s1, tcp_write_buf sk (trh_pkb n) (trh_data n) (trh_len n) s = Ret q s1 /\
    (q <= 0 -> conn_inv b W s1 sk (received t cb q) /\ frame sk (st_sock s) (st_sock s1) /\ released [] s s1) /\
    (0 < q -> exists s2,
      (on_sock (upd_tsk sk (fun t => set_rcv_reass t l));; free_pkb (trh_pkb n)) s1 = Ret tt s2 /\
      conn_inv b W s2 sk (set_rcv_reass (received t cb q) l) /\ frame sk (st_sock s) (st_sock s2) /\
      released [trh_pkb n] s s2).
Proof.
  intros [Ht Hr Ho Hh Hn] E Hs q. rewrite E in Ho, Hh, Hn. cbn [ordered fmap list_fmap] in Ho, Hn.
  destruct Ho as (H1 & H2 & H3 & Ho). pose proof (rcv_wnd_range _ _ _ Hr) as Hw.
  pose proof Hh as Hall. apply Forall_cons in Hh as [(k & Hk & Hrf & Hd & Hb & Htx) Hh]. apply NoDup_cons in Hn as [Hni Hn].
  destruct (tcp_write_buf_ok b W s sk t (trh_pkb n) k (trh_data n) (trh_len n))
    as (cb & s1 & Ew & Ht1 & Hf1 & Hm1 & Hr1); [done|done|done|lia|lia|done|lia|by rewrite <- Hs|].
  exists cb, s1. split; [exact Ew|].
  assert (Hsame : released [] s s1) by (intros p; left; by rewrite Hm1). split; intros Hq.
  - split; [|done]. split; cbn [rcv_reass received set_rcv_nxt set_rcv_wnd set_rcv_buf rcv_nxt]; rewrite ?E; try done.
    + cbn [ordered]. fold q. split_and!; [lia|lia|lia|done].
    + eapply all_held_frame; [by apply released_frame| |done]. intros p _. apply not_elem_of_nil.
    + cbn. by constructor.
  - erewrite bind_ok by (by apply on_upd_tsk). set (s2 := set_sock _ s1).
    assert (Hk2 : live s2 (trh_pkb n) k) by (unfold live; change (st_mem s2) with (st_mem s1); rewrite Hm1; exact Hk).
    destruct (free_pkb_frame s2 (trh_pkb n) k Hk2) as (s3 & Ef & Hv3 & Hp3). exists s3. split; [exact Ef|].
    assert (Hp23 : released [trh_pkb n] s s3).
    { intros p. destruct (Hp3 p) as [E2|(? & k' & Hk' & E2)]; [left|right]; unfold live in *;
        change (st_mem s2) with (st_mem s1) in *; rewrite Hm1 in *; eauto. }
    split; [|split; [rewrite Hv3; etransitivity; [exact Hf1|apply frame_with]|done]]. split.
    + rewrite Hv3. by eapply has_with.
    + destruct Hr1. by split.
    + cbn. eapply ordered_le; [|exact Ho]. fold q. lia.
    + eapply all_held_frame; [by apply released_frame| |done]. cbn. intros p Hin ->%list_elem_of_singleton. done.
    + done.
Qed.

(** The third loop: the text that is next goes to the buffer as far as it fits. *)
Lemma reass_write_ok b W sk l : forall s t acc, conn_inv b W s sk t -> rcv_reass t = l ->
  exists r s' t', reass_write sk l acc s = Ret r s' /\ conn_inv b W s' sk t' /\
    frame sk (st_sock s) (st_sock s') /\ only_rcv t t' /\ released (trh_pkb <$> l) s s' /\
    rcv_nxt t' = Z.min (reach (rcv_nxt t) l) (rcv_nxt t + rcv_wnd t).
Proof.
  induction l as [|n l IH]; intros s t acc Hc E; pose proof Hc as [Ht Hr Ho _ Hn]; rewrite E in Ho, Hn;
    pose proof (rcv_wnd_range _ _ _ Hr) as Hw; cbn [reass_write reach fmap list_fmap].
  - exists acc, s, t. split_and!; try done; [by left|lia].
  - cbn [ordered fmap list_fmap] in Ho, Hn. destruct Ho as (H1 & H2 & H3 & Ho). apply NoDup_cons in Hn as [Hni _].
    erewrite bind_ok by (by apply on_ld_tsk).
    destruct (Z.ltb_spec (rcv_nxt t) (trh_seq n)) as [Hlt|Hle].
    { exists acc, s, t. split_and!; try done; [by left|case_if; lia]. }
    assert (Hs : trh_seq n = rcv_nxt t) by lia. replace (trh_seq n =? rcv_nxt t) with true by lia.
    cbn [guard]. erewrite bind_ok; [|reflexivity]. replace (trh_seq n <=? rcv_nxt t) with true by lia.
    destruct (consume_node_ok b W s sk t n l Hc E Hs) as (cb & s1 & Ew & Hstay & Hgo).
    set (q := Z.min (rcv_wnd t) (trh_len n)) in *. erewrite bind_ok by exact Ew. pose proof (reach_ge _ _ Ho) as Hre.
    destruct (Z.leb_spec q 0) as [Hq|Hq].
    { destruct (Hstay Hq) as (Hc1 & Hf1 & Hp1). exists acc, s1, (received t cb q). split; [done|]. split; [done|].
      split; [done|]. split; [rewrite <- (set_rcv_reass_same (received t cb q)); apply received_only_rcv|].
      split; [intros p; destruct (Hp1 p) as [?|[?%elem_of_nil _]]; [by left|done]|]. cbn. lia. }
    destruct (Hgo Hq) as (s2 & E2 & Hc2 & Hf2 & Hp2). rewrite <- bind_assoc. erewrite bind_ok by exact E2.
    destruct (IH s2 _ (acc + q) Hc2 eq_refl) as (r & s' & t' & Er & Hc' & Hf' & Ho' & Hp' & Hnx).
    exists r, s', t'. split; [exact Er|]. split; [done|]. split; [by etransitivity|].
    split; [etransitivity; [apply received_only_rcv|exact Ho']|]. split; [by eapply released_cons|].
    cbn in Hnx. rewrite Hnx. assert (Hro : ordered (rcv_nxt t + q) l) by (eapply ordered_le; [|exact Ho]; lia).
    pose proof (reach_ge _ _ Hro). destruct (Z.le_gt_cases (trh_len n) (rcv_wnd t)); [|lia].
    replace (rcv_nxt t + q) with (trh_seq n + trh_len n) by lia. lia.
Qed.

(** A node leaves the list and its packet is given back. *)
Lemma drop_node_ok b W s sk t before n r : conn_inv b W s sk t -> rcv_reass t = before ++ n :: r ->
  exists s', (on_sock (upd_tsk sk (fun t => set_rcv_reass t (before ++ r)));; free_pkb (trh_pkb n)) s = Ret tt s' /\
    conn_inv b W s' sk (set_rcv_reass t (before ++ r)) /\ frame sk (st_sock s) (st_sock s') /\
    released [trh_pkb n] s s'.
Proof.
  intros [Ht Hr Ho Hh Hn] E. rewrite E in Ho, Hh, Hn.
  assert (Hk : exists k, live s (trh_pkb n) k).
  { apply Forall_app in Hh as [_ Hh]. apply Forall_cons in Hh as [(k & Hk & _) _]. by exists k. }
  destruct Hk as [k Hk]. erewrite bind_ok by (by apply on_upd_tsk). set (s1 := set_sock _ s).
  destruct (free_pkb_frame s1 (trh_pkb n) k Hk) as (s' & Ef & Hv & Hrel). exists s'. rewrite Ef, Hv.
  split; [done|]. split; [|split; [apply frame_with|exact Hrel]].
  rewrite fmap_app, fmap_cons in Hn. apply NoDup_app in Hn as (Hn1 & Hn2 & Hn3). apply NoDup_cons in Hn3 as [Hn3 Hn4].
  apply ordered_app in Ho as [Ho1 (Ho2 & Ho3 & Ho4 & Ho5)].
  apply Forall_app in Hh as [Hh1 Hh2]. apply Forall_cons in Hh2 as [_ Hh2].
  assert (Hni : trh_pkb n ∉ trh_pkb <$> before) by (intros Hin; eapply Hn2; [exact Hin|left]).
  split; cbn [rcv_reass rcv_nxt set_rcv_reass].
  - rewrite Hv. by eapply has_with.
  - destruct Hr. by split.
  - apply ordered_app. split; [done|]. eapply ordered_le; [|exact Ho5]. lia.
  - eapply (all_held_frame b [trh_pkb n] s); [apply released_frame; exact Hrel| |by apply Forall_app].
    intros p Hp ->%list_elem_of_singleton. rewrite fmap_app in Hp. by apply elem_of_app in Hp as [].
  - rewrite fmap_app. apply NoDup_app. split_and!; [done| |done]. intros p Hp Hp'. eapply Hn2; [exact Hp|by right].
Qed.

(** The second loop. *)
Lemma reass_cover_ok b W sk before g l : forall s t, conn_inv b W s sk t -> rcv_reass t = before ++ l ->
  ordered (seg_seq g) l -> 0 <= seg_seq g -> 0 < seg_dlen g -> seg_seq g + seg_dlen g < 2 ^ 32 ->
  exists d l' s' t', reass_cover before sk g l s = Ret (set_seg_dlen g d, l', d =? 0) s' /\
    conn_inv b W s' sk t' /\ rcv_reass t' = before ++ l' /\ frame sk (st_sock s) (st_sock s') /\ only_rcv t t' /\
    rcv_nxt t' = rcv_nxt t /\ rcv_wnd t' = rcv_wnd t /\ released (trh_pkb <$> l) s s' /\
    trh_pkb <$> l' ⊆ trh_pkb <$> l /\
    0 <= d <= seg_dlen g /\ ordered (seg_seq g + d) l' /\ seg_seq g + seg_dlen g <= reach (seg_seq g + d) l' /\
    (ordered (seg_seq g + 1) l -> 0 < d).
Proof.
  induction l as [|n l IH]; intros s t Hc E Ho H0 Hd Hlt; cbn [reass_cover].
  - exists (seg_dlen g), [], s, t. split.
    { replace (seg_dlen g =? 0) with false by lia. by destruct g. }
    split_and!; try done; try lia. intros p. by left.
  - cbn [ordered] in Ho. destruct Ho as (Ho1 & Ho2 & Ho3 & Ho).
    rewrite (u32_small (seg_seq g + seg_dlen g)), (u32_small (trh_seq n + trh_len n)) by (unfold is_u32; lia).
    destruct (Z.ltb_spec (seg_seq g + seg_dlen g) (trh_seq n + trh_len n)) as [H1|H1].
    { destruct (Z.ltb_spec (trh_seq n) (seg_seq g + seg_dlen g)) as [H2|H2].
      - rewrite u32_small by (unfold is_u32; lia). exists (trh_seq n - seg_seq g), (n :: l), s, t.
        split; [done|]. split_and!; try done; try lia; [by left| | |].
        + cbn [ordered]. split_and!; [lia|lia|lia|done].
        + cbn [reach]. replace (trh_seq n <=? seg_seq g + (trh_seq n - seg_seq g)) with true by lia.
          pose proof (reach_ge _ _ Ho). lia.
        + cbn [ordered]. lia.
      - exists (seg_dlen g), (n :: l), s, t. split.
        { replace (seg_dlen g =? 0) with false by lia. by destruct g. }
        split_and!; try done; try lia; [by left|].
        + apply reach_ge. cbn [ordered]. split_and!; [lia|lia|lia|done]. }
    destruct (drop_node_ok b W s sk t before n l Hc E) as (s1 & E1 & Hc1 & Hf1 & Hr1).
    destruct (IH s1 (set_rcv_reass t (before ++ l))) as (d & l' & s' & t' & Er & Hc' & El & Hf' & Hon & Hx & Hwn & Hrel & Hsub & Hd' & Ho' & Hre & Hps);
      [done|done|eapply ordered_le; [|exact Ho]; lia|done|done|done|].
    exists d, l', s', t'. split.
    { rewrite <- bind_assoc. erewrite bind_ok by exact E1. exact Er. }
    assert (Hni : trh_pkb n ∉ trh_pkb <$> l).
    { pose proof (cn_nodup _ _ _ _ _ Hc) as Hn. rewrite E, fmap_app, fmap_cons in Hn.
      apply NoDup_app in Hn as (_ & _ & Hn). by apply NoDup_cons in Hn as []. }
    split; [done|]. split; [done|]. split; [by etransitivity|]. split.
    { etransitivity; [|exact Hon]. exists (flags t), (rcv_buf t), (before ++ l), (rcv_nxt t), (rcv_wnd t).
      split; [lia|by destruct t]. }
    split; [done|]. split; [done|]. split; [by eapply released_cons|]. split; [set_solver|].
    split; [done|]. split; [done|]. split; [done|]. cbn [ordered]. intros (? & ? & ? & ?). apply Hps.
    eapply ordered_le; [|done]. lia.
Qed.

(** ** Lemmas: one segment *)

Definition trim_seg (o : Z) (g : tcp_segment) : tcp_segment :=
  mk_seg (seg_seq g + o) (seg_ack g) (seg_lastseq g) (seg_len g) (seg_dlen g - o) (seg_wnd g) (seg_up g) (seg_prc g)
    (seg_text g + o) (seg_pkb g) (tcphdr g).

Lemma adjacent_ok nseq g : 0 <= nseq < 2 ^ 32 -> 0 <= seg_seq g -> 0 < seg_dlen g -> seg_seq g + seg_dlen g < 2 ^ 32 ->
  match adjacent_segment_head nseq g with
  | None => seg_seq g + seg_dlen g <= nseq
  | Some g' => exists o, 0 <= o < seg_dlen g /\ seg_seq g + o = Z.max (seg_seq g) nseq /\ g' = trim_seg o g
  end.
Proof.
  intros Hn H0 Hd Hlt. unfold adjacent_segment_head. case_if.
  - rewrite (u32_small (nseq - seg_seq g)) by (unfold is_u32; lia). case_if; [lia|].
    rewrite u32_small by (unfold is_u32; lia). exists (nseq - seg_seq g). split_and!; [lia|lia|lia|].
    unfold trim_seg. do 2 f_equal; lia.
  - exists 0. split_and!; [lia|lia|lia|]. unfold trim_seg. rewrite !Z.add_0_r, Z.sub_0_r. by destruct g.
Qed.

(** The node a segment makes. *)
Definition seg_node (g : tcp_segment) (pkb : pid) : tcp_reass_head :=
  mk_trh pkb (seg_text g) (seg_seq g) (seg_dlen g).

Lemma held_trim b s g pkb o d : held b s (seg_node g pkb) -> 0 <= o -> 0 <= d -> o + d <= seg_dlen g ->
  held b s (mk_trh pkb (seg_text g + o) (seg_seq g + o) d).
Proof.
  intros (k & Hk & Hr & Ht & Hb & Hx) ? ? ?. cbn in *. exists k. cbn. split_and!; [done|done|lia|lia|].
  rewrite <- (slice_slice (pk_data k) (seg_text g) (seg_dlen g)) by lia. rewrite Hx. apply stream_slice; lia.
Qed.

Lemma conn_flags b W s sk t f : conn_inv b W s sk t ->
  exists s', on_sock (upd_tsk sk (add_flag f)) s = Ret tt s' /\ conn_inv b W s' sk (add_flag f t) /\
    frame sk (st_sock s) (st_sock s') /\ only_rcv t (add_flag f t) /\ st_mem s' = st_mem s.
Proof.
  intros [Ht Hr Ho Hh Hn]. eexists. split; [by apply on_upd_tsk|]. split; [|split; [apply frame_with|split; [|done]]].
  - split; [by eapply has_with|destruct Hr; by split|done|exact Hh|done].
  - exists (Z.lor (flags t) f), (rcv_buf t), (rcv_reass t), (rcv_nxt t), (rcv_wnd t). split; [lia|by destruct t].
Qed.

Section Insert.
Context `{Ptrs} (Hptrs : forall p, zlen (node_ptrs p) = 24).

(** The segment becomes a node of the list. *)
Lemma put_node_ok b W s sk t g pkb before after k : conn_inv b W s sk t -> rcv_reass t = before ++ after ->
  live s pkb k -> held b s (seg_node g pkb) -> pkb ∉ trh_pkb <$> (before ++ after) ->
  ordered (rcv_nxt t) (before ++ seg_node g pkb :: after) ->
  let l := before ++ seg_node g pkb :: after in
  exists s', (put_trh pkb (seg_seq g) (seg_dlen g);; on_sock (upd_tsk sk (fun t => set_rcv_reass t l));; get_pkb pkb) s
      = Ret tt s' /\
    conn_inv b W s' sk (set_rcv_reass t l) /\ frame sk (st_sock s) (st_sock s') /\ pk_frame [pkb] s s' /\
    exists k', live s' pkb k' /\ pk_refcnt k' = pk_refcnt k + 1.
Proof.
  intros [Ht Hr Ho Hh Hn] E Hk (k0 & Hk0 & Hrf & Htx & Hb & Hsl) Hni Hol l. cbn [trh_pkb trh_data trh_len trh_seq seg_node] in *.
  unfold live in Hk, Hk0. assert (k0 = k) as -> by congruence.
  assert (Hz : zlen (node_ptrs pkb ++ le_enc 4 (seg_seq g) ++ le_enc 4 (seg_dlen g)) = 32).
  { rewrite !zlen_app, !zlen_le_enc, Hptrs. lia. }
  assert (Hdl : 0 <= seg_dlen g).
  { apply ordered_app in Hol as [_ (_ & Hol & _)]. cbn in Hol. lia. }
  unfold put_trh. erewrite bind_ok by (apply st_bytes_ok; [exact Hk|lia|lia]).
  set (d := node_ptrs pkb ++ _) in *. set (k1 := set_pk_data k (patch (pk_data k) 0 d)).
  set (s1 := with_pkb s pkb k1).
  erewrite bind_ok by (apply (on_upd_tsk s1 sk t); exact Ht). set (s2 := set_sock _ s1).
  assert (Hk2 : live s2 pkb k1) by (unfold live; cbn; apply lookup_insert_eq).
  eexists. unfold get_pkb. split; [by apply upd_ok|]. set (s' := with_pkb s2 pkb _).
  assert (Hpf : pk_frame [pkb] s s').
  { intros p Hp. assert (p <> pkb) by set_solver. cbn. by rewrite !lookup_insert_ne. }
  assert (Hlv : live s' pkb (set_pk_refcnt k1 (pk_refcnt k1 + 1))) by apply live_with.
  split; [|split; [|split; [exact Hpf|by eexists]]].
  - rewrite E in Hh, Hn. apply Forall_app in Hh as [Hh1 Hh2]. rewrite fmap_app in Hn, Hni.
    apply NoDup_app in Hn as (Hn1 & Hn2 & Hn3). rewrite elem_of_app in Hni.
    split; [by apply (has_with _ _ t)|destruct Hr; by split|done| |]; cbn [rcv_reass set_rcv_reass].
    + apply Forall_app. split; [|apply Forall_cons; split].
      * eapply all_held_frame; [exact Hpf| |done]. set_solver.
      * exists (set_pk_refcnt k1 (pk_refcnt k1 + 1)). cbn. split_and!; [done|lia|done| |].
        { rewrite zlen_patch; lia. }
        { rewrite slice_patch_after by lia. done. }
      * eapply all_held_frame; [exact Hpf| |done]. set_solver.
    + unfold l. rewrite fmap_app, fmap_cons. cbn. apply NoDup_app. split_and!; [done| |].
      * intros p Hp Hp'. apply elem_of_cons in Hp' as [->|]; [by apply Hni; left|]. by eapply Hn2.
      * apply NoDup_cons. split; [|done]. intros ?. apply Hni. by right.
  - apply frame_with.
Qed.

(** The packet that is being handled is still there, with a reference. *)
Definition alive (s : stack) (pkb : pid) : Prop := exists k, live s pkb k /\ 1 <= pk_refcnt k.

Lemma reass_insert_ok b W s sk t g pkb before after : conn_inv b W s sk t -> rcv_reass t = before ++ after ->
  held b s (seg_node g pkb) -> pkb ∉ trh_pkb <$> (before ++ after) ->
  ordered (rcv_nxt t) (before ++ seg_node g pkb :: after) ->
  exists s' t', reass_insert sk g pkb before after s = Ret tt s' /\ conn_inv b W s' sk t' /\
    frame sk (st_sock s) (st_sock s') /\ only_rcv t t' /\ alive s' pkb /\
    rcv_nxt t' = Z.min (reach (rcv_nxt t) (before ++ seg_node g pkb :: after)) (rcv_nxt t + rcv_wnd t).
Proof.
  intros Hc E Hh Hni Hol. pose proof Hh as (k & Hk & Hrf & _). cbn in Hk.
  destruct (put_node_ok b W s sk t g pkb before after k) as (s1 & E1 & Hc1 & Hf1 & Hp1 & k1 & Hk1 & Hr1); try done.
  set (l := before ++ seg_node g pkb :: after) in *.
  destruct (reass_write_ok b W sk l s1 (set_rcv_reass t l) 0 Hc1 eq_refl)
    as (r & s2 & t2 & E2 & Hc2 & Hf2 & Ho2 & Hrel & Hx).
  assert (Hal : alive s2 pkb).
  { destruct (Hrel pkb) as [Eq|(_ & k' & Hk' & Eq)].
    - exists k1. unfold live in *. rewrite Eq. split; [done|lia].
    - unfold live in *. assert (k' = k1) as -> by congruence. unfold one_less in Eq.
      rewrite Hr1 in Eq. replace (pk_refcnt k + 1 - 1 <=? 0) with false in Eq by lia.
      eexists. split; [exact Eq|]. cbn. lia. }
  assert (Ho : only_rcv t t2).
  { etransitivity; [|exact Ho2]. exists (flags t), (rcv_buf t), l, (rcv_nxt t), (rcv_wnd t). split; [lia|by destruct t]. }
  assert (Hf : frame sk (st_sock s) (st_sock s2)) by (by etransitivity).
  assert (Er : reass_insert sk g pkb before after s =
    when ((0 <? r) && on (tcp_psh (tcphdr g))) (on_sock (upd_tsk sk (add_flag TCP_F_PUSH))) s2).
  { unfold reass_insert. fold (seg_node g pkb). fold l.
    transitivity (((put_trh pkb (seg_seq g) (seg_dlen g);; on_sock (upd_tsk sk (fun t => set_rcv_reass t l));; get_pkb pkb);;
      let* len := reass_write sk l 0 in
      when ((0 <? len) && on (tcp_psh (tcphdr g))) (on_sock (upd_tsk sk (add_flag TCP_F_PUSH)))) s).
    - unfold bind. destruct (put_trh _ _ _ s) as [? u| |]; [|done|done]. by destruct (on_sock _ u).
    - erewrite bind_ok by exact E1. by erewrite bind_ok by exact E2. }
  rewrite Er. destruct ((0 <? r) && _); cbn [when].
  - destruct (conn_flags b W s2 sk t2 TCP_F_PUSH Hc2) as (s3 & E3 & Hc3 & Hf3 & Ho3 & Hm3).
    exists s3, (add_flag TCP_F_PUSH t2). split; [done|]. split; [done|]. split; [by etransitivity|].
    split; [by etransitivity|]. split; [|done]. unfold alive, live in *. by rewrite Hm3.
  - exists s2, t2. by split_and!.
Qed.

(** Where the segment goes: the nodes in front of it, and the node it makes. *)
Record placed (t : tcp_sock) (g : tcp_segment) : Prop := {
  pl_seq : rcv_nxt t <= seg_seq g;
  pl_len : 0 < seg_dlen g;
  pl_end : seg_seq g + seg_dlen g < 2 ^ 32;
  pl_last : match last (rcv_reass t) with
            | Some n => seg_seq g < trh_seq n \/ trh_seq n + trh_len n <= seg_seq g
            | None => True
            end;
  pl_first : match rcv_reass t with
             | n :: _ => seg_seq g < trh_seq n -> 0 <= snd_wnd t + snd_up t <= seg_seq g
             | [] => True
             end
}.

(** The trimming in front. *)
Lemma reass_head_ok b t g before after : 0 <= rcv_nxt t -> placed t g -> reass_split (seg_seq g) (rcv_reass t) = (before, after) ->
  ordered (rcv_nxt t) (rcv_reass t) ->
  match (match after with [] => Some g | _ => adjacent_segment_head (prev_end t before) g end) with
  | None => before <> []
  | Some g' => exists o, 0 <= o < seg_dlen g /\ g' = trim_seg o g /\ (before = [] -> o = 0) /\
      list_end (rcv_nxt t) before <= seg_seq g + o /\
      ordered (seg_seq g + o) after
  end.
Proof.
  intros Hnx [P1 P2 P3 P4 P5] Es Ho. destruct (reass_split_ok _ _ _ _ Es) as (El & Hb & Ha).
  assert (Ht0 : trim_seg 0 g = g) by (unfold trim_seg; rewrite !Z.add_0_r, Z.sub_0_r; by destruct g).
  rewrite El in Ho. apply ordered_app in Ho as [Ho1 Ho2].
  destruct (list_end_ge _ _ Ho1) as [Hge Hlt].
  destruct after as [|n r].
  - exists 0. split; [lia|]. split; [done|]. split; [done|]. split; [|done]. rewrite app_nil_r in El. rewrite El in P4.
    unfold list_end. destruct (last before) as [n|] eqn:E; [|lia]. apply last_Some in E as [l' ->].
    apply Forall_app in Hb as [_ Hb]. apply Forall_cons in Hb as [Hb _]. lia.
  - cbn [ordered] in Ho2. destruct Ho2 as (O1 & O2 & O3 & O4).
    assert (Hpe : 0 <= prev_end t before < 2 ^ 32 /\ (before <> [] -> prev_end t before = list_end (rcv_nxt t) before) /\
                  (before = [] -> prev_end t before <= seg_seq g)).
    { unfold prev_end, list_end in *. destruct (last before) as [m|] eqn:E.
      - assert (before <> []) by (by intros ->). specialize (Hlt H0). rewrite u32_small by (unfold is_u32; lia). split_and!; [lia|lia|done|done].
      - apply last_None in E as ->. cbn in El. rewrite El in P5. specialize (P5 Ha).
        rewrite u32_small by (unfold is_u32; lia). split_and!; [lia|lia|done|lia]. }
    destruct Hpe as (Hp1 & Hp2 & Hp3).
    pose proof (adjacent_ok (prev_end t before) g) as Had. destruct (adjacent_segment_head _ g) as [g'|].
    + destruct Had as (o & Ho' & Hm & ->); [lia|lia|lia|lia|]. exists o.
      assert (Hcase : before = [] \/ before <> []) by (destruct before; [by left|by right]).
      destruct Hcase as [->|Hne].
      * specialize (Hp3 eq_refl). unfold list_end in *. cbn in *. split_and!; try done; try lia.
      * rewrite (Hp2 Hne) in Hm. split_and!; try done; try lia. cbn [ordered]. split_and!; [lia|lia|lia|done].
    + specialize (Had ltac:(lia) ltac:(lia) ltac:(lia) ltac:(lia)). intros E. specialize (Hp3 E). lia.
Qed.

Definition not_next (t : tcp_sock) : Prop :=
  match rcv_reass t with n :: _ => rcv_nxt t < trh_seq n | [] => True end.

Lemma segment_reass_ok b W s sk t g pkb : conn_inv b W s sk t -> placed t g -> held b s (seg_node g pkb) ->
  pkb ∉ trh_pkb <$> rcv_reass t ->
  exists g' s' t', tcp_segment_reass sk g pkb s = Ret g' s' /\ conn_inv b W s' sk t' /\
    frame sk (st_sock s) (st_sock s') /\ only_rcv t t' /\ alive s' pkb /\
    rcv_nxt t <= rcv_nxt t' <= rcv_nxt t + rcv_wnd t /\
    (seg_seq g = rcv_nxt t -> not_next t ->
     Z.min (seg_seq g + seg_dlen g) (rcv_nxt t + rcv_wnd t) <= rcv_nxt t').
Proof.
  intros Hc Hp Hh Hni. pose proof Hc as [Ht Hr Ho _ _]. pose proof (ro_nxt _ _ _ Hr) as Hnx.
  pose proof (rcv_wnd_range _ _ _ Hr) as Hw. pose proof Hp as [P1 P2 P3 _ _].
  assert (Hal : alive s pkb) by (destruct Hh as (k & ? & ? & _); by exists k).
  unfold tcp_segment_reass. erewrite bind_ok by (by apply on_ld_tsk).
  destruct (reass_split (seg_seq g) (rcv_reass t)) as [before after] eqn:Es.
  pose proof (reass_head_ok b t g before after ltac:(lia) Hp Es Ho) as Hhd.
  destruct (reass_split_ok _ _ _ _ Es) as (El & Hb & Ha).
  assert (Hbn : seg_seq g = rcv_nxt t -> not_next t -> before = []).
  { intros Eq Hn. unfold not_next in Hn. destruct before as [|n l]; [done|]. rewrite El in Hn. cbn in Hn.
    apply Forall_cons in Hb as [Hb _]. lia. }
  destruct (match after with [] => Some g | _ => _ end) as [g1|].
  2: { exists g, s, t. split; [done|]. split; [done|]. split; [done|]. split; [done|]. split; [done|]. split; [lia|].
       intros Eq Hn. by destruct (Hhd (Hbn Eq Hn)). }
  destruct Hhd as (o & Ho1 & -> & Ho2 & Ho3 & Ho4).
  destruct (reass_cover_ok b W sk before (trim_seg o g) after s t) as
    (d & l' & s1 & t1 & E1 & Hc1 & El1 & Hf1 & Hon1 & Hx1 & Hw1 & Hrel & Hsub & Hd & Ho5 & Hre & Hps);
    cbn [seg_seq seg_dlen trim_seg] in *; try done; try lia.
  erewrite bind_ok by exact E1. cbn beta iota.
  assert (Hk1 : pk_frame (trh_pkb <$> after) s s1) by (by apply released_frame).
  assert (Hna : pkb ∉ trh_pkb <$> after) by (rewrite El, fmap_app in Hni; set_solver).
  assert (Hh1 : held b s1 (mk_trh pkb (seg_text g + o) (seg_seq g + o) d)).
  { eapply held_frame; [exact Hk1|done|]. apply held_trim; [done|lia|lia|lia]. }
  destruct (Z.eqb_spec d 0) as [Hd0|Hd0].
  - exists (set_seg_dlen (trim_seg o g) d), s1, t1. split; [done|]. split; [done|]. split; [done|]. split; [done|].
    split. { destruct Hh1 as (k & ? & ? & _). by exists k. }
    split; [lia|]. intros Eq Hn. specialize (Hbn Eq Hn). specialize (Ho2 Hbn). subst before o. cbn in El.
    rewrite Z.add_0_r in Hps. enough (0 < d) by lia. apply Hps. unfold not_next in Hn. rewrite El in Hn, Ho.
    destruct after as [|n r]; [done|]. cbn [ordered] in Ho |- *. destruct Ho as (? & ? & ? & ?). split_and!; [lia|lia|lia|done].
  - set (g2 := set_seg_dlen (trim_seg o g) d).
    assert (Hord : ordered (rcv_nxt t1) (before ++ seg_node g2 pkb :: l')).
    { rewrite Hx1. rewrite El in Ho. apply ordered_app in Ho as [Ho _]. apply ordered_app. split; [done|].
      cbn. split_and!; [lia|lia|lia|done]. }
    destruct (reass_insert_ok b W s1 sk t1 g2 pkb before l') as (s2 & t2 & E2 & Hc2 & Hf2 & Hon2 & Hal2 & Hx2); try done.
    { rewrite El in Hni. rewrite fmap_app in Hni |- *. set_solver. }
    erewrite bind_ok by exact E2. exists g2, s2, t2. split; [done|]. split; [done|]. split; [by etransitivity|].
    split; [by etransitivity|]. split; [done|]. pose proof (reach_ge _ _ Hord) as Hge. split; [lia|].
    intros Eq Hn. specialize (Hbn Eq Hn). specialize (Ho2 Hbn). subst before o. cbn [app] in *.
    assert (Hrn : reach (rcv_nxt t1) (seg_node g2 pkb :: l') = reach (seg_seq g + 0 + d) l').
    { cbn [reach seg_node trh_seq trh_len g2 set_seg_dlen trim_seg seg_seq seg_dlen].
      replace (seg_seq g + 0 <=? rcv_nxt t1) with true by lia. done. }
    lia.
Qed.

End Insert.

(** ** Lemmas: the buffer before and after *)

Lemma buffered_grows b W t t' : rcv_ok b W t -> rcv_ok b W t' -> only_rcv t t' -> rcv_nxt t <= rcv_nxt t' ->
  buffered t' = buffered t ++ stream b (rcv_nxt t) (rcv_nxt t' - rcv_nxt t).
Proof.
  intros [_ _ _ Hw Ht] [_ _ _ Hw' Ht'] (f & c & l & n & w & E & Eq) Hle.
  assert (E' : rcv_nxt t' + rcv_wnd t' = rcv_nxt t + rcv_wnd t) by (by rewrite Eq).
  pose proof (zlen_nonneg (buffered t)). rewrite Ht'.
  replace (zlen (buffered t')) with (zlen (buffered t) + (rcv_nxt t' - rcv_nxt t)) by lia.
  replace (rcv_nxt t' - (zlen (buffered t) + (rcv_nxt t' - rcv_nxt t))) with (rcv_nxt t - zlen (buffered t)) by lia.
  rewrite stream_app by lia. rewrite <- Ht. do 2 f_equal. lia.
Qed.

(** The thread that reads can be woken. *)
Definition wakable (v : sockstate) (sk : skid) : Prop :=
  forall k so, socks v !! sk = Some k -> recv_wait k = Some so -> is_Some (sockets v !! so).

Lemma notify_ok b W s sk t : conn_inv b W s sk t -> wakable (st_sock s) sk ->
  exists s', on_sock (tcp_recv_notify sk) s = Ret tt s' /\ conn_inv b W s' sk t /\ st_mem s' = st_mem s.
Proof.
  intros [[[k Hk] Ht] Hr Ho Hh Hn] Hw.
  assert (Hv : exists v', tcp_recv_notify sk (st_sock s) = Ret tt v' /\ socks v' = socks (st_sock s) /\ tcp_st v' = tcp_st (st_sock s)).
  { unfold tcp_recv_notify. erewrite bind_ok by (by apply ld_sk_ok). destruct (recv_wait k) as [so|] eqn:Ew.
    - destruct (Hw k so Hk Ew) as [v Hso]. unfold wake, upd_so. erewrite bind_ok; [|reflexivity].
      erewrite bind_ok. 2: { unfold ld_so. by rewrite Hso. } by eexists.
    - by exists (st_sock s). }
  destruct Hv as (v' & E & Es & Et). exists (set_sock v' s). split; [by apply on_sock_ok|]. split; [|done].
  split; try done. split; cbn; [rewrite Es; by eexists|by rewrite Et].
Qed.

(** ** Properties: receiving *)

Record arrives (b : Z -> Z) (s : stack) (sk : skid) (t : tcp_sock) (g : tcp_segment) (pkb : pid) : Prop := {
  ar_text : held b s (seg_node g pkb);
  ar_new : pkb ∉ trh_pkb <$> rcv_reass t;
  ar_seq : 0 <= seg_seq g;
  ar_len : 0 < seg_dlen g;
  ar_end : seg_seq g + seg_dlen g < 2 ^ 32;
  (* it does not overlap the end of the last early segment *)
  ar_last : match last (rcv_reass t) with
            | Some n => Z.max (seg_seq g) (rcv_nxt t) < trh_seq n \/
                        trh_seq n + trh_len n <= Z.max (seg_seq g) (rcv_nxt t)
            | None => True
            end;
  (* what the code reads in front of the first early segment is no sequence number *)
  ar_first : match rcv_reass t with
             | n :: _ => Z.max (seg_seq g) (rcv_nxt t) < trh_seq n ->
                         0 <= snd_wnd t + snd_up t <= Z.max (seg_seq g) (rcv_nxt t)
             | [] => True
             end;
  ar_wait : wakable (st_sock s) sk
}.

Section Receive.
Context `{Ptrs} (Hptrs : forall p, zlen (node_ptrs p) = 24).

Lemma recv_text_body_ok b W s sk t g pkb : conn_inv b W s sk t -> placed t g -> held b s (seg_node g pkb) ->
  pkb ∉ trh_pkb <$> rcv_reass t ->
  exists g' s' t', recv_text_body sk g pkb s = Ret g' s' /\ conn_inv b W s' sk t' /\
    frame sk (st_sock s) (st_sock s') /\ only_rcv t t' /\ alive s' pkb /\
    rcv_nxt t <= rcv_nxt t' <= rcv_nxt t + rcv_wnd t /\
    (seg_seq g = rcv_nxt t -> not_next t ->
     Z.min (seg_seq g + seg_dlen g) (rcv_nxt t + rcv_wnd t) <= rcv_nxt t').
Proof.
  intros Hc Hp Hh Hni. pose proof Hc as [Ht Hr Ho Hhs Hn]. pose proof Hp as [P1 P2 P3 _ _].
  unfold recv_text_body. erewrite bind_ok by (by apply on_ld_tsk).
  destruct (bool_decide (rcv_nxt t = seg_seq g) && bool_decide (rcv_reass t = [])) eqn:Eb.
  - apply andb_true_iff in Eb as [Eq%bool_decide_eq_true En%bool_decide_eq_true].
    pose proof (rcv_wnd_range _ _ _ Hr) as Hw. pose proof Hh as (k & Hk & Hrf & Htx & Hb & Hsl). cbn in *.
    destruct (tcp_write_buf_ok b W s sk t pkb k (seg_text g) (seg_dlen g)) as (cb & s1 & E1 & Ht1 & Hf1 & Hm1 & Hr1);
      [done|done|done|lia|lia|done|lia|by rewrite Eq|].
    erewrite bind_ok by exact E1. set (n := Z.min (rcv_wnd t) (seg_dlen g)) in *. set (t1 := received t cb n) in *.
    assert (Hc1 : conn_inv b W s1 sk t1) by (split; cbn; rewrite ?En; try done; constructor).
    assert (Ho1 : only_rcv t t1).
    { exists (flags t), (Some cb), (rcv_reass t), (rcv_nxt t + n), (rcv_wnd t - n). split; [lia|by destruct t]. }
    assert (Hps : exists s2 t2, when ((0 <? n) && on (tcp_psh (tcphdr g))) (on_sock (upd_tsk sk (add_flag TCP_F_PUSH))) s1
        = Ret tt s2 /\ conn_inv b W s2 sk t2 /\ frame sk (st_sock s1) (st_sock s2) /\ only_rcv t1 t2 /\
        st_mem s2 = st_mem s1 /\ rcv_nxt t2 = rcv_nxt t1).
    { destruct ((0 <? n) && _); cbn [when].
      - destruct (conn_flags b W s1 sk t1 TCP_F_PUSH Hc1) as (s2 & E2 & ? & ? & ? & ?). by exists s2, (add_flag TCP_F_PUSH t1).
      - exists s1, t1. by split_and!. }
    destruct Hps as (s2 & t2 & E2 & Hc2 & Hf2 & Ho2 & Hm2 & Hx2). erewrite bind_ok by exact E2.
    destruct (conn_flags b W s2 sk t2 TCP_F_ACKDELAY Hc2) as (s3 & E3 & Hc3 & Hf3 & Ho3 & Hm3).
    erewrite bind_ok by exact E3. exists g, s3, (add_flag TCP_F_ACKDELAY t2). split; [done|]. split; [done|].
    split; [by do 2 (etransitivity; [eassumption|])|]. split; [by do 2 (etransitivity; [eassumption|])|].
    split. { exists k. unfold live in *. by rewrite Hm3, Hm2, Hm1. }
    cbn. rewrite Hx2. cbn. split; [lia|]. intros _ _. lia.
  - destruct (segment_reass_ok Hptrs b W s sk t g pkb Hc Hp Hh Hni) as (g1 & s1 & t1 & E1 & Hc1 & Hf1 & Ho1 & Hal & Hx & Hpr).
    erewrite bind_ok by exact E1.
    destruct (conn_flags b W s1 sk t1 TCP_F_ACKNOW Hc1) as (s3 & E3 & Hc3 & Hf3 & Ho3 & Hm3).
    erewrite bind_ok by exact E3. exists g1, s3, (add_flag TCP_F_ACKNOW t1). split; [done|]. split; [done|].
    split; [by etransitivity|]. split; [by etransitivity|]. split; [|done]. unfold alive, live in *. by rewrite Hm3.
Qed.


End Receive.

(** ** Lemmas: reading *)

(** What reading may change: the buffer, the window and the PUSH flag. *)
Lemma recv_fill_ok b W v sk t out len : has_tsk v sk t -> rcv_ok b W t -> zlen out <= len ->
  exists d t', recv_fill sk out len v = Ret (out ++ d) (with_tsk v sk t') /\ rcv_ok b W t' /\
    buffered t = d ++ buffered t' /\ zlen d = Z.min (zlen (buffered t)) (len - zlen out) /\
    rcv_nxt t' = rcv_nxt t /\ flags t' = flags t.
Proof.
  intros Ht Hr Hlen. pose proof (rcv_wnd_range _ _ _ Hr) as Hw. pose proof Hr as [Hs Hn Hb Hwn Htx].
  assert (Hrd : exists d cb', read_cbuf 2 (len - zlen out) (rcv_buf t) = Ret (zlen d, d) cb' /\
    zlen d = Z.min (zlen (buffered t)) (len - zlen out) /\
    buffered t = d ++ match cb' with None => [] | Some cb => content cb end /\
    match cb' with None => True | Some cb => cbuf_inv cb /\ size cb = W end).
  { unfold buffered. destruct (rcv_buf t) as [cb|].
    - destruct Hb as [Hi Hsz]. destruct (read_cbuf_takes 2 cb (len - zlen out)) as (d & cb' & E & Hd & Hc & Hi' & Hs');
        [lia|done|lia|]. exists d, (Some cb'). split_and!; try done. lia.
    - exists [], None. split_and!; try done. rewrite zlen_nil. lia. }
  destruct Hrd as (d & cb' & E & Hd & Hc & Hi).
  set (t' := set_rcv_wnd (set_rcv_buf t cb') (rcv_wnd t + zlen d)).
  assert (Hbt : buffered t' = match cb' with None => [] | Some cb => content cb end) by done.
  rewrite <- Hbt in Hc. pose proof (f_equal zlen Hc) as Hl. rewrite zlen_app in Hl.
  pose proof (zlen_nonneg d). pose proof (zlen_nonneg (buffered t')).
  exists d, t'. split.
  - unfold recv_fill. erewrite bind_ok by (eapply on_cbuf_ok; [exact Ht|exact E]). cbn beta iota.
    erewrite bind_ok by (apply upd_tsk_has; by eapply has_with). cbn. rewrite u32_small by (unfold is_u32; lia).
    by rewrite with_tsk_tsk.
  - split; [|by split_and!]. split; [done|done|done|cbn [t' rcv_wnd set_rcv_wnd]; lia|].
    rewrite Hc in Htx. symmetry in Htx. rewrite zlen_app in Htx.
    apply stream_split in Htx as (_ & Htx & _); [|lia]. rewrite Htx at 1. cbn [t' rcv_nxt set_rcv_wnd set_rcv_buf].
    f_equal. lia.
Qed.

Definition given (r : recv_call) : list Z :=
  match r with RecvDone (_, out) => out | RecvSleep _ out => out end.

Definition readable (t : tcp_sock) : Prop :=
  match state t with
  | TCP_ESTABLISHED | TCP_FIN_WAIT1 | TCP_FIN_WAIT2 => True
  | TCP_CLOSE_WAIT => has_text t = true
  | _ => False
  end.

Lemma has_text_buffered b W t : rcv_ok b W t -> has_text t = negb (zlen (buffered t) =? 0).
Proof.
  intros [_ _ Hb _ _]. unfold has_text, buffered. destruct (rcv_buf t) as [cb|]; [|done].
  destruct Hb as [[? ? ? ?] _]. unfold on, content. by rewrite ring_len by lia.
Qed.

(** When a reader that has [out] stops: enough bytes, a PUSH, the socket closed, or
    nothing more to read, and it sleeps. *)
Definition stop_ok (len : Z) (t : tcp_sock) (so : soid) (w : tapip_wait) (r : recv_call) : Prop :=
  let out := given r in
  match r with
  | RecvDone (n, _) =>
      n = zlen out /\ (zlen out = len \/ flag t TCP_F_PUSH = true) \/
      dead w <> 0 /\ n = (if 0 <? zlen out then zlen out else -1)
  | RecvSleep so' _ => so' = so /\ dead w = 0 /\ zlen out < len /\ flag t TCP_F_PUSH = false
  end.

(** A thread that finds nothing to read: the socket is dead, or it sleeps, at once
    or after a wake-up that was left over. *)
Lemma sleep_on_ok v so w : sockets v !! so = Some w ->
  sleep_on (Some so) v =
    Ret (match snd (sleep_on_enter (so_sleep w)) with
         | Running => Some (sleep_on_ret (fst (sleep_on_enter (so_sleep w)))) | _ => None end)
      (set_sockets (<[so := set_so_sleep w (fst (sleep_on_enter (so_sleep w)))]> (sockets v)) v).
Proof.
  intros Hw. unfold sleep_on, upd_so. erewrite bind_ok; [|reflexivity].
  assert (E : ld_so so v = Ret w v) by (unfold ld_so; by rewrite Hw).
  erewrite bind_ok by exact E. destruct (sleep_on_enter (so_sleep w)) as [w' p]. cbn [fst snd].
  erewrite bind_ok; [reflexivity|]. by erewrite bind_ok by exact E.
Qed.

(** The loop from its second part on. *)
Lemma recv_wait_ok b W fuel v sk k t so w out len : (2 <= fuel)%nat ->
  socks v !! sk = Some k -> has_tsk v sk t -> rcv_ok b W t -> recv_wait k = Some so -> sockets v !! so = Some w ->
  0 <= dead (so_sleep w) -> zlen out <= len -> (zlen out < len -> buffered t = []) ->
  exists r v' t', recv_loop fuel WaitText sk out len v = Ret r v' /\ has_tsk v' sk t' /\ rcv_ok b W t' /\
    given r = out /\ buffered t' = buffered t /\ rcv_nxt t' = rcv_nxt t /\ stop_ok len t so (so_sleep w) r.
Proof.
  intros Hf Hk Ht Hr Hrw Hso Hdead Hout Hemp. destruct fuel as [|[|n]]; [lia|lia|]. cbn [recv_loop].
  erewrite bind_ok by (by apply ld_tsk_has). rewrite (has_text_buffered b W t Hr).
  destruct (Z.leb_spec len (zlen out)) as [Hfull|Hless].
  - rewrite orb_true_r. assert (zlen out = len) by lia.
    destruct (flag t TCP_F_PUSH && _).
    + erewrite bind_ok by (by apply upd_tsk_has). eexists (RecvDone _), _, _. split; [done|]. split; [by eapply has_with|].
      split; [destruct Hr; by split|]. split_and!; try done. left. by split; [|left].
    + replace (zlen out <? len) with false by lia. eexists (RecvDone _), _, _. split; [done|]. split; [done|].
      split; [done|]. split_and!; try done. left. by split; [|left].
  - rewrite (Hemp Hless), zlen_nil. cbn [negb Z.eqb orb]. rewrite andb_true_r, !orb_false_r.
    destruct (flag t TCP_F_PUSH) eqn:Ep.
    + erewrite bind_ok by (by apply upd_tsk_has). eexists (RecvDone _), _, _. split; [done|]. split; [by eapply has_with|].
      split; [destruct Hr; by split|]. split_and!; try done. { by rewrite <- (Hemp Hless). } left. by split; [|right].
    + erewrite bind_ok by (by apply ld_sk_ok). rewrite Hrw.
      erewrite bind_ok by (by apply sleep_on_ok). unfold sleep_on_enter.
      destruct (Z.eqb_spec (dead (so_sleep w)) 0) as [Hd|Hd]; cbn [negb].
      * destruct (Z.eqb_spec (notified (so_sleep w)) 0) as [Hn|Hn]; cbn [fst snd].
        -- eexists (RecvSleep _ _), _, _. split; [done|]. split; [done|]. split; [done|]. by rewrite (Hemp Hless).
        -- replace (sleep_on_ret _ <? 0) with false by (unfold sleep_on_ret; cbn; lia).
           set (v1 := set_sockets _ v). assert (Ht1 : has_tsk v1 sk t) by done.
           erewrite bind_ok by (by apply ld_tsk_has). rewrite (has_text_buffered b W t Hr), (Hemp Hless), zlen_nil, Ep.
           cbn [negb Z.eqb orb andb]. replace (len <=? zlen out) with false by lia.
           erewrite bind_ok by (by apply ld_sk_ok). rewrite Hrw.
           erewrite bind_ok by (apply sleep_on_ok; cbn; apply lookup_insert_eq).
           unfold sleep_on_enter. cbn [so_sleep set_so_sleep dead notified]. rewrite Hd. cbn [Z.eqb negb fst snd].
           eexists (RecvSleep _ _), _, _. split; [done|]. split; [done|]. split; [done|]. by rewrite (Hemp Hless).
      * cbn [fst snd]. replace (sleep_on_ret _ <? 0) with true by (unfold sleep_on_ret; lia).
        eexists (RecvDone _), _, _. split; [done|]. split; [done|]. split; [done|].
        split_and!; [done|by rewrite (Hemp Hless)|done|]. right. done.
Qed.


End Stream.

(** ** Witnesses: two bytes in the buffer, an early segment, and a segment that
    overlaps both *)

Definition demo_stream (q : Z) : Z := q mod 256.

Definition demo_tsk : tcp_sock :=
  set_state
    (set_rcv_reass
      (set_rcv_wnd
        (set_rcv_nxt
          (set_rcv_buf new_tsk (Some (mk_cbuf 2 0 16 ([99; 100] ++ replicate 14 0)))) 101) 14)
      [mk_trh 0%nat 54 105 3]) TCP_ESTABLISHED.

Definition demo_sock : sock := mk_sock 0 (mk_sock_addr 0 0 0 0) (Some 7%nat) tcp_ops None [] (Some 7%nat) 0 true 1.
Definition demo_socket : socket := mk_socket 1 1 1 wait_init true (Some 0%nat) 1 None.

Definition demo_pkb (text : list Z) : pkbuf :=
  mk_pkbuf 0 0 (54 + zlen text) 1 None None None (replicate 54 0 ++ text).

Definition demo_socks : sockstate :=
  set_sockets {[7%nat := demo_socket]}
    (set_tcp_st (set_tsks {[0%nat := demo_tsk]} (tcp_st sock_start)) (set_socks {[0%nat := demo_sock]} sock_start)).

Definition demo_stack : stack :=
  mk_stack (mk_pkmem (<[1%nat := demo_pkb [99; 100; 101; 102; 103; 104; 105; 106]]> {[0%nat := demo_pkb [105; 106; 107]]}) 2%nat 2 0)
    ∅ [] 0%nat [] arp_cache_start [] 0%nat 0 ∅ [] demo_socks.

Definition demo_hdr : tcp := mk_tcp 0 0 0 0 0 5 0 0 0 1 1 0 0 0 0 0 0.
Definition demo_seg : tcp_segment := mk_seg 99 0 106 8 8 0 0 0 54 1%nat demo_hdr.
Definition demo_ptrs : Ptrs := fun _ => replicate 24 0.

Lemma demo_rcv : rcv_ok demo_stream 16 demo_tsk.
Proof. split; by vm_compute. Qed.

Lemma demo_conn : conn_inv demo_stream 16 demo_stack 0%nat demo_tsk.
Proof.
  split; [split; [exists demo_sock; reflexivity|reflexivity]|apply demo_rcv|by vm_compute| |by vm_compute; constructor; [intros ?%elem_of_nil|constructor]].
  constructor; [|constructor]. exists (demo_pkb [105; 106; 107]). split_and!; [reflexivity|by vm_compute..].
Qed.


