(* ===== verification/Udp.v ===== *)
(** * UDP: udp/udp.c and the sending half of udp/udp_sock.c *)

From stdpp Require Import prelude list gmap.
From Stdlib Require Import ZArith Lia.
From S2P Require Import Prelude Structs Checksum Route Pkb FastPipe ArpCache Sock TcpTable Stack Arp IpOut Icmp Raw.

(** Receive callbacks installed by applications. *)
Class App := rx_cb : nat -> pid -> comp stack unit.

(** ** The code *)

Section Udp.
Context `{OS} `{Reentry} `{App}.

(** The callback of the socket of a sock. *)
Definition sk_callback (k : sock) : comp stack (option nat) :=
  match sk_socket k with
  | None => ret None
  | Some so =>
      let* o := gets (fun s => sockets (st_sock s) !! so) in
      let* v := of_opt UseAfterFree o in
      ret (so_rx_cb v)
  end.

(** With a callback the reference that udp_lookup_sock took is kept. *)
Definition udp_recv (pkb : pid) (u : udp) : comp stack unit :=
  let* o := on_sock (udp_lookup_sock (udp_dst u)) in
  match o with
  | None =>
      icmp_send ICMP_T_DESTUNREACH ICMP_PORT_UNREACH 0 pkb;;
      free_pkb pkb
  | Some sk =>
      let* k := on_sock (ld_sk sk) in
      let* cb := sk_callback k in
      match cb with
      | Some f => rx_cb f pkb;; free_pkb pkb
      | None =>
          enqueue sk pkb;;
          on_sock (free_sock sk)
      end
  end.

Definition udp_in (pkb : pid) : comp stack unit :=
  let* h := ld_ip pkb in
  let off := ETH_HRD_SZ + iphlen h in
  let udplen := ipdlen h in
  if udplen <? UDP_HRD_SZ then free_pkb pkb
  else
    let* u := ld_at udp pkb off in
    if udplen <? _ntohs (udp_length u) then free_pkb pkb
    else
      let udplen := if _ntohs (udp_length u) <? udplen then _ntohs (udp_length u) else udplen in
      let* seg := ld_bytes pkb off udplen in
      if negb (udp_checksum u =? 0) && negb (udp_chksum (ip_src h) (ip_dst h) (u16 udplen) seg =? 0)
      then free_pkb pkb
      else udp_recv pkb u.

Definition udp_send_pkb (sk : skid) (pkb : pid) : comp stack Z :=
  ip_send_out pkb;;
  let* k := ld pkb in
  ret (pk_len k - ETH_HRD_SZ - IP_HRD_SZ - UDP_HRD_SZ).

(** udp_set_checksum on the segment behind a 20-byte header. *)
Definition udp_set_checksum (pkb : pid) : comp stack unit :=
  let off := ETH_HRD_SZ + IP_HRD_SZ in
  let* h := ld_ip pkb in
  let* u := ld_at udp pkb off in
  let* seg := ld_bytes pkb off (_ntohs (udp_length u)) in
  st_bytes pkb off (udp_set_checksum_bytes (ip_src h) (ip_dst h) seg).

Definition udp_init_pkb (sk : skid) (pkb : pid) (buf : list Z) (dst_a dst_p : Z) : comp stack Z :=
  let* k := on_sock (ld_sk sk) in
  let* id := gets (fun s => udp_id (st_sock s)) in
  let* b := ld pkb in
  upd_ip pkb (fun h =>
    mk_ip (Z.shiftr IP_HRD_SZ 2) IP_VERSION_4 0 (_htons (u16 (pk_len b - ETH_HRD_SZ))) (_htons id) 0
      UDP_DEFAULT_TTL (protocol k) (ip_cksum h) (ip_src h) dst_a);;
  let* r := rt_output pkb in
  if r <? 0 then ret (-1)
  else
    let off := ETH_HRD_SZ + IP_HRD_SZ in
    let* u := ld_at udp pkb off in
    st_at pkb off (mk_udp (sk_sport k) dst_p (_htons (u16 (zlen buf + UDP_HRD_SZ))) (udp_checksum u));;
    st_bytes pkb (off + UDP_HRD_SZ) buf;;
    udp_set_checksum pkb;;
    ret 0.

(** The destination is the argument, or the connected peer; with neither, the
    local variable is read uninitialised. *)
Definition udp_send_buf (sk : skid) (buf : list Z) (skaddr : option sock_addr) : comp stack Z :=
  let size := zlen buf in
  if (size <=? 0) || (UDP_MAX_BUFSZ <? size) then ret (-1)
  else
    let* k := on_sock (ld_sk sk) in
    let* '(da, dp) :=
      match skaddr with
      | Some a => ret (dst_addr a, dst_port a)
      | None => if negb (sk_dport k =? 0) then ret (sk_daddr k, sk_dport k) else fail Undefined
      end in
    if (da =? 0) || (dp =? 0) then ret (-1)
    else
      let* r := if sk_sport k =? 0 then on_sock (sock_autobind sk) else ret 0 in
      if r <? 0 then ret (-1)
      else
        let* pkb := alloc_pkb (ETH_HRD_SZ + IP_HRD_SZ + UDP_HRD_SZ + size) in
        let* r := udp_init_pkb sk pkb buf da dp in
        if r <? 0 then free_pkb pkb;; ret (-1)
        else udp_send_pkb sk pkb.

End Udp.
