(* ===== verification/IpIn.v ===== *)
(** * IP input and forwarding: ip/ip_in.c, ip/ip_forward.c, rt_input of
    ip/route.c *)

From stdpp Require Import prelude list gmap.
From Stdlib Require Import ZArith Lia.
From S2P Require Import Prelude Structs Checksum Route Pkb FastPipe ArpCache Sock TcpTable Stack Arp IpOut Icmp IpFrag Raw TcpOut TcpText TcpState Udp.

(** ** The code *)

Section In.
Context `{OS} `{Reentry} `{App} `{Ptrs}.

(** rt_input without CONFIG_TOP1. *)
Definition rt_input (pkb : pid) : comp stack Z :=
  let* h := ld_ip pkb in
  let* t := gets st_rt_head in
  match rt_lookup t (ip_dst h) with
  | None =>
      upd_ip pkb ip_ntoh;;
      icmp_send ICMP_T_DESTUNREACH ICMP_NET_UNREACH 0 pkb;;
      free_pkb pkb;;
      ret (-1)
  | Some rt => upd pkb (fun k => set_pk_rtdst k (Some rt));; ret 0
  end.

(** The redirect part of ip_forward. *)
Definition forward_redirect (indev : option devid) (rt : rtentry) (dst : Z) (pkb : pid)
    : comp stack unit :=
  if bool_decide (indev = Some (rt_dev rt)) then
    let* h := ld_ip pkb in
    let* t := gets st_rt_head in
    match rt_lookup t (ip_src h) with
    | Some srt =>
        when ((rt_metric srt =? 0) && equsubnet (rt_netmask srt) (ip_src h) dst)
          (icmp_send ICMP_T_REDIRECT ICMP_REDIRECT_HOST dst pkb)
    | None => ret tt
    end
  else ret tt.

Definition ip_forward (pkb : pid) : comp stack unit :=
  let* h := ld_ip pkb in
  let* k := ld pkb in
  let* rt := of_opt NullDeref (pk_rtdst k) in
  let indev := pk_indev k in
  if ip_ttl h <=? 1 then
    icmp_send ICMP_T_TIMEEXCEED ICMP_EXC_TTL 0 pkb;;
    free_pkb pkb
  else
    upd_ip pkb (fun h => set_ip_ttl h (u8 (ip_ttl h - 1)));;
    ip_set_checksum pkb;;
    let dst := next_hop rt h in
    forward_redirect indev rt dst pkb;;
    let* h := ld_ip pkb in
    let* v := ld_dev (rt_dev rt) in
    if net_mtu v <? _ntohs (ip_len h) then
      if negb (Z.land (ip_fragoff h) (_htons IP_FRAG_DF) =? 0) then
        icmp_send ICMP_T_DESTUNREACH ICMP_FRAG_NEEDED 0 pkb;;
        free_pkb pkb
      else ip_send_frag (rt_dev rt) pkb
    else ip_send_dev (rt_dev rt) pkb.

Definition ip_deliver (pkb : pid) : comp stack unit :=
  raw_in pkb;;
  let* h := ld_ip pkb in
  if ip_pro h =? IP_P_ICMP then icmp_in pkb
  else if ip_pro h =? IP_P_TCP then tcp_in pkb
  else if ip_pro h =? IP_P_UDP then udp_in pkb
  else free_pkb pkb.

Definition ip_recv_local (pkb : pid) : comp stack unit :=
  let* h := ld_ip pkb in
  if negb (Z.land (ip_fragoff h) (Z.lor IP_FRAG_OFF IP_FRAG_MF) =? 0) then
    if negb (Z.land (ip_fragoff h) IP_FRAG_DF =? 0) then free_pkb pkb
    else
      let* o := ip_reass pkb in
      match o with
      | None => ret tt
      | Some pkb => ip_deliver pkb
      end
  else ip_deliver pkb.

Definition ip_recv_route (pkb : pid) : comp stack unit :=
  let* r := rt_input pkb in
  if r <? 0 then ret tt
  else
    let* k := ld pkb in
    let* rt := of_opt NullDeref (pk_rtdst k) in
    if negb (Z.land (rt_flags rt) RT_LOCALHOST =? 0) then ip_recv_local pkb
    else
      upd_ip pkb ip_ntoh;;
      ip_forward pkb.

Definition ip_in (dev : devid) (pkb : pid) : comp stack unit :=
  let* k := ld pkb in
  if pk_type k =? PKT_OTHERHOST then free_pkb pkb
  else if pk_len k <? ETH_HRD_SZ + IP_HRD_SZ then free_pkb pkb
  else
    let* h := ld_ip pkb in
    if negb (ip_ver h =? IP_VERSION_4) then free_pkb pkb
    else
      let hlen := iphlen h in
      if hlen <? IP_HRD_SZ then free_pkb pkb
      else
        let* hdr := ld_bytes pkb ETH_HRD_SZ hlen in
        if negb (ip_chksum hdr =? 0) then free_pkb pkb
        else
          let h := ip_ntoh h in
          st_ip pkb h;;
          if (ip_len h <? hlen) || (pk_len k <? ETH_HRD_SZ + ip_len h) then free_pkb pkb
          else
            when (ETH_HRD_SZ + ip_len h <? pk_len k) (pkb_trim pkb (ETH_HRD_SZ + ip_len h));;
            ip_recv_route pkb.

End In.
