(* ===== verification/NetIn.v ===== *)
(** * Link input: net/net.c, and the receive functions of the devices

    [net_in] closes the loop of the stack: a frame sent on the loopback device
    is given back to net_in.  [stack_net_in n] is net_in with at most [n]
    nested frames. *)

From stdpp Require Import prelude list gmap.
From Stdlib Require Import ZArith Lia.
From S2P Require Import Prelude Structs Checksum Route Pkb FastPipe ArpCache Sock TcpTable Stack Arp IpOut Icmp IpFrag Raw TcpOut TcpText TcpState Udp IpIn.

(** ** The code *)

Section Net.
Context `{OS} `{App} `{Ptrs}.

(** A runt frame is freed, and its length read for the message afterwards. *)
Definition eth_init (dev : devid) (pkb : pid) : comp stack bool :=
  let* k := ld pkb in
  if pk_len k <? ETH_HRD_SZ then
    free_pkb pkb;;
    ld pkb;;
    ret false
  else
    let* e := ld_at ether pkb 0 in
    let* v := ld_dev dev in
    let type :=
      if is_eth_multicast (eth_dst e) then
        if is_eth_broadcast (eth_dst e) then PKT_BROADCAST else PKT_MULTICAST
      else if hwacmp_eq (eth_dst e) (net_hwaddr v) then PKT_LOCALHOST
      else PKT_OTHERHOST in
    upd pkb (fun k => set_pk_pro (set_pk_type k type) (_ntohs (eth_pro e)));;
    ret true.

(** A RARP frame is neither handled nor freed. *)
Definition net_in `{Reentry} (dev : devid) (pkb : pid) : comp stack unit :=
  let* ok := eth_init dev pkb in
  if negb ok then ret tt
  else
    upd pkb (fun k => set_pk_indev k (Some dev));;
    let* k := ld pkb in
    if pk_pro k =? ETH_P_RARP then ret tt
    else if pk_pro k =? ETH_P_ARP then arp_in dev pkb
    else if pk_pro k =? ETH_P_IP then ip_in dev pkb
    else free_pkb pkb.

Fixpoint stack_net_in (n : nat) (dev : devid) (pkb : pid) : comp stack unit :=
  match n with
  | O => out_of_fuel
  | S m => @net_in {| net_input := stack_net_in m; queue_fuel := m |} dev pkb
  end.

(** The stack with nesting bound [n], as the timers and the users of IP see it. *)
Definition reentry (n : nat) : Reentry := {| net_input := stack_net_in n; queue_fuel := n |}.

(** veth_rx and the body of the loop of physical_eth_poll: a buffer for a frame of
    the device, read(2), whose result and bytes are given, net_in or free. *)
Definition rx_frame (n : nat) (dev : devid) (l : Z) (bytes : list Z) : comp stack unit :=
  let* v := ld_dev dev in
  let* pkb := alloc_netdev_pkb (net_mtu v) in
  if l <=? 0 then
    upd_stats dev count_rx_error;;
    free_pkb pkb
  else
    st_bytes pkb 0 bytes;;
    upd_stats dev (count_rx l);;
    upd pkb (fun k => set_pk_len k l);;
    stack_net_in n dev pkb.

(** shmeth_rx_thread allocates a buffer, then tries to read a packet into it
    until the ring has one, and handles it. *)
Definition shmeth_rx_alloc (dev : devid) : comp stack pid :=
  let* v := ld_dev dev in alloc_netdev_pkb (net_mtu v).

Definition shmeth_rx_try (n : nat) (dev : devid) (seg : nat) (side : shmeth_side_t) (pkb : pid)
    : comp stack bool :=
  let* k := ld pkb in
  let* o := on_segment seg (shmeth_read_packet side (pk_len k)) in
  match o with
  | None => ret false
  | Some bytes =>
      st_bytes pkb 0 bytes;;
      upd pkb (fun k => set_pk_len k (zlen bytes));;
      upd_stats dev (count_rx (zlen bytes));;
      stack_net_in n dev pkb;;
      ret true
  end.

(** One second of net_timer. *)
Definition net_timer_tick (n : nat) : comp stack unit :=
  @arp_timer _ (reentry n) 1;;
  @ip_timer _ (reentry n) 1.

End Net.
