(* ===== verification/SafeIn.v ===== *)
(** * Safety of the receive path

    Any frame a device hands to net_in - forwarded, reassembled, answered,
    queued for ARP or dropped - leaves the stack in the ownership invariant.
    The nesting through the loopback device is closed by induction. *)

From stdpp Require Import prelude list gmap.
From Stdlib Require Import ZArith Lia.
From S2P Require Import Prelude Structs Checksum Route Pkb FastPipe ArpCache Sock TcpTable Stack Arp IpOut Icmp IpFrag Own SafeNet SafeIp SafeFrag Raw TcpOut TcpText TcpState SafeTcp Udp IpIn NetIn.

Section Safe.
Context (D : gmap devid netdev) (HD : map_Forall (fun _ => dev_ok) D).
Context {os : OS} {app : App} {ptrs : Ptrs}.
Implicit Types (s : stack) (p q : pid) (k : pkbuf) (H K : list pid).

Section Nested.
Context {re : Reentry} {reok : ReentryOk D}.

(** ** Routing *)

(** An error message about the packet, which is then dropped. *)
Lemma icmp_send_free_ok type code data :
  0 <= type <= 18 -> consumes D (fun p => icmp_send type code data p;; free_pkb p) net_pkt.
Proof.
  intros Ht s p k H K Hr HpK Hk Hn. apply wp_bind.
  eapply wp_mono; [apply (icmp_send_ok D HD type code data s (p :: H) (p :: K) p k Ht Hr); [set_solver|done|done]|].
  intros [] s1 Hk1. by apply (consumes_from D _ _ _ _ _ k _ _ (free_consumes D)).
Qed.

Lemma host_net_ready s p k H K :
  ready D s (p :: H) (p :: K) -> live s p k -> host_pkt k ->
  let k' := store_ip k (ip_ntoh (hdr_of k)) in
  ready D (with_pkb s p k') (p :: H) (p :: K) /\ net_pkt k'.
Proof.
  intros Hr Hk Hh k'. split; [by apply ready_st_ip|]. apply host_net; [|done]. by apply (inv_bytes D s (p :: H) p k (proj1 Hr)).
Qed.

Lemma rt_input_ok s p k H K :
  ready D s (p :: H) (p :: K) -> p ∉ K -> live s p k -> host_pkt k ->
  wp (rt_input p) (fun r s' => r < 0 /\ kept D s H K s' \/
     r = 0 /\ exists rt, is_Some (D !! rt_dev rt) /\ s' = with_pkb s p (set_pk_rtdst k (Some rt)) /\
       ready D s' (p :: H) (p :: K)) s.
Proof.
  intros Hr HpK Hk Hh. destruct (Hh) as ([Hl _ _] & _). unfold rt_input. apply wp_bind. eapply wp_ld_ip; [done|lia|].
  apply wp_bind, wp_gets. destruct (rt_lookup _ _) as [rt|] eqn:El.
  - apply wp_bind. eapply wp_upd; [done|]. apply wp_ret. right. split; [done|]. exists rt.
    assert (HDr : is_Some (D !! rt_dev rt)).
    { pose proof (i_rt _ _ _ (proj1 Hr)) as Hf. rewrite Forall_forall in Hf. apply Hf. by eapply rt_lookup_in. }
    split_and!; [done|done|]. eapply ready_put; [exact Hr|exact Hk|done|by apply (inv_bytes D s (p :: H) p k (proj1 Hr))|].
    by intros ? [= <-].
  - apply wp_bind. eapply wp_upd_ip; [done|lia|].
    destruct (host_net_ready s p k H K Hr Hk Hh) as [Hr1 Hn1].
    rewrite wp_bind_assoc. apply wp_bind.
    eapply wp_mono; [by apply (consumes_with D _ _ _ _ _ _ _ (icmp_send_free_ok ICMP_T_DESTUNREACH ICMP_NET_UNREACH 0 ltac:(done)) Hr1)|].
    intros [] s' Hk'. apply wp_ret. by left.
Qed.

(** ** Forwarding *)

Lemma forward_redirect_ok indev rt dst s H K p k :
  ready D s H K -> p ∈ K -> live s p k -> net_pkt k ->
  wp (forward_redirect indev rt dst p) (fun _ => kept D s H K) s.
Proof.
  intros Hr Hp Hk Hn. destruct (Hn) as ([Hl _ _] & _). unfold forward_redirect.
  case_if; [|by apply wp_ret, kept_refl]. apply wp_bind. eapply wp_ld_ip; [done|lia|]. apply wp_bind, wp_gets.
  destruct (rt_lookup _ _) as [srt|]; [|by apply wp_ret, kept_refl].
  apply wp_when; intros _; [|by apply kept_refl]. by apply (icmp_send_ok D HD _ _ _ s H K p k).
Qed.

Lemma ip_forward_ok : consumes D ip_forward routed.
Proof.
  intros s p k H K Hr HpK Hk (Hn & Hpro & rt & Ert). destruct (Hn) as ([Hl Hh _] & _).
  pose proof (inv_bytes D _ _ _ _ (proj1 Hr) Hk) as Hb. pose proof (hdr_wf k Hb ltac:(lia)) as Hw. unfold ip_forward.
  apply wp_bind. eapply wp_ld_ip; [done|lia|]. apply wp_bind. eapply wp_ld; [done|].
  apply wp_bind. rewrite Ert. eapply wp_of_opt; [done|]. cbv zeta.
  case_if; [by apply (icmp_send_free_ok ICMP_T_TIMEEXCEED ICMP_EXC_TTL 0 ltac:(done) s p k)|].
  apply wp_bind. eapply wp_upd_ip; [done|lia|]. set (h1 := set_ip_ttl _ _). set (k1 := store_ip k h1).
  assert (Hw1 : wf_struct h1).
  { pose proof (u8_range (ip_ttl (hdr_of k) - 1)) as Hu. unfold h1. cbn in Hw |- *. tauto. }
  assert (Eh1 : hdr_of k1 = h1) by (apply hdr_store; [lia|done]).
  assert (Hr1 : ready D (with_pkb s p k1) (p :: H) (p :: K)) by by apply ready_st_ip.
  assert (Hl1 : zlen (pk_data k1) = zlen (pk_data k)) by (apply store_ip_len; lia).
  apply wp_bind. eapply wp_set_checksum; [apply Hr1|apply live_with|lia|by rewrite Eh1|]. intros c Hc.
  rewrite Eh1, with_with. unfold k1. rewrite store_ip_store_ip by lia. set (k2 := store_ip k _).
  assert (Hw2 : wf_struct (set_ip_cksum h1 c)) by by apply set_cksum_wf.
  assert (Hr2 : ready D (with_pkb s p k2) (p :: H) (p :: K)) by by apply ready_st_ip.
  assert (Hn2 : net_pkt k2) by by apply net_pkt_upd.
  assert (Hrt2 : routed k2) by (split_and!; [done|done|by exists rt]).
  destruct (Hn2) as ([Hl2 _ _] & _).
  apply wp_bind. eapply wp_mono; [apply (forward_redirect_ok _ rt _ _ (p :: H) (p :: K) p k2 Hr2); [set_solver|apply live_with|done]|].
  intros [] s3 Hk3. assert (Hl3 : live s3 p k2) by (eapply kept_live; [exact Hk3|set_solver|apply live_with]).
  pose proof (i_rtdst _ _ _ (proj1 Hr) p k rt Hk Ert) as HDr. destruct (HDr) as [v Hv].
  apply wp_bind. eapply wp_ld_ip; [done|lia|]. apply wp_bind.
  eapply wp_ld_dev; [apply Hk3|done|]. intros v' _.
  assert (Hend : forall f P, consumes D f P -> P k2 -> wp (f p) (fun _ => kept D s H K) s3).
  { intros f P Hf HP. eapply wp_mono; [by apply (consumes_from D f P (with_pkb s p k2) s3 p k2 H K Hf Hr2 Hk3 HpK (live_with _ _ _))|].
    intros [] s'. by apply kept_with. }
  case_if; [case_if|].
  - by apply (Hend _ _ (icmp_send_free_ok ICMP_T_DESTUNREACH ICMP_FRAG_NEEDED 0 ltac:(done))).
  - by apply (Hend _ _ (ip_send_frag_ok D HD _ HDr)).
  - by apply (Hend _ _ (ip_send_dev_ok D HD _ HDr)).
Qed.

(** ** Local delivery *)

(** Without raw sockets raw_in only looks. *)
Lemma raw_in_ok s H p k : inv D s H -> live s p k -> 34 <= zlen (pk_data k) -> raw_in p s = Ret tt s.
Proof.
  intros Hi Hk Hl. unfold raw_in. erewrite bind_ok.
  2: { apply (ld_at_ok ip s p k ETH_HRD_SZ); [done|done|done|change (sizeof ip) with 20; change ETH_HRD_SZ with 14; lia]. }
  erewrite bind_ok; [|unfold on_sock, raw_lookup_sock, bind, gets; rewrite (ns_raw _ (i_socks _ _ _ Hi)); reflexivity].
  cbn. by destruct s.
Qed.

Lemma ip_deliver_ok : consumes D ip_deliver host_pkt.
Proof.
  intros s p k H K Hr HpK Hk Hh. destruct (Hh) as ([Hl _ Hp] & _). unfold ip_deliver.
  apply wp_bind. eapply wp_ok; [apply (raw_in_ok s (p :: H) p k (proj1 Hr) Hk); lia|].
  apply wp_bind. eapply wp_ld_ip; [done|lia|].
  case_if; [by apply (icmp_in_ok D HD s p k)|]. case_if; [by apply (tcp_in_ok D HD s p k)|].
  case_if; [by apply Z.eqb_eq in E1|]. by apply (free_consumes D s p k).
Qed.

Lemma ip_recv_local_ok : consumes D ip_recv_local host_pkt.
Proof.
  intros s p k H K Hr HpK Hk Hh. destruct (Hh) as ([Hl _ Hp] & _). unfold ip_recv_local.
  apply wp_bind. eapply wp_ld_ip; [done|lia|]. case_if; [|by apply (ip_deliver_ok s p k)].
  case_if; [by apply (free_consumes D s p k)|]. apply wp_bind.
  eapply wp_mono; [by apply (ip_reass_ok D s p k H K)|]. intros [n|] s1; cbn [given]; [|intros; by apply wp_ret].
  intros (Hn & (kn & Hkn & Hhn) & Hr1 & Hsame & Hm).
  assert (HnK : n ∉ K) by (intros Hin; apply Hn; destruct Hr as (_ & _ & Hs); set_solver).
  eapply wp_mono; [by apply (ip_deliver_ok s1 n kn H K)|]. intros [] s2. by apply kept_from.
Qed.

Lemma ip_recv_route_ok : consumes D ip_recv_route (fun k => host_pkt k /\ pk_pro k = ETH_P_IP).
Proof.
  intros s p k H K Hr HpK Hk [Hh Hpro]. unfold ip_recv_route. apply wp_bind.
  eapply wp_mono; [by apply (rt_input_ok s p k H K)|]. intros r s1 [[Hneg Hk1]|(-> & rt & HDr & -> & Hr1)].
  { rewrite (proj2 (Z.ltb_lt r 0)) by done. by apply wp_ret. }
  cbn [Z.ltb Z.compare]. set (k1 := set_pk_rtdst k (Some rt)) in *.
  assert (Hh1 : host_pkt k1) by by apply (host_pkt_ext k).
  apply wp_bind. eapply wp_ld; [apply live_with|]. apply wp_bind. eapply wp_of_opt; [done|].
  case_if; [by apply (consumes_with D _ _ _ _ _ _ _ ip_recv_local_ok)|].
  destruct (host_net_ready _ p k1 H K Hr1 (live_with _ _ _) Hh1) as [Hr2 Hn2]. destruct (Hh1) as ([Hl1 _ _] & _).
  apply wp_bind. eapply wp_upd_ip; [apply live_with|lia|]. rewrite with_with in Hr2 |- *.
  apply (consumes_with D _ _ _ _ _ _ _ ip_forward_ok); [done|done|]. split_and!; [done|done|by exists rt].
Qed.

(** ** ip_in *)

Definition ip_in_pre k : Prop :=
  14 <= pk_len k <= zlen (pk_data k) /\ pk_pro k = ETH_P_IP /\
  (34 <= pk_len k -> ip_hlen (hdr_of k) <= 5 /\ ip_pro (hdr_of k) <> IP_P_UDP).

(** pkb_trim to the length of the datagram. *)
Definition trimmed k (len : Z) : pkbuf := set_pk_data (set_pk_len k len) (slice (pk_data k) 0 len).

Lemma wp_trim s p k len (Q : unit -> stack -> Prop) :
  live s p k -> 0 <= len <= zlen (pk_data k) -> Q tt (with_pkb s p (trimmed k len)) -> wp (pkb_trim p len) Q s.
Proof.
  intros Hk Hl HQ. unfold pkb_trim. apply wp_bind. eapply wp_ld; [done|]. apply wp_bind, wp_guard; [|done].
  apply andb_true_iff. lia.
Qed.

Lemma trimmed_host k len : host_pkt k -> 14 + ip_len (hdr_of k) = len -> host_pkt (trimmed k len).
Proof.
  intros ([Hl Hh Hp] & H1 & H2) El.
  assert (Eh : hdr_of (trimmed k len) = hdr_of k).
  { unfold hdr_of, trimmed. cbn [pk_data set_pk_data]. f_equal. rewrite slice_slice; [done|done|done|].
    change ETH_HRD_SZ with 14. change IP_HRD_SZ with 20. lia. }
  unfold host_pkt. rewrite Eh. cbn [pk_len trimmed set_pk_data set_pk_len]. split_and!; [|done|lia].
  split; rewrite ?Eh; try done. cbn [pk_len trimmed set_pk_data set_pk_len pk_data]. rewrite zlen_slice by lia. lia.
Qed.

Lemma ip_in_ok dev : consumes D (ip_in dev) ip_in_pre.
Proof.
  intros s p k H K Hr HpK Hk (Hl & Hpro & Hip). unfold ip_in.
  assert (Hfree : wp (free_pkb p) (fun _ => kept D s H K) s) by by apply (free_consumes D s p k).
  pose proof (inv_bytes D _ _ _ _ (proj1 Hr) Hk) as Hb.
  apply wp_bind. eapply wp_ld; [done|]. case_if; [done|]. case_if; [done|]. change (ETH_HRD_SZ + IP_HRD_SZ) with 34 in *.
  apply Z.ltb_ge in E0. destruct (Hip E0) as [Hh5 Hudp]. pose proof (hdr_wf k Hb ltac:(lia)) as Hw.
  apply wp_bind. eapply wp_ld_ip; [done|lia|]. case_if; [done|]. cbv zeta. case_if; [done|].
  assert (Hh : ip_hlen (hdr_of k) = 5).
  { apply Z.ltb_ge in E2. unfold iphlen in E2. rewrite Z.shiftl_mul_pow2 in E2 by lia. change IP_HRD_SZ with 20 in E2. lia. }
  rewrite iphlen_5 by done. apply wp_bind. eapply wp_ld_bytes; [done|done|done|change ETH_HRD_SZ with 14; lia|].
  case_if; [done|]. set (h := ip_ntoh (hdr_of k)). assert (Hwh : wf_struct h) by by apply ip_ntoh_wf.
  apply wp_bind. eapply wp_st_ip; [done|lia|]. set (k1 := store_ip k h).
  assert (Hr1 : ready D (with_pkb s p k1) (p :: H) (p :: K)) by by apply ready_st_ip.
  destruct (_ || _) eqn:Eb; [by apply (consumes_with D _ _ _ _ _ _ _ (free_consumes D))|].
  apply orb_false_iff in Eb as [Eb1 Eb2]. apply Z.ltb_ge in Eb1, Eb2. change ETH_HRD_SZ with 14 in *.
  assert (Hh1 : host_pkt k1) by (apply host_pkt_store; try done; lia).
  assert (Eh1 : hdr_of k1 = h) by (apply hdr_store; [lia|done]).
  assert (Hl1 : zlen (pk_data k1) = zlen (pk_data k)) by (apply store_ip_len; lia).
  apply wp_bind. apply wp_when; intros _.
  - eapply wp_trim; [apply live_with|lia|]. rewrite with_with.
    apply (consumes_with D _ _ _ _ _ _ _ ip_recv_route_ok); [|done|].
    + rewrite <- (with_with s p k1). eapply ready_put; [exact Hr1|apply live_with|done| |].
      * cbn [trimmed pk_data set_pk_data]. apply bytes_ok_slice. by apply (inv_bytes D _ _ p k1 (proj1 Hr1) (live_with _ _ _)).
      * intros rt Hrt. by apply (i_rtdst _ _ _ (proj1 Hr) p k rt).
    + split; [|done]. apply trimmed_host; [done|by rewrite Eh1].
  - by apply (consumes_with D _ _ _ _ _ _ _ ip_recv_route_ok).
Qed.

(** ** net_in *)

Lemma eth_type_ok pro : is_u16 pro -> (_ntohs pro = ETH_P_RARP -> pro = _htons ETH_P_RARP) /\
  (_ntohs pro = ETH_P_IP -> pro = _htons ETH_P_IP).
Proof.
  intros Hp. unfold _ntohs. split; intros E; rewrite <- E; by rewrite htons_involutive.
Qed.

Lemma net_in_ok dev : is_Some (D !! dev) -> consumes D (net_in dev) frame_ok.
Proof.
  intros HDd s p k H K Hr HpK Hk (Hl & Hrarp & Hip). unfold net_in, eth_init. apply wp_bind, wp_bind. eapply wp_ld; [done|].
  case_if; [apply Z.ltb_lt in E; change ETH_HRD_SZ with 14 in E; lia|].
  pose proof (inv_bytes D _ _ _ _ (proj1 Hr) Hk) as Hb.
  apply wp_bind. eapply wp_ok; [by apply (ld_at_ok ether s p k 0); [| |change (sizeof ether) with 14|change (sizeof ether) with 14; lia]|].
  change (decode (slice (pk_data k) 0 (sizeof ether))) with (eth_of k).
  assert (Hpro : is_u16 (eth_pro (eth_of k))).
  { assert (Hw : wf_struct (eth_of k)) by (apply decode_wf; [by apply bytes_ok_slice|apply zlen_slice; change (sizeof ether) with 14; change ETH_HRD_SZ with 14; lia]).
    apply Hw. }
  destruct (eth_type_ok _ Hpro) as [HR HI].
  destruct (HDd) as [v Hv]. apply wp_bind. eapply wp_ld_dev; [apply Hr|done|]. intros v' _. cbv zeta.
  set (ty := if is_eth_multicast _ then _ else _). apply wp_bind. eapply wp_upd; [done|]. apply wp_ret. cbn [negb].
  apply wp_bind. eapply wp_upd; [apply live_with|]. rewrite with_with.
  set (k1 := set_pk_indev _ _).
  assert (Hr1 : ready D (with_pkb s p k1) (p :: H) (p :: K)).
  { eapply ready_put; [exact Hr|exact Hk|done|done|]. intros rt Hrt. by apply (i_rtdst _ _ _ (proj1 Hr) p k rt). }
  apply wp_bind. eapply wp_ld; [apply live_with|].
  cbn [pk_pro k1 set_pk_indev set_pk_pro set_pk_type].
  case_if; [apply Z.eqb_eq in E0; by destruct Hrarp; apply HR|].
  case_if; [by apply (consumes_with D _ _ _ _ _ _ _ (arp_in_ok D HD dev HDd))|].
  case_if; [|by apply (consumes_with D _ _ _ _ _ _ _ (free_consumes D))]. apply Z.eqb_eq in E2.
  apply (consumes_with D _ _ _ _ _ _ _ (ip_in_ok dev)); [done|done|]. split_and!; [apply Hl|apply Hl|done|].
  intros H34. apply Hip; [by apply HI|exact H34].
Qed.

End Nested.

(** ** The knot *)

Lemma stack_net_in_ok n dev : is_Some (D !! dev) -> consumes D (stack_net_in n dev) frame_ok.
Proof.
  revert dev. induction n as [|n IH]; intros dev HDd; [by intros s p k H K _ _ _ _|].
  cbn [stack_net_in]. by apply @net_in_ok; [exact IH|].
Qed.

End Safe.
