(* ===== verification/Sample.v ===== *)
(** * A sample host

    A state of the whole stack and frames for it, on which the theorems are
    applied: 10.0.0.1 on a tap device, the loopback device, and a peer 10.0.0.2. *)

From stdpp Require Import prelude list gmap.
From Stdlib Require Import ZArith Lia.
From S2P Require Import Prelude Structs Checksum Route Pkb FastPipe ArpCache Sock TcpTable Stack Arp IpOut Icmp IpFrag Raw TcpOut TcpText TcpState Udp IpIn NetIn.

(** ** The state *)

(** The state after the initialisation of the stack with devices [devs] and
    routes [rts]. *)
Definition boot (devs : gmap devid netdev) (rts : list rtentry) : stack :=
  mk_stack (mk_pkmem ∅ 0%nat 0 0) devs (fst <$> map_to_list devs) 0%nat rts arp_cache_start [] 0%nat 0 ∅ [] sock_start.

Definition sample_hw : list Z := [2; 0; 0; 0; 0; 1].
Definition peer_hw : list Z := [2; 0; 0; 0; 0; 2].
Definition sample_ip : Z := 0x0100000a.
Definition peer_ip : Z := 0x0200000a.

Definition sample_devs : gmap devid netdev :=
  {[ 0%nat := loop_dev_init (mk_netdev 0 0 0 (replicate 6 0) (dev_name [108; 111]) loop_ops zero_stats);
     1%nat := mk_netdev 1500 sample_ip 0x00ffffff sample_hw (dev_name [118]) veth_ops zero_stats ]}.

Definition sample_routes : list rtentry :=
  let t := rt_init LOOPBACK_IPADDR LOOPBACK_NETMASK 0%nat in
  let t := rt_add t sample_ip 0xffffffff 0 0 RT_LOCALHOST 0%nat in
  rt_add t 0x0000000a 0x00ffffff 0 0 RT_NONE 1%nat.

Definition sample_stack : stack := boot sample_devs sample_routes.

(** ** Frames *)

(** An ARP request for 10.0.0.1, and an echo request, both from 10.0.0.2. *)
Definition sample_arp_request : list Z :=
  encode (mk_ether (replicate 6 0xff) peer_hw (_htons ETH_P_ARP)) ++
  encode (mk_arp (_htons ARP_HRD_ETHER) (_htons ETH_P_IP) ETH_ALEN IP_ALEN (_htons ARP_OP_REQUEST)
            peer_hw peer_ip (replicate 6 0) sample_ip).

Definition sample_echo : list Z :=
  let msg := [8; 0; 0; 0; 18; 52; 0; 1; 1; 2; 3; 4] in
  let h := mk_ip 5 4 0 (_htons (20 + 12)) (_htons 7) 0 64 IP_P_ICMP 0 peer_ip sample_ip in
  encode (mk_ether sample_hw peer_hw (_htons ETH_P_IP)) ++ ip_set_checksum_bytes (encode h) ++
  put16 msg 2 (icmp_chksum msg).

(** A TCP segment from the peer, with its checksums: ports in host order. *)
Definition tcp_frame (sport dport seq ackn : Z) (fin syn rst psh ack : Z) (window : Z) (text : list Z) : list Z :=
  let t := mk_tcp (_htons sport) (_htons dport) (_htonl seq) (_htonl ackn) 0 5 fin syn rst psh ack 0 0 0
             (_htons window) 0 0 in
  let h := mk_ip 5 4 0 (_htons (40 + zlen text)) (_htons 9) 0 64 IP_P_TCP 0 peer_ip sample_ip in
  encode (mk_ether sample_hw peer_hw (_htons ETH_P_IP)) ++ ip_set_checksum_bytes (encode h) ++
  tcp_set_checksum_bytes peer_ip sample_ip (encode t ++ text).

(** The first segment of a connection to port 80. *)
Definition sample_syn : list Z := tcp_frame 40000 80 1000 0 0 1 0 0 0 8192 [].

(** ** Parameters: a device that writes every frame, applications that do nothing,
    and list nodes of zeros *)

Definition sample_os : OS := fun _ _ b => zlen b.
Definition sample_app : App := fun _ _ => ret tt.
Definition sample_ptrs : Ptrs := fun _ => replicate 24 0.
#[export] Existing Instances sample_os sample_app sample_ptrs.
