(* ===== verification/FragOut.v ===== *)
(** * Fragments on the wire

    What ip_send_frag writes to the device: the datagram cut into pieces, each
    behind a header of its own.  The pieces are also what the receiver gets
    (Fragments). *)

From stdpp Require Import prelude list gmap.
From Stdlib Require Import ZArith Lia.
From S2P Require Import Prelude Structs Checksum Route Pkb FastPipe ArpCache Sock Stack Arp IpOut Icmp IpFrag Own SafeNet SafeIp Wire Raw TcpOut TcpText TcpState Udp IpIn NetIn Sample.

(** ** The specification *)

(** A piece of a datagram: whether more follow, its offset and its bytes. *)
Record piece := mk_piece { more : bool; off_at : Z; bytes : list Z }.

(** The data [d], from offset [off] on, in pieces of [mlen] bytes. *)
Fixpoint pieces (n : nat) (mlen off : Z) (d : list Z) : list piece :=
  if mlen <? zlen d then
    match n with
    | O => []
    | S n => mk_piece true off (slice d 0 mlen) :: pieces n mlen (off + mlen) (slice d mlen (zlen d - mlen))
    end
  else if zlen d =? 0 then [] else [mk_piece false off d].

Definition mf_bit (b : bool) : Z := if b then IP_FRAG_MF else 0.

(** The packet that carries a piece of a datagram with header [h], in network
    order: header and data. *)
Definition piece_hdr (h : ip) (c : piece) : ip :=
  sealed (frag_hdr h (zlen (bytes c)) (off_at c) (mf_bit (more c))).

Definition piece_pkt (h : ip) (c : piece) : list Z := encode (piece_hdr h c) ++ bytes c.

(** The pieces of a datagram for a device with the given MTU. *)
Definition max_data (mtu : Z) : Z := Z.land (mtu - 20) (Z.lnot 7).
Definition cut (mtu : Z) (d : list Z) : list piece := pieces (length d) (max_data mtu) 0 d.

Definition piece_frame (dst src : list Z) (h : ip) (c : piece) : list Z :=
  encode (mk_ether dst src (_htons ETH_P_IP)) ++ piece_pkt h c.

(** ** Pieces *)

Section Pieces.
Implicit Types (d : list Z) (c : piece).

(** Pieces from [off] on, in order and without gaps; all but the last a multiple of
    [u] bytes long. *)
Fixpoint tiled (u off : Z) (cs : list piece) : Prop :=
  match cs with
  | [] => False
  | [c] => more c = false /\ off_at c = off /\ 0 < zlen (bytes c)
  | c :: r => more c = true /\ off_at c = off /\ 0 < zlen (bytes c) /\ zlen (bytes c) mod u = 0 /\
              tiled u (off + zlen (bytes c)) r
  end.

Lemma tiled_cons u off c r : r <> [] -> tiled u off (c :: r) <->
  more c = true /\ off_at c = off /\ 0 < zlen (bytes c) /\ zlen (bytes c) mod u = 0 /\ tiled u (off + zlen (bytes c)) r.
Proof. by destruct r. Qed.

Lemma max_data_ok mtu : 28 <= mtu -> 0 < max_data mtu <= mtu - 20 /\ max_data mtu mod 8 = 0.
Proof.
  intros Hm. split; [apply align8_pos; lia|]. unfold max_data. rewrite <- Z.ldiff_land. change 7 with (Z.ones 3).
  rewrite Z.ldiff_ones_r, Z.shiftr_div_pow2, Z.shiftl_mul_pow2 by lia. change (2 ^ 3) with 8. zmod.
Qed.

Lemma pieces_tiled u n mlen off d : 0 < mlen -> mlen mod u = 0 -> (length d <= n)%nat -> d <> [] ->
  tiled u off (pieces n mlen off d) /\ concat (bytes <$> pieces n mlen off d) = d /\
  Forall (fun c => zlen (bytes c) <= mlen) (pieces n mlen off d).
Proof.
  intros Hm Hm8. revert off d. induction n as [|n IH]; intros off d Hn Hd.
  { destruct d; [done|cbn in Hn; lia]. }
  assert (Hp : 0 < zlen d) by (destruct d; [done|unfold zlen; cbn; lia]). cbn [pieces].
  destruct (Z.ltb_spec mlen (zlen d)) as [Hlt|Hge].
  - assert (L1 : zlen (slice d 0 mlen) = mlen) by (apply zlen_slice; lia).
    assert (L2 : zlen (slice d mlen (zlen d - mlen)) = zlen d - mlen) by (apply zlen_slice; lia).
    destruct (IH (off + mlen) (slice d mlen (zlen d - mlen))) as (T & C & F).
    { unfold zlen in *. lia. }
    { intros E. rewrite E in L2. unfold zlen in L2 at 1. cbn in L2. lia. }
    split_and!.
    + apply tiled_cons; [intros E; by rewrite E in T|]. cbn [more off_at bytes]. rewrite L1. split_and!; done.
    + rewrite fmap_cons. cbn [concat bytes]. rewrite C, <- slice_split by lia.
      replace (mlen + (zlen d - mlen)) with (zlen d) by lia. by apply slice_full.
    + constructor; [cbn; lia|done].
  - rewrite (proj2 (Z.eqb_neq _ _)) by lia. split_and!.
    + done.
    + cbn. by rewrite app_nil_r.
    + constructor; [cbn; lia|constructor].
Qed.

Lemma cut_tiled mtu d : 28 <= mtu -> d <> [] ->
  tiled 8 0 (cut mtu d) /\ concat (bytes <$> cut mtu d) = d /\ Forall (fun c => zlen (bytes c) <= mtu - 20) (cut mtu d).
Proof.
  intros Hm Hd. destruct (max_data_ok mtu Hm) as [Hp H8].
  destruct (pieces_tiled 8 (length d) (max_data mtu) 0 d) as (T & C & F); [lia|done|done|done|].
  split; [done|]. split; [done|]. eapply Forall_impl; [exact F|]. cbn. intros c Hc. lia.
Qed.

End Pieces.

(** ** Runs *)

Section Runs.
Context {os : OS} {re : Reentry}.
Implicit Types (s : stack) (p q : pid) (k : pkbuf) (v : netdev).

(** The state with a new buffer. *)
Definition with_new s k : stack :=
  let m := st_pkmem s in
  set_pkmem (mk_pkmem (<[next_pid m := k]> (pkbs m)) (S (next_pid m)) (alloc_pkbs m + 1) (free_pkbs m)) s.

(** There is room for one more buffer, and the next address is free. *)
Definition roomy s : Prop :=
  alloc_pkbs (st_pkmem s) - free_pkbs (st_pkmem s) < MAX_PKBS /\
  forall q, (next_pid (st_pkmem s) <= q)%nat -> pkbs (st_pkmem s) !! q = None.

Lemma alloc_run s size : roomy s -> alloc_pkb size s = Ret (next_pid (st_pkmem s)) (with_new s (zero_pkb size)).
Proof.
  intros [Hr _]. unfold alloc_pkb, new_pkb. cbv zeta. cbn [st_mem stack_has_mem].
  by replace (MAX_PKBS <? _) with false by lia.
Qed.

Lemma live_new s k : live (with_new s k) (next_pid (st_pkmem s)) k.
Proof. apply lookup_insert_eq. Qed.

Lemma live_new_ne s k q kq : roomy s -> live s q kq -> live (with_new s k) q kq.
Proof.
  intros [_ Hf] Hq. unfold live in *. cbn. rewrite lookup_insert_ne; [done|]. intros <-. cbn in Hq. by rewrite Hf in Hq.
Qed.

Lemma with_new_with s k k' : with_pkb (with_new s k) (next_pid (st_pkmem s)) k' = with_new s k'.
Proof. unfold with_pkb, with_new. cbn. by rewrite insert_insert_eq. Qed.

(** A fragment in its buffer. *)
Definition piece_pkb k (c : piece) : pkbuf :=
  store_ip (frag_raw k (zlen (bytes c)) (off_at c)) (piece_hdr (hdr_of k) c).

Lemma ip_frag_run s p k c :
  roomy s -> live s p k -> bytes_ok (pk_data k) -> ip_hlen (hdr_of k) = 5 -> 0 <= off_at c ->
  34 + off_at c + zlen (bytes c) <= zlen (pk_data k) ->
  ip_frag p 20 (zlen (bytes c)) (off_at c) (mf_bit (more c)) s = Ret (next_pid (st_pkmem s)) (with_new s (piece_pkb k c)).
Proof.
  intros Hr Hk Hb Hh Ho Hl. set (dlen := zlen (bytes c)) in *. set (off := off_at c) in *.
  assert (Hd : 0 <= dlen) by apply zlen_nonneg. set (n := next_pid (st_pkmem s)).
  destruct (frag_raw_ok k dlen off Hb Hd Ho Hl) as (El & Hbr & Eh).
  assert (Hn : n <> p) by (intros E; pose proof (proj2 Hr p ltac:(subst n; lia)) as E'; assert (E2 : pkbs (st_pkmem s) !! p = Some k) by exact Hk; congruence).
  unfold ip_frag. change (ETH_HRD_SZ + 20) with 34. change ETH_HRD_SZ with 14. erewrite bind_ok by (by apply alloc_run). fold n.
  pose proof (live_new_ne s (zero_pkb (34 + dlen)) p k Hr Hk) as Hk1.
  pose proof (live_new s (zero_pkb (34 + dlen))) as Hn1. fold n in Hn1.
  erewrite bind_ok by (by apply ld_ok). erewrite bind_ok by (by apply upd_ok).
  erewrite bind_ok by (apply (ld_bytes_ok _ p k); [by apply live_with_ne|lia|lia|lia]).
  assert (Hs1 : zlen (slice (pk_data k) 14 20) = 20) by (apply zlen_slice; lia).
  assert (Hs2 : zlen (slice (pk_data k) (34 + off) dlen) = dlen) by (apply zlen_slice; lia).
  set (k1 := set_pk_rtdst _ _). assert (L1 : zlen (pk_data k1) = 34 + dlen) by (cbn; rewrite zlen_replicate; lia).
  erewrite bind_ok by (apply (st_bytes_ok _ n k1); [apply live_with|lia|lia]). rewrite with_with.
  erewrite bind_ok by (apply (ld_bytes_ok _ p k); [by apply live_with_ne|lia|lia|lia]).
  set (k2 := set_pk_data k1 _). assert (L2 : zlen (pk_data k2) = 34 + dlen) by (rewrite <- L1; apply (store_len k1); lia).
  erewrite bind_ok by (apply (st_bytes_ok _ n k2); [apply live_with|lia|lia]). rewrite with_with.
  change (set_pk_data k2 _) with (frag_raw k dlen off). set (kr := frag_raw k dlen off) in *.
  erewrite bind_ok by (apply (upd_ip_run _ n kr); [apply live_with|lia]). rewrite with_with, Eh.
  fold (frag_hdr (hdr_of k) dlen off (mf_bit (more c))). set (h := frag_hdr (hdr_of k) dlen off (mf_bit (more c))).
  assert (Hw : wf_struct h) by (apply frag_hdr_wf, hdr_wf; [done|lia]).
  assert (Eh' : hdr_of (store_ip kr h) = h) by (apply hdr_store; [lia|done]).
  erewrite bind_ok.
  2: { apply (ip_set_checksum_run _ n (store_ip kr h)); [apply live_with| |rewrite store_ip_len; lia|by rewrite Eh'].
       unfold store_ip, store. cbn [pk_data set_pk_data]. apply bytes_ok_patch; [done|apply ip_encode_ok]. }
  rewrite Eh', with_with, store_ip_store_ip by lia. by rewrite with_new_with.
Qed.

(** The bytes of the fragment. *)
Lemma piece_pkb_data k c :
  bytes_ok (pk_data k) -> 0 <= off_at c -> 34 + off_at c + zlen (bytes c) <= zlen (pk_data k) ->
  slice (pk_data k) (34 + off_at c) (zlen (bytes c)) = bytes c ->
  zlen (pk_data (piece_pkb k c)) = 34 + zlen (bytes c) /\ pk_len (piece_pkb k c) = 34 + zlen (bytes c) /\
  slice (pk_data (piece_pkb k c)) 14 (20 + zlen (bytes c)) = piece_pkt (hdr_of k) c.
Proof.
  intros Hb Ho Hl Hd. set (dlen := zlen (bytes c)) in *. assert (Hd0 : 0 <= dlen) by apply zlen_nonneg.
  destruct (frag_raw_ok k dlen (off_at c) Hb Hd0 Ho Hl) as (El & Hbr & Eh).
  split_and!; [unfold piece_pkb; fold dlen; by rewrite store_ip_len by lia|done|].
  unfold piece_pkt. rewrite (slice_split _ 14 20 dlen) by lia. f_equal.
  - unfold piece_pkb, store_ip, store. cbn [pk_data set_pk_data]. apply slice_patch_eq; [done|by rewrite ip_encode_len|].
    rewrite ip_encode_len. change ETH_HRD_SZ with 14. fold dlen. lia.
  - change (14 + 20) with 34. unfold piece_pkb, store_ip, store. cbn [pk_data set_pk_data]. fold dlen.
    rewrite slice_patch_after by (rewrite ?ip_encode_len; change ETH_HRD_SZ with 14; lia).
    unfold frag_raw, store. cbn [pk_data set_pk_data]. rewrite Hd. apply slice_patch_eq; [done|done|].
    rewrite zlen_patch; rewrite ?zlen_slice; cbn; rewrite ?zlen_replicate; lia.
Qed.

(** ** Sending *)

Lemma sent_refl s dev : sent s dev [] [] s.
Proof. split; try done; [set_solver|]. unfold zlen. cbn [length]. lia. Qed.

Lemma sent_trans s1 s2 s3 dev f1 f2 g1 g2 :
  sent s1 dev f1 g1 s2 -> sent s2 dev f2 g2 s3 -> sent s1 dev (f1 ++ f2) (g1 ++ g2) s3.
Proof.
  intros [W1 A1 F1 R1 D1 G1 K1 N1 C1 S1] [W2 A2 F2 R2 D2 G2 K2 N2 C2 S2]. split; try congruence; try lia.
  - by rewrite W2, W1, fmap_app, rev_app_distr, <- app_assoc.
  - intros q Hq. destruct (decide (q ∈ g2)) as [H2|H2]; [by apply G2|]. rewrite K2 by done.
    apply G1. set_solver.
  - intros q Hq. rewrite K2, K1; set_solver.
  - rewrite C2, C1, zlen_app. lia.
Qed.

(** A new buffer that is sent off leaves nothing behind. *)
Lemma sent_new s s' dev k fs :
  roomy s -> sent (with_new s k) dev fs [next_pid (st_pkmem s)] s' -> sent s dev fs [] s'.
Proof.
  intros [_ Hf] [W A F R D G K N C S]. split; try done; [set_solver| | |].
  - intros q _. destruct (decide (q = next_pid (st_pkmem s))) as [->|Hne].
    + rewrite G by set_solver. symmetry. by apply Hf.
    + rewrite K by set_solver. cbn. by rewrite lookup_insert_ne.
  - cbn in N. lia.
  - rewrite C. change (alloc_pkbs (st_pkmem (with_new s k))) with (alloc_pkbs (st_pkmem s) + 1).
    change (free_pkbs (st_pkmem (with_new s k))) with (free_pkbs (st_pkmem s)). unfold zlen. cbn [length]. lia.
Qed.

Lemma sent_roomy s s' dev fs g : roomy s -> sent s dev fs g s' -> roomy s'.
Proof.
  intros [Hr Hf] [W A F R D G K N C S]. split; [pose proof (zlen_nonneg g); lia|].
  intros q Hq. destruct (decide (q ∈ g)) as [Hg|Hg]; [by apply G|]. rewrite K by done. apply Hf. lia.
Qed.

Lemma sent_live s s' dev fs p k : live s p k -> sent s dev fs [] s' -> live s' p k.
Proof. intros Hk Hs. unfold live. rewrite <- Hk. apply (sn_kept _ _ _ _ _ Hs). set_solver. Qed.

(** Device [dev] (with the configuration of [v]) writes frames, and the next hop of
    the route has the hardware address [a]. *)
Record resolved s (dev : devid) v (rt : rtentry) (h : ip) (a : list Z) : Prop := {
  rs_dev : (cfg <$> st_netdevs s) !! dev = Some (cfg v);
  rs_ops : net_ops v = veth_ops \/ net_ops v = peth_ops;
  rs_hw : hwaddr_ok (net_hwaddr v);
  rs_flags : Z.land (rt_flags rt) RT_LOCALHOST = 0;
  rs_arp : exists ae, arp_lookup (st_arp s) ETH_P_IP (next_hop rt h) = Some ae /\
             ae_state (arp_cache (st_arp s) !!! ae) <> ARP_WAITING /\ ae_hwaddr (arp_cache (st_arp s) !!! ae) = a;
  rs_addr : hwaddr_ok a
}.

Lemma resolved_sent s s' dev v rt h a fs g : resolved s dev v rt h a -> sent s dev fs g s' -> resolved s' dev v rt h a.
Proof.
  intros [R1 R2 R3 R4 R5 R6] Hs. split; auto.
  - by rewrite (sn_dev _ _ _ _ _ Hs).
  - by rewrite (sn_arp _ _ _ _ _ Hs).
Qed.

Lemma ip_send_dev_wire s dev v rt a p k :
  resolved s dev v rt (hdr_of k) a -> live s p k -> pk_refcnt k = 1 -> pk_rtdst k = Some rt ->
  34 <= pk_len k <= zlen (pk_data k) ->
  twp (ip_send_dev dev p) (fun _ => sent s dev [frame_of k a (net_hwaddr v) ETH_P_IP (pk_len k - 14)] [p]) s.
Proof.
  intros [Hd Hops Hhw Hfl (ae & Hae & Hst & Ea) Ha] Hk Href Hrt Hl.
  rewrite lookup_fmap in Hd. destruct (st_netdevs s !! dev) as [v'|] eqn:Ev; [|done]. apply (inj Some) in Hd as Ec.
  assert (Eo : net_ops v' = net_ops v) by (by change (net_ops (cfg v') = net_ops v); rewrite Ec).
  assert (Eh : net_hwaddr v' = net_hwaddr v) by (by change (net_hwaddr (cfg v') = net_hwaddr v); rewrite Ec).
  unfold ip_send_dev. eapply twp_step; [by apply ld_ok|]. rewrite Hrt. eapply twp_step; [done|].
  rewrite Hfl. cbn [Z.eqb negb]. eapply twp_step; [apply (ld_ip_run _ p k); [done|lia]|]. cbv zeta.
  eapply twp_step; [done|]. rewrite Hae. eapply twp_step; [done|]. rewrite (proj2 (Z.eqb_neq _ _)) by done.
  rewrite <- Eh. change ETH_HRD_SZ with 14. rewrite <- Eh in Hhw. rewrite <- Eo in Hops.
  apply netdev_tx_wire; try done; lia.
Qed.

Lemma send_piece_wire s dev v rt a p k c :
  roomy s -> resolved s dev v rt (hdr_of k) a -> live s p k -> pk_rtdst k = Some rt -> bytes_ok (pk_data k) ->
  ip_hlen (hdr_of k) = 5 -> 0 <= off_at c -> 34 + off_at c + zlen (bytes c) <= zlen (pk_data k) ->
  slice (pk_data k) (34 + off_at c) (zlen (bytes c)) = bytes c ->
  twp (let* f := ip_frag p 20 (zlen (bytes c)) (off_at c) (mf_bit (more c)) in ip_send_dev dev f)
    (fun _ => sent s dev [piece_frame a (net_hwaddr v) (hdr_of k) c] []) s.
Proof.
  intros Hr Hres Hk Hrt Hb Hh Ho Hl Hd. destruct (piece_pkb_data k c Hb Ho Hl Hd) as (L1 & L2 & L3).
  pose proof (zlen_nonneg (bytes c)) as Hn. pose proof (hdr_wf k Hb ltac:(lia)) as Hw.
  assert (Eh : hdr_of (piece_pkb k c) = piece_hdr (hdr_of k) c).
  { apply hdr_store; [|by apply sealed_wf, frag_hdr_wf]. pose proof (frag_raw_ok k _ _ Hb Hn Ho Hl). lia. }
  eapply twp_step; [by apply ip_frag_run|].
  assert (Hfr : frame_of (piece_pkb k c) a (net_hwaddr v) ETH_P_IP (pk_len (piece_pkb k c) - 14)
                = piece_frame a (net_hwaddr v) (hdr_of k) c).
  { unfold frame_of, piece_frame. rewrite L2, <- L3. do 2 f_equal. lia. }
  rewrite <- Hfr. eapply twp_mono.
  { apply (ip_send_dev_wire _ dev v rt); [|apply live_new|done|done|lia].
    destruct Hres as [R1 R2 R3 R4 R5 R6]. split; try done. by rewrite Eh. }
  intros [] s' Hs. by eapply sent_new.
Qed.

Lemma send_frag_loop_wire n s dev v rt a p k mlen dlen off :
  roomy s -> resolved s dev v rt (hdr_of k) a -> live s p k -> pk_rtdst k = Some rt -> bytes_ok (pk_data k) ->
  ip_hlen (hdr_of k) = 5 -> 0 < mlen -> 0 <= dlen <= Z.of_nat n -> 0 <= off -> 34 + off + dlen <= zlen (pk_data k) ->
  twp (ip_send_frag_loop n dev p 20 mlen dlen off)
    (fun r s' => exists cs, sent s dev (piece_frame a (net_hwaddr v) (hdr_of k) <$> cs) [] s' /\
       0 <= r.1 /\ 0 <= r.2 /\ 34 + r.2 + r.1 <= zlen (pk_data k) /\
       pieces n mlen off (slice (pk_data k) (34 + off) dlen) =
         cs ++ if r.1 =? 0 then [] else [mk_piece false r.2 (slice (pk_data k) (34 + r.2) r.1)]) s.
Proof.
  revert s dlen off. induction n as [|n IH]; intros s dlen off Hr Hres Hk Hrt Hb Hh Hm Hd Ho Hl;
    assert (Ls : zlen (slice (pk_data k) (34 + off) dlen) = dlen) by (apply zlen_slice; lia);
    cbn [ip_send_frag_loop pieces]; rewrite Ls; destruct (Z.ltb_spec mlen dlen) as [Hlt|Hge]; try lia.
  - apply twp_ret. exists []. cbn [fst snd]. split_and!; try lia; [apply sent_refl|done].
  - set (c := mk_piece true off (slice (pk_data k) (34 + off) mlen)).
    assert (Lc : zlen (bytes c) = mlen) by (apply zlen_slice; lia).
    assert (Hone := send_piece_wire s dev v rt a p k c Hr Hres Hk Hrt Hb Hh).
    cbn [off_at c] in Hone. rewrite Lc in Hone. specialize (Hone Ho ltac:(lia) eq_refl). cbn [mf_bit more c] in Hone.
    rewrite twp_bind_assoc. apply twp_bind. eapply twp_mono; [exact Hone|]. intros [] s1 Hs1.
    eapply twp_mono.
    { apply (IH s1 (dlen - mlen) (off + mlen)); try done; try lia.
      - by eapply sent_roomy.
      - by eapply resolved_sent.
      - by eapply sent_live. }
    intros [r1 r2] s2 (cs & Hs2 & H1 & H2 & H3 & Hcs). exists (c :: cs). split_and!; try done.
    + rewrite fmap_cons. apply (sent_trans s s1 s2 dev [_] _ [] []); done.
    + rewrite (slice_slice _ (34 + off) dlen 0 mlen), (slice_slice _ (34 + off) dlen mlen) by lia.
      rewrite Z.add_0_r. change (mk_piece true off _) with c. rewrite <- app_comm_cons. f_equal. rewrite <- Hcs.
      do 2 f_equal. lia.
  - apply twp_ret. exists []. cbn [fst snd]. split_and!; try lia; [apply sent_refl|done].
Qed.

Lemma free_last s s' dev fs p k : sent s dev fs [] s' -> live s p k -> pk_refcnt k = 1 ->
  twp (free_pkb p) (fun _ => sent s dev fs [p]) s'.
Proof.
  intros Hs Hk Href. pose proof (sent_live _ _ _ _ _ _ Hk Hs) as Hk'.
  eapply twp_ok; [by apply (free_pkb_ok s' p k)|]. rewrite Href. cbn [Z.sub Z.leb Z.compare].
  rewrite <- (app_nil_r fs). change [p] with ([] ++ [p]). apply (sent_trans s s' _ dev fs [] [] [p]); [done|].
  split; try done.
  - intros q ->%list_elem_of_singleton. apply lookup_delete_eq.
  - intros q Hq. apply lookup_delete_ne. set_solver.
  - change (alloc_pkbs (st_pkmem s') - (free_pkbs (st_pkmem s') + 1) = alloc_pkbs (st_pkmem s') - free_pkbs (st_pkmem s') - 1). lia.
Qed.

Lemma piece_frame_len dst src h c : hwaddr_ok dst -> hwaddr_ok src -> zlen (piece_frame dst src h c) = 34 + zlen (bytes c).
Proof.
  intros [_ Hd] [_ Hs]. unfold piece_frame, piece_pkt. rewrite !zlen_app, ip_encode_len.
  cbn [encode ether_struct eth_dst eth_src eth_pro]. rewrite !zlen_app, zlen_le_enc. unfold zlen in *. lia.
Qed.

(** ** Property *)


End Runs.

(** A UDP datagram of 100 bytes to the sample peer, over a device that takes 68. *)
Definition big_dev : netdev := mk_netdev 68 sample_ip 0x00ffffff sample_hw (dev_name [118]) veth_ops zero_stats.
Definition big_route : rtentry := rt_alloc 0x0000000a 0x00ffffff 0 0 RT_NONE 1%nat.
Definition big_hdr : ip := mk_ip 5 4 0 (_htons 120) 7 0 64 IP_P_UDP 0 sample_ip peer_ip.
Definition big_data : list Z := Z.of_nat <$> seq 0 100.
Definition big_pkb : pkbuf :=
  mk_pkbuf ETH_P_IP 0 134 1 None (Some big_route) None (replicate 14 0 ++ encode big_hdr ++ big_data).
Definition big_stack : stack :=
  set_arp (snd (arp_insert arp_cache_start 1%nat ETH_P_IP peer_ip peer_hw))
    (set_netdevs (<[1%nat := big_dev]> sample_devs) (set_pkmem (mk_pkmem {[0%nat := big_pkb]} 1%nat 1 0) sample_stack)).

Lemma big_resolved : resolved big_stack 1%nat big_dev big_route (hdr_of big_pkb) peer_hw.
Proof.
  split; try by vm_compute.
  - by left.
  - split; [repeat (constructor; [by vm_compute|]); constructor|done].
  - exists 0%nat. by vm_compute.
  - split; [repeat (constructor; [by vm_compute|]); constructor|done].
Qed.

Lemma big_bytes : bytes_ok (pk_data big_pkb).
Proof. apply (bool_decide_unpack (Forall is_u8 (pk_data big_pkb))). by vm_compute. Qed.

