(* ===== verification/Dpdk.v ===== *)
(** * The DPDK device: the data path of net/dpdk/dpdk_netdev.c

    The DPDK library is not part of the program: its state and functions are the class
    [Rte], and what its documentation promises about them is the class [RteOk], through
    views of the state: the buffers (mbufs) that are in use with their bytes, the ring,
    the transmit buffer, and the frames that left.  The theorems are proved against
    [RteOk]; an instance at the end of the file has all of it. *)

From stdpp Require Import prelude list gmap.
From Stdlib Require Import ZArith Lia.
From S2P Require Import Prelude Structs Checksum Route Pkb FastPipe ArpCache Sock TcpTable Stack Arp IpOut Icmp IpFrag Own SafeNet SafeIp Wire Raw TcpOut TcpText TcpState Udp IpIn NetIn SafeIn Sample FragOut.

(** ** The library *)

Definition mbid : Type := nat.

(** NULL is [None].  The transmit buffer calls return how many frames the device took
    and how many the error callback, rte_eth_tx_buffer_count_callback, dropped.  The
    memory of an mbuf that was given back stays mapped: reading its length then
    gives some number. *)
Class Rte := {
  rte : Type;
  rte_pktmbuf_alloc : rte -> option mbid * rte;
  rte_pktmbuf_free : mbid -> rte -> rte;
  mbuf_fill : mbid -> list Z -> rte -> rte;          (* the data, pkt_len, data_len, next, nb_segs *)
  mbuf_data : mbid -> rte -> list Z;                 (* data_len bytes at rte_pktmbuf_mtod *)
  mbuf_data_len : mbid -> rte -> Z;
  rte_ring_enqueue : mbid -> rte -> Z * rte;
  rte_ring_dequeue : rte -> option mbid * rte;
  rte_eth_tx_buffer : mbid -> rte -> (Z * Z) * rte;
  rte_eth_tx_buffer_flush : rte -> (Z * Z) * rte;
  rte_eth_rx_burst : rte -> list mbid * rte
}.

(** Bytes of data of an mbuf of the size RTE_MBUF_DEFAULT_BUF_SIZE. *)
Definition RTE_MBUF_DEFAULT_DATAROOM : Z := 2048.
Definition MAX_PKT_BURST : nat := 32.

(** ** The data *)

Record ethernet_rx_t := mk_ethernet_rx { rx_pktcount : Z; rx_count_bytes : Z }.
Record ethernet_tx_t := mk_ethernet_tx { tx_pktcount : Z; tx_count_bytes : Z; tx_dropped : Z }.

Inductive operation_mode_t := OPERATION_RX | OPERATION_TX.

Record dpdk_stat := mk_dpdk_stat { ds_last_pktcount : Z; ds_last_bytes : Z; ds_last_tick_us : Z; ds_print_count : Z }.

(** [er_ring] says that tx_ring is not NULL. *)
Record ethernet_rw_t := mk_rw {
  er_rx : ethernet_rx_t;
  er_tx : ethernet_tx_t;
  er_ring : bool;
  er_stat : dpdk_stat;
  er_op : operation_mode_t;
  er_exit : bool;
  worker_lcore_id : Z;
  worker_port_id : Z;
  worker_socket_id : Z;
  er_mac : list Z
}.

Definition set_er_rx (w : ethernet_rw_t) v := mk_rw v (er_tx w) (er_ring w) (er_stat w) (er_op w) (er_exit w) (worker_lcore_id w) (worker_port_id w) (worker_socket_id w) (er_mac w).
Definition set_er_tx (w : ethernet_rw_t) v := mk_rw (er_rx w) v (er_ring w) (er_stat w) (er_op w) (er_exit w) (worker_lcore_id w) (worker_port_id w) (worker_socket_id w) (er_mac w).
Definition set_er_ring (w : ethernet_rw_t) v := mk_rw (er_rx w) (er_tx w) v (er_stat w) (er_op w) (er_exit w) (worker_lcore_id w) (worker_port_id w) (worker_socket_id w) (er_mac w).
Definition set_er_stat (w : ethernet_rw_t) v := mk_rw (er_rx w) (er_tx w) (er_ring w) v (er_op w) (er_exit w) (worker_lcore_id w) (worker_port_id w) (worker_socket_id w) (er_mac w).
Definition set_er_exit (w : ethernet_rw_t) v := mk_rw (er_rx w) (er_tx w) (er_ring w) (er_stat w) (er_op w) v (worker_lcore_id w) (worker_port_id w) (worker_socket_id w) (er_mac w).
Definition set_worker (w : ethernet_rw_t) lcore port socket := mk_rw (er_rx w) (er_tx w) (er_ring w) (er_stat w) (er_op w) (er_exit w) lcore port socket (er_mac w).
Definition set_er_mac (w : ethernet_rw_t) v := mk_rw (er_rx w) (er_tx w) (er_ring w) (er_stat w) (er_op w) (er_exit w) (worker_lcore_id w) (worker_port_id w) (worker_socket_id w) v.

(** malloc and memset. *)
Definition zero_rw : ethernet_rw_t :=
  mk_rw (mk_ethernet_rx 0 0) (mk_ethernet_tx 0 0 0) false (mk_dpdk_stat 0 0 0 0) OPERATION_RX false 0 0 0 (replicate 6 0).

(** ** The code *)

Section Code.
Context `{Rte} `{OS} `{App} `{Ptrs}.

(** The threads share the stack, the library and the state of the device. *)
Record dpdk := mk_dpdk { dk_stack : stack; dk_lib : rte; dk_rw : ethernet_rw_t }.

Definition on_stack {A} (m : comp stack A) : comp dpdk A := fun s =>
  match m (dk_stack s) with
  | Ret a v => Ret a (mk_dpdk v (dk_lib s) (dk_rw s))
  | Fault f => Fault f
  | NoFuel => NoFuel
  end.

Definition lib {A} (f : rte -> A * rte) : comp dpdk A := fun s =>
  let '(a, l) := f (dk_lib s) in Ret a (mk_dpdk (dk_stack s) l (dk_rw s)).

Definition lib_do (f : rte -> rte) : comp dpdk unit := lib (fun l => (tt, f l)).

Definition upd_rw (f : ethernet_rw_t -> ethernet_rw_t) : comp dpdk unit :=
  modify (fun s => mk_dpdk (dk_stack s) (dk_lib s) (f (dk_rw s))).

(** The results of rte_pktmbuf_alloc and of rte_ring_create are not checked. *)
Definition dpdk_dev_xmit (d : devid) (b : pid) : comp dpdk Z :=
  let* o := lib rte_pktmbuf_alloc in
  let* k := on_stack (ld b) in
  let* bytes := on_stack (ld_bytes b 0 (pk_len k)) in
  let* m := of_opt NullDeref o in
  guard OutOfBounds (zlen bytes <=? RTE_MBUF_DEFAULT_DATAROOM);;
  lib_do (mbuf_fill m bytes);;
  let* w := gets dk_rw in
  guard NullDeref (er_ring w);;
  let* r := lib (rte_ring_enqueue m) in
  if r =? 0 then
    on_stack (upd_stats d (count_tx (pk_len k)));;
    ret (pk_len k)
  else
    on_stack (upd_stats d count_tx_error);;
    lib_do (rte_pktmbuf_free m);;
    ret 0.

(** The error callback counts in [dropped]. *)
Definition count_dropped (n : Z) (w : ethernet_rw_t) : ethernet_rw_t :=
  let t := er_tx w in set_er_tx w (mk_ethernet_tx (tx_pktcount t) (tx_count_bytes t) (u64 (tx_dropped t + n))).

(** A turn of the loop of ethernet_tx_loop: the length is read from an mbuf that may
    have been sent, and the result of the flush is not used. *)
Definition ethernet_tx_turn : comp dpdk unit :=
  let* o := lib rte_ring_dequeue in
  match o with
  | Some m =>
      let* '(n, dropped) := lib (rte_eth_tx_buffer m) in
      upd_rw (count_dropped dropped);;
      let* len := gets (fun s => mbuf_data_len m (dk_lib s)) in
      upd_rw (fun w =>
        let t := er_tx w in
        set_er_tx w (mk_ethernet_tx (u64 (tx_pktcount t + n)) (u64 (tx_count_bytes t + n * len)) (tx_dropped t)))
  | None =>
      let* '(_, dropped) := lib rte_eth_tx_buffer_flush in
      upd_rw (count_dropped dropped)
  end.

Fixpoint ethernet_tx_loop (fuel : nat) : comp dpdk unit :=
  match fuel with
  | O => out_of_fuel
  | S n =>
      let* w := gets dk_rw in
      if er_exit w then ret tt else ethernet_tx_turn;; ethernet_tx_loop n
  end.

(** The body of the inner loop of dpdk_rx_thread. *)
Definition dpdk_rx_packet (n : nat) (dev : devid) (m : mbid) : comp dpdk unit :=
  let* len := gets (fun s => mbuf_data_len m (dk_lib s)) in
  upd_rw (fun w => let t := er_rx w in set_er_rx w (mk_ethernet_rx (rx_pktcount t) (u64 (rx_count_bytes t + len))));;
  let* pkb := on_stack (let* v := ld_dev dev in alloc_netdev_pkb (net_mtu v)) in
  let* bytes := gets (fun s => mbuf_data m (dk_lib s)) in
  on_stack (upd pkb (fun k => set_pk_len k len));;
  on_stack (st_bytes pkb 0 bytes);;
  on_stack (upd_stats dev (count_rx len));;
  lib_do (rte_pktmbuf_free m);;
  on_stack (stack_net_in n dev pkb).

(** A turn of its outer loop. *)
Definition dpdk_rx_turn (n : nat) (dev : devid) : comp dpdk unit :=
  let* ms := lib rte_eth_rx_burst in
  if (length ms =? 0)%nat then ret tt
  else
    upd_rw (fun w => let t := er_rx w in set_er_rx w (mk_ethernet_rx (u64 (rx_pktcount t + Z.of_nat (length ms))) (rx_count_bytes t)));;
    for_each ms (dpdk_rx_packet n dev).

Fixpoint dpdk_rx_thread (fuel n : nat) (dev : devid) : comp dpdk unit :=
  match fuel with
  | O => out_of_fuel
  | S f =>
      let* w := gets dk_rw in
      if er_exit w then ret tt else dpdk_rx_turn n dev;; dpdk_rx_thread f n dev
  end.

(** ** Statistics *)

(** A line of the report, and whether the heading is printed. *)
Record dpdk_report := mk_dpdk_report { dr_head : bool; dr_packets : Z; dr_time : Z; dr_pps : Z; dr_bps : Z }.

(** [now] is the result of timestamp_us. *)
Definition dpdk_stat_show (now pktcount nbytes : Z) (flush : bool) : comp dpdk_stat (option dpdk_report) :=
  let* t := gets (fun t => t) in
  if ds_last_tick_us t =? 0 then
    modify (fun t => mk_dpdk_stat (ds_last_pktcount t) (ds_last_bytes t) now (ds_print_count t));; ret None
  else if negb flush && (u64 (pktcount - ds_last_pktcount t) <? 1000000) then ret None
  else
    let time_delta := u64 (now - ds_last_tick_us t) in
    let pktcount_delta := u64 (pktcount - ds_last_pktcount t) in
    let bytes_delta := u64 (nbytes - ds_last_bytes t) in
    guard Undefined (negb (time_delta =? 0));;
    let pktrate := u64 (pktcount_delta * 1000000) / time_delta in
    let bps := u64 (u64 (bytes_delta * 8) * 1000000) / time_delta in
    modify (fun t => mk_dpdk_stat pktcount nbytes now (u32 (ds_print_count t + 1)));;
    ret (Some (mk_dpdk_report (ds_print_count t mod 10 =? 0) pktcount_delta time_delta pktrate bps)).

(** A turn of stat_thread. *)
Definition stat_turn (now : Z) : comp dpdk (option dpdk_report) := fun s =>
  let w := dk_rw s in
  let m := match er_op w with
           | OPERATION_RX => dpdk_stat_show now (rx_pktcount (er_rx w)) (rx_count_bytes (er_rx w)) true
           | OPERATION_TX => dpdk_stat_show now (tx_pktcount (er_tx w)) (tx_count_bytes (er_tx w)) true
           end in
  match m (er_stat w) with
  | Ret r t => Ret r (mk_dpdk (dk_stack s) (dk_lib s) (set_er_stat w t))
  | Fault f => Fault f
  | NoFuel => NoFuel
  end.

End Code.

(** ** What the library promises *)

(** The bytes of some mbufs. *)
Definition contents (mem : gmap mbid (list Z)) (ms : list mbid) : list (list Z) := (fun m => default [] (mem !! m)) <$> ms.

Definition give_back (mem : gmap mbid (list Z)) (ms : list mbid) : gmap mbid (list Z) := foldr delete mem ms.

Class RteOk `{Rte} := {
  (** The mbufs in use and their bytes, the ring, the transmit buffer; the frames that
      left, in order, with whether the device took them. *)
  mem_of : rte -> gmap mbid (list Z);
  ring_of : rte -> list mbid;
  buf_of : rte -> list mbid;
  log_of : rte -> list (list Z * bool);
  view_of l := (mem_of l, ring_of l, buf_of l, log_of l);

  alloc_ok l : match rte_pktmbuf_alloc l with
    | (None, l') => view_of l' = view_of l
    | (Some m, l') => mem_of l !! m = None /\ exists d, view_of l' = (<[m := d]> (mem_of l), ring_of l, buf_of l, log_of l)
    end;
  free_ok l m : is_Some (mem_of l !! m) ->
    view_of (rte_pktmbuf_free m l) = (delete m (mem_of l), ring_of l, buf_of l, log_of l);
  fill_ok l m d : is_Some (mem_of l !! m) ->
    view_of (mbuf_fill m d l) = (<[m := d]> (mem_of l), ring_of l, buf_of l, log_of l);
  data_ok l m d : mem_of l !! m = Some d -> mbuf_data m l = d /\ mbuf_data_len m l = zlen d;
  enqueue_ok l m : let '(r, l') := rte_ring_enqueue m l in
    view_of l' = (mem_of l, (if r =? 0 then ring_of l ++ [m] else ring_of l), buf_of l, log_of l);
  dequeue_ok l : match rte_ring_dequeue l with
    | (None, l') => ring_of l = [] /\ view_of l' = view_of l
    | (Some m, l') => exists q, ring_of l = m :: q /\ view_of l' = (mem_of l, q, buf_of l, log_of l)
    end;

  (** All frames of a full buffer are tried: the device takes the first [n], the
      others are dropped; none of them belongs to the program any more. *)
  sends l q (r : Z * Z) l' := exists n, r = (Z.of_nat n, Z.of_nat (length q - n)) /\ (n <= length q)%nat /\
    view_of l' = (give_back (mem_of l) q, ring_of l, [],
                  log_of l ++ ((fun f => (f, true)) <$> take n (contents (mem_of l) q)) ++
                              ((fun f => (f, false)) <$> drop n (contents (mem_of l) q)));
  tx_buffer_ok l m : is_Some (mem_of l !! m) -> let '(r, l') := rte_eth_tx_buffer m l in
    (r = (0, 0) /\ view_of l' = (mem_of l, ring_of l, buf_of l ++ [m], log_of l)) \/ sends l (buf_of l ++ [m]) r l';
  flush_ok l : let '(r, l') := rte_eth_tx_buffer_flush l in sends l (buf_of l) r l';

  (** Received frames come in mbufs that were not in use; a frame is not empty. *)
  rx_burst_ok l : let '(ms, l') := rte_eth_rx_burst l in
    NoDup ms /\ (length ms <= MAX_PKT_BURST)%nat /\ exists fs, length fs = length ms /\
    Forall (fun m => mem_of l !! m = None) ms /\ Forall (fun f => 0 < zlen f) fs /\
    view_of l' = (list_to_map (zip ms fs) ∪ mem_of l, ring_of l, buf_of l, log_of l)
}.

(** ** Sending *)

Lemma contents_app mem a b : contents mem (a ++ b) = contents mem a ++ contents mem b.
Proof. apply fmap_app. Qed.

Lemma contents_agree mem mem' ms : (forall m, m ∈ ms -> mem' !! m = mem !! m) -> contents mem' ms = contents mem ms.
Proof. intros E. apply list_fmap_ext. intros i m Hm. f_equal. by apply E, list_elem_of_lookup_2 with i. Qed.

Lemma give_back_lookup mem q m : give_back mem q !! m = if decide (m ∈ q) then None else mem !! m.
Proof.
  induction q as [|x q IH]; [done|]. cbn [give_back foldr]. fold (give_back mem q). destruct (decide (x = m)) as [->|Hne].
  - rewrite lookup_delete_eq, decide_True by set_solver. done.
  - rewrite lookup_delete_ne, IH by done. apply decide_ext. set_solver.
Qed.

Section Fifo.
Context {R : Rte} {Rok : RteOk} {os : OS} {ap : App} {ptrs : Ptrs}.
Implicit Types (s : dpdk) (l : rte) (fs : list (list Z)).

(** The frames that were accepted, in order, are those that left, those in the transmit
    buffer and those in the ring; every mbuf in use is in exactly one place. *)
Record fifo fs l : Prop := {
  ff_nodup : NoDup (buf_of l ++ ring_of l);
  ff_dom m : is_Some (mem_of l !! m) <-> m ∈ buf_of l ++ ring_of l;
  ff_frames : fs = (fst <$> log_of l) ++ contents (mem_of l) (buf_of l ++ ring_of l)
}.

Lemma fifo_view fs l l' : fifo fs l -> view_of l' = view_of l -> fifo fs l'.
Proof. intros [H1 H2 H3] [= E1 E2 E3 E4]. split; rewrite ?E1, ?E2, ?E3, ?E4; done. Qed.

(** A frame enters the ring. *)
Lemma fifo_enqueue fs l l' m d : fifo fs l -> mem_of l !! m = None ->
  view_of l' = (<[m := d]> (mem_of l), ring_of l ++ [m], buf_of l, log_of l) -> fifo (fs ++ [d]) l'.
Proof.
  intros [H1 H2 H3] Hm [= E1 E2 E3 E4].
  assert (Hn : m ∉ buf_of l ++ ring_of l) by (rewrite <- H2, Hm; intros [? [=]]).
  split; rewrite ?E1, ?E2, ?E3, ?E4, ?app_assoc.
  - apply NoDup_app. split_and!; [done| |apply NoDup_singleton]. intros x Hx ->%list_elem_of_singleton. done.
  - intros x. rewrite elem_of_app, list_elem_of_singleton, <- H2. destruct (decide (x = m)) as [->|Hne].
    + rewrite lookup_insert_eq. split; [by right|by eexists].
    + rewrite lookup_insert_ne by done. intuition.
  - rewrite contents_app. cbn. rewrite lookup_insert_eq, app_assoc. f_equal. rewrite H3. f_equal.
    symmetry. apply contents_agree. intros x Hx. apply lookup_insert_ne. by intros ->.
Qed.

(** The mbufs at the front leave. *)
Lemma fifo_sends fs l r l' q ring : 
  NoDup (q ++ ring) -> (forall m, is_Some (mem_of l !! m) <-> m ∈ q ++ ring) ->
  fs = (fst <$> log_of l) ++ contents (mem_of l) (q ++ ring) -> ring_of l = ring -> sends l q r l' -> fifo fs l'.
Proof.
  intros H1 H2 H3 Hr (n & -> & Hn & [= E1 E2 E3 E4]). apply NoDup_app in H1 as (Q1 & Q2 & Q3).
  split; rewrite ?E1, ?E2, ?E3, ?E4, ?Hr; cbn [Datatypes.app].
  - done.
  - intros m. rewrite give_back_lookup. case_decide as Hm.
    + split; [by intros [? [=]]|]. intros Hx. by destruct (Q2 m Hm).
    + rewrite H2, elem_of_app. tauto.
  - rewrite H3, contents_app, !fmap_app, <- !list_fmap_compose. unfold compose. cbn [fst].
    rewrite !list_fmap_id, take_drop, <- app_assoc. do 2 f_equal. symmetry. apply contents_agree.
    intros x Hx. rewrite give_back_lookup, decide_False; [done|]. intros Hq. by destruct (Q2 x Hq).
Qed.

(** ethernet_tx_turn always returns, and moves frames only. *)
Lemma tx_turn_ok fs s : fifo fs (dk_lib s) ->
  exists s', ethernet_tx_turn s = Ret tt s' /\ fifo fs (dk_lib s') /\ dk_stack s' = dk_stack s.
Proof.
  intros [H1 H2 H3]. unfold ethernet_tx_turn, lib, bind. pose proof (dequeue_ok (dk_lib s)) as Hd.
  destruct (rte_ring_dequeue (dk_lib s)) as [[m|] l1].
  - destruct Hd as (q & Eq & [= E1 E2 E3 E4]). cbn [dk_lib]. rewrite Eq in *.
    assert (Hm : is_Some (mem_of l1 !! m)) by (rewrite E1; apply H2; set_solver).
    pose proof (tx_buffer_ok l1 m Hm) as Ht. destruct (rte_eth_tx_buffer m l1) as [[n dr] l2].
    eexists. split; [reflexivity|]. split; [|done]. cbn [dk_lib].
    rewrite E3 in Ht. replace (buf_of (dk_lib s) ++ m :: q) with ((buf_of (dk_lib s) ++ [m]) ++ q) in * by by rewrite <- app_assoc.
    destruct Ht as [(_ & [= F1 F2 F3 F4])|Ht].
    + split; rewrite ?F1, ?F2, ?F3, ?F4, ?E1, ?E2, ?E4; done.
    + eapply fifo_sends; [exact H1|by rewrite E1|by rewrite E1, E4|done|exact Ht].
  - destruct Hd as (Eq & Ev). cbn [dk_lib]. pose proof (flush_ok l1) as Hf.
    destruct (rte_eth_tx_buffer_flush l1) as [[n dr] l2]. injection Ev as E1 E2 E3 E4.
    eexists. split; [reflexivity|]. split; [|done]. cbn [dk_lib].
    rewrite <- E1 in H2, H3. rewrite <- E4 in H3. rewrite <- E3, <- E2 in H1, H2, H3.
    by eapply fifo_sends.
Qed.

Lemma on_stack_inv {A} (m : comp stack A) s a s' : on_stack m s = Ret a s' ->
  exists v, m (dk_stack s) = Ret a v /\ s' = mk_dpdk v (dk_lib s) (dk_rw s).
Proof. unfold on_stack. destruct (m (dk_stack s)) as [x v| |]; [|done..]. intros [= <- <-]. by exists v. Qed.

(** What dpdk_dev_xmit did when it returned. *)
Lemma xmit_inv s d b k r s' (bytes := slice (pk_data k) 0 (pk_len k)) : live (dk_stack s) b k ->
  dpdk_dev_xmit d b s = Ret r s' ->
  exists m l1 q l3 st, rte_pktmbuf_alloc (dk_lib s) = (Some m, l1) /\
    rte_ring_enqueue m (mbuf_fill m bytes l1) = (q, l3) /\ 0 <= pk_len k <= zlen (pk_data k) /\
    if q =? 0 then r = pk_len k /\ upd_stats d (count_tx (pk_len k)) (dk_stack s) = Ret tt st /\ s' = mk_dpdk st l3 (dk_rw s)
    else r = 0 /\ upd_stats d count_tx_error (dk_stack s) = Ret tt st /\ s' = mk_dpdk st (rte_pktmbuf_free m l3) (dk_rw s).
Proof.
  intros Hk E. unfold dpdk_dev_xmit in E. unfold lib at 1 in E. unfold bind at 1 in E.
  destruct (rte_pktmbuf_alloc (dk_lib s)) as [o l1].
  apply bind_inv in E as (k' & s1 & E1 & E). apply on_stack_inv in E1 as (v & E1 & ->).
  cbn [dk_stack dk_lib dk_rw] in *. rewrite (ld_ok _ b k Hk) in E1. injection E1 as <- <-.
  apply bind_inv in E as (d0 & s1 & E1 & E). apply on_stack_inv in E1 as (v & E1 & ->).
  unfold ld_bytes in E1. erewrite bind_ok in E1 by (by apply ld_ok). cbn [dk_stack dk_lib dk_rw] in *.
  apply bind_inv in E1 as (? & ? & E1 & E2). injection E2 as <- <-. unfold guard in E1.
  destruct (_ && _) eqn:Eb; [|done]. injection E1 as <- <-. fold bytes in E.
  apply andb_true_iff in Eb as [[_ B1]%andb_true_iff B2]. apply Z.leb_le in B1, B2.
  apply bind_inv in E as (m & s1 & E1 & E). destruct o as [m'|]; [|done]. injection E1 as -> <-.
  apply bind_inv in E as (? & s1 & E1 & E). unfold guard in E1. case_match; [|done]. injection E1 as <- <-.
  unfold lib_do at 1, lib at 1, bind at 1 in E. cbn [dk_lib dk_stack dk_rw] in E.
  rewrite bind_gets in E. apply bind_inv in E as (? & s1 & E1 & E). unfold guard in E1. case_match; [|done]. injection E1 as <- <-.
  unfold lib at 1, bind at 1 in E. cbn [dk_lib dk_stack dk_rw] in E.
  destruct (rte_ring_enqueue m (mbuf_fill m bytes l1)) as [q l3] eqn:Eq. exists m, l1, q, l3.
  destruct (q =? 0); apply bind_inv in E as (? & s1 & E1 & E); apply on_stack_inv in E1 as (v1 & E1 & ->);
    cbn [dk_lib dk_stack dk_rw] in *; exists v1; destruct x; injection E as <- <-; (split_and!; [done|done|lia|lia|done|done|done]).
Qed.

(** A packet that is accepted is queued behind the others, one that is refused leaves
    no mbuf. *)
Lemma xmit_fifo fs s d b k r s' : fifo fs (dk_lib s) -> live (dk_stack s) b k -> 0 < pk_len k ->
  dpdk_dev_xmit d b s = Ret r s' ->
  fifo (fs ++ if r =? 0 then [] else [slice (pk_data k) 0 (pk_len k)]) (dk_lib s').
Proof.
  intros Hf Hk Hl E. destruct (xmit_inv s d b k r s' Hk E) as (m & l1 & q & l3 & st & Ea & Eq & _ & Hr). clear E.
  set (bytes := slice (pk_data k) 0 (pk_len k)) in *.
  pose proof (alloc_ok (dk_lib s)) as Ha. rewrite Ea in Ha. destruct Ha as (Hm & d1 & [= V1 V2 V3 V4]).
  assert (Hs1 : is_Some (mem_of l1 !! m)) by (rewrite V1, lookup_insert_eq; by eexists).
  pose proof (fill_ok l1 m bytes Hs1) as [= W1 W2 W3 W4]. set (l2 := mbuf_fill m bytes l1) in *.
  rewrite V1, insert_insert_eq in W1. rewrite V2 in W2. rewrite V3 in W3. rewrite V4 in W4.
  pose proof (enqueue_ok l2 m) as He. rewrite Eq in He. destruct (q =? 0); destruct Hr as (-> & _ & ->); cbn [dk_lib].
  - rewrite (proj2 (Z.eqb_neq _ _)) by lia. apply (fifo_enqueue fs (dk_lib s) l3 m bytes Hf Hm). by rewrite He, W1, W2, W3, W4.
  - rewrite Z.eqb_refl, app_nil_r. apply (fifo_view fs (dk_lib s)); [done|]. injection He as X1 X2 X3 X4.
    rewrite free_ok by (rewrite X1, W1, lookup_insert_eq; by eexists).
    rewrite X1, X2, X3, X4, W1, W2, W3, W4, delete_insert_id by done. done.
Qed.

(** To the stack dpdk_dev_xmit is the device [dpdk_ops]: with the answer of the ring it
    returns the same, and leaves the same state but for the record of frames. *)
Lemma xmit_refines s d b k r s' (st := dk_stack s) : live st b k -> 0 < pk_len k -> dpdk_dev_xmit d b s = Ret r s' ->
  os_write (st_wire st) d (slice (pk_data k) 0 (pk_len k)) = (if r =? 0 then -105 else 0) ->
  dpdk_xmit d b st = Ret r (set_wire (if r =? 0 then st_wire st else (d, slice (pk_data k) 0 (pk_len k)) :: st_wire st) (dk_stack s')).
Proof.
  intros Hk Hl E Hos. destruct (xmit_inv s d b k r s' Hk E) as (m & l1 & q & l3 & st1 & _ & _ & Hb & Hr). clear E.
  unfold dpdk_xmit. erewrite bind_ok by (by apply ld_ok). erewrite bind_ok by (apply (ld_bytes_ok st b k 0 (pk_len k)); [done|lia..]).
  rewrite bind_gets, Hos. unfold upd_stats, ld_dev in *. unfold bind, modify in *. fold st in Hr.
  destruct (q =? 0); destruct Hr as (-> & Hu & ->); [rewrite (proj2 (Z.eqb_neq (pk_len k) 0)) by lia|rewrite Z.eqb_refl]; cbn in *;
    destruct (st_netdevs st !! d); [|done| |done]; injection Hu as <-; [done|by destruct st].
Qed.
End Fifo.

(** ** Receiving *)

Section Receive.
Context {R : Rte} {Rok : RteOk} {os : OS} {ap : App} {ptrs : Ptrs}.
Implicit Types (s : dpdk) (l : rte) (fs : list (list Z)).

(** A run of the stack with the library and the device in a given state afterwards. *)
Definition lifted {A} l (w : ethernet_rw_t) (o : outcome stack A) : outcome dpdk A :=
  match o with
  | Ret a v => Ret a (mk_dpdk v l w)
  | Fault f => Fault f
  | NoFuel => NoFuel
  end.

Lemma st_bytes_out (st : stack) p k d : live st p k -> zlen (pk_data k) < zlen d -> st_bytes p 0 d st = Fault OutOfBounds.
Proof.
  intros Hk Hl. unfold st_bytes. erewrite bind_ok by (by apply ld_ok). unfold guard.
  by rewrite (proj2 (Z.leb_gt (0 + zlen d) _)), andb_false_r by lia.
Qed.

Lemma bind_ext {S A B} (m m' : comp S A) (f : A -> comp S B) (x : S) : m x = m' x -> bind m f x = bind m' f x.
Proof. unfold bind. by intros ->. Qed.

(** The order of the stores into the new buffer does not matter. *)
Lemma fill_order (st : stack) p k dev v len d : live st p k -> st_netdevs st !! dev = Some v ->
  (upd p (fun k => set_pk_len k len);; st_bytes p 0 d;; upd_stats dev (count_rx len)) st =
  (st_bytes p 0 d;; upd_stats dev (count_rx len);; upd p (fun k => set_pk_len k len)) st.
Proof.
  intros Hk Hv. erewrite bind_ok by (by apply upd_ok). set (k1 := set_pk_len k len).
  destruct (Z.leb_spec (zlen d) (zlen (pk_data k))) as [Hl|Hl].
  - rewrite (bind_ok _ _ tt _ _ (st_bytes_ok _ p k1 0 d (live_with _ _ _) ltac:(lia) ltac:(cbn; lia))).
    rewrite (bind_ok _ _ tt _ _ (st_bytes_ok _ p k 0 d Hk ltac:(lia) ltac:(lia))).
    rewrite (upd_stats_run _ dev v) by done. erewrite bind_ok by (by apply (upd_stats_run _ dev v)).
    rewrite with_with. erewrite (upd_ok _ p) by apply lookup_insert_eq. unfold with_pkb. cbn. by rewrite insert_insert_eq.
  - unfold bind at 1. rewrite (st_bytes_out _ p k1) by (apply live_with || done).
    unfold bind at 1. by rewrite (st_bytes_out _ p k).
Qed.

Definition count_rx_packet (len : Z) (w : ethernet_rw_t) : ethernet_rw_t :=
  let t := er_rx w in set_er_rx w (mk_ethernet_rx (rx_pktcount t) (u64 (rx_count_bytes t + len))).

(** The stack's part of receiving a packet is rx_frame, the receive function of the
    other devices. *)
Lemma rx_frame_parts n dev len d (st : stack) : 0 < len ->
  rx_frame n dev len d st =
  (let* pkb := (let* v := ld_dev dev in alloc_netdev_pkb (net_mtu v)) in
   (upd pkb (fun k => set_pk_len k len);; st_bytes pkb 0 d;; upd_stats dev (count_rx len));;
   stack_net_in n dev pkb) st.
Proof.
  intros Hl. unfold rx_frame. rewrite bind_assoc.
  destruct (st_netdevs st !! dev) as [v|] eqn:Hv; [|unfold bind, ld_dev; by rewrite Hv].
  assert (Ev : ld_dev dev st = Ret v st) by (unfold ld_dev; by rewrite Hv).
  rewrite !(bind_ok _ _ _ _ _ Ev). clear Ev.
  destruct (alloc_netdev_pkb (net_mtu v) st) as [p st1| |] eqn:Ea; [|unfold bind; by rewrite Ea..].
  rewrite !(bind_ok _ _ _ _ _ Ea), (proj2 (Z.leb_gt _ _)) by done.
  assert (Hn : exists k, live st1 p k /\ st_netdevs st1 !! dev = Some v).
  { unfold alloc_netdev_pkb, alloc_pkb, new_pkb in Ea. cbv zeta in Ea. case_match; [done|]. injection Ea as <- <-.
    eexists. split; [apply lookup_insert_eq|exact Hv]. }
  destruct Hn as (k & Hk & Hv1). rewrite (bind_ext _ _ _ _ (fill_order st1 p k dev v len d Hk Hv1)).
  rewrite bind_assoc. unfold bind. destruct (st_bytes p 0 d st1) as [[] st2| |]; [|done..].
  by destruct (upd_stats dev (count_rx len) st2).
Qed.

Lemma rx_packet_equiv n dev m s d : mem_of (dk_lib s) !! m = Some d -> 0 < zlen d ->
  dpdk_rx_packet n dev m s =
  lifted (rte_pktmbuf_free m (dk_lib s)) (count_rx_packet (zlen d) (dk_rw s)) (rx_frame n dev (zlen d) d (dk_stack s)).
Proof.
  intros Hm Hl. destruct (data_ok _ _ _ Hm) as [Ed El]. rewrite rx_frame_parts by done. unfold dpdk_rx_packet.
  rewrite bind_gets, El. unfold upd_rw, modify at 1, bind at 1. fold (count_rx_packet (zlen d) (dk_rw s)).
  set (w := count_rx_packet (zlen d) (dk_rw s)). unfold on_stack, bind. cbn [dk_stack dk_lib dk_rw].
  destruct (ld_dev dev (dk_stack s)) as [v st1| |]; [|done..].
  destruct (alloc_netdev_pkb (net_mtu v) st1) as [p st2| |]; [|done..]. unfold gets. cbn [dk_stack dk_lib dk_rw]. rewrite Ed.
  destruct (upd p (fun k => set_pk_len k (zlen d)) st2) as [[] st3| |]; [|done..]. cbn [dk_stack dk_lib dk_rw].
  destruct (st_bytes p 0 d st3) as [[] st4| |]; [|done..]. cbn [dk_stack dk_lib dk_rw].
  destruct (upd_stats dev (count_rx (zlen d)) st4) as [[] st5| |]; [|done..]. cbn.
  by destruct (stack_net_in n dev p st5).
Qed.

(** The mbufs of a burst are given back, one after the other. *)
Definition free_all (ms : list mbid) l : rte := fold_left (fun l m => rte_pktmbuf_free m l) ms l.

Lemma free_all_view ms l : NoDup ms -> Forall (fun m => is_Some (mem_of l !! m)) ms ->
  view_of (free_all ms l) = (give_back (mem_of l) ms, ring_of l, buf_of l, log_of l).
Proof.
  revert l. induction ms as [|m ms IH]; intros l Hn Hf; [done|]. apply NoDup_cons in Hn as [Hm Hn].
  apply Forall_cons in Hf as [H1 H2]. cbn [free_all fold_left]. fold (free_all ms (rte_pktmbuf_free m l)).
  pose proof (free_ok l m H1) as [= E1 E2 E3 E4]. rewrite IH; [|done|].
  - rewrite E1, E2, E3, E4. do 3 f_equal. cbn [give_back foldr]. clear. unfold give_back.
    induction ms as [|x ms IH]; [done|]. cbn. by rewrite IH, delete_delete.
  - rewrite E1. apply Forall_forall. intros x Hx. rewrite lookup_delete_ne by (by intros ->).
    by rewrite Forall_forall in H2; apply H2.
Qed.

Definition count_burst fs (w : ethernet_rw_t) : ethernet_rw_t := fold_left (fun w f => count_rx_packet (zlen f) w) fs w.

Lemma count_burst_packets fs w : rx_pktcount (er_rx (count_burst fs w)) = rx_pktcount (er_rx w).
Proof. revert w. induction fs as [|f fs IH]; intros w; [done|]. cbn [count_burst fold_left]. etrans; [apply IH|done]. Qed.

Lemma rx_packets_equiv n dev ms s (fs := contents (mem_of (dk_lib s)) ms) :
  NoDup ms -> Forall (fun m => exists f, mem_of (dk_lib s) !! m = Some f /\ 0 < zlen f) ms ->
  for_each ms (dpdk_rx_packet n dev) s =
  lifted (free_all ms (dk_lib s)) (count_burst fs (dk_rw s)) (for_each fs (fun f => rx_frame n dev (zlen f) f) (dk_stack s)).
Proof.
  unfold fs. clear fs. revert s. induction ms as [|m ms IH]; intros s Hn Hf; [by destruct s|].
  apply NoDup_cons in Hn as [Hnm Hn]. apply Forall_cons in Hf as [(f & Hm & Hl) Hf].
  cbn [contents fmap list_fmap for_each]. fold (contents (mem_of (dk_lib s)) ms). rewrite Hm. cbn [default id].
  unfold bind at 1. rewrite (rx_packet_equiv n dev m s f Hm Hl). unfold bind at 1.
  destruct (rx_frame n dev (zlen f) f (dk_stack s)) as [[] st1| |]; [|done..]. cbn [lifted].
  pose proof (free_ok (dk_lib s) m ltac:(by rewrite Hm; eexists)) as [= E1 _ _ _].
  assert (Ea : forall x, x ∈ ms -> mem_of (rte_pktmbuf_free m (dk_lib s)) !! x = mem_of (dk_lib s) !! x).
  { intros x Hx. rewrite E1. apply lookup_delete_ne. by intros ->. }
  rewrite IH; cbn [dk_lib dk_rw dk_stack]; [by rewrite (contents_agree _ _ _ Ea)|done|].
  rewrite Forall_forall in Hf |- *. intros x Hx. rewrite Ea by done. by apply Hf.
Qed.

(** The mbufs of a burst hold frames, and when they are given back the library is as it
    was. *)
Lemma rx_burst_view s : let '(ms, l1) := rte_eth_rx_burst (dk_lib s) in
  NoDup ms /\ Forall (fun m => exists f, mem_of l1 !! m = Some f /\ 0 < zlen f) ms /\
  view_of (free_all ms l1) = view_of (dk_lib s).
Proof.
  pose proof (rx_burst_ok (dk_lib s)) as Hb.
  destruct (rte_eth_rx_burst (dk_lib s)) as [ms l1]. destruct Hb as (Hn & _ & fs0 & Hfl & Hfree & Hpos & [= E1 E2 E3 E4]).
  assert (Hfst : (zip ms fs0).*1 = ms) by (apply fst_zip; lia).
  set (new := list_to_map (zip ms fs0) : gmap mbid (list Z)) in *.
  assert (Hin : Forall (fun m => exists f, mem_of l1 !! m = Some f /\ 0 < zlen f) ms).
  { apply Forall_forall. intros m Hm. rewrite <- Hfst in Hm. apply list_elem_of_fmap in Hm as ([m' f] & -> & Hm). cbn [fst].
    exists f. split; [|rewrite Forall_forall in Hpos; by apply Hpos, (elem_of_zip_r m' f ms fs0)].
    rewrite E1. apply lookup_union_Some_l. apply elem_of_list_to_map_1; [by rewrite Hfst|done]. }
  split_and!; [done|done|]. rewrite free_all_view; [|done|eapply Forall_impl; [exact Hin|intros x (f & -> & _); by eexists]].
  assert (Eb : give_back (mem_of l1) ms = mem_of (dk_lib s)); [|by rewrite Eb, E2, E3, E4].
  apply map_eq. intros x. rewrite give_back_lookup, E1. case_decide as Hx.
  - rewrite Forall_forall in Hfree. by rewrite Hfree.
  - apply lookup_union_r. apply not_elem_of_list_to_map_1. by rewrite Hfst.
Qed.


(** ** The threads together *)

(** Runs of the device: the threads of the stack send, the thread of the transmit loop
    and that of the receive loop take their turns, in any order; the stack may do
    whatever it does in between.  The list has the frames that were accepted. *)
Inductive dpdk_runs s0 : list (list Z) -> dpdk -> Prop :=
  | runs_start : dpdk_runs s0 [] s0
  | runs_xmit fs s d b k r s' : dpdk_runs s0 fs s -> live (dk_stack s) b k -> 0 < pk_len k ->
      dpdk_dev_xmit d b s = Ret r s' ->
      dpdk_runs s0 (fs ++ if r =? 0 then [] else [slice (pk_data k) 0 (pk_len k)]) s'
  | runs_tx fs s s' : dpdk_runs s0 fs s -> ethernet_tx_turn s = Ret tt s' -> dpdk_runs s0 fs s'
  | runs_rx fs s n dev s' : dpdk_runs s0 fs s -> dpdk_rx_turn n dev s = Ret tt s' -> dpdk_runs s0 fs s'
  | runs_stack fs s st : dpdk_runs s0 fs s -> dpdk_runs s0 fs (mk_dpdk st (dk_lib s) (dk_rw s)).

Lemma rx_turn_view n dev s s' : dpdk_rx_turn n dev s = Ret tt s' -> view_of (dk_lib s') = view_of (dk_lib s).
Proof.
  intros E. unfold dpdk_rx_turn, lib in E. unfold bind at 1 in E. pose proof (rx_burst_view s) as Hv.
  destruct (rte_eth_rx_burst (dk_lib s)) as [ms l1]. destruct Hv as (Hn & Hin & Hfree).
  destruct (length ms =? 0)%nat eqn:Em.
  - injection E as <-. apply Nat.eqb_eq in Em. destruct ms; [|done]. exact Hfree.
  - unfold upd_rw, modify, bind at 1 in E. rewrite rx_packets_equiv in E by done. cbn [dk_lib dk_stack dk_rw] in E.
    destruct (for_each _ _ _) as [[] st| |]; [|done..]. injection E as <-. exact Hfree.
Qed.

(** C11: Whatever the threads do in whatever order, the frames that dpdk_dev_xmit accepted
    leave in the order in which they were accepted and with the bytes they had then: the
    accepted frames are those that left, followed by those in the transmit buffer and
    those in the ring.  No mbuf is leaked, freed twice or in two places: the mbufs in use are
    exactly those in the buffer and the ring.  A turn of the transmit loop is always
    possible. *)
Theorem dpdk_tx_fifo s0 fs s :
  view_of (dk_lib s0) = (∅, [], [], []) -> dpdk_runs s0 fs s ->
  fs = (fst <$> log_of (dk_lib s)) ++ contents (mem_of (dk_lib s)) (buf_of (dk_lib s) ++ ring_of (dk_lib s)) /\
  NoDup (buf_of (dk_lib s) ++ ring_of (dk_lib s)) /\
  (forall m, is_Some (mem_of (dk_lib s) !! m) <-> m ∈ buf_of (dk_lib s) ++ ring_of (dk_lib s)) /\
  exists s', ethernet_tx_turn s = Ret tt s'.
Proof.
  intros H0 Hr. assert (Hf : fifo fs (dk_lib s)).
  { induction Hr as [|fs s d b k r s' Hr IH Hk Hl E|fs s s' Hr IH E|fs s n dev s' Hr IH E|fs s st Hr IH].
    - injection H0 as E1 E2 E3 E4. split; rewrite ?E1, ?E2, ?E3, ?E4; [constructor| |done].
      intros m. rewrite lookup_empty. split; [by intros [? [=]]|by intros ?%elem_of_nil].
    - by eapply xmit_fifo.
    - destruct (tx_turn_ok fs s IH) as (s1 & E1 & Hf & _). rewrite E1 in E. by injection E as <-.
    - by eapply fifo_view; [|eapply rx_turn_view].
    - exact IH. }
  destruct (tx_turn_ok fs s Hf) as (s' & E & _). destruct Hf as [H1 H2 H3]. split_and!; [done|done|done|by exists s'].
Qed.
End Receive.

(** ** An instance of the library

    A pool of 8192 mbufs, a ring of 511 places, a transmit buffer of 32; the device
    takes [sm_room] frames at a time, and [sm_in] are the frames that arrive. *)

Record sim := mk_sim {
  sm_mem : gmap mbid (list Z); sm_ring : list mbid; sm_buf : list mbid; sm_log : list (list Z * bool);
  sm_in : list (list Z); sm_room : nat
}.

Definition sim_mem (s : sim) v := mk_sim v (sm_ring s) (sm_buf s) (sm_log s) (sm_in s) (sm_room s).

Definition sim_alloc (s : sim) : option mbid * sim :=
  if (size (sm_mem s) <? 8192)%nat then
    let m := fresh (dom (sm_mem s) : gset mbid) in (Some m, sim_mem s (<[m := []]> (sm_mem s)))
  else (None, s).

Definition sim_send (q : list mbid) (s : sim) : (Z * Z) * sim :=
  let n := Nat.min (sm_room s) (length q) in
  let c := contents (sm_mem s) q in
  ((Z.of_nat n, Z.of_nat (length q - n)),
   mk_sim (give_back (sm_mem s) q) (sm_ring s) []
     (sm_log s ++ ((fun f => (f, true)) <$> take n c) ++ ((fun f => (f, false)) <$> drop n c)) (sm_in s) (sm_room s)).

Definition sim_burst (s : sim) : list mbid * sim :=
  let fs := filter (fun f => 0 < zlen f) (take MAX_PKT_BURST (sm_in s)) in
  let ms := fresh_list (length fs) (dom (sm_mem s) : gset mbid) in
  (ms, mk_sim (list_to_map (zip ms fs) ∪ sm_mem s) (sm_ring s) (sm_buf s) (sm_log s) (drop MAX_PKT_BURST (sm_in s)) (sm_room s)).

Definition sim_rte : Rte := {|
  rte := sim;
  rte_pktmbuf_alloc := sim_alloc;
  rte_pktmbuf_free m s := sim_mem s (delete m (sm_mem s));
  mbuf_fill m d s := sim_mem s (<[m := d]> (sm_mem s));
  mbuf_data m s := default [] (sm_mem s !! m);
  mbuf_data_len m s := zlen (default [] (sm_mem s !! m));
  rte_ring_enqueue m s :=
    if (length (sm_ring s) <? 511)%nat then (0, mk_sim (sm_mem s) (sm_ring s ++ [m]) (sm_buf s) (sm_log s) (sm_in s) (sm_room s))
    else (-105, s);
  rte_ring_dequeue s :=
    match sm_ring s with
    | [] => (None, s)
    | m :: q => (Some m, mk_sim (sm_mem s) q (sm_buf s) (sm_log s) (sm_in s) (sm_room s))
    end;
  rte_eth_tx_buffer m s :=
    if (length (sm_buf s) <? 31)%nat then ((0, 0), mk_sim (sm_mem s) (sm_ring s) (sm_buf s ++ [m]) (sm_log s) (sm_in s) (sm_room s))
    else sim_send (sm_buf s ++ [m]) s;
  rte_eth_tx_buffer_flush s := sim_send (sm_buf s) s;
  rte_eth_rx_burst := sim_burst
|}.

Lemma sim_burst_ok (s : sim) : let '(ms, s') := sim_burst s in
  NoDup ms /\ (length ms <= MAX_PKT_BURST)%nat /\ exists fs, length fs = length ms /\
  Forall (fun m => sm_mem s !! m = None) ms /\ Forall (fun f => 0 < zlen f) fs /\
  (sm_mem s', sm_ring s', sm_buf s', sm_log s') = (list_to_map (zip ms fs) ∪ sm_mem s, sm_ring s, sm_buf s, sm_log s).
Proof.
  unfold sim_burst. set (fs := filter (fun f => 0 < zlen f) (take MAX_PKT_BURST (sm_in s))).
  set (ms := fresh_list (length fs) (dom (sm_mem s) : gset mbid)).
  assert (Hl : length ms = length fs) by apply length_fresh_list. split_and!.
  - apply NoDup_fresh_list.
  - rewrite Hl. unfold fs. pose proof (length_filter (fun f => 0 < zlen f) (take MAX_PKT_BURST (sm_in s))). rewrite length_take in *. lia.
  - exists fs. split_and!; [done| | |done].
    + apply Forall_forall. intros m Hm. apply not_elem_of_dom. by eapply fresh_list_is_fresh.
    + apply Forall_forall. intros f Hf. by apply list_elem_of_filter in Hf as [? _].
Qed.

Definition sim_ok : @RteOk sim_rte.
Proof.
  refine {| mem_of := sm_mem : @rte sim_rte -> _; ring_of := sm_ring : @rte sim_rte -> _;
            buf_of := sm_buf : @rte sim_rte -> _; log_of := sm_log : @rte sim_rte -> _ |}; cbn [rte sim_rte]; intros l.
  - cbn [rte_pktmbuf_alloc sim_rte]. unfold sim_alloc. destruct (size (sm_mem l) <? 8192)%nat; [|done]. split; [|by eexists]. apply not_elem_of_dom, is_fresh.
  - done.
  - done.
  - intros m d Hm. cbn. by rewrite Hm.
  - intros m. cbn [rte_ring_enqueue sim_rte]. by destruct (length (sm_ring l) <? 511)%nat.
  - cbn [rte_ring_dequeue sim_rte]. destruct (sm_ring l) as [|m q] eqn:E; [by cbn; rewrite E|]. exists q. by cbn; rewrite ?E.
  - intros m _. cbn [rte_eth_tx_buffer sim_rte]. destruct (length (sm_buf l) <? 31)%nat; [by left|right]. exists (Nat.min (sm_room l) (length (sm_buf l ++ [m]))). split_and!; [done|lia|done].
  - cbn. exists (Nat.min (sm_room l) (length (sm_buf l))). split_and!; [done|lia|done].
  - apply sim_burst_ok.
Defined.

(** ** Runs of the sample host *)

#[local] Existing Instances sim_rte sim_ok.

Definition dpdk_pkb (n : nat) (x : Z) : pkbuf := mk_pkbuf ETH_P_IP 0 (Z.of_nat n) 1 None None None (replicate n x).

(** Two packets to send, and two frames that arrive. *)
Definition dpdk_start : dpdk :=
  mk_dpdk (set_pkmem (mk_pkmem {[0%nat := dpdk_pkb 60 1; 1%nat := dpdk_pkb 42 2]} 2%nat 2 0) sample_stack)
    (mk_sim ∅ [] [] [] [sample_arp_request; sample_echo] 8) (set_er_ring zero_rw true).

Definition after {A} (m : comp dpdk A) (s : dpdk) : dpdk := match m s with Ret _ s' => s' | _ => s end.

Definition dpdk_s1 : dpdk := after (dpdk_dev_xmit 1%nat 0%nat) dpdk_start.
Definition dpdk_s2 : dpdk := after (dpdk_dev_xmit 1%nat 1%nat) dpdk_s1.
Definition dpdk_s3 : dpdk := after ethernet_tx_turn dpdk_s2.
Definition dpdk_s4 : dpdk := after (dpdk_rx_turn 3 1%nat) dpdk_s3.

(** Both packets are accepted; one is in the transmit buffer and one in the ring when the
    frames are received. *)
Lemma dpdk_tx_fifo_witness :
  dpdk_runs dpdk_start [replicate 60 1; replicate 42 2] dpdk_s4 /\
  [replicate 60 1; replicate 42 2] =
    (fst <$> log_of (dk_lib dpdk_s4)) ++ contents (mem_of (dk_lib dpdk_s4)) (buf_of (dk_lib dpdk_s4) ++ ring_of (dk_lib dpdk_s4)) /\
  (length (buf_of (dk_lib dpdk_s4)), length (ring_of (dk_lib dpdk_s4))) = (1%nat, 1%nat).
Proof.
  assert (Hr : dpdk_runs dpdk_start [replicate 60 1; replicate 42 2] dpdk_s4).
  { apply (runs_rx _ _ dpdk_s3 3 1%nat); [|by vm_compute]. apply (runs_tx _ _ dpdk_s2); [|by vm_compute].
    apply (runs_xmit _ [replicate 60 1] dpdk_s1 1%nat 1%nat (dpdk_pkb 42 2) 42); [|by vm_compute..].
    apply (runs_xmit _ [] dpdk_start 1%nat 0%nat (dpdk_pkb 60 1) 60); [|by vm_compute..]. constructor. }
  split; [exact Hr|]. destruct (dpdk_tx_fifo dpdk_start _ dpdk_s4 ltac:(by vm_compute) Hr) as (H1 & _). split; [exact H1|by vm_compute].
Defined.


(** Frames that leave by a flush, which is how they leave when there is little traffic,
    are not counted: two frames have left, and pktcount is zero. *)
Lemma dpdk_flush_not_counted :
  let s := after ethernet_tx_turn (after ethernet_tx_turn (after ethernet_tx_turn dpdk_s2)) in
  snd <$> log_of (dk_lib s) = [true; true] /\ tx_pktcount (er_tx (dk_rw s)) = 0.
Proof. by vm_compute. Qed.

(** A frame longer than the MTU is copied behind the end of the buffer. *)
Lemma dpdk_rx_overflow :
  dpdk_rx_turn 3 1%nat (mk_dpdk sample_stack (mk_sim ∅ [] [] [] [replicate 1518 0] 8) zero_rw) = Fault OutOfBounds.
Proof. by vm_compute. Qed.

(** Without a ring the first frame stops the process. *)
Lemma dpdk_no_ring : dpdk_dev_xmit 1%nat 0%nat (mk_dpdk (dk_stack dpdk_start) (dk_lib dpdk_start) zero_rw) = Fault NullDeref.
Proof. by vm_compute. Qed.
