(* ===== verification/Fragments.v ===== *)
(** * Reassembly puts the datagram together

    The fragments of a datagram, in whatever order they arrive, come out of ip_reass
    as the datagram; in particular those that ip_send_frag of the sender wrote
    (FragOut). *)

From stdpp Require Import prelude list gmap sorting.
From Stdlib Require Import ZArith Lia.
From S2P Require Import Prelude Structs Checksum Route Pkb FastPipe ArpCache Sock Stack Arp IpOut Icmp IpFrag Own SafeNet SafeIp Wire SafeFrag Raw TcpOut TcpText TcpState Udp IpIn NetIn Sample FragOut.

(** ** The fragments of a datagram *)

Section Datagram.
Implicit Types (m : gmap nat pkbuf) (l qs got : list pid) (p q : pid) (f : fragment) (h : ip).

(** Whether the packet says that more follow. *)
Definition mf_of m q : bool :=
  from_option (fun k => negb (Z.land (ip_fragoff (hdr_of k)) IP_FRAG_MF =? 0)) false (m !! q).

Definition same_key h h' : Prop :=
  ip_id h = ip_id h' /\ ip_src h = ip_src h' /\ ip_dst h = ip_dst h' /\ ip_pro h = ip_pro h'.

(** The packets [qs] in memory [m] are the fragments of a datagram with data [d], in
    order. *)
Record datagram m h qs (d : list Z) : Prop := {
  dg_host : all_host m qs;
  dg_key : forall q k, q ∈ qs -> m !! q = Some k -> same_key (hdr_of k) h;
  dg_sorted : sorted_offs m qs;
  dg_gap : forall a b, a ∈ qs -> b ∈ qs -> off_of m a < off_of m b -> off_of m a + size_of m a <= off_of m b;
  dg_pos : forall q, q ∈ qs -> 0 < size_of m q;
  dg_first : exists q, q ∈ qs /\ off_of m q = 0 /\ mf_of m q = true;
  dg_last : exists q, q ∈ qs /\ mf_of m q = false;
  dg_end : forall q, q ∈ qs -> if mf_of m q then off_of m q + size_of m q < zlen d else off_of m q + size_of m q = zlen d;
  dg_data : concat (payload m <$> qs) = d;
  dg_size : zlen d <= 65515
}.

Section Of.
Context m h qs (d : list Z) (Hd : datagram m h qs d).

Lemma off_inj a b : a ∈ qs -> b ∈ qs -> off_of m a = off_of m b -> a = b.
Proof.
  intros Ha Hb E. pose proof (dg_sorted _ _ _ _ Hd) as Hs. apply list_elem_of_split in Ha as (l1 & l2 & ->).
  change (a :: l2) with ([a] ++ l2) in Hs. unfold sorted_offs in Hs. rewrite sorted_app in Hs.
  destruct Hs as (_ & Hs2 & H12). rewrite (sorted_app _ [a] l2) in Hs2. destruct Hs2 as (_ & _ & H2).
  apply elem_of_app in Hb as [Hb|[Hb|Hb]%elem_of_cons]; [|done|].
  - specialize (H12 b a Hb ltac:(set_solver)). lia.
  - specialize (H2 a b ltac:(set_solver) Hb). lia.
Qed.

Lemma last_unique a b : a ∈ qs -> b ∈ qs -> mf_of m a = false -> mf_of m b = false -> a = b.
Proof.
  intros Ha Hb Ea Eb. pose proof (dg_end _ _ _ _ Hd a Ha) as E1. pose proof (dg_end _ _ _ _ Hd b Hb) as E2.
  rewrite Ea in E1. rewrite Eb in E2. pose proof (dg_pos _ _ _ _ Hd a Ha). pose proof (dg_pos _ _ _ _ Hd b Hb).
  pose proof (dg_gap _ _ _ _ Hd a b Ha Hb). pose proof (dg_gap _ _ _ _ Hd b a Hb Ha). apply off_inj; [done|done|lia].
Qed.

Lemma datagram_total : total m qs = zlen d.
Proof. rewrite <- (dg_data _ _ _ _ Hd). symmetry. apply payloads_len, Hd. Qed.

Lemma sorted_nodup l : sorted_offs m l -> NoDup l.
Proof.
  induction l as [|a l IH]; intros Hs; [constructor|]. unfold sorted_offs in Hs. rewrite fmap_cons in Hs.
  apply StronglySorted_inv in Hs as [Hs Ha]. constructor; [|by apply IH]. intros Hin. rewrite Forall_fmap, Forall_forall in Ha.
  specialize (Ha a Hin). cbn in Ha. lia.
Qed.

(** In order there is only one way. *)
Lemma sorted_unique l l' : sorted_offs m l -> sorted_offs m l' -> l ≡ₚ l' -> l = l'.
Proof.
  set (R := fun a b => off_of m a < off_of m b).
  assert (HR : forall l, sorted_offs m l -> StronglySorted R l).
  { intros l0. induction l0 as [|a l0 IH]; intros Hs; [constructor|]. unfold sorted_offs in Hs. rewrite fmap_cons in Hs.
    apply StronglySorted_inv in Hs as [Hs Ha]. constructor; [by apply IH|]. by rewrite Forall_fmap in Ha. }
  intros Hl Hl' Hp. apply (StronglySorted_unique_strong R); auto. unfold R. intros. lia.
Qed.

(** What has arrived so far. *)
Definition first_in got : bool := bool_decide (Exists (fun q => off_of m q = 0) got).
Definition last_in got : bool := bool_decide (Exists (fun q => mf_of m q = false) got).

Record collecting got f : Prop := {
  cl_key : frag_id f = ip_id h /\ frag_src f = ip_src h /\ frag_dst f = ip_dst h /\ frag_pro f = ip_pro h;
  cl_pkb : frag_pkb f ≡ₚ got;
  cl_sorted : sorted_offs m (frag_pkb f);
  cl_hlen : frag_hlen f = 0 \/ frag_hlen f = 20;
  cl_hlen_mf : forall q, q ∈ got -> mf_of m q = true -> frag_hlen f = 20;
  cl_rsize : frag_rsize f = total m got;
  cl_flags : frag_flags f = Z.lor (if first_in got then FRAG_FIRST_IN else 0) (if last_in got then FRAG_LAST_IN else 0);
  cl_size : last_in got = true -> frag_size f = zlen d
}.

Lemma collecting_open got f : collecting got f -> complete_frag f = false.
Proof. intros Hc. unfold complete_frag. rewrite (cl_flags _ _ Hc). by destruct (first_in got), (last_in got). Qed.

Lemma total_pos l : (forall q, q ∈ l -> 0 < size_of m q) -> 0 <= total m l /\ (total m l = 0 -> l = []).
Proof.
  induction l as [|q l IH]; intros Hp; [done|]. rewrite total_cons. pose proof (Hp q ltac:(set_solver)).
  destruct IH as [H0 _]; [intros x Hx; apply Hp; set_solver|]. split; [lia|]. lia.
Qed.

Lemma got_rest got : NoDup got -> got ⊆ qs -> exists rest, qs ≡ₚ got ++ rest.
Proof. intros Hn Hs. apply submseteq_Permutation, NoDup_submseteq; [done|]. intros x Hx. by apply Hs. Qed.

Lemma got_total got : NoDup got -> got ⊆ qs -> 0 <= total m got <= zlen d /\ (total m got = zlen d -> got ≡ₚ qs).
Proof.
  intros Hn Hs. destruct (got_rest got Hn Hs) as [rest Hp]. pose proof (total_perm m _ _ Hp) as Ht.
  rewrite total_app, datagram_total in Ht.
  destruct (total_pos rest) as [H1 H2]; [intros q Hq; apply (dg_pos _ _ _ _ Hd); rewrite Hp; set_solver|].
  destruct (total_pos got) as [H3 _]; [intros q Hq; by apply (dg_pos _ _ _ _ Hd), Hs|].
  split; [lia|]. intros E. rewrite H2, app_nil_r in Hp by lia. by symmetry.
Qed.

(** The datagram is full exactly when all have arrived. *)
Lemma full_iff got f : collecting got f -> NoDup got -> got ⊆ qs ->
  if full_frag f then got ≡ₚ qs else ~ got ≡ₚ qs.
Proof.
  intros Hc Hn Hs. destruct (got_total got Hn Hs) as [Hr Ht].
  unfold full_frag. rewrite (cl_flags _ _ Hc), (cl_rsize _ _ Hc). destruct (last_in got) eqn:El.
  - rewrite (cl_size _ _ Hc El). destruct (Z.eqb_spec (total m got) (zlen d)) as [E|E].
    + specialize (Ht E). destruct (first_in got) eqn:Ef; [done|]. exfalso. apply bool_decide_eq_false in Ef. apply Ef.
      destruct (dg_first _ _ _ _ Hd) as (q & Hq & E0 & _). apply Exists_exists. exists q. rewrite Ht. done.
    + rewrite andb_false_r. intros Hp. apply E. rewrite <- datagram_total. by apply total_perm.
  - assert (Hnl : ~ got ≡ₚ qs).
    { intros Hp. apply bool_decide_eq_false in El. apply El. destruct (dg_last _ _ _ _ Hd) as (q & Hq & Eq).
      apply Exists_exists. exists q. by rewrite Hp. }
    by destruct (first_in got).
Qed.

(** ** One more packet *)

(** The packet is linked; the datagram may be complete now. *)
Definition joined f n p hp : fragment :=
  set_frag_rsize (set_frag_pkb f (insert_at n p (frag_pkb f))) (u32 (frag_rsize f + (ip_len hp - iphlen hp))).

Lemma linked_joined f n p hp :
  linked f n p hp = let g := joined f n p hp in
                    if full_frag g then set_frag_flags g (Z.lor (frag_flags g) FRAG_COMPLETE) else g.
Proof. done. Qed.

Section Step.
Context got f (Hc : collecting got f) (Hn : NoDup got) (Hs : got ⊆ qs).
Context p (Hp : p ∈ qs) (Hpn : p ∉ got).

Lemma first_in_last : mf_of m p = false -> first_in (p :: got) = first_in got /\ last_in got = false.
Proof using Hc Hd Hn Hp Hpn Hs.
  intros Ef. split.
  - apply bool_decide_ext. rewrite Exists_cons. split; [|tauto]. intros [E|]; [|done]. exfalso.
    destruct (dg_first _ _ _ _ Hd) as (q & Hq & E0 & Em). rewrite (off_inj p q) in Ef by congruence. congruence.
  - apply bool_decide_eq_false. intros (q & Hq & Eq)%Exists_exists.
    rewrite (last_unique q p) in Hq by auto. done.
Qed.

Lemma last_in_more : mf_of m p = true ->
  last_in (p :: got) = last_in got /\ first_in (p :: got) = (off_of m p =? 0) || first_in got.
Proof.
  intros Em. split.
  - apply bool_decide_ext. rewrite Exists_cons. split; [|tauto]. intros [E|]; [|done]. congruence.
  - unfold first_in. destruct (Z.eqb_spec (off_of m p) 0) as [E|E]; cbn [orb].
    + apply bool_decide_eq_true. by apply Exists_cons; left.
    + apply bool_decide_ext. rewrite Exists_cons. tauto.
Qed.

(** Linking keeps count, whatever became of the flags. *)
Lemma joined_collecting f1 k n :
  m !! p = Some k -> frag_id f1 = frag_id f -> frag_src f1 = frag_src f -> frag_dst f1 = frag_dst f ->
  frag_pro f1 = frag_pro f -> frag_pkb f1 = frag_pkb f -> frag_rsize f1 = frag_rsize f ->
  sorted_offs m (insert_at n p (frag_pkb f)) ->
  frag_hlen f1 = 0 \/ frag_hlen f1 = 20 -> (frag_hlen f = 20 -> frag_hlen f1 = 20) ->
  (mf_of m p = true -> frag_hlen f1 = 20) ->
  frag_flags f1 = Z.lor (if first_in (p :: got) then FRAG_FIRST_IN else 0) (if last_in (p :: got) then FRAG_LAST_IN else 0) ->
  (last_in (p :: got) = true -> frag_size f1 = zlen d) ->
  collecting (p :: got) (joined f1 n p (hdr_of k)).
Proof using Hc Hd Hn Hp Hpn Hs.
  intros Hk E1 E2 E3 E4 E5 E6 Hsrt H1 H2 H3 H4 H5.
  assert (Hsz : ip_len (hdr_of k) - iphlen (hdr_of k) = size_of m p).
  { unfold size_of. rewrite Hk. cbn. destruct (dg_host _ _ _ _ Hd p Hp) as (k' & Hk' & (_ & Hh & _) & _).
    rewrite Hk in Hk'. injection Hk' as <-. by rewrite iphlen_5. }
  destruct (got_total (p :: got)) as [Ht _]; [by constructor|set_solver|]. pose proof (dg_size _ _ _ _ Hd).
  split; unfold joined; cbn [frag_id frag_src frag_dst frag_pro frag_pkb frag_hlen frag_rsize frag_flags frag_size set_frag_rsize set_frag_pkb].
  - rewrite E1, E2, E3, E4. apply Hc.
  - rewrite E5, insert_at_perm. by rewrite (cl_pkb _ _ Hc).
  - by rewrite E5.
  - done.
  - intros q [->|Hq]%elem_of_cons Em; [by apply H3|]. by eapply H2, (cl_hlen_mf _ _ Hc).
  - rewrite E6, Hsz, (cl_rsize _ _ Hc). rewrite total_cons in Ht |- *. rewrite u32_small; [lia|]. unfold is_u32. lia.
  - done.
  - done.
Qed.

(** The last fragment goes to the end. *)
Lemma sorted_at_end : mf_of m p = false -> sorted_offs m (insert_at (length (frag_pkb f)) p (frag_pkb f)).
Proof using Hc Hd Hn Hp Hpn Hs.
  intros Ef. unfold insert_at. rewrite take_ge, drop_ge by lia. unfold sorted_offs.
  apply sorted_app. split; [apply Hc|]. split; [apply sorted_one|]. intros a b Ha ->%list_elem_of_singleton.
  rewrite (cl_pkb _ _ Hc) in Ha. pose proof (dg_end _ _ _ _ Hd p Hp) as E. rewrite Ef in E.
  pose proof (dg_end _ _ _ _ Hd a (Hs a Ha)) as Ea. pose proof (dg_gap _ _ _ _ Hd p a Hp (Hs a Ha)) as Hg.
  pose proof (dg_pos _ _ _ _ Hd a (Hs a Ha)).
  destruct (Z.lt_trichotomy (off_of m a) (off_of m p)) as [|[Eo|Hlt]]; [done| |].
  - rewrite (off_inj a p) in Ha by auto. done.
  - specialize (Hg Hlt). destruct (mf_of m a); lia.
Qed.

(** The search finds the place of a packet that is not the last. *)
Lemma insert_search_step (s : stack) (l1 l2 : list (fid * fragment)) i k :
  i ∉ fst <$> l1 -> i ∉ fst <$> l2 -> pkbs (st_pkmem s) = m -> m !! p = Some k ->
  exists r, insert_search (rev (frag_pkb f)) (ipoff (hdr_of k)) (at_frag s l1 l2 i f) = Ret r (at_frag s l1 l2 i f) /\
    match r with
    | Duplicate => False
    | Found n fh => sorted_offs m (insert_at (S n) p (frag_pkb f)) /\ ipoff fh + ip_len fh - 20 <= ipoff (hdr_of k)
    | NotFound => sorted_offs m (insert_at 0 p (frag_pkb f))
    end.
Proof using Hc Hd Hn Hp Hpn Hs.
  intros Hi1 Hi2 Em Hk. assert (Eoff : off_of m p = ipoff (hdr_of k)) by (unfold off_of; by rewrite Hk).
  destruct (insert_search_at l1 l2 i Hi1 Hi2 s f (ipoff (hdr_of k)) (frag_pkb f)) as (r & Er & Hr).
  { rewrite Em. intros q Hq. apply (dg_host _ _ _ _ Hd), Hs. by rewrite <- (cl_pkb _ _ Hc). }
  exists r. split; [done|]. rewrite Em, <- Eoff in Hr. destruct r as [|n fh|].
  - destruct Hr as (q & Hq & Eq). rewrite (cl_pkb _ _ Hc) in Hq. apply Hpn. by rewrite (off_inj p q) by auto.
  - destruct Hr as (la & q & lb & El & Hl & Hfh & Hlt & Hlb). split.
    + subst n. rewrite El. unfold insert_at. replace (la ++ q :: lb) with ((la ++ [q]) ++ lb) by by rewrite <- app_assoc.
      rewrite take_app_length', drop_app_length' by (rewrite length_app; cbn; lia). rewrite <- app_assoc.
      apply sorted_insert; [|done|done]. rewrite <- El. apply Hc.
    + assert (Hq : q ∈ qs) by (apply Hs; rewrite <- (cl_pkb _ _ Hc), El; set_solver).
      pose proof (dg_gap _ _ _ _ Hd q p Hq Hp Hlt) as Hg. unfold off_of at 1, size_of in Hg. rewrite <- Eoff.
      destruct (m !! q) as [kq|]; [|done]. apply (inj Some) in Hfh as <-. cbn [from_option] in Hg. lia.
  - unfold insert_at. rewrite take_0, drop_0. cbn [app]. unfold sorted_offs. rewrite fmap_cons. constructor; [apply Hc|].
    by rewrite Forall_fmap.
Qed.

(** From the label frag_found on. *)
Lemma frag_found_step (s : stack) (l1 l2 : list (fid * fragment)) i k n fh :
  i ∉ fst <$> l1 -> i ∉ fst <$> l2 -> m !! p = Some k -> mf_of m p = true ->
  sorted_offs m (insert_at n p (frag_pkb f)) ->
  (match fh with Some fh => ipoff fh + ip_len fh - 20 <= ipoff (hdr_of k) | None => True end) ->
  exists g, collecting (p :: got) g /\ frag_found i p n fh (hdr_of k) (at_frag s l1 l2 i f) =
    Ret 0 (at_frag s l1 l2 i (if full_frag g then set_frag_flags g (Z.lor (frag_flags g) FRAG_COMPLETE) else g)).
Proof using Hc Hd Hn Hp Hpn Hs.
  intros Hi1 Hi2 Hk Emf Hsrt Hfh. destruct (last_in_more Emf) as [Eli Efi].
  assert (Eoff : off_of m p = ipoff (hdr_of k)) by (unfold off_of; by rewrite Hk). rewrite Eoff in Efi.
  assert (Hh : ip_hlen (hdr_of k) = 5).
  { destruct (dg_host _ _ _ _ Hd p Hp) as (k' & Hk' & (_ & Hh & _) & _). rewrite Hk in Hk'. by injection Hk' as <-. }
  unfold frag_found. cbv zeta. erewrite bind_ok by (by apply ld_frag_at). rewrite iphlen_5 by done.
  assert (E20 : negb (frag_hlen f =? 0) && negb (frag_hlen f =? 20) = false) by (destruct (cl_hlen _ _ Hc) as [->| ->]; done).
  rewrite E20. erewrite bind_ok by (by apply upd_frag_at).
  assert (Eov : match fh with Some fh => ipoff (hdr_of k) <? ipoff fh + ip_len fh - 20 | None => false end = false).
  { destruct fh as [fh|]; [lia|done]. }
  rewrite Eov. destruct (Z.eqb_spec (ipoff (hdr_of k)) 0) as [E0|E0]; cbn [when orb] in *.
  - erewrite bind_ok by (by apply upd_frag_at). rewrite frag_out_at by done. rewrite linked_joined.
    eexists. split; [|reflexivity]. apply joined_collecting; try done; try apply Hc; try (by right); try (by intros).
    + cbn [frag_flags set_frag_flags set_frag_hlen]. rewrite (cl_flags _ _ Hc), Eli, Efi. by destruct (first_in got), (last_in got).
    + rewrite Eli. apply Hc.
  - erewrite bind_ok by done. rewrite frag_out_at by done. rewrite linked_joined.
    eexists. split; [|reflexivity]. apply joined_collecting; try done; try apply Hc; try (by right); try (by intros).
    + cbn [frag_flags set_frag_flags set_frag_hlen]. by rewrite (cl_flags _ _ Hc), Eli, Efi.
    + rewrite Eli. apply Hc.
Qed.

Lemma insert_frag_step (s : stack) (l1 l2 : list (fid * fragment)) i :
  i ∉ fst <$> l1 -> i ∉ fst <$> l2 -> pkbs (st_pkmem s) = m ->
  exists g, collecting (p :: got) g /\ insert_frag p i (at_frag s l1 l2 i f) =
    Ret 0 (at_frag s l1 l2 i (if full_frag g then set_frag_flags g (Z.lor (frag_flags g) FRAG_COMPLETE) else g)).
Proof using Hc Hd Hn Hp Hpn Hs.
  intros Hi1 Hi2 Em. destruct (dg_host _ _ _ _ Hd p Hp) as (k & Hk & (Hl & Hh & Hsz & _) & Hb).
  assert (Eoff : off_of m p = ipoff (hdr_of k)) by (unfold off_of; by rewrite Hk).
  assert (Emf : mf_of m p = negb (Z.land (ip_fragoff (hdr_of k)) IP_FRAG_MF =? 0)) by (unfold mf_of; by rewrite Hk).
  assert (Esz : size_of m p = ip_len (hdr_of k) - 20) by (unfold size_of; by rewrite Hk).
  assert (Hlive : live s p k) by (unfold live; cbn; by rewrite Em).
  pose proof (dg_end _ _ _ _ Hd p Hp) as Hend. pose proof (dg_size _ _ _ _ Hd) as Hdsz.
  unfold insert_frag. erewrite bind_ok by (by apply ld_frag_at). rewrite (collecting_open _ _ Hc).
  erewrite bind_ok by (apply ld_ip_at; [exact Hlive|lia]). cbv zeta. rewrite iphlen_5 by done.
  destruct (Z.land (ip_fragoff (hdr_of k)) IP_FRAG_MF =? 0); cbn [negb] in Emf; rewrite Emf in Hend.
  - destruct (first_in_last Emf) as [Efi Eli].
    assert (Efl : negb (Z.land (frag_flags f) FRAG_LAST_IN =? 0) = false).
    { rewrite (cl_flags _ _ Hc), Eli. by destruct (first_in got). }
    rewrite Efl. erewrite bind_ok by (by apply upd_frag_at). rewrite frag_out_at by done. rewrite linked_joined.
    eexists. split; [|reflexivity]. apply joined_collecting; try done.
    + by apply sorted_at_end.
    + apply (cl_hlen _ _ Hc).
    + intros E. congruence.
    + cbn [frag_flags set_frag_flags set_frag_size]. rewrite (cl_flags _ _ Hc), Efi, Eli, Z.lor_0_r.
      f_equal. unfold last_in. rewrite bool_decide_true; [done|]. by apply Exists_cons; left.
    + intros _. cbn [frag_size set_frag_flags set_frag_size]. pose proof (zlen_nonneg d).
      rewrite u32_small; [lia|]. unfold is_u32. lia.
  - destruct (insert_search_step s l1 l2 i k Hi1 Hi2 Em Hk) as (r & Er & Hr). erewrite bind_ok by exact Er.
    destruct r as [|n fh|]; [done| |].
    + destruct Hr as [Hsrt Hfh]. by apply frag_found_step.
    + by apply frag_found_step.
Qed.

End Step.

End Of.
End Datagram.

(** ** The datagram comes out *)

Section Out.
Implicit Types (s : stack) (q p n : pid) (k : pkbuf) (l : list pid) (f : fragment).

Lemma free_all_run l s : NoDup l -> (forall q, q ∈ l -> exists k, live s q k /\ pk_refcnt k = 1) ->
  twp (for_each l free_pkb) (fun _ s' => s' = set_pkmem (st_pkmem s') s /\
    (forall q, q ∈ l -> pkbs (st_pkmem s') !! q = None) /\
    (forall q, q ∉ l -> pkbs (st_pkmem s') !! q = pkbs (st_pkmem s) !! q)) s.
Proof.
  revert s. induction l as [|p l IH]; intros s Hnd Hl; cbn [for_each].
  { apply twp_ret. split_and!; [by destruct s|set_solver|done]. }
  apply NoDup_cons in Hnd as [Hp Hnd]. destruct (Hl p ltac:(set_solver)) as (k & Hk & Hr).
  eapply twp_step; [by apply (free_pkb_ok s p k)|]. rewrite Hr. cbn [Z.sub Z.leb Z.compare].
  assert (Hne : forall q, q <> p -> pkbs (st_pkmem (without_pkb s p)) !! q = pkbs (st_pkmem s) !! q).
  { intros q Hq. cbn. by apply lookup_delete_ne. }
  eapply twp_mono; [apply IH; [done|]|].
  - intros q Hq. destruct (Hl q ltac:(set_solver)) as (kq & Hkq & Hrq). exists kq. split; [|done].
    change (pkbs (st_pkmem (without_pkb s p)) !! q = Some kq). rewrite Hne; [exact Hkq|]. by intros ->.
  - intros [] s' (Es & Hg & Hk'). split_and!; [by rewrite Es| |].
    + intros q [->|Hq]%elem_of_cons; [|by apply Hg]. rewrite Hk' by done. apply lookup_delete_eq.
    + intros q [Hq1 Hq2]%not_elem_of_cons. rewrite Hk' by done. by apply Hne.
Qed.

Lemma reassembled_data (m : gmap nat pkbuf) k0 len l :
  bytes_ok (pk_data k0) -> 34 <= zlen (pk_data k0) -> all_host m l -> len = 20 + total m l -> len <= 65535 ->
  let k := reassembled m k0 len l in
  hdr_of k = set_ip_len (set_ip_fragoff (hdr_of k0) 0) len /\ slice (pk_data k) 34 (total m l) = concat (payload m <$> l) /\
  pk_len k = 14 + len /\ pk_refcnt k = 1 /\ zlen (pk_data k) = 14 + len.
Proof.
  intros Hb Hlen Hl Elen Hle k. pose proof (total_bound m l Hl) as Htb. pose proof (payloads_len m l Hl) as Hpl.
  pose proof (hdr_wf k0 Hb Hlen) as Hw. assert (Hs : zlen (slice (pk_data k0) 0 34) = 34) by (apply zlen_slice; lia).
  unfold k, reassembled. cbv zeta. set (z := set_pk_pro _ _).
  assert (Hz : zlen (pk_data z) = 14 + len) by (cbn; rewrite zlen_replicate; lia).
  set (base := store z 0 _). assert (Hbl : zlen (pk_data base) = 14 + len) by (unfold base; rewrite store_len; lia).
  set (h := set_ip_len _ _). assert (Hwh : wf_struct h).
  { cbn in Hw |- *. unfold is_u16 in *. destruct Hw as (W1 & W2 & W3 & W4 & W5 & W6 & W7). split_and!; try lia; tauto. }
  split_and!; try done.
  - rewrite hdr_after by (rewrite ?store_ip_len; lia). apply hdr_store; [lia|done].
  - unfold store at 1. cbn [pk_data set_pk_data]. apply slice_patch_eq; [lia|done|]. rewrite store_ip_len; lia.
  - rewrite store_len; rewrite ?store_ip_len; lia.
Qed.

(** What ip_reass hands out: the datagram with data [d] behind the header [h0] of its
    first fragment; the fragments are gone. *)
Definition delivered s (qs : list pid) (h0 : ip) (d : list Z) n (s' : stack) : Prop :=
  (exists k, live s' n k /\ pk_refcnt k = 1 /\ pk_len k = 34 + zlen d /\
     hdr_of k = set_ip_len (set_ip_fragoff h0 0) (20 + zlen d) /\ slice (pk_data k) 34 (zlen d) = d) /\
  st_frag_head s' = st_frag_head s /\ pkbs (st_pkmem s) !! n = None /\
  (forall q, q ∈ qs -> pkbs (st_pkmem s') !! q = None) /\
  (forall q, q ∉ n :: qs -> pkbs (st_pkmem s') !! q = pkbs (st_pkmem s) !! q).

(** Packets handed to ip_reass one after the other, and what it gives back. *)
Fixpoint reass_all (ps : list pid) : comp stack (list (option pid)) :=
  match ps with
  | [] => ret []
  | p :: r => let* o := ip_reass p in let* os := reass_all r in ret (o :: os)
  end.

Section Run.
Context s (h : ip) (qs : list pid) (d : list Z) (m := pkbs (st_pkmem s)).
Context (Hd : datagram m h qs d) (Hroom : roomy s) (Hnone : lookup_frag_in (st_frag_head s) h = None).
Context (Hfresh : Forall (fun jf => (jf.1 < st_next_frag s)%nat) (st_frag_head s)).
Context (Href : forall q k, q ∈ qs -> m !! q = Some k -> pk_refcnt k = 1).

(** The state while the datagram is put together. *)
Definition gathering f : stack := at_frag (set_next_frag (S (st_next_frag s)) s) [] (st_frag_head s) (st_next_frag s) f.

Lemma fresh_id : st_next_frag s ∉ fst <$> st_frag_head s.
Proof using All.
  intros ([j f] & E & Hin)%list_elem_of_fmap. rewrite Forall_forall in Hfresh. specialize (Hfresh _ Hin). cbn in *. lia.
Qed.

Definition reass_tail p (i : fid) : comp stack (option pid) :=
  let* r := insert_frag p i in
  if r <? 0 then ret None
  else let* f := ld_frag i in if complete_frag f then reass_frag i else ret None.

Lemma lookup_frag_key h' : same_key h' h -> lookup_frag_in (st_frag_head s) h' = None.
Proof using All.
  intros (E1 & E2 & E3 & E4). rewrite <- Hnone. generalize (st_frag_head s). intros l. induction l as [|[j f] l IH]; [done|].
  cbn. by rewrite E1, E2, E3, E4, IH.
Qed.

(** The packet finds its datagram, or starts it. *)
Lemma ip_reass_start p : p ∈ qs ->
  exists f0, ip_reass p s = reass_tail p (st_next_frag s) (gathering f0) /\ collecting m h d [] f0.
Proof using All.
  intros Hp. destruct (dg_host _ _ _ _ Hd p Hp) as (k & Hk & (Hl & _) & _). pose proof (dg_key _ _ _ _ Hd p k Hp Hk) as Hkey.
  unfold ip_reass. erewrite bind_ok by (apply (ld_ip_run s p k); [exact Hk|lia]).
  eexists. split.
  - erewrite bind_ok by reflexivity. rewrite (lookup_frag_key _ Hkey). erewrite bind_ok by reflexivity. reflexivity.
  - destruct Hkey as (E1 & E2 & E3 & E4). split; cbn; try done; [constructor|by left|set_solver].
Qed.

Lemma ip_reass_next p f got : p ∈ qs -> collecting m h d got f ->
  ip_reass p (gathering f) = reass_tail p (st_next_frag s) (gathering f).
Proof using All.
  intros Hp Hc. destruct (dg_host _ _ _ _ Hd p Hp) as (k & Hk & (Hl & _) & _). pose proof (dg_key _ _ _ _ Hd p k Hp Hk) as Hkey.
  unfold ip_reass. erewrite bind_ok by (apply (ld_ip_run (gathering f) p k); [exact Hk|lia]).
  erewrite bind_ok by reflexivity. cbn [st_frag_head gathering at_frag set_frag_head app lookup_frag_in].
  destruct Hkey as (E1 & E2 & E3 & E4). destruct (cl_key _ _ _ _ _ Hc) as (K1 & K2 & K3 & K4).
  rewrite E1, E2, E3, E4, K1, K2, K3, K4, !Z.eqb_refl. by erewrite bind_ok by reflexivity.
Qed.

(** The datagram is complete: out it comes. *)
Lemma reass_frag_done q0 k0 f :
  head qs = Some q0 -> m !! q0 = Some k0 -> frag_pkb f = qs -> frag_hlen f = 20 -> frag_size f = zlen d ->
  twp (reass_frag (st_next_frag s)) (fun o s' => exists n, o = Some n /\ delivered s qs (hdr_of k0) d n s') (gathering f).
Proof using All.
  intros Hq0 Hk0 Ep Eh Es. set (sf := gathering f). set (n := next_pid (st_pkmem s)).
  pose proof (dg_size _ _ _ _ Hd) as Hsz. pose proof (datagram_total _ _ _ _ Hd) as Htot.
  assert (Hin0 : q0 ∈ qs) by (destruct qs; [done|injection Hq0 as ->; set_solver]).
  destruct (dg_host _ _ _ _ Hd q0 Hin0) as (k' & Hk' & (Hl0 & _) & Hb0). rewrite Hk0 in Hk'. injection Hk' as <-.
  assert (Hnq : n ∉ qs).
  { intros Hin. destruct (dg_host _ _ _ _ Hd n Hin) as (k & Hk & _). unfold m in Hk.
    rewrite (proj2 Hroom n) in Hk by (unfold n; lia). done. }
  set (len := 20 + frag_size f). set (s1 := with_new sf (zero_pkb (14 + len))).
  assert (Hsame : forall x, x ∈ qs -> pkbs (st_pkmem s1) !! x = m !! x).
  { intros x Hx. unfold s1. cbn. rewrite lookup_insert_ne; [done|]. intros E. apply Hnq. unfold n. by rewrite E. }
  unfold twp. erewrite (reass_frag_run sf [] (st_next_frag s) f (st_frag_head s) n s1 q0 k0); cycle 1.
  { done. } { set_solver. } { done. } { rewrite Ep, Es. by symmetry. } { lia. } { rewrite Ep. apply (dg_host _ _ _ _ Hd). }
  { by rewrite Ep. } { done. } { by apply alloc_run. } { apply live_new. } { by rewrite Ep. } { rewrite Ep. exact Hsame. }
  fold len. rewrite Ep. change (pkbs (st_pkmem sf)) with m.
  destruct (reassembled_data m k0 len qs) as (R1 & R2 & R3 & R4 & _); try done; [lia|apply (dg_host _ _ _ _ Hd)|lia|lia|].
  set (kn := reassembled m k0 len qs) in *. set (s2 := with_pkb s1 n kn).
  change (twp (delete_frag (st_next_frag s);; ret (Some n)) (fun o s' => exists n, o = Some n /\ delivered s qs (hdr_of k0) d n s') s2).
  apply twp_bind. unfold delete_frag.
  eapply twp_step; [apply (ld_frag_split s2 [] (st_next_frag s) f (st_frag_head s)); [done|set_solver]|].
  eapply twp_step; [done|]. rewrite Ep.
  assert (Hm2 : forall x, x <> n -> pkbs (st_pkmem s2) !! x = m !! x).
  { intros x Hx. unfold s2. rewrite lookup_with by done. unfold s1. cbn. by rewrite lookup_insert_ne. }
  assert (Hdel : frag_del (st_frag_head s2) (st_next_frag s) = st_frag_head s).
  { apply (frag_del_split [] (st_next_frag s) f); [set_solver|apply fresh_id]. }
  eapply twp_mono; [apply free_all_run; [apply (sorted_nodup m), (dg_sorted _ _ _ _ Hd)|]|].
  - intros q Hq. destruct (dg_host _ _ _ _ Hd q Hq) as (k & Hk & _). exists k. split; [|by apply (Href q)].
    change (pkbs (st_pkmem s2) !! q = Some k). rewrite Hm2; [done|]. by intros ->.
  - intros [] s' (Es' & Hg & Hk'). exists n. split; [done|]. split_and!.
    + exists kn. split_and!; [| done| lia | |].
      * change (pkbs (st_pkmem s') !! n = Some kn). rewrite Hk' by done. apply lookup_insert_eq.
      * rewrite R1. f_equal. lia.
      * rewrite <- Htot at 1. rewrite R2. apply (dg_data _ _ _ _ Hd).
    + rewrite Es'. cbn [st_frag_head set_pkmem set_frag_head]. exact Hdel.
    + apply Hroom. unfold n. lia.
    + done.
    + intros q [Hq1 Hq2]%not_elem_of_cons. rewrite Hk' by done. change (pkbs (st_pkmem s2) !! q = m !! q). by apply Hm2.
Qed.

Lemma reass_tail_run p got f :
  collecting m h d got f -> NoDup got -> got ⊆ qs -> p ∈ qs -> p ∉ got ->
  (~ p :: got ≡ₚ qs -> exists g, collecting m h d (p :: got) g /\
     reass_tail p (st_next_frag s) (gathering f) = Ret None (gathering g)) /\
  (p :: got ≡ₚ qs -> exists q0 k0, head qs = Some q0 /\ m !! q0 = Some k0 /\
     twp (reass_tail p (st_next_frag s)) (fun o s' => exists n, o = Some n /\ delivered s qs (hdr_of k0) d n s') (gathering f)).
Proof using All.
  intros Hc Hn Hs Hp Hpn.
  destruct (insert_frag_step m h qs d Hd got f Hc Hn Hs p Hp Hpn (set_next_frag (S (st_next_frag s)) s) []
    (st_frag_head s) (st_next_frag s) ltac:(set_solver) fresh_id eq_refl) as (g & Hg & Eg). fold (gathering f) in Eg.
  assert (Hnd : NoDup (p :: got)) by by constructor. assert (Hsub : p :: got ⊆ qs) by set_solver.
  pose proof (full_iff m h qs d Hd _ g Hg Hnd Hsub) as Hfull. split; intros Hall.
  - destruct (full_frag g); [done|]. exists g. split; [done|]. unfold reass_tail. erewrite bind_ok by exact Eg.
    cbn [Z.ltb Z.compare]. erewrite bind_ok by (apply ld_frag_at; set_solver).
    by rewrite (collecting_open m h d _ _ Hg).
  - destruct (full_frag g); [|done]. destruct (dg_first _ _ _ _ Hd) as (q1 & Hq1 & _ & Hmf).
    destruct (dg_last _ _ _ _ Hd) as (q2 & Hq2 & Hml).
    assert (Hhd : exists q0, head qs = Some q0 /\ q0 ∈ qs).
    { revert Hq1. generalize qs. intros [|q0 r] Hr; [set_solver|]. exists q0. split; [done|set_solver]. }
    destruct Hhd as (q0 & Eqs & Hq0). destruct (dg_host _ _ _ _ Hd q0 Hq0) as (k0 & Hk0 & _).
    exists q0, k0. split; [done|]. split; [done|]. unfold reass_tail. eapply twp_step; [exact Eg|].
    cbn [Z.ltb Z.compare]. eapply twp_step; [apply ld_frag_at; set_solver|].
    assert (Ecm : complete_frag (set_frag_flags g (Z.lor (frag_flags g) FRAG_COMPLETE)) = true).
    { unfold complete_frag. cbn [frag_flags set_frag_flags]. apply negb_true_iff, Z.eqb_neq, flag_set. done. }
    rewrite Ecm. apply (reass_frag_done q0 k0); try done; cbn [frag_pkb frag_hlen frag_size set_frag_flags].
    + apply (sorted_unique m); [apply Hg|apply (dg_sorted _ _ _ _ Hd)|]. by rewrite (cl_pkb _ _ _ _ _ Hg).
    + apply (cl_hlen_mf _ _ _ _ _ Hg q1); [by rewrite Hall|done].
    + apply (cl_size _ _ _ _ _ Hg). apply bool_decide_eq_true, Exists_exists. exists q2. by rewrite Hall.
Qed.

(** The result of handing in [ps]: nothing, and the datagram with the last one. *)
Definition all_in (ps : list pid) (h0 : ip) (os : list (option pid)) (s' : stack) : Prop :=
  exists n, os = replicate (length ps - 1) None ++ [Some n] /\ delivered s qs h0 d n s'.

Lemma reass_rest q0 k0 ps got f :
  head qs = Some q0 -> m !! q0 = Some k0 -> collecting m h d got f -> ps ++ got ≡ₚ qs -> ps <> [] ->
  twp (reass_all ps) (all_in ps (hdr_of k0)) (gathering f).
Proof using All.
  intros Hq0 Hk0. revert got f. induction ps as [|p ps IH]; intros got f Hc Hperm Hne; [done|].
  assert (Hnd : NoDup (p :: ps ++ got)).
  { change (NoDup ((p :: ps) ++ got)). rewrite Hperm. apply (sorted_nodup m), (dg_sorted _ _ _ _ Hd). }
  apply NoDup_cons in Hnd as [Hpn Hnd]. assert (Hn : NoDup got) by by apply NoDup_app in Hnd as (_ & _ & ?).
  assert (Hs : got ⊆ qs) by (intros x Hx; rewrite <- Hperm; set_solver).
  assert (Hp : p ∈ qs) by (rewrite <- Hperm; set_solver).
  destruct (reass_tail_run p got f Hc Hn Hs Hp ltac:(set_solver)) as [Hmore Hlast].
  cbn [reass_all]. destruct ps as [|p' ps].
  - destruct (Hlast Hperm) as (q1 & k1 & Hq1 & Hk1 & Ht). rewrite Hq0 in Hq1. injection Hq1 as <-.
    rewrite Hk0 in Hk1. injection Hk1 as <-. apply twp_bind. unfold twp in Ht |- *. rewrite (ip_reass_next p f got Hp Hc).
    destruct (reass_tail p _ (gathering f)) as [o s'| |]; [|done|done]. destruct Ht as (n & -> & Hdl). by exists n.
  - destruct Hmore as (g & Hg & Eg).
    { intros Hall. pose proof (Permutation_length Hall) as L1. pose proof (Permutation_length Hperm) as L2.
      rewrite length_app in L2. cbn in *. lia. }
    eapply twp_step; [rewrite (ip_reass_next p f got Hp Hc); exact Eg|]. apply twp_bind.
    eapply twp_mono; [apply (IH (p :: got) g Hg); [|done]|].
    + rewrite <- Hperm. symmetry. apply Permutation_middle.
    + intros os s' (n & -> & Hdl). apply twp_ret. exists n. split; [|done]. cbn. by rewrite Nat.sub_0_r.
Qed.

Lemma reass_any_order q0 k0 ps : head qs = Some q0 -> m !! q0 = Some k0 -> ps ≡ₚ qs ->
  twp (reass_all ps) (all_in ps (hdr_of k0)) s.
Proof using All.
  intros Hq0 Hk0 Hperm. destruct ps as [|p ps].
  { apply Permutation_nil_l in Hperm. by rewrite <- Hperm in Hq0. }
  assert (Hp : p ∈ qs) by (rewrite <- Hperm; set_solver). destruct (ip_reass_start p Hp) as (f0 & E0 & Hc).
  assert (Hsame : reass_all (p :: ps) s = reass_all (p :: ps) (gathering f0)).
  { cbn [reass_all]. unfold bind at 1 3. by rewrite E0, (ip_reass_next p f0 [] Hp Hc). }
  unfold twp. rewrite Hsame. apply (reass_rest q0 k0 (p :: ps) [] f0); [done|done|done|by rewrite app_nil_r|done].
Qed.

End Run.
End Out.

(** ** From the sender's pieces to a datagram *)

Section Arrive.
Implicit Types (m : gmap nat pkbuf) (q : pid) (c : piece) (cs : list piece) (h : ip) (qs : list pid).

(** The packet [q] as ip_in passes it on, after the piece [c] of a datagram with header
    [h] was received: behind some ether header, the header in host order, the data. *)
Definition arrived m h c q : Prop :=
  exists k eth, m !! q = Some k /\ zlen eth = 14 /\ bytes_ok eth /\ pk_refcnt k = 1 /\ pk_len k = zlen (pk_data k) /\
    pk_data k = eth ++ encode (ip_ntoh (piece_hdr h c)) ++ bytes c.

(** The flags and the offset survive the trip. *)
Lemma fragoff_bits (b : bool) off : 0 <= off < 65536 -> off mod 8 = 0 ->
  let x := u16 (Z.lor (mf_bit b) (Z.shiftr off 3)) in
  is_u16 x /\ Z.land x IP_FRAG_OFF * 8 = off /\ (Z.land x IP_FRAG_MF =? 0) = negb b.
Proof.
  intros Ho H8 x. assert (Hs : 0 <= Z.shiftr off 3 < 2 ^ 13) by (rewrite Z.shiftr_div_pow2 by lia; change (2 ^ 3) with 8; change (2 ^ 13) with 8192; zmod).
  assert (Eo : Z.shiftr off 3 * 8 = off) by (rewrite Z.shiftr_div_pow2 by lia; change (2 ^ 3) with 8; zmod).
  set (y := Z.shiftr off 3) in *. clearbody y. change (2 ^ 13) with 8192 in Hs.
  assert (Ex : x = (if b then 8192 else 0) + y).
  { unfold x. destruct b; cbn [mf_bit].
    - rewrite Z.lor_comm. change IP_FRAG_MF with (Z.shiftl 1 13). rewrite lor_disjoint by (change (2 ^ 13) with 8192; lia).
      change (2 ^ 13) with 8192. rewrite u16_small; [lia|unfold is_u16; lia].
    - rewrite Z.lor_0_l, u16_small; [lia|unfold is_u16; lia]. }
  split_and!.
  - unfold is_u16. rewrite Ex. destruct b; lia.
  - change IP_FRAG_OFF with (Z.ones 13). rewrite Z.land_ones by lia. change (2 ^ 13) with 8192. rewrite Ex.
    rewrite <- Eo. f_equal. destruct b; zmod.
  - rewrite Ex. change IP_FRAG_MF with (Z.shiftl 1 13).
    assert (Et : Z.land ((if b then 8192 else 0) + y) (Z.shiftl 1 13) = if b then 8192 else 0).
    { rewrite Z.shiftl_1_l. apply Z.bits_inj'. intros i Hi. rewrite Z.land_spec, Z.pow2_bits_eqb by lia.
      destruct (Z.eqb_spec 13 i) as [<-|Hne].
      - rewrite andb_true_r, !Z.testbit_eqb by lia. change (2 ^ 13) with 8192.
        replace (((if b then 8192 else 0) + y) / 8192) with ((if b then 8192 else 0) / 8192) by (destruct b; zmod). done.
      - rewrite andb_false_r. destruct b; [|by rewrite Z.bits_0]. change 8192 with (2 ^ 13).
        rewrite Z.pow2_bits_eqb by lia. symmetry. by apply Z.eqb_neq. }
    rewrite Et. by destruct b.
Qed.

(** The fields of the header as the receiver sees them. *)
Lemma arrived_fields m h c q : arrived m h c q -> wf_struct h -> ip_hlen h = 5 -> 0 <= off_at c < 65536 ->
  off_at c mod 8 = 0 -> bytes_ok (bytes c) -> zlen (bytes c) <= 65515 ->
  exists k, m !! q = Some k /\ pk_refcnt k = 1 /\ whole_pkt k /\ bytes_ok (pk_data k) /\ same_key (hdr_of k) (ip_ntoh h) /\
    off_of m q = off_at c /\ size_of m q = zlen (bytes c) /\ mf_of m q = more c /\ payload m q = bytes c /\
    hdr_of k = ip_ntoh (piece_hdr h c).
Proof.
  intros (k & eth & Hk & He & Hbe & Hr & Hlen & Hdata) Hw Hh Ho H8 Hb Hz.
  destruct (fragoff_bits (more c) (off_at c) Ho H8) as (Hx & Hoff & Hmf). pose proof (zlen_nonneg (bytes c)).
  assert (Hwp : wf_struct (ip_ntoh (piece_hdr h c))) by (by apply ip_ntoh_wf, sealed_wf, frag_hdr_wf).
  assert (L : zlen (pk_data k) = 34 + zlen (bytes c)) by (rewrite Hdata, !zlen_app, ip_encode_len; lia).
  assert (Eh : hdr_of k = ip_ntoh (piece_hdr h c)).
  { unfold hdr_of. rewrite Hdata. change ETH_HRD_SZ with 14. change IP_HRD_SZ with 20. rewrite slice_app_r, He by lia.
    rewrite slice_app_l by (rewrite ?ip_encode_len; lia). rewrite slice_full by (rewrite ip_encode_len; lia).
    by apply decode_encode. }
  assert (Elen : ip_len (hdr_of k) = 20 + zlen (bytes c)).
  { rewrite Eh. cbn. unfold _ntohs. rewrite htons_involutive by apply u16_range. apply u16_small. unfold is_u16. lia. }
  assert (Efo : ip_fragoff (hdr_of k) = u16 (Z.lor (mf_bit (more c)) (Z.shiftr (off_at c) 3))).
  { rewrite Eh. cbn. unfold _ntohs. by rewrite htons_involutive. }
  assert (Hwh : whole_pkt k) by (unfold whole_pkt; rewrite Elen, Hlen, L, Eh; cbn; repeat split; try done; lia).
  assert (Hkey : same_key (hdr_of k) (ip_ntoh h)) by by rewrite Eh.
  exists k. do 5 (split; [done || (rewrite Hdata, !bytes_ok_app; split_and!; [done|apply ip_encode_ok|done])|]). split_and!; [| | | |done].
  - unfold off_of. rewrite Hk. cbn [from_option]. unfold ipoff. by rewrite Efo.
  - unfold size_of. rewrite Hk. cbn [from_option]. lia.
  - unfold mf_of. rewrite Hk. cbn [from_option]. rewrite Efo, Hmf. apply negb_involutive.
  - unfold payload. rewrite Hk. cbn [from_option]. rewrite Elen, Hdata, app_assoc.
    rewrite slice_app_r by (rewrite zlen_app, ip_encode_len; lia). rewrite zlen_app, ip_encode_len, He.
    apply slice_full. lia.
Qed.

Definition before (a b : piece) : Prop := off_at a + zlen (bytes a) <= off_at b.

Definition in_place (off top : Z) c : Prop :=
  off <= off_at c /\ off_at c mod 8 = 0 /\ 0 < zlen (bytes c) /\
  if more c then off_at c + zlen (bytes c) < top else off_at c + zlen (bytes c) = top.

Lemma tiled_facts off cs : tiled 8 off cs -> off mod 8 = 0 ->
  Forall (in_place off (off + zlen (concat (bytes <$> cs)))) cs /\ StronglySorted before cs /\
  Exists (fun c => more c = false) cs.
Proof.
  revert off. induction cs as [|c cs IH]; intros off Ht H8; [done|]. destruct (decide (cs = [])) as [->|Hne].
  - destruct Ht as (Hm & Ho & Hp). cbn [fmap list_fmap concat]. rewrite app_nil_r. split_and!.
    + constructor; [|constructor]. unfold in_place. rewrite Hm, Ho. repeat split; [lia|done|done].
    + repeat constructor.
    + by constructor.
  - apply tiled_cons in Ht as (Hm & Ho & Hp & Hp8 & Ht); [|done].
    destruct (IH (off + zlen (bytes c)) Ht ltac:(zmod)) as (F & S & E). rewrite fmap_cons. cbn [concat]. rewrite zlen_app.
    assert (Hpos : 0 < zlen (concat (bytes <$> cs))).
    { apply Exists_exists in E as (x & Hx & Ex). rewrite Forall_forall in F. destruct (F x Hx) as (X1 & _ & X3 & X4).
      rewrite Ex in X4. lia. }
    split_and!.
    + constructor.
      * unfold in_place. rewrite Hm, Ho. repeat split; [lia|done|done|lia].
      * eapply Forall_impl; [exact F|]. intros x (X1 & X2 & X3 & X4). unfold in_place.
        rewrite Z.add_assoc. repeat split; [lia|done|done|done].
    + constructor; [done|]. eapply Forall_impl; [exact F|]. intros x (X1 & _). unfold before. lia.
    + by apply Exists_cons_tl.
Qed.

Lemma sorted_three {A} (R : A -> A -> Prop) l a b : StronglySorted R l -> a ∈ l -> b ∈ l -> a = b \/ R a b \/ R b a.
Proof.
  induction 1 as [|x l Hs IH Hx]; intros Ha Hb; [set_solver|]. rewrite Forall_forall in Hx.
  apply elem_of_cons in Ha as [->|Ha]; apply elem_of_cons in Hb as [->|Hb]; auto.
Qed.

(** What is known of a packet that carries the piece [c]. *)
Definition carries m h c q : Prop :=
  exists k, m !! q = Some k /\ pk_refcnt k = 1 /\ whole_pkt k /\ bytes_ok (pk_data k) /\ same_key (hdr_of k) (ip_ntoh h) /\
    off_of m q = off_at c /\ size_of m q = zlen (bytes c) /\ mf_of m q = more c /\ payload m q = bytes c /\
    hdr_of k = ip_ntoh (piece_hdr h c).

Lemma carries_all m h cs qs : Forall2 (arrived m h) cs qs -> wf_struct h -> ip_hlen h = 5 -> tiled 8 0 cs ->
  bytes_ok (concat (bytes <$> cs)) -> zlen (concat (bytes <$> cs)) <= 65515 -> Forall2 (carries m h) cs qs.
Proof.
  intros Ha Hw Hh Ht Hb Hz. destruct (tiled_facts 0 cs Ht eq_refl) as (F & _ & _).
  assert (Hbs : Forall (fun c => bytes_ok (bytes c)) cs).
  { clear -Hb. induction cs as [|c cs IH]; [constructor|]. rewrite fmap_cons in Hb. cbn in Hb.
    apply bytes_ok_app in Hb as [H1 H2]. constructor; [done|by apply IH]. }
  set (top := 0 + _) in F. assert (Htop : top <= 65515) by (unfold top; lia). clearbody top. clear Ht Hb Hz.
  induction Ha as [|c q cs qs Hq _ IH]; [constructor|]. apply Forall_cons in F as [(F1 & F2 & F3 & F4) F]. apply Forall_cons in Hbs as [Hb Hbs].
  constructor; [|by apply IH]. apply arrived_fields; try done; destruct (more c); lia.
Qed.

(** The fragments that ip_send_frag wrote are the fragments of a datagram. *)
Lemma arrived_datagram m h cs qs : Forall2 (carries m h) cs qs -> tiled 8 0 cs -> (2 <= length cs)%nat ->
  zlen (concat (bytes <$> cs)) <= 65515 -> datagram m (ip_ntoh h) qs (concat (bytes <$> cs)).
Proof.
  intros Ha Ht Hl2 Hz. destruct (tiled_facts 0 cs Ht eq_refl) as (F & S & E). rewrite Z.add_0_l in F. rewrite Forall_forall in F.
  assert (Hq : forall q, q ∈ qs -> exists c, c ∈ cs /\ carries m h c q).
  { intros q Hq. apply list_elem_of_lookup_1 in Hq as [i Hi]. destruct (Forall2_lookup_r _ _ _ _ _ Ha Hi) as (c & Hc & Hcq).
    exists c. split; [by eapply list_elem_of_lookup_2|done]. }
  assert (Hsr : StronglySorted (fun a b => off_of m a + size_of m a <= off_of m b) qs).
  { clear -Ha S. induction Ha as [|c q cs qs Hq Ha IH]; [constructor|]. apply StronglySorted_inv in S as [S Hc].
    constructor; [by apply IH|]. apply Forall_forall. intros q' Hq'. apply list_elem_of_lookup_1 in Hq' as [i Hi].
    destruct (Forall2_lookup_r _ _ _ _ _ Ha Hi) as (c' & Hc' & Hcq). rewrite Forall_forall in Hc.
    specialize (Hc c' ltac:(by eapply list_elem_of_lookup_2)). unfold before in Hc.
    destruct Hq as (k & _ & _ & _ & _ & _ & O1 & Z1 & _). destruct Hcq as (k' & _ & _ & _ & _ & _ & O2 & _). lia. }
  assert (Hpos : forall q, q ∈ qs -> 0 < size_of m q).
  { intros q (c & Hc & (k & _ & _ & _ & _ & _ & _ & Z1 & _))%Hq. destruct (F c Hc) as (_ & _ & Hp & _). lia. }
  split.
  - intros q (c & Hc & (k & Hk & _ & Hw & Hb & _))%Hq. by exists k.
  - intros q k Hin Hk. destruct (Hq q Hin) as (c & _ & (k' & Hk' & _ & _ & _ & Hkey & _)). rewrite Hk in Hk'. by injection Hk' as <-.
  - unfold sorted_offs. clear -Hsr Hpos. induction Hsr as [|q qs _ IH Hx]; [constructor|]. rewrite fmap_cons. constructor.
    + apply IH. intros x Hx'. apply Hpos. set_solver.
    + apply Forall_fmap. eapply Forall_impl; [exact Hx|]. cbn. intros x Hle. specialize (Hpos q ltac:(set_solver)). lia.
  - intros a b Ha' Hb' Hlt. destruct (sorted_three _ qs a b Hsr Ha' Hb') as [->|[H|H]]; [lia|done|].
    pose proof (Hpos b Hb'). lia.
  - done.
  - destruct Ha as [|c q cs qs Hc Ha]; [done|]. exists q. split; [set_solver|].
    destruct Hc as (k & _ & _ & _ & _ & _ & O1 & _ & M1 & _). rewrite O1, M1.
    assert (cs <> []) by (intros ->; cbn in Hl2; lia). by apply tiled_cons in Ht as (? & ? & _).
  - apply Exists_exists in E as (c & Hc & Ec). apply list_elem_of_lookup_1 in Hc as [i Hi].
    destruct (Forall2_lookup_l _ _ _ _ _ Ha Hi) as (q & Hq' & (k & _ & _ & _ & _ & _ & _ & _ & M1 & _)).
    exists q. split; [by eapply list_elem_of_lookup_2|congruence].
  - intros q (c & Hc & (k & _ & _ & _ & _ & _ & O1 & Z1 & M1 & _))%Hq. destruct (F c Hc) as (_ & _ & _ & Hp).
    by rewrite M1, O1, Z1.
  - f_equal. clear -Ha. induction Ha as [|c q cs qs Hc Ha IH]; [done|]. rewrite !fmap_cons. f_equal; [|done].
    by destruct Hc as (k & _ & _ & _ & _ & _ & _ & _ & _ & P1 & _).
  - done.
Qed.

End Arrive.

(** The header of the first fragment, as the datagram gets it. *)
Lemma frag_hdr_len h dlen off mf ck len :
  set_ip_len (set_ip_fragoff (ip_ntoh (set_ip_cksum (frag_hdr h dlen off mf) ck)) 0) len =
  set_ip_len (set_ip_fragoff (set_ip_cksum (ip_ntoh h) ck) 0) len.
Proof. reflexivity. Qed.

Lemma reassembled_hdr (h : ip) (c : piece) : exists ck, forall len,
  set_ip_len (set_ip_fragoff (ip_ntoh (piece_hdr h c)) 0) len = set_ip_len (set_ip_fragoff (set_ip_cksum (ip_ntoh h) ck) 0) len.
Proof. unfold piece_hdr, sealed. eexists. intros len. apply frag_hdr_len. Qed.

(** ** Property *)

(** C5: the fragments that a sender's ip_send_frag cuts a datagram into are put
    together again by the receiver's ip_reass, in whatever order they arrive: every
    call but the last returns nothing, and the last returns a packet with exactly the
    data of the datagram and its header, with the length of the whole and offset
    zero.  Afterwards the fragments are freed, the list of datagrams is what it was,
    and no other packet is touched. *)
Theorem frag_reass_roundtrip (s : stack) (h : ip) (mtu : Z) (d : list Z) (qs ps : list pid) :
  28 <= mtu -> wf_struct h -> ip_hlen h = 5 -> bytes_ok d -> max_data mtu < zlen d <= 65515 ->
  Forall2 (arrived (pkbs (st_pkmem s)) h) (cut mtu d) qs -> ps ≡ₚ qs ->
  roomy s -> lookup_frag_in (st_frag_head s) (ip_ntoh h) = None ->
  Forall (fun jf => (jf.1 < st_next_frag s)%nat) (st_frag_head s) ->
  twp (reass_all ps)
    (fun os s' => exists n ck, os = replicate (length ps - 1) None ++ [Some n] /\
       delivered s qs (set_ip_cksum (ip_ntoh h) ck) d n s') s.
Proof.
  intros Hmtu Hw Hh Hb Hd Ha Hp Hr Hl Hf. destruct (max_data_ok mtu Hmtu) as [Hm _].
  assert (Hne : d <> []) by (intros ->; unfold zlen in Hd; cbn in Hd; lia).
  destruct (cut_tiled mtu d Hmtu Hne) as (Ht & Hc & _).
  assert (H2 : (2 <= length (cut mtu d))%nat).
  { destruct (cut mtu d) as [|c [|c' cs]] eqn:E; [done| |cbn; lia]. exfalso. unfold cut in E.
    destruct d as [|x d]; [done|]. cbn [length pieces] in E. rewrite (proj2 (Z.ltb_lt _ _)) in E by lia.
    injection E as E1 E2. rewrite <- E1 in Ht. by destruct Ht. }
  assert (Hca : Forall2 (carries (pkbs (st_pkmem s)) h) (cut mtu d) qs) by (apply carries_all; rewrite ?Hc; try done; lia).
  assert (Hdg := arrived_datagram _ h _ qs Hca Ht H2 ltac:(rewrite Hc; lia)). rewrite Hc in Hdg.
  destruct (cut mtu d) as [|c cs]; [done|]. destruct qs as [|q0 qs]; [by inversion Hca|].
  pose proof (proj1 (Forall2_cons_iff _ _ _ _ _) Hca) as [(k0 & Hk0 & _ & _ & _ & _ & _ & _ & _ & _ & Eh0) _].
  eapply twp_mono.
  { apply (reass_any_order s (ip_ntoh h) (q0 :: qs) d Hdg Hr Hl Hf) with (q0 := q0) (k0 := k0); [|done|done|done].
    intros q k Hq Hk. apply list_elem_of_lookup_1 in Hq as [i Hi].
    destruct (Forall2_lookup_r _ _ _ _ _ Hca Hi) as (c' & _ & (k' & Hk' & Hr' & _)). rewrite Hk in Hk'. by injection Hk' as <-. }
  intros os s' (n & Hos & Hdl). destruct (reassembled_hdr h c) as [ck Eck]. exists n, ck. split; [done|].
  unfold delivered in *. rewrite Eh0, Eck in Hdl. exact Hdl.
Qed.

(** The three fragments of the sample datagram arrive, the last one first. *)
Definition arriving_pkb (c : piece) : pkbuf :=
  let data := replicate 14 0 ++ encode (ip_ntoh (piece_hdr big_hdr c)) ++ bytes c in
  mk_pkbuf ETH_P_IP 0 (zlen data) 1 (Some 1%nat) None None data.

Definition arriving_stack : stack :=
  set_pkmem (mk_pkmem (list_to_map (zip (seq 0 3) (arriving_pkb <$> cut 68 big_data))) 3%nat 3 0) sample_stack.

Lemma arriving_arrived m c q : m !! q = Some (arriving_pkb c) -> arrived m big_hdr c q.
Proof.
  intros Hq. exists (arriving_pkb c), (replicate 14 0). split; [done|]. split; [done|]. split; [apply bytes_ok_zeros|]. done.
Qed.

Lemma frag_reass_roundtrip_witness :
  twp (reass_all [2; 0; 1]%nat)
    (fun os s' => exists n ck, os = [None; None; Some n] /\
       delivered arriving_stack [0; 1; 2]%nat (set_ip_cksum (ip_ntoh big_hdr) ck) big_data n s') arriving_stack.
Proof.
  assert (Hb : bytes_ok big_data) by (apply (bool_decide_unpack (Forall is_u8 big_data)); by vm_compute).
  assert (Ec : cut 68 big_data =
    [mk_piece true 0 (slice big_data 0 48); mk_piece true 48 (slice big_data 48 48); mk_piece false 96 (slice big_data 96 4)])
    by (vm_compute; reflexivity).
  assert (Ha : Forall2 (arrived (pkbs (st_pkmem arriving_stack)) big_hdr) (cut 68 big_data) [0; 1; 2]%nat).
  { rewrite Ec. repeat constructor; apply arriving_arrived; vm_compute; reflexivity. }
  assert (Hr : roomy arriving_stack).
  { split; [by vm_compute|]. intros q Hq. change (next_pid _) with 3%nat in Hq. apply not_elem_of_list_to_map_1.
    rewrite fst_zip, elem_of_seq by (by vm_compute). lia. }
  refine (frag_reass_roundtrip arriving_stack big_hdr 68 big_data [0; 1; 2]%nat [2; 0; 1]%nat _ _ _ Hb _ Ha _ Hr _ _).
  - done.
  - by vm_compute.
  - done.
  - by vm_compute.
  - change [2; 0; 1]%nat with ([2] ++ [0; 1])%nat. apply Permutation_app_comm.
  - done.
  - constructor.
Defined.
