(* ===== verification/TcpSend.v ===== *)
(** * Text on the wire

    What tcp_send_text writes to the device: the text cut into segments, each with the
    headers, sequence number and checksums of its own, and what the connection knows
    afterwards.  The receiver's side is TcpStream. *)

From stdpp Require Import prelude list gmap.
From Stdlib Require Import ZArith Lia.
From S2P Require Import Prelude Structs Checksum Route Pkb FastPipe ArpCache Sock TcpTable Stack Arp IpOut Icmp IpFrag Own SafeNet SafeIp Wire Raw TcpOut TcpText TcpState SafeTcp TcpSock TcpStream Udp IpIn NetIn Sample FragOut.

(** ** The specification *)

(** The segment that carries a piece of the text: the bits say PSH for the last one. *)
Definition text_tcp (v : sock) (k : tcp_sock) (c : piece) : tcp :=
  text_hdr v (set_snd_nxt k (u32 (snd_nxt k + off_at c))) (if more c then 0 else 1).

Definition text_seg (v : sock) (k : tcp_sock) (c : piece) : list Z :=
  tcp_set_checksum_bytes (sk_saddr v) (sk_daddr v) (encode (text_tcp v k c) ++ bytes c).

Definition text_ip (v : sock) (id len : Z) : ip :=
  mk_ip 5 IP_VERSION_4 0 (_htons (u16 len)) (_htons (u16 id)) 0 TCP_DEFAULT_TTL IP_P_TCP 0 (sk_saddr v) (sk_daddr v).

Definition text_frame (dst src : list Z) (v : sock) (id : Z) (k : tcp_sock) (c : piece) : list Z :=
  encode (mk_ether dst src (_htons ETH_P_IP)) ++ encode (sealed (text_ip v id (40 + zlen (bytes c)))) ++ text_seg v k c.

(** The connection when [n] bytes were sent. *)
Definition after_text (k : tcp_sock) (n : Z) : tcp_sock :=
  set_snd_wnd (set_snd_nxt k (u32 (snd_nxt k + n))) (u32 (snd_wnd k - n)).

(** ** The packet *)

(** A buffer with an ether header of zeros, an IP header and a segment. *)
Definition tcp_pkb (pro : Z) (rt : option rtentry) (i g : list Z) : pkbuf :=
  mk_pkbuf pro 0 (34 + zlen g) 1 None rt None (replicate 14 0 ++ i ++ g).

Section Packet.
Context (v : sock) (Hsp : is_u16 (sk_sport v)) (Hdp : is_u16 (sk_dport v)) (Hsa : is_u32 (sk_saddr v)) (Hda : is_u32 (sk_daddr v)).

Lemma text_hdr_wf k psh : is_u32 (snd_nxt k) -> is_u32 (rcv_nxt k) -> is_bit psh -> wf_struct (text_hdr v k psh).
Proof using Hsp Hdp.
  intros Hn Hr Hp. pose proof (htons_range (u16 (rcv_wnd k))). pose proof (htonl_range _ Hn). pose proof (htonl_range _ Hr).
  unfold is_bit in *. cbn. unfold is_bit, is_u16 in *. split_and!; try done; lia.
Qed.

Lemma text_ip_wf id len : wf_struct (text_ip v id len).
Proof using Hsa Hda. cbn. pose proof (htons_range (u16 len)). pose proof (htons_range (u16 id)). unfold is_u8, is_u16 in *. split_and!; try done; lia. Qed.

Lemma hdr_tcp_pkb pro rt h g : wf_struct h -> hdr_of (tcp_pkb pro rt (encode h) g) = h.
Proof.
  intros Hw. unfold hdr_of, tcp_pkb. cbn [pk_data]. rewrite slice_mid; [by apply decode_encode|done|by rewrite ip_encode_len].
Qed.

Lemma store_ip_tcp_pkb pro rt i g h : zlen i = 20 -> store_ip (tcp_pkb pro rt i g) h = tcp_pkb pro rt (encode h) g.
Proof.
  intros Hi. unfold store_ip, store, tcp_pkb, set_pk_data. cbn [pk_data pk_pro pk_type pk_len pk_refcnt pk_indev pk_rtdst pk_sk].
  f_equal. apply patch_mid; [done|]. by rewrite ip_encode_len, Hi.
Qed.

Lemma tcp_pkb_len pro rt i g : zlen i = 20 -> zlen (pk_data (tcp_pkb pro rt i g)) = 34 + zlen g.
Proof. intros Hi. cbn [pk_data tcp_pkb]. rewrite !zlen_app, Hi. change (zlen (replicate 14 0)) with 14. lia. Qed.

(** Stores into the segment: its first part and its last part. *)
Lemma store_seg pro rt i a b a' : zlen i = 20 -> zlen a' = zlen a ->
  set_pk_data (tcp_pkb pro rt i (a ++ b)) (patch (pk_data (tcp_pkb pro rt i (a ++ b))) 34 a') = tcp_pkb pro rt i (a' ++ b).
Proof.
  intros Hi Ha. unfold tcp_pkb, set_pk_data. cbn [pk_data pk_pro pk_type pk_len pk_refcnt pk_indev pk_rtdst pk_sk].
  f_equal; [rewrite !zlen_app; lia|].
  rewrite !(app_assoc (replicate 14 0)). apply patch_mid; [by rewrite zlen_app, Hi|done].
Qed.

Lemma store_text pro rt i a b b' : zlen i = 20 -> zlen b' = zlen b ->
  set_pk_data (tcp_pkb pro rt i (a ++ b)) (patch (pk_data (tcp_pkb pro rt i (a ++ b))) (34 + zlen a) b') = tcp_pkb pro rt i (a ++ b').
Proof.
  intros Hi Hb. unfold tcp_pkb, set_pk_data. cbn [pk_data pk_pro pk_type pk_len pk_refcnt pk_indev pk_rtdst pk_sk].
  f_equal; [rewrite !zlen_app; lia|].
  pose proof (patch_mid (replicate 14 0 ++ i ++ a) b [] b' (34 + zlen a)) as E. rewrite !app_nil_r, <- !app_assoc in E.
  apply E; [rewrite !zlen_app, Hi; change (zlen (replicate 14 0)) with 14; lia|done].
Qed.
End Packet.

(** ** Runs *)

Section Runs.
Context {os : OS} {re : Reentry}.
Implicit Types (s : stack) (p q : pid) (sk : skid) (v : sock) (k : tcp_sock).

Lemma zero_tcp_pkb n : 0 <= n ->
  zero_pkb (54 + n) = tcp_pkb 0xffff None (replicate 20 0) (replicate 20 0 ++ replicate (Z.to_nat n) 0).
Proof.
  intros Hn. unfold zero_pkb, tcp_pkb. f_equal; [rewrite zlen_app, !zlen_replicate; lia|].
  rewrite <- !replicate_add. f_equal. lia.
Qed.

Lemma text_encode_len (t : tcp) : zlen (encode t) = 20.
Proof. cbn -[le_enc]. by autorewrite with bytes. Qed.

Lemma tcp_init_text_run s p sk v k pro rt i g z x :
  live s p (tcp_pkb pro rt i (g ++ z)) -> zlen i = 20 -> zlen g = 20 -> zlen x = zlen z ->
  socks (st_sock s) !! sk = Some v -> tsks (tcp_st (st_sock s)) !! sk = Some k -> wf_struct (text_hdr v k 0) ->
  tcp_init_text sk p x s =
  Ret tt (set_sock (with_tsk (st_sock s) sk (after_text k (zlen x)))
            (with_pkb s p (tcp_pkb pro rt i (encode (text_hdr v k 0) ++ x)))).
Proof.
  intros Hp Hi Hg Hx Hv Hk Hw. unfold tcp_init_text, tcp_off. change (ETH_HRD_SZ + IP_HRD_SZ) with 34. change TCP_HRD_SZ with 20.
  assert (Hsk : has_tsk (st_sock s) sk k) by (split; [by eexists|done]).
  pose proof (zlen_nonneg z) as Hz. pose proof (tcp_pkb_len pro rt i (g ++ z) Hi) as L. rewrite zlen_app in L.
  erewrite bind_ok by (apply on_sock_ok; unfold ld_sk; by rewrite Hv).
  erewrite bind_ok by (by apply on_sock_ok, ld_tsk_has). change (set_sock (st_sock s) (set_sock (st_sock s) s)) with s.
  erewrite bind_ok by (apply st_at_ok; [exact Hp|lia|done|change (sizeof tcp) with 20; lia]).
  rewrite store_seg by (done || by rewrite text_encode_len, Hg).
  set (g1 := encode (text_hdr v k 0)). assert (Hg1 : zlen g1 = 20) by apply text_encode_len.
  pose proof (tcp_pkb_len pro rt i (g1 ++ z) Hi) as L1. rewrite zlen_app in L1.
  erewrite bind_ok by (apply (st_bytes_ok _ p (tcp_pkb pro rt i (g1 ++ z))); [apply live_with|lia|lia]).
  rewrite with_with. change (34 + 20) with (34 + zlen g1) in *. replace 20 with (zlen g1) by done.
  rewrite store_text by done.
  apply on_sock_ok. exact (upd_tsk_has (st_sock s) sk k _ Hsk).
Qed.

Lemma set_psh_run s p v k pro rt i x :
  live s p (tcp_pkb pro rt i (encode (text_hdr v k 0) ++ x)) -> zlen i = 20 -> wf_struct (text_hdr v k 0) -> wf_struct (text_hdr v k 1) ->
  set_psh p s = Ret tt (with_pkb s p (tcp_pkb pro rt i (encode (text_hdr v k 1) ++ x))).
Proof.
  intros Hp Hi Hw0 Hw1. unfold set_psh, tcp_off. change (ETH_HRD_SZ + IP_HRD_SZ) with 34.
  pose proof (tcp_pkb_len pro rt i (encode (text_hdr v k 0) ++ x) Hi) as L. rewrite zlen_app, text_encode_len in L.
  pose proof (zlen_nonneg x) as Hx.
  erewrite bind_ok by (apply (ld_at_ok tcp); [exact Hp|lia|done|change (sizeof tcp) with 20; lia]).
  assert (Ed : decode (slice (pk_data (tcp_pkb pro rt i (encode (text_hdr v k 0) ++ x))) 34 (sizeof tcp)) = text_hdr v k 0).
  { cbn [pk_data tcp_pkb]. rewrite app_assoc, slice_mid; [by apply decode_encode|by rewrite zlen_app, Hi|by rewrite text_encode_len]. }
  rewrite Ed. erewrite (st_at_ok s p _ 34 (text_hdr v k 1)); [|exact Hp|lia|done|change (sizeof tcp) with 20; lia].
  by rewrite store_seg by (done || by rewrite !text_encode_len).
Qed.

(** What happens to a packet before it is sent does not matter. *)
Lemma sent_with s s' dev fs p b : sent (with_pkb s p b) dev fs [p] s' -> sent s dev fs [p] s'.
Proof.
  intros [W A F R D G K N C S]. split; try done.
  intros q Hq. rewrite K by done. cbn. rewrite lookup_insert_ne; [done|]. set_solver.
Qed.

(** ip_send_out for a packet with a route, not larger than the MTU. *)
Lemma ip_send_out_wire s dev nd rt a p pro h g :
  resolved s dev nd rt h a -> rt_dev rt = dev -> live s p (tcp_pkb pro (Some rt) (encode h) g) -> wf_struct h ->
  bytes_ok g -> ip_hlen h = 5 -> _ntohs (ip_len h) = 20 + zlen g -> 20 + zlen g <= net_mtu nd ->
  twp (ip_send_out p) (fun _ => sent s dev
    [encode (mk_ether a (net_hwaddr nd) (_htons ETH_P_IP)) ++ encode (sealed h) ++ g] [p]) s.
Proof.
  intros Hres <- Hp Hw Hb Hh Hlen Hmtu. unfold ip_send_out. pose proof (zlen_nonneg g) as Hg.
  eapply twp_step; [apply upd_ok; exact Hp|]. cbv beta.
  change (set_pk_pro (tcp_pkb pro (Some rt) (encode h) g) ETH_P_IP) with (tcp_pkb ETH_P_IP (Some rt) (encode h) g).
  set (k1 := tcp_pkb ETH_P_IP (Some rt) (encode h) g).
  assert (L1 : zlen (pk_data k1) = 34 + zlen g) by (by apply tcp_pkb_len, ip_encode_len).
  assert (E1 : hdr_of k1 = h) by by apply hdr_tcp_pkb.
  eapply twp_step; [apply ld_ok, live_with|]. change (pk_rtdst k1) with (Some rt). eapply twp_step; [done|].
  change (0 <? 0) with false. cbv iota.
  eapply twp_step; [apply (ip_set_checksum_run _ p k1); [apply live_with| |lia|by rewrite E1]|].
  { unfold k1. cbn [pk_data tcp_pkb]. rewrite !bytes_ok_app. split; [apply Forall_replicate; unfold is_u8; lia|]. split; [apply ip_encode_ok|done]. }
  rewrite with_with, E1. unfold k1 at 1. rewrite store_ip_tcp_pkb by apply ip_encode_len.
  pose proof (sealed_wf h Hw) as Hws. set (h2 := sealed h) in *. set (k2 := tcp_pkb ETH_P_IP (Some rt) (encode h2) g).
  assert (L2 : zlen (pk_data k2) = 34 + zlen g) by (by apply tcp_pkb_len, ip_encode_len).
  assert (E2 : hdr_of k2 = h2) by by apply hdr_tcp_pkb.
  eapply twp_step; [apply (ld_ip_run _ p k2); [apply live_with|lia]|]. eapply twp_step; [apply ld_ok, live_with|].
  change (pk_rtdst k2) with (Some rt). eapply twp_step; [done|]. rewrite E2.
  destruct (Hres) as [Hd _ _ _ _ _]. rewrite lookup_fmap in Hd. destruct (st_netdevs s !! rt_dev rt) as [nd'|] eqn:Ev; [|done].
  apply (inj Some) in Hd as Ec. assert (Em : net_mtu nd' = net_mtu nd) by (by change (net_mtu (cfg nd') = net_mtu nd); rewrite Ec).
  eapply twp_step; [unfold ld_dev; change (st_netdevs (with_pkb s p k2)) with (st_netdevs s); by rewrite Ev|].
  rewrite Em. change (ip_len h2) with (ip_len h). rewrite Hlen, (proj2 (Z.ltb_ge _ _)) by lia.
  eapply twp_mono.
  { apply (ip_send_dev_wire _ (rt_dev rt) nd rt a p k2); [|apply live_with|done|done|].
    - rewrite E2. by destruct Hres as [R1 R2 R3 R4 R5 R6].
    - rewrite L2. change (pk_len k2) with (34 + zlen g). lia. }
  intros [] s' Hs. apply sent_with in Hs. replace (frame_of k2 a (net_hwaddr nd) ETH_P_IP (pk_len k2 - 14))
    with (encode (mk_ether a (net_hwaddr nd) (_htons ETH_P_IP)) ++ encode h2 ++ g) in Hs; [done|].
  unfold frame_of. f_equal. symmetry. change (pk_len k2) with (34 + zlen g). unfold k2. cbn [pk_data tcp_pkb].
  pose proof (slice_mid (replicate 14 0) (encode h2 ++ g) [] 14 (34 + zlen g - 14)) as E. rewrite app_nil_r in E.
  apply E; [done|]. rewrite zlen_app, ip_encode_len. lia.
Qed.

(** The sock is read and stays. *)
Lemma ld_sk_run s sk v : socks (st_sock s) !! sk = Some v -> on_sock (ld_sk sk) s = Ret v s.
Proof. intros Hv. erewrite on_sock_ok by (unfold ld_sk; by rewrite Hv). by destruct s. Qed.

Lemma ld_tsk_run s sk v k : socks (st_sock s) !! sk = Some v -> tsks (tcp_st (st_sock s)) !! sk = Some k ->
  on_sock (ld_tsk sk) s = Ret k s.
Proof. intros Hv Hk. erewrite on_sock_ok by (eapply ld_tsk_has; split; [by eexists|done]). by destruct s. Qed.

(** tcp_init_pkb on a connected sock, with a zeroed IP header. *)
Lemma tcp_init_pkb_run s p sk v rt g (h := text_ip v (tcp_id (tcp_st (st_sock s))) (20 + zlen g)) :
  live s p (tcp_pkb 0xffff None (replicate 20 0) g) -> socks (st_sock s) !! sk = Some v -> sk_dst v = Some rt ->
  is_u32 (sk_saddr v) -> is_u32 (sk_daddr v) ->
  tcp_init_pkb (Some sk) p (sk_saddr v) (sk_daddr v) s = Ret 0 (with_pkb s p (tcp_pkb 0xffff (Some rt) (encode h) g)).
Proof.
  intros Hp Hv Hdst Hsa Hda. pose proof (zlen_nonneg g) as Hg. set (id := tcp_id (tcp_st (st_sock s))) in *.
  set (z := tcp_pkb 0xffff None (replicate 20 0) g) in *. set (h1 := set_ip_src h 0).
  assert (Lk : forall rt (h : ip), zlen (pk_data (tcp_pkb 0xffff rt (encode h) g)) = 34 + zlen g).
  { intros r h0. apply tcp_pkb_len, ip_encode_len. }
  assert (Lz : zlen (pk_data z) = 34 + zlen g) by by apply tcp_pkb_len.
  pose proof (text_ip_wf v Hsa Hda id (20 + zlen g)) as Hw. fold h in Hw.
  assert (Hw1 : wf_struct h1) by (destruct Hw as (? & ? & ? & ? & ? & ? & ? & ? & ? & ? & ?); cbn; split_and!; try done; unfold is_u32; lia).
  assert (E1 : store_ip z (mk_ip (Z.shiftr IP_HRD_SZ 2) IP_VERSION_4 0 (_htons (u16 (pk_len z - ETH_HRD_SZ))) (_htons (u16 id)) 0
             TCP_DEFAULT_TTL IP_P_TCP (ip_cksum (hdr_of z)) (ip_src (hdr_of z)) (sk_daddr v)) = tcp_pkb 0xffff None (encode h1) g).
  { assert (Ez : hdr_of z = decode (replicate 20 0)) by (unfold hdr_of, z; cbn [pk_data tcp_pkb]; by rewrite slice_mid by done).
    rewrite Ez. unfold z at 1. rewrite store_ip_tcp_pkb by done. do 2 f_equal. unfold h1, h, text_ip, set_ip_src.
    change (pk_len z - ETH_HRD_SZ) with (34 + zlen g - 14). replace (34 + zlen g - 14) with (20 + zlen g) by lia. reflexivity. }
  unfold tcp_init_pkb. erewrite bind_ok by (by apply ld_ok). erewrite bind_ok by done. fold id.
  erewrite bind_ok by (apply (upd_ip_run _ p z); [exact Hp|lia]). cbv beta. rewrite E1. clear E1.
  set (k1 := tcp_pkb 0xffff None (encode h1) g). erewrite bind_ok by (by erewrite bind_ok by (by apply ld_sk_run)).
  rewrite Hdst. cbv iota. erewrite bind_ok by (by erewrite bind_ok by (apply upd_ok, live_with)). rewrite with_with. cbv beta.
  change (set_pk_rtdst k1 (Some rt)) with (tcp_pkb 0xffff (Some rt) (encode h1) g). clear k1. set (k1 := tcp_pkb 0xffff (Some rt) (encode h1) g).
  change (0 <? 0) with false. cbv iota. assert (E1 : hdr_of k1 = h1) by by apply hdr_tcp_pkb.
  erewrite bind_ok by (apply (upd_ip_run _ p k1); [apply live_with|unfold k1; rewrite Lk; lia]).
  rewrite with_with, E1. change (set_ip_src h1 (sk_saddr v)) with h. unfold k1. by rewrite store_ip_tcp_pkb by apply ip_encode_len.
Qed.

Lemma tcp_set_checksum_run s p pro rt h g :
  live s p (tcp_pkb pro rt (encode h) g) -> wf_struct h -> ip_hlen h = 5 -> _ntohs (ip_len h) = 20 + zlen g ->
  bytes_ok g -> 20 <= zlen g ->
  tcp_set_checksum p s = Ret tt (with_pkb s p (tcp_pkb pro rt (encode h) (tcp_set_checksum_bytes (ip_src h) (ip_dst h) g))).
Proof.
  intros Hp Hw Hh Hlen Hb Hg. unfold tcp_set_checksum, tcp_off. change (ETH_HRD_SZ + IP_HRD_SZ) with 34.
  assert (L : zlen (pk_data (tcp_pkb pro rt (encode h) g)) = 34 + zlen g) by apply tcp_pkb_len, ip_encode_len.
  erewrite bind_ok by (apply (ld_ip_run _ p _ Hp); lia). rewrite hdr_tcp_pkb by done.
  unfold ipndlen. rewrite Hlen, iphlen_5 by done. replace (20 + zlen g - 20) with (zlen g) by lia.
  erewrite bind_ok by (apply (ld_bytes_ok _ p _ _ _ Hp); lia).
  assert (Eg : slice (pk_data (tcp_pkb pro rt (encode h) g)) 34 (zlen g) = g).
  { cbn [pk_data tcp_pkb]. rewrite <- (app_nil_r g) at 1. rewrite app_assoc. apply slice_mid; [by rewrite zlen_app, ip_encode_len|done]. }
  rewrite Eg. destruct (tcp_checksum_bytes_ok (ip_src h) (ip_dst h) g Hb ltac:(lia)) as [Hl2 Hb2].
  set (g2 := tcp_set_checksum_bytes _ _ g) in *. erewrite st_bytes_ok by (exact Hp || lia).
  pose proof (store_seg pro rt (encode h) g [] g2) as E. rewrite !app_nil_r in E. by rewrite E by (done || apply ip_encode_len).
Qed.

(** tcp_send_out on a connected sock. *)
Lemma tcp_send_out_wire s dev nd rt a p sk v g :
  resolved s dev nd rt (text_ip v 0 0) a -> rt_dev rt = dev -> live s p (tcp_pkb 0xffff None (replicate 20 0) g) ->
  socks (st_sock s) !! sk = Some v -> sk_dst v = Some rt -> is_u32 (sk_saddr v) -> is_u32 (sk_daddr v) ->
  bytes_ok g -> 20 <= zlen g -> 20 + zlen g <= net_mtu nd -> zlen g <= 65515 ->
  twp (tcp_send_out (Some sk) p None) (fun _ => sent s dev
    [encode (mk_ether a (net_hwaddr nd) (_htons ETH_P_IP)) ++
     encode (sealed (text_ip v (tcp_id (tcp_st (st_sock s))) (20 + zlen g))) ++
     tcp_set_checksum_bytes (sk_saddr v) (sk_daddr v) g] [p]) s.
Proof.
  intros Hres Hdev Hp Hv Hdst Hsa Hda Hb Hg Hmtu Hmax. unfold tcp_send_out. set (id := tcp_id (tcp_st (st_sock s))).
  pose proof (text_ip_wf v Hsa Hda id (20 + zlen g)) as Hw. set (h := text_ip v id (20 + zlen g)) in *.
  assert (Hlen : _ntohs (ip_len h) = 20 + zlen g).
  { unfold h, text_ip, _ntohs. cbn [ip_len]. rewrite htons_involutive by apply u16_range. unfold u16. zmod. }
  destruct (tcp_checksum_bytes_ok (sk_saddr v) (sk_daddr v) g Hb ltac:(lia)) as [Hl2 Hb2].
  rewrite <- twp_bind_assoc. eapply twp_step; [by apply ld_sk_run|]. eapply twp_step; [done|]. cbv beta iota.
  eapply twp_step; [by apply tcp_init_pkb_run|]. change (0 <? 0) with false. cbv iota.
  eapply twp_step; [by apply tcp_set_checksum_run; [apply live_with|..]|]. rewrite with_with.
  change (ip_src h) with (sk_saddr v). change (ip_dst h) with (sk_daddr v).
  set (g2 := tcp_set_checksum_bytes (sk_saddr v) (sk_daddr v) g) in *.
  eapply twp_mono.
  { apply (ip_send_out_wire _ dev nd rt a p 0xffff h g2); rewrite ?Hl2; try assumption; [|apply live_with|done].
    by destruct Hres as [R1 R2 R3 R4 R5 R6]. }
  intros [] s' Hs. by apply sent_with in Hs.
Qed.

(** ** The loop *)

(** The sock [sk] is connected through [rt], whose next hop is resolved. *)
Record sending s sk v k (rt : rtentry) (dev : devid) (nd : netdev) (a : list Z) : Prop := {
  sd_sock : socks (st_sock s) !! sk = Some v;
  sd_tsk : tsks (tcp_st (st_sock s)) !! sk = Some k;
  sd_dst : sk_dst v = Some rt;
  sd_dev : rt_dev rt = dev;
  sd_res : resolved s dev nd rt (text_ip v 0 0) a;
  sd_ports : is_u16 (sk_sport v) /\ is_u16 (sk_dport v);
  sd_addrs : is_u32 (sk_saddr v) /\ is_u32 (sk_daddr v);
  sd_nums : is_u32 (snd_nxt k) /\ is_u32 (snd_wnd k) /\ is_u32 (rcv_nxt k)
}.

Lemma after_after k m n : after_text (after_text k m) n = after_text k (m + n).
Proof.
  unfold after_text. cbn [snd_nxt snd_wnd set_snd_wnd set_snd_nxt]. unfold u32.
  rewrite Zplus_mod_idemp_l, Zminus_mod_idemp_l, Z.add_assoc, Z.sub_add_distr. reflexivity.
Qed.

Lemma after_zero k : is_u32 (snd_nxt k) -> is_u32 (snd_wnd k) -> after_text k 0 = k.
Proof.
  intros Hn Hw. unfold after_text. rewrite Z.add_0_r, Z.sub_0_r, !u32_small by done. by destruct k.
Qed.

Lemma with_tsk_id (x : sockstate) sk k : tsks (tcp_st x) !! sk = Some k -> with_tsk x sk k = x.
Proof. intros Hk. unfold with_tsk. rewrite insert_id by done. by destruct x as [? ? ? ? ? ? ? ? ? []]. Qed.

Lemma sent_set_sock s s' dev fs gone x : sent s dev fs gone s' -> sent (set_sock x s) dev fs gone (set_sock x s').
Proof. intros [W A F R D G K N C S]. by split. Qed.

Lemma sending_after s sk v k rt dev nd a n : sending s sk v k rt dev nd a ->
  sending (set_sock (with_tsk (st_sock s) sk (after_text k n)) s) sk v (after_text k n) rt dev nd a.
Proof.
  intros [H1 H2 H3 H4 H5 H6 H7 (N1 & N2 & N3)]. split; try done.
  - cbn. apply lookup_insert_eq.
  - by destruct H5 as [R1 R2 R3 R4 R5 R6].
  - split; [apply u32_range|]. split; [apply u32_range|done].
Qed.

Lemma sending_sent s s' sk v k rt dev nd a fs : sending s sk v k rt dev nd a -> sent s dev fs [] s' -> sending s' sk v k rt dev nd a.
Proof.
  intros [H1 H2 H3 H4 H5 H6 H7 H8] Hs. pose proof (sn_sock _ _ _ _ _ Hs) as Es.
  split; rewrite ?Es; try done. by eapply resolved_sent.
Qed.

(** One turn: the segment with [x], as the last one or not. *)
Lemma send_segment_wire s sk v k rt dev nd a x last (psh := if last : bool then 1 else 0) :
  roomy s -> sending s sk v k rt dev nd a -> bytes_ok x -> 40 + zlen x <= net_mtu nd -> zlen x <= 65495 ->
  twp (let* p := alloc_pkb (ETH_HRD_SZ + IP_HRD_SZ + TCP_HRD_SZ + zlen x) in
       tcp_init_text sk p x;; when last (set_psh p);; tcp_send_out (Some sk) p None)
    (fun _ => sent (set_sock (with_tsk (st_sock s) sk (after_text k (zlen x))) s) dev
       [encode (mk_ether a (net_hwaddr nd) (_htons ETH_P_IP)) ++
        encode (sealed (text_ip v (tcp_id (tcp_st (st_sock s))) (40 + zlen x))) ++
        tcp_set_checksum_bytes (sk_saddr v) (sk_daddr v) (encode (text_hdr v k psh) ++ x)] []) s.
Proof.
  intros Hr Hs Hb Hmtu Hmax. pose proof (zlen_nonneg x) as Hx.
  destruct (sending_after _ _ _ _ _ _ _ _ (zlen x) Hs) as [S1 _ S3 S4 S5 _ [S7 S7'] _].
  destruct Hs as [H1 H2 _ _ _ [Hsp Hdp] _ (N1 & N2 & N3)].
  assert (Hw : forall b, is_bit b -> wf_struct (text_hdr v k b)) by (intros; by apply text_hdr_wf).
  pose proof (Hw 0 ltac:(unfold is_bit; lia)) as Hw0. pose proof (Hw 1 ltac:(unfold is_bit; lia)) as Hw1.
  change (ETH_HRD_SZ + IP_HRD_SZ + TCP_HRD_SZ) with 54.
  eapply twp_step; [by apply alloc_run|]. rewrite zero_tcp_pkb by done. set (p := next_pid (st_pkmem s)).
  set (s0 := with_new s _).
  eapply twp_step.
  { apply (tcp_init_text_run s0 p sk v k 0xffff None (replicate 20 0) (replicate 20 0) (replicate (Z.to_nat (zlen x)) 0) x); [apply live_new|done|done|rewrite zlen_replicate; lia|done|done|done]. }
  set (x1 := with_tsk (st_sock s0) sk (after_text k (zlen x))). unfold s0. rewrite with_new_with.
  set (g := encode (text_hdr v k psh) ++ x).
  assert (Hg : zlen g = 20 + zlen x) by (unfold g; by rewrite zlen_app, text_encode_len).
  eapply (twp_step _ _ _ _ _ (set_sock x1 (with_new s (tcp_pkb 0xffff None (replicate 20 0) g)))).
  { unfold when, g, psh. destruct last; [|done].
    rewrite (set_psh_run _ p v k 0xffff None (replicate 20 0) x); [|exact (live_new s _)|done|done|done].
    f_equal. symmetry. etransitivity; [symmetry; by apply (f_equal (set_sock x1)), with_new_with|]. reflexivity. }
  cbv beta. change (set_sock x1 (with_new s ?b)) with (with_new (set_sock x1 s) b).
  eapply twp_mono.
  { apply (tcp_send_out_wire _ dev nd rt a p sk v g); try done; try (rewrite Hg; lia).
    - by destruct S5 as [R1 R2 R3 R4 R5 R6].
    - exact (live_new s _).
    - unfold g. apply bytes_ok_app. split; [by apply encode_ok; destruct last|done]. }
  intros [] s' Hs'. rewrite Hg in Hs'. replace (20 + (20 + zlen x)) with (40 + zlen x) in Hs' by lia.
  exact (sent_new (set_sock x1 s) s' dev _ _ Hr Hs').
Qed.

(** A turn of the loop and the turns behind it. *)
Lemma sent_turn s s1 s2 dev f fs x y :
  sent (set_sock x s) dev [f] [] s1 -> sent (set_sock y s1) dev fs [] s2 -> sent (set_sock y s) dev (f :: fs) [] s2.
Proof. intros H1 H2. apply (sent_set_sock _ _ _ _ _ y) in H1. exact (sent_trans _ _ _ _ [f] fs [] [] H1 H2). Qed.

Lemma twp_turn {A B} (m : comp stack A) (f g h : A -> comp stack unit) (r : comp stack B) Q s :
  twp (let* x := m in f x;; g x;; h x) (fun _ => twp r Q) s -> twp (let* x := m in f x;; g x;; h x;; r) Q s.
Proof.
  unfold twp, bind. destruct (m s) as [x s1| |]; [|done..]. destruct (f x s1) as [[] s2| |]; [|done..].
  destruct (g x s2) as [[] s3| |]; [|done..]. by destruct (h x s3) as [[] s4| |].
Qed.

Lemma send_turn_wire s sk v k rt dev nd a off x last (c := mk_piece (negb last) off x) :
  roomy s -> sending s sk v (after_text k off) rt dev nd a -> bytes_ok x -> 40 + zlen x <= net_mtu nd -> zlen x <= 65495 ->
  twp (let* p := alloc_pkb (ETH_HRD_SZ + IP_HRD_SZ + TCP_HRD_SZ + zlen x) in
       tcp_init_text sk p x;; when last (set_psh p);; tcp_send_out (Some sk) p None)
    (fun _ s1 => let y := with_tsk (st_sock s) sk (after_text k (off + zlen x)) in
       sent (set_sock y s) dev [text_frame a (net_hwaddr nd) v (tcp_id (tcp_st (st_sock s))) k c] [] s1 /\
       st_sock s1 = y /\ roomy s1 /\ sending s1 sk v (after_text k (off + zlen x)) rt dev nd a) s.
Proof.
  intros Hr Hs Hb Hmtu Hmax. eapply twp_mono; [by apply (send_segment_wire s sk v (after_text k off) rt dev nd a x last)|].
  pose proof (sending_after _ _ _ _ _ _ _ _ (zlen x) Hs) as Ha. rewrite after_after in *. intros _ s1 Hs1. cbv zeta.
  assert (E : text_hdr v (after_text k off) (if last then 1 else 0) = text_tcp v k c) by (unfold text_tcp, c; by destruct last).
  rewrite E in Hs1. split; [done|]. split; [apply (sn_sock _ _ _ _ _ Hs1)|]. split; [|by eapply sending_sent].
  exact (sent_roomy (set_sock _ s) s1 dev _ [] Hr Hs1).
Qed.

Lemma pieces_none n mlen off (d : list Z) : zlen d <= 0 -> 0 <= mlen -> pieces n mlen off d = [].
Proof. intros Hd Hm. pose proof (zlen_nonneg d). destruct n; cbn [pieces]; rewrite (proj2 (Z.ltb_ge _ _)), (proj2 (Z.eqb_eq _ _)) by lia; done. Qed.

Lemma send_text_loop_wire n s sk v k rt dev nd a buf mss segsize off len :
  roomy s -> sending s sk v (after_text k off) rt dev nd a -> bytes_ok buf -> 0 < mss -> 40 + mss <= net_mtu nd -> mss <= 65495 ->
  0 <= off <= len -> len <= zlen buf -> len - off <= Z.of_nat n -> (off < len -> segsize = mss) ->
  twp (send_text_loop n sk buf segsize off len)
    (fun r s' => r = len /\
       sent (set_sock (with_tsk (st_sock s) sk (after_text k len)) s) dev
         (text_frame a (net_hwaddr nd) v (tcp_id (tcp_st (st_sock s))) k <$> pieces n mss off (slice buf off (len - off))) [] s') s.
Proof.
  revert s segsize off. induction n as [|n IH]; intros s segsize off Hr Hs Hb Hm Hmtu Hmax Ho Hl Hn Hseg;
    assert (Ls : zlen (slice buf off (len - off)) = len - off) by (apply zlen_slice; lia);
    cbn [send_text_loop pieces]; rewrite Ls; (destruct (Z.ltb_spec off len) as [Hlt|Hge];
      [|assert (off = len) as -> by lia; rewrite Z.sub_diag, (proj2 (Z.ltb_ge _ _)) by lia; cbn [Z.eqb fmap list_fmap];
        apply twp_ret; split; [done|]; rewrite with_tsk_id by apply Hs; destruct s; apply sent_refl]); [lia|].
  rewrite (Hseg Hlt). cbv zeta. set (sz := Z.min mss (len - off)). set (x := slice buf off sz).
  assert (Hx : zlen x = sz) by (apply zlen_slice; lia). assert (Hbx : bytes_ok x) by by apply bytes_ok_slice.
  pose proof (send_turn_wire s sk v k rt dev nd a off x (len <=? off + sz) Hr Hs Hbx ltac:(lia) ltac:(lia)) as Hone.
  rewrite Hx in Hone. apply twp_turn. eapply twp_mono; [exact Hone|]. clear Hone. cbv beta zeta.
  intros _ s1 (Hs1 & Esk & Hr1 & Hs1'). eapply twp_mono; [apply (IH s1 sz (off + sz)); try done; lia|].
  cbv beta. intros r s2 [-> Hs2]. split; [done|]. rewrite Esk, with_tsk_tsk in Hs2.
  change (tcp_id (tcp_st (with_tsk (st_sock s) sk _))) with (tcp_id (tcp_st (st_sock s))) in Hs2.
  pose proof (sent_turn _ _ _ _ _ _ _ _ Hs1 Hs2) as Ht. rewrite <- fmap_cons in Ht.
  replace (if mss <? len - off then _ else _) with (mk_piece (negb (len <=? off + sz)) off x :: pieces n mss (off + sz) (slice buf (off + sz) (len - (off + sz)))); [done|].
  symmetry. unfold x, sz. destruct (Z.ltb_spec mss (len - off)) as [Hc|Hc].
  - rewrite Z.min_l, (proj2 (Z.leb_gt _ _)) by lia. rewrite !slice_slice by lia. cbn [negb]. rewrite Z.add_0_r.
    do 3 f_equal. lia.
  - rewrite Z.min_r, (proj2 (Z.leb_le _ _)), (proj2 (Z.eqb_neq _ _)) by lia. cbn [negb]. f_equal. symmetry. apply pieces_none; [rewrite zlen_slice by lia|]; lia.
Qed.

(** ** Property *)

Lemma text_frame_len dst src v id k c : hwaddr_ok dst -> hwaddr_ok src -> bytes_ok (bytes c) ->
  is_u16 (sk_sport v) -> is_u16 (sk_dport v) -> is_u32 (rcv_nxt k) -> zlen (text_frame dst src v id k c) = 54 + zlen (bytes c).
Proof.
  intros [_ Hd] [_ Hs] Hb Hsp Hdp Hr. unfold text_frame, text_seg.
  assert (Hw : wf_struct (text_tcp v k c)).
  { apply text_hdr_wf; try done; [apply u32_range|unfold is_bit; destruct (more c); lia]. }
  pose proof (zlen_nonneg (bytes c)).
  destruct (tcp_checksum_bytes_ok (sk_saddr v) (sk_daddr v) (encode (text_tcp v k c) ++ bytes c)) as [E _].
  { apply bytes_ok_app. split; [by apply encode_ok|done]. }
  { rewrite zlen_app, text_encode_len. lia. }
  rewrite !zlen_app, E, ip_encode_len, zlen_app, text_encode_len.
  cbn [encode ether_struct eth_dst eth_src eth_pro]. rewrite !zlen_app, zlen_le_enc. unfold zlen in *. lia.
Qed.

End Runs.

(** A connection of the sample host to port 80 of the peer over a device that takes 68
    bytes, with a window of 60: of a text of 100 bytes 60 go out, in three segments. *)
Definition send_sock : sock :=
  mk_sock IP_P_TCP (mk_sock_addr sample_ip peer_ip (_htons 40000) (_htons 80)) (Some 7%nat) tcp_ops (Some big_route) [] (Some 7%nat) 0 true 1.
Definition send_tsk : tcp_sock :=
  set_state (set_rcv_wnd (set_rcv_nxt (set_snd_wnd (set_snd_nxt new_tsk 4294967286) 60) 501) 8192) TCP_ESTABLISHED.
Definition send_stack : stack :=
  set_sock (set_tcp_st (set_tsks {[0%nat := send_tsk]} (tcp_st sock_start)) (set_socks {[0%nat := send_sock]} sock_start))
    (set_pkmem (mk_pkmem ∅ 1%nat 0 0) big_stack).

Lemma send_ready : sending send_stack 0%nat send_sock send_tsk big_route 1%nat big_dev peer_hw.
Proof.
  assert (Hh : forall l : list Z, bool_decide (Forall is_u8 l /\ length l = 6%nat) = true -> hwaddr_ok l).
  { intros l Hl. by apply bool_decide_eq_true in Hl. }
  split; try done; try by vm_compute.
  split; [by vm_compute|by left|by apply Hh; vm_compute|by vm_compute|exists 0%nat; by vm_compute|by apply Hh; vm_compute].
Qed.

