(* ===== verification/ArpWire.v ===== *)
(** * ARP on the wire: a request is answered

    From the bytes of a request to the bytes of the reply, through arp_in, arp_recv,
    arp_reply and netdev_tx. *)

From stdpp Require Import prelude list gmap.
From Stdlib Require Import ZArith Lia.
From S2P Require Import Prelude Structs Checksum Route Pkb FastPipe ArpCache Sock Stack Arp IpOut Icmp IpFrag Own SafeNet SafeIp Wire Raw TcpOut TcpText TcpState Udp IpIn NetIn Sample.

(** ** The specification *)

(** An ARP message about IP over ether, in network order. *)
Definition arp_msg (op : Z) (sha : list Z) (sip : Z) (tha : list Z) (tip : Z) : arp :=
  mk_arp (_htons ARP_HRD_ETHER) (_htons ETH_P_IP) ETH_ALEN IP_ALEN (_htons op) sha sip tha tip.

Definition arp_frame (dst src : list Z) (a : arp) : list Z :=
  encode (mk_ether dst src (_htons ETH_P_ARP)) ++ encode a.

(** What the cache knows after a request from [sip] at [sha]. *)
Definition learned (c : arpcache) (dev : devid) (sip : Z) (sha : list Z) : arpcache :=
  match arp_lookup c ETH_P_IP sip with
  | Some ae =>
      upd_entry (upd_entry c ae (fun e => set_ae_hwaddr e sha)) ae
        (fun e => set_ae_ttl (set_ae_state e ARP_RESOLVED) ARP_TIMEOUT)
  | None => snd (arp_insert c dev ETH_P_IP sip sha)
  end.

(** ** Lemmas *)

Section Answer.
Context {os : OS} {re : Reentry}.
Implicit Types (s : stack) (p : pid) (k : pkbuf).

(** The struct at [off] of a buffer. *)
Definition struct_at {T} `{Struct T} k (off : Z) (t : T) : Prop :=
  off + sizeof T <= zlen (pk_data k) /\ slice (pk_data k) off (sizeof T) = encode t.

Lemma ld_struct {T} `{StructOk T} s p k off (t : T) : live s p k -> 0 <= off -> 0 <= sizeof T -> wf_struct t ->
  struct_at k off t -> ld_at T p off s = Ret t s.
Proof.
  intros Hk Ho Hs Hw [Hl Hb]. rewrite (ld_at_ok T s p k) by done. by rewrite Hb, decode_encode.
Qed.

Lemma store_struct {T} `{StructOk T} k off (t : T) : 0 <= off -> wf_struct t -> off + sizeof T <= zlen (pk_data k) ->
  struct_at (set_pk_data k (patch (pk_data k) off (encode t))) off t.
Proof.
  intros Ho Hw Hl. pose proof (encode_len t Hw) as He. split; cbn [pk_data set_pk_data].
  - rewrite zlen_patch by lia. done.
  - rewrite slice_patch_eq; [done|lia|lia|lia].
Qed.

Lemma arp_msg_hton op sha sip tha tip : is_u16 op ->
  arp_hton (arp_msg op sha sip tha tip) = mk_arp ARP_HRD_ETHER ETH_P_IP ETH_ALEN IP_ALEN op sha sip tha tip.
Proof.
  intros Ho. unfold arp_hton, arp_msg. cbn [arp_hrd arp_pro arp_hrdlen arp_prolen arp_op arp_sha arp_sip arp_tha arp_tip].
  rewrite !htons_involutive by done. done.
Qed.

Lemma arp_msg_wf op sha sip tha tip : is_u16 op -> hwaddr_ok sha -> is_u32 sip -> hwaddr_ok tha -> is_u32 tip ->
  wf_struct (mk_arp ARP_HRD_ETHER ETH_P_IP ETH_ALEN IP_ALEN op sha sip tha tip) /\ wf_struct (arp_msg op sha sip tha tip).
Proof.
  intros. split; cbn; split_and!; try done; by apply htons_range || by vm_compute.
Qed.

(** The headers of an ARP frame. *)
Lemma arp_frame_structs k dst src a rest : hwaddr_ok dst -> hwaddr_ok src -> wf_struct a ->
  pk_data k = arp_frame dst src a ++ rest ->
  let e := mk_ether dst src (_htons ETH_P_ARP) in
  wf_struct e /\ 42 <= zlen (pk_data k) /\ struct_at k 0 e /\ struct_at k 14 a /\ slice (pk_data k) 6 6 = src.
Proof.
  intros Hdst Hsrc Hwa Hdata e. assert (Hwe : wf_struct e) by (split_and!; [done|done|apply htons_range]).
  pose proof (encode_len e Hwe) as Hle. pose proof (encode_len a Hwa) as Hla. pose proof (zlen_nonneg rest) as Hr0.
  unfold struct_at. change (sizeof ether) with 14 in *. change (sizeof arp) with 28 in *.
  unfold arp_frame in Hdata. fold e in Hdata. rewrite <- app_assoc in Hdata.
  assert (Hz : zlen (pk_data k) = 42 + zlen rest) by (rewrite Hdata, !zlen_app; lia).
  split; [done|]. split; [lia|]. split; [split; [lia|]|split; [split; [lia|]|]]; rewrite Hdata.
  - rewrite slice_app_l by lia. apply slice_full. lia.
  - rewrite slice_app_r, Hle by lia. rewrite slice_app_l by lia. apply slice_full. lia.
  - rewrite slice_app_l by lia. destruct Hdst as [_ Hd]. destruct Hsrc as [_ Hs].
    cbn [encode ether_struct e eth_dst eth_src eth_pro]. rewrite slice_app_r by (unfold zlen; lia).
    replace (6 - zlen dst) with 0 by (unfold zlen; lia). rewrite slice_app_l by (unfold zlen; lia).
    apply slice_full. unfold zlen. lia.
Qed.

(** arp_reply, from the request in host order: one frame. *)
Lemma arp_reply_wire s dev v p k sha sip tha tip :
  st_netdevs s !! dev = Some v -> net_ops v = veth_ops \/ net_ops v = peth_ops -> hwaddr_ok (net_hwaddr v) ->
  is_u32 (net_ipaddr v) -> live s p k -> pk_refcnt k = 1 -> hwaddr_ok sha -> is_u32 sip -> hwaddr_ok tha -> is_u32 tip ->
  slice (pk_data k) 6 6 = sha ->
  struct_at k 14 (mk_arp ARP_HRD_ETHER ETH_P_IP ETH_ALEN IP_ALEN ARP_OP_REQUEST sha sip tha tip) ->
  twp (arp_reply dev p)
    (fun _ => sent s dev [arp_frame sha (net_hwaddr v) (arp_msg ARP_OP_REPLY (net_hwaddr v) (net_ipaddr v) sha sip)] [p]) s.
Proof.
  intros Hv Hops Hhw Hip Hk Href Hsha Hsip Htha Htip Hsl Hat.
  destruct (arp_msg_wf ARP_OP_REQUEST sha sip tha tip) as [Hw _]; try done.
  destruct (arp_msg_wf ARP_OP_REPLY (net_hwaddr v) (net_ipaddr v) sha sip) as [_ Hw']; try done.
  set (r := arp_msg ARP_OP_REPLY (net_hwaddr v) (net_ipaddr v) sha sip) in *.
  destruct Hat as [Hlen Hat]. change (sizeof arp) with 28 in *.
  unfold arp_reply. eapply twp_step; [eapply ld_struct; [exact Hk|done|done|exact Hw|by split]|].
  eapply twp_step; [unfold ld_dev; by rewrite Hv|]. cbn [arp_hrd arp_pro arp_hrdlen arp_prolen arp_sha arp_sip].
  change (arp_hton _) with r.
  eapply twp_step; [apply (st_at_ok s p k); [done|done|exact Hw'|done]|]. change ETH_HRD_SZ with 14. set (k1 := set_pk_data k _).
  pose proof (encode_len r Hw') as Hel. change (sizeof arp) with 28 in Hel.
  destruct (store_struct k 14 r) as [Hl1 Hs1]; [lia|done|done|]. fold k1 in Hl1, Hs1. change (sizeof arp) with 28 in *.
  eapply twp_mono.
  { apply (netdev_tx_wire dev v ARP_HRD_SZ ETH_P_ARP (HwIn 6) sha (with_pkb s p k1) p k1); [done|done|done|apply live_with|done|done| |done|].
    - split; [lia|]. split; [lia|]. unfold k1. cbn [pk_data set_pk_data]. rewrite slice_patch_before by lia. done.
    - change (28 + 14 <= zlen (pk_data k1)). lia. }
  intros [] s' [Sw Sa Sf Sr Sd Sg Sk Sn Sc]. unfold frame_of in Sw. change ARP_HRD_SZ with 28 in Sw. rewrite Hs1 in Sw.
  split; try done. intros q Hq. rewrite Sk by done. cbn. rewrite lookup_insert_ne by set_solver. done.
Qed.

Lemma arp_learn_run s dev sha sip tha tip :
  let a := mk_arp ARP_HRD_ETHER ETH_P_IP ETH_ALEN IP_ALEN ARP_OP_REQUEST sha sip tha tip in
  (forall ae, arp_lookup (st_arp s) ETH_P_IP sip = Some ae -> ae_state (arp_cache (st_arp s) !!! ae) <> ARP_WAITING) ->
  arp_learn dev a (arp_lookup (st_arp s) (arp_pro a) (arp_sip a)) s = Ret tt (set_arp (learned (st_arp s) dev sip sha) s).
Proof.
  intros a Hnw. unfold learned. cbn [a arp_pro arp_sip]. destruct (arp_lookup (st_arp s) ETH_P_IP sip) as [ae|] eqn:El.
  - unfold arp_learn. erewrite bind_ok; [|reflexivity]. erewrite bind_ok; [|reflexivity]. cbn [arp_sha a st_arp set_arp].
    assert (Hst : ae_state (arp_cache (upd_entry (st_arp s) ae (fun e => set_ae_hwaddr e sha)) !!! ae)
                  = ae_state (arp_cache (st_arp s) !!! ae)).
    { pose proof (arp_lookup_lt _ _ _ _ El) as Hlt. unfold upd_entry. cbn.
      by rewrite list_lookup_total_insert_eq. }
    rewrite Hst. replace (_ =? ARP_WAITING) with false by (specialize (Hnw ae eq_refl); lia).
    cbn [when]. erewrite bind_ok; [|reflexivity]. done.
  - done.
Qed.

(** ** Property *)

(** C9: a frame that carries an ARP request for the address of the device it
    arrives on is answered by exactly one frame on that device, the ARP reply with
    the device's addresses to the sender; the packet is gone afterwards, no other
    packet is touched, and the cache has learned the sender's address. *)
Theorem arp_request_answered (s : stack) (dev : devid) (v : netdev) (p : pid) (k : pkbuf) (dst sha : list Z) (sip : Z)
    (tha : list Z) (rest : list Z) :
  st_netdevs s !! dev = Some v -> net_ops v = veth_ops \/ net_ops v = peth_ops -> hwaddr_ok (net_hwaddr v) ->
  is_u32 (net_ipaddr v) -> MULTICAST (net_ipaddr v) = false ->
  live s p k -> pk_refcnt k = 1 -> pk_type k <> PKT_OTHERHOST -> pk_len k = zlen (pk_data k) ->
  hwaddr_ok dst -> hwaddr_ok sha -> is_u32 sip -> hwaddr_ok tha ->
  pk_data k = arp_frame dst sha (arp_msg ARP_OP_REQUEST sha sip tha (net_ipaddr v)) ++ rest ->
  (forall ae, arp_lookup (st_arp s) ETH_P_IP sip = Some ae -> ae_state (arp_cache (st_arp s) !!! ae) <> ARP_WAITING) ->
  twp (arp_in dev p)
    (fun _ => sent (set_arp (learned (st_arp s) dev sip sha) s) dev
       [arp_frame sha (net_hwaddr v) (arp_msg ARP_OP_REPLY (net_hwaddr v) (net_ipaddr v) sha sip)] [p]) s.
Proof.
  intros Hv Hops Hhw Hip Hmul Hk Href Hty Hlen Hdst Hsha Hsip Htha Hdata Hnw.
  set (a := arp_msg ARP_OP_REQUEST sha sip tha (net_ipaddr v)) in *.
  set (ah := mk_arp ARP_HRD_ETHER ETH_P_IP ETH_ALEN IP_ALEN ARP_OP_REQUEST sha sip tha (net_ipaddr v)).
  destruct (arp_msg_wf ARP_OP_REQUEST sha sip tha (net_ipaddr v)) as [Hwh Hwa]; try done. fold a ah in Hwh, Hwa.
  set (eth := mk_ether dst sha (_htons ETH_P_ARP)).
  destruct (arp_frame_structs k dst sha a rest) as (Hwe & Hz & Hse & Hsa & Hsrc0); try done. fold eth in Hwe, Hse.
  change (sizeof arp) with 28 in *.
  unfold arp_in. eapply twp_step; [by apply ld_ok|]. replace (pk_type k =? PKT_OTHERHOST) with false by lia.
  change (ETH_HRD_SZ + ARP_HRD_SZ) with 42. replace (pk_len k <? 42) with false by lia.
  eapply twp_step; [by eapply ld_struct|]. eapply twp_step; [by eapply (ld_struct s p k 14 a)|].
  unfold hwacmp_eq. rewrite bool_decide_true by done. cbn [negb]. cbv zeta.
  assert (Eh : arp_hton a = ah) by (by apply arp_msg_hton). rewrite Eh.
  eapply twp_step; [apply (st_at_ok s p k); [done|done|exact Hwh|change (sizeof arp) with 28; change ETH_HRD_SZ with 14; lia]|].
  change ETH_HRD_SZ with 14. set (k1 := set_pk_data k _).
  assert (Hs1 : struct_at k1 14 ah) by (apply store_struct; [lia|done|change (sizeof arp) with 28; lia]).
  assert (Hsrc : slice (pk_data k1) 6 6 = sha).
  { unfold k1. cbn [pk_data set_pk_data]. by rewrite slice_patch_before by lia. }
  replace (negb (arp_hrd ah =? ARP_HRD_ETHER) || negb (arp_pro ah =? ETH_P_IP) || negb (arp_hrdlen ah =? ETH_ALEN)
           || negb (arp_prolen ah =? IP_ALEN)) with false by done.
  replace (negb (arp_op ah =? ARP_OP_REQUEST) && negb (arp_op ah =? ARP_OP_REPLY)) with false by done.
  set (s1 := with_pkb s p k1). assert (Hk1 : live s1 p k1) by apply live_with.
  unfold arp_recv. eapply twp_step; [by eapply (ld_struct s1 p k1 14 ah)|].
  eapply twp_step; [unfold ld_dev; cbn; by rewrite Hv|]. change (arp_tip ah) with (net_ipaddr v). rewrite Hmul, Z.eqb_refl.
  cbn [negb]. eapply twp_step; [reflexivity|].
  eapply twp_step; [exact (arp_learn_run s1 dev sha sip tha (net_ipaddr v) Hnw)|].
  set (s2 := set_arp _ s1). eapply twp_step; [by eapply (ld_struct s2 p k1 14 ah)|].
  change (arp_op ah =? ARP_OP_REQUEST) with true. cbn iota.
  eapply twp_mono; [by eapply (arp_reply_wire s2 dev v p k1 sha sip tha (net_ipaddr v))|].
  intros [] s' [Sw Sa Sf Sr Sd Sg Sk Sn Sc]. split; try done. intros q Hq. rewrite Sk by done.
  cbn. rewrite lookup_insert_ne by set_solver. done.
Qed.

End Answer.

(** The request of the sample peer, as alloc_pkb and read() leave it. *)
Definition request_pkb : pkbuf := mk_pkbuf ETH_P_ARP PKT_BROADCAST 42 1 (Some 1%nat) None None sample_arp_request.
Definition asked_stack : stack := set_pkmem (mk_pkmem {[0%nat := request_pkb]} 1%nat 1 0) sample_stack.

Lemma arp_request_answered_witness :
  twp (@arp_in sample_os (reentry 1) 1%nat 0%nat)
    (fun _ => sent (set_arp (learned (st_arp asked_stack) 1%nat peer_ip peer_hw) asked_stack) 1%nat
       [arp_frame peer_hw sample_hw (arp_msg ARP_OP_REPLY sample_hw sample_ip peer_hw peer_ip)] [0%nat]) asked_stack.
Proof.
  destruct (st_netdevs asked_stack !! 1%nat) as [v|] eqn:Ev; [|vm_compute in Ev; discriminate Ev].
  assert (Hv : net_hwaddr v = sample_hw /\ net_ipaddr v = sample_ip /\ net_ops v = veth_ops).
  { vm_compute in Ev. injection Ev as <-. by vm_compute. }
  destruct Hv as (E1 & E2 & E3). rewrite <- E1, <- E2.
  apply (arp_request_answered asked_stack 1%nat v 0%nat request_pkb BRD_HWADDR peer_hw peer_ip (replicate 6 0) []);
    rewrite ?E1, ?E2; try done; try by vm_compute.
  1: by left.
  all: split; [repeat (constructor; [by vm_compute|]); constructor|done].
Defined.
