(* ===== verification/Socket.v ===== *)
(** * The socket interface: socket/socket.c and socket/inet.c

    Calls that can block return [Sleeping] when the thread waits; they hold their
    reference to the socket meanwhile, and give it back in the part that
    resumes. *)

From stdpp Require Import prelude list gmap.
From Stdlib Require Import ZArith Lia.
From S2P Require Import Prelude Structs Checksum Route Pkb FastPipe ArpCache Wait Sock TcpTable Stack Arp IpOut Icmp Raw TcpOut TcpText TcpState TcpSock Udp.

(** ** The code *)

Definition get_socket (so : soid) : comp sockstate unit :=
  upd_so so (fun v => set_so_refcnt v (so_refcnt v + 1)).

Definition alloc_socket (family type : Z) : comp sockstate soid :=
  let* a := gets next_addr in
  modify (fun s => set_next_addr (S a)
    (set_sockets (<[a := mk_socket SS_UNCONNECTED family type wait_init false None 1 None]> (sockets s)) s));;
  ret a.

(** *** socket/inet.c *)

(** inet_type_table: the allocator and the default protocol; entry 0 is empty. *)
Definition inet_alloc_sock (type proto : Z) : comp sockstate (option skid) :=
  if type =? SOCK_STREAM then tcp_alloc_sock proto
  else if type =? SOCK_DGRAM then udp_alloc_sock proto
  else if type =? SOCK_RAW then raw_alloc_sock proto
  else fail NullDeref.

Definition inet_protocol (type : Z) : Z :=
  if type =? SOCK_STREAM then IP_P_TCP else if type =? SOCK_DGRAM then IP_P_UDP else IP_P_IP.

Definition inet_socket (so : soid) (proto : Z) : comp sockstate Z :=
  let* v := ld_so so in
  if SOCK_MAX <=? so_type v then ret (-1)
  else
    let* o := inet_alloc_sock (so_type v) proto in
    match o with
    | None => ret (-1)
    | Some sk =>
        let proto := if proto =? 0 then inet_protocol (so_type v) else proto in
        get_sock sk;;
        upd_so so (fun v => set_so_sk v (Some sk));;
        upd_sk sk (fun k => set_sk_socket (set_protocol (set_hashed (set_recv_queue k []) false)
                              (u8 proto)) (Some so));;
        let* k := ld_sk sk in
        match ops_hash (sk_ops k) with
        | Some f => if sk_hash k =? 0 then ret tt else f sk;; ret tt
        | None => ret tt
        end;;
        upd_sk sk (fun k => set_recv_wait k (Some so));;
        ret 0
    end.

(** No sock_ops has a bind of its own. *)
Definition inet_bind (so : soid) (skaddr : sock_addr) : comp stack Z :=
  let* v := on_sock (ld_so so) in
  let* sk := of_opt NullDeref (so_sk v) in
  let* k := on_sock (ld_sk sk) in
  if negb (sk_sport k =? 0) then ret (-1)
  else
    let* l := local_address (src_addr skaddr) in
    if negb l then ret (-1)
    else
      on_sock (upd_sk sk (fun k => set_sk_saddr k (src_addr skaddr)));;
      let* err :=
        match ops_set_port (sk_ops k) with
        | Some f =>
            let* err := on_sock (f sk (src_port skaddr)) in
            when (err <? 0) (on_sock (upd_sk sk (fun k => set_sk_saddr k 0)));;
            ret err
        | None => on_sock (upd_sk sk (fun k => set_sk_sport k (src_port skaddr)));; ret 0
        end in
      if err <? 0 then ret err
      else
        on_sock (upd_sk sk (fun k => set_sk_dport (set_sk_daddr k 0) 0));;
        ret 0.

Definition inet_listen (so : soid) (n : Z) : comp sockstate Z :=
  let* v := ld_so so in
  if negb (so_type v =? SOCK_STREAM) then ret (-1)
  else
    match so_sk v with
    | None => ret (-1)
    | Some sk =>
        let* k := ld_sk sk in
        match sk_ops k with tcp_ops => tcp_listen sk n | _ => fail NullDeref end
    end.

(** inet_accept from the return of ops->accept on: the new socket gets the sock; the
    sock is not told about its socket.  The address of the peer, which is copied for
    the caller, is that of the sock. *)
Definition inet_accept_end (newsock : soid) (o : option skid) : comp sockstate Z :=
  match o with
  | None => ret (-1)
  | Some newsk =>
      get_sock newsk;;
      upd_so newsock (fun v => set_so_sk v (Some newsk));;
      ret 0
  end.

Definition inet_accept (so : soid) : comp sockstate (call (option skid)) :=
  let* v := ld_so so in
  match so_sk v with
  | None => ret (Returned None)
  | Some sk =>
      let* k := ld_sk sk in
      match sk_ops k with tcp_ops => tcp_accept sk | _ => fail NullDeref end
  end.

Definition inet_read (so : soid) (len : Z) : comp sockstate recv_call :=
  let* v := ld_so so in
  match so_sk v with
  | None => ret (RecvDone (-1, []))
  | Some sk =>
      let* k := ld_sk sk in
      match sk_ops k with tcp_ops => tcp_recv_buf sk len | _ => fail NullDeref end
  end.

Definition inet_recv (woken : bool) (so : soid) : comp stack Raw.recv_result :=
  let* v := on_sock (ld_so so) in
  match so_sk v with
  | None => ret (Received None)
  | Some sk =>
      let* k := on_sock (ld_sk sk) in
      match sk_ops k with tcp_ops => fail NullDeref | _ => sock_recv_pkb woken sk end
  end.

Section Api.
Context `{OS} `{Reentry}.

(** Only TCP has a connect of its own: for the others the call fails after the
    route and the address are set. *)
Definition inet_connect (so : soid) (skaddr : sock_addr) : comp stack (call Z) :=
  let* v := on_sock (ld_so so) in
  if (dst_port skaddr =? 0) || (dst_addr skaddr =? 0) then ret (Returned (-1))
  else
    let* sk := of_opt NullDeref (so_sk v) in
    let* k := on_sock (ld_sk sk) in
    if negb (sk_dport k =? 0) then ret (Returned (-1))
    else
      let* r := if sk_sport k =? 0 then on_sock (sock_autobind sk) else ret 0 in
      if r <? 0 then ret (Returned (-1))
      else
        let* t := gets st_rt_head in
        match rt_lookup t (dst_addr skaddr) with
        | None => ret (Returned (-1))
        | Some rt =>
            let* d := ld_dev (rt_dev rt) in
            on_sock (upd_sk sk (fun k => set_sk_saddr (set_sk_dst k (Some rt)) (net_ipaddr d)));;
            match sk_ops k with
            | tcp_ops => tcp_connect sk skaddr
            | _ => ret (Returned (-1))
            end
        end.

Definition ops_close (o : sock_ops) (sk : skid) : comp stack Z :=
  match o with tcp_ops => tcp_close sk | _ => sock_close sk end.

Definition inet_close (so : soid) : comp stack Z :=
  let* v := on_sock (ld_so so) in
  match so_sk v with
  | None => ret (-1)
  | Some sk =>
      let* k := on_sock (ld_sk sk) in
      let* err := ops_close (sk_ops k) sk in
      on_sock (free_sock sk);;
      on_sock (upd_so so (fun v => set_so_sk v None));;
      ret err
  end.

Definition ops_send_buf (o : sock_ops) (sk : skid) (buf : list Z) (a : option sock_addr) : comp stack Z :=
  match o with
  | raw_ops => let* a := of_opt NullDeref a in raw_send_buf sk buf a
  | udp_ops => udp_send_buf sk buf a
  | tcp_ops => tcp_send_buf sk buf a
  end.

Definition inet_send (so : soid) (buf : list Z) (skaddr : option sock_addr) : comp stack Z :=
  let* v := on_sock (ld_so so) in
  match so_sk v with
  | None => ret (-1)
  | Some sk => let* k := on_sock (ld_sk sk) in ops_send_buf (sk_ops k) sk buf skaddr
  end.

Definition inet_write (so : soid) (buf : list Z) : comp stack Z := inet_send so buf None.

(** *** socket/socket.c *)

Definition __free_socket (so : soid) : comp stack unit :=
  let* v := on_sock (ld_so so) in
  when (so_ops v) (inet_close so;; on_sock (upd_so so (fun v => set_so_ops v false)));;
  on_sock (modify (fun s => set_sockets (delete so (sockets s)) s)).

Definition free_socket (so : soid) : comp stack unit :=
  on_sock (upd_so so (fun v => set_so_refcnt v (so_refcnt v - 1)));;
  let* v := on_sock (ld_so so) in
  when (so_refcnt v <=? 0) (__free_socket so).

Definition _socket (family type proto : Z) : comp stack (option soid) :=
  if negb (family =? AF_INET) then ret None
  else
    let* so := on_sock (alloc_socket family type) in
    on_sock (upd_so so (fun v => set_so_ops v true));;
    let* r := on_sock (inet_socket so proto) in
    if r <? 0 then free_socket so;; ret None
    else ret (Some so).

(** wait_exit wakes the threads that wait, then the user's reference is dropped. *)
Definition _close (so : soid) : comp stack unit :=
  on_sock (upd_so so (fun v => set_so_sleep v (fst (wait_exit (so_sleep v)))));;
  free_socket so.

(** The calls below hold a reference while they run; [keep] says that the call
    sleeps. *)
Definition with_socket {A} (so : soid) (no_ops : A) (keep : A -> bool) (m : comp stack A) : comp stack A :=
  on_sock (get_socket so);;
  let* v := on_sock (ld_so so) in
  let* r := if so_ops v then m else ret no_ops in
  when (negb (keep r)) (free_socket so);;
  ret r.

Definition asleep {A} (r : call A) : bool := match r with Sleeping _ => true | _ => false end.
Definition no {A} (_ : A) : bool := false.

Definition _bind (so : soid) (skaddr : sock_addr) : comp stack Z :=
  with_socket so (-1) no (inet_bind so skaddr).

Definition _listen (so : soid) (n : Z) : comp stack Z :=
  if n <? 0 then ret (-1) else with_socket so (-1) no (on_sock (inet_listen so n)).

Definition _connect (so : soid) (skaddr : sock_addr) : comp stack (call Z) :=
  with_socket so (Returned (-1)) asleep (inet_connect so skaddr).

Definition _connect_resume (so : soid) (sk : skid) (w : soid) : comp stack Z :=
  let* e := on_sock (tcp_connect_resume sk w) in
  free_socket so;;
  ret e.

(** _accept behind ops->accept. *)
Definition accept_end (so newsock : soid) (err : Z) : comp stack (option soid) :=
  let* r :=
    if err <? 0 then
      on_sock (ld_so newsock;; modify (fun s => set_sockets (delete newsock (sockets s)) s));; ret None
    else ret (Some newsock) in
  free_socket so;;
  ret r.

(** The result is the new socket, or the new socket and where the thread waits. *)
Definition _accept (so : soid) : comp stack (option soid + soid * soid) :=
  on_sock (get_socket so);;
  let* v := on_sock (ld_so so) in
  let* newsock := on_sock (alloc_socket (so_family v) (so_type v)) in
  on_sock (upd_so newsock (fun n => set_so_ops n (so_ops v)));;
  if so_ops v then
    let* c := on_sock (inet_accept so) in
    match c with
    | Sleeping w => ret (inr (newsock, w))
    | Returned o =>
        let* err := on_sock (inet_accept_end newsock o) in
        let* r := accept_end so newsock err in ret (inl r)
    end
  else let* r := accept_end so newsock 0 in ret (inl r).

Definition _accept_resume (so newsock : soid) (sk : skid) (w : soid) : comp stack (option soid + soid * soid) :=
  let* c := on_sock (tcp_accept_resume sk w) in
  match c with
  | Sleeping w => ret (inr (newsock, w))
  | Returned o =>
      let* err := on_sock (inet_accept_end newsock o) in
      let* r := accept_end so newsock err in ret (inl r)
  end.

Definition _send (so : soid) (buf : list Z) (skaddr : sock_addr) : comp stack Z :=
  if zlen buf <=? 0 then ret (-1) else with_socket so (-1) no (inet_send so buf (Some skaddr)).

Definition _write (so : soid) (buf : list Z) : comp stack Z :=
  if zlen buf <=? 0 then ret (-1) else with_socket so (-1) no (inet_write so buf).

Definition recv_asleep (r : recv_call) : bool := match r with RecvSleep _ _ => true | _ => false end.

Definition _read (so : soid) (len : Z) : comp stack recv_call :=
  if len <=? 0 then ret (RecvDone (-1, []))
  else with_socket so (RecvDone (-1, [])) recv_asleep (on_sock (inet_read so len)).

Definition _read_resume (so : soid) (sk : skid) (w : soid) (out : list Z) (len : Z) : comp stack recv_call :=
  let* r := on_sock (tcp_recv_buf_resume sk w out len) in
  when (negb (recv_asleep r)) (free_socket so);;
  ret r.

Definition pkb_blocked (r : Raw.recv_result) : bool := match r with Blocked => true | _ => false end.

Definition _recv (so : soid) : comp stack Raw.recv_result :=
  with_socket so (Received None) pkb_blocked (inet_recv false so).

Definition _recv_resume (so : soid) : comp stack Raw.recv_result :=
  let* r := inet_recv true so in
  when (negb (pkb_blocked r)) (free_socket so);;
  ret r.

Definition _sock_set_rx_callback (so : soid) (cb : nat) : comp stack unit :=
  on_sock (upd_so so (fun v => set_so_rx_cb v (Some cb))).

End Api.
