(* ===== verification/UdpDeliver.v ===== *)
(** * From a frame to the receive queue

    What the receive path does with a datagram for this host: the bytes of the frame
    reach the protocol unchanged behind a header in host order, and a UDP datagram is
    queued at the sock that is bound to its port, where a read takes it. *)

From stdpp Require Import prelude list gmap.
From Stdlib Require Import ZArith Lia.
From S2P Require Import Prelude Structs Checksum Route Pkb FastPipe ArpCache Wait Sock TcpTable UdpPorts Stack Arp IpOut Icmp IpFrag Own SafeNet SafeIp Wire Raw TcpOut TcpText TcpState TcpStream Udp IpIn NetIn SafeIn Socket Sample FragOut.

(** ** Frames *)

Definition eth_in (b : list Z) : ether := decode (slice b 0 14).
Definition ip_at (b : list Z) : ip := decode (slice b 14 20).
Definition total_len (b : list Z) : Z := _ntohs (ip_len (ip_at b)).
Definition udp_at (b : list Z) : udp := decode (slice b 34 8).
Definition udp_len (b : list Z) : Z := _ntohs (udp_length (udp_at b)).

(** A whole IP datagram without options for the device with address [hw], behind which
    the frame may be padded. *)
Record ip_frame (hw b : list Z) : Prop := {
  if_bytes : bytes_ok b;
  if_dst : eth_dst (eth_in b) = hw;
  if_pro : eth_pro (eth_in b) = _htons ETH_P_IP;
  if_ver : ip_ver (ip_at b) = IP_VERSION_4;
  if_hlen : ip_hlen (ip_at b) = 5;
  if_sum : ip_chksum (slice b 14 20) = 0;
  if_whole : Z.land (_ntohs (ip_fragoff (ip_at b))) (Z.lor IP_FRAG_OFF IP_FRAG_MF) = 0;
  if_len : 20 <= total_len b /\ 14 + total_len b <= zlen b
}.

(** ... with a UDP datagram in it. *)
Record udp_in_frame (b : list Z) : Prop := {
  uf_pro : ip_pro (ip_at b) = IP_P_UDP;
  uf_len : 8 <= udp_len b <= total_len b - 20;
  uf_sum : udp_checksum (udp_at b) = 0 \/
           udp_chksum (ip_src (ip_at b)) (ip_dst (ip_at b)) (u16 (udp_len b)) (slice b 34 (udp_len b)) = 0
}.

(** The buffer with the datagram of a frame, as the protocols get it. *)
Record holds_frame (b : list Z) (k : pkbuf) : Prop := {
  hf_hdr : hdr_of k = ip_ntoh (ip_at b);
  hf_data off len : 34 <= off -> 0 <= len -> off + len <= 14 + total_len b -> slice (pk_data k) off len = slice b off len;
  hf_len : 14 + total_len b <= zlen (pk_data k);
  hf_ref : pk_refcnt k = 1
}.

Lemma holds_rtdst b k rt : holds_frame b k -> holds_frame b (set_pk_rtdst k rt).
Proof. intros [H1 H2 H3 H4]. by split. Qed.

Section Deliver.
Context {os : OS} {app : App} {ptrs : Ptrs}.
Implicit Types (s : stack) (p : pid) (k : pkbuf) (b : list Z).

(** The buffer as the device thread fills it. *)
Definition raw_frame b k : Prop := (exists z, pk_data k = b ++ z) /\ pk_len k = zlen b /\ pk_refcnt k = 1.

Lemma raw_frame_slice b k off len : raw_frame b k -> 0 <= off -> 0 <= len -> off + len <= zlen b ->
  slice (pk_data k) off len = slice b off len /\ off + len <= zlen (pk_data k).
Proof.
  intros ((z & E) & _ & _) Ho Hl Hb. rewrite E, zlen_app. pose proof (zlen_nonneg z). split; [by apply slice_app_l|lia].
Qed.

(** The header in host order, and the padding cut off. *)
Lemma frame_stored_hdr hw b k : raw_frame b k -> ip_frame hw b ->
  let k1 := store_ip k (ip_ntoh (ip_at b)) in holds_frame b k1 /\ holds_frame b (trimmed k1 (14 + total_len b)).
Proof.
  intros Hr [Hb _ _ _ _ _ _ [L1 L2]] k1. destruct (Hr) as ((z & E) & _ & Href).
  assert (Lk : zlen b <= zlen (pk_data k)) by (rewrite E, zlen_app; pose proof (zlen_nonneg z); lia).
  assert (Lk1 : zlen (pk_data k1) = zlen (pk_data k)) by (apply store_ip_len; lia).
  assert (Hw : wf_struct (ip_at b)) by (apply decode_wf; [by apply bytes_ok_slice|change (sizeof ip) with 20; apply zlen_slice; lia]).
  assert (Hd : forall off len, 34 <= off -> 0 <= len -> off + len <= 14 + total_len b -> slice (pk_data k1) off len = slice b off len).
  { intros off len H1 H2 H3. unfold k1, store_ip, store. cbn [pk_data set_pk_data].
    rewrite slice_patch_after by (rewrite ?ip_encode_len; change ETH_HRD_SZ with 14; lia).
    apply (raw_frame_slice b k); [done|lia..]. }
  assert (Hh : hdr_of k1 = ip_ntoh (ip_at b)) by (apply hdr_store; [lia|by apply ip_ntoh_wf]).
  split; split; try done; try lia.
  - unfold hdr_of, trimmed. cbn [pk_data set_pk_data]. rewrite slice_slice by (done || change ETH_HRD_SZ with 14; change IP_HRD_SZ with 20; lia). exact Hh.
  - intros off len H1 H2 H3. unfold trimmed. cbn [pk_data set_pk_data]. rewrite slice_slice by lia. by apply Hd.
  - unfold trimmed. cbn [pk_data set_pk_data]. rewrite zlen_slice; lia.
Qed.

(** ** The way to the protocol *)

Lemma at_frame k b : raw_frame b k -> 34 <= zlen b -> hdr_of k = ip_at b /\ slice (pk_data k) 14 20 = slice b 14 20.
Proof.
  intros Hr Hl. destruct (raw_frame_slice b k 14 20 Hr) as [E _]; [lia..|]. split; [|exact E].
  unfold hdr_of, ip_at. change ETH_HRD_SZ with 14. change IP_HRD_SZ with 20. by rewrite E.
Qed.

Lemma trim_run s p k len : live s p k -> 0 <= len <= zlen (pk_data k) ->
  pkb_trim p len s = Ret tt (with_pkb s p (trimmed k len)).
Proof.
  intros Hk Hl. unfold pkb_trim. erewrite bind_ok by (by apply ld_ok). unfold guard.
  replace ((0 <=? len) && (len <=? zlen (pk_data k))) with true by (symmetry; apply andb_true_iff; lia). done.
Qed.

(** ip_in takes the datagram out of the frame. *)
Lemma ip_in_run `{Reentry} s dev hw p k b :
  live s p k -> raw_frame b k -> ip_frame hw b -> pk_type k <> PKT_OTHERHOST ->
  exists k', holds_frame b k' /\ ip_in dev p s = ip_recv_route p (with_pkb s p k').
Proof.
  intros Hk Hr Hf Ht. destruct (frame_stored_hdr hw b k Hr Hf) as [H1 H2]. cbv zeta in H1, H2.
  destruct (Hf) as [Hb _ _ Hv Hh Hs _ [L1 L2]]. destruct (Hr) as ((z & E) & Hlen & _).
  assert (Lk : zlen b <= zlen (pk_data k)) by (rewrite E, zlen_app; pose proof (zlen_nonneg z); lia).
  destruct (at_frame k b Hr ltac:(lia)) as [Eh Es]. set (k1 := store_ip k (ip_ntoh (ip_at b))) in *.
  assert (Hgo : exists k', holds_frame b k' /\
    (when (14 + total_len b <? pk_len k) (pkb_trim p (14 + total_len b));; ip_recv_route p) (with_pkb s p k1) =
    ip_recv_route p (with_pkb s p k')).
  { destruct (Z.ltb_spec (14 + total_len b) (pk_len k)) as [C|C]; cbn [when].
    - exists (trimmed k1 (14 + total_len b)). split; [exact H2|]. erewrite bind_ok; [reflexivity|].
      rewrite (trim_run _ p k1), with_with; [done|apply live_with|]. destruct H1. lia.
    - exists k1. split; [exact H1|]. by rewrite bind_ret. }
  destruct Hgo as (k' & Hk' & Ego). exists k'. split; [exact Hk'|]. rewrite <- Ego. clear Ego.
  unfold ip_in. erewrite bind_ok by (by apply ld_ok).
  rewrite (proj2 (Z.eqb_neq _ _) Ht). change (ETH_HRD_SZ + IP_HRD_SZ) with 34. rewrite (proj2 (Z.ltb_ge _ _)) by lia.
  erewrite bind_ok by (apply (ld_ip_run _ p k Hk); lia). rewrite Eh, Hv, Z.eqb_refl. cbn [negb]. cbv zeta.
  rewrite iphlen_5 by exact Hh. change (20 <? IP_HRD_SZ) with false. cbv iota.
  erewrite bind_ok by (apply (ld_bytes_ok _ p k); [exact Hk|done|done|change ETH_HRD_SZ with 14; lia]).
  change ETH_HRD_SZ with 14. rewrite Es, Hs. change (negb (0 =? 0)) with false. cbv iota.
  erewrite bind_ok by (apply (st_ip_run _ p k); [exact Hk|lia]). fold k1.
  change (ip_len (ip_ntoh (ip_at b))) with (total_len b).
  rewrite (proj2 (Z.ltb_ge (total_len b) 20)), (proj2 (Z.ltb_ge (pk_len k) _)) by lia. reflexivity.
Qed.

(** The routing table says that the datagram is for this host. *)
Definition local_dst s (addr : Z) : Prop :=
  exists rt, rt_lookup (st_rt_head s) addr = Some rt /\ Z.land (rt_flags rt) RT_LOCALHOST <> 0.

Lemma recv_route_run `{Reentry} s hw p k b :
  live s p k -> ip_frame hw b -> holds_frame b k -> local_dst s (ip_dst (ip_at b)) ->
  exists k', holds_frame b k' /\ ip_recv_route p s = ip_deliver p (with_pkb s p k').
Proof.
  intros Hk [_ _ _ _ _ _ Hw [L _]] Hh (rt & Ert & Hl). exists (set_pk_rtdst k (Some rt)). split; [by apply holds_rtdst|].
  destruct (holds_rtdst b k (Some rt) Hh) as [E' _ L' _]. destruct (Hh) as [E _ Lk _].
  unfold ip_recv_route, rt_input. erewrite bind_ok; cycle 1.
  { erewrite bind_ok by (apply (ld_ip_run _ p k Hk); lia). rewrite bind_gets, E.
    change (ip_dst (ip_ntoh (ip_at b))) with (ip_dst (ip_at b)). rewrite Ert.
    erewrite bind_ok by (by apply upd_ok). reflexivity. }
  change (0 <? 0) with false. cbv iota. erewrite bind_ok by (apply ld_ok, live_with). cbn [pk_rtdst set_pk_rtdst].
  erewrite bind_ok by reflexivity. rewrite (proj2 (Z.eqb_neq _ _) Hl). cbn [negb].
  unfold ip_recv_local. erewrite bind_ok by (apply (ld_ip_run _ p _ (live_with _ _ _)); lia).
  rewrite E'. change (ip_fragoff (ip_ntoh (ip_at b))) with (_ntohs (ip_fragoff (ip_at b))). rewrite Hw. reflexivity.
Qed.

(** ** From the protocol to the queue *)

(** No raw sock listens to UDP. *)
Definition no_raw s : Prop := raw_hash_table (st_sock s) !!! Z.to_nat (__raw_hash_func IP_P_UDP) = [].

Lemma ip_deliver_run `{Reentry} s p k b :
  live s p k -> holds_frame b k -> 20 <= total_len b -> udp_in_frame b -> no_raw s -> ip_deliver p s = udp_in p s.
Proof.
  intros Hk [E _ L _] Hl [Hp _ _] Hr. unfold ip_deliver, raw_in.
  assert (Hld : ld_ip p s = Ret (ip_ntoh (ip_at b)) s) by (rewrite <- E; apply (ld_ip_run _ p k Hk); lia).
  assert (Hp' : ip_pro (ip_ntoh (ip_at b)) = IP_P_UDP) by exact Hp.
  erewrite bind_ok; cycle 1.
  { erewrite bind_ok by exact Hld. erewrite bind_ok.
    2: { rewrite Hp'. apply on_sock_ok. unfold raw_lookup_sock. rewrite bind_gets, Hr. reflexivity. }
    reflexivity. }
  rewrite set_sock_same. erewrite bind_ok by exact Hld. by rewrite Hp'.
Qed.

(** udp_in accepts the datagram. *)
Lemma udp_in_run `{Reentry} s p k b hw :
  live s p k -> ip_frame hw b -> holds_frame b k -> udp_in_frame b -> udp_in p s = udp_recv p (udp_at b) s.
Proof.
  intros Hk [_ _ _ _ Hh _ _ [L1 L2]] [E Hd L _] [_ [U1 U2] Hs]. unfold udp_in.
  erewrite bind_ok by (apply (ld_ip_run _ p k Hk); lia). rewrite E. cbv zeta. unfold ipdlen.
  rewrite iphlen_5 by exact Hh. change (ip_len (ip_ntoh (ip_at b))) with (total_len b). change (ETH_HRD_SZ + 20) with 34.
  change UDP_HRD_SZ with 8. rewrite (proj2 (Z.ltb_ge _ _)) by lia.
  erewrite bind_ok by (apply (ld_at_ok udp s p k 34 Hk); change (sizeof udp) with 8; lia).
  change (sizeof udp) with 8. rewrite Hd by lia. fold (udp_at b). fold (udp_len b).
  rewrite (proj2 (Z.ltb_ge _ _)) by lia.
  replace (if udp_len b <? total_len b - 20 then udp_len b else total_len b - 20) with (udp_len b) by (case_if; lia).
  erewrite bind_ok by (apply (ld_bytes_ok s p k 34 _ Hk); lia). rewrite Hd by lia.
  change (ip_src (ip_ntoh (ip_at b))) with (ip_src (ip_at b)). change (ip_dst (ip_ntoh (ip_at b))) with (ip_dst (ip_at b)).
  destruct Hs as [-> | ->]; [reflexivity|]. by rewrite Z.eqb_refl, andb_false_r.
Qed.

(** A sock with a socket that waits for it, and no callback. *)
Record listening (ss : sockstate) (k : sock) : Prop := {
  li_ref : 0 < sk_refcnt k;
  li_wait : is_Some (recv_wait k);
  li_cb : forall so, sk_socket k = Some so -> exists v, sockets ss !! so = Some v /\ so_rx_cb v = None
}.

Definition queued_at (ss : sockstate) (sk : skid) (k : sock) (p : pid) : sockstate :=
  set_socks (<[sk := set_recv_queue k (recv_queue k ++ [p])]> (socks ss)) ss.

Lemma upd_sk_run s sk (k : sock) f : socks (st_sock s) !! sk = Some k ->
  on_sock (upd_sk sk f) s = Ret tt (set_sock (set_socks (<[sk := f k]> (socks (st_sock s))) (st_sock s)) s).
Proof. intros Hk. apply on_sock_ok. unfold upd_sk. erewrite bind_ok by (by apply ld_sk_ok). reflexivity. Qed.

Lemma callback_run s (k : sock) : listening (st_sock s) k -> sk_callback k s = Ret None s.
Proof.
  intros [_ _ Hc]. unfold sk_callback. destruct (sk_socket k) as [so|]; [|done].
  destruct (Hc so eq_refl) as (v & Ev & Ec). rewrite bind_gets. erewrite bind_ok by (by rewrite Ev). by rewrite Ec.
Qed.

Lemma udp_recv_run `{Reentry} s p u sk (k : sock) :
  ports_inv (st_sock s) -> is_u16 (udp_dst u) -> bound (st_sock s) (udp_dst u) sk ->
  socks (st_sock s) !! sk = Some k -> listening (st_sock s) k ->
  udp_recv p u s = Ret tt (set_sock (queued_at (st_sock s) sk k p) s).
Proof.
  intros Hi Hu Hb Hk Hl. destruct (lookup_sock_bound _ _ _ Hi Hu Hb) as (k' & Hk' & E).
  rewrite Hk in Hk'. injection Hk' as <-. unfold udp_recv. erewrite bind_ok by (apply on_sock_ok; exact E).
  set (k1 := set_sk_refcnt k (sk_refcnt k + 1)). set (s1 := set_sock _ s). cbv beta iota.
  assert (Hk1 : socks (st_sock s1) !! sk = Some k1) by apply lookup_insert_eq.
  assert (Hl1 : listening (st_sock s1) k1) by (destruct Hl; split; [cbn; lia|done|done]).
  erewrite bind_ok by (rewrite (on_sock_ok _ s1 k1 (st_sock s1)); [reflexivity|by apply ld_sk_ok]).
  rewrite set_sock_same. erewrite bind_ok by (by apply callback_run). cbv beta iota.
  destruct (li_wait _ _ Hl1) as [w Hw]. erewrite bind_ok; cycle 1.
  { unfold enqueue. erewrite bind_ok by (rewrite (on_sock_ok _ s1 k1 (st_sock s1)); [reflexivity|by apply ld_sk_ok]).
    rewrite set_sock_same. erewrite bind_ok by (by rewrite Hw). apply (upd_sk_run _ _ k1 _ Hk1). }
  cbv beta. set (k2 := set_recv_queue k1 (recv_queue k1 ++ [p])). set (s2 := set_sock _ s1).
  assert (Hk2 : socks (st_sock s2) !! sk = Some k2) by apply lookup_insert_eq.
  unfold free_sock. erewrite (on_sock_ok _ s2); cycle 1.
  { erewrite bind_ok by (by apply ld_sk_ok). cbn [sk_refcnt k2 k1 set_recv_queue set_sk_refcnt].
    rewrite (proj2 (Z.leb_gt _ 0)) by (destruct Hl; lia). unfold upd_sk. erewrite bind_ok by (by apply ld_sk_ok). reflexivity. }
  assert (Ek : set_sk_refcnt k2 (sk_refcnt k2 - 1) = set_recv_queue k (recv_queue k ++ [p])).
  { replace (sk_refcnt k2 - 1) with (sk_refcnt k); [by destruct k|]. change (sk_refcnt k2) with (sk_refcnt k + 1). lia. }
  cbv beta. rewrite Ek. unfold s2, s1, queued_at. cbn. by rewrite !insert_insert_eq.
Qed.

(** ** From the device to the queue *)

(** The state with a frame of [len] bytes taken from the device into a new buffer. *)
Definition taken s (dev : devid) (v : netdev) (len : Z) k : stack :=
  set_netdevs (<[dev := set_net_stats v (count_rx len (net_stats v))]> (st_netdevs s)) (with_new s k).

Lemma taken_with s dev v len k k' : with_pkb (taken s dev v len k) (next_pid (st_pkmem s)) k' = taken s dev v len k'.
Proof. unfold taken. rewrite <- (with_new_with s k k'). reflexivity. Qed.

Lemma live_taken s dev v len k : live (taken s dev v len k) (next_pid (st_pkmem s)) k.
Proof. apply lookup_insert_eq. Qed.

Lemma rx_frame_run n s dev v b :
  roomy s -> st_netdevs s !! dev = Some v -> 0 < zlen b <= net_mtu v + 14 ->
  exists k, raw_frame b k /\
    rx_frame n dev (zlen b) b s = stack_net_in n dev (next_pid (st_pkmem s)) (taken s dev v (zlen b) k).
Proof.
  intros Hr Hv Hl. set (p := next_pid (st_pkmem s)). set (z := zero_pkb (net_mtu v + 14)).
  assert (Lz : zlen (pk_data z) = net_mtu v + 14) by (cbn; rewrite zlen_replicate; lia).
  exists (set_pk_len (set_pk_data z (patch (pk_data z) 0 b)) (zlen b)). split.
  { split_and!; [|done|done]. exists (drop (length b) (pk_data z)). reflexivity. }
  unfold rx_frame. erewrite bind_ok by (unfold ld_dev; by rewrite Hv). unfold alloc_netdev_pkb. change ETH_HRD_SZ with 14.
  erewrite bind_ok by (by apply alloc_run). fold p z. rewrite (proj2 (Z.leb_gt _ _)) by lia.
  erewrite bind_ok by (apply (st_bytes_ok _ p z); [apply live_new|done|lia]). rewrite (with_new_with s z).
  erewrite bind_ok by (by apply (upd_stats_run _ dev v)).
  set (kd := set_pk_data z (patch (pk_data z) 0 b)). change (set_netdevs _ (with_new s kd)) with (taken s dev v (zlen b) kd).
  erewrite bind_ok by (apply (upd_ok _ p kd), live_taken). by rewrite taken_with.
Qed.

(** net_in gives an IP frame for this host to ip_in. *)
Lemma net_in_run `{Reentry} s dev v p k b :
  st_netdevs s !! dev = Some v -> live s p k -> raw_frame b k -> ip_frame (net_hwaddr v) b ->
  exists k', raw_frame b k' /\ pk_type k' <> PKT_OTHERHOST /\ net_in dev p s = ip_in dev p (with_pkb s p k').
Proof.
  intros Hv Hk Hr [_ Hd Hp _ _ _ _ [L1 L2]]. destruct (Hr) as (_ & Hlen & _).
  destruct (raw_frame_slice b k 0 14 Hr) as [Es Lk]; [lia..|].
  set (type := if is_eth_multicast (eth_dst (eth_in b)) then if is_eth_broadcast (eth_dst (eth_in b)) then PKT_BROADCAST else PKT_MULTICAST
               else if hwacmp_eq (eth_dst (eth_in b)) (net_hwaddr v) then PKT_LOCALHOST else PKT_OTHERHOST).
  assert (Ht : type <> PKT_OTHERHOST).
  { unfold type, hwacmp_eq. rewrite Hd, bool_decide_true by done. by repeat case_if. }
  set (k1 := set_pk_pro (set_pk_type k type) (_ntohs (eth_pro (eth_in b)))).
  exists (set_pk_indev k1 (Some dev)). split; [exact Hr|]. split; [exact Ht|].
  unfold net_in. erewrite bind_ok; cycle 1.
  { unfold eth_init. erewrite bind_ok by (by apply ld_ok). change ETH_HRD_SZ with 14. rewrite (proj2 (Z.ltb_ge _ _)) by lia.
    erewrite bind_ok by (apply (ld_at_ok ether s p k 0 Hk); change (sizeof ether) with 14; lia).
    change (sizeof ether) with 14. rewrite Es. fold (eth_in b). erewrite bind_ok by (unfold ld_dev; by rewrite Hv).
    cbv zeta. fold type. erewrite bind_ok by (by apply upd_ok). reflexivity. }
  cbn [negb]. fold k1. erewrite bind_ok by (apply (upd_ok _ p k1), live_with). rewrite with_with.
  erewrite bind_ok by (apply ld_ok, live_with). cbn [pk_pro set_pk_indev k1 set_pk_pro]. rewrite Hp. reflexivity.
Qed.

(** A read takes the packet. *)
Lemma recv_queued_run s ss sk (k : sock) p w so :
  st_sock s = queued_at ss sk k p -> socks ss !! sk = Some k -> recv_queue k = [] ->
  recv_wait k = Some w -> sockets ss !! w = Some so ->
  sock_recv_pkb false sk s = Ret (Received (Some p)) (set_sock ss s).
Proof.
  intros Es Hk Hq Hw Hso. unfold queued_at in Es. rewrite Hq in Es. cbn [Datatypes.app] in Es. set (k1 := set_recv_queue k [p]) in Es.
  assert (Hk1 : socks (st_sock s) !! sk = Some k1) by (rewrite Es; apply lookup_insert_eq).
  unfold sock_recv_pkb. erewrite bind_ok by (rewrite (on_sock_ok _ s k1 (st_sock s)); [reflexivity|by apply ld_sk_ok]).
  rewrite set_sock_same. erewrite bind_ok by (by change (recv_wait k1) with (recv_wait k); rewrite Hw).
  rewrite bind_gets. erewrite bind_ok by (rewrite Es; cbn; by rewrite Hso).
  change (recv_queue k1) with [p]. cbv iota. erewrite bind_ok by (by apply (upd_sk_run s sk k1)).
  assert (Ek : set_recv_queue k1 [] = k) by (unfold k1; rewrite <- Hq; by destruct k).
  cbv beta. rewrite Ek, Es. cbn. rewrite insert_insert_eq, insert_id by done. do 2 f_equal. by destruct ss.
Qed.

(** C8: A UDP datagram for this host that comes in on a device reaches the sock bound to its
    port.  The frame, padded or not, has the address of the device, a correct IP header
    without options, a UDP length within the datagram and a correct or absent UDP checksum;
    the destination has a local route.  The whole receive path runs without fault; the
    sock that is bound to the port gets exactly one packet more, at the end of its receive
    queue, with the bytes of the datagram; no other sock, buffer or route changes, and
    nothing is sent.  A read of the sock whose queue was empty returns this packet and
    leaves the sock layer as it was before the frame. *)
Theorem udp_datagram_queued n s dev v b sk (k : sock) (p := next_pid (st_pkmem s)) :
  roomy s -> st_netdevs s !! dev = Some v -> zlen b <= net_mtu v + 14 ->
  ip_frame (net_hwaddr v) b -> udp_in_frame b -> local_dst s (ip_dst (ip_at b)) -> no_raw s ->
  ports_inv (st_sock s) -> bound (st_sock s) (udp_dst (udp_at b)) sk ->
  socks (st_sock s) !! sk = Some k -> listening (st_sock s) k ->
  exists kb s', rx_frame (S n) dev (zlen b) b s = Ret tt s' /\
    live s' p kb /\ holds_frame b kb /\
    (forall q, q <> p -> pkbs (st_pkmem s') !! q = pkbs (st_pkmem s) !! q) /\
    st_sock s' = queued_at (st_sock s) sk k p /\
    st_wire s' = st_wire s /\ st_rt_head s' = st_rt_head s /\
    (recv_queue k = [] -> (exists w so, recv_wait k = Some w /\ sockets (st_sock s) !! w = Some so) ->
     sock_recv_pkb false sk s' = Ret (Received (Some p)) (set_sock (st_sock s) s')).
Proof.
  intros Hr Hv Hl Hf Hu Hd Hraw Hi Hb Hk Hli. pose proof (if_len _ _ Hf) as [L1 L2].
  destruct (rx_frame_run (S n) s dev v b Hr Hv ltac:(lia)) as (k0 & R0 & E). fold p in E. set (t := taken s dev v (zlen b)) in *.
  set (v' := set_net_stats v (count_rx (zlen b) (net_stats v))).
  assert (Hdev : forall k, st_netdevs (t k) !! dev = Some v') by (intros; apply lookup_insert_eq).
  assert (Hlv : forall k, live (t k) p k) by (intros; apply live_taken).
  assert (Hw : forall k k', with_pkb (t k) p k' = t k') by (intros; apply taken_with).
  cbn [stack_net_in] in E. set (re := {| net_input := _; queue_fuel := _ |}) in E.
  destruct (net_in_run (t k0) dev v' p k0 b (Hdev k0) (Hlv k0) R0 Hf) as (k1 & R1 & T1 & E1). rewrite E1, Hw in E.
  destruct (ip_in_run (t k1) dev (net_hwaddr v) p k1 b (Hlv k1) R1 Hf T1) as (k2 & F2 & E2). rewrite E2, Hw in E.
  destruct (recv_route_run (t k2) (net_hwaddr v) p k2 b (Hlv k2) Hf F2 Hd) as (k3 & F3 & E3). rewrite E3, Hw in E.
  rewrite (ip_deliver_run (t k3) p k3 b (Hlv k3) F3 L1 Hu Hraw), (udp_in_run (t k3) p k3 b _ (Hlv k3) Hf F3 Hu) in E.
  assert (H16 : is_u16 (udp_dst (udp_at b))).
  { assert (Hwf : wf_struct (udp_at b)); [|apply Hwf].
    apply decode_wf; [apply bytes_ok_slice, Hf|change (sizeof udp) with 8; apply zlen_slice; destruct Hu; lia]. }
  rewrite (udp_recv_run (t k3) p (udp_at b) sk k Hi H16 Hb Hk Hli) in E.
  exists k3, (set_sock (queued_at (st_sock s) sk k p) (t k3)). split; [exact E|]. split; [apply Hlv|]. split; [exact F3|].
  split; [intros q Hq; by apply lookup_insert_ne|]. split_and!; [done|done|done|].
  intros Hq (w & so & Ew & Eso). by eapply recv_queued_run.
Qed.
End Deliver.

(** ** A datagram for a socket of the sample host *)

(** A socket bound to port 7. *)
Definition bound_stack : stack :=
  let re := reentry 3 in
  match (let* o := _socket AF_INET SOCK_DGRAM 0 in _bind (default 0%nat o) (mk_sock_addr sample_ip 0 (_htons 7) 0)) sample_stack with
  | Ret _ s => s
  | _ => sample_stack
  end.

(** Four bytes of text from the peer, in a frame padded by two bytes. *)
Definition sample_datagram : list Z :=
  let u := mk_udp (_htons 5000) (_htons 7) (_htons 12) 0 in
  let h := mk_ip 5 4 0 (_htons 32) (_htons 7) 0 64 IP_P_UDP 0 peer_ip sample_ip in
  encode (mk_ether sample_hw peer_hw (_htons ETH_P_IP)) ++ ip_set_checksum_bytes (encode h) ++
  udp_set_checksum_bytes peer_ip sample_ip (encode u ++ [1; 2; 3; 4]) ++ [0; 0].

Definition bound_sock : sock :=
  mk_sock IP_P_UDP (mk_sock_addr sample_ip 0 (_htons 7) 0) (Some 0%nat) udp_ops None [] (Some 0%nat) 7 true 2.

Lemma bound_sock_at : socks (st_sock bound_stack) !! 1%nat = Some bound_sock.
Proof. by vm_compute. Qed.

Lemma bound_ports : ports_inv (st_sock bound_stack).
Proof. apply (single_inv _ 7 1%nat bound_sock); by vm_compute. Qed.

Lemma datagram_frame : ip_frame sample_hw sample_datagram /\ udp_in_frame sample_datagram.
Proof.
  split; split; try (by vm_compute).
  - apply (bool_decide_unpack _). by vm_compute.
  - by right; vm_compute.
Qed.

Lemma udp_datagram_queued_witness :
  exists kb s', rx_frame 3 1%nat 48 sample_datagram bound_stack = Ret tt s' /\
    live s' 0%nat kb /\ slice (pk_data kb) 42 4 = [1; 2; 3; 4] /\
    sock_recv_pkb false 1%nat s' = Ret (Received (Some 0%nat)) (set_sock (st_sock bound_stack) s').
Proof.
  destruct datagram_frame as [Hf Hu].
  destruct (udp_datagram_queued 2 bound_stack 1%nat
              (mk_netdev 1500 sample_ip 0x00ffffff sample_hw (dev_name [118]) veth_ops zero_stats)
              sample_datagram 1%nat bound_sock) as (kb & s' & E & Hk & [_ Hd _ _] & _ & _ & _ & _ & Hr).
  - split; [by vm_compute|]. intros q _. by vm_compute.
  - by vm_compute.
  - by vm_compute.
  - exact Hf.
  - exact Hu.
  - eexists. split; [vm_compute; reflexivity|by vm_compute].
  - by vm_compute.
  - exact bound_ports.
  - exists 7. split_and!; [lia|lia| |]; vm_compute; [by left|reflexivity].
  - exact bound_sock_at.
  - split; [by vm_compute|by eexists|]. intros so [= <-]. eexists. split; [vm_compute; reflexivity|done].
  - exists kb, s'. split; [exact E|]. split; [exact Hk|]. split; [rewrite Hd by (by vm_compute); by vm_compute|].
    apply Hr; [done|]. eexists _, _. split; [done|vm_compute; reflexivity].
Defined.
