(* ===== verification/TcpMachine.v ===== *)
(** * The states of TCP connections

    Every function of the stack moves every TCP connection along the edges of the
    state diagram of RFC 793.  The functions that do not touch the states are handled
    by [keeps still]; those that do are run from the state they are called in
    ([hoare]). *)

From stdpp Require Import prelude list gmap relations.
From Stdlib Require Import ZArith Lia.
From S2P Require Import Prelude Structs Checksum Route Pkb FastPipe ArpCache Wait Cbuf Sock TcpTable Stack Arp IpOut Icmp IpFrag Raw Keeps TcpOut TcpText TcpState TcpSock Udp IpIn NetIn Sample.

(** ** The state diagram *)

(** RFC 793, figure 6, and the event processing of section 3.9.  A connection that
    is opened passively is a new sock, which starts in CLOSED. *)
Inductive tcp_edge : tcp_state -> tcp_state -> Prop :=
  | edge_listen : tcp_edge TCP_CLOSED TCP_LISTEN              (* passive open *)
  | edge_connect : tcp_edge TCP_CLOSED TCP_SYN_SENT           (* active open *)
  | edge_child : tcp_edge TCP_CLOSED TCP_SYN_RECV             (* SYN for a listening sock *)
  | edge_simultaneous : tcp_edge TCP_SYN_SENT TCP_SYN_RECV    (* SYN *)
  | edge_synack : tcp_edge TCP_SYN_SENT TCP_ESTABLISHED       (* SYN, ACK *)
  | edge_established : tcp_edge TCP_SYN_RECV TCP_ESTABLISHED  (* ACK of SYN *)
  | edge_early_fin : tcp_edge TCP_SYN_RECV TCP_CLOSE_WAIT     (* FIN *)
  | edge_fin : tcp_edge TCP_ESTABLISHED TCP_CLOSE_WAIT        (* FIN *)
  | edge_close : tcp_edge TCP_ESTABLISHED TCP_FIN_WAIT1       (* close *)
  | edge_last : tcp_edge TCP_CLOSE_WAIT TCP_LAST_ACK          (* close *)
  | edge_fin_acked : tcp_edge TCP_FIN_WAIT1 TCP_FIN_WAIT2     (* ACK of FIN *)
  | edge_both_close : tcp_edge TCP_FIN_WAIT1 TCP_CLOSING      (* FIN *)
  | edge_timewait : tcp_edge TCP_FIN_WAIT2 TCP_TIME_WAIT      (* FIN *)
  | edge_closing : tcp_edge TCP_CLOSING TCP_TIME_WAIT         (* ACK of FIN *)
  | edge_closed st : tcp_edge st TCP_CLOSED.                  (* ACK of FIN, reset, timeout, close, failure *)

(** The state of a sock, CLOSED before it is allocated. *)
Definition st_of (v : sockstate) (sk : skid) : tcp_state := from_option state TCP_CLOSED (tsks (tcp_st v) !! sk).

Definition fresh (v : sockstate) : Prop := forall sk, (next_addr v <= sk)%nat -> tsks (tcp_st v) !! sk = None.

(** Every connection has moved along edges. *)
Definition moves (v v' : sockstate) : Prop :=
  fresh v -> fresh v' /\ forall sk, rtc tcp_edge (st_of v sk) (st_of v' sk).

(** No connection has changed its state, none is new. *)
Definition still (v v' : sockstate) : Prop :=
  next_addr v' = next_addr v /\ state <$> tsks (tcp_st v') = state <$> tsks (tcp_st v).

#[export] Instance moves_preorder : PreOrder moves.
Proof.
  split.
  - intros v Hf. split; [done|]. reflexivity.
  - intros v1 v2 v3 H12 H23 Hf. destruct (H12 Hf) as [Hf2 Hs2]. destruct (H23 Hf2) as [Hf3 Hs3].
    split; [done|]. intros sk. by transitivity (st_of v2 sk).
Qed.

#[export] Instance still_preorder : PreOrder still.
Proof. split; [done|]. intros v1 v2 v3 [E1 E2] [E3 E4]. split; congruence. Qed.

Lemma still_st_of v v' sk : still v v' -> st_of v' sk = st_of v sk.
Proof.
  intros [_ E]. unfold st_of. assert (E' : (state <$> tsks (tcp_st v')) !! sk = (state <$> tsks (tcp_st v)) !! sk) by by rewrite E.
  rewrite !lookup_fmap in E'. destruct (tsks (tcp_st v') !! sk), (tsks (tcp_st v) !! sk); cbn in *; congruence.
Qed.

Lemma still_moves v v' : still v v' -> moves v v'.
Proof.
  intros Hst Hf. split.
  - intros sk Hsk. destruct Hst as [En Et]. assert (E : (state <$> tsks (tcp_st v')) !! sk = (state <$> tsks (tcp_st v)) !! sk) by by rewrite Et.
    rewrite !lookup_fmap, (Hf sk) in E by (rewrite <- En; exact Hsk). by apply fmap_None in E.
  - intros sk. rewrite (still_st_of v v') by done. reflexivity.
Qed.

(** ** Functions that do not touch the states *)

Lemma keeps_still_moves {A} (m : comp sockstate A) : keeps still m -> keeps moves m.
Proof. apply keeps_mono, still_moves. Qed.
#[export] Hint Resolve keeps_still_moves : keeps.

Lemma keeps_socks {A} (m : comp sockstate A) :
  (forall v a v', m v = Ret a v' -> next_addr v' = next_addr v /\ tsks (tcp_st v') = tsks (tcp_st v)) -> keeps still m.
Proof. intros Hm v a v' E. destruct (Hm _ _ _ E) as [E1 E2]. by split; [|rewrite E2]. Qed.

Ltac still_modify := intros; apply keeps_modify; intros ?; split; reflexivity.

Lemma still_ld_sk sk : keeps still (ld_sk sk).
Proof. apply keeps_socks. intros v a v'. unfold ld_sk. by destruct (_ !! _); [intros [= _ ->]|]. Qed.

Lemma still_ld_so so : keeps still (ld_so so).
Proof. apply keeps_socks. intros v a v'. unfold ld_so. by destruct (_ !! _); [intros [= _ ->]|]. Qed.
#[export] Hint Resolve still_ld_sk still_ld_so : keeps.

Lemma still_ld_tsk sk : keeps still (ld_tsk sk).
Proof.
  unfold ld_tsk. keeps_step; [keeps_auto|]. apply keeps_socks. intros v b v'. by destruct (_ !! _); [intros [= _ ->]|].
Qed.
#[export] Hint Resolve still_ld_tsk : keeps.

Lemma still_upd_sk sk f : keeps still (upd_sk sk f).
Proof. unfold upd_sk. keeps_step; [keeps_auto|still_modify]. Qed.

Lemma still_upd_so so f : keeps still (upd_so so f).
Proof. unfold upd_so. keeps_step; [keeps_auto|still_modify]. Qed.

Lemma still_free_sock sk : keeps still (free_sock sk).
Proof. unfold free_sock. keeps_step; [keeps_auto|]. case_if; [still_modify|]. apply still_upd_sk. Qed.
#[export] Hint Resolve still_upd_sk still_upd_so still_free_sock : keeps.

Lemma still_get_sock sk : keeps still (get_sock sk).
Proof. unfold get_sock. keeps_auto. Qed.

Lemma still_wake w : keeps still (wake w).
Proof. unfold wake. keeps_auto. Qed.

(** An assignment to a tcp_sock that does not change the state. *)
Lemma ld_tsk_inv sk v t v' : ld_tsk sk v = Ret t v' -> v' = v /\ tsks (tcp_st v) !! sk = Some t.
Proof.
  unfold ld_tsk, bind, ld_sk. destruct (socks v !! sk); [|done]. destruct (tsks (tcp_st v) !! sk) eqn:E; [|done].
  by intros [= -> ->].
Qed.

Lemma still_upd_tsk sk f : (forall t, state (f t) = state t) -> keeps still (upd_tsk sk f).
Proof.
  intros Hf v a v'. unfold upd_tsk, bind. destruct (ld_tsk sk v) as [t v1| |] eqn:E; [|done|done].
  apply ld_tsk_inv in E as [-> Et]. intros [= <- <-]. split; [done|]. cbn.
  rewrite fmap_insert, Hf. apply insert_id. by rewrite lookup_fmap, Et.
Qed.

#[export] Hint Resolve still_get_sock still_wake : keeps.
#[export] Hint Extern 2 (keeps still (upd_tsk _ _)) => apply still_upd_tsk; intros; reflexivity : keeps.
#[export] Hint Extern 2 (keeps still (upd_tcp _)) => still_modify : keeps.
#[export] Hint Extern 2 (keeps still (modify _)) => still_modify : keeps.

Lemma still_del_hash sk : keeps still (sock_del_hash sk).
Proof. unfold sock_del_hash. keeps_auto. Qed.
#[export] Hint Resolve still_del_hash : keeps.

Lemma still_unhash sk : keeps still (tcp_unhash sk).
Proof. unfold tcp_unhash. keeps_auto. Qed.

Lemma still_unbhash sk : keeps still (tcp_unbhash sk).
Proof. unfold tcp_unbhash, tcp_unset_sport. keeps_auto. Qed.

Lemma still_ehash_conflict l k : keeps still (tcp_ehash_conflict l k).
Proof. induction l as [|sk l IH]; cbn [tcp_ehash_conflict]; keeps_auto. Qed.
#[export] Hint Resolve still_unhash still_unbhash still_ehash_conflict : keeps.

Lemma still_hash sk : keeps still (tcp_hash sk).
Proof. unfold tcp_hash, sock_add_hash. keeps_auto. Qed.

Lemma still_lookup_chain f l : keeps still (lookup_chain f l).
Proof. induction l as [|sk l IH]; cbn [lookup_chain]; keeps_auto. Qed.
#[export] Hint Resolve still_hash still_lookup_chain : keeps.

Lemma still_lookup a b c d : keeps still (tcp_lookup_sock a b c d).
Proof. unfold tcp_lookup_sock, tcp_lookup_sock_establish, tcp_lookup_sock_listen. keeps_auto. Qed.

Lemma still_iss : keeps still alloc_new_iss.
Proof. unfold alloc_new_iss. keeps_auto. Qed.
#[export] Hint Resolve still_lookup still_iss : keeps.

Lemma still_on_cbuf {A} sk (m : comp (option cbuf) A) : keeps still (on_cbuf sk m).
Proof. unfold on_cbuf. keeps_auto. Qed.

Lemma still_notify sk : keeps still (tcp_recv_notify sk).
Proof. unfold tcp_recv_notify. keeps_auto. Qed.
#[export] Hint Resolve still_on_cbuf still_notify : keeps.

Lemma still_write_text sk d len : keeps still (write_text sk d len).
Proof. unfold write_text. keeps_auto. Qed.

Lemma still_touch sk : keeps still (touch sk).
Proof. unfold touch. keeps_auto. Qed.
#[export] Hint Resolve still_write_text still_touch : keeps.

Lemma still_list_add_listen sk p : keeps still (list_add_listen sk p).
Proof. unfold list_add_listen. keeps_auto. Qed.

Lemma still_list_add_accept sk p : keeps still (list_add_accept sk p).
Proof. unfold list_add_accept. keeps_auto. Qed.

Lemma still_list_del sk : keeps still (list_del_node sk).
Proof. unfold list_del_node. keeps_auto. Qed.

Lemma still_parent t : keeps still (parent_of t).
Proof. unfold parent_of. keeps_auto. Qed.
#[export] Hint Resolve still_list_add_listen still_list_add_accept still_list_del still_parent : keeps.

Lemma still_synrecv_ack sk : keeps still (tcp_synrecv_ack sk).
Proof. unfold tcp_synrecv_ack, tcp_accept_enqueue. keeps_auto. Qed.
#[export] Hint Resolve still_synrecv_ack : keeps.

(** *** The same over the stack *)

Lemma keeps_still_stack {A} (m : comp stack A) : keeps (on_socks still) m -> keeps (on_socks moves) m.
Proof. apply keeps_mono. intros s s'. apply still_moves. Qed.

Lemma still_tcp_write_buf sk p off len : keeps (on_socks still) (tcp_write_buf sk p off len).
Proof. unfold tcp_write_buf. keeps_auto. Qed.
#[export] Hint Resolve still_tcp_write_buf : keeps.

Lemma still_reass_cover b sk g l : keeps (on_socks still) (reass_cover b sk g l).
Proof. revert g. induction l as [|t l IH]; intros g; cbn [reass_cover]; keeps_auto. Qed.

Lemma still_reass_write sk l len : keeps (on_socks still) (reass_write sk l len).
Proof. revert len. induction l as [|t l IH]; intros len; cbn [reass_write]; keeps_auto. Qed.
#[export] Hint Resolve still_reass_cover still_reass_write : keeps.

Lemma still_reass `{Ptrs} sk g p : keeps (on_socks still) (tcp_segment_reass sk g p).
Proof. unfold tcp_segment_reass, reass_insert, put_trh. keeps_auto. Qed.
#[export] Hint Resolve still_reass : keeps.

Lemma still_recv_text `{Ptrs} sk g p : keeps (on_socks still) (tcp_recv_text sk g p).
Proof. unfold tcp_recv_text, recv_text_body. keeps_auto. Qed.
#[export] Hint Resolve still_recv_text : keeps.

(** ** Functions that change states *)

Definition hoare {S A} (R : S -> S -> Prop) (P : S -> Prop) (m : comp S A) (Q : A -> S -> Prop) : Prop :=
  forall s a s', P s -> m s = Ret a s' -> R s s' /\ Q a s'.

Section Hoare.
Context {S : Type} (R : S -> S -> Prop) `{!PreOrder R}.

Lemma hoare_bind {A B} P Q Q' (m : comp S A) (k : A -> comp S B) :
  hoare R P m Q -> (forall a, hoare R (Q a) (k a) Q') -> hoare R P (bind m k) Q'.
Proof.
  intros Hm Hk s b s' HP. unfold bind. destruct (m s) as [a s1| |] eqn:E; [|done|done]. intros E'.
  destruct (Hm _ _ _ HP E) as [HR1 HQ]. destruct (Hk a _ _ _ HQ E') as [HR2 HQ']. split; [by transitivity s1|done].
Qed.

Lemma hoare_ret {A} P (a : A) : hoare R P (ret a) (fun b s => b = a /\ P s).
Proof. intros s b s' HP [= -> ->]. done. Qed.

(** Once the state no longer matters. *)
Lemma hoare_end {A} P (m : comp S A) : keeps R m -> hoare R P m (fun _ _ => True).
Proof. intros Hm s a s' _ E. split; [by apply (Hm s a)|done]. Qed.

Lemma hoare_keeps {A} (m : comp S A) Q : hoare R (fun _ => True) m Q -> keeps R m.
Proof. intros Hm s a s' E. by destruct (Hm s a s' I E). Qed.

Lemma hoare_pre {A} (P P' : S -> Prop) (m : comp S A) Q : (forall s, P' s -> P s) -> hoare R P m Q -> hoare R P' m Q.
Proof. intros HP Hm s a s' Hs. apply Hm, HP, Hs. Qed.

End Hoare.

Definition in_state (sk : skid) (st : tcp_state) (v : sockstate) : Prop :=
  exists t, tsks (tcp_st v) !! sk = Some t /\ state t = st.
(** The same of the stack. *)
Definition s_state (sk : skid) (st : tcp_state) (s : stack) : Prop := in_state sk st (st_sock s).

Lemma still_in_state v v' sk st : still v v' -> in_state sk st v -> in_state sk st v'.
Proof.
  intros [_ E] (t & Et & <-). assert (E' : (state <$> tsks (tcp_st v')) !! sk = Some (state t)) by by rewrite E, lookup_fmap, Et.
  rewrite lookup_fmap in E'. destruct (tsks (tcp_st v') !! sk) as [t'|] eqn:Et'; [|done]. exists t'. by injection E'.
Qed.

Lemma hoare_still {A} sk st (m : comp sockstate A) : keeps still m -> hoare moves (in_state sk st) m (fun _ => in_state sk st).
Proof. intros Hm v a v' HP E. specialize (Hm _ _ _ E). split; [by apply still_moves|by eapply still_in_state]. Qed.

Lemma hoare_still_stack {A} sk st (m : comp stack A) :
  keeps (on_socks still) m -> hoare (on_socks moves) (s_state sk st) m (fun _ => s_state sk st).
Proof. intros Hm s a s' HP E. specialize (Hm _ _ _ E). split; [by apply still_moves|by eapply still_in_state]. Qed.

Lemma hoare_ld_tsk sk : hoare moves (fun _ => True) (ld_tsk sk) (fun t => in_state sk (state t)).
Proof. intros v t v' _ [-> Et]%ld_tsk_inv. split; [reflexivity|by exists t]. Qed.

Lemma hoare_set sk st st' : tcp_edge st st' ->
  hoare moves (in_state sk st) (tcp_set_state sk st') (fun _ => in_state sk st').
Proof.
  intros He v a v' (t & Et & <-). unfold tcp_set_state, upd_tsk, bind.
  destruct (ld_tsk sk v) as [t1 v1| |] eqn:E; [|done|done]. apply ld_tsk_inv in E as [-> Et1].
  assert (t1 = t) as -> by congruence. intros [= <- <-]. split.
  - intros Hf. split.
    + intros q Hq. cbn. rewrite lookup_insert_ne; [by apply Hf|]. intros ->. by rewrite Hf in Et.
    + intros q. unfold st_of. cbn. destruct (decide (q = sk)) as [->|Hne].
      * rewrite lookup_insert_eq, Et. cbn. by apply rtc_once.
      * rewrite lookup_insert_ne by done. reflexivity.
  - eexists. cbn. by rewrite lookup_insert_eq.
Qed.

Lemma hoare_on_sock {A} P (m : comp sockstate A) Q : hoare moves P m Q ->
  hoare (on_socks moves) (fun s => P (st_sock s)) (on_sock m) (fun a s => Q a (st_sock s)).
Proof.
  intros Hm s a s' HP. unfold on_sock. destruct (m (st_sock s)) as [b v| |] eqn:E; [|done|done].
  intros [= <- <-]. exact (Hm _ _ _ HP E).
Qed.

(** Any connection may be closed. *)
Lemma moves_set_closed sk : keeps moves (tcp_set_state sk TCP_CLOSED).
Proof.
  intros v a v' E. pose proof E as E0. unfold tcp_set_state, upd_tsk, bind in E0.
  destruct (ld_tsk sk v) as [t v1| |] eqn:El; [|done|done]. apply ld_tsk_inv in El as [-> Et].
  destruct (hoare_set sk (state t) TCP_CLOSED (edge_closed _) v a v') as [Hm _]; [by exists t|done|done].
Qed.
#[export] Hint Resolve moves_set_closed : keeps.

(** Run [m] from a state: [hoare_seq st'] goes over a step that ends in [st']. *)
Ltac h_still := eapply hoare_bind; [apply _|apply hoare_still; solve [keeps_auto]|intros].
Ltac h_set E := eapply hoare_bind; [apply _|apply (hoare_set _ _ _ E)|intros].
Ltac h_end := apply hoare_end; keeps_auto.

Lemma hoare_timewait sk st : tcp_edge st TCP_TIME_WAIT ->
  hoare moves (in_state sk st) (tcp_set_timewait_timer sk) (fun _ _ => True).
Proof. intros He. unfold tcp_set_timewait_timer, get_tcp_sock. h_set He. h_end. Qed.

Lemma hoare_new_sock proto :
  hoare moves (fun _ => True) (tcp_alloc_sock proto)
    (fun o v => match o with Some sk => in_state sk TCP_CLOSED v | None => True end).
Proof.
  intros v a v' _. unfold tcp_alloc_sock. case_if; [by intros [= <- <-]|].
  intros [= <- <-]. split; [|by eexists; cbn; rewrite lookup_insert_eq]. intros Hf. split.
  - intros q Hq. cbn in *. rewrite lookup_insert_ne by lia. apply Hf. lia.
  - intros q. unfold st_of. cbn. destruct (decide (q = next_addr v)) as [->|Hne].
    + rewrite lookup_insert_eq, Hf by lia. reflexivity.
    + rewrite lookup_insert_ne by done. reflexivity.
Qed.

(** *** The user's calls and the timer *)

Lemma moves_timewait_loop fuel delta pprev t : keeps moves (timewait_loop fuel delta pprev t).
Proof.
  revert pprev t. induction fuel as [|n IH]; intros pprev t; destruct t; cbn [timewait_loop]; unfold put_pprev; keeps_auto.
Qed.

Lemma moves_tcp_timer_tick i : keeps moves (tcp_timer_tick i).
Proof. unfold tcp_timer_tick, tcp_timewait_timer. pose proof moves_timewait_loop. keeps_auto. Qed.

Lemma moves_listen sk n : keeps moves (TcpSock.tcp_listen sk n).
Proof.
  eapply hoare_keeps. unfold TcpSock.tcp_listen. eapply hoare_bind; [apply _|apply hoare_ld_tsk|intros t].
  h_still. case_if; [h_end|]. case_if; [h_end|]. case_if; [h_end|].
  assert (Hst : state t = TCP_CLOSED \/ state t = TCP_LISTEN).
  { apply andb_false_iff in E1 as [E1|E1]; apply negb_false_iff, bool_decide_eq_true in E1; auto. }
  eapply (hoare_bind moves _ (fun _ _ => True)); [|intros; h_end].
  intros v b v' (t' & Et' & Es). unfold upd_tsk, bind. destruct (ld_tsk sk v) as [t1 v1| |] eqn:El; [|done|done].
  apply ld_tsk_inv in El as [-> Et1]. assert (t1 = t') as -> by congruence. intros [= <- <-]. split; [|exact I].
  intros Hf. split.
  - intros q Hq. cbn. rewrite lookup_insert_ne; [by apply Hf|]. intros ->. by rewrite Hf in Et'.
  - intros q. unfold st_of. cbn. destruct (decide (q = sk)) as [->|Hne].
    + rewrite lookup_insert_eq, Et'. cbn. rewrite Es. destruct Hst as [->| ->]; [apply rtc_once; constructor|reflexivity].
    + rewrite lookup_insert_ne by done. reflexivity.
Qed.

Lemma still_sleep_on w : keeps still (sleep_on w).
Proof. unfold sleep_on. keeps_auto. Qed.

Lemma still_sleep_on_end so : keeps still (sleep_on_end so).
Proof. unfold sleep_on_end. keeps_auto. Qed.
#[export] Hint Resolve still_sleep_on still_sleep_on_end : keeps.

Lemma moves_connect_end sk err : keeps moves (tcp_connect_end sk err).
Proof. unfold tcp_connect_end. keeps_auto. Qed.
#[export] Hint Resolve moves_connect_end : keeps.

Lemma moves_connect_resume sk so : keeps moves (tcp_connect_resume sk so).
Proof. unfold tcp_connect_resume. keeps_auto. Qed.

Lemma still_accept_loop fuel sk : keeps still (accept_loop fuel sk).
Proof.
  induction fuel as [|n IH]; cbn [accept_loop]; unfold accept_next, tcp_accept_dequeue; keeps_auto.
Qed.

Lemma still_clear_listen_queue sk : keeps still (tcp_clear_listen_queue sk).
Proof. unfold tcp_clear_listen_queue. keeps_auto. Qed.
#[export] Hint Resolve still_accept_loop still_clear_listen_queue : keeps.

Lemma still_free_buf sk : keeps still (tcp_free_buf sk).
Proof. unfold tcp_free_buf. keeps_auto. Qed.

Lemma still_free_reass sk : keeps (on_socks still) (tcp_free_reass_head sk).
Proof. unfold tcp_free_reass_head. keeps_auto. Qed.
#[export] Hint Resolve still_free_buf still_free_reass : keeps.

Lemma still_recv_loop fuel ph sk out len : keeps still (recv_loop fuel ph sk out len).
Proof. revert ph out. induction fuel as [|n IH]; intros ph out; cbn [recv_loop]; unfold recv_fill; keeps_auto. Qed.
#[export] Hint Resolve still_recv_loop : keeps.

Lemma still_recv_buf sk len : keeps still (tcp_recv_buf sk len).
Proof. unfold tcp_recv_buf. keeps_auto. Qed.

(** *** Segments *)

Section Machine.
Context `{OS} `{re : Reentry} `{Ptrs}.
Context (Hre : forall d p, keeps (on_socks moves) (net_input d p)).
Hint Resolve Hre keeps_still_stack : keeps.

Ltac hs_still := eapply hoare_bind; [apply _|apply hoare_still_stack; solve [keeps_auto]|intros].
Ltac hs_set E := eapply hoare_bind; [apply _|exact (hoare_on_sock _ _ _ (hoare_set _ _ _ E))|intros].
Ltac hs_ld := eapply hoare_bind; [apply _|apply (hoare_on_sock (fun _ => True)), hoare_ld_tsk|intros].

Lemma moves_send_out tsk p seg : keeps (on_socks moves) (tcp_send_out tsk p seg).
Proof. unfold tcp_send_out, tcp_init_pkb, tcp_set_checksum. keeps_auto. Qed.
Hint Resolve moves_send_out : keeps.

Lemma keeps_new_segment R `{!PreOrder R} t : keeps (on_socks R) (tcp_new_pkb t).
Proof. unfold tcp_new_pkb. keeps_auto. Qed.
Hint Resolve keeps_new_segment : keeps.

Lemma moves_send_reset tsk seg : keeps (on_socks moves) (tcp_send_reset tsk seg).
Proof. unfold tcp_send_reset. keeps_auto. Qed.

Lemma moves_send_ack tsk seg : keeps (on_socks moves) (tcp_send_ack tsk seg).
Proof. unfold tcp_send_ack. keeps_auto. Qed.

Lemma moves_send_synack tsk seg : keeps (on_socks moves) (tcp_send_synack tsk seg).
Proof. unfold tcp_send_synack. keeps_auto. Qed.

Lemma moves_send_syn tsk seg : keeps (on_socks moves) (tcp_send_syn tsk seg).
Proof. unfold tcp_send_syn. keeps_auto. Qed.

Lemma moves_send_fin tsk : keeps (on_socks moves) (tcp_send_fin tsk).
Proof. unfold tcp_send_fin. keeps_auto. Qed.
Hint Resolve moves_send_reset moves_send_ack moves_send_synack moves_send_syn moves_send_fin : keeps.

Lemma moves_listen_child tsk seg : keeps (on_socks moves) (tcp_listen_child_sock tsk seg).
Proof.
  unfold tcp_listen_child_sock. keeps_step; [keeps_auto|]. eapply hoare_keeps.
  eapply hoare_bind; [apply _|apply (hoare_on_sock (fun _ => True)), hoare_new_sock|intros [sk|]].
  - match goal with |- hoare _ _ (bind _ ?k) ?Q => change (hoare (on_socks moves) (s_state sk TCP_CLOSED) (k sk) Q) end.
    hs_set edge_child. unfold free_mem, get_tcp_sock. h_end.
  - by intros s b s' _ E.
Qed.
Hint Resolve moves_listen_child : keeps.

Lemma moves_listen_in p seg sk : keeps (on_socks moves) (tcp_listen_in p seg sk).
Proof. unfold tcp_listen_in. keeps_auto. Qed.

Lemma hoare_synsent_syn seg sk :
  hoare (on_socks moves) (s_state sk TCP_SYN_SENT) (synsent_syn seg sk) (fun _ _ => True).
Proof.
  unfold synsent_syn. cbv zeta. hs_still. hs_still. hs_still. case_if.
  - hs_set edge_synack. h_end.
  - hs_set edge_simultaneous. h_end.
Qed.

Lemma hoare_synsent p seg sk :
  hoare (on_socks moves) (s_state sk TCP_SYN_SENT) (tcp_synsent p seg sk) (fun _ _ => True).
Proof.
  unfold tcp_synsent. cbv zeta. hs_still. case_if; [h_end|]. case_if; [h_end|]. case_if; [|h_end].
  eapply hoare_bind; [apply _|apply hoare_synsent_syn|intros; h_end].
Qed.

Lemma hoare_ack_synrecv sk seg k :
  hoare (on_socks moves) (s_state sk TCP_SYN_RECV) (ack_synrecv sk seg k) (fun _ _ => True).
Proof.
  unfold ack_synrecv. case_if; [|h_end]. hs_still. case_if; [h_end|]. hs_still. hs_set edge_established. h_end.
Qed.

Lemma hoare_ack_synchronized sk seg k :
  hoare moves (in_state sk (state k)) (ack_synchronized sk seg k) (fun _ _ => True).
Proof.
  unfold ack_synchronized. eapply (hoare_bind moves _ (fun _ _ => True)); [|intros a].
  - case_if; [|h_end]. h_still. destruct (state k) eqn:Es; try solve [h_end].
    + h_set edge_fin_acked. h_end.
    + eapply hoare_bind; [apply _|by apply hoare_timewait; constructor|intros; h_end].
  - case_if; [|h_end]. apply hoare_end. apply keeps_bind; [apply _| |keeps_auto].
    apply keeps_still_moves, still_upd_tsk. intros t. unfold tcp_update_window. by case_if.
Qed.

Lemma moves_process_ack sk seg : keeps (on_socks moves) (process_ack sk seg).
Proof.
  eapply hoare_keeps. unfold process_ack. hs_ld. destruct (state _) eqn:Es; try solve [h_end];
    first [apply hoare_ack_synrecv|rewrite Es; apply hoare_ack_synrecv
          |exact (hoare_on_sock _ _ _ (hoare_ack_synchronized _ _ _))].
Qed.
Hint Resolve moves_process_ack : keeps.

Lemma still_process_text sk seg p : keeps (on_socks still) (process_text sk seg p).
Proof. unfold process_text. keeps_auto. Qed.

Lemma moves_process_fin sk seg : keeps moves (process_fin sk seg).
Proof.
  unfold process_fin. apply keeps_when; [apply _|]. eapply hoare_keeps.
  eapply hoare_bind; [apply _|apply hoare_ld_tsk|intros k].
  eapply (hoare_bind moves _ (fun _ _ => True)); [|intros; h_end].
  destruct (state k) eqn:Es; try solve [h_end].
  - h_set edge_early_fin. h_end.
  - h_set edge_fin. h_end.
  - apply (hoare_pre _ (in_state sk TCP_FIN_WAIT1)); [done|]. intros v a v' Hp E.
    destruct (hoare_set _ _ _ edge_both_close v a v' Hp E). done.
  - apply hoare_timewait. constructor.
Qed.

Lemma moves_process_rst sk : keeps moves (process_rst sk).
Proof. unfold process_rst. keeps_auto. Qed.

Lemma moves_process_syn sk seg : keeps (on_socks moves) (process_syn sk seg).
Proof. unfold process_syn. keeps_auto. Qed.
Hint Resolve still_process_text moves_process_fin moves_process_rst moves_process_syn : keeps.

Lemma moves_process_checks p seg sk : keeps (on_socks moves) (process_checks p seg sk).
Proof. unfold process_checks. keeps_auto. Qed.
Hint Resolve moves_process_checks moves_listen_in : keeps.

Lemma moves_process p seg o : keeps (on_socks moves) (tcp_process p seg o).
Proof.
  unfold tcp_process. destruct o as [sk|]; [|unfold tcp_closed; keeps_auto].
  eapply hoare_keeps. hs_ld. destruct (state _) eqn:Es; unfold tcp_closed, process_drop; try solve [h_end].
  rewrite Es. apply hoare_synsent.
Qed.
Hint Resolve moves_process : keeps.

Lemma moves_tcp_in p : keeps (on_socks moves) (tcp_in p).
Proof. unfold tcp_in, tcp_recv. keeps_auto. Qed.
Hint Resolve moves_tcp_in : keeps.

(** *** The user's calls that send *)

Lemma moves_connect sk a : keeps (on_socks moves) (tcp_connect sk a).
Proof.
  eapply hoare_keeps. unfold tcp_connect. hs_ld. case_if; [h_end|].
  apply negb_false_iff, bool_decide_eq_true in E. rewrite E. hs_still. hs_set edge_connect.
  unfold tcp_pre_wait_connect. h_end.
Qed.

Lemma moves_close_fin sk st st' : tcp_edge st st' ->
  hoare (on_socks moves) (s_state sk st) (close_fin sk st') (fun _ _ => True).
Proof. intros He. unfold close_fin. hs_set He. h_end. Qed.

Lemma moves_close sk : keeps (on_socks moves) (tcp_close sk).
Proof.
  eapply hoare_keeps. unfold tcp_close. hs_ld.
  eapply (hoare_bind (on_socks moves) _ (fun _ _ => True)); [|intros; h_end].
  destruct (state _) eqn:Es; try solve [h_end]; apply moves_close_fin; constructor.
Qed.

Lemma moves_send_text_loop fuel sk buf ss sl len : keeps (on_socks moves) (send_text_loop fuel sk buf ss sl len).
Proof.
  revert ss sl. induction fuel as [|n IH]; intros ss sl; cbn [send_text_loop]; unfold tcp_init_text, set_psh; keeps_auto.
Qed.
Hint Resolve moves_send_text_loop : keeps.

Lemma moves_send_buf sk buf a : keeps (on_socks moves) (tcp_send_buf sk buf a).
Proof. unfold tcp_send_buf, tcp_send_text. keeps_auto. Qed.

(** *** The receive path *)

Context `{App} (Happ : forall f p, keeps (on_socks moves) (rx_cb f p)).
Hint Resolve Happ : keeps.

Lemma still_raw_lookup l a b c : keeps still (__raw_lookup_sock l a b c).
Proof. induction l as [|sk l IH]; cbn [__raw_lookup_sock]; keeps_auto. Qed.
Hint Resolve still_raw_lookup : keeps.

Lemma still_enqueue sk p : keeps (on_socks still) (enqueue sk p).
Proof. unfold enqueue. keeps_auto. Qed.
Hint Resolve still_enqueue : keeps.

Lemma still_raw_in_loop fuel p o : keeps (on_socks still) (raw_in_loop fuel p o).
Proof.
  revert o. induction fuel as [|n IH]; intros [[sk r]|]; cbn [raw_in_loop]; unfold raw_recv, raw_lookup_sock_next; keeps_auto.
Qed.
Hint Resolve still_raw_in_loop : keeps.

Lemma still_raw_in p : keeps (on_socks still) (raw_in p).
Proof. unfold raw_in, raw_lookup_sock. keeps_auto. Qed.

Lemma still_udp_chain l nport : keeps still (udp_lookup_chain l nport).
Proof. induction l as [|sk l IH]; cbn [udp_lookup_chain]; keeps_auto. Qed.
Hint Resolve still_raw_in still_udp_chain : keeps.

Lemma moves_udp_in p : keeps (on_socks moves) (udp_in p).
Proof. unfold udp_in, udp_recv, udp_lookup_sock, sk_callback. keeps_auto. Qed.
Hint Resolve moves_udp_in : keeps.

Lemma moves_ip_in dev p : keeps (on_socks moves) (ip_in dev p).
Proof.
  unfold ip_in, ip_recv_route, rt_input, ip_forward, forward_redirect, ip_recv_local, ip_deliver. keeps_auto.
Qed.
Hint Resolve moves_ip_in : keeps.

Lemma moves_net_in dev p : keeps (on_socks moves) (net_in dev p).
Proof. unfold net_in, eth_init. keeps_auto. Qed.

End Machine.

(** The loop through the loopback device. *)
Section Closed.
Context `{OS} `{Ptrs} `{App} (Happ : forall f p, keeps (on_socks moves) (rx_cb f p)).

Lemma moves_stack_net_in n dev p : keeps (on_socks moves) (stack_net_in n dev p).
Proof.
  revert dev p. induction n as [|n IH]; intros dev p; cbn [stack_net_in]; [apply keeps_nofuel|].
  by apply @moves_net_in.
Qed.
End Closed.
