(* ===== verification/System.v ===== *)
(** * The whole program as a sequence of events

    The entry points of the stack: frames from the devices, the timers, and the
    calls of the socket interface, with the resumption of the calls that blocked.
    Each runs to its end before the next one starts. *)

From stdpp Require Import prelude list gmap relations.
From Stdlib Require Import ZArith Lia.
From S2P Require Import Prelude Structs Checksum Route Pkb FastPipe ArpCache Wait Sock TcpTable Stack Arp IpOut Icmp IpFrag Raw Keeps TcpOut TcpText TcpState TcpSock Udp IpIn NetIn Sample Socket TcpMachine.

(** ** Events *)

Inductive event :=
  | EvFrame (dev : devid) (l : Z) (bytes : list Z)       (* a device receives *)
  | EvNetTimer                                           (* a second of net_timer *)
  | EvTcpTimer (i : Z)                                   (* a turn of tcp_timer *)
  | EvSocket (family type proto : Z)
  | EvBind (so : soid) (a : sock_addr)
  | EvListen (so : soid) (n : Z)
  | EvConnect (so : soid) (a : sock_addr)
  | EvConnectResume (so : soid) (sk : skid) (w : soid)
  | EvAccept (so : soid)
  | EvAcceptResume (so newsock : soid) (sk : skid) (w : soid)
  | EvRead (so : soid) (len : Z)
  | EvReadResume (so : soid) (sk : skid) (w : soid) (out : list Z) (len : Z)
  | EvWrite (so : soid) (buf : list Z)
  | EvSend (so : soid) (buf : list Z) (a : sock_addr)
  | EvRecv (so : soid)
  | EvRecvResume (so : soid)
  | EvCallback (so : soid) (cb : nat)
  | EvClose (so : soid).

Section Events.
Context `{OS} `{Ptrs} `{App}.

Definition run_event (n : nat) (e : event) : comp stack unit :=
  let r := reentry n in
  match e with
  | EvFrame dev l bytes => rx_frame n dev l bytes
  | EvNetTimer => net_timer_tick n
  | EvTcpTimer i => on_sock (tcp_timer_tick i);; ret tt
  | EvSocket family type proto => @_socket _ r family type proto;; ret tt
  | EvBind so a => @_bind _ r so a;; ret tt
  | EvListen so b => @_listen _ r so b;; ret tt
  | EvConnect so a => @_connect _ r so a;; ret tt
  | EvConnectResume so sk w => @_connect_resume _ r so sk w;; ret tt
  | EvAccept so => @_accept _ r so;; ret tt
  | EvAcceptResume so newsock sk w => @_accept_resume _ r so newsock sk w;; ret tt
  | EvRead so len => @_read _ r so len;; ret tt
  | EvReadResume so sk w out len => @_read_resume _ r so sk w out len;; ret tt
  | EvWrite so buf => @_write _ r so buf;; ret tt
  | EvSend so buf a => @_send _ r so buf a;; ret tt
  | EvRecv so => @_recv _ r so;; ret tt
  | EvRecvResume so => @_recv_resume _ r so;; ret tt
  | EvCallback so cb => _sock_set_rx_callback so cb
  | EvClose so => @_close _ r so
  end.

(** [n] bounds the nesting through the loopback device. *)
Definition run (n : nat) (es : list event) : comp stack unit := for_each es (run_event n).

End Events.

(** ** Sockets and the states of connections *)

Lemma moves_alloc_socket family type : keeps moves (alloc_socket family type).
Proof.
  intros v a v' [= <- <-] Hf. split.
  - intros sk Hsk. cbn in *. apply Hf. lia.
  - intros sk. reflexivity.
Qed.
#[export] Hint Resolve moves_alloc_socket : keeps.

Lemma moves_new_sock ops hash : keeps moves (new_sock ops hash).
Proof.
  intros v a v' [= <- <-] Hf. split.
  - intros sk Hsk. cbn in *. apply Hf. lia.
  - intros sk. reflexivity.
Qed.

Lemma moves_tcp_alloc proto : keeps moves (tcp_alloc_sock proto).
Proof. eapply hoare_keeps, hoare_new_sock. Qed.
#[export] Hint Resolve moves_new_sock moves_tcp_alloc : keeps.

Lemma still_tcp_port_used nport l : keeps still (__tcp_port_used nport l).
Proof. induction l as [|sk l IH]; cbn [__tcp_port_used]; keeps_auto. Qed.
#[export] Hint Resolve still_tcp_port_used : keeps.

Lemma still_get_port_loop fuel : keeps still (get_port_loop fuel).
Proof. induction fuel as [|n IH]; cbn [get_port_loop]; unfold tcp_port_used; keeps_auto. Qed.
#[export] Hint Resolve still_get_port_loop : keeps.

Lemma still_tcp_set_sport sk nport : keeps still (tcp_set_sport sk nport).
Proof. unfold tcp_set_sport, tcp_get_port, tcp_bhash, get_tcp_sock, tcp_port_used. keeps_auto. Qed.

Lemma still_port_used p l : keeps still (__port_used p l).
Proof. induction l as [|sk l IH]; cbn [__port_used]; keeps_auto. Qed.
#[export] Hint Resolve still_tcp_set_sport still_port_used : keeps.

Lemma still_best_port_loop n p l : keeps still (best_port_loop n p l).
Proof. revert p. induction n as [|n IH]; intros p; cbn [best_port_loop]; keeps_auto. Qed.
#[export] Hint Resolve still_best_port_loop : keeps.

Lemma still_udp_set_sport sk nport : keeps still (udp_set_sport sk nport).
Proof.
  unfold udp_set_sport, port_used, udp_get_port, udp_get_port_slow, udp_get_best_port, udp_update_best, udp_hash,
    sock_add_hash. keeps_auto.
Qed.

Lemma still_ops_set_port o f sk nport : ops_set_port o = Some f -> keeps still (f sk nport).
Proof. destruct o; intros [= <-]; [apply still_udp_set_sport|apply still_tcp_set_sport]. Qed.

Lemma still_ops_hash o f sk : ops_hash o = Some f -> keeps still (f sk).
Proof.
  destruct o; intros [= <-]; [unfold raw_hash, sock_add_hash|unfold udp_hash, sock_add_hash|]; keeps_auto.
Qed.

Lemma still_ops_unhash o f sk : ops_unhash o = Some f -> keeps still (f sk).
Proof.
  destruct o; intros [= <-]; [unfold raw_unhash|unfold udp_unhash, udp_unset_sport, udp_update_best|]; keeps_auto.
Qed.

Lemma still_autobind sk : keeps still (sock_autobind sk).
Proof.
  unfold sock_autobind. keeps_step; [keeps_auto|]. destruct (ops_set_port _) eqn:E; [|keeps_auto].
  by eapply still_ops_set_port.
Qed.
#[export] Hint Resolve still_autobind : keeps.

Lemma moves_inet_socket so proto : keeps moves (inet_socket so proto).
Proof.
  unfold inet_socket, inet_alloc_sock, udp_alloc_sock, raw_alloc_sock.
  keeps_step; [keeps_auto|]. case_if; [keeps_auto|]. keeps_step; [keeps_auto|]. destruct a0 as [sk|]; [|keeps_auto].
  do 4 (keeps_step; [keeps_auto|]). keeps_step; [|keeps_auto].
  destruct (ops_hash _) eqn:Eo; [|keeps_auto]. pose proof (still_ops_hash _ _ sk Eo). keeps_auto.
Qed.

Lemma moves_inet_bind so a : keeps (on_socks moves) (inet_bind so a).
Proof.
  unfold inet_bind. do 3 (keeps_step; [keeps_auto|]). case_if; [keeps_auto|]. keeps_step.
  { unfold local_address. keeps_auto. match goal with |- keeps _ (_ ?l) => induction l as [|d l IH] end; keeps_auto. }
  case_if; [keeps_auto|]. keeps_step; [keeps_auto|]. keeps_step; [|keeps_auto].
  destruct (ops_set_port _) eqn:Eo; [|keeps_auto]. pose proof (fun p => still_ops_set_port _ _ a1 p Eo). keeps_auto.
Qed.
#[export] Hint Resolve moves_inet_socket moves_inet_bind : keeps.

Section Api.
Context `{OS} `{re : Reentry} (Hre : forall d p, keeps (on_socks moves) (net_input d p)).
Hint Resolve Hre keeps_still_stack moves_listen moves_connect moves_close moves_send_buf : keeps.

Lemma moves_inet_connect so a : keeps (on_socks moves) (inet_connect so a).
Proof. unfold inet_connect. keeps_auto. Qed.

Lemma moves_sock_close sk : keeps (on_socks moves) (sock_close sk).
Proof.
  unfold sock_close. keeps_step; [keeps_auto|]. keeps_step; [keeps_auto|]. keeps_step; [|keeps_auto].
  destruct (ops_unhash _) eqn:Eo; [|keeps_auto]. pose proof (still_ops_unhash _ _ sk Eo). keeps_auto.
Qed.
Hint Resolve moves_inet_connect moves_sock_close : keeps.

Lemma moves_free_socket so : keeps (on_socks moves) (free_socket so).
Proof. unfold free_socket, __free_socket, inet_close, ops_close. keeps_auto. Qed.
Hint Resolve moves_free_socket : keeps.

Lemma moves_with_socket {A} so (d : A) keep m : keeps (on_socks moves) m -> keeps (on_socks moves) (with_socket so d keep m).
Proof. intros Hm. unfold with_socket, get_socket. keeps_auto. Qed.
Hint Resolve moves_with_socket : keeps.

Lemma moves_inet_send so buf a : keeps (on_socks moves) (inet_send so buf a).
Proof.
  unfold inet_send, ops_send_buf, raw_send_buf, raw_send_pkb, raw_init_pkb, udp_send_buf, udp_init_pkb,
    udp_set_checksum, udp_send_pkb. keeps_auto.
Qed.

Lemma moves_inet_listen so n : keeps moves (inet_listen so n).
Proof. unfold inet_listen. keeps_auto. Qed.

Lemma still_inet_accept so : keeps still (inet_accept so).
Proof. unfold inet_accept, tcp_accept. keeps_auto. Qed.

Lemma still_inet_accept_end newsock o : keeps still (inet_accept_end newsock o).
Proof. unfold inet_accept_end. keeps_auto. Qed.

Lemma moves_accept_end so newsock err : keeps (on_socks moves) (accept_end so newsock err).
Proof. unfold accept_end. keeps_auto. Qed.

Lemma still_inet_read so len : keeps still (inet_read so len).
Proof. pose proof still_recv_buf. unfold inet_read. keeps_auto. Qed.

Lemma still_inet_recv w so : keeps (on_socks still) (inet_recv w so).
Proof. unfold inet_recv, sock_recv_pkb. keeps_auto. Qed.
Hint Resolve moves_inet_send moves_inet_listen still_inet_accept still_inet_accept_end moves_accept_end still_inet_read
  still_inet_recv keeps_on_sock : keeps.

(** Each call of the socket interface. *)
Lemma moves_api :
  (forall f t p, keeps (on_socks moves) (_socket f t p)) /\ (forall so a, keeps (on_socks moves) (_bind so a)) /\
  (forall so n, keeps (on_socks moves) (_listen so n)) /\ (forall so a, keeps (on_socks moves) (_connect so a)) /\
  (forall so sk w, keeps (on_socks moves) (_connect_resume so sk w)) /\ (forall so, keeps (on_socks moves) (_accept so)) /\
  (forall so n sk w, keeps (on_socks moves) (_accept_resume so n sk w)) /\
  (forall so l, keeps (on_socks moves) (_read so l)) /\
  (forall so sk w o l, keeps (on_socks moves) (_read_resume so sk w o l)) /\
  (forall so b, keeps (on_socks moves) (_write so b)) /\ (forall so b a, keeps (on_socks moves) (_send so b a)) /\
  (forall so, keeps (on_socks moves) (_recv so)) /\ (forall so, keeps (on_socks moves) (_recv_resume so)) /\
  (forall so cb, keeps (on_socks moves) (_sock_set_rx_callback so cb)) /\ (forall so, keeps (on_socks moves) (_close so)).
Proof.
  split_and!; intros; unfold _socket, _bind, _listen, _connect, _connect_resume, tcp_connect_resume, _accept,
    get_socket, _accept_resume, tcp_accept_resume, _read, _read_resume, tcp_recv_buf_resume, _write, inet_write, _send,
    _recv, _recv_resume, _sock_set_rx_callback, _close; keeps_auto.
Qed.

End Api.

(** ** The theorem *)

Section Events.
Context `{OS} `{Ptrs} `{App} (Happ : forall f p, keeps (on_socks moves) (rx_cb f p)).

Lemma moves_reentry n d p : keeps (on_socks moves) (@net_input (reentry n) d p).
Proof. by apply moves_stack_net_in. Qed.

Lemma moves_run_event n e : keeps (on_socks moves) (run_event n e).
Proof.
  pose proof (moves_reentry n) as Hre. pose proof (@moves_api _ (reentry n) Hre) as Hapi. destruct_and! Hapi.
  pose proof (moves_stack_net_in Happ n). pose proof moves_tcp_timer_tick.
  destruct e; cbn [run_event]; cbv zeta; try solve [keeps_auto].
  - unfold rx_frame, alloc_netdev_pkb. keeps_auto.
  - unfold net_timer_tick. pose proof (@keeps_arp_timer moves _ _ (reentry n) Hre).
    pose proof (@keeps_ip_timer moves _ _ (reentry n) Hre). keeps_auto.
Qed.

Lemma moves_run n es : keeps (on_socks moves) (run n es).
Proof. apply keeps_for_each; [apply _|]. apply moves_run_event. Qed.


End Events.

(** A server on the sample host: socket, bind to port 80, listen, and a thread that
    waits in accept; then the peer opens a connection, sends text, closes, and the
    server closes too. *)
Definition any_addr (port : Z) : sock_addr := mk_sock_addr 0 0 (_htons port) 0.

Definition server : list event :=
  [EvSocket AF_INET SOCK_STREAM 0; EvBind 0%nat (any_addr 80); EvListen 0%nat 4; EvAccept 0%nat].

Definition handshake : list event :=
  [EvFrame 1%nat (zlen sample_arp_request) sample_arp_request;
   EvFrame 1%nat (zlen sample_syn) sample_syn;
   let f := tcp_frame 40000 80 1001 12345680 0 0 0 0 1 8192 [] in EvFrame 1%nat (zlen f) f].

Definition text_and_fin : list event :=
  [let f := tcp_frame 40000 80 1001 12345680 0 0 0 1 1 8192 [104; 105] in EvFrame 1%nat (zlen f) f;
   let f := tcp_frame 40000 80 1003 12345680 1 0 0 0 1 8192 [] in EvFrame 1%nat (zlen f) f].

Lemma still_sample_app f p : keeps (on_socks moves) (rx_cb f p).
Proof. apply keeps_ret, _. Qed.

