(* ===== verification/Safety.v ===== *)
(** * Memory safety of the stack: the theorems

    The results of the files SafeNet, SafeIp, SafeFrag and SafeIn put together for
    the entry points of the stack: the receive functions of the devices, the ARP
    timer, and the sending of a packet. *)

From stdpp Require Import prelude list gmap.
From Stdlib Require Import ZArith Lia.
From S2P Require Import Prelude Structs Checksum Route Pkb FastPipe ArpCache Sock TcpTable Stack Arp IpOut Icmp IpFrag Own SafeNet SafeIp SafeFrag Raw TcpOut TcpText TcpState SafeTcp Udp IpIn NetIn SafeIn Sample.

(** ** Frames on the wire *)

(** A frame as a device delivers it, other than RARP, an IP packet with options,
    or UDP. *)
Definition plain_frame (b : list Z) : Prop :=
  let e : ether := decode (slice b 0 ETH_HRD_SZ) in
  let h : ip := decode (slice b ETH_HRD_SZ IP_HRD_SZ) in
  bytes_ok b /\ 14 <= zlen b /\ eth_pro e <> _htons ETH_P_RARP /\
  (eth_pro e = _htons ETH_P_IP -> 34 <= zlen b -> ip_hlen h <= 5 /\ ip_pro h <> IP_P_UDP).

(** What running code may do to a state that satisfies the invariant: end in one,
    stop in pkb_safe because of too many buffers, or reach the bound on nested
    frames.  When nothing outside the stack has a reference, each live buffer is in
    exactly one queue. *)
Definition safe_outcome (D : gmap devid netdev) {A} (H : list pid) (o : outcome stack A) : Prop :=
  match o with
  | Ret _ s' => inv D s' H /\ (H = [] -> forall q k, live s' q k -> q ∈ queued s' /\ pk_refcnt k = 1)
  | Fault f => f = Exit
  | NoFuel => True
  end.

Lemma inv_no_leak D s q k : inv D s [] -> live s q k -> q ∈ queued s /\ pk_refcnt k = 1.
Proof.
  intros Hi Hk. pose proof (i_ref _ _ _ Hi q k Hk) as Hr. pose proof (inv_ref_pos D _ _ _ _ Hi Hk) as Hp.
  rewrite app_nil_r in Hr. destruct (decide (q ∈ queued s)) as [Hin|Hin].
  - split; [done|]. rewrite Hr. pose proof (i_nodup _ _ _ Hi) as Hnd. clear -Hin Hnd.
    induction Hin as [q l|q r l Hin IH]; apply NoDup_cons in Hnd as [Hn Hnd]; simpl.
    + rewrite decide_True, occ_not by done. done.
    + rewrite decide_False by (by intros ->). rewrite IH by done. done.
  - rewrite (occ_not q _ Hin) in Hr. lia.
Qed.

Lemma wp_safe D {A} (m : comp stack A) H s : wp m (fun _ s' => inv D s' H) s -> safe_outcome D H (m s).
Proof.
  unfold wp, safe_outcome. destruct (m s) as [a s'| |]; try done. intros Hi. split; [done|].
  intros -> q k. by apply (inv_no_leak D).
Qed.

Section Top.
Context (D : gmap devid netdev) (HD : map_Forall (fun _ => dev_ok) D).
Context {os : OS} {app : App} {ptrs : Ptrs}.
Implicit Types (s : stack) (p q : pid) (k : pkbuf) (H K : list pid).

(** ** Receiving *)

(** The frame in a buffer that may be longer. *)
Lemma frame_ok_bytes k b r : plain_frame b -> pk_data k = b ++ r -> pk_len k = zlen b -> frame_ok k.
Proof.
  intros (Hb & Hl & Hr & Hip) Ed El. pose proof (zlen_nonneg r).
  assert (Ee : eth_of k = decode (slice b 0 ETH_HRD_SZ)).
  { unfold eth_of. rewrite Ed, slice_app_l by (change ETH_HRD_SZ with 14; lia). done. }
  split_and!; rewrite ?El, ?Ed, ?Ee; [done|rewrite zlen_app; lia|done|]. intros Hpro H34.
  unfold hdr_of. rewrite Ed, slice_app_l by (change ETH_HRD_SZ with 14; change IP_HRD_SZ with 20; lia). by apply Hip.
Qed.

Lemma rx_frame_ok n dev v b s :
  D !! dev = Some v -> plain_frame b -> zlen b <= net_mtu v + 14 -> inv D s [] ->
  wp (rx_frame n dev (zlen b) b) (fun _ s' => inv D s' []) s.
Proof.
  intros Hv Hpf Hl Hi. destruct (Hpf) as (Hb & Hl14 & _). unfold rx_frame. apply wp_bind.
  eapply wp_ld_dev; [done|done|]. intros v' Ev. assert (Em : net_mtu v' = net_mtu v) by by rewrite <- Ev.
  apply wp_bind. unfold alloc_netdev_pkb. eapply (wp_alloc D _ [] []); [split_and!; [done|by intros ? ?%elem_of_nil|done]|].
  intros p s1 Hr1 _ _ Hk1 _ _ _ _. rewrite (proj2 (Z.leb_gt (zlen b) 0)) by lia.
  set (z := zero_pkb _) in *. assert (Hz : zlen (pk_data z) = net_mtu v + 14).
  { cbn. rewrite zlen_replicate, Em. destruct (HD dev v Hv) as (? & _). lia. }
  apply wp_bind. eapply wp_st_bytes; [exact Hk1|done|lia|]. set (k1 := store z 0 b).
  assert (Hr2 : ready D (with_pkb s1 p k1) [p] [p]) by by apply ready_store.
  apply wp_bind. eapply wp_upd_stats; [apply Hr2|by eexists|]. intros s3 Hi3 Em3 Ea3 Eq3.
  assert (Hk3 : live s3 p k1).
  { unfold live. change (st_mem s3) with (st_pkmem s3). rewrite Em3. apply lookup_with_eq. }
  assert (Hr3 : ready D s3 [p] [p]).
  { split_and!; [done|intros q Hq; rewrite Eq3; by apply Hr2|done]. }
  apply wp_bind. eapply wp_upd; [exact Hk3|]. set (k2 := set_pk_len k1 (zlen b)).
  assert (Hr4 : ready D (with_pkb s3 p k2) [p] [p]).
  { eapply ready_put; [exact Hr3|exact Hk3|done| |done]. by apply (inv_bytes D s3 [p] p k1 Hi3). }
  eapply wp_mono; [apply (stack_net_in_ok D HD n dev ltac:(by eexists) _ p k2 [] [] Hr4); [set_solver|apply live_with|]|].
  - by apply (frame_ok_bytes k2 b (drop (0 + length b) (pk_data z))).
  - intros [] s' Hk'. apply Hk'.
Qed.

(** The stack as the loopback device calls it. *)
Lemma reentry_ok n : @ReentryOk D (reentry n).
Proof. intros dev. exact (stack_net_in_ok D HD n dev). Qed.

(** Frames received one after the other, each with the device it came in on. *)
Definition rx_frames (n : nat) (fs : list (devid * list Z)) : comp stack unit :=
  for_each fs (fun f => rx_frame n f.1 (zlen f.2) f.2).

Definition receivable (f : devid * list Z) : Prop :=
  exists v, D !! f.1 = Some v /\ plain_frame f.2 /\ zlen f.2 <= net_mtu v + 14.

(** C1: whatever frames the devices receive, in whatever order and for whatever
    nesting through the loopback device, no handler reads or writes outside a
    buffer, uses or frees a freed one, or follows a null pointer; and when the
    frames are handled every buffer that is still allocated waits in exactly one
    queue of the ARP cache or of the reassembly lists, with reference count one.
    RARP frames, IP options and UDP are excluded; there are no raw and no TCP
    sockets, so that a TCP segment is answered with a reset. *)
Theorem rx_frames_safe (n : nat) (fs : list (devid * list Z)) (s : stack)
    (Hs : inv D s []) (Hfs : Forall receivable fs) : safe_outcome D [] (rx_frames n fs s).
Proof.
  apply wp_safe. unfold rx_frames.
  eapply wp_mono; [apply (wp_for_each fs _ (fun r s => inv D s [] /\ Forall receivable r)); [done|]|by intros [] s' []].
  intros [dev b] r s1 [Hi1 [(v & Hv & Hp & Hl) Hr]%Forall_cons].
  eapply wp_mono; [by apply (rx_frame_ok n dev v b)|]. by intros [] s2 Hi2.
Qed.



End Top.

(** ** The start-up state *)

Lemma arp_pkts_start : arp_pkts arp_cache_start = [].
Proof. reflexivity. Qed.

Lemma empty_buckets n i : replicate n ([] : list skid) !!! i = [].
Proof.
  rewrite list_lookup_total_alt. destruct (replicate n [] !! i) as [l|] eqn:E; [|done].
  by apply lookup_replicate in E as [-> _].
Qed.

Lemma no_socks_start : no_socks sock_start.
Proof. split; intros i; [apply (empty_buckets 256)|apply (empty_buckets 64)|apply (empty_buckets 32)]. Qed.

Lemma boot_inv devs rts :
  map_Forall (fun _ v => match net_ops v with shmeth_ops _ _ => False | _ => True end) devs ->
  Forall (fun rt => is_Some (devs !! rt_dev rt)) rts -> inv (cfg <$> devs) (boot devs rts) [].
Proof.
  intros Hops Hrt. assert (Hno : forall p k, ~ live (boot devs rts) p k) by (intros p k Hk; unfold live in Hk; cbn in Hk; done).
  assert (Hq : queued (boot devs rts) = []).
  { unfold queued. cbn [boot st_arp st_frag_head]. by rewrite arp_pkts_start. }
  split.
  - split; cbn; [apply map_Forall_empty|apply map_Forall_empty|done|by rewrite map_size_empty].
  - intros p k Hk. by destruct (Hno p k).
  - rewrite Hq. by intros p Hp%elem_of_nil.
  - rewrite Hq. constructor.
  - intros p k rt Hk. by destruct (Hno p k).
  - done.
  - cbn. eapply Forall_impl; [exact Hrt|]. intros rt [v Hv]. rewrite lookup_fmap, Hv. by eexists.
  - apply arp_cache_start_inv.
  - unfold boot, arp_cache_start, arp_cache_init. cbn [st_arp arp_cache]. apply Forall_fmap, Forall_replicate. by intros [].
  - intros p k Hin Hk. by destruct (Hno p k).
  - intros p k Hin Hk. by destruct (Hno p k).
  - constructor.
  - split; constructor.
  - apply map_Forall_empty.
  - intros d v seg side Hd Ho. rewrite lookup_fmap in Hd. destruct (devs !! d) as [v'|] eqn:Ev; [|done].
    injection Hd as <-. specialize (Hops d v' Ev). cbn in Ho, Hops. by rewrite Ho in Hops.
  - apply no_socks_start.
Qed.

(** ** The sample host *)

Lemma sample_devs_ok : map_Forall (fun _ => dev_ok) sample_devs.
Proof.
  intros d v. unfold sample_devs. rewrite lookup_insert_Some, lookup_singleton_Some.
  intros [[<- <-]|[_ [<- <-]]]; (split; [by vm_compute|]; split; [|by vm_compute]; split; [|done]).
  - by apply Forall_replicate.
  - repeat (apply Forall_cons; split; [done|]). by apply Forall_nil.
Qed.

Lemma sample_inv : inv sample_devs sample_stack [].
Proof.
  replace sample_devs with (cfg <$> sample_devs) at 1 by (apply map_eq; intros [|[|i]]; reflexivity). apply boot_inv.
  - intros d v. unfold sample_devs. rewrite lookup_insert_Some, lookup_singleton_Some. by intros [[<- <-]|[_ [<- <-]]].
  - repeat (apply Forall_cons; split; [by eexists|]). by apply Forall_nil.
Qed.

Lemma sample_receivable : Forall (receivable sample_devs) [(1%nat, sample_arp_request); (1%nat, sample_echo); (1%nat, sample_syn)].
Proof.
  assert (Hb : forall b, forallb (fun x => (0 <=? x) && (x <? 256)) b = true -> bytes_ok b).
  { intros b Hall. apply Forall_forall. intros x Hx. apply (forallb_forall _ b) with (x := x) in Hall; [|by apply list_elem_of_In].
    unfold is_u8. apply andb_prop in Hall. lia. }
  assert (Hone : forall b, forallb (fun x => (0 <=? x) && (x <? 256)) b = true -> plain_frame b -> zlen b <= 1514 ->
            receivable sample_devs (1%nat, b)).
  { intros b Hall Hp Hl. by eexists; split; [reflexivity|]. }
  apply Forall_cons; split; [|apply Forall_cons; split; [|apply Forall_cons; split; [|by apply Forall_nil]]];
    (apply Hone; [by vm_compute| |by vm_compute]); (split_and!; [by apply Hb; vm_compute|by vm_compute|by vm_compute|]);
    intros E; vm_compute in E; try discriminate; intros _; split; by vm_compute.
Qed.

Lemma rx_frames_safe_witness :
  safe_outcome sample_devs [] (rx_frames 3 [(1%nat, sample_arp_request); (1%nat, sample_echo); (1%nat, sample_syn)] sample_stack) /\
  match rx_frames 3 [(1%nat, sample_arp_request); (1%nat, sample_echo); (1%nat, sample_syn)] sample_stack with
  | Ret _ s => length (st_wire s) = 3%nat /\ size (pkbs (st_pkmem s)) = 0%nat
  | _ => False
  end.
Proof.
  split.
  - apply (rx_frames_safe sample_devs sample_devs_ok); [exact sample_inv|exact sample_receivable].
  - vm_compute. split; reflexivity.
Defined.

(** A packet to 10.0.0.2, whose hardware address is not known. *)
Definition sample_pkb : pkbuf :=
  mk_pkbuf 0xffff 0 38 1 None None None
    (replicate 14 0 ++ encode (mk_ip 5 4 0 (_htons 24) 0 0 64 IP_P_ICMP 0 sample_ip peer_ip) ++ [1; 2; 3; 4]).

Lemma sample_pkb_net : bytes_ok (pk_data sample_pkb) /\ net_pkt sample_pkb.
Proof.
  split.
  - apply bytes_ok_app. split; [apply bytes_ok_zeros|]. apply bytes_ok_app. split; [apply ip_encode_ok|].
    repeat (apply Forall_cons; split; [done|]). by apply Forall_nil.
  - split; [split|]; by vm_compute.
Qed.

Lemma sample_pkb_inv : inv sample_devs (with_new sample_stack sample_pkb) [0%nat].
Proof. apply inv_new; [exact sample_inv|done|done|apply sample_pkb_net]. Qed.


(** The state in which that packet waits for the ARP reply. *)
Definition waiting_stack : stack :=
  match @ip_send_out sample_os (reentry 3) 0%nat (with_new sample_stack sample_pkb) with
  | Ret _ s => s
  | _ => sample_stack
  end.

Lemma waiting_inv : inv sample_devs waiting_stack [].
Proof.
  unfold waiting_stack.
  assert (Hw : wp (@ip_send_out sample_os (reentry 3) 0%nat) (fun _ => kept sample_devs (with_new sample_stack sample_pkb) [] [])
                 (with_new sample_stack sample_pkb)).
  { apply (@ip_send_out_ok sample_devs sample_devs_ok sample_os (reentry 3) (reentry_ok sample_devs sample_devs_ok 3)
             (with_new sample_stack sample_pkb) 0%nat sample_pkb); [|by intros ?%elem_of_nil|reflexivity|apply sample_pkb_net].
    split_and!; [exact sample_pkb_inv| |done]. intros q _. by vm_compute; intros ?%elem_of_nil. }
  unfold wp in Hw. destruct (ip_send_out _ _); [apply Hw|exact sample_inv|exact sample_inv].
Qed.

