(* ===== verification/Lib.v ===== *)
(** * Library helpers: the address parsers of lib/lib.c

    str2ip, parse_ip_mask and parse_ip_port, with what they use of the C library:
    sscanf with %u and literal characters, atoi, strchr, and printing with %d, through
    the macro ipfmt of include/ip.h.  A string is the list of its characters up to
    the NUL byte.  A conversion whose value does not fit its type, and a shift or
    a subtraction that overflows an int, is undefined. *)

From stdpp Require Import prelude list gmap.
From Stdlib Require Import ZArith Lia Ascii.
From Stdlib Require String.
From S2P Require Import Prelude Structs.
Import String.StringSyntax.

(** ** The C library *)

Fixpoint take_while (f : Z -> bool) (l : list Z) : list Z :=
  match l with
  | [] => []
  | c :: r => if f c then c :: take_while f r else []
  end.

(** Characters of a constant of the program. *)
Definition chars (s : String.string) : list Z :=
  (fun a => Z.of_nat (nat_of_ascii a)) <$> String.list_ascii_of_string s.
Arguments chars s%_string_scope.

Definition isblank (c : Z) : bool := (c =? 32) || (c =? 9).
Definition isspace (c : Z) : bool := (c =? 32) || ((9 <=? c) && (c <=? 13)).
Definition isdigit (c : Z) : bool := (48 <=? c) && (c <=? 57).

Fixpoint skip_space (s : list Z) : list Z :=
  match s with
  | [] => []
  | c :: r => if isspace c then skip_space r else s
  end.

(** The value of a string of digits. *)
Definition num (ds : list Z) : Z := fold_left (fun a c => a * 10 + (c - 48)) ds 0.

(** White space, an optional sign and digits, as strtol reads them; the rest. *)
Definition scan_int (s : list Z) : option (Z * list Z) :=
  let s := skip_space s in
  let '(neg, s) :=
    match s with
    | c :: r => if c =? 43 then (false, r) else if c =? 45 then (true, r) else (false, s)
    | [] => (false, s)
    end in
  let ds := take_while isdigit s in
  match ds with
  | [] => None
  | _ => Some (if neg : bool then - num ds else num ds, drop (length ds) s)
  end.

Section Lib.
Context {S : Type}.

(** The directives of a format: [%u], or a character. *)
Inductive directive := PercentU | Literal (c : Z).

(** The values sscanf assigns; their number is its result. *)
Fixpoint sscanf (s : list Z) (fmt : list directive) : comp S (list Z) :=
  match fmt with
  | [] => ret []
  | PercentU :: fmt =>
      match scan_int s with
      | None => ret []
      | Some (v, r) =>
          guard Undefined (Z.abs v <? 4294967296);;
          let* vs := sscanf r fmt in ret (u32 v :: vs)
      end
  | Literal c :: fmt =>
      match s with
      | x :: r => if x =? c then sscanf r fmt else ret []
      | [] => ret []
      end
  end.

Definition atoi (s : list Z) : comp S Z :=
  match scan_int s with
  | None => ret 0
  | Some (v, _) => guard Undefined ((-2147483648 <=? v) && (v <? 2147483648));; ret v
  end.

Fixpoint strchr (s : list Z) (c : Z) : option nat :=
  match s with
  | [] => None
  | x :: r => if x =? c then Some 0%nat else Datatypes.S <$> strchr r c
  end.

(** ** The code *)

Definition quad : list directive :=
  [PercentU; Literal 46; PercentU; Literal 46; PercentU; Literal 46; PercentU].

(** [None] is the result -1; then nothing is stored. *)
Definition str2ip (str : list Z) : comp S (option Z) :=
  let* vs := sscanf str quad in
  match vs with
  | [a; b; c; d] =>
      if (255 <? a) || (255 <? b) || (255 <? c) || (255 <? d) then ret None
      else ret (Some (Z.lor (Z.lor (Z.lor a (Z.shiftl b 8)) (Z.shiftl c 16)) (Z.shiftl d 24)))
  | _ => ret None
  end.

(** [1 << n] and [(1 << n) - 1] on int. *)
Definition low_bits (n : Z) : comp S Z :=
  guard Undefined ((0 <=? n) && (n <? 31));; ret (Z.shiftl 1 n - 1).

Definition parse_ip_mask (str : list Z) : comp S (option (Z * Z)) :=
  let* vs := sscanf str (quad ++ [Literal 47; PercentU]) in
  match vs with
  | [a; b; c; d; m] =>
      if (255 <? a) || (255 <? b) || (255 <? c) || (255 <? d) || (32 <? m) then ret None
      else
        let ip := Z.lor (Z.lor (Z.lor a (Z.shiftl b 8)) (Z.shiftl c 16)) (Z.shiftl d 24) in
        let* low := low_bits (32 - m) in
        ret (Some (ip, _htonl (u32 (Z.lnot low))))
  | _ => ret None
  end.

(** The result, the address and the port that were stored, and the string: the colon
    is put back only when the address is good. *)
Record ip_port := mk_ip_port { pp_ret : Z; pp_addr : option Z; pp_nport : option Z; pp_str : list Z }.

Definition parse_ip_port (str : list Z) : comp S ip_port :=
  let port := strchr str 58 in
  let* '(nport, cut) :=
    match port with
    | Some i => let* n := atoi (drop (Datatypes.S i) str) in ret (Some (_htons (u16 n)), take i str)
    | None => ret (None, str)
    end in
  let* o := str2ip cut in
  match o with
  | None => ret (mk_ip_port (-1) None nport cut)
  | Some a => ret (mk_ip_port 0 (Some a) nport str)
  end.

End Lib.

(** ** Printing *)

Fixpoint dec_rev (fuel : nat) (n : Z) : list Z :=
  match fuel with
  | O => []
  | S f => (48 + n mod 10) :: if n <? 10 then [] else dec_rev f (n / 10)
  end.

(** [%d] for numbers that are not negative; twenty digits are more than enough. *)
Definition dec (n : Z) : list Z := rev (dec_rev 20 n).

(** The arguments for "%d.%d.%d.%d", and the text. *)
Definition ipfmt (ip : Z) : list Z :=
  [Z.land ip 0xff; Z.land (Z.shiftr ip 8) 0xff; Z.land (Z.shiftr ip 16) 0xff; Z.land (Z.shiftr ip 24) 0xff].

Definition ip_text (ip : Z) : list Z :=
  match ipfmt ip with
  | [a; b; c; d] => dec a ++ [46] ++ dec b ++ [46] ++ dec c ++ [46] ++ dec d
  | _ => []
  end.

(** ** Lemmas *)

(** No digit follows. *)
Definition stops (r : list Z) : Prop := match r with [] => True | c :: _ => isdigit c = false end.

Lemma dec_rev_digits f n : 0 <= n -> Forall (fun c => isdigit c = true) (dec_rev f n).
Proof.
  revert n. induction f as [|f IH]; intros n Hn; cbn [dec_rev]; constructor.
  - unfold isdigit. zmod.
  - case_if; [constructor|]. apply IH. zmod.
Qed.

Lemma num_snoc ds c : num (ds ++ [c]) = num ds * 10 + (c - 48).
Proof. unfold num. by rewrite fold_left_app. Qed.

Lemma num_dec f n : 0 <= n < 10 ^ Z.of_nat f -> num (rev (dec_rev f n)) = n.
Proof.
  revert n. induction f as [|f IH]; intros n Hn; [cbn in Hn |- *; lia|]. cbn [dec_rev rev]. rewrite num_snoc.
  destruct (Z.ltb_spec n 10).
  - cbn. zmod.
  - rewrite IH; [zmod|]. rewrite Nat2Z.inj_succ, Z.pow_succ_r in Hn by lia. zmod.
Qed.

Lemma take_digits ds r : Forall (fun c => isdigit c = true) ds -> stops r -> take_while isdigit (ds ++ r) = ds.
Proof.
  induction 1 as [|c ds Hc _ IH]; intros Hr; cbn [app take_while].
  - destruct r as [|c r]; [done|]. cbn in *. by rewrite Hr.
  - by rewrite Hc, IH.
Qed.

Lemma dec_digits n : 0 <= n -> Forall (fun c => isdigit c = true) (dec n).
Proof. intros Hn. by apply Forall_rev, dec_rev_digits. Qed.

Lemma dec_cons n : 0 <= n -> exists c r, dec n = c :: r /\ isdigit c = true.
Proof.
  intros Hn. pose proof (dec_digits n Hn) as Hd. destruct (dec n) as [|c r] eqn:E.
  - exfalso. apply (f_equal (@rev Z)) in E. unfold dec in E. rewrite rev_involutive in E. done.
  - apply Forall_cons in Hd as [Hc _]. eauto.
Qed.

(** Reading back what was printed. *)
Lemma scan_dec n r : 0 <= n < 10 ^ 20 -> stops r -> scan_int (dec n ++ r) = Some (n, r).
Proof.
  intros Hn Hr. destruct (dec_cons n) as (c & t & E & Hc); [lia|]. unfold scan_int.
  assert (Es : skip_space (dec n ++ r) = dec n ++ r).
  { rewrite E. cbn. unfold isspace, isdigit in *. by replace ((c =? 32) || ((9 <=? c) && (c <=? 13))) with false by lia. }
  rewrite Es. replace (match dec n ++ r with c0 :: r0 => _ | [] => _ end) with (false, dec n ++ r).
  2: { rewrite E. cbn. unfold isdigit in Hc. by replace (c =? 43) with false by lia; replace (c =? 45) with false by lia. }
  cbv iota beta. rewrite take_digits by (done || apply dec_digits; lia). rewrite E. cbn iota. rewrite <- E.
  rewrite drop_app_length. f_equal. f_equal. apply num_dec. lia.
Qed.

Section Parse.
Context {S : Type}.
Implicit Types (s : S).

Lemma sscanf_u n r fmt s : 0 <= n < 4294967296 -> stops r ->
  sscanf (dec n ++ r) (PercentU :: fmt) s = (let* vs := sscanf r fmt in ret (n :: vs)) s.
Proof.
  intros Hn Hr. cbn [sscanf]. rewrite scan_dec by (done || lia).
  replace (Z.abs n <? 4294967296) with true by lia. erewrite bind_ok by done. by rewrite u32_small.
Qed.

Lemma sscanf_lit c r fmt s : sscanf (c :: r) (Literal c :: fmt) s = sscanf r fmt s.
Proof. cbn [sscanf]. by rewrite Z.eqb_refl. Qed.

Lemma ipfmt_bytes ip : is_u32 ip -> exists a b c d, ipfmt ip = [a; b; c; d] /\ is_u8 a /\ is_u8 b /\ is_u8 c /\ is_u8 d /\
  Z.lor (Z.lor (Z.lor a (Z.shiftl b 8)) (Z.shiftl c 16)) (Z.shiftl d 24) = ip.
Proof.
  intros Hip. unfold is_u32 in Hip. unfold ipfmt. change 0xff with 255. rewrite !land_255, !Z.shiftr_div_pow2 by lia.
  change (2 ^ 8) with 256. change (2 ^ 16) with 65536. change (2 ^ 24) with 16777216.
  eexists _, _, _, _. split; [done|]. unfold is_u8. do 4 (split; [zmod|]).
  rewrite (lor_disjoint _ _ 8) by (change (2 ^ 8) with 256; zmod). change (2 ^ 8) with 256.
  rewrite (lor_disjoint _ _ 16) by (change (2 ^ 16) with 65536; zmod). change (2 ^ 16) with 65536.
  rewrite (lor_disjoint _ _ 24) by (change (2 ^ 24) with 16777216; zmod). change (2 ^ 24) with 16777216. zmod.
Qed.

(** The four numbers of an address, and whatever the rest of the format reads. *)
Lemma sscanf_quad ip r fmt s : is_u32 ip -> stops r ->
  sscanf (ip_text ip ++ r) (quad ++ fmt) s = (let* vs := sscanf r fmt in ret (ipfmt ip ++ vs)) s.
Proof.
  intros Hip Hr. destruct (ipfmt_bytes ip Hip) as (a & b & c & d & E & Ha & Hb & Hc & Hd & _). unfold ip_text. rewrite E.
  unfold is_u8 in *. rewrite <- !app_assoc. unfold quad. cbn [app]. rewrite sscanf_u by (lia || done).
  unfold bind at 1. rewrite sscanf_lit.
  rewrite sscanf_u by (lia || done). cbn [app]. unfold bind at 1. rewrite sscanf_lit, <- ?app_assoc.
  rewrite sscanf_u by (lia || done). cbn [app]. unfold bind at 1. rewrite sscanf_lit, sscanf_u by (lia || done).
  unfold bind. by destruct (sscanf r fmt s).
Qed.

End Parse.

Lemma strchr_app t r c : Forall (fun x => x <> c) t -> strchr (t ++ c :: r) c = Some (length t).
Proof.
  induction 1 as [|x t Hx _ IH]; cbn [app strchr length]; [by rewrite Z.eqb_refl|].
  rewrite (proj2 (Z.eqb_neq x c)) by done. by rewrite IH.
Qed.

(** An address is written with digits and dots. *)
Lemma ip_text_chars ip : is_u32 ip -> Forall (fun x => x <> 58) (ip_text ip).
Proof.
  intros Hip. destruct (ipfmt_bytes ip Hip) as (a & b & c & d & E & Ha & Hb & Hc & Hd & _). unfold ip_text. rewrite E.
  assert (Hdec : forall n, is_u8 n -> Forall (fun x => x <> 58) (dec n)).
  { intros n Hn. eapply Forall_impl; [apply dec_digits; unfold is_u8 in Hn; lia|]. cbn. unfold isdigit. intros x Hx. lia. }
  rewrite !Forall_app, !Forall_singleton. split_and!; auto; lia.
Qed.

Lemma str2ip_text {S} (s : S) ip r : is_u32 ip -> stops r -> str2ip (ip_text ip ++ r) s = Ret (Some ip) s.
Proof.
  intros Hip Hr. destruct (ipfmt_bytes ip Hip) as (a & b & c & d & E & Ha & Hb & Hc & Hd & El).
  unfold str2ip. erewrite bind_ok.
  2: { rewrite <- (app_nil_r quad), sscanf_quad by done. erewrite bind_ok by reflexivity. rewrite E. reflexivity. }
  unfold is_u8 in *. cbn [app]. replace ((255 <? a) || (255 <? b) || (255 <? c) || (255 <? d)) with false by lia. by rewrite El.
Qed.

(** The mask of [m] bits, from the low bits that are not in it. *)
Lemma mask_bits m : 2 <= m <= 32 -> u32 (Z.lnot (Z.shiftl 1 (32 - m) - 1)) = 4294967296 - 2 ^ (32 - m).
Proof.
  intros Hm. rewrite Z.shiftl_1_l. unfold Z.lnot, u32. assert (0 < 2 ^ (32 - m)) by (apply Z.pow_pos_nonneg; lia).
  assert (2 ^ (32 - m) <= 2 ^ 30) by (apply Z.pow_le_mono_r; lia). change (2 ^ 30) with 1073741824 in *.
  replace (Z.pred (- (2 ^ (32 - m) - 1))) with (4294967296 - 2 ^ (32 - m) + (-1) * 4294967296) by lia.
  rewrite Z_mod_plus_full. apply Z.mod_small. lia.
Qed.

Lemma parse_ip_mask_text {S} (s : S) ip m : is_u32 ip -> 0 <= m <= 32 ->
  parse_ip_mask (ip_text ip ++ [47] ++ dec m) s =
    if m <? 2 then Fault Undefined else Ret (Some (ip, _htonl (4294967296 - 2 ^ (32 - m)))) s.
Proof.
  intros Hip Hm. destruct (ipfmt_bytes ip Hip) as (a & b & c & d & E & Ha & Hb & Hc & Hd & El).
  unfold parse_ip_mask. erewrite bind_ok.
  2: { rewrite sscanf_quad by done. erewrite bind_ok.
       2: { cbn [app]. rewrite sscanf_lit. rewrite <- (app_nil_r (dec m)), sscanf_u by (lia || done).
            erewrite bind_ok by reflexivity. reflexivity. }
       rewrite E. reflexivity. }
  unfold is_u8 in *. cbn [app].
  replace ((255 <? a) || (255 <? b) || (255 <? c) || (255 <? d) || (32 <? m)) with false by lia.
  rewrite El. unfold low_bits. destruct (Z.ltb_spec m 2).
  - by replace ((0 <=? 32 - m) && (32 - m <? 31)) with false by lia.
  - replace ((0 <=? 32 - m) && (32 - m <? 31)) with true by lia. erewrite bind_ok by reflexivity. by rewrite mask_bits by lia.
Qed.

Lemma atoi_dec {S} (s : S) n : 0 <= n < 2147483648 -> atoi (dec n) s = Ret n s.
Proof.
  intros Hn. unfold atoi. rewrite <- (app_nil_r (dec n)), scan_dec by (lia || done).
  by replace ((-2147483648 <=? n) && (n <? 2147483648)) with true by lia.
Qed.

Lemma parse_ip_port_text {S} (s : S) ip port : is_u32 ip -> is_u16 port ->
  let text := ip_text ip ++ [58] ++ dec port in
  parse_ip_port text s = Ret (mk_ip_port 0 (Some ip) (Some (_htons port)) text) s.
Proof.
  intros Hip Hp text. unfold is_u16 in Hp. unfold parse_ip_port, text. cbn [app].
  rewrite strchr_app by (by apply ip_text_chars). erewrite bind_ok.
  2: { replace (drop _ _) with (dec port).
       2: { change (58 :: dec port) with ([58] ++ dec port). rewrite app_assoc, drop_app_length'; [done|].
            rewrite length_app. cbn. lia. }
       erewrite bind_ok by (apply atoi_dec; lia). reflexivity. }
  rewrite take_app_length, u16_small by (unfold is_u16; lia).
  pose proof (str2ip_text s ip [] Hip I) as Ht. rewrite app_nil_r in Ht. by erewrite bind_ok by exact Ht.
Qed.

(** ** Property *)

(** C36: printing an address and parsing it again gives the address, with str2ip, with
    parse_ip_mask behind a mask length, which gives the mask of that length in network
    order, and with parse_ip_port behind a port, which leaves the string as it was.
    Mask lengths zero and one, the default route among them, are undefined behaviour:
    they shift the int 1 by 32, or make it overflow. *)
Theorem addr_roundtrip {S} (s : S) (ip : Z) : is_u32 ip ->
  str2ip (ip_text ip) s = Ret (Some ip) s /\
  (forall m, 0 <= m <= 32 -> parse_ip_mask (ip_text ip ++ [47] ++ dec m) s =
     if m <? 2 then Fault Undefined else Ret (Some (ip, _htonl (4294967296 - 2 ^ (32 - m)))) s) /\
  (forall port, is_u16 port -> let text := ip_text ip ++ [58] ++ dec port in
     parse_ip_port text s = Ret (mk_ip_port 0 (Some ip) (Some (_htons port)) text) s).
Proof.
  intros Hip. split; [rewrite <- (app_nil_r (ip_text ip)); by apply str2ip_text|].
  split; [intros m; by apply parse_ip_mask_text|intros port; by apply parse_ip_port_text].
Qed.

Lemma addr_roundtrip_witness :
  str2ip (chars "10.0.0.2") tt = Ret (Some 0x0200000a) tt /\
  parse_ip_mask (chars "10.0.0.2/24") tt = Ret (Some (0x0200000a, 0x00ffffff)) tt /\
  parse_ip_port (chars "10.0.0.2:80") tt = Ret (mk_ip_port 0 (Some 0x0200000a) (Some 0x5000) (chars "10.0.0.2:80")) tt.
Proof.
  destruct (addr_roundtrip tt 0x0200000a ltac:(by vm_compute)) as (H1 & H2 & H3).
  split; [exact H1|]. split; [exact (H2 24 ltac:(lia))|exact (H3 80 ltac:(by vm_compute))].
Defined.
