(* ===== verification/Tap.v ===== *)
(** * The tap device: net/tap.c and the set-up of net/veth.c

    The system calls are a parameter: the answer of the kernel to a call depends on the
    calls before it.  The state holds the open descriptors, errno and the calls that
    were made; perrx() ends the process ([Exit]). *)

From stdpp Require Import prelude list gmap.
From Stdlib Require Import ZArith Lia.
From Stdlib Require String.
From S2P Require Import Prelude Stack Lib.
Import String.StringSyntax.

(** ** System calls *)

(** The fields of struct ifreq that the code uses; the name is a string. *)
Record ifreq := mk_ifreq { ifr_name : list Z; ifr_flags : Z; ifr_mtu : Z; ifr_addr : Z; ifr_hwaddr : list Z }.

Definition zero_ifr : ifreq := mk_ifreq [] 0 0 0 (replicate 6 0).
Definition set_ifr_flags (r : ifreq) v := mk_ifreq (ifr_name r) v (ifr_mtu r) (ifr_addr r) (ifr_hwaddr r).
Definition set_ifr_addr (r : ifreq) v := mk_ifreq (ifr_name r) (ifr_flags r) (ifr_mtu r) v (ifr_hwaddr r).

Inductive ioctl_req :=
  | TUNSETIFF | TUNGETIFF | SIOCGIFHWADDR | SIOCSIFNETMASK | SIOCGIFFLAGS | SIOCSIFFLAGS
  | SIOCGIFMTU | SIOCSIFADDR | SIOCGIFADDR.

Inductive syscall :=
  | SysOpen                                          (* open(TUNTAPDEV, O_RDWR) *)
  | SysSocket                                        (* socket(PF_INET, SOCK_DGRAM, IPPROTO_IP) *)
  | SysIoctl (fd : Z) (req : ioctl_req) (ifr : ifreq)
  | SysPersist (fd : Z) (on : Z)                     (* ioctl(fd, TUNSETPERSIST, on) *)
  | SysClose (fd : Z).

(** The result, errno when it is negative, and what an ioctl stores in its argument. *)
Record answer := mk_answer { an_ret : Z; an_errno : Z; an_ifr : ifreq }.

Class Kernel := kernel : list syscall -> syscall -> answer.

Record tapstate := mk_tapstate { ts_errno : Z; ts_skfd : Z; ts_fds : gset Z; ts_calls : list syscall }.

Definition set_ts_skfd v (t : tapstate) := mk_tapstate (ts_errno t) v (ts_fds t) (ts_calls t).

(** The open descriptors after a call. *)
Definition fds_after (c : syscall) (r : Z) (fds : gset Z) : gset Z :=
  match c with
  | SysOpen | SysSocket => if r <? 0 then fds else {[r]} ∪ fds
  | SysClose fd => fds ∖ {[fd]}
  | _ => fds
  end.

Section Tap.
Context `{Kernel}.

Definition sys (c : syscall) : comp tapstate answer := fun t =>
  let a := kernel (ts_calls t) c in
  Ret a (mk_tapstate (if an_ret a <? 0 then an_errno a else ts_errno t) (ts_skfd t)
           (fds_after c (an_ret a) (ts_fds t)) (c :: ts_calls t)).

Definition perrx {A} : comp tapstate A := fail Exit.

(** strcpy into ifr_name. *)
Definition IFNAMSIZ : Z := 16.
Definition ifr_for (name : list Z) : comp tapstate ifreq :=
  guard OutOfBounds (zlen name <? IFNAMSIZ);; ret (mk_ifreq name 0 0 0 (replicate 6 0)).

(** ** net/tap.c *)

Definition setpersist_tap (fd : Z) : comp tapstate Z :=
  let* e := gets ts_errno in
  if e =? 0 then
    let* a := sys (SysPersist fd 1) in
    ret (if an_ret a <? 0 then -1 else 0)
  else ret 0.

(** An ioctl on the socket skfd, with what the functions do when it fails. *)
Definition skfd_ioctl (req : ioctl_req) (ifr : ifreq) : comp tapstate ifreq :=
  let* skfd := gets ts_skfd in
  let* a := sys (SysIoctl skfd req ifr) in
  if an_ret a <? 0 then sys (SysClose skfd);; perrx else ret (an_ifr a).

Definition setnetmask_tap (name : list Z) (netmask : Z) : comp tapstate unit :=
  let* ifr := ifr_for name in
  skfd_ioctl SIOCSIFNETMASK (set_ifr_addr ifr netmask);; ret tt.

Definition setflags_tap (name : list Z) (flags : Z) (set : bool) : comp tapstate unit :=
  let* ifr := ifr_for name in
  let* ifr := skfd_ioctl SIOCGIFFLAGS ifr in
  let f := if set then Z.lor (ifr_flags ifr) flags
           else Z.land (ifr_flags ifr) (Z.land (Z.lnot flags) 0xffff) in
  skfd_ioctl SIOCSIFFLAGS (set_ifr_flags ifr f);; ret tt.

Definition IFF_UP : Z := 0x1.
Definition IFF_RUNNING : Z := 0x40.
Definition setdown_tap (name : list Z) : comp tapstate unit := setflags_tap name (Z.lor IFF_UP IFF_RUNNING) false.
Definition setup_tap (name : list Z) : comp tapstate unit := setflags_tap name (Z.lor IFF_UP IFF_RUNNING) true.

Definition getmtu_tap (name : list Z) : comp tapstate Z :=
  let* ifr := ifr_for name in
  let* ifr := skfd_ioctl SIOCGIFMTU ifr in ret (ifr_mtu ifr).

Definition setipaddr_tap (name : list Z) (ipaddr : Z) : comp tapstate unit :=
  let* ifr := ifr_for name in
  skfd_ioctl SIOCSIFADDR (set_ifr_addr ifr ipaddr);; ret tt.

Definition getipaddr_tap (name : list Z) : comp tapstate Z :=
  let* ifr := ifr_for name in
  let* ifr := skfd_ioctl SIOCGIFADDR ifr in ret (ifr_addr ifr).

(** strcpy into the name of the device. *)
Definition getname_tap (tapfd : Z) : comp tapstate (list Z) :=
  let* a := sys (SysIoctl tapfd TUNGETIFF zero_ifr) in
  if an_ret a <? 0 then perrx
  else guard OutOfBounds (zlen (ifr_name (an_ifr a)) <? Z.of_nat NETDEV_NLEN);; ret (ifr_name (an_ifr a)).

Definition gethwaddr_tap (tapfd : Z) : comp tapstate (list Z) :=
  let* a := sys (SysIoctl tapfd SIOCGIFHWADDR zero_ifr) in
  if an_ret a <? 0 then perrx else ret (ifr_hwaddr (an_ifr a)).

(** IFF_TAP | IFF_NO_PI *)
Definition alloc_tap (dev : list Z) : comp tapstate Z :=
  let* a := sys SysOpen in
  let tapfd := an_ret a in
  if tapfd <? 0 then ret (-1)
  else
    let* a := sys (SysIoctl tapfd TUNSETIFF (mk_ifreq (take (Z.to_nat IFNAMSIZ) dev) (Z.lor 0x2 0x1000) 0 0 (replicate 6 0))) in
    if an_ret a <? 0 then sys (SysClose tapfd);; ret (-1) else ret tapfd.

Definition delete_tap (tapfd : Z) : comp tapstate unit :=
  let* a := sys (SysPersist tapfd 0) in
  if an_ret a <? 0 then ret tt else sys (SysClose tapfd);; ret tt.

Definition set_tap : comp tapstate unit :=
  let* a := sys SysSocket in
  modify (set_ts_skfd (an_ret a));;
  if an_ret a <? 0 then perrx else ret tt.

Definition unset_tap : comp tapstate unit :=
  let* skfd := gets ts_skfd in sys (SysClose skfd);; ret tt.

(** ** net/veth.c *)

Record tapdev := mk_tapdev { td_fd : Z; td_name : list Z; td_mtu : Z; td_hwaddr : list Z; td_ipaddr : Z }.

Definition FAKE_TAP_ADDR : Z := 0x0200000a.
Definition FAKE_IPADDR : Z := 0x0100000a.
Definition FAKE_HWADDR : list Z := [0x00; 0x34; 0x45; 0x67; 0x89; 0xab].
Definition FAKE_TAP_NETMASK : Z := 0x00ffffff.
Definition FAKE_NETMASK : Z := 0x00ffffff.

(** Behind setpersist_tap, in the topology TOP2. *)
Definition tap_setup (fd : Z) : comp tapstate tapdev :=
  set_tap;;
  let* name := getname_tap fd in
  let* mtu := getmtu_tap name in
  let* hw := gethwaddr_tap fd in
  setipaddr_tap name FAKE_TAP_ADDR;;
  let* ip := getipaddr_tap name in
  setnetmask_tap name FAKE_TAP_NETMASK;;
  setup_tap name;;
  unset_tap;;
  ret (mk_tapdev fd name mtu hw ip).

(** [None] is the result -1. *)
Definition tap_dev_init : comp tapstate (option tapdev) :=
  let* fd := alloc_tap (chars "tap0") in
  if fd <? 0 then ret None
  else
    let* e := setpersist_tap fd in
    if e <? 0 then sys (SysClose fd);; ret None
    else let* d := tap_setup fd in ret (Some d).

(** The new device of the stack; [v] comes zeroed from netdev_alloc. *)
Definition veth_dev_init (v : netdev) : comp tapstate (tapdev * netdev) :=
  let* o := tap_dev_init in
  match o with
  | None => perrx
  | Some d => ret (d, mk_netdev (td_mtu d) FAKE_IPADDR FAKE_NETMASK FAKE_HWADDR (net_name v) (net_ops v) (net_stats v))
  end.

Definition veth_dev_exit (tap : tapdev) : comp tapstate unit := delete_tap (td_fd tap).

End Tap.

(** ** Descriptors *)

(** Runs that return, or end the process through perrx. *)
Definition runs {A} (m : comp tapstate A) (Q : A -> tapstate -> Prop) (t : tapstate) : Prop :=
  match m t with
  | Ret a t' => Q a t'
  | Fault f => f = Exit
  | NoFuel => False
  end.

Lemma runs_ret {A} (a : A) (Q : A -> tapstate -> Prop) t : Q a t -> runs (ret a) Q t.
Proof. done. Qed.

Lemma runs_bind {A B} (m : comp tapstate A) (k : A -> comp tapstate B) Q t :
  runs m (fun a => runs (k a) Q) t -> runs (bind m k) Q t.
Proof. unfold runs, bind. by destruct (m t). Qed.

Lemma runs_mono {A} (m : comp tapstate A) (Q R : A -> tapstate -> Prop) t :
  runs m Q t -> (forall a t', Q a t' -> R a t') -> runs m R t.
Proof. unfold runs. destruct (m t); auto. Qed.

Section Descriptors.
Context `{Kernel} (fds0 : gset Z).

(** The descriptors that are open behind the calls of [log]. *)
Fixpoint opened (log : list syscall) : gset Z :=
  match log with
  | [] => fds0
  | c :: log => fds_after c (an_ret (kernel log c)) (opened log)
  end.

(** A new descriptor is not one that is open, and the names of interfaces fit. *)
Context (Hopen : forall log, an_ret (kernel log SysOpen) ∉ opened log)
        (Hsocket : forall log, an_ret (kernel log SysSocket) ∉ opened log)
        (Hname : forall log fd, zlen (ifr_name (an_ifr (kernel log (SysIoctl fd TUNGETIFF zero_ifr)))) < IFNAMSIZ).

Definition persist_of (c : syscall) : option (Z * Z) := match c with SysPersist fd on => Some (fd, on) | _ => None end.

(** The requests for persistence that were made. *)
Definition persists (t : tapstate) : list (Z * Z) := omap persist_of (ts_calls t).

Definition tracked (t : tapstate) : Prop := ts_fds t = opened (ts_calls t).

(** Calls that leave the descriptors and the persistence of the device alone. *)
Record quiet (t t' : tapstate) : Prop := {
  qt_fds : ts_fds t' = ts_fds t;
  qt_skfd : ts_skfd t' = ts_skfd t;
  qt_open : tracked t -> tracked t';
  qt_calls : persists t' = persists t
}.

#[local] Instance quiet_preorder : PreOrder quiet.
Proof. split; [by split|]. intros t1 t2 t3 [] []. split; try congruence. auto. Qed.

(** Two quiet steps in a row. *)
Lemma quiet_bind {A B} (m : comp tapstate A) (k : A -> comp tapstate B) t0 t :
  quiet t0 t -> runs m (fun _ => quiet t) t -> (forall a t', quiet t0 t' -> runs (k a) (fun _ => quiet t0) t') ->
  runs (bind m k) (fun _ => quiet t0) t.
Proof.
  intros H0 Hm Hk. apply runs_bind. eapply runs_mono; [exact Hm|]. intros a t' Hq. apply Hk. by transitivity t.
Qed.

Lemma quiet_ioctl fd req ifr t : runs (sys (SysIoctl fd req ifr)) (fun _ => quiet t) t.
Proof. unfold runs, sys. split; [done|done|by intros Ht; unfold tracked in *; cbn|done]. Qed.

Lemma quiet_skfd_ioctl req ifr t : runs (skfd_ioctl req ifr) (fun _ => quiet t) t.
Proof.
  unfold skfd_ioctl. apply runs_bind, runs_ret, runs_bind. eapply runs_mono; [apply quiet_ioctl|].
  intros a t' Hq. case_if; [done|by apply runs_ret].
Qed.

Lemma quiet_ifr_for name t : zlen name < IFNAMSIZ -> runs (ifr_for name) (fun _ => quiet t) t.
Proof. intros Hn. unfold ifr_for. rewrite (proj2 (Z.ltb_lt _ _) Hn). by apply runs_ret. Qed.

(** The functions that configure the interface. *)
Lemma quiet_config name v t : zlen name < IFNAMSIZ ->
  runs (setnetmask_tap name v) (fun _ => quiet t) t /\ runs (setipaddr_tap name v) (fun _ => quiet t) t /\
  runs (getmtu_tap name) (fun _ => quiet t) t /\ runs (getipaddr_tap name) (fun _ => quiet t) t /\
  runs (setup_tap name) (fun _ => quiet t) t.
Proof.
  intros Hn. unfold setnetmask_tap, setipaddr_tap, getmtu_tap, getipaddr_tap, setup_tap, setflags_tap.
  split_and!; (apply quiet_bind; [done|by apply quiet_ifr_for|intros ifr t1 H1]);
    repeat (eapply quiet_bind; [exact H1||eassumption|apply quiet_skfd_ioctl|intros]); by apply runs_ret.
Qed.

Lemma getname_runs fd t : runs (getname_tap fd) (fun name t' => quiet t t' /\ zlen name < IFNAMSIZ) t.
Proof using All.
  unfold getname_tap. apply runs_bind. pose proof (quiet_ioctl fd TUNGETIFF zero_ifr t) as Hq.
  unfold runs, sys in Hq. unfold runs at 1, sys. pose proof (Hname (ts_calls t) fd) as Hn. unfold IFNAMSIZ in *.
  case_if; [done|]. change (Z.of_nat NETDEV_NLEN) with 16. rewrite (proj2 (Z.ltb_lt _ 16) Hn). apply runs_ret. by split.
Qed.

Lemma quiet_gethwaddr fd t : runs (gethwaddr_tap fd) (fun _ => quiet t) t.
Proof.
  unfold gethwaddr_tap. apply runs_bind. eapply runs_mono; [apply quiet_ioctl|]. intros a t' Hq. case_if; [done|by apply runs_ret].
Qed.

Lemma set_tap_runs t : tracked t -> runs set_tap (fun _ t' => tracked t' /\ ts_skfd t' ∉ ts_fds t /\
  ts_fds t' = {[ts_skfd t']} ∪ ts_fds t /\ persists t' = persists t) t.
Proof using All.
  intros Ht. unfold set_tap. apply runs_bind. unfold runs at 1, sys. set (r := an_ret _).
  assert (Hr : r ∉ ts_fds t) by (rewrite Ht; apply Hsocket).
  apply runs_bind. unfold runs at 1, modify. case_if; [done|]. apply runs_ret.
  unfold tracked in *. cbn. fold r. rewrite E, <- Ht. done.
Qed.

(** The socket skfd is closed again. *)
Lemma unset_tap_runs t fds : ts_skfd t ∉ fds -> ts_fds t = {[ts_skfd t]} ∪ fds ->
  runs unset_tap (fun _ t' => ts_fds t' = fds /\ persists t' = persists t) t.
Proof.
  intros Hn Hf. unfold unset_tap. apply runs_bind, runs_ret, runs_bind. unfold runs at 1, sys. apply runs_ret. cbn.
  split; [rewrite Hf; set_solver|done].
Qed.

Lemma tap_setup_runs fd t : tracked t ->
  runs (tap_setup fd) (fun d t' => td_fd d = fd /\ ts_fds t' = ts_fds t /\ persists t' = persists t) t.
Proof using All.
  intros Ht. unfold tap_setup. apply runs_bind. eapply runs_mono; [by apply set_tap_runs|].
  intros _ t1 (Ht1 & Hsk & Hfd & Hp). apply runs_bind. eapply runs_mono; [apply getname_runs|].
  intros name t2 [Hq2 Hn].
  assert (C : forall v t, _) by (intros v t'; exact (quiet_config name v t' Hn)).
  assert (Step : forall A B (m : comp tapstate A) (k : A -> comp tapstate B) Q t, quiet t1 t -> (forall t, runs m (fun _ => quiet t) t) ->
    (forall a t, quiet t1 t -> runs (k a) Q t) -> runs (bind m k) Q t).
  { intros A B m k Q t' H1 Hm Hk. apply runs_bind. eapply runs_mono; [apply Hm|]. intros a t3 H3. apply Hk. by transitivity t'. }
  apply Step; [done|intros; apply (C 0)|intros mtu t3 Hq3]. apply Step; [done|intros; apply quiet_gethwaddr|intros hw t4 Hq4].
  apply Step; [done|intros; apply C|intros _ t5 Hq5]. apply Step; [done|intros; apply (C 0)|intros ip t6 Hq6].
  apply Step; [done|intros; apply C|intros _ t7 Hq7]. apply Step; [done|intros; apply (C 0)|intros _ t8 [Q1 Q2 _ Q4]].
  apply runs_bind. eapply runs_mono; [apply (unset_tap_runs t8 (ts_fds t)); congruence|].
  intros _ t9 [Hf9 Hp9]. apply runs_ret. cbn. split; [done|]. split; congruence.
Qed.

Lemma alloc_tap_runs dev t : tracked t -> runs (alloc_tap dev) (fun fd t' => tracked t' /\ persists t' = persists t /\
  if fd <? 0 then ts_fds t' = ts_fds t
  else fd ∉ ts_fds t /\ ts_fds t' = {[fd]} ∪ ts_fds t /\ ts_errno t' = ts_errno t) t.
Proof using All.
  intros Ht. unfold alloc_tap. apply runs_bind. unfold runs at 1, sys. set (r := an_ret _).
  assert (Hr : r ∉ ts_fds t) by (rewrite Ht; apply Hopen).
  destruct (r <? 0) eqn:E.
  { apply runs_ret. unfold tracked in *. cbn. fold r. by rewrite E, <- Ht. }
  apply runs_bind. unfold runs at 1, sys. destruct (an_ret (kernel _ (SysIoctl _ _ _)) <? 0) eqn:E2.
  - apply runs_bind. unfold runs at 1, sys. apply runs_ret. unfold tracked in *. cbn. fold r. rewrite E, <- Ht.
    split; [done|]. split; [done|set_solver].
  - apply runs_ret. unfold tracked in *. cbn. fold r. by rewrite E, <- Ht.
Qed.

Lemma setpersist_runs fd t : tracked t -> runs (setpersist_tap fd) (fun _ t' => tracked t' /\ ts_fds t' = ts_fds t /\
  persists t' = (if ts_errno t =? 0 then (fd, 1) :: persists t else persists t)) t.
Proof.
  intros Ht. unfold setpersist_tap. apply runs_bind, runs_ret. destruct (ts_errno t =? 0); [|by apply runs_ret].
  apply runs_bind. by unfold runs at 1, sys.
Qed.

(** C39: setting up the tap device either ends the process or returns: with -1 no
    descriptor is left open, and otherwise exactly that of the device, with the socket
    for the configuration closed again.  The device is made persistent exactly when
    errno was zero at the start, whatever call had set it. *)
Theorem tap_dev_init_fds (errno skfd : Z) :
  runs tap_dev_init (fun o t =>
    match o with
    | None => ts_fds t = fds0
    | Some d => td_fd d ∉ fds0 /\ ts_fds t = {[td_fd d]} ∪ fds0 /\ persists t = (if errno =? 0 then [(td_fd d, 1)] else [])
    end) (mk_tapstate errno skfd fds0 []).
Proof using All.
  set (t0 := mk_tapstate _ _ _ _). unfold tap_dev_init. apply runs_bind.
  eapply runs_mono; [by apply (alloc_tap_runs _ t0)|]. intros fd t1 (Ht1 & Hp1 & Hf1).
  case_if; [by apply runs_ret|]. destruct Hf1 as (Hn & Hf1 & He). apply runs_bind.
  eapply runs_mono; [by apply setpersist_runs|]. intros e t2 (Ht2 & Hf2 & Hp2). case_if.
  - apply runs_bind. unfold runs at 1, sys. apply runs_ret. cbn. rewrite Hf2, Hf1. cbn in *. set_solver.
  - apply runs_bind. eapply runs_mono; [by apply tap_setup_runs|]. intros d t3 (<- & Hf3 & Hp3). apply runs_ret.
    rewrite Hf3, Hf2, Hp3, Hp2, He, Hp1. done.
Qed.
End Descriptors.

(** A kernel on which everything succeeds. *)
Definition sample_kernel : Kernel := fun log c =>
  match c with
  | SysOpen | SysSocket => mk_answer (3 + zlen log) 0 zero_ifr
  | SysIoctl _ _ _ => mk_answer 0 0 (mk_ifreq (chars "tap0") 0 1500 FAKE_TAP_ADDR (replicate 6 1))
  | _ => mk_answer 0 0 zero_ifr
  end.

Definition std_fds : gset Z := {[0; 1; 2]}.

Lemma elem_of_fds_after c r fds fd : fd ∈ fds_after c r fds -> fd ∈ fds \/ fd = r.
Proof. destruct c; cbn; try case_if; set_solver. Qed.

Lemma sample_opened log : set_Forall (fun fd => fd < 3 + zlen log) (@opened sample_kernel std_fds log).
Proof.
  induction log as [|c log IH]; intros fd Hfd.
  { change (fd ∈ std_fds) in Hfd. unfold std_fds in Hfd. set_unfold in Hfd. change (zlen (@nil syscall)) with 0. naive_solver lia. }
  pose proof (zlen_nonneg log). rewrite zlen_cons. apply elem_of_fds_after in Hfd as [Hfd| ->].
  - specialize (IH fd Hfd). cbn in IH. lia.
  - destruct c; unfold kernel, sample_kernel; cbn [an_ret]; lia.
Qed.

Lemma tap_dev_init_fds_witness :
  @runs (option tapdev) (@tap_dev_init sample_kernel) (fun o t =>
    match o with
    | None => ts_fds t = std_fds
    | Some d => td_fd d ∉ std_fds /\ ts_fds t = {[td_fd d]} ∪ std_fds /\ persists t = (if 0 =? 0 then [(td_fd d, 1)] else [])
    end) (mk_tapstate 0 0 std_fds []).
Proof.
  apply (@tap_dev_init_fds sample_kernel std_fds).
  - intros log Hin. apply sample_opened in Hin. cbn in Hin. lia.
  - intros log Hin. apply sample_opened in Hin. cbn in Hin. lia.
  - intros log fd. reflexivity.
Defined.

(** ... and it runs to the end. *)
Example sample_tap_dev :
  match @tap_dev_init sample_kernel (mk_tapstate 0 0 std_fds []) with
  | Ret (Some d) _ => td_fd d = 3 /\ td_mtu d = 1500
  | _ => False
  end.
Proof. vm_compute. done. Qed.
