(* ===== verification/NetCommand.v ===== *)
(** * Shell commands that configure the stack: shell/net_command.c, with the device
    set-up of net/physical_eth.c, net/shmeth_netdev.c and net/shm_eth.c

    Arguments are strings; what the system calls of the set-up return is given
    ([peth_calls], [shm_calls]).  Commands that only print (arpcache, ifconfig, stat,
    route without arguments) are left out. *)

From stdpp Require Import prelude list gmap.
From Stdlib Require Import ZArith Lia.
From Stdlib Require String.
From S2P Require Import Prelude Structs Route Pkb FastPipe ArpCache Sock Stack Sample Lib.
Import String.StringSyntax.

(** ** Device set-up *)

(** The results of socket(), ioctl() and bind() on a packet socket: [None] and
    [false] for -1. *)
Record peth_calls := mk_peth_calls {
  pc_socket : bool; pc_index : bool; pc_mtu : option Z; pc_hwaddr : option (list Z); pc_bind : bool
}.

Definition set_net_mtu (v : netdev) x := mk_netdev x (net_ipaddr v) (net_mask v) (net_hwaddr v) (net_name v) (net_ops v) (net_stats v).
Definition set_net_hwaddr (v : netdev) x := mk_netdev (net_mtu v) (net_ipaddr v) (net_mask v) x (net_name v) (net_ops v) (net_stats v).
Definition set_net_addr (v : netdev) ip mask := mk_netdev (net_mtu v) ip mask (net_hwaddr v) (net_name v) (net_ops v) (net_stats v).

(** What the device looks like when the function returns, wherever it does: its
    result is ignored by netdev_alloc. *)
Definition physical_eth_dev_init (c : peth_calls) (ip mask : Z) (d : netdev) : netdev :=
  if negb (pc_socket c) then d
  else if negb (pc_index c) then d
  else
    match pc_mtu c with
    | None => d
    | Some mtu =>
        let d := set_net_mtu d mtu in
        match pc_hwaddr c with
        | None => d
        | Some a =>
            let d := set_net_hwaddr d a in
            if negb (pc_bind c) then d else set_net_addr d ip mask
        end
    end.

(** [htonl(~((1<<(32-maskbits)) - 1))] *)
Definition prefix_mask {S} (maskbits : Z) : comp S Z :=
  let* low := low_bits (32 - maskbits) in ret (_htonl (u32 (Z.lnot low))).

(** The result of str2ip is ignored: with a bad address, ip is what malloc left
    there.  The receiving thread is in rx_frame. *)
Definition physical_eth_init (c : peth_calls) (d : devid) (ipstr : list Z) (maskbits : Z) : comp stack devid :=
  let* o := str2ip ipstr in
  let* mask := prefix_mask maskbits in
  let* ip := of_opt Undefined o in
  netdev_alloc d (chars "peth") peth_ops (physical_eth_dev_init c ip mask).

(** The result of shmget(), and the hardware addresses in the segment, which
    gen_random_mac chose when it was new. *)
Record shm_calls := mk_shm_calls { sc_shmget : option nat; sc_mac_a : list Z; sc_mac_b : list Z }.

Definition SHM_SIZE : Z := 2097152.
Definition CB_CAPACITY : Z := (SHM_SIZE - 16) / 2 - 16.

(** A new segment is zeroed, without the magic number. *)
Definition shmeth_open (c : shm_calls) : comp stack (option nat) :=
  match sc_shmget c with
  | None => ret None
  | Some seg =>
      let* m := gets st_shm in
      match m !! seg with
      | Some _ => ret (Some seg)
      | None =>
          let cb := cb_new CB_CAPACITY (replicate (Z.to_nat CB_CAPACITY) 0) in
          modify (set_shm (<[seg := mk_shm cb cb]> m));;
          ret (Some seg)
      end
  end.

Definition shmeth_get_mac (c : shm_calls) (side : shmeth_side_t) : list Z :=
  match side with SHMETH_SIDE_A => sc_mac_a c | SHMETH_SIDE_B => sc_mac_b c end.

(** Assignments to the fields of the device; a bad address leaves net_ipaddr zero. *)
Definition upd_dev (d : devid) (f : netdev -> netdev) : comp stack unit :=
  let* v := ld_dev d in modify (fun s => set_netdevs (<[d := f v]> (st_netdevs s)) s).

Definition shmeth_dev_create (c : shm_calls) (d : devid) (side ipstr : list Z) (maskbits : Z) : comp stack devid :=
  let s := if bool_decide (side = chars "B") || bool_decide (side = chars "b") then SHMETH_SIDE_B else SHMETH_SIDE_A in
  let* o := shmeth_open c in
  let* seg := of_opt NullDeref o in
  let* dev := netdev_alloc d (chars "shmeth") (shmeth_ops seg s) (fun v => v) in
  upd_dev dev (fun v => set_net_hwaddr (set_net_mtu v 1500) (shmeth_get_mac c s));;
  let* ip := str2ip ipstr in
  upd_dev dev (fun v => set_net_addr v (default (net_ipaddr v) ip) (net_mask v));;
  let* mask := prefix_mask maskbits in
  upd_dev dev (fun v => set_net_addr v (net_ipaddr v) mask);;
  ret dev.

(** ** The commands *)

(** The routes of a new device: its address through the loopback device, its
    network through itself. *)
Definition add_dev_routes (dev : devid) : comp stack unit :=
  let* v := ld_dev dev in
  let* lo := gets st_loop in
  modify (fun s => set_rt_head (rt_add (st_rt_head s) (net_ipaddr v) 0xffffffff 0 0 RT_LOCALHOST lo) s);;
  modify (fun s => set_rt_head (rt_add (st_rt_head s) (LOCALNET v) (net_mask v) 0 0 RT_NONE dev) s).

Definition attach_dev (c : peth_calls) (d : devid) (argv : list (list Z)) : comp stack unit :=
  match argv with
  | [_; devname; ip; netmask] =>
      let* bits := atoi netmask in
      let* peth := physical_eth_init c d ip bits in
      add_dev_routes peth
  | _ => ret tt
  end.

Definition attach_shmeth_dev (c : shm_calls) (d : devid) (argv : list (list Z)) : comp stack unit :=
  match argv with
  | [_; devname; side; ip; netmask] =>
      let* bits := atoi netmask in
      let* dev := shmeth_dev_create c d side ip bits in
      add_dev_routes dev
  | _ => ret tt
  end.

(** The results of the parsers are ignored: what a failed one leaves is not
    initialised, and reading it is undefined. *)
Definition route (argv : list (list Z)) : comp stack unit :=
  match argv with
  | [_; verb; target; gateway] =>
      if bool_decide (verb = chars "add") then
        let* t := parse_ip_mask target in
        let* g := str2ip gateway in
        let* gw := of_opt Undefined g in
        let* head := gets st_rt_head in
        match rt_lookup head gw with
        | None => ret tt
        | Some e =>
            let* '(ip, mask) := of_opt Undefined t in
            modify (set_rt_head (rt_add head ip mask gw 10 RT_NONE (rt_dev e)))
        end
      else ret tt
  | [_; verb; target] =>
      if bool_decide (verb = chars "delete") then
        let* t := parse_ip_mask target in
        let* '(ip, mask) := of_opt Undefined t in
        modify (fun s => set_rt_head (rt_delete (st_rt_head s) ip mask) s)
      else ret tt
  | _ => ret tt
  end.

(** *** debug *)

Definition NET_DEBUG_DEV : Z := 0x1.
Definition NET_DEBUG_L2 : Z := 0x2.
Definition NET_DEBUG_ARP : Z := 0x4.
Definition NET_DEBUG_IP : Z := 0x8.
Definition NET_DEBUG_ICMP : Z := 0x10.
Definition NET_DEBUG_UDP : Z := 0x20.
Definition NET_DEBUG_TCP : Z := 0x40.
Definition NET_DEBUG_TCPSTATE : Z := 0x80.
Definition NET_DEBUG_ALL : Z := 0xffffffff.

Record debug_opts := mk_debug { noblock : bool; clear : bool; debug : Z }.

(** One argument; [None] when it is not known. *)
Definition debug_arg (o : debug_opts) (arg : list Z) : option debug_opts :=
  let flag x := Some (mk_debug (noblock o) (clear o) (Z.lor (debug o) x)) in
  if bool_decide (arg = chars "-n") then Some (mk_debug true (clear o) (debug o))
  else if bool_decide (arg = chars "-c") then Some (mk_debug (noblock o) true (debug o))
  else if bool_decide (arg = chars "dev") then flag NET_DEBUG_DEV
  else if bool_decide (arg = chars "l2") then flag NET_DEBUG_L2
  else if bool_decide (arg = chars "arp") then flag NET_DEBUG_ARP
  else if bool_decide (arg = chars "ip") then flag NET_DEBUG_IP
  else if bool_decide (arg = chars "icmp") then flag NET_DEBUG_ICMP
  else if bool_decide (arg = chars "udp") then flag NET_DEBUG_UDP
  else if bool_decide (arg = chars "tcp") then flag NET_DEBUG_TCP
  else if bool_decide (arg = chars "tcpstate") then flag NET_DEBUG_TCPSTATE
  else if bool_decide (arg = chars "all") then flag NET_DEBUG_ALL
  else None.

(** The loop goes from the last argument to the second, and looks at the name of the
    command itself when there is no other. *)
Fixpoint debug_args (o : debug_opts) (rev_args : list (list Z)) : option debug_opts :=
  match rev_args with
  | [] => Some o
  | a :: r => match debug_arg o a with None => None | Some o => debug_args o r end
  end.

(** What the command does to net_debug: nothing but print its usage, change it, or set
    it until a signal arrives and clear it then. *)
Inductive debug_effect := DebugUsage | DebugSet (net_debug : Z) | DebugUntilSignal (net_debug : Z).

Definition netdebug (net_debug : Z) (argv : list (list Z)) : debug_effect :=
  let args := match argv with [_] => argv | _ => tail argv end in
  match debug_args (mk_debug false false 0) (rev args) with
  | None => DebugUsage
  | Some o =>
      if clear o then
        if debug o =? 0 then DebugSet 0 else DebugSet (Z.land net_debug (Z.lnot (debug o)))
      else
        let net_debug := Z.lor net_debug (debug o) in
        if noblock o then DebugSet net_debug else DebugUntilSignal net_debug
  end.

(** ** Lemmas *)

(** The mask of [m] bits in network order. *)
Definition net_mask_of (m : Z) : Z := _htonl (4294967296 - 2 ^ (32 - m)).

Lemma prefix_mask_run {S} (s : S) m : 2 <= m <= 32 -> prefix_mask m s = Ret (net_mask_of m) s.
Proof.
  intros Hm. unfold prefix_mask, low_bits. replace ((0 <=? 32 - m) && (32 - m <? 31)) with true by lia.
  erewrite bind_ok by reflexivity. by rewrite mask_bits by lia.
Qed.

Lemma net_mask_range m : 2 <= m <= 31 -> 0 <= net_mask_of m < 0xffffffff.
Proof.
  intros Hm. unfold net_mask_of. assert (Hp : 2 ^ (32 - m) = 2 * 2 ^ (31 - m)) by (rewrite <- Z.pow_succ_r by lia; f_equal; lia).
  assert (0 < 2 ^ (31 - m)) by (apply Z.pow_pos_nonneg; lia).
  assert (2 ^ (31 - m) <= 2 ^ 29) by (apply Z.pow_le_mono_r; lia). change (2 ^ 29) with 536870912 in *.
  rewrite htonl_arith by (unfold is_u32; lia). set (x := 2 ^ (31 - m)) in *. rewrite Hp. zmod.
Qed.

Lemma rt_lookup_insert t r x : rt_lookup t x = None -> rt_match x r = true -> rt_lookup (rt_insert t r) x = Some r.
Proof.
  intros Hn Hm. induction t as [|e t IH]; cbn in *; [by rewrite Hm|]. destruct (rt_match x e) eqn:E; [done|].
  destruct (rt_netmask e <=? rt_netmask r); cbn; [by rewrite Hm|]. rewrite E. by apply IH.
Qed.

Lemma rt_insert_first t r : Forall (fun e => rt_netmask e <= rt_netmask r) t -> rt_insert t r = r :: t.
Proof. destruct 1 as [|e t He _]; [done|]. cbn. by rewrite (proj2 (Z.leb_le _ _)). Qed.

Lemma local_address_dev s d v addr :
  (forall x, x ∈ st_loop s :: st_net_devices s -> is_Some (st_netdevs s !! x)) ->
  d ∈ st_net_devices s -> st_netdevs s !! d = Some v -> net_ipaddr v = addr -> local_address addr s = Ret true s.
Proof.
  intros Hall Hd Hv Ea. unfold local_address. destruct (addr =? 0); [done|]. erewrite bind_ok by reflexivity.
  destruct (Hall (st_loop s) ltac:(set_solver)) as [vl Hl]. erewrite bind_ok by (unfold ld_dev; rewrite Hl; reflexivity).
  destruct (LOCALNET vl =? Z.land (net_mask vl) addr); [done|]. erewrite bind_ok by reflexivity.
  assert (Hsub : forall x, x ∈ st_net_devices s -> is_Some (st_netdevs s !! x)) by (intros; apply Hall; set_solver).
  clear Hall. induction (st_net_devices s) as [|x l IH]; [set_solver|].
  destruct (Hsub x ltac:(set_solver)) as [vx Hx]. erewrite bind_ok by (unfold ld_dev; rewrite Hx; reflexivity).
  destruct (Z.eqb_spec (net_ipaddr vx) addr); [done|]. apply IH; [|set_solver].
  apply elem_of_cons in Hd as [->|Hd]; [|done]. rewrite Hv in Hx. by injection Hx as ->.
Qed.

(** ** Properties *)

(** C37: the route command, as it is typed: route add NET/BITS GW enters the route
    to the network through the gateway, on the device through which the gateway is
    reached, and nothing when it is not; route delete NET/BITS after it gives the
    table back as it was.  With 0 or 1 bits both are undefined behaviour. *)
Theorem route_commands (s : stack) (net gw m : Z) : is_u32 net -> is_u32 gw -> 0 <= m <= 32 ->
  let target := ip_text net ++ [47] ++ dec m in
  let add := [chars "route"; chars "add"; target; ip_text gw] in
  let del := [chars "route"; chars "delete"; target] in
  if m <? 2 then route add s = Fault Undefined /\ route del s = Fault Undefined
  else
    match rt_lookup (st_rt_head s) gw with
    | None => route add s = Ret tt s
    | Some e =>
        let s' := set_rt_head (rt_add (st_rt_head s) net (net_mask_of m) gw 10 RT_NONE (rt_dev e)) s in
        route add s = Ret tt s' /\ route del s' = Ret tt s
    end.
Proof.
  intros Hn Hg Hm target add del.
  assert (Ht : forall s : stack, parse_ip_mask target s = if m <? 2 then Fault Undefined else Ret (Some (net, net_mask_of m)) s).
  { intros s0. by apply parse_ip_mask_text. }
  unfold route, add, del. rewrite !bool_decide_true by done. destruct (m <? 2).
  { split; unfold bind at 1; by rewrite Ht. }
  assert (Hgw : str2ip (ip_text gw) s = Ret (Some gw) s).
  { rewrite <- (app_nil_r (ip_text gw)). by apply str2ip_text. }
  assert (Ha :
    (let* t := parse_ip_mask target in let* g := str2ip (ip_text gw) in let* gw := of_opt Undefined g in
     let* head := gets st_rt_head in
     match rt_lookup head gw with None => ret tt | Some e => let* '(ip, mask) := of_opt Undefined t in
       modify (set_rt_head (rt_add head ip mask gw 10 RT_NONE (rt_dev e))) end) s =
    match rt_lookup (st_rt_head s) gw with None => Ret tt s
    | Some e => Ret tt (set_rt_head (rt_add (st_rt_head s) net (net_mask_of m) gw 10 RT_NONE (rt_dev e)) s) end).
  { erewrite bind_ok by apply Ht. erewrite bind_ok by exact Hgw. erewrite bind_ok by reflexivity.
    erewrite bind_ok by reflexivity. by destruct (rt_lookup (st_rt_head s) gw). }
  destruct (rt_lookup (st_rt_head s) gw) as [e|]; [|exact Ha].
  split; [exact Ha|]. erewrite bind_ok by apply Ht. erewrite bind_ok by reflexivity. unfold modify.
  cbn [st_rt_head set_rt_head]. rewrite delete_added. by destruct s.
Qed.

Lemma route_commands_witness :
  let s' := set_rt_head (rt_add (st_rt_head sample_stack) 0x0000010a (net_mask_of 16) peer_ip 10 RT_NONE 1%nat) sample_stack in
  route [chars "route"; chars "add"; chars "10.1.0.0/16"; chars "10.0.0.2"] sample_stack = Ret tt s' /\
  route [chars "route"; chars "delete"; chars "10.1.0.0/16"] s' = Ret tt sample_stack.
Proof. exact (route_commands sample_stack 0x0000010a peer_ip 16 ltac:(by vm_compute) ltac:(by vm_compute) ltac:(lia)). Defined.

(** Attach_dev with an address and a mask length between 2 and 31 sets up the
    device and its routes: the address is local from then on and routed to the
    loopback device, and the other addresses of the network, as far as they had no
    route, are routed to the device. *)
Lemma attach_dev_routes (s : stack) (d : devid) (devname : list Z) (ip m mtu : Z) (hw : list Z) :
  is_u32 ip -> 2 <= m <= 31 -> Forall (fun e => rt_netmask e <= 0xffffffff) (st_rt_head s) ->
  (forall x, x ∈ st_loop s :: st_net_devices s -> is_Some (st_netdevs s !! x)) ->
  exists s', attach_dev (mk_peth_calls true true (Some mtu) (Some hw) true) d
      [chars "attach_dev"; devname; ip_text ip; dec m] s = Ret tt s' /\
    st_netdevs s' !! d = Some (mk_netdev mtu ip (net_mask_of m) hw (dev_name (chars "peth")) peth_ops zero_stats) /\
    local_address ip s' = Ret true s' /\
    rt_lookup (st_rt_head s') ip = Some (rt_alloc ip 0xffffffff 0 0 RT_LOCALHOST (st_loop s)) /\
    forall x, is_u32 x -> x <> ip -> Z.land x (net_mask_of m) = Z.land ip (net_mask_of m) ->
      rt_lookup (st_rt_head s) x = None ->
      rt_lookup (st_rt_head s') x = Some (rt_alloc (Z.land ip (net_mask_of m)) (net_mask_of m) 0 0 RT_NONE d).
Proof.
  intros Hip Hm Hmasks Hdevs. pose proof (net_mask_range m Hm) as Hmr.
  set (v := mk_netdev mtu ip (net_mask_of m) hw (dev_name (chars "peth")) peth_ops zero_stats).
  set (lo := rt_alloc ip 0xffffffff 0 0 RT_LOCALHOST (st_loop s)).
  set (nw := rt_alloc (Z.land ip (net_mask_of m)) (net_mask_of m) 0 0 RT_NONE d).
  set (s1 := set_net_devices (st_net_devices s ++ [d]) (set_netdevs (<[d := v]> (st_netdevs s)) s)).
  assert (Et : rt_insert (rt_insert (st_rt_head s) lo) nw = lo :: rt_insert (st_rt_head s) nw).
  { rewrite (rt_insert_first _ lo) by exact Hmasks. cbn [rt_insert]. by rewrite (proj2 (Z.leb_gt _ _)) by (cbn; lia). }
  exists (set_rt_head (lo :: rt_insert (st_rt_head s) nw) s1). split_and!.
  - unfold attach_dev. erewrite bind_ok by (apply atoi_dec; lia). unfold physical_eth_init. rewrite bind_assoc.
    erewrite bind_ok by (rewrite <- (app_nil_r (ip_text ip)); by apply str2ip_text). rewrite bind_assoc.
    erewrite bind_ok by (apply prefix_mask_run; lia). erewrite bind_ok by reflexivity.
    unfold add_dev_routes, ld_dev. unfold bind at 1. cbn [st_netdevs set_net_devices set_netdevs].
    rewrite lookup_insert_eq. rewrite <- Et. reflexivity.
  - apply lookup_insert_eq.
  - apply (local_address_dev _ d v); [|cbn; set_solver|apply lookup_insert_eq|done].
    cbn [st_loop st_net_devices st_netdevs set_rt_head s1 set_net_devices set_netdevs]. intros x Hx.
    destruct (decide (x = d)) as [->|Hne]; [rewrite lookup_insert_eq; by eexists|]. rewrite lookup_insert_ne by done.
    apply Hdevs. set_solver.
  - cbn [st_rt_head set_rt_head rt_lookup]. unfold rt_match at 1. cbn [rt_netmask rt_net lo rt_alloc]. by rewrite Z.eqb_refl.
  - intros x Hx Hne Hnet Hnone. cbn [st_rt_head set_rt_head rt_lookup].
    assert (Hlo : rt_match x lo = false).
    { unfold rt_match. cbn [rt_netmask rt_net lo rt_alloc]. change 0xffffffff with (Z.ones 32).
      rewrite !(Z.land_comm (Z.ones 32)), !Z.land_ones by lia. unfold is_u32 in *. change (2 ^ 32) with 4294967296.
      rewrite !Z.mod_small by lia. by apply Z.eqb_neq. }
    rewrite Hlo. apply rt_lookup_insert; [done|]. unfold rt_match. cbn [rt_netmask rt_net nw rt_alloc]. apply Z.eqb_eq.
    rewrite (Z.land_comm _ x), Hnet, (Z.land_comm (net_mask_of m)), <- Z.land_assoc, Z.land_diag. done.
Qed.

Lemma attach_dev_routes_witness : exists s',
  attach_dev (mk_peth_calls true true (Some 1500) (Some peer_hw) true) 2%nat
    [chars "attach_dev"; chars "eth0"; chars "192.168.1.5"; chars "24"] sample_stack = Ret tt s' /\
  st_netdevs s' !! 2%nat = Some (mk_netdev 1500 0x0501a8c0 0x00ffffff peer_hw (dev_name (chars "peth")) peth_ops zero_stats) /\
  local_address 0x0501a8c0 s' = Ret true s' /\
  rt_lookup (st_rt_head s') 0x0501a8c0 = Some (rt_alloc 0x0501a8c0 0xffffffff 0 0 RT_LOCALHOST 0%nat) /\
  forall x, is_u32 x -> x <> 0x0501a8c0 -> Z.land x 0x00ffffff = 0x0001a8c0 ->
    rt_lookup (st_rt_head sample_stack) x = None ->
    rt_lookup (st_rt_head s') x = Some (rt_alloc 0x0001a8c0 0x00ffffff 0 0 RT_NONE 2%nat).
Proof.
  apply (attach_dev_routes sample_stack 2%nat (chars "eth0") 0x0501a8c0 24 1500 peer_hw).
  - by vm_compute.
  - lia.
  - repeat (constructor; [by vm_compute|]). constructor.
  - intros x Hx. assert (E : x = 0%nat \/ x = 1%nat).
    { revert Hx. change (st_loop sample_stack :: st_net_devices sample_stack) with [0%nat; 1%nat; 0%nat]. set_solver. }
    destruct E as [->| ->]; by vm_compute; eexists.
Defined.
