(* ===== verification/DpdkInit.v ===== *)
(** * The DPDK device: the set-up of net/dpdk/dpdk_netdev.c, and attach_dpdk

    The calls to the library that configure the device are kept in order; their answers
    are a parameter ([RteEnv]).  rte_exit ends the process ([Exit]). *)

From stdpp Require Import prelude list gmap.
From Stdlib Require Import ZArith Lia.
From Stdlib Require String.
From S2P Require Import Prelude Structs Checksum Route Pkb FastPipe ArpCache Sock TcpTable Stack Lib NetCommand Sample Dpdk.
Import String.StringSyntax.

(** ** The calls *)

Inductive lcore_function := RunTxLoop | RunRxThread.

Inductive rte_call :=
  | RteEalInit (argv : list (list Z))
  | RteLcoreCount
  | RteEthDevCountAvail
  | RteLcoreId
  | RteEthFindNext (port : Z)
  | RteSocketId
  | RteEthDevSocketId (port : Z)
  | RtePktmbufPoolCreate (n cache room socket : Z)
  | RteRingCreate (n socket : Z)
  | RteEthDevInfoGet (port : Z)
  | RteEthDevConfigure (port nrx ntx tx_offloads rx_offloads : Z)
  | RteEthDevAdjust (port nb_rxd nb_txd : Z)
  | RteEthMacaddrGet (port : Z)
  | RteEthPromiscuousEnable (port : Z)
  | RteEthRxQueueSetup (port queue nb_rxd socket offloads : Z)
  | RteEthTxQueueSetup (port queue nb_txd socket offloads : Z)
  | RteZmallocSocket (packets socket : Z)
  | RteEthTxBufferInit (packets : Z)
  | RteEthTxBufferSetErrCallback
  | RteEthDevStart (port : Z)
  | RteGetNextLcore (i skip_master wrap : Z)
  | RteEalRemoteLaunch (f : lcore_function) (lcore : Z)
  | RteEalWaitLcore (lcore : Z)
  | RteEthDevStop (port : Z)
  | RteEthDevClose (port : Z).

(** The result, where 0 stands for NULL, and the numbers stored through pointers: the
    capabilities and the default receive offloads, the numbers of descriptors, or the bytes of
    the hardware address. *)
Record rte_answer := mk_rte_answer { rt_ret : Z; rt_out : list Z }.

Class RteEnv := {
  env : rte_call -> rte_answer;
  DEV_TX_OFFLOAD_MBUF_FAST_FREE : Z;
  RTE_MBUF_DEFAULT_BUF_SIZE : Z
}.

Record setup := mk_setup { su_calls : list rte_call; su_stack : stack; su_rw : ethernet_rw_t }.

(** ** Hardware addresses as text *)

Definition hexval (c : Z) : option Z :=
  if (48 <=? c) && (c <=? 57) then Some (c - 48)
  else if (65 <=? c) && (c <=? 70) then Some (c - 55)
  else if (97 <=? c) && (c <=? 102) then Some (c - 87)
  else None.

(** The conversion %02X of sscanf: white space, then at most two characters, of which the
    first may be a sign; the prefix 0x leaves no room for a digit. *)
Definition scan_hex2 (s : list Z) : option (Z * list Z) :=
  match skip_space s with
  | [] => None
  | c :: r =>
      if (c =? 43) || (c =? 45) then
        match r with
        | d :: r' => v ← hexval d; Some (if c =? 45 then u32 (- v) else v, r')
        | [] => None
        end
      else
        v ← hexval c;
        match r with
        | d :: r' =>
            if (c =? 48) && ((d =? 120) || (d =? 88)) then None
            else match hexval d with Some w => Some (16 * v + w, r') | None => Some (v, r) end
        | [] => Some (v, r)
        end
  end.

(** [n] conversions with colons between them. *)
Fixpoint scan_mac (n : nat) (s : list Z) : option (list Z) :=
  match n with
  | O => Some []
  | S n' =>
      '(v, r) ← scan_hex2 s;
      match n', r with
      | O, _ => Some [v]
      | _, c :: r' => if c =? 58 then cons v <$> scan_mac n' r' else None
      | _, [] => None
      end
  end.

(** [None] is false; then nothing is stored. *)
Definition string_to_mac (s : list Z) : option (list Z) := option_map (map u8) (scan_mac 6 s).

Section Init.
Context `{RteEnv}.

Definition answer (c : rte_call) : Z := rt_ret (env c).
Definition out (c : rte_call) (i : nat) : Z := nth i (rt_out (env c)) 0.

Definition call (c : rte_call) : comp setup Z := fun s =>
  Ret (answer c) (mk_setup (su_calls s ++ [c]) (su_stack s) (su_rw s)).

(** A call, and rte_exit when its result is not as it should be. *)
Definition call_or_exit (c : rte_call) (good : Z -> bool) : comp setup unit :=
  let* r := call c in guard Exit (good r).

Definition set_rw (f : ethernet_rw_t -> ethernet_rw_t) : comp setup unit :=
  modify (fun s => mk_setup (su_calls s) (su_stack s) (f (su_rw s))).

Definition with_stack {A} (m : comp stack A) : comp setup A := fun s =>
  match m (su_stack s) with
  | Ret a v => Ret a (mk_setup (su_calls s) v (su_rw s))
  | Fault f => Fault f
  | NoFuel => NoFuel
  end.

Definition no_error (r : Z) : bool := negb (r <? 0).
Definition not_null (r : Z) : bool := negb (r =? 0).

(** ** The code *)

Definition NB_MBUFS : Z := 8192.
Definition MEMPOOL_CACHE_SIZE : Z := 256.
Definition TX_BURST : Z := 32.

(** [|=] with a capability the device has changes nothing. *)
Definition tx_offloads (port : Z) : Z :=
  let capa := out (RteEthDevInfoGet port) 0 in
  if negb (Z.land capa DEV_TX_OFFLOAD_MBUF_FAST_FREE =? 0) then Z.lor capa DEV_TX_OFFLOAD_MBUF_FAST_FREE else capa.

Definition mac_of (port : Z) : list Z := (fun i => u8 (out (RteEthMacaddrGet port) i)) <$> seq 0 6.

(** The result of rte_ring_create is not checked. *)
Definition ethernet_rw_init : comp setup unit :=
  let* w := gets su_rw in
  let port := worker_port_id w in
  let socket := worker_socket_id w in
  call_or_exit (RtePktmbufPoolCreate NB_MBUFS MEMPOOL_CACHE_SIZE RTE_MBUF_DEFAULT_BUF_SIZE socket) not_null;;
  let* ring := call (RteRingCreate 512 socket) in
  set_rw (fun w => set_er_ring w (not_null ring));;
  call (RteEthDevInfoGet port);;
  let txo := tx_offloads port in
  call_or_exit (RteEthDevConfigure port 1 1 txo (out (RteEthDevInfoGet port) 1)) no_error;;
  let adjust := RteEthDevAdjust port 1024 1024 in
  call_or_exit adjust no_error;;
  let nb_rxd := u16 (out adjust 0) in
  let nb_txd := u16 (out adjust 1) in
  call (RteEthMacaddrGet port);;
  set_rw (fun w => set_er_mac w (mac_of port));;
  call (RteEthPromiscuousEnable port);;
  call_or_exit (RteEthRxQueueSetup port 0 nb_rxd socket 0) no_error;;
  set_rw (fun w => set_er_rx w (mk_ethernet_rx 0 (rx_count_bytes (er_rx w))));;
  call_or_exit (RteEthTxQueueSetup port 0 nb_txd socket txo) no_error;;
  call_or_exit (RteZmallocSocket TX_BURST socket) not_null;;
  call (RteEthTxBufferInit TX_BURST);;
  call_or_exit RteEthTxBufferSetErrCallback no_error;;
  call_or_exit (RteEthDevStart port) no_error.

(** The result of str2ip is not used. *)
Definition dpdk_dev_create (d : devid) (coremask ipstr : list Z) (maskbits : Z) : comp setup devid :=
  set_rw (fun _ => zero_rw);;
  call_or_exit (RteEalInit [chars "dpdk"; chars "-c"; coremask]) no_error;;
  call_or_exit RteLcoreCount (fun r => r =? 3);;
  call_or_exit RteEthDevCountAvail (fun r => u16 r =? 1);;
  let* lcore := call RteLcoreId in
  let* port := call (RteEthFindNext 0) in
  let* lcore_socket := call RteSocketId in
  call_or_exit (RteEthDevSocketId port) (fun r => (r =? -1) || (lcore_socket =? r));;
  set_rw (fun w => set_worker w lcore port lcore_socket);;
  ethernet_rw_init;;
  let* w := gets su_rw in
  let* dev := with_stack (netdev_alloc d (chars "dpdk") dpdk_ops (fun v => v)) in
  with_stack (upd_dev dev (fun v => set_net_hwaddr (set_net_mtu v 1500) (er_mac w)));;
  let* ip := with_stack (str2ip ipstr) in
  with_stack (upd_dev dev (fun v => set_net_addr v (default (net_ipaddr v) ip) (net_mask v)));;
  let* mask := prefix_mask maskbits in
  with_stack (upd_dev dev (fun v => set_net_addr v (net_ipaddr v) mask));;
  let* lcore_id := call (RteGetNextLcore (-1) 1 0) in
  call (RteEalRemoteLaunch RunTxLoop lcore_id);;
  let* lcore_id := call (RteGetNextLcore lcore_id 1 0) in
  call (RteEalRemoteLaunch RunRxThread lcore_id);;
  ret dev.

Definition attach_dpdk (d : devid) (argv : list (list Z)) : comp setup unit :=
  match argv with
  | [_; coremask; ip; netmask] =>
      let* bits := atoi netmask in
      let* dev := dpdk_dev_create d coremask ip bits in
      with_stack (add_dev_routes dev)
  | _ => ret tt
  end.

(** RTE_LCORE_FOREACH_SLAVE goes through [slaves]. *)
Fixpoint wait_lcores (slaves : list Z) : comp setup unit :=
  match slaves with
  | [] => ret tt
  | lcore :: r =>
      let* e := call (RteEalWaitLcore lcore) in
      if e <? 0 then ret tt else wait_lcores r
  end.

Definition dpdk_dev_exit (slaves : list Z) : comp setup unit :=
  set_rw (fun w => set_er_exit w true);;
  wait_lcores slaves;;
  let* w := gets su_rw in
  call (RteEthDevStop (worker_port_id w));;
  call (RteEthDevClose (worker_port_id w));;
  ret tt.

(** ** The specification *)

(** The calls in order, each with the results with which the set-up goes on: the cores
    and ports, then the port. *)
Definition any_result (r : Z) : bool := true.

Definition probe_script (coremask : list Z) : list (rte_call * (Z -> bool)) :=
  [(RteEalInit [chars "dpdk"; chars "-c"; coremask], no_error);
   (RteLcoreCount, fun r => r =? 3);
   (RteEthDevCountAvail, fun r => u16 r =? 1);
   (RteLcoreId, any_result); (RteEthFindNext 0, any_result); (RteSocketId, any_result);
   (RteEthDevSocketId (answer (RteEthFindNext 0)), fun r => (r =? -1) || (answer RteSocketId =? r))].

Definition port_script (port socket : Z) : list (rte_call * (Z -> bool)) :=
  let adjust := RteEthDevAdjust port 1024 1024 in
  [(RtePktmbufPoolCreate NB_MBUFS MEMPOOL_CACHE_SIZE RTE_MBUF_DEFAULT_BUF_SIZE socket, not_null);
   (RteRingCreate 512 socket, any_result);
   (RteEthDevInfoGet port, any_result);
   (RteEthDevConfigure port 1 1 (tx_offloads port) (out (RteEthDevInfoGet port) 1), no_error);
   (adjust, no_error);
   (RteEthMacaddrGet port, any_result); (RteEthPromiscuousEnable port, any_result);
   (RteEthRxQueueSetup port 0 (u16 (out adjust 0)) socket 0, no_error);
   (RteEthTxQueueSetup port 0 (u16 (out adjust 1)) socket (tx_offloads port), no_error);
   (RteZmallocSocket TX_BURST socket, not_null);
   (RteEthTxBufferInit TX_BURST, any_result);
   (RteEthTxBufferSetErrCallback, no_error);
   (RteEthDevStart port, no_error)].

Definition script (coremask : list Z) : list (rte_call * (Z -> bool)) :=
  probe_script coremask ++ port_script (answer (RteEthFindNext 0)) (answer RteSocketId).

Definition all_good (l : list (rte_call * (Z -> bool))) : bool := forallb (fun '(c, good) => good (answer c)) l.

(** The threads, which are started last. *)
Definition launches : list rte_call :=
  let tx := answer (RteGetNextLcore (-1) 1 0) in
  let rx := answer (RteGetNextLcore tx 1 0) in
  [RteGetNextLcore (-1) 1 0; RteEalRemoteLaunch RunTxLoop tx; RteGetNextLcore tx 1 0; RteEalRemoteLaunch RunRxThread rx].

Definition dpdk_netdev (ip m : Z) : netdev :=
  mk_netdev 1500 ip (net_mask_of m) (mac_of (answer (RteEthFindNext 0))) (dev_name (chars "dpdk")) dpdk_ops zero_stats.

Definition started_rw : ethernet_rw_t :=
  mk_rw (mk_ethernet_rx 0 0) (mk_ethernet_tx 0 0 0) (not_null (answer (RteRingCreate 512 (answer RteSocketId))))
    (mk_dpdk_stat 0 0 0 0) OPERATION_RX false (answer RteLcoreId) (answer (RteEthFindNext 0)) (answer RteSocketId)
    (mac_of (answer (RteEthFindNext 0))).

(** ** Steps *)

Lemma exit_step {A} c good (k : unit -> comp setup A) cs st w :
  bind (call_or_exit c good) k (mk_setup cs st w) = if good (answer c) then k tt (mk_setup (cs ++ [c]) st w) else Fault Exit.
Proof. unfold call_or_exit, call, guard, bind. by destruct (good (answer c)). Qed.

Lemma exit_last c good cs st w :
  call_or_exit c good (mk_setup cs st w) = if good (answer c) then Ret tt (mk_setup (cs ++ [c]) st w) else Fault Exit.
Proof. unfold call_or_exit, call, guard, bind. by destruct (good (answer c)). Qed.

Lemma call_step {A} c (k : Z -> comp setup A) cs st w : bind (call c) k (mk_setup cs st w) = k (answer c) (mk_setup (cs ++ [c]) st w).
Proof. done. Qed.

Lemma set_rw_step {A} f (k : unit -> comp setup A) cs st w : bind (set_rw f) k (mk_setup cs st w) = k tt (mk_setup cs st (f w)).
Proof. done. Qed.

Lemma with_stack_step {A B} (m : comp stack A) (k : A -> comp setup B) cs st w a v : m st = Ret a v ->
  bind (with_stack m) k (mk_setup cs st w) = k a (mk_setup cs v w).
Proof. unfold with_stack, bind. cbn [su_stack]. by intros ->. Qed.

Lemma upd_dev_run (st : stack) d v f : st_netdevs st !! d = Some v ->
  upd_dev d f st = Ret tt (set_netdevs (<[d := f v]> (st_netdevs st)) st).
Proof. intros Hv. unfold upd_dev. by erewrite bind_ok by (unfold ld_dev; by rewrite Hv). Qed.

(** One call of the script. *)
Ltac setup_step :=
  first [rewrite bind_assoc | rewrite exit_step | rewrite call_step | rewrite set_rw_step | rewrite bind_gets].

Ltac setup_check :=
  match goal with |- (if ?b then _ else _) = _ => destruct b; [cbn [andb any_result]|reflexivity] end.

Lemma rw_init_run cs st w port socket : worker_port_id w = port -> worker_socket_id w = socket ->
  ethernet_rw_init (mk_setup cs st w) =
  if all_good (port_script port socket)
  then Ret tt (mk_setup (cs ++ (port_script port socket).*1) st
                 (set_er_rx (set_er_mac (set_er_ring w (not_null (answer (RteRingCreate 512 socket)))) (mac_of port))
                    (mk_ethernet_rx 0 (rx_count_bytes (er_rx w)))))
  else Fault Exit.
Proof.
  intros Hp Hs. unfold ethernet_rw_init, all_good, port_script. cbn [forallb]. rewrite bind_gets. cbn [su_rw]. rewrite Hp, Hs.
  repeat (setup_step || setup_check). rewrite exit_last. setup_check. rewrite <- !app_assoc. reflexivity.
Qed.

End Init.

(** ** Hardware addresses *)

Definition hexchar (n : Z) : Z := if n <? 10 then 48 + n else 55 + n.
Definition hex2 (b : Z) : list Z := [hexchar (b / 16); hexchar (b mod 16)].

Fixpoint mac_text (a : list Z) : list Z :=
  match a with
  | [] => []
  | [b] => hex2 b
  | b :: a' => hex2 b ++ [58] ++ mac_text a'
  end.

Lemma hexval_char n : 0 <= n < 16 -> hexval (hexchar n) = Some n.
Proof.
  intros Hn. unfold hexchar, hexval. destruct (Z.ltb_spec n 10).
  - replace ((48 <=? 48 + n) && (48 + n <=? 57)) with true by lia. f_equal. lia.
  - replace ((48 <=? 55 + n) && (55 + n <=? 57)) with false by lia.
    replace ((65 <=? 55 + n) && (55 + n <=? 70)) with true by lia. f_equal. lia.
Qed.

Lemma hexchar_plain n : 0 <= n < 16 -> isspace (hexchar n) = false /\ hexchar n <> 43 /\ hexchar n <> 45 /\ hexchar n <> 120 /\ hexchar n <> 88.
Proof. intros Hn. unfold hexchar, isspace. destruct (Z.ltb_spec n 10); split_and!; lia. Qed.

Lemma scan_hex2_text b r : is_u8 b -> scan_hex2 (hex2 b ++ r) = Some (b, r).
Proof.
  intros Hb. unfold is_u8 in Hb. assert (H1 : 0 <= b / 16 < 16) by (split; [apply Z.div_pos|apply Z.div_lt_upper_bound]; lia).
  assert (H2 : 0 <= b mod 16 < 16) by (apply Z.mod_pos_bound; lia).
  destruct (hexchar_plain _ H1) as (S1 & P1 & M1 & _). destruct (hexchar_plain _ H2) as (_ & _ & _ & X1 & X2).
  unfold scan_hex2, hex2. cbn [app skip_space]. rewrite S1.
  rewrite (proj2 (Z.eqb_neq _ _) P1), (proj2 (Z.eqb_neq _ _) M1). cbn [orb]. rewrite (hexval_char _ H1). cbn [mbind option_bind].
  rewrite (proj2 (Z.eqb_neq _ _) X1), (proj2 (Z.eqb_neq _ _) X2), andb_false_r, (hexval_char _ H2). do 2 f_equal.
  pose proof (Z.div_mod b 16). lia.
Qed.

(** An address that is printed with MAC_FMT is read back. *)
Lemma string_to_mac_text a : length a = 6%nat -> Forall is_u8 a -> string_to_mac (mac_text a) = Some a.
Proof.
  intros Hl Ha. do 6 (destruct a as [|? a]; [done|]). destruct a; [|done]. rewrite !Forall_cons in Ha. destruct_and! Ha.
  unfold string_to_mac. cbn [scan_mac mac_text].
  do 5 (rewrite scan_hex2_text by done; cbn [mbind option_bind app]; rewrite Z.eqb_refl).
  rewrite <- (app_nil_r (hex2 z4)), scan_hex2_text by done. cbn. unfold u8. unfold is_u8 in *. by rewrite !Z.mod_small by lia.
Qed.

(** ** The set-up of the sample host *)

(** A port with hardware address 02:00:00:00:00:01, where [ring] is the result of
    rte_ring_create and [cores] the number of cores. *)
Definition sample_rte (ring cores : Z) : RteEnv := {|
  env c :=
    match c with
    | RteLcoreCount => mk_rte_answer cores []
    | RteEthDevCountAvail => mk_rte_answer 1 []
    | RtePktmbufPoolCreate _ _ _ _ => mk_rte_answer 4096 []
    | RteRingCreate _ _ => mk_rte_answer ring []
    | RteZmallocSocket _ _ => mk_rte_answer 8192 []
    | RteEthDevInfoGet _ => mk_rte_answer 0 [0x10000; 0]
    | RteEthDevAdjust _ _ _ => mk_rte_answer 0 [1024; 1024]
    | RteEthMacaddrGet _ => mk_rte_answer 0 sample_hw
    | RteGetNextLcore i _ _ => mk_rte_answer (if i =? -1 then 1 else 2) []
    | _ => mk_rte_answer 0 []
    end;
  DEV_TX_OFFLOAD_MBUF_FAST_FREE := 0x10000;
  RTE_MBUF_DEFAULT_BUF_SIZE := 2176
|}.

Definition dpdk_setup : setup := mk_setup [] sample_stack zero_rw.


(** When the ring cannot be created the device is attached all the same, and the first
    frame stops the process. *)
Lemma dpdk_ring_unchecked :
  match @dpdk_dev_create (sample_rte 0 3) 2%nat (chars "7") (chars "10.0.1.1") 24 dpdk_setup with
  | Ret d s => @dpdk_dev_xmit sim_rte d 0%nat (mk_dpdk (dk_stack dpdk_start) (dk_lib dpdk_start) (su_rw s)) = Fault NullDeref
  | _ => False
  end.
Proof. by vm_compute. Qed.
