(* ===== verification/Shell.v ===== *)
(** * The command line of the shell: shell/shell.c

    get_line fills the line buffer from what readline returned; parse_line cuts it
    into arguments in place, as strtok does: blanks become NUL bytes and argv points
    into the line; parse_args looks the command up.  The worker thread and the
    commands themselves are not modelled. *)

From stdpp Require Import prelude list gmap.
From Stdlib Require Import ZArith Lia Ascii.
From Stdlib Require String.
From S2P Require Import Prelude Structs Lib.
Import String.StringSyntax.

(** ** The data *)

(** linebuf and argv of shell_master; a pointer into the line is its offset. *)
Record shell := mk_shell { line : list Z; argv : list Z }.

Definition LINE_SZ : nat := 256.
Definition ARGV_SZ : nat := 16.

(** The string at an offset: up to the first NUL byte. *)
Definition cstr (l : list Z) (p : Z) : list Z := take_while (fun c => negb (c =? 0)) (drop (Z.to_nat p) l).

(** ** The code *)

Definition ld_char (p : Z) : comp shell Z := fun s =>
  match line s !! Z.to_nat p with
  | Some c => if p <? 0 then Fault OutOfBounds else Ret c s
  | None => Fault OutOfBounds
  end.

Definition st_char (p c : Z) : comp shell unit :=
  ld_char p;; modify (fun s => mk_shell (<[Z.to_nat p := c]> (line s)) (argv s)).

Definition st_argv (i p : Z) : comp shell unit :=
  let* a := gets argv in
  guard OutOfBounds ((0 <=? i) && (i <? zlen a));;
  modify (fun s => mk_shell (line s) (<[Z.to_nat i := p]> (argv s))).

(** get_line: [None] is the end of input.  strncpy pads with NUL bytes; sprintf
    writes "exit" and its NUL byte, and leaves the rest. *)
Definition get_line (input : option (list Z)) : comp shell Z :=
  modify (fun s =>
    mk_shell
      (match input with
       | None => patch (line s) 0 (chars "exit" ++ [0])
       | Some l =>
           let l := take_while (fun c => negb (c =? 0)) l in
           let n := (LINE_SZ - 1)%nat in
           take n l ++ replicate (n - length l) 0 ++ [0]
       end) (argv s));;
  gets (fun s => zlen (cstr (line s) 0)).

(** The two loops of get_arg; a line has a NUL byte, which ends both. *)
Fixpoint skip_blanks (fuel : nat) (p : Z) : comp shell Z :=
  let* c := ld_char p in
  if isblank c then
    match fuel with
    | O => out_of_fuel
    | S n => st_char p 0;; skip_blanks n (p + 1)
    end
  else ret p.

Fixpoint skip_word (fuel : nat) (p : Z) : comp shell Z :=
  let* c := ld_char p in
  if negb (c =? 0) && negb (isblank c) then
    match fuel with O => out_of_fuel | S n => skip_word n (p + 1) end
  else ret p.

(** The result is the argument and the new position. *)
Definition get_arg (fuel : nat) (pp : Z) : comp shell (option Z * Z) :=
  let* p := skip_blanks fuel pp in
  let* c := ld_char p in
  if c =? 0 then ret (None, p)
  else let* q := skip_word fuel p in ret (Some p, q).

Fixpoint parse_loop (fuel : nat) (pp argc : Z) : comp shell Z :=
  let* '(p, pp) := get_arg fuel pp in
  match p with
  | None => ret argc
  | Some p =>
      st_argv argc p;;
      match fuel with O => out_of_fuel | S n => parse_loop n pp (argc + 1) end
  end.

(** Every turn moves on by a character at least. *)
Definition parse_line (len : Z) : comp shell Z :=
  if len =? 0 then ret 0
  else let* s := gets line in parse_loop (length s) 0 0.

(** struct command without its function, and the table, as it is without CONFIG_DPDK and
    without the entry that marks its end. *)
Record command := mk_cmd { cmd_new : bool; cmd_num : Z; cmd_str : list Z; cmd_help : list Z }.

Definition CMD_NONUM : Z := -1.

Definition cmds : list command :=
  [mk_cmd false CMD_NONUM (chars "help") (chars "display shell command information");
   mk_cmd false CMD_NONUM (chars "clear") (chars "clear the terminal screen");
   mk_cmd false CMD_NONUM (chars "exit") (chars "exit shell");
   mk_cmd false CMD_NONUM (chars "debug") (chars "debug dev|l2|arp|ip|icmp|udp|tcp|all");
   mk_cmd false CMD_NONUM (chars "ping2") (chars "ping [OPTIONS] ipaddr(Internal stack implementation)");
   mk_cmd false 1 (chars "arpcache") (chars "see arp cache");
   mk_cmd false CMD_NONUM (chars "route") (chars "show / manipulate the IP routing table");
   mk_cmd false 1 (chars "ifconfig") (chars "configure a network interface");
   mk_cmd false 1 (chars "stat") (chars "display pkb/sock information");
   mk_cmd true CMD_NONUM (chars "ping") (chars "ping [OPTIONS] ipaddr");
   mk_cmd true CMD_NONUM (chars "snc") (chars "Simplex Net Cat");
   mk_cmd true CMD_NONUM (chars "perf") (chars "Performance test");
   mk_cmd false CMD_NONUM (chars "attach_dev") (chars "attach_dev [devname] [ip] [mask]");
   mk_cmd false CMD_NONUM (chars "attach_shmeth_dev") (chars "attach_shmeth_dev [devname] [side] [ip] [mask]")].

(** What parse_args does: an error message, a command for the worker, or a command
    that runs at once. *)
Inductive dispatch := NotFound | WrongArgs (c : command) | ToWorker (c : command) | RunNow (c : command).

Definition parse_args (argc : Z) : comp shell dispatch :=
  let* p := gets (fun s => argv s !!! 0%nat) in
  let* name := gets (fun s => cstr (line s) p) in
  match list_find (fun c => cmd_str c = name) cmds with
  | None => ret NotFound
  | Some (_, c) =>
      if negb (cmd_num c =? CMD_NONUM) && negb (cmd_num c =? argc) then ret (WrongArgs c)
      else if cmd_new c then ret (ToWorker c)
      else ret (RunNow c)
  end.

(** One turn of the loop of shell_master. *)
Definition shell_turn (input : option (list Z)) : comp shell (option dispatch) :=
  let* len := get_line input in
  let* argc := parse_line len in
  if 0 <? argc then let* d := parse_args argc in ret (Some d) else ret None.

(** ** The specification *)

(** The offsets at which words start; [b] says that a blank or nothing is in front. *)
Fixpoint starts (b : bool) (off : Z) (l : list Z) : list Z :=
  match l with
  | [] => []
  | c :: r =>
      if isblank c then starts true (off + 1) r
      else if b then off :: starts false (off + 1) r
      else starts false (off + 1) r
  end.

(** The word that starts at an offset. *)
Definition word_at (l : list Z) (p : Z) : list Z := take_while (fun c => negb (isblank c)) (drop (Z.to_nat p) l).

(** The text with its blanks replaced. *)
Definition zap (l : list Z) : list Z := (fun c => if isblank c then 0 else c) <$> l.

Definition store_args (a : list Z) (i : Z) (ps : list Z) : list Z :=
  take (Z.to_nat i) a ++ ps ++ drop (Z.to_nat i + length ps) a.

(** ** Lemmas: the specification *)

Lemma starts_blanks off bl t : Forall (fun c => isblank c = true) bl -> starts true off (bl ++ t) = starts true (off + zlen bl) t.
Proof.
  intros Hb. revert off. induction Hb as [|c r Hc _ IH]; intros off; cbn [app starts].
  - by rewrite zlen_nil, Z.add_0_r.
  - rewrite Hc, IH, zlen_cons. f_equal. lia.
Qed.

(** A text that starts with a blank, or is empty. *)
Definition at_gap (t : list Z) : Prop := match t with [] => True | c :: _ => isblank c = true end.

Lemma starts_word_rest b off w t : Forall (fun c => isblank c = false) w -> at_gap t ->
  starts false off (w ++ t) = starts true (off + zlen w) t /\ (w <> [] -> starts b off (w ++ t) =
    if b then off :: starts true (off + zlen w) t else starts true (off + zlen w) t).
Proof.
  intros Hw Ht. revert b off. induction Hw as [|c r Hc _ IH]; intros b off; cbn [app starts].
  - split; [|done]. rewrite zlen_nil, Z.add_0_r. destruct t as [|c r]; [done|]. cbn [starts]. cbn in Ht. by rewrite Ht.
  - rewrite Hc, zlen_cons. destruct (IH false (off + 1)) as [-> _].
    replace (off + 1 + zlen r) with (off + (1 + zlen r)) by lia. by destruct b.
Qed.

Lemma zap_blanks bl : Forall (fun c => isblank c = true) bl -> zap bl = replicate (length bl) 0.
Proof. induction 1 as [|c r Hc _ IH]; [done|]. cbn. rewrite Hc. f_equal. exact IH. Qed.

Lemma zap_word w : Forall (fun c => isblank c = false) w -> zap w = w.
Proof. induction 1 as [|c r Hc _ IH]; [done|]. cbn. rewrite Hc. f_equal. exact IH. Qed.

(** The C string at an offset of the changed text is the word of the old text. *)
Lemma zap_cstr text rest p : Forall (fun c => c <> 0) text -> 0 <= p <= zlen text ->
  cstr (zap text ++ 0 :: rest) p = word_at text p.
Proof.
  intros Hz Hp. unfold cstr, word_at. rewrite drop_app_le by (unfold zap; rewrite length_fmap; unfold zlen in Hp; lia).
  unfold zap. rewrite <- fmap_drop. assert (Hd : Forall (fun c => c <> 0) (drop (Z.to_nat p) text)) by by apply Forall_drop.
  induction Hd as [|c r Hc _ IH]; [done|]. cbn. destruct (isblank c); [done|]. replace (c =? 0) with false by lia.
  cbn. by rewrite IH.
Qed.

Lemma starts_range b off l : Forall (fun p => off <= p < off + zlen l) (starts b off l).
Proof.
  revert b off. induction l as [|c r IH]; intros b off; cbn [starts]; [constructor|]. rewrite zlen_cons.
  pose proof (zlen_nonneg r). assert (H1 : forall b, Forall (fun p => off <= p < off + (1 + zlen r)) (starts b (off + 1) r)).
  { intros b'. eapply Forall_impl; [apply IH|]. intros p. cbn. lia. }
  destruct (isblank c); [apply H1|]. destruct b; [constructor; [lia|apply H1]|apply H1].
Qed.

(** ** Lemmas: the loops *)

(** The line with [pre] done and [text] to come. *)
Definition at_text (s : shell) (pre text rest : list Z) : Prop := line s = pre ++ text ++ 0 :: rest.

Lemma ld_char_at s l c r : line s = l ++ c :: r -> ld_char (zlen l) s = Ret c s.
Proof.
  intros E. unfold ld_char, zlen. rewrite E, Nat2Z.id, list_lookup_middle by done.
  destruct (Z.ltb_spec (Z.of_nat (length l)) 0); [lia|done].
Qed.

Lemma skip_blanks_ok text : Forall (fun c => c <> 0) text -> forall pre rest s fuel, at_text s pre text rest ->
  (length text < fuel)%nat ->
  exists bl t, text = bl ++ t /\ Forall (fun c => isblank c = true) bl /\
    match t with [] => True | c :: _ => isblank c = false end /\
    skip_blanks fuel (zlen pre) s = Ret (zlen pre + zlen bl) (mk_shell (pre ++ zap bl ++ t ++ 0 :: rest) (argv s)).
Proof.
  induction 1 as [|c r Hc Hr IH]; intros pre rest s fuel Hs Hf; unfold at_text in Hs;
    (destruct fuel as [|fuel]; [lia|]); cbn [skip_blanks].
  - exists [], []. split; [done|]. split; [constructor|]. split; [done|].
    cbn [app] in *. erewrite bind_ok by (eapply ld_char_at; exact Hs). cbn. rewrite <- Hs, zlen_nil, Z.add_0_r. by destruct s.
  - cbn [app] in Hs. erewrite bind_ok by (eapply ld_char_at; exact Hs). destruct (isblank c) eqn:Eb.
    + unfold st_char. rewrite bind_assoc. erewrite bind_ok by (eapply ld_char_at; exact Hs). erewrite bind_ok; [|reflexivity].
      set (s1 := mk_shell _ _).
      assert (Hs1 : at_text s1 (pre ++ [0]) r rest).
      { unfold at_text, s1. cbn. rewrite Hs. unfold zlen. rewrite Nat2Z.id, insert_app_r_alt by lia.
        rewrite Nat.sub_diag. cbn. by rewrite <- app_assoc. }
      cbn in Hf. destruct (IH (pre ++ [0]) rest s1 fuel Hs1) as (bl & t & -> & Hb & Ht & E); [lia|].
      exists (c :: bl), t. split; [done|]. split; [by constructor|]. split; [done|].
      replace (zlen pre + 1) with (zlen (pre ++ [0])) by (rewrite zlen_app, zlen_cons, zlen_nil; lia).
      rewrite E, zlen_app, !zlen_cons, zlen_nil. cbn. rewrite Eb, <- !app_assoc. cbn. f_equal. lia.
    + exists [], (c :: r). split; [done|]. split; [constructor|]. split; [done|]. cbn. rewrite <- Hs, zlen_nil, Z.add_0_r.
      by destruct s.
Qed.

Lemma skip_word_ok text : Forall (fun c => c <> 0) text -> forall pre rest s fuel, at_text s pre text rest ->
  (length text < fuel)%nat ->
  exists w t, text = w ++ t /\ Forall (fun c => isblank c = false) w /\ at_gap t /\
    (match text with c :: _ => isblank c = false | [] => False end -> w <> []) /\
    skip_word fuel (zlen pre) s = Ret (zlen pre + zlen w) s.
Proof.
  induction 1 as [|c r Hc Hr IH]; intros pre rest s fuel Hs Hf; unfold at_text in Hs;
    (destruct fuel as [|fuel]; [lia|]); cbn [skip_word].
  - exists [], []. split; [done|]. split; [constructor|]. split; [done|]. split; [done|].
    cbn [app] in *. erewrite bind_ok by (eapply ld_char_at; exact Hs). cbn. by rewrite zlen_nil, Z.add_0_r.
  - cbn [app] in Hs. erewrite bind_ok by (eapply ld_char_at; exact Hs). replace (c =? 0) with false by lia. cbn [negb andb].
    destruct (isblank c) eqn:Eb; cbn [negb].
    + exists [], (c :: r). split; [done|]. split; [constructor|]. split; [done|]. split; [done|]. by rewrite zlen_nil, Z.add_0_r.
    + assert (Hs1 : at_text s (pre ++ [c]) r rest) by (unfold at_text; rewrite Hs, <- app_assoc; done).
      cbn in Hf. destruct (IH (pre ++ [c]) rest s fuel Hs1) as (w & t & -> & Hw & Ht & _ & E); [lia|].
      exists (c :: w), t. split; [done|]. split; [by constructor|]. split; [done|]. split; [done|].
      replace (zlen pre + 1) with (zlen (pre ++ [c])) by (rewrite zlen_app, zlen_cons, zlen_nil; lia).
      rewrite E, zlen_app, !zlen_cons, zlen_nil. f_equal. lia.
Qed.

Lemma store_args_nil a i : store_args a i [] = a.
Proof. unfold store_args. cbn. rewrite Nat.add_0_r. apply take_drop. Qed.

Lemma store_args_cons a i p ps : 0 <= i < zlen a ->
  store_args (<[Z.to_nat i := p]> a) (i + 1) ps = store_args a i (p :: ps).
Proof.
  intros Hi. unfold store_args, zlen in *. replace (Z.to_nat (i + 1)) with (S (Z.to_nat i)) by lia.
  rewrite (take_S_r _ _ p) by (apply list_lookup_insert_eq; lia). rewrite take_insert_ge by lia.
  rewrite drop_insert_lt by lia. rewrite <- app_assoc. cbn. do 3 f_equal. f_equal. lia.
Qed.

Lemma parse_loop_ok fuel : forall text pre rest s argc, Forall (fun c => c <> 0) text -> at_text s pre text rest ->
  (length text < fuel)%nat -> 0 <= argc <= zlen (argv s) ->
  let ps := starts true (zlen pre) text in
  parse_loop fuel (zlen pre) argc s =
    if argc + zlen ps <=? zlen (argv s)
    then Ret (argc + zlen ps) (mk_shell (pre ++ zap text ++ 0 :: rest) (store_args (argv s) argc ps))
    else Fault OutOfBounds.
Proof.
  induction fuel as [|fuel IH]; intros text pre rest s argc Hz Hs Hf Ha ps; [lia|]. cbn [parse_loop].
  destruct (skip_blanks_ok text Hz pre rest s (S fuel) Hs) as (bl & t & -> & Hb & Ht & E); [lia|].
  set (s1 := mk_shell _ _) in E. apply Forall_app in Hz as [_ Hz].
  assert (Hps : ps = starts true (zlen pre + zlen bl) t) by (unfold ps; by rewrite starts_blanks).
  assert (Hz1 : zlen pre + zlen bl = zlen (pre ++ zap bl)) by (unfold zap; rewrite zlen_app; unfold zlen; rewrite length_fmap; lia).
  unfold get_arg. rewrite bind_assoc. erewrite bind_ok by exact E. rewrite bind_assoc. rewrite Hz1.
  assert (Hs1 : at_text s1 (pre ++ zap bl) t rest) by (unfold at_text, s1; cbn; by rewrite <- app_assoc).
  destruct t as [|c t'].
  - erewrite bind_ok by (eapply ld_char_at; exact Hs1). cbn beta iota.
    erewrite bind_ok; [|reflexivity]. cbn in Hps. rewrite Hps, zlen_nil, Z.add_0_r, store_args_nil.
    replace (argc <=? zlen (argv s)) with true by lia. unfold ret, s1. rewrite app_nil_r. done.
  - erewrite bind_ok by (eapply ld_char_at; exact Hs1). pose proof Hz as Hz'. apply Forall_cons in Hz' as [Hc _].
    replace (c =? 0) with false by lia. rewrite bind_assoc.
    assert (Hl : (length (c :: t') < S fuel)%nat) by (rewrite length_app in Hf; lia).
    destruct (skip_word_ok (c :: t') Hz (pre ++ zap bl) rest s1 (S fuel) Hs1 Hl) as (w & t2 & Et & Hw & Hg & Hne & Ew).
    specialize (Hne Ht). erewrite bind_ok by exact Ew. erewrite bind_ok; [|reflexivity].
    rewrite Et, Hz1 in Hps. destruct (starts_word_rest true (zlen (pre ++ zap bl)) w t2 Hw Hg) as [_ Hst].
    rewrite (Hst Hne) in Hps. rewrite Hps, zlen_cons. set (ps2 := starts true _ t2). pose proof (zlen_nonneg ps2).
    unfold st_argv. rewrite !bind_assoc. erewrite bind_ok; [|reflexivity]. rewrite bind_assoc. cbn [argv s1].
    destruct (Z.ltb_spec argc (zlen (argv s))) as [Hlt|Hge].
    2: { replace (0 <=? argc) with true by lia. cbn. replace (argc + (1 + zlen ps2) <=? zlen (argv s)) with false by lia. done. }
    replace (0 <=? argc) with true by lia. cbn [andb guard]. erewrite bind_ok; [|reflexivity].
    erewrite bind_ok; [|reflexivity]. cbn [line argv]. set (s2 := mk_shell _ _).
    assert (Hs2 : at_text s2 (pre ++ zap bl ++ w) t2 rest).
    { unfold at_text, s2, s1. cbn [line]. rewrite Et. by rewrite <- !app_assoc. }
    assert (Hz2 : zlen (pre ++ zap bl) + zlen w = zlen (pre ++ zap bl ++ w)) by (rewrite !zlen_app; lia).
    assert (Ha2 : zlen (argv s2) = zlen (argv s)) by (unfold s2, zlen; cbn; by rewrite length_insert).
    rewrite Hz2, (IH t2 (pre ++ zap bl ++ w) rest s2 (argc + 1)).
    + rewrite <- Hz2. fold ps2. rewrite Ha2. replace (argc + 1 + zlen ps2) with (argc + (1 + zlen ps2)) by lia.
      destruct (argc + (1 + zlen ps2) <=? zlen (argv s)); [|done]. unfold s2, s1. cbn [argv].
      rewrite store_args_cons by lia.
      assert (Hzw : zap (bl ++ c :: t') = zap bl ++ w ++ zap t2).
      { rewrite Et. unfold zap. rewrite !fmap_app. do 2 f_equal. exact (zap_word w Hw). }
      rewrite Hzw. by rewrite <- !app_assoc.
    + rewrite Et in Hz. by apply Forall_app in Hz as [].
    + done.
    + rewrite Et, length_app in Hl. assert (length w <> 0%nat) by (intros ?%nil_length_inv; done). lia.
    + lia.
Qed.

(** ** Property *)

(** C33: parse_line cuts a line into its words: argc is their number, argv their
    offsets in order, and the C string at each of them is the word; its loops end at
    the NUL byte.  A line with more than 16 words makes it store behind the end of
    argv. *)
Theorem parse_line_words (s : shell) (text rest : list Z) :
  line s = text ++ 0 :: rest -> Forall (fun c => c <> 0) text -> length (argv s) = ARGV_SZ ->
  let ps := starts true 0 text in
  if (length ps <=? ARGV_SZ)%nat then
    exists s', parse_line (zlen text) s = Ret (zlen ps) s' /\ take (length ps) (argv s') = ps /\
      Forall (fun p => cstr (line s') p = word_at text p) ps
  else parse_line (zlen text) s = Fault OutOfBounds.
Proof.
  intros Hs Hz Ha ps.
  assert (El : text <> [] -> parse_line (zlen text) s = parse_loop (length (line s)) 0 0 s).
  { intros Hne. unfold parse_line. replace (zlen text =? 0) with false; [by erewrite bind_ok by reflexivity|].
    symmetry. apply Z.eqb_neq. unfold zlen. intros E. apply Hne, nil_length_inv. lia. }
  assert (Hc : Forall (fun p => cstr (zap text ++ 0 :: rest) p = word_at text p) ps).
  { eapply Forall_impl; [apply (starts_range true 0 text)|]. intros p Hp. apply zap_cstr; [done|]. cbn in Hp. lia. }
  destruct (decide (text = [])) as [->|Hne].
  { cbn. exists s. by split_and!. }
  rewrite (El Hne).
  assert (Hl : parse_loop (length (line s)) 0 0 s = if 0 + zlen ps <=? zlen (argv s)
      then Ret (0 + zlen ps) (mk_shell (zap text ++ 0 :: rest) (store_args (argv s) 0 ps)) else Fault OutOfBounds).
  { apply (parse_loop_ok (length (line s)) text [] rest s 0 Hz); [done|rewrite Hs, length_app; cbn; lia|unfold zlen; lia]. }
  rewrite Hl, Z.add_0_l.
  unfold zlen. rewrite Ha.
  destruct (Nat.leb_spec (length ps) ARGV_SZ) as [Hle|Hgt].
  - replace (Z.of_nat (length ps) <=? Z.of_nat ARGV_SZ) with true by lia. eexists. split; [done|]. cbn [line argv].
    split; [|done]. unfold store_args. change (Z.to_nat 0) with 0%nat. rewrite take_0, app_nil_l. apply take_app_length.
  - by replace (Z.of_nat (length ps) <=? Z.of_nat ARGV_SZ) with false by lia.
Qed.

Definition sample_line : shell := mk_shell (chars "  ping 10.0.0.2 " ++ [0; 7; 7]) (replicate 16 0).

Lemma parse_line_words_witness : exists s',
  parse_line 16 sample_line = Ret 2 s' /\ take 2 (argv s') = [2; 7] /\
  Forall (fun p => cstr (line s') p = word_at (chars "  ping 10.0.0.2 ") p) [2; 7].
Proof.
  apply (parse_line_words sample_line (chars "  ping 10.0.0.2 ") [7; 7]); [reflexivity| |reflexivity].
  repeat (constructor; [done|]). constructor.
Defined.
