(* ===== verification/Report.v ===== *)
(** * What the program prints

    printfs of lib/lib.c, the tables of the commands route, arpcache, ifconfig, stat and
    help, the dump of a packet of net/pkb.c, and the names of the control bits of
    tcp/tcp_in.c.  A function returns the characters it prints. *)

From stdpp Require Import prelude list gmap.
From Stdlib Require Import ZArith Lia.
From Stdlib Require String.
From S2P Require Import Prelude Structs Checksum Route Pkb FastPipe ArpCache Sock TcpTable Stack Lib Sample Shell.
Import String.StringSyntax.

(** ** printf *)

Definition spaces (n : Z) : list Z := replicate (Z.to_nat n) 32.
(** %-ns *)
Definition pad (n : Z) (s : list Z) : list Z := s ++ spaces (n - zlen s).
(** %d *)
Definition dec_int (z : Z) : list Z := if z <? 0 then 45 :: dec (- z) else dec z.

Definition hexdigit (n : Z) : Z := if n <? 10 then 48 + n else 87 + n.
(** %0nx, for a number with at most n digits *)
Fixpoint hex (n : nat) (z : Z) : list Z :=
  match n with
  | O => []
  | S m => hex m (z / 16) ++ [hexdigit (z mod 16)]
  end.

(** MACFMT *)
Definition mac_fmt (a : list Z) : list Z :=
  match a with
  | [a0; a1; a2; a3; a4; a5] =>
      hex 2 a0 ++ [58] ++ hex 2 a1 ++ [58] ++ hex 2 a2 ++ [58] ++ hex 2 a3 ++ [58] ++ hex 2 a4 ++ [58] ++ hex 2 a5
  | _ => []
  end.

Definition newline : list Z := [10].

Section Print.
Context {S : Type}.

(** _space has 46 spaces; the buffer of vsprintf 256 bytes. *)
Definition printfs (mlen : Z) (text : list Z) : comp S (list Z) :=
  guard OutOfBounds (zlen text <? 256);;
  ret (take (Z.to_nat mlen) text ++ if zlen text <? mlen then take (Z.to_nat (mlen - zlen text)) (spaces 46) else []).
End Print.

(** ** The routing table *)

(** %s of a name in the array of a device. *)
Definition name_text (v : netdev) : list Z := take_while (fun c => negb (c =? 0)) (net_name v).

Definition rt_line (rt : rtentry) : comp stack (list Z) :=
  let* dst := if negb (Z.land (rt_flags rt) RT_DEFAULT =? 0) then ret (chars "default         ") else printfs 16 (ip_text (rt_net rt)) in
  let* gw := if rt_gw rt =? 0 then ret (chars "*               ") else printfs 16 (ip_text (rt_gw rt)) in
  let* mask := printfs 16 (ip_text (rt_netmask rt)) in
  let* v := ld_dev (rt_dev rt) in
  ret (dst ++ gw ++ mask ++ pad 7 (dec_int (rt_metric rt)) ++ name_text v ++ newline).

Fixpoint rt_lines (t : list rtentry) : comp stack (list Z) :=
  match t with
  | [] => ret []
  | rt :: r =>
      if negb (Z.land (rt_flags rt) RT_LOCALHOST =? 0) then rt_lines r
      else let* l := rt_line rt in let* ls := rt_lines r in ret (l ++ ls)
  end.

Definition rt_traverse : comp stack (list Z) :=
  let* t := gets st_rt_head in
  match t with
  | [] => ret []
  | _ =>
      let* ls := rt_lines t in
      ret (chars "Destination     Gateway         Genmask         Metric Iface" ++ newline ++ ls)
  end.

(** ** The ARP cache *)

(** The first string of the array is NULL, which %s prints as glibc does. *)
Definition arpstate (ae : arpentry) : option (list Z) :=
  [chars "(null)"; chars "Free"; chars "Waiting"; chars "Resolved"] !! Z.to_nat (ae_state ae).

(** snprintf stores at most 15 characters. *)
Definition ipnfmt (ip : Z) : list Z := take 15 (ip_text ip).

Definition arp_line (ae : arpentry) : comp stack (list Z) :=
  let* st := of_opt OutOfBounds (arpstate ae) in
  ret (pad 9 st ++ pad 12 (dec_int (if ae_ttl ae <? 0 then 0 else ae_ttl ae)) ++ mac_fmt (ae_hwaddr ae) ++ [32] ++
       ipnfmt (ae_ipaddr ae) ++ newline).

Fixpoint arp_lines (first : bool) (es : list arpentry) : comp stack (list Z) :=
  match es with
  | [] => ret []
  | ae :: r =>
      if ae_state ae =? ARP_FREE then arp_lines first r
      else
        let* l := arp_line ae in
        let* ls := arp_lines false r in
        ret ((if first then chars "State    Timeout(s)  HWaddress         Address" ++ newline else []) ++ l ++ ls)
  end.

Definition arp_cache_traverse : comp stack (list Z) :=
  let* c := gets st_arp in arp_lines true (arp_cache c).

(** ** Devices and memory *)

Definition ifinfo (v : netdev) : list Z :=
  let t := net_stats v in
  pad 10 (name_text v) ++ chars "HWaddr " ++ mac_fmt (net_hwaddr v) ++ newline ++
  chars "          IPaddr " ++ ip_text (net_ipaddr v) ++ newline ++
  chars "          mtu " ++ dec_int (net_mtu v) ++ newline ++
  chars "          RX packet:" ++ dec (rx_packets t) ++ chars " bytes:" ++ dec (rx_bytes t) ++ chars " errors:" ++ dec (rx_errors t) ++ newline ++
  chars "          TX packet:" ++ dec (tx_packets t) ++ chars " bytes:" ++ dec (tx_bytes t) ++ chars " errors:" ++ dec (tx_errors t) ++ newline.

Fixpoint ifinfos (ds : list devid) : comp stack (list Z) :=
  match ds with
  | [] => ret []
  | d :: r => let* v := ld_dev d in let* ls := ifinfos r in ret (ifinfo v ++ ls)
  end.

Definition ifconfig : comp stack (list Z) := let* ds := gets st_net_devices in ifinfos ds.

Definition stat : comp stack (list Z) :=
  let* m := gets st_pkmem in
  let* v := gets st_sock in
  ret (chars "[pkbuf memory information]" ++ newline ++
       chars " alloced pkbs: " ++ dec_int (alloc_pkbs m) ++ newline ++
       chars " free pkbs:    " ++ dec_int (free_pkbs m) ++ newline ++
       chars "[sock memory information]" ++ newline ++
       chars " alloced socks: " ++ dec_int (alloc_socks v) ++ newline ++
       chars " free socks:    " ++ dec_int (free_socks v) ++ newline ++
       chars "[cbuf memory information]" ++ newline ++
       chars " alloced circular buffers: " ++ dec_int (alloc_cbufs (tcp_st v)) ++ newline ++
       chars " free circular buffers:    " ++ dec_int (free_cbufs (tcp_st v)) ++ newline).

(** ** help and clear *)

Definition builtin_clear : list Z := [27] ++ chars "[1H" ++ [27] ++ chars "[2J".

Definition help_line (i : Z) (c : command) : list Z :=
  chars " " ++ dec_int i ++ chars "  " ++ cmd_str c ++ chars ": " ++ cmd_help c ++ newline.

(** The loop ends at an entry whose cmd_num is 0, as the entry behind the last has. *)
Fixpoint help_lines (i : Z) (l : list command) : list Z :=
  match l with
  | [] => []
  | c :: r => if cmd_num c =? 0 then [] else help_line i c ++ help_lines (i + 1) r
  end.

Definition builtin_help : list Z := help_lines 1 cmds.

(** Every command that parse_args finds has its line. *)
Lemma help_complete i c : cmds !! i = Some c ->
  exists pre post, builtin_help = pre ++ help_line (Z.of_nat i + 1) c ++ post.
Proof.
  assert (Hl : forall l k j, (forall x, x ∈ l -> cmd_num x <> 0) -> l !! j = Some c ->
    exists pre post, help_lines k l = pre ++ help_line (Z.of_nat j + k) c ++ post).
  { induction l as [|x l IH]; intros k j Hn Hj; [done|]. cbn [help_lines].
    rewrite (proj2 (Z.eqb_neq (cmd_num x) 0)) by (apply Hn; set_solver). destruct j as [|j].
    - injection Hj as ->. exists [], (help_lines (k + 1) l). done.
    - destruct (IH (k + 1) j) as (pre & post & E); [intros y Hy; apply Hn; set_solver|done|].
      exists (help_line k x ++ pre), post. rewrite E, <- app_assoc. by replace (Z.of_nat (S j) + k) with (Z.of_nat j + (k + 1)) by lia. }
  intros Hi. apply Hl; [|done]. intros x Hx. assert (F : Forall (fun c => cmd_num c <> 0) cmds) by (repeat constructor; done).
  by eapply Forall_forall in F.
Qed.

(** ** The dump of a packet *)

Definition isprint (c : Z) : bool := (32 <=? c) && (c <=? 126).

(** The two loops, from byte [i] on, and the line end that closes the last line. *)
Fixpoint ascii_dump (i : Z) (d : list Z) : list Z :=
  match d with
  | [] => if negb (i mod 16 =? 0) then newline else []
  | c :: r =>
      (if i mod 16 =? 0 then hex 8 i ++ chars ": " else []) ++ [if isprint c then c else 46] ++
      (if i mod 16 =? 15 then newline else []) ++ ascii_dump (i + 1) r
  end.

Fixpoint raw_dump (i : Z) (d : list Z) : list Z :=
  match d with
  | [] => if negb (i mod 16 =? 0) then newline else []
  | c :: r =>
      (if i mod 16 =? 0 then hex 8 i ++ chars ": " else []) ++ (if i mod 2 =? 0 then [32] else []) ++ hex 2 c ++
      (if i mod 16 =? 15 then newline else []) ++ raw_dump (i + 1) r
  end.

Definition pkbdbg (p : pid) : comp stack (list Z) :=
  let* k := ld p in
  let* d := ld_bytes p 0 (pk_len k) in
  ret (chars "packet size: " ++ dec_int (pk_len k) ++ chars " bytes" ++ newline ++
       chars "packet buffer(ascii):" ++ newline ++ ascii_dump 0 d ++
       chars "packet buffer(raw):" ++ newline ++ raw_dump 0 d).

(** ** TCP *)

(** The static buffer [ss] of 32 bytes; strcpy stores the zero byte too. *)
Definition put_flag (bit : Z) (name : list Z) (ssp : Z) : comp (list Z) Z :=
  if bit =? 0 then ret ssp
  else
    guard OutOfBounds (ssp + zlen name + 1 <=? 32);;
    modify (fun ss => patch ss ssp (name ++ [0]));;
    ret (ssp + 4).

Definition tcp_control_string (t : tcp) : comp (list Z) (list Z) :=
  let* p := put_flag (tcp_fin t) (chars "FIN|") 0 in
  let* p := put_flag (tcp_syn t) (chars "SYN|") p in
  let* p := put_flag (tcp_rst t) (chars "RST|") p in
  let* p := put_flag (tcp_psh t) (chars "PSH|") p in
  let* p := put_flag (tcp_ack t) (chars "ACK|") p in
  let* p := put_flag (tcp_urg t) (chars "URG|") p in
  modify (fun ss => patch ss (if p =? 0 then 0 else p - 1) [0]);;
  gets (fun ss => cstr ss 0).

Definition tcp_state_string (st : tcp_state) : list Z :=
  match st with
  | TCP_CLOSED => chars "CLOSED"
  | TCP_LISTEN => chars "LISTEN"
  | TCP_SYN_RECV => chars "SYN-RECV"
  | TCP_SYN_SENT => chars "SYN-SENT"
  | TCP_ESTABLISHED => chars "ESTABLISHED"
  | TCP_CLOSE_WAIT => chars "CLOSE-WAIT"
  | TCP_LAST_ACK => chars "LAST-ACK"
  | TCP_FIN_WAIT1 => chars "FIN-WAIT-1"
  | TCP_FIN_WAIT2 => chars "FIN-WAIT-2"
  | TCP_CLOSING => chars "CLOSING"
  | TCP_TIME_WAIT => chars "TIME-WAIT"
  end.

(** ** The dump can be read back *)

Definition unhex (c : Z) : Z := if c <=? 57 then c - 48 else c - 87.

(** A reader of the raw dump: it skips the offset at the start of a line, the space in
    front of a pair of bytes and the line ends. *)
Fixpoint undump (fuel : nat) (i : Z) (s : list Z) : list Z :=
  match fuel with
  | O => []
  | S f =>
      let s := if i mod 16 =? 0 then drop 10 s else s in
      let s := if i mod 2 =? 0 then drop 1 s else s in
      match s with
      | a :: b :: r => (16 * unhex a + unhex b) :: undump f (i + 1) (if i mod 16 =? 15 then drop 1 r else r)
      | _ => []
      end
  end.

Lemma hex_length n z : length (hex n z) = n.
Proof. revert z. induction n as [|n IH]; intros z; [done|]. cbn [hex]. rewrite length_app, IH. cbn. lia. Qed.

Lemma unhex_digit n : 0 <= n < 16 -> unhex (hexdigit n) = n.
Proof. intros Hn. unfold unhex, hexdigit. destruct (Z.ltb_spec n 10); case_match; lia. Qed.

Lemma hex2_read c : is_u8 c -> exists a b, hex 2 c = [a; b] /\ 16 * unhex a + unhex b = c.
Proof.
  intros Hc. unfold is_u8 in Hc. exists (hexdigit (c / 16 mod 16)), (hexdigit (c mod 16)). split; [done|].
  assert (H1 : 0 <= c / 16 < 16) by (split; [apply Z.div_pos|apply Z.div_lt_upper_bound]; lia).
  rewrite (Z.mod_small (c / 16)) by lia. rewrite !unhex_digit by (lia || apply Z.mod_pos_bound; lia).
  pose proof (Z.div_mod c 16). lia.
Qed.

Lemma drop_text {A} (l r : list A) n : length l = n -> drop n (l ++ r) = r.
Proof. intros <-. apply drop_app_length. Qed.

Lemma undump_raw d fuel i : bytes_ok d -> (length d < fuel)%nat -> undump fuel i (raw_dump i d) = d.
Proof.
  intros Hd. revert fuel i. induction Hd as [|c d Hc Hd IH]; intros fuel i Hf.
  - destruct fuel; [done|]. cbn [raw_dump undump]. by destruct (i mod 16 =? 0), (i mod 2 =? 0).
  - destruct fuel as [|f]; [cbn in Hf; lia|]. cbn [raw_dump undump]. destruct (hex2_read c Hc) as (a & b & E & Ev). rewrite E.
    assert (E1 : forall r, (if i mod 16 =? 0 then drop 10 ((if i mod 16 =? 0 then hex 8 i ++ chars ": " else []) ++ r)
                  else (if i mod 16 =? 0 then hex 8 i ++ chars ": " else []) ++ r) = r).
    { intros r. destruct (i mod 16 =? 0); [|done]. apply drop_text. by rewrite length_app, hex_length. }
    rewrite E1. clear E1.
    assert (E2 : forall r, (if i mod 2 =? 0 then drop 1 ((if i mod 2 =? 0 then [32] else []) ++ r)
                  else (if i mod 2 =? 0 then [32] else []) ++ r) = r) by (intros r; by destruct (i mod 2 =? 0)).
    rewrite E2. clear E2. cbn [app]. rewrite Ev. f_equal.
    replace (if i mod 16 =? 15 then drop 1 ((if i mod 16 =? 15 then newline else []) ++ raw_dump (i + 1) d)
             else (if i mod 16 =? 15 then newline else []) ++ raw_dump (i + 1) d) with (raw_dump (i + 1) d)
      by (by destruct (i mod 16 =? 15)).
    apply IH. cbn in Hf. lia.
Qed.

(** ** The control bits *)

Fixpoint join (l : list (list Z)) : list Z :=
  match l with
  | [] => []
  | [x] => x
  | x :: r => x ++ [124] ++ join r
  end.

(** The names of the bits that are set, with bars between them. *)
Definition control_names (t : tcp) : list Z :=
  join ((if tcp_fin t =? 0 then [] else [chars "FIN"]) ++ (if tcp_syn t =? 0 then [] else [chars "SYN"]) ++
        (if tcp_rst t =? 0 then [] else [chars "RST"]) ++ (if tcp_psh t =? 0 then [] else [chars "PSH"]) ++
        (if tcp_ack t =? 0 then [] else [chars "ACK"]) ++ (if tcp_urg t =? 0 then [] else [chars "URG"])).

(** Whatever the last call left in the buffer, the string has these names, and the
    longest one fits. *)
Lemma control_string_names t ss : length ss = 32%nat ->
  exists ss', tcp_control_string t ss = Ret (control_names t) ss' /\ length ss' = 32%nat.
Proof.
  intros Hl. do 32 (destruct ss as [|? ss]; [done|]). destruct ss; [|done]. clear Hl.
  unfold tcp_control_string, put_flag, control_names.
  destruct (tcp_fin t =? 0), (tcp_syn t =? 0), (tcp_rst t =? 0), (tcp_psh t =? 0), (tcp_ack t =? 0), (tcp_urg t =? 0);
    (eexists; split; [vm_compute; reflexivity|reflexivity]).
Qed.

(** ** The routing table can be read back *)

Lemma dec_byte_length b : is_u8 b -> (1 <= length (dec b) <= 3)%nat.
Proof.
  intros Hb. assert (E : forallb (fun b => bool_decide (1 <= length (dec b) <= 3)%nat) (seqZ 0 256) = true) by by vm_compute.
  rewrite forallb_forall in E. specialize (E b). rewrite <- list_elem_of_In, elem_of_seqZ in E.
  apply (bool_decide_eq_true_1 _), E. unfold is_u8 in Hb. lia.
Qed.

Lemma ip_text_length ip : is_u32 ip -> 7 <= zlen (ip_text ip) <= 15.
Proof.
  intros Hip. destruct (ipfmt_bytes ip Hip) as (a & b & c & d & E & Ha & Hb & Hc & Hd & _). unfold ip_text. rewrite E.
  pose proof (dec_byte_length a Ha). pose proof (dec_byte_length b Hb). pose proof (dec_byte_length c Hc).
  pose proof (dec_byte_length d Hd). unfold zlen. rewrite !length_app. cbn [length]. lia.
Qed.

(** An address fills a column, and is read back from it. *)
Lemma printfs_ip ip (s : stack) : is_u32 ip ->
  exists c, printfs 16 (ip_text ip) s = Ret c s /\ zlen c = 16 /\ forall s : stack, str2ip c s = Ret (Some ip) s.
Proof.
  intros Hip. pose proof (ip_text_length ip Hip) as Hl. set (n := 16 - zlen (ip_text ip)).
  exists (ip_text ip ++ spaces n). split_and!.
  - unfold printfs. rewrite (proj2 (Z.ltb_lt _ 256)), (proj2 (Z.ltb_lt _ 16)) by lia. unfold guard. rewrite bind_ret.
    unfold ret. do 2 f_equal. fold n. f_equal.
    + apply take_ge. unfold zlen in Hl. lia.
    + unfold spaces. rewrite take_replicate. f_equal. lia.
  - rewrite zlen_app. unfold spaces. rewrite zlen_replicate. lia.
  - intros s0. apply str2ip_text; [done|]. unfold spaces. by replace (Z.to_nat n) with (S (Z.to_nat (n - 1))) by lia.
Qed.

Definition column (line : list Z) (i : Z) : list Z := slice line (16 * i) 16.

(** A column with an address. *)
Definition reads (c : list Z) (ip : Z) : Prop := forall s : stack, str2ip c s = Ret (Some ip) s.

Record shows (rt : rtentry) (line : list Z) : Prop := {
  sh_dst : if negb (Z.land (rt_flags rt) RT_DEFAULT =? 0) then column line 0 = pad 16 (chars "default")
           else reads (column line 0) (rt_net rt);
  sh_gw : if rt_gw rt =? 0 then column line 1 = pad 16 (chars "*") else reads (column line 1) (rt_gw rt);
  sh_mask : reads (column line 2) (rt_netmask rt)
}.

Definition rt_ok (s : stack) (rt : rtentry) : Prop :=
  is_u32 (rt_net rt) /\ is_u32 (rt_gw rt) /\ is_u32 (rt_netmask rt) /\ is_Some (st_netdevs s !! rt_dev rt).

Lemma columns a b c r : zlen a = 16 -> zlen b = 16 -> zlen c = 16 ->
  column (a ++ b ++ c ++ r) 0 = a /\ column (a ++ b ++ c ++ r) 1 = b /\ column (a ++ b ++ c ++ r) 2 = c.
Proof.
  intros Ha Hb Hc. unfold column. split_and!.
  - by apply (slice_mid []).
  - apply slice_mid; [by rewrite Ha|by rewrite Hb].
  - rewrite (app_assoc a). apply slice_mid; [rewrite zlen_app; lia|by rewrite Hc].
Qed.

Lemma rt_line_shows s rt : rt_ok s rt -> exists line, rt_line rt s = Ret line s /\ shows rt line.
Proof.
  intros (Hn & Hg & Hm & [v Hv]).
  assert (Hd : exists c, (if negb (Z.land (rt_flags rt) RT_DEFAULT =? 0) then ret (chars "default         ") else printfs 16 (ip_text (rt_net rt))) s = Ret c s /\
    zlen c = 16 /\ if negb (Z.land (rt_flags rt) RT_DEFAULT =? 0) then c = pad 16 (chars "default") else reads c (rt_net rt)).
  { destruct (negb _); [by eexists|]. destruct (printfs_ip (rt_net rt) s Hn) as (c & ? & ? & ?). by exists c. }
  assert (Hw : exists c, (if rt_gw rt =? 0 then ret (chars "*               ") else printfs 16 (ip_text (rt_gw rt))) s = Ret c s /\
    zlen c = 16 /\ if rt_gw rt =? 0 then c = pad 16 (chars "*") else reads c (rt_gw rt)).
  { destruct (rt_gw rt =? 0); [by eexists|]. destruct (printfs_ip (rt_gw rt) s Hg) as (c & ? & ? & ?). by exists c. }
  destruct Hd as (c0 & E0 & L0 & H0). destruct Hw as (c1 & E1 & L1 & H1). destruct (printfs_ip (rt_netmask rt) s Hm) as (c2 & E2 & L2 & H2).
  eexists. split.
  - unfold rt_line. rewrite (bind_ok _ _ _ _ _ E0), (bind_ok _ _ _ _ _ E1), (bind_ok _ _ _ _ _ E2).
    erewrite bind_ok by (unfold ld_dev; by rewrite Hv). reflexivity.
  - destruct (columns c0 c1 c2 (pad 7 (dec_int (rt_metric rt)) ++ name_text v ++ newline) L0 L1 L2) as (C0 & C1 & C2).
    split; rewrite ?C0, ?C1, ?C2; done.
Qed.

(** The command route without arguments prints a heading and one line for each route that
    is not local, in the order of the table, which is the order in which routes are tried;
    in the columns of a line stand the destination, the gateway and the mask of its
    route, so that the parser of the route command reads the same addresses back
    from them. *)
Lemma routes_shown s : Forall (rt_ok s) (st_rt_head s) -> st_rt_head s <> [] ->
  exists head lines, rt_traverse s = Ret (head ++ concat lines) s /\
    head = chars "Destination     Gateway         Genmask         Metric Iface" ++ newline /\
    Forall2 shows (filter (fun rt => Z.land (rt_flags rt) RT_LOCALHOST = 0) (st_rt_head s)) lines.
Proof.
  intros Hok Hne.
  assert (H : exists lines, rt_lines (st_rt_head s) s = Ret (concat lines) s /\
    Forall2 shows (filter (fun rt => Z.land (rt_flags rt) RT_LOCALHOST = 0) (st_rt_head s)) lines).
  { clear Hne. induction Hok as [|rt t Hr Hok IH]; [by exists []|]. destruct IH as (lines & E & Hs). cbn [rt_lines].
    destruct (Z.eqb_spec (Z.land (rt_flags rt) RT_LOCALHOST) 0) as [El|El]; cbn [negb].
    - destruct (rt_line_shows s rt Hr) as (l & El1 & Hl). exists (l :: lines).
      rewrite (bind_ok _ _ _ _ _ El1), (bind_ok _ _ _ _ _ E), filter_cons_True by done. split; [done|by constructor].
    - exists lines. by rewrite filter_cons_False. }
  destruct H as (lines & E & Hs). eexists _, lines. split_and!; [|reflexivity|done].
  unfold rt_traverse. rewrite bind_gets. destruct (st_rt_head s) as [|rt t] eqn:Et; [done|].
  rewrite (bind_ok _ _ _ _ _ E). unfold ret. by rewrite <- app_assoc.
Qed.

Lemma routes_shown_witness :
  exists line, rt_traverse sample_stack =
    Ret (chars "Destination     Gateway         Genmask         Metric Iface" ++ newline ++ line) sample_stack /\
    line = chars "10.0.0.0        *               255.255.255.0   0      v" ++ newline /\
    shows (rt_alloc 0x0000000a 0x00ffffff 0 0 RT_NONE 1%nat) line.
Proof.
  destruct (routes_shown sample_stack) as (head & lines & E & Eh & Hs).
  - repeat (apply Forall_cons; split; [split_and!; [by vm_compute|by vm_compute|by vm_compute|by eexists; vm_compute]|]). constructor.
  - discriminate.
  - change (filter _ _) with [rt_alloc 0x0000000a 0x00ffffff 0 0 RT_NONE 1%nat] in Hs.
    apply Forall2_cons_inv_l in Hs as (l & r & Hl & Hr & ->). apply Forall2_nil_inv_l in Hr as ->.
    exists l. rewrite Eh in E. cbn [concat] in E. rewrite app_nil_r, <- app_assoc in E.
    assert (El : l = chars "10.0.0.0        *               255.255.255.0   0      v" ++ newline).
    { clear Hl Eh. vm_compute in E. injection E as <-. by vm_compute. }
    split_and!; [exact E|exact El|exact Hl].
Defined.

(** The dump of a packet holds its bytes. *)
Lemma pkbdbg_dump s p k (Hk : live s p k) (Hb : bytes_ok (pk_data k)) (Hl : 0 <= pk_len k <= zlen (pk_data k)) :
  exists head, pkbdbg p s = Ret (head ++ raw_dump 0 (slice (pk_data k) 0 (pk_len k))) s /\
    undump (Datatypes.S (Z.to_nat (pk_len k))) 0 (raw_dump 0 (slice (pk_data k) 0 (pk_len k))) = slice (pk_data k) 0 (pk_len k).
Proof.
  eexists. split.
  - unfold pkbdbg. erewrite bind_ok by (by apply ld_ok). erewrite bind_ok by (apply (ld_bytes_ok s p k 0 (pk_len k)); [done|lia..]).
    unfold ret. rewrite !app_assoc. reflexivity.
  - apply undump_raw; [by apply bytes_ok_slice|]. assert (E : zlen (slice (pk_data k) 0 (pk_len k)) = pk_len k) by (apply zlen_slice; lia). unfold zlen in E. lia.
Qed.
