(* ===== verification/ShellThreads.v ===== *)
(** * The two threads of the shell: shell_master and shell_worker of shell/shell.c

    The master hands commands to the worker through pending_work and waits until it is
    NULL again.  Both threads call pthread_cond_wait without the mutex of their
    condition, so that the test of the variable and the wait are two steps.  A step is
    one access to a shared variable or one call on a condition. *)

From stdpp Require Import prelude list gmap relations.
From Stdlib Require Import ZArith Lia.
From S2P Require Import Prelude.

(** ** The state *)

(** Where the worker is: the test of work_quit, the test of pending_work, before the
    wait and in it, the test behind it, the command, the store of NULL, the signal. *)
Inductive worker_pc := WQuit | WTest | WEnter | WWait | WWoken | WRun | WClear | WSignal | WExit.

(** Where the master is: reading a line, the store of pending_work, the signal, the test,
    before the wait and in it; the stores of builtin_exit and its signal. *)
Inductive master_pc := MRead | MPost (cmd : Z) | MSignal | MTest | MEnter | MWait | MQuit | MQuitSignal | MExit.

#[global] Instance worker_pc_eq_dec : EqDecision worker_pc.
Proof. solve_decision. Defined.
#[global] Instance master_pc_eq_dec : EqDecision master_pc.
Proof. solve_decision. Defined.

(** A command is a number; [th_posted] and [th_ran] record what was handed over and what
    was run, in order. *)
Record threads := mk_threads {
  th_worker : worker_pc; th_master : master_pc; pending_work : option Z; work_quit : bool;
  th_posted : list Z; th_ran : list Z
}.

Definition set_worker v (s : threads) := mk_threads v (th_master s) (pending_work s) (work_quit s) (th_posted s) (th_ran s).
Definition set_master v (s : threads) := mk_threads (th_worker s) v (pending_work s) (work_quit s) (th_posted s) (th_ran s).
Definition set_pending v (s : threads) := mk_threads (th_worker s) (th_master s) v (work_quit s) (th_posted s) (th_ran s).

Definition threads_start : threads := mk_threads WQuit MRead None false [] [].

(** ** The steps *)

(** pthread_cond_signal wakes the thread that waits, if it does. *)
Definition signal_worker (s : threads) : threads :=
  match th_worker s with WWait => set_worker WWoken s | _ => s end.
Definition signal_master (s : threads) : threads :=
  match th_master s with MWait => set_master MTest s | _ => s end.

(** shell_worker; no step in the wait and at the end. *)
Definition shell_worker (s : threads) : option threads :=
  match th_worker s with
  | WQuit => Some (set_worker (if work_quit s then WExit else WTest) s)
  | WTest => Some (set_worker (match pending_work s with Some _ => WRun | None => WEnter end) s)
  | WEnter => Some (set_worker WWait s)
  | WWait => None
  | WWoken => Some (set_worker (if work_quit s then WExit else WTest) s)
  | WRun =>
      cmd ← pending_work s;   (* the dereference *)
      Some (mk_threads WClear (th_master s) (pending_work s) (work_quit s) (th_posted s) (th_ran s ++ [cmd]))
  | WClear => Some (set_worker WSignal (set_pending None s))
  | WSignal => Some (set_worker WQuit (signal_master s))
  | WExit => None
  end.

(** What the master reads: a command for the worker, one that it runs itself, or exit. *)
Inductive command_line := ForWorker (cmd : Z) | ForMaster | Quit.

(** The loop of shell_master with parse_args and builtin_exit. *)
Definition shell_master (line : command_line) (s : threads) : option threads :=
  match th_master s with
  | MRead =>
      match line with
      | ForWorker cmd => Some (set_master (MPost cmd) s)
      | ForMaster => Some s
      | Quit => Some (set_master MQuit s)
      end
  | MPost cmd =>
      Some (mk_threads (th_worker s) MSignal (Some cmd) (work_quit s) (th_posted s ++ [cmd]) (th_ran s))
  | MSignal => Some (set_master MTest (signal_worker s))
  | MTest => Some (set_master (match pending_work s with Some _ => MEnter | None => MRead end) s)
  | MEnter => Some (set_master MWait s)
  | MWait => None
  | MQuit => Some (mk_threads (th_worker s) MQuitSignal (pending_work s) true (th_posted s) (th_ran s))
  | MQuitSignal => Some (set_master MExit (signal_worker s))
  | MExit => None
  end.

(** The threads interleave; a wait may also end without a signal. *)
Inductive thread_step : threads -> threads -> Prop :=
  | step_worker s s' : shell_worker s = Some s' -> thread_step s s'
  | step_master line s s' : shell_master line s = Some s' -> thread_step s s'
  | step_spurious_worker s : th_worker s = WWait -> thread_step s (set_worker WWoken s)
  | step_spurious_master s : th_master s = MWait -> thread_step s (set_master MTest s).

(** ** The hand-over *)

(** The worker is between two commands. *)
Definition idle (w : worker_pc) : Prop := w <> WRun /\ w <> WClear.

(** The master waits for a command to be run. *)
Definition waits (m : master_pc) : Prop :=
  match m with MSignal | MTest | MEnter | MWait => True | _ => False end.

(** Where a command stands: none is pending, it was not run yet, or it was. *)
Inductive stage (s : threads) : Prop :=
  | stage_none : pending_work s = None -> idle (th_worker s) -> th_posted s = th_ran s -> stage s
  | stage_posted cmd : pending_work s = Some cmd -> waits (th_master s) -> th_worker s <> WClear ->
      th_posted s = th_ran s ++ [cmd] -> stage s
  | stage_ran cmd : pending_work s = Some cmd -> waits (th_master s) -> th_worker s = WClear ->
      th_posted s = th_ran s -> stage s.

(** The cases of a step that keeps the stage. *)
Ltac stage_solve :=
  cbn in *; simplify_eq/=;
  first [done
        |apply stage_none; cbn; unfold idle; solve [auto | congruence | repeat case_match; simplify_eq/=; auto]
        |eapply stage_posted; cbn; solve [eauto | congruence]
        |eapply stage_ran; cbn; solve [eauto | congruence]].

Lemma stage_worker s s' : stage s -> shell_worker s = Some s' -> stage s'.
Proof.
  destruct s as [w m p q l r]. intros Hs E. unfold shell_worker, signal_master in E. cbn in E.
  destruct w, p, m; cbn in E; simplify_eq/=; destruct Hs as [Hp Hi Hl|c Hp Hw Hc Hl|c Hp Hw Hc Hl];
    cbn in *; unfold idle in *; simplify_eq/=; try tauto; try destruct q; stage_solve.
Qed.

Lemma stage_master line s s' : stage s -> shell_master line s = Some s' -> stage s'.
Proof.
  destruct s as [w m p q l r]. intros Hs E. unfold shell_master, signal_worker in E. cbn in E.
  destruct m, w, p; cbn in E; try destruct line; simplify_eq/=; destruct Hs as [Hp Hi Hl|c Hp Hw Hc Hl|c Hp Hw Hc Hl];
    cbn in *; unfold idle in *; simplify_eq/=; try tauto; stage_solve.
Qed.

Lemma stage_step s s' : stage s -> thread_step s s' -> stage s'.
Proof.
  intros Hs Hstep. destruct Hstep as [s s' E|line s s' E|s E|s E]; [by apply (stage_worker s)|by apply (stage_master line s)| |];
    destruct Hs as [Hp [Hi1 Hi2] Hl|c Hp Hw Hc Hl|c Hp Hw Hc Hl]; rewrite ?E in *; stage_solve.
Qed.

Lemma stage_reachable s : rtc thread_step threads_start s -> stage s.
Proof.
  assert (H0 : stage threads_start) by (apply stage_none; [done|by split|done]).
  intros Hr. induction Hr as [|x y z Hxy Hyz IH]; [done|]. apply IH. by apply (stage_step x).
Qed.

(** C34: the commands for the worker are run once each and in the order in which they
    were read, whatever the interleaving and with spurious wake-ups: at most the last one
    is not run yet, the worker finds a command where it dereferences pending_work, and
    the master reads the next line only when everything was run. *)
Theorem shell_hands_over (s : threads) (Hr : rtc thread_step threads_start s) :
  (th_ran s = th_posted s \/ exists cmd, pending_work s = Some cmd /\ th_posted s = th_ran s ++ [cmd]) /\
  (th_worker s = WRun -> exists s', shell_worker s = Some s') /\
  (th_master s = MRead -> pending_work s = None /\ th_ran s = th_posted s).
Proof.
  destruct (stage_reachable s Hr) as [Hp [Hi1 Hi2] Hl|c Hp Hw Hc Hl|c Hp Hw Hc Hl]; split_and!;
    try (left; congruence); try (right; eauto); intros E; try done; try (rewrite E in *; done);
    unfold shell_worker; rewrite E, Hp; cbn; eauto.
Qed.

(** A schedule: turns of the worker and of the master, with the line where it reads one. *)
Fixpoint run_threads (sched : list (option command_line)) (s : threads) : option threads :=
  match sched with
  | [] => Some s
  | None :: r => shell_worker s ≫= run_threads r
  | Some line :: r => shell_master line s ≫= run_threads r
  end.

Lemma run_threads_steps sched s s' : run_threads sched s = Some s' -> rtc thread_step s s'.
Proof.
  revert s. induction sched as [|[line|] sched IH]; intros s E; cbn in E; [by injection E as ->| |];
    apply bind_Some in E as (s1 & E1 & E2); (eapply rtc_l; [|by apply IH]); [by eapply step_master|by eapply step_worker].
Qed.

Definition stuck (s : threads) : Prop := shell_worker s = None /\ forall line, shell_master line s = None.

(** Both threads sleep and a command was not run. *)
Definition lost_command : list (option command_line) :=
  let m := Some (ForWorker 7) in [None; None; m; m; m; None; m; m].
(** The command was run, but the master sleeps. *)
Definition lost_answer : list (option command_line) :=
  let m := Some (ForWorker 7) in [m; m; m; m; None; None; None; None; None; m; None; None; None].
(** The master left, and waits for the worker to end. *)
Definition lost_quit : list (option command_line) := let m := Some Quit in [None; None; m; m; m; None].

Lemma shell_hands_over_witness : exists s, run_threads lost_answer threads_start = Some s /\
  (th_ran s = th_posted s \/ exists cmd, pending_work s = Some cmd /\ th_posted s = th_ran s ++ [cmd]).
Proof.
  eexists. split; [reflexivity|]. eapply (shell_hands_over _ (run_threads_steps lost_answer threads_start _ eq_refl)).
Defined.

