(* ===== verification/Main.v ===== *)
(** * The process: shell/main.c, and the receive loops of the devices

    From the static variables to the running stack and back: net_stack_init,
    net_stack_run up to the call of shell_master, and net_stack_exit; netdev_exit and
    loop_exit of net/netdev.c and net/loop.c, shell_init of shell/shell.c.  At the end, one turn
    of the loops that wait for frames: physical_eth_poll and veth_poll. *)

From stdpp Require Import prelude list list_numbers gmap.
From Stdlib Require Import ZArith Lia.
From S2P Require Import Prelude Structs Checksum Route Pkb FastPipe ArpCache Sock TcpTable UdpPorts TcpPorts Stack Arp IpOut Icmp IpFrag Own Raw TcpOut TcpText TcpState Udp IpIn NetIn Sample Safety ShellThreads.

(** ** The state of the process *)

(** What a thread of the array [threads] runs. *)
Inductive thread_func := NetTimer | TcpTimer | ShellWorker.

#[global] Instance thread_func_eq_dec : EqDecision thread_func.
Proof. solve_decision. Defined.

(** [pr_tids] is the array threads, [pr_running] the threads that run besides the main
    thread. *)
Record process := mk_process {
  pr_stack : stack; pr_shell : threads; master_quit : bool; pr_tids : list (option thread_func); pr_running : list thread_func
}.

Definition set_pr_stack v (p : process) := mk_process v (pr_shell p) (master_quit p) (pr_tids p) (pr_running p).
Definition set_pr_shell v (p : process) := mk_process (pr_stack p) v (master_quit p) (pr_tids p) (pr_running p).
Definition set_pr_running v (p : process) := mk_process (pr_stack p) (pr_shell p) (master_quit p) (pr_tids p) v.

Definition on_stack {A} (m : comp stack A) : comp process A := fun p =>
  match m (pr_stack p) with
  | Ret a s => Ret a (set_pr_stack s p)
  | Fault f => Fault f
  | NoFuel => NoFuel
  end.

(** The static variables before main: tables of zeros. *)
Definition static_socks : sockstate := mk_sockstate ∅ ∅ 0 0 0 [] 0 (mk_table [] 0 0) 0 tcp_static.

Definition static_stack : stack :=
  mk_stack (mk_pkmem ∅ 0%nat 0 0) ∅ [] 0%nat [] (mk_arpcache (replicate ARP_CACHE_SZ zero_entry) 0) [] 0%nat 0 ∅ [] static_socks.

Definition static_process : process := mk_process static_stack threads_start false (replicate 4 None) [].

(** ** shell/main.c *)

(** shell_init, less the initialisation of mutexes and conditions. *)
Definition shell_init : comp process unit :=
  modify (fun p =>
    let t := pr_shell p in
    mk_process (pr_stack p) (mk_threads (th_worker t) (th_master t) None false (th_posted t) (th_ran t)) false (pr_tids p) (pr_running p)).

Definition socket_init : comp stack unit := modify (fun s => set_sock (inet_init (st_sock s)) s).

(** The initialisation of the parts, in the order of net_stack_init; [d] is the address
    of the loopback device. *)
Definition net_stack_init (d : devid) : comp process unit :=
  on_stack (netdev_init d);;
  on_stack (modify (fun s => set_arp (arp_cache_init (st_arp s)) s));;
  on_stack (let* l := gets st_loop in
            let* v := ld_dev l in
            modify (set_rt_head (rt_init (net_ipaddr v) (net_mask v) l)));;
  on_stack socket_init;;
  shell_init.

(** The result of pthread_create is given; perrx ends the process. *)
Definition newthread (err : Z) (f : thread_func) : comp process thread_func :=
  if negb (err =? 0) then fail Exit else modify (fun p => set_pr_running (pr_running p ++ [f]) p);; ret f.

Definition st_tid (i : nat) (f : thread_func) : comp process unit :=
  guard OutOfBounds (Z.of_nat i <? 4);;
  modify (fun p => mk_process (pr_stack p) (pr_shell p) (master_quit p) (<[i := Some f]> (pr_tids p)) (pr_running p)).

(** net_stack_run before shell_master, with the results of the three pthread_create. *)
Definition net_stack_run (e0 e1 e3 : Z) : comp process unit :=
  let* t := newthread e0 NetTimer in st_tid 0 t;;
  let* t := newthread e1 TcpTimer in st_tid 1 t;;
  let* t := newthread e3 ShellWorker in st_tid 3 t.

(** pthread_cancel of threads[i]; it is undefined for an element that was never set. *)
Definition cancel (i : nat) : comp process unit :=
  let* p := gets id in
  match mjoin (pr_tids p !! i) with
  | None => fail NullDeref
  | Some f => modify (fun p => set_pr_running (filter (fun g => g <> f) (pr_running p)) p)
  end.

Definition loop_exit : comp stack unit := let* l := gets st_loop in netdev_free l.
Definition netdev_exit : comp stack unit := loop_exit.

(** net_stack_exit; the result is [false] when pthread_join waits because the worker has
    not come to its end. *)
Definition net_stack_exit : comp process bool :=
  cancel 0;;
  cancel 1;;
  let* p := gets id in
  if decide (th_worker (pr_shell p) = WExit) then cancel 3;; on_stack netdev_exit;; ret true
  else ret false.

(** ** The receive loops *)

Section Loops.
Context `{OS} `{App} `{Ptrs}.

(** read(2) into the buffer, with its result and bytes given. *)
Definition physical_eth_recv (dev : devid) (pkb : pid) (l : Z) (bytes : list Z) : comp stack Z :=
  (if l <=? 0 then upd_stats dev count_rx_error
   else
     st_bytes pkb 0 bytes;;
     upd_stats dev (count_rx l);;
     upd pkb (fun k => set_pk_len k l));;
  ret l.

(** One turn of physical_eth_poll. *)
Definition physical_eth_poll (n : nat) (dev : devid) (l : Z) (bytes : list Z) : comp stack unit :=
  let* v := ld_dev dev in
  let* pkb := alloc_netdev_pkb (net_mtu v) in
  let* r := physical_eth_recv dev pkb l bytes in
  if 0 <? r then stack_net_in n dev pkb else free_pkb pkb.

(** One turn of veth_poll, with the result of poll(2): veth_rx, or the end of the
    process. *)
Definition veth_poll (n : nat) (veth : devid) (ret l : Z) (bytes : list Z) : comp stack unit :=
  if ret <=? 0 then fail Exit else rx_frame n veth l bytes.

(** Both loops receive a frame in the same way. *)
Lemma poll_rx_frame n dev l bytes s : physical_eth_poll n dev l bytes s = rx_frame n dev l bytes s /\
  veth_poll n dev 1 l bytes s = rx_frame n dev l bytes s.
Proof.
  split; [|done]. unfold physical_eth_poll, rx_frame, physical_eth_recv, bind, ret.
  destruct (ld_dev dev s) as [v s1| |]; [|done|done].
  destruct (alloc_netdev_pkb (net_mtu v) s1) as [pkb s2| |]; [|done|done].
  destruct (Z.leb_spec l 0) as [Hl|Hl].
  - destruct (upd_stats dev count_rx_error s2); [|done|done]. by rewrite (proj2 (Z.ltb_ge 0 l)) by lia.
  - destruct (st_bytes pkb 0 bytes s2) as [[] s3| |]; [|done|done].
    destruct (upd_stats dev (count_rx l) s3) as [[] s4| |]; [|done|done].
    destruct (upd pkb _ s4); [|done|done]. by rewrite (proj2 (Z.ltb_lt 0 l)) by lia.
Qed.
End Loops.

(** ** The start *)

(** The loopback device as loop_init makes it. *)
Definition lo : netdev := loop_dev_init (mk_netdev 0 0 0 (replicate 6 0) (dev_name [108; 111]) loop_ops zero_stats).

Definition lo_route (d : devid) : rtentry := rt_alloc 127 LOOPBACK_NETMASK 0 0 RT_LOCALHOST d.

(** The stack that the initialisation leaves. *)
Definition started_stack (d : devid) : stack :=
  mk_stack (mk_pkmem ∅ 0%nat 0 0) {[d := lo]} [d] d [lo_route d] arp_cache_start [] 0%nat 0 ∅ [] sock_start.

Lemma net_stack_init_run d :
  net_stack_init d static_process = Ret tt (mk_process (started_stack d) threads_start false (replicate 4 None) []).
Proof.
  unfold net_stack_init, bind, on_stack, netdev_init, loop_init, netdev_alloc, bind, modify, ret, gets. cbn [pr_stack set_pr_stack].
  unfold ld_dev. cbn [st_loop st_netdevs set_loop set_net_devices set_netdevs static_stack static_process set_arp pr_stack].
  rewrite insert_empty, lookup_singleton_eq. reflexivity.
Qed.

Lemma started_inv d : inv {[d := lo]} (started_stack d) [].
Proof.
  assert (E : {[d := lo]} = cfg <$> ({[d := lo]} : gmap devid netdev)) by by rewrite map_fmap_singleton.
  assert (Hb : inv (cfg <$> {[d := lo]}) (boot {[d := lo]} [lo_route d]) []).
  { apply boot_inv; [by apply map_Forall_singleton|]. apply Forall_singleton. cbn. rewrite lookup_singleton_eq. by eexists. }
  rewrite <- E in Hb. destruct Hb. by split.
Qed.

Lemma start_udp : ports_inv sock_start.
Proof.
  assert (Es : slot (udp_table sock_start) = replicate 128 (mk_slot [] 0)) by reflexivity.
  assert (Hc : forall h, 0 <= h < 128 -> chain sock_start h = []).
  { intros h Hh. unfold chain, get_slot. rewrite Es, lookup_total_replicate_2 by lia. done. }
  split; [by rewrite Es, length_replicate|done| |].
  - intros h sk Hh. rewrite Hc by done. by intros ?%elem_of_nil.
  - intros p sk sk' (h & Hh & Hin & _). rewrite Hc in Hin by done. by apply elem_of_nil in Hin.
Qed.

Lemma start_tcp : tports_inv sock_start.
Proof.
  assert (Eb : btable (tcp_st sock_start) = replicate 256 []) by reflexivity.
  assert (Hb : bsocks sock_start = []) by reflexivity.
  split; [by rewrite Eb, length_replicate| |rewrite Hb; constructor| |by rewrite Hb|done].
  - intros h sk Hh. unfold bchain, bucket. rewrite Eb, lookup_total_replicate_2 by lia. by intros ?%elem_of_nil.
  - intros p sk sk' [Hin _]. rewrite Hb in Hin. by apply elem_of_nil in Hin.
Qed.

Lemma started_local d addr : local_address addr (started_stack d) = Ret ((addr =? 0) || (Z.land 0xff addr =? 0x7f)) (started_stack d).
Proof.
  unfold local_address. destruct (Z.eqb_spec addr 0) as [|Hz]; [done|]. cbn [orb].
  unfold bind, gets, ld_dev. cbn [started_stack st_loop st_netdevs]. rewrite !lookup_singleton_eq.
  change (LOCALNET lo) with 127. change (net_mask lo) with 255. rewrite (Z.eqb_sym 127).
  destruct (Z.eqb_spec (Z.land 255 addr) 127) as [|Hn]; [done|]. cbn [st_net_devices].
  unfold bind, ld_dev. cbn [started_stack st_netdevs st_net_devices]. rewrite lookup_singleton_eq.
  rewrite (proj2 (Z.eqb_neq (net_ipaddr lo) addr)); [done|]. intros <-. by vm_compute in Hn.
Qed.

(** C12: the start of the program.  net_stack_init brings the static variables into a
    state from which everything else is proved: the ownership invariant of the receive
    path with no packet outstanding, the invariants of the UDP and TCP port tables, an
    empty hand-over between the threads of the shell.  The host then answers to the
    loopback network 127.0.0.0/8 and the wildcard, and has a route to the loopback
    network and nowhere else. *)
Theorem net_stack_init_ok (d : devid) :
  exists p, net_stack_init d static_process = Ret tt p /\
    inv {[d := lo]} (pr_stack p) [] /\ ports_inv (st_sock (pr_stack p)) /\ tports_inv (st_sock (pr_stack p)) /\
    pending_work (pr_shell p) = None /\ work_quit (pr_shell p) = false /\ master_quit p = false /\
    (forall addr, local_address addr (pr_stack p) = Ret ((addr =? 0) || (Z.land 0xff addr =? 0x7f)) (pr_stack p)) /\
    (forall addr, rt_lookup (st_rt_head (pr_stack p)) addr = if Z.land 0xff addr =? 0x7f then Some (lo_route d) else None).
Proof.
  eexists. split; [apply net_stack_init_run|]. cbn [pr_stack pr_shell].
  split_and!; [apply started_inv|apply start_udp|apply start_tcp|done|done|done|apply started_local|done].
Qed.

(** ** The end *)

Definition all_running : list thread_func := [NetTimer; TcpTimer; ShellWorker].

Lemma net_stack_run_ok s t q ids : length ids = 4%nat ->
  net_stack_run 0 0 0 (mk_process s t q ids []) =
    Ret tt (mk_process s t q (<[3%nat := Some ShellWorker]> (<[1%nat := Some TcpTimer]> (<[0%nat := Some NetTimer]> ids))) all_running).
Proof. by destruct ids as [|? [|? [|? [|? []]]]]. Qed.

(** No thread is started after one that could not be. *)
Lemma net_stack_run_fails p e0 e1 e3 : e0 <> 0 \/ e1 <> 0 \/ e3 <> 0 -> net_stack_run e0 e1 e3 p = Fault Exit.
Proof.
  intros Hd. unfold net_stack_run, newthread.
  destruct (Z.eqb_spec e0 0); [|done]. destruct (Z.eqb_spec e1 0); [|done]. by destruct (Z.eqb_spec e3 0); [lia|].
Qed.

(** net_stack_exit waits until the worker of the shell has ended.  It frees the loopback
    device, which the routing table and the variable loop go on naming: a device thread
    that still receives packets then uses freed memory. *)
Lemma net_stack_exit_ok s t q v : st_netdevs s !! st_loop s = Some v ->
  let p := mk_process s t q [Some NetTimer; Some TcpTimer; None; Some ShellWorker] all_running in
  match net_stack_exit p with
  | Ret true p' => th_worker t = WExit /\ pr_running p' = [] /\ st_netdevs (pr_stack p') = delete (st_loop s) (st_netdevs s) /\
      st_rt_head (pr_stack p') = st_rt_head s /\ (forall addr, addr <> 0 -> local_address addr (pr_stack p') = Fault UseAfterFree)
  | Ret false p' => th_worker t <> WExit /\ pr_running p' = [ShellWorker]
  | _ => False
  end.
Proof.
  intros Hv p. unfold net_stack_exit, cancel, bind, gets, modify, ret. cbn [p pr_tids lookup list_lookup mjoin option_join id set_pr_running pr_running].
  cbn [set_pr_running pr_shell p]. destruct (decide (th_worker t = WExit)) as [Hw|Hw]; [|done].
  unfold on_stack, netdev_exit, loop_exit, netdev_free, bind, gets, modify, ret.
  cbn [set_pr_stack set_pr_running pr_stack pr_tids lookup list_lookup mjoin option_join p]. unfold ld_dev at 1. rewrite Hv.
  split_and!; try done. intros addr Ha. unfold local_address. rewrite (proj2 (Z.eqb_neq addr 0)) by done.
  unfold bind, gets, ld_dev at 1. cbn [set_pr_stack pr_stack st_loop st_netdevs set_net_devices set_netdevs]. by rewrite lookup_delete_eq.
Qed.
