(* ===== verification/Ping.v ===== *)
(** * The ping programs: app/ping.c over a raw socket, shell/ping_command.c over IP

    The static variables of each program are a record that the functions pass on; a
    call that blocks ends the function, and the next one starts where the thread
    wakes.  getopt() is not modelled: what it finds on the command line is given
    ([cmdline]). *)

From stdpp Require Import prelude list gmap.
From Stdlib Require Import ZArith Lia.
From S2P Require Import Prelude Structs Checksum Route Pkb FastPipe ArpCache Wait Sock TcpTable Stack Arp IpOut Icmp Raw IpIn NetIn Sample Socket Lib.

(** ** The data *)

Record ping := mk_ping {
  pg_id : Z; pg_seq : Z; pg_size : Z; pg_count : Z; pg_recv : Z; pg_psend : Z; pg_precv : Z;
  pg_finite : bool; pg_ttl : Z; pg_ipaddr : Z; pg_sock : option soid
}.

Definition set_pg_seq (g : ping) v := mk_ping (pg_id g) v (pg_size g) (pg_count g) (pg_recv g) (pg_psend g) (pg_precv g) (pg_finite g) (pg_ttl g) (pg_ipaddr g) (pg_sock g).
Definition set_pg_size (g : ping) v := mk_ping (pg_id g) (pg_seq g) v (pg_count g) (pg_recv g) (pg_psend g) (pg_precv g) (pg_finite g) (pg_ttl g) (pg_ipaddr g) (pg_sock g).
Definition set_pg_count (g : ping) v := mk_ping (pg_id g) (pg_seq g) (pg_size g) v (pg_recv g) (pg_psend g) (pg_precv g) (pg_finite g) (pg_ttl g) (pg_ipaddr g) (pg_sock g).
Definition set_pg_recv (g : ping) v := mk_ping (pg_id g) (pg_seq g) (pg_size g) (pg_count g) v (pg_psend g) (pg_precv g) (pg_finite g) (pg_ttl g) (pg_ipaddr g) (pg_sock g).
Definition set_pg_psend (g : ping) v := mk_ping (pg_id g) (pg_seq g) (pg_size g) (pg_count g) (pg_recv g) v (pg_precv g) (pg_finite g) (pg_ttl g) (pg_ipaddr g) (pg_sock g).
Definition set_pg_precv (g : ping) v := mk_ping (pg_id g) (pg_seq g) (pg_size g) (pg_count g) (pg_recv g) (pg_psend g) v (pg_finite g) (pg_ttl g) (pg_ipaddr g) (pg_sock g).
Definition set_pg_finite (g : ping) v := mk_ping (pg_id g) (pg_seq g) (pg_size g) (pg_count g) (pg_recv g) (pg_psend g) (pg_precv g) v (pg_ttl g) (pg_ipaddr g) (pg_sock g).
Definition set_pg_ttl (g : ping) v := mk_ping (pg_id g) (pg_seq g) (pg_size g) (pg_count g) (pg_recv g) (pg_psend g) (pg_precv g) (pg_finite g) v (pg_ipaddr g) (pg_sock g).
Definition set_pg_ipaddr (g : ping) v := mk_ping (pg_id g) (pg_seq g) (pg_size g) (pg_count g) (pg_recv g) (pg_psend g) (pg_precv g) (pg_finite g) (pg_ttl g) v (pg_sock g).
Definition set_pg_sock (g : ping) v := mk_ping (pg_id g) (pg_seq g) (pg_size g) (pg_count g) (pg_recv g) (pg_psend g) (pg_precv g) (pg_finite g) (pg_ttl g) (pg_ipaddr g) v.

(** What getopt() makes of the command line: argc, the options with their arguments,
    in order, and the other arguments. *)
Record cmdline := mk_cmdline { cl_argc : Z; cl_opts : list (Z * list Z); cl_rest : list (list Z) }.

(** ** The code *)

Definition ping_init_options (g : ping) : ping := mk_ping (u16 (pg_id g + 1)) 0 56 0 0 0 0 false 64 0 None.

(** The loop over the options; the result is false for usage. *)
Fixpoint ping_opts (opts : list (Z * list Z)) : comp ping bool :=
  match opts with
  | [] => ret true
  | (c, optarg) :: r =>
      if c =? 115 then (* s *)
        let* n := atoi optarg in modify (fun g => set_pg_size g n);; ping_opts r
      else if c =? 99 then (* c *)
        let* n := atoi optarg in
        modify (fun g => set_pg_finite (set_pg_recv (set_pg_count g n) n) true);; ping_opts r
      else if c =? 116 then (* t *)
        let* n := atoi optarg in modify (fun g => set_pg_ttl g n);; ping_opts r
      else ret false
  end.

(** Behind the options: the ranges, and the address. *)
Definition ping_check (rest : list (list Z)) : comp ping Z :=
  let* g := gets (fun g => g) in
  if (pg_size g <? 0) || (65507 <? pg_size g) then ret (-2)
  else if (pg_ttl g <? 0) || (255 <? pg_ttl g) then ret (-2)
  else
    match rest with
    | [addr] =>
        let* o := str2ip addr in
        match o with
        | None => ret (-2)
        | Some ip => modify (fun g => set_pg_ipaddr g ip);; ret 0
        end
    | _ => ret (-1)
    end.

Definition ping_parse_args (c : cmdline) : comp ping Z :=
  if cl_argc c <? 2 then ret (-1)
  else
    let* ok := ping_opts (cl_opts c) in
    if negb ok then ret (-1) else ping_check (cl_rest c).

(** The ICMP message: icmp_id and icmp_seq are the halves of the union. *)
Definition echo_request (id seq size : Z) : list Z :=
  let i ck := mk_icmp ICMP_T_ECHOREQ 0 ck (_htons id + 65536 * _htons seq) in
  let data := replicate (Z.to_nat size) 120 in
  encode (i (icmp_chksum (encode (i 0) ++ data))) ++ data.

Section Ping.
Context `{OS} `{Reentry}.

Definition ping_close_socket (g : ping) : comp stack ping :=
  match pg_sock g with
  | Some so => _close so;; ret (set_pg_sock g None)
  | None => ret g
  end.

(** A socket call with a NULL socket dereferences it. *)
Definition ping_send_packet (g : ping) : comp stack ping :=
  let msg := echo_request (pg_id g) (pg_seq g) (pg_size g) in
  let g := set_pg_seq g (u16 (pg_seq g + 1)) in
  let* so := of_opt NullDeref (pg_sock g) in
  _send so msg (mk_sock_addr 0 (pg_ipaddr g) 0 0);;
  ret (set_pg_psend g (pg_psend g + 1)).

(** What the alarm handler does with the count when a request was sent: go on, with
    alarm(1), or close the socket. *)
Definition ping_next (finite : bool) (count : Z) : Z * bool :=
  if negb finite then (count, true)
  else if 0 <? count - 1 then (count - 1, true)
  else if count - 1 =? 0 then (count - 1 - 1, true)
  else (count - 1, false).

(** The result says whether the alarm is set again. *)
Definition ping_sigalrm (g : ping) : comp stack (ping * bool) :=
  let* g := ping_send_packet g in
  let '(count, again) := ping_next (pg_finite g) (pg_count g) in
  let g := set_pg_count g count in
  if again then ret (g, true)
  else let* g := ping_close_socket g in ret (g, false).

Definition ping_sigint (g : ping) : comp stack ping := ping_close_socket g.

(** Is the packet an answer? *)
Definition ping_accepts (g : ping) (h : ip) (i : icmp) : bool :=
  (ip_pro h =? IP_P_ICMP) && (_ntohs (icmp_undata i mod 65536) =? pg_id g) && (icmp_type i =? ICMP_T_ECHORLY).

(** The body of the loop of recv_packet behind _recv. *)
Definition ping_got (g : ping) (pkb : pid) : comp stack ping :=
  let* h := ld_ip pkb in
  let* i := ld_at icmp pkb (ETH_HRD_SZ + iphlen h) in
  let g := if ping_accepts g h i then set_pg_precv (set_pg_recv g (pg_recv g - 1)) (pg_precv g + 1) else g in
  free_pkb pkb;;
  ret g.

(** The loop of recv_packet ends, or waits for a packet. *)
Inductive ping_wait := PingDone (g : ping) | PingAsleep (g : ping).

Fixpoint ping_recv_loop (fuel : nat) (g : ping) : comp stack ping_wait :=
  if negb (pg_finite g) || (0 <? pg_recv g) then
    match fuel with
    | O => out_of_fuel
    | S n =>
        let* so := of_opt NullDeref (pg_sock g) in
        let* r := _recv so in
        match r with
        | Blocked => ret (PingAsleep g)
        | Received None => ret (PingDone g)
        | Received (Some pkb) => let* g := ping_got g pkb in ping_recv_loop n g
        end
    end
  else ret (PingDone g).

(** ... and where the thread wakes up in _recv. *)
Definition ping_recv_resume (fuel : nat) (so : soid) (g : ping) : comp stack ping_wait :=
  let* r := _recv_resume so in
  match r with
  | Blocked => ret (PingAsleep g)
  | Received None => ret (PingDone g)
  | Received (Some pkb) => let* g := ping_got g pkb in ping_recv_loop fuel g
  end.

(** The end of ping; the loss in percent that ping_stat prints is a division by the
    number of requests. *)
Definition ping_stop (g : ping) : comp stack (ping * Z) :=
  let* g := ping_close_socket g in
  guard Undefined (negb (pg_psend g =? 0));;
  ret (g, Z.quot ((pg_psend g - pg_precv g) * 100) (pg_psend g)).

(** The start of ping, up to the first wait; [None] is a bad command line. *)
Definition ping_main (fuel : nat) (c : cmdline) (g : ping) : comp stack (option ping_wait) := fun s =>
  match ping_parse_args c (ping_init_options g) with
  | Ret err g =>
      (if err <? 0 then ret None
       else
         let* so := _socket AF_INET SOCK_RAW IP_P_ICMP in
         let* '(g, _) := ping_sigalrm (set_pg_sock g so) in
         let* w := ping_recv_loop fuel g in
         ret (Some w)) s
  | Fault f => Fault f
  | NoFuel => NoFuel
  end.

(** *** shell/ping_command.c *)

(** The options are the same; they are set to their defaults behind the test of argc. *)
Definition ping2_parse_args (c : cmdline) : comp ping Z :=
  if cl_argc c <? 2 then ret (-1)
  else
    modify (fun g => mk_ping (u16 (pg_id g + 1)) 0 56 0 (pg_recv g) (pg_psend g) (pg_precv g) false 64 0 (pg_sock g));;
    let* ok := ping_opts (cl_opts c) in
    if negb ok then ret (-1) else ping_check (cl_rest c).

(** [veth] is the pointer to the tap device, of which the address is printed. *)
Definition ping2_send_packet (veth : option devid) (g : ping) : comp stack ping :=
  let* pkb := alloc_pkb (ETH_HRD_SZ + IP_HRD_SZ + ICMP_HRD_SZ + pg_size g) in
  let g := set_pg_seq g (u16 (pg_seq g + 1)) in
  st_bytes pkb (ETH_HRD_SZ + IP_HRD_SZ) (echo_request (pg_id g) (pg_seq g) (pg_size g));;
  let* d := of_opt NullDeref veth in
  ld_dev d;;
  ip_send_info pkb 0 (u16 (IP_HRD_SZ + ICMP_HRD_SZ + pg_size g)) (u8 (pg_ttl g)) IP_P_ICMP (pg_ipaddr g);;
  ret g.

Definition ping2_sigalrm (veth : option devid) (g : ping) : comp stack ping :=
  if negb (pg_finite g) || (0 <? pg_count g) then ping2_send_packet veth (set_pg_count g (pg_count g - 1)) else ret g.

End Ping.

(** ** The messages *)

(** An echo request with its checksum field and what stands behind it. *)
Definition echo_msg (ck : Z) (r : list Z) : list Z := 8 :: 0 :: le_enc 2 ck ++ r.

Lemma echo_msg_put16 r ck : echo_msg ck r = put16 (echo_msg 0 r) (2 * 1) ck.
Proof. unfold echo_msg, put16, patch. done. Qed.

Lemma echo_msg_ok ck r : bytes_ok r -> bytes_ok (echo_msg ck r).
Proof. intros. do 2 (apply Forall_cons; split; [unfold is_u8; lia|]). apply bytes_ok_app. auto with tapip. Qed.

Lemma echo_msg_verifies r : bytes_ok r -> zlen r <= 65535 ->
  icmp_chksum (echo_msg (icmp_chksum (echo_msg 0 r)) r) = 0.
Proof.
  intros Hr Hl. pose proof (echo_msg_ok 0 r Hr) as Hb. unfold icmp_chksum in *.
  assert (E : put16 (echo_msg 0 r) (2 * 1) 0 = echo_msg 0 r) by (symmetry; apply echo_msg_put16).
  rewrite echo_msg_put16. apply checksum_fill; [done|unfold is_u32; lia|lia| | |rewrite E; by left].
  - unfold echo_msg, zlen. cbn. lia.
  - rewrite E. pose proof (wsum_nonneg _ Hb). pose proof (wsum_bound _ Hb) as B.
    assert (zlen (echo_msg 0 r) = 4 + zlen r) as L by (unfold echo_msg, zlen; cbn; lia).
    rewrite L in B. unfold is_u32. zmod.
Qed.

Lemma le_enc_zero v : is_u16 v -> Forall (eq 0) (le_enc 2 v) <-> v = 0.
Proof. intros Hv. cbn. rewrite !Forall_cons, Forall_nil. unfold is_u16 in Hv. split; [intros (? & ? & _); zmod|intros ->; done]. Qed.

Lemma htons_zero v : is_u16 v -> _htons v = 0 <-> v = 0.
Proof. intros Hv. split; [|by intros ->]. intros E. apply htons_inj; [done|unfold is_u16; lia|by rewrite E]. Qed.

(** What the stores of icmp_echo_request make of a request. *)
Lemma echo_reply_msg ck u0 u1 u2 u3 d : bytes_ok (u0 :: u1 :: u2 :: u3 :: d) ->
  exists ck', echo_reply_bytes (echo_msg ck (u0 :: u1 :: u2 :: u3 :: d)) = 0 :: 0 :: le_enc 2 ck' ++ u0 :: u1 :: u2 :: u3 :: d.
Proof. intros Hb. eexists. apply (echo_reply_open _ _ u0 u1 u2 u3 d), (echo_msg_ok ck _ Hb). Qed.

(** The two halves of the union. *)
Definition id_seq (id seq : Z) : Z := _htons id + 65536 * _htons seq.

Lemma id_seq_bytes id seq : le_enc 4 (id_seq id seq) = le_enc 2 (_htons id) ++ le_enc 2 (_htons seq).
Proof.
  pose proof (htons_range id). pose proof (htons_range seq). unfold id_seq, is_u16 in *. cbn. do 4 (apply (f_equal2 cons); [zmod|]). done.
Qed.

Section Messages.
Context (id seq size : Z) (Hid : is_u16 id) (Hseq : is_u16 seq) (Hsize : 0 <= size <= 65507).

(** What is behind the checksum. *)
Definition request_tail : list Z := le_enc 4 (id_seq id seq) ++ replicate (Z.to_nat size) 120.

Lemma request_tail_ok : bytes_ok request_tail /\ zlen request_tail = 4 + size.
Proof using Hsize.
  unfold request_tail. split.
  - apply bytes_ok_app. split; [auto with tapip|]. apply Forall_replicate. unfold is_u8. lia.
  - autorewrite with bytes. lia.
Qed.

Lemma echo_request_msg : echo_request id seq size = echo_msg (icmp_chksum (echo_msg 0 request_tail)) request_tail.
Proof. done. Qed.

Lemma request_tail_zero : Forall (eq 0) request_tail <-> id = 0 /\ seq = 0 /\ size = 0.
Proof using Hid Hseq Hsize.
  assert (Hd : Forall (eq 0) (replicate (Z.to_nat size) 120) <-> size = 0).
  { split; [|by intros ->]. intros F. destruct (Z.to_nat size) eqn:E; [lia|]. by inversion F. }
  unfold request_tail. rewrite id_seq_bytes, !Forall_app, !le_enc_zero, !htons_zero, Hd by (done || apply htons_range).
  tauto.
Qed.

End Messages.

(** ping takes a reply with its identifier. *)
Lemma reply_accepted g h seq size ck r : is_u16 (pg_id g) -> ip_pro h = IP_P_ICMP ->
  r = 0 :: 0 :: le_enc 2 ck ++ request_tail (pg_id g) seq size ->
  ping_accepts g h (decode (slice r 0 ICMP_HRD_SZ)) = true.
Proof.
  intros Hid Hp ->. pose proof (htons_range (pg_id g)) as R1. pose proof (htons_range seq) as R2.
  set (i := decode _). assert (E : icmp_undata i = id_seq (pg_id g) seq).
  { change (icmp_undata i) with (le_dec (le_enc 4 (id_seq (pg_id g) seq))). apply le_dec_enc. unfold id_seq, is_u16 in *. lia. }
  assert (Ety : icmp_type i = ICMP_T_ECHORLY) by done. clearbody i.
  unfold ping_accepts. rewrite E, Ety, Hp. unfold id_seq.
  replace ((_htons (pg_id g) + 65536 * _htons seq) mod 65536) with (_htons (pg_id g)) by (unfold is_u16 in *; zmod).
  unfold _ntohs. rewrite htons_involutive by assumption. rewrite !Z.eqb_refl. reflexivity.
Qed.



(** ** How many requests *)

(** Alarm after alarm, from the first call of sigalrm until the socket is closed. *)
Fixpoint ping_alarms `{OS} `{Reentry} (fuel : nat) (g : ping) : comp stack ping :=
  match fuel with
  | O => out_of_fuel
  | S n => let* '(g, again) := ping_sigalrm g in if again then ping_alarms n g else ret g
  end.

Section Count.
Context `{OS} `{Reentry}.

Lemma ping_sigalrm_counts g s r s' : ping_sigalrm g s = Ret r s' ->
  pg_finite r.1 = pg_finite g /\ pg_psend r.1 = pg_psend g + 1 /\
  (pg_count r.1, r.2) = ping_next (pg_finite g) (pg_count g).
Proof.
  unfold ping_sigalrm, ping_send_packet. rewrite !bind_assoc. intros (so & s1 & _ & E)%bind_inv.
  rewrite !bind_assoc in E. apply bind_inv in E as (? & s2 & _ & E). rewrite bind_ret in E. cbn in E.
  destruct (ping_next _ _) as [count again]. destruct again; [by injection E as <- _|].
  apply bind_inv in E as (g' & s3 & E1 & E2). injection E2 as <- _. unfold ping_close_socket in E1. cbn in E1.
  destruct (pg_sock g); [apply bind_inv in E1 as (? & s4 & _ & E1)|]; by injection E1 as <- _.
Qed.

(** With -c n, n >= 0, and no answer, the socket is closed behind n + 1 requests. *)
Lemma ping_sends_one_more fuel g s g' s' : pg_finite g = true -> -1 <= pg_count g ->
  ping_alarms fuel g s = Ret g' s' -> pg_psend g' = pg_psend g + Z.max 1 (pg_count g + 1).
Proof.
  revert g s. induction fuel as [|fuel IH]; intros g s Hf Hc; [done|].
  cbn [ping_alarms]. intros ([g1 again] & s1 & (Hf1 & Hp & Hn)%ping_sigalrm_counts & E)%bind_inv. cbn in *.
  rewrite Hf in Hn. unfold ping_next in Hn. cbn [negb] in Hn.
  repeat case_if_in Hn; injection Hn as Hc1 ->; try (apply IH in E; [|congruence|lia]; lia).
  injection E as <- _. lia.
Qed.
End Count.

(** veth_init is never called: ping2 does not survive its first packet. *)
Lemma ping2_never_sends `{OS} `{Reentry} g s g' s' : negb (pg_finite g) || (0 <? pg_count g) = true ->
  ping2_sigalrm None g s <> Ret g' s'.
Proof.
  intros Hg. unfold ping2_sigalrm. rewrite Hg. unfold ping2_send_packet.
  intros (pkb & s1 & _ & E)%bind_inv. apply bind_inv in E as ([] & s2 & _ & E). by apply bind_inv in E as (d & s3 & Ed & _).
Qed.

(** ** Two runs *)

Definition ping_static : ping := mk_ping 0 0 0 0 0 0 0 false 0 0 None.
Definition ping_once (addr : list Z) : cmdline := mk_cmdline 4 [(99, [49])] [addr].

(** ping -c 1 10.0.0.2, whose hardware address is not known yet: an ARP request is
    sent, the echo request waits for the answer, and ping for its reply. *)
Lemma ping_peer_waits :
  match @ping_main _ (reentry 5) 5 (ping_once [49; 48; 46; 48; 46; 48; 46; 50]) ping_static sample_stack with
  | Ret (Some (PingAsleep g)) s => pg_psend g = 1 /\ pg_count g = -1 /\ pg_recv g = 1 /\ length (st_wire s) = 1%nat
  | _ => False
  end.
Proof. vm_compute. done. Qed.

(** ping -c 1 127.0.0.1: the packet was freed when raw_send_pkb reads its length. *)
Lemma ping_localhost_reads_freed :
  @ping_main _ (reentry 5) 5 (ping_once [49; 50; 55; 46; 48; 46; 48; 46; 49]) ping_static sample_stack = Fault UseAfterFree.
Proof. vm_compute. done. Qed.
