(* ===== verification/Apps.v ===== *)
(** * The programs snc and perf, and the packet statistics: app/snc.c, app/perf.c, net/stat.c

    The static variables of a program are a record that its functions pass on.  A call
    that blocks ends a function; the next one starts where the thread wakes, with what
    the blocking call left.  getopt(), the standard input and the clock are given. *)

From stdpp Require Import prelude list gmap.
From Stdlib Require Import ZArith Lia.
From Stdlib Require String.
From S2P Require Import Prelude Structs Checksum Route Pkb FastPipe ArpCache Wait Sock TcpTable Stack Arp IpOut Icmp Raw Keeps TcpSock Udp Socket Lib Ping.
Import String.StringSyntax.

(** ** The data *)

Definition F_BIND : Z := 1.
Definition F_CONNECT : Z := 2.
Definition F_TCP : Z := 4.
Definition F_UDP : Z := 8.
Definition F_DEBUG : Z := 16.
Definition BUF_SIZE : Z := 1500.

(** The static variables, and what was written to the standard output; [ap_type] is of
    snc, [ap_length] the packet_length of perf. *)
Record app := mk_app {
  ap_flags : Z; ap_sock : option soid; ap_csock : option soid; ap_addr : sock_addr;
  ap_type : Z; ap_length : Z; ap_interrupt : bool; ap_out : list Z
}.

Definition set_ap_flags (g : app) v := mk_app v (ap_sock g) (ap_csock g) (ap_addr g) (ap_type g) (ap_length g) (ap_interrupt g) (ap_out g).
Definition set_ap_sock (g : app) v := mk_app (ap_flags g) v (ap_csock g) (ap_addr g) (ap_type g) (ap_length g) (ap_interrupt g) (ap_out g).
Definition set_ap_csock (g : app) v := mk_app (ap_flags g) (ap_sock g) v (ap_addr g) (ap_type g) (ap_length g) (ap_interrupt g) (ap_out g).
Definition set_ap_addr (g : app) v := mk_app (ap_flags g) (ap_sock g) (ap_csock g) v (ap_type g) (ap_length g) (ap_interrupt g) (ap_out g).
Definition set_ap_type (g : app) v := mk_app (ap_flags g) (ap_sock g) (ap_csock g) (ap_addr g) v (ap_length g) (ap_interrupt g) (ap_out g).
Definition set_ap_length (g : app) v := mk_app (ap_flags g) (ap_sock g) (ap_csock g) (ap_addr g) (ap_type g) v (ap_interrupt g) (ap_out g).
Definition set_ap_interrupt (g : app) v := mk_app (ap_flags g) (ap_sock g) (ap_csock g) (ap_addr g) (ap_type g) (ap_length g) v (ap_out g).
Definition set_ap_out (g : app) v := mk_app (ap_flags g) (ap_sock g) (ap_csock g) (ap_addr g) (ap_type g) (ap_length g) (ap_interrupt g) v.

Definition has_flag (g : app) (f : Z) : bool := negb (Z.land (ap_flags g) f =? 0).

(** ** The command lines *)

Definition snc_init_options (g : app) : app :=
  mk_app F_TCP None None (mk_sock_addr 0 0 0 0) SOCK_STREAM (ap_length g) false (ap_out g).

(** The flags of perf keep their values from the run before. *)
Definition perf_init_options (g : app) : app :=
  mk_app (ap_flags g) None None (mk_sock_addr 0 0 0 0) (ap_type g) (ap_length g) false (ap_out g).

(** The options -b and -c. *)
Definition opt_bind (optarg : list Z) : comp app Z :=
  let* r := parse_ip_port optarg in
  modify (fun g => let a := ap_addr g in
    set_ap_flags (set_ap_addr g (mk_sock_addr (default (src_addr a) (pp_addr r)) (dst_addr a) (default (src_port a) (pp_nport r)) (dst_port a)))
      (Z.lor (ap_flags g) F_BIND));;
  ret (pp_ret r).

Definition opt_connect (optarg : list Z) : comp app Z :=
  let* r := parse_ip_port optarg in
  modify (fun g => let a := ap_addr g in
    set_ap_flags (set_ap_addr g (mk_sock_addr (src_addr a) (default (dst_addr a) (pp_addr r)) (src_port a) (default (dst_port a) (pp_nport r))))
      (Z.lor (ap_flags g) F_CONNECT));;
  ret (pp_ret r).

(** One option of snc; the result is err, or nothing for usage. *)
Definition snc_opt (c : Z) (optarg : list Z) : comp app (option Z) :=
  if c =? 100 then (* d *)
    modify (fun g => set_ap_flags g (Z.lor (ap_flags g) F_DEBUG));; ret (Some 0)
  else if c =? 98 then let* e := opt_bind optarg in ret (Some e) (* b *)
  else if c =? 99 then let* e := opt_connect optarg in ret (Some e) (* c *)
  else if c =? 117 then (* u *)
    modify (fun g => set_ap_flags g (Z.lor (Z.land (ap_flags g) (Z.lnot F_TCP)) F_UDP));; ret (Some 0)
  else ret None.

Definition perf_opt (c : Z) (optarg : list Z) : comp app (option Z) :=
  if c =? 100 then (* d *)
    modify (fun g => set_ap_flags g (Z.lor (ap_flags g) F_DEBUG));; ret (Some 0)
  else if c =? 98 then let* e := opt_bind optarg in ret (Some e) (* b *)
  else if c =? 99 then let* e := opt_connect optarg in ret (Some e) (* c *)
  else if c =? 108 then (* l *)
    let* n := atoi optarg in
    let n := u32 n in
    modify (fun g => set_ap_length g (if BUF_SIZE <? n then BUF_SIZE else n));; ret (Some 0)
  else ret None.

(** The loop over the options; err is not negative when it goes on, so the options that
    do not set it leave it so. *)
Fixpoint app_opts (opt : Z -> list Z -> comp app (option Z)) (opts : list (Z * list Z)) : comp app Z :=
  match opts with
  | [] => ret 0
  | (c, optarg) :: r =>
      let* o := opt c optarg in
      match o with
      | None => ret (-1)
      | Some err => if err <? 0 then ret (-2) else app_opts opt r
      end
  end.

(** The tests behind the options: one of the two models, and no other argument. *)
Definition app_model (rest : list (list Z)) (g : app) : Z :=
  let b := Z.land (ap_flags g) (Z.lor F_BIND F_CONNECT) in
  if b =? Z.lor F_BIND F_CONNECT then -1
  else if b =? 0 then -1
  else if 0 <? zlen rest then -1
  else 0.

Definition snc_parse_args (c : cmdline) : comp app Z :=
  let* e := app_opts snc_opt (cl_opts c) in
  if e <? 0 then ret e
  else
    let* e := gets (app_model (cl_rest c)) in
    if e <? 0 then ret e
    else
      let* udp := gets (fun g => has_flag g F_UDP) in
      when udp (modify (fun g => set_ap_type g SOCK_DGRAM));;
      ret 0.

Definition perf_parse_args (c : cmdline) : comp app Z :=
  modify (fun g => set_ap_length g 10);;
  let* e := app_opts perf_opt (cl_opts c) in
  if e <? 0 then ret e else gets (app_model (cl_rest c)).

(** ** The sockets *)

Section Apps.
Context `{OS} `{Reentry}.

Definition app_close_socket (g : app) : comp stack app :=
  match ap_sock g with Some so => _close so | None => ret tt end;;
  match ap_csock g with Some so => _close so | None => ret tt end;;
  ret (set_ap_csock (set_ap_sock g None) None).

Definition create_socket (type : Z) (g : app) : comp stack (app * Z) :=
  let* o := _socket AF_INET type 0 in
  ret (set_ap_sock g o, match o with Some _ => 0 | None => -1 end).

Definition app_sigint (g : app) : comp stack app := app_close_socket (set_ap_interrupt g true).

(** *** snc *)

(** Where the thread of snc stands when it is not running: send_packet and recv_packet
    returned, or it waits in a call on the socket [so]. *)
Inductive snc_wait :=
  | SncEnd
  | InConnect (so w : soid)
  | InStdin
  | InAccept (so newsock w : soid)
  | InRead (so w : soid) (out : list Z)
  | InRecv (so : soid).

Definition snc_connected (err : Z) : snc_wait := if err <? 0 then SncEnd else InStdin.

Definition snc_send_packet (g : app) : comp stack snc_wait :=
  if has_flag g F_TCP then
    let* so := of_opt NullDeref (ap_sock g) in
    let* r := _connect so (ap_addr g) in
    match r with
    | Sleeping w => ret (InConnect so w)
    | Returned err => ret (snc_connected err)
    end
  else ret InStdin.

(** A turn of the loop of send_packet, with the result of read() and the buffer. *)
Definition snc_stdin (g : app) (len : Z) (buf : list Z) : comp stack snc_wait :=
  if ap_interrupt g then ret SncEnd
  else if len <=? 0 then ret SncEnd
  else
    let* so := of_opt NullDeref (ap_sock g) in
    if has_flag g F_UDP then
      let* n := _send so (take (Z.to_nat len) buf) (ap_addr g) in
      ret (if negb (n =? len) then SncEnd else InStdin)
    else
      let* n := _write so (take (Z.to_nat len) buf) in
      ret (if n <? 0 then SncEnd else InStdin).

(** What printf prints for %.*s. *)
Definition print_text (len : Z) (buf : list Z) : list Z :=
  take_while (fun c => negb (c =? 0)) (take (Z.to_nat len) buf).

(** The loop around _read in recv_tcp_packet, behind a call that returned. *)
Fixpoint snc_read_loop (fuel : nat) (g : app) (so : soid) (r : recv_call) : comp stack (app * snc_wait) :=
  match r with
  | RecvSleep w out => ret (g, InRead so w out)
  | RecvDone (len, buf) =>
      if len <=? 0 then ret (g, SncEnd)
      else
        match fuel with
        | O => out_of_fuel
        | S n =>
            let g := set_ap_out g (ap_out g ++ print_text len buf) in
            let* so := of_opt NullDeref (ap_csock g) in
            let* r := _read so 512 in
            snc_read_loop n g so r
        end
  end.

(** recv_tcp_packet behind _accept. *)
Definition snc_accepted (fuel : nat) (g : app) (so : soid) (r : option soid + soid * soid) : comp stack (app * snc_wait) :=
  match r with
  | inr (newsock, w) => ret (g, InAccept so newsock w)
  | inl None => ret (set_ap_csock g None, SncEnd)
  | inl (Some cso) =>
      let* r := _read cso 512 in
      snc_read_loop fuel (set_ap_csock g (Some cso)) cso r
  end.

Definition recv_tcp_packet (fuel : nat) (g : app) : comp stack (app * snc_wait) :=
  let* so := of_opt NullDeref (ap_sock g) in
  let* e := _listen so 10 in
  if e <? 0 then ret (g, SncEnd)
  else let* r := _accept so in snc_accepted fuel g so r.

(** One packet for the standard output; [written] is the result of write(). *)
Definition snc_print_pkb (written : list Z -> Z) (g : app) (pkb : pid) : comp stack (app * bool) :=
  let* h := ld_ip pkb in
  let* u := ld_at udp pkb (ETH_HRD_SZ + iphlen h) in
  let len := _ntohs (udp_length u) - UDP_HRD_SZ in
  let* text := ld_bytes pkb (ETH_HRD_SZ + iphlen h + UDP_HRD_SZ) len in
  free_pkb pkb;;
  ret (set_ap_out g (ap_out g ++ take (Z.to_nat (written text)) text), written text =? len).

(** The loop of recv_udp_packet behind a call of _recv. *)
Fixpoint snc_udp_loop (written : list Z -> Z) (fuel : nat) (g : app) (so : soid) (r : Raw.recv_result) : comp stack (app * snc_wait) :=
  match r with
  | Blocked => ret (g, InRecv so)
  | Received None => ret (g, SncEnd)
  | Received (Some pkb) =>
      let* '(g, ok) := snc_print_pkb written g pkb in
      if negb ok then ret (g, SncEnd)
      else
        match fuel with
        | O => out_of_fuel
        | S n =>
            let* so := of_opt NullDeref (ap_sock g) in
            let* r := _recv so in
            snc_udp_loop written n g so r
        end
  end.

Definition recv_udp_packet (written : list Z -> Z) (fuel : nat) (g : app) : comp stack (app * snc_wait) :=
  let* so := of_opt NullDeref (ap_sock g) in
  let* r := _recv so in
  snc_udp_loop written fuel g so r.

Definition snc_recv_packet (written : list Z -> Z) (fuel : nat) (g : app) : comp stack (app * snc_wait) :=
  let* so := of_opt NullDeref (ap_sock g) in
  let* e := _bind so (ap_addr g) in
  if e <? 0 then ret (g, SncEnd)
  else if has_flag g F_UDP then recv_udp_packet written fuel g
  else recv_tcp_packet fuel g.

(** snc up to its first wait; [None] is a bad command line.  When the thread is at
    [SncEnd], snc closes its sockets. *)
Definition snc_main (written : list Z -> Z) (fuel : nat) (c : cmdline) (g : app) : comp stack (option (app * snc_wait)) := fun s =>
  match snc_parse_args c (snc_init_options g) with
  | Ret err g =>
      (if err <? 0 then ret None
       else
         let* '(g, err) := create_socket (ap_type g) g in
         if err <? 0 then ret (Some (g, SncEnd))
         else if has_flag g F_BIND then let* r := snc_recv_packet written fuel g in ret (Some r)
         else let* w := snc_send_packet g in ret (Some (g, w))) s
  | Fault f => Fault f
  | NoFuel => NoFuel
  end.

(** The call in which the thread waited returns; at the end the sockets are closed. *)
Definition snc_resume (written : list Z -> Z) (fuel : nat) (g : app) (sk : skid) (w : snc_wait) : comp stack (app * snc_wait) :=
  match w with
  | SncEnd => let* g := app_close_socket g in ret (g, SncEnd)
  | InStdin => ret (g, InStdin)
  | InConnect so w => let* err := _connect_resume so sk w in ret (g, snc_connected err)
  | InAccept so newsock w => let* r := _accept_resume so newsock sk w in snc_accepted fuel g so r
  | InRead so w out => let* r := _read_resume so sk w out 512 in snc_read_loop fuel g so r
  | InRecv so => let* r := _recv_resume so in snc_udp_loop written fuel g so r
  end.

(** *** perf *)

(** A turn of the loop of send_packet, with the array [buf]; the result says whether
    the loop goes on. *)
Definition perf_send_turn (g : app) (buf : list Z) : comp stack bool :=
  if ap_interrupt g then ret false
  else
    let len := ap_length g in
    let* so := of_opt NullDeref (ap_sock g) in
    let* n := _send so (take (Z.to_nat len) buf) (ap_addr g) in
    ret (n =? len).

Definition on_rx_packet (count : Z) : Z := u64 (count + 1).

(** recv_packet up to the loop that shows the statistics; [cb] stands for on_rx_packet
    and the counter. *)
Definition perf_recv_packet (cb : nat) (g : app) : comp stack bool :=
  let* so := of_opt NullDeref (ap_sock g) in
  let* e := _bind so (ap_addr g) in
  if e <? 0 then ret false
  else _sock_set_rx_callback so cb;; ret true.

(** perf up to its loop; the result is [None] for a bad command line, and says whether
    the loop is reached. *)
Definition perf_main (cb : nat) (c : cmdline) (g : app) : comp stack (option (app * bool)) := fun s =>
  match perf_parse_args c (perf_init_options g) with
  | Ret err g =>
      (if err <? 0 then ret None
       else
         let* '(g, err) := create_socket SOCK_DGRAM g in
         if err <? 0 then ret (Some (g, false))
         else if has_flag g F_BIND then let* b := perf_recv_packet cb g in ret (Some (g, b))
         else ret (Some (g, true))) s
  | Fault f => Fault f
  | NoFuel => NoFuel
  end.

End Apps.

(** ** Statistics *)

Record stat_reporter_t := mk_stat { last_pktcount : Z; last_tick_us : Z; print_count : Z }.

Definition stat_init : stat_reporter_t := mk_stat 0 0 0.

(** A line of the report: packets, time and rate, and whether the heading is printed. *)
Record report := mk_report { rp_head : bool; rp_packets : Z; rp_time : Z; rp_rate : Z }.

(** [now] is the result of timestamp_us. *)
Definition stat_show (now pktcount : Z) (flush : bool) : comp stat_reporter_t (option report) :=
  let* t := gets (fun t => t) in
  if last_tick_us t =? 0 then
    modify (fun t => mk_stat (last_pktcount t) now (print_count t));; ret None
  else if negb flush && (u64 (pktcount - last_pktcount t) <? 1000000) then ret None
  else
    let time_delta := u64 (now - last_tick_us t) in
    let pktcount_delta := u64 (pktcount - last_pktcount t) in
    guard Undefined (negb (time_delta =? 0));;
    let pktrate := u64 (pktcount_delta * 1000000) / time_delta in
    modify (fun t => mk_stat pktcount now (u32 (print_count t + 1)));;
    ret (Some (mk_report (print_count t mod 10 =? 0) pktcount_delta time_delta pktrate)).

(** ** What the options leave *)

(** The flags as bits. *)
Lemma flag_bit g n : 0 <= n -> has_flag g (2 ^ n) = Z.testbit (ap_flags g) n.
Proof.
  intros Hn. unfold has_flag. destruct (Z.testbit (ap_flags g) n) eqn:E.
  - destruct (Z.eqb_spec (Z.land (ap_flags g) (2 ^ n)) 0) as [E0|]; [|done].
    apply (f_equal (fun z => Z.testbit z n)) in E0. rewrite Z.land_spec, E, Z.pow2_bits_true, Z.bits_0 in E0 by done. done.
  - replace (Z.land (ap_flags g) (2 ^ n)) with 0; [done|]. symmetry. apply Z.bits_inj'. intros m Hm.
    rewrite Z.land_spec, Z.bits_0, Z.pow2_bits_eqb by done. destruct (Z.eqb_spec n m) as [->|]; [by rewrite E|by rewrite andb_false_r].
Qed.

Definition flag_nr (g : app) (n : Z) : bool := Z.testbit (ap_flags g) n.

Lemma app_model_ok rest g : app_model rest g = 0 -> rest = [] /\ flag_nr g 0 = negb (flag_nr g 1).
Proof.
  unfold app_model, flag_nr. change (Z.lor F_BIND F_CONNECT) with (Z.ones 2). rewrite Z.land_ones by lia.
  pose proof (Z.testbit_spec' (ap_flags g) 0 ltac:(lia)) as B0. pose proof (Z.testbit_spec' (ap_flags g) 1 ltac:(lia)) as B1.
  change (2 ^ 2) with 4. change (Z.ones 2) with 3. change (2 ^ 0) with 1 in B0. change (2 ^ 1) with 2 in B1.
  rewrite Z.div_1_r in B0.
  repeat case_if; intros Hm; try discriminate. split.
  - destruct rest; [done|]. rewrite zlen_cons in *. pose proof (zlen_nonneg rest). lia.
  - destruct (Z.testbit (ap_flags g) 0), (Z.testbit (ap_flags g) 1); cbn in *; try done; zmod.
Qed.

(** The relation between the variables before and after an option. *)
Record snc_keeps (g g' : app) : Prop := {
  sk_model : flag_nr g 2 = negb (flag_nr g 3) -> flag_nr g' 2 = negb (flag_nr g' 3);
  sk_rest : ap_sock g' = ap_sock g /\ ap_csock g' = ap_csock g /\ ap_type g' = ap_type g
}.

Record perf_keeps (g g' : app) : Prop := {
  pk_bind : flag_nr g 0 = true -> flag_nr g' 0 = true;
  pk_connect : flag_nr g 1 = true -> flag_nr g' 1 = true;
  pk_length : 0 <= ap_length g <= BUF_SIZE -> 0 <= ap_length g' <= BUF_SIZE
}.

#[export] Instance snc_keeps_preorder : PreOrder snc_keeps.
Proof.
  split; [by intros g; split|]. intros g1 g2 g3 [M1 (E1 & E2 & E3)] [M2 (F1 & F2 & F3)]. split; [auto|split_and!; congruence].
Qed.

#[export] Instance perf_keeps_preorder : PreOrder perf_keeps.
Proof. split; [by intros g; split|]. intros g1 g2 g3 [] []. split; auto. Qed.

(** The parsers of the library do not touch the variables. *)
Lemma keeps_sscanf (R : app -> app -> Prop) `{!PreOrder R} fmt str : keeps R (sscanf str fmt).
Proof. revert str. induction fmt as [|[|x] fmt IH]; intros str; cbn [sscanf]; keeps_auto. Qed.

Lemma keeps_atoi (R : app -> app -> Prop) `{!PreOrder R} str : keeps R (atoi str).
Proof. unfold atoi. keeps_auto. Qed.

Lemma keeps_parse_ip_port (R : app -> app -> Prop) `{!PreOrder R} str : keeps R (parse_ip_port str).
Proof.
  pose proof (keeps_atoi R). pose proof (keeps_sscanf R). unfold parse_ip_port, str2ip. keeps_auto.
Qed.

#[export] Hint Resolve keeps_atoi keeps_parse_ip_port : keeps.

(** Setting a flag: the other bits stay. *)
Ltac flag_bits :=
  unfold flag_nr; cbn [ap_flags set_ap_flags set_ap_addr set_ap_length];
  rewrite ?Z.lor_spec, ?Z.land_spec, ?Z.lnot_spec by lia;
  repeat match goal with |- context [Z.testbit (ap_flags ?g) ?n] => destruct (Z.testbit (ap_flags g) n) end; done.

Lemma snc_keeps_opt c optarg : keeps snc_keeps (snc_opt c optarg).
Proof. unfold snc_opt, opt_bind, opt_connect. keeps_auto; apply keeps_modify; intros g; split; try done; flag_bits. Qed.

Lemma perf_keeps_opt c optarg : keeps perf_keeps (perf_opt c optarg).
Proof.
  unfold perf_opt, opt_bind, opt_connect. keeps_auto; apply keeps_modify; intros g; split; try done; try flag_bits.
  intros _. cbn. match goal with |- context [u32 ?v] => pose proof (u32_range v) end. unfold is_u32, BUF_SIZE in *. case_if; lia.
Qed.

Lemma keeps_app_opts R `{!PreOrder R} opt opts : (forall c a, keeps R (opt c a)) -> keeps R (app_opts opt opts).
Proof. intros Ho. induction opts as [|[c a] opts IH]; cbn [app_opts]; keeps_auto. Qed.

Lemma snc_parse_ok c g g' : snc_parse_args c (snc_init_options g) = Ret 0 g' ->
  cl_rest c = [] /\ flag_nr g' 0 = negb (flag_nr g' 1) /\ flag_nr g' 2 = negb (flag_nr g' 3) /\
  ap_type g' = (if flag_nr g' 3 then SOCK_DGRAM else SOCK_STREAM).
Proof.
  intros (e & g1 & E1 & E)%bind_inv.
  apply (keeps_app_opts snc_keeps _ _ snc_keeps_opt) in E1 as [M (_ & _ & Hty)].
  case_if_in E; [injection E as E _; lia|].
  apply bind_inv in E as (e2 & g2 & [= <- <-] & E). case_if_in E; [injection E as E _; lia|].
  assert (Hm : app_model (cl_rest c) g1 = 0 \/ app_model (cl_rest c) g1 = -1) by (unfold app_model; repeat case_if; auto).
  destruct Hm as [Hm|Hm]; [|lia].
  apply app_model_ok in Hm as [Hr Hb]. specialize (M eq_refl). split; [done|].
  apply bind_inv in E as (u & g3 & [= <- <-] & E). assert (F3 : has_flag g1 F_UDP = flag_nr g1 3) by (apply (flag_bit g1 3); lia). rewrite F3 in E. clear F3.
  destruct (flag_nr g1 3) eqn:E3; injection E as <-; [|by rewrite E3].
  assert (B : forall n, flag_nr (set_ap_type g1 SOCK_DGRAM) n = flag_nr g1 n) by done. by rewrite !B, E3.
Qed.

Lemma perf_parse_ok c g e g' : perf_parse_args c (perf_init_options g) = Ret e g' ->
  perf_keeps (set_ap_length g 10) g' /\ (e = 0 -> cl_rest c = [] /\ flag_nr g' 0 = negb (flag_nr g' 1)).
Proof.
  intros (? & g1 & [= _ <-] & (e1 & g2 & E1 & E)%bind_inv)%bind_inv.
  apply (keeps_app_opts perf_keeps _ _ perf_keeps_opt) in E1.
  case_if_in E; injection E as <- <-; (split; [by destruct E1; split|]); [lia|apply app_model_ok].
Qed.

(** The command lines of snc and perf.  snc goes on with exactly one of the two
    models and one of the two protocols, and the socket type is that of the protocol.
    The packet length of perf never leaves its buffer.  perf does not clear its flags:
    once it ran in one model, it refuses every command line for the other one. *)
Lemma app_options (c : cmdline) (g : app) :
  (forall g', snc_parse_args c (snc_init_options g) = Ret 0 g' ->
     cl_rest c = [] /\ has_flag g' F_BIND = negb (has_flag g' F_CONNECT) /\ has_flag g' F_TCP = negb (has_flag g' F_UDP) /\
     ap_type g' = (if has_flag g' F_UDP then SOCK_DGRAM else SOCK_STREAM)) /\
  (forall e g', perf_parse_args c (perf_init_options g) = Ret e g' ->
     0 <= ap_length g' <= BUF_SIZE /\
     (e = 0 -> cl_rest c = [] /\ has_flag g' F_BIND = negb (has_flag g' F_CONNECT)) /\
     (e = 0 -> has_flag g F_BIND = true -> has_flag g' F_CONNECT = false) /\
     (e = 0 -> has_flag g F_CONNECT = true -> has_flag g' F_BIND = false)).
Proof.
  assert (F : forall g, has_flag g F_BIND = flag_nr g 0 /\ has_flag g F_CONNECT = flag_nr g 1 /\ has_flag g F_TCP = flag_nr g 2 /\ has_flag g F_UDP = flag_nr g 3).
  { intros g0. split_and!; [apply (flag_bit g0 0)|apply (flag_bit g0 1)|apply (flag_bit g0 2)|apply (flag_bit g0 3)]; lia. }
  destruct (F g) as (F0 & F1 & _ & _). rewrite F0, F1.
  split; [intros g' E|intros e g' E]; [destruct (F g') as (-> & -> & -> & ->); by apply snc_parse_ok in E|destruct (F g') as (-> & -> & _ & _)].
  apply perf_parse_ok in E as [[Kb Kc Kl] Hm]. unfold BUF_SIZE in *. split; [apply Kl; cbn; lia|]. split; [done|].
  split; intros [_ Hx]%Hm Hg; [apply Kb in Hg|apply Kc in Hg]; destruct (flag_nr g' 0), (flag_nr g' 1); cbn in *; congruence.
Qed.

(** perf -l 2000 -b 0.0.0.0:7 and then perf -c 0.0.0.0:7. *)
Definition perf_bind : cmdline := mk_cmdline 5 [(108, chars "2000"); (98, chars "0.0.0.0:7")] [].
Definition perf_connect : cmdline := mk_cmdline 3 [(99, chars "0.0.0.0:7")] [].
Definition app_static : app := mk_app 0 None None (mk_sock_addr 0 0 0 0) 0 BUF_SIZE false [].

Lemma app_options_witness : exists g1 g2,
  perf_parse_args perf_bind (perf_init_options app_static) = Ret 0 g1 /\ ap_length g1 <= BUF_SIZE /\
  perf_parse_args perf_connect (perf_init_options g1) = Ret (-1) g2.
Proof.
  eexists _, _. split; [reflexivity|]. split; [|reflexivity].
  eapply (proj2 (app_options perf_bind app_static) 0). reflexivity.
Defined.

(** Where stat_show is called twice within a microsecond, it divides by zero. *)
Lemma stat_show_divides_by_zero t pktcount : last_tick_us t <> 0 ->
  stat_show (last_tick_us t) pktcount true t = Fault Undefined.
Proof.
  intros Ht. unfold stat_show. rewrite bind_gets. rewrite (proj2 (Z.eqb_neq _ _) Ht). cbn [negb andb].
  by rewrite Z.sub_diag.
Qed.

(** Otherwise it reports the packets and the time since the report before. *)
Lemma stat_show_reports now pktcount t : last_tick_us t <> 0 -> last_tick_us t < now < 2 ^ 64 -> 0 <= last_tick_us t ->
  0 <= last_pktcount t <= pktcount -> (pktcount - last_pktcount t) * 1000000 < 2 ^ 64 ->
  stat_show now pktcount true t =
  Ret (Some (mk_report (print_count t mod 10 =? 0) (pktcount - last_pktcount t) (now - last_tick_us t)
               ((pktcount - last_pktcount t) * 1000000 / (now - last_tick_us t))))
    (mk_stat pktcount now (u32 (print_count t + 1))).
Proof.
  intros Ht Hn H0 Hp Hm. unfold stat_show. rewrite bind_gets. rewrite (proj2 (Z.eqb_neq _ _) Ht). cbn [negb andb].
  assert (U : forall v, 0 <= v < 2 ^ 64 -> u64 v = v) by (intros v Hv; unfold u64; by apply Z.mod_small).
  rewrite !(U (now - _)), !(U (pktcount - _)), (U ((_ - _) * _)) by lia.
  replace (now - last_tick_us t =? 0) with false by (symmetry; apply Z.eqb_neq; lia). done.
Qed.
