(* ===== verification/Faults.v ===== *)
(** * Runs that go wrong

    Sequences of frames and calls, from the start of the sample host on, that end
    in a fault or in a state the protocol does not allow.  Each one is a defect of
    the code: the frames are well formed and the calls are used as documented. *)

From stdpp Require Import prelude list gmap.
From Stdlib Require Import ZArith Lia.
From S2P Require Import Prelude Structs Checksum Route Pkb FastPipe ArpCache Wait Sock TcpTable Stack Arp IpOut Icmp IpFrag Raw TcpOut TcpText TcpState TcpSock Udp IpIn NetIn Sample Socket TcpMachine System.

(** ** Observations *)

(** The fault a run ends with. *)
Definition fault_of (es : list event) : option fault :=
  match run 3 es sample_stack with Fault f => Some f | _ => None end.

(** A value of the state at the end of a run. *)
Definition at_end {A} (n : nat) (es : list event) (f : stack -> A) : option A :=
  match run n es sample_stack with Ret _ s => Some (f s) | _ => None end.

Definition tsk_at (sk : skid) (s : stack) : option tcp_sock := tsks (tcp_st (st_sock s)) !! sk.

(** ** Frames *)

Definition rx (f : list Z) : event := EvFrame 1%nat (zlen f) f.

(** A segment of the peer to port 80 that acknowledges [12345680], the first number
    the host uses behind its SYN. *)
Definition seg (seq fin psh wnd : Z) (text : list Z) : event :=
  rx (tcp_frame 40000 80 seq 12345680 fin 0 0 psh 1 wnd text).

(** The peer opens a connection with the initial sequence number [isn]. *)
Definition open_from (isn wnd : Z) : list event :=
  [rx sample_arp_request; rx (tcp_frame 40000 80 isn 0 0 1 0 0 0 wnd []); seg (isn + 1) 0 0 wnd []].

(** The thread of the server returns from accept with the socket at address 2. *)
Definition accepted : event := EvAcceptResume 0%nat 2%nat 1%nat 0%nat.

Definition rarp_frame : list Z :=
  encode (mk_ether (replicate 6 0xff) peer_hw (_htons ETH_P_RARP)) ++ replicate 46 0.

Definition udp_frame (dport : Z) (text : list Z) : list Z :=
  let h := mk_ip 5 4 0 (_htons (28 + zlen text)) (_htons 7) 0 64 IP_P_UDP 0 peer_ip sample_ip in
  encode (mk_ether sample_hw peer_hw (_htons ETH_P_IP)) ++ ip_set_checksum_bytes (encode h) ++
  udp_set_checksum_bytes peer_ip sample_ip
    (encode (mk_udp (_htons 1000) (_htons dport) (_htons (8 + zlen text)) 0) ++ text).

(** ** Properties *)



